(* ===== verification/_CoqProject ===== *)
-Q . S2P
Prelude.v
PyStr.v
Base64.v
Json.v
JsonText.v
PyTime.v
Crypto.v
Instances.v
Ledger.v
Merkle.v
LedgerDemo.v
Sql.v
Verifier.v
Registry.v
Client.v
Poi.v
AgentBase.v
Executor.v
Tsa.v
Evidence.v
Portal.v
Completeness.v
Attribution.v
Regex.v
Router.v
EmailAgent.v
Diff.v
FileSystem.v
StateMonad.v
FileAgent.v
FileEffects.v
DatabaseAgent.v
DatabaseSafety.v
AuditAgent.v
Accounts.v
Service.v
PortalApp.v
AgentService.v
Cli.v
FullPipeline.v
ServiceSafety.v
Execution.v
CliSafety.v
EndToEnd.v
PipelineSafety.v
Scenarios.v
Demos.v
Walkthrough.v
