(* ===== verification/Prelude.v ===== *)
(** * Agent-of-Record: a verification library

    The program answers for what software agents do for a user.  A user signs a prompt; the
    service verifies the envelope; a router turns the prompt into action plans; before an agent
    acts, the prompts and the plan are appended to a hash-chained ledger and the agent signs a
    proof of intent over the Merkle root of that ledger and the hash of the payload; the
    evidence of the action is kept; and a portal verifies the whole of it afterwards in six
    links.  This library models the Python sources under src/, one file per part, and proves
    what each part promises and what their composition promises.

    ** How to read it

    A definition carries the name of the function or class it translates, and follows it
    statement by statement: guards in the order of the source, early returns, and every
    exception that is raised or caught.  What fails returns [result], a value or an exception
    ([Raise]); what changes state passes the state, in plain functions or in one of two monads
    ([SM] of [StateMonad.v] for a state and exceptions, [HM] of [Service.v] for HTTP handlers).
    Clock readings, random values and the answers of the outside world are arguments, one for
    each time the source asks, so the theorems hold for all of them.  Libraries that are not in
    the repository are type classes of operations with classes of laws; each has a small
    executable instance, so that the witnesses evaluate the theorems at concrete inputs.

    ** Foundations

    - This file: exceptions with their class hierarchy, [result], and common lemmas.
    - [PyStr], [Base64], [Json], [JsonText], [PyTime], [Regex], [Sql]: the parts of Python and
      its standard library that the sources call (strings and bytes, base64, dictionaries,
      json.dumps and json.loads, ISO 8601 and the calendar, re, SQLite's ORDER BY), with their
      round trips.
    - [Crypto]: crypto_core; the packages rfc8785 and cryptography and the digests of hashlib
      are the interfaces [Rfc8785], [Cryptography] and [Hashlib].  [Instances]: their instances.
    - [FileSystem], [StateMonad]: paths, symbolic links and files; the state monad and its logic.

    ** Components

    - [Ledger], [Merkle]: ledger_core.  [Registry]: key_registry.  [Poi]: poi_generator.
      [Executor]: action_executor.  [Tsa]: tsa_anchor.
    - [Verifier]: envelopes, nonces and their verification, from verifier_service.  [Client]:
      the signing side of aor/cli.py and e2e_tests/pipeline.py.
    - [Evidence], [Portal], [Completeness], [Attribution], [PortalApp]:
      verification_portal/backend.
    - [AgentBase], [Router], [EmailAgent], [FileAgent] with [Diff] and [FileEffects],
      [DatabaseAgent] with [DatabaseSafety], [AuditAgent]: aor/agents.
    - [Accounts]: verifier_service/database.py.  [Service] and [AgentService]: main.py and
      agent_runtime.py of verifier_service; [ServiceSafety], [Execution] and [EndToEnd]: their
      guarantees.
    - [Cli] with [CliSafety]: aor/cli.py.  [FullPipeline] with [PipelineSafety]:
      e2e_tests/pipeline.py.  [Scenarios]: e2e_tests/run_all_scenarios.py, over that pipeline.
    - [LedgerDemo]: demo.py.  [Demos]: the demo.py of verification_portal, action_executor,
      tsa_anchor, poi_generator, verifier_service and key_registry, over the components they
      show.  [Walkthrough]: scripts/demo.py, over the state of [Cli].

    ** Interfaces between components

    [PublicKeyLookup] is what the verifier needs of a key store; the in-memory store, the
    registry and the store of the service implement it.  [EvidencePersistence], with its laws,
    is what the evidence store needs of a database; the tables of [Accounts] discharge it.
    [DatabaseOps] is the database agent as the executor calls it; [DatabaseAgent] implements it.
    Ledgers that are shared are locations in a heap ([es_ledgers], [sv_ledgers], [hs_ledgers]),
    so that evidence sees what is appended later.

    ** What the theorems show

    - Commitment: the chain and the Merkle root determine the entries, inclusion proofs are
      complete and sound, a signature commits every field of a proof ([Ledger], [Merkle], [Poi]).
      These are stated relative to collisions among the byte strings that are hashed.
    - Envelopes and keys: which envelopes are accepted and why others are refused; no replay; a
      registered client's verdict; the key table's invariant; permanent revocation ([Verifier],
      [Client], [Registry]).
    - Action: nothing leaves the executor unless payload, type and policy match the proof, and
      every message carries that proof, and no request adds a header field to one; the file agent
      stays in its sandbox and has exactly the planned effect; unified diffs with consistent
      ranges are applied as the format says; the database agent sends only approved queries and checked statements; the
      router chooses by whole words ([Executor], [FileEffects], [Diff], [DatabaseSafety],
      [Router], [EmailAgent]).
    - Verification: a valid trace proves its claims, the claims suffice for a valid trace, two
      ledgers that verify have the same contents, auditing and the portal only read ([Portal],
      [Completeness], [AuditAgent], [PortalApp]).  The links a trace reports broken are exactly
      those whose claim fails, so that a revoked agent, a forged timestamp, a changed context
      and a changed message are each blamed on their own links ([Attribution]).  The claims are
      stated without the code of the links: which token an action is held to, for example, and
      when it is valid.
    - The service: an invariant over all requests, the schema of its database, agents run only
      for accepted envelopes, what they act on changes only by planned steps that need no
      confirmation however a request ends, every step is recorded ([Accounts],
      [ServiceSafety], [Execution]).
    - End to end: what the service records, its own GET request finds valid ([EndToEnd]); an
      accepted submission is executed and verified from the bytes of its message, and a stale
      one changes nothing ([PipelineSafety]); after any such submission every attack of the
      adversarial scenarios is detected with the links its table names, and any token planted in
      its record is judged by the portal's own check ([Scenarios]); what the exit code and the
      output of the command line say of what ran ([CliSafety]).
    - The demonstrations are evaluated: what each prints with the instances, and for the ledger
      a theorem over all times and hash functions ([LedgerDemo], [Demos], [Walkthrough]).
    - Places where the code does not do what it says are theorems too, next to the component:
      for example [Portal.upload_without_evidence_escapes], [Diff.out_of_range_hunks_accepted],
      [Poi.agent_key_conflict_ignored] and [CliSafety.cli_prints_private_key].

    ** Fuel and bounds

    [build_levels] takes the number of leaves as fuel and needs its logarithm
    ([Merkle.build_levels_terminates]).  [resolve] takes the number of entries of the file
    system, and every link that is being resolved is a different one
    ([FileSystem.resolve_no_fuel]).  [json_loads] takes the length of the text, of which every
    nested value consumes a character ([JsonText.json_loads_dumps]).  Nothing else takes fuel:
    the regular expressions of the sources repeat only character classes, and all other loops
    are structural.  Instants are bounded by the years 1 and 9999 ([PyTime.valid_us]), 256-bit
    scalars by their 32 bytes ([Client.to_bytes_32]); other integers are Python's, unbounded.

    ** Not modelled

    - Text is Latin-1: a code point above U+00FF, a JSON float, and other inputs that would need
      them raise [OutsideModel], which no handler catches.  The dash of the audit reports, which
      is such a character, is a parameter.
    - The packages: MIME parsing and printing, pydantic's JSON parser, difflib's rendering,
      SQLite, RFC 3161, AES, Ed25519, ECDSA, PBKDF2 are interfaces.  HTTP parsing, request
      validation before a handler, CORS, logging and argparse are not part of the model.
    - Failures of the device (permissions, space, name length), and files the database agent
      shares with the service's own database; concurrent requests, except another worker that
      writes an agent's key file first.  Equal modification times in the outbox are resolved by
      directory order.
    - The user interfaces and the launchers (run_backend.py, run_frontend.py), which start and
      stop processes, and the reading of settings from the environment; the text of the
      configuration file of tsa_anchor is an argument. *)

From Stdlib Require Export ZArith Lia Ascii String Init.Byte.
From stdpp Require Export base option strings numbers sorting gmap list.

(** ** Python exceptions *)

(** The exception classes the sources raise or catch.  [OutsideModel] is no Python class: it
    marks an input this development does not interpret (a JSON float, a code point above 255),
    and no [except] clause catches it. *)
Inductive exn_class :=
| Exception | TypeError | ValueError | LookupError | KeyError | IndexError | AttributeError
| AssertionError | RuntimeError | OSError | OverflowError | StopIteration
| BinasciiError | UnicodeError | JSONDecodeError | ValidationError
| InvalidSignature | InvalidTag | IntegrityError | SqliteError
| HTTPError | VerificationError | TSARequestError | MissingVerifiedSessionContext
| AgentRuntimeError | FileAgentError | AuditAgentError | DatabaseAgentError
| OutsideModel.

#[export] Instance exn_class_eq_dec : EqDecision exn_class.
Proof. solve_decision. Defined.

(** The direct base class of each, as the standard library, the packages and the sources
    declare it. *)
Definition exn_base (c : exn_class) : exn_class :=
  match c with
  | KeyError | IndexError => LookupError
  | BinasciiError | UnicodeError | JSONDecodeError | ValidationError
  | FileAgentError | AuditAgentError | DatabaseAgentError => ValueError
  | TSARequestError | MissingVerifiedSessionContext | AgentRuntimeError => RuntimeError
  | IntegrityError => SqliteError
  | _ => Exception
  end.

(** [issubclass c d]: no class above is more than two steps below [Exception]. *)
Definition exn_issubclass (c d : exn_class) : bool :=
  negb (bool_decide (c = OutsideModel)) && (bool_decide (c = d) || bool_decide (exn_base c = d) || bool_decide (exn_base (exn_base c) = d)).

(** An exception value: its class and [str(exc)]. *)
Record exn := Exn { exn_kind : exn_class; exn_msg : string }.

#[export] Instance exn_eq_dec : EqDecision exn.
Proof. solve_decision. Defined.

(** ** Results: a value or a raised exception *)

Inductive result (A : Type) :=
| Ok (a : A)
| Raise (e : exn).
Arguments Ok {A} a.
Arguments Raise {A} e.

#[export] Instance result_eq_dec `{EqDecision A} : EqDecision (result A).
Proof. solve_decision. Defined.

#[export] Instance result_ret : MRet result := fun A a => Ok a.

#[export] Instance result_bind : MBind result := fun A B f m =>
  match m with Ok a => f a | Raise e => Raise e end.

#[export] Instance result_fmap : FMap result := fun A B f m =>
  match m with Ok a => Ok (f a) | Raise e => Raise e end.

Definition raise {A} (c : exn_class) (msg : string) : result A := Raise (Exn c msg).

Definition catches (cs : list exn_class) (e : exn) : bool := existsb (exn_issubclass (exn_kind e)) cs.

(** [try: m except cs as exc: h exc]. *)
Definition try_except {A} (m : result A) (cs : list exn_class) (h : exn -> result A) : result A :=
  match m with
  | Ok a => Ok a
  | Raise e => if catches cs e then h e else Raise e
  end.

(** [if guard: raise c(msg)] before the rest of a body. *)
Definition raise_if (guard : bool) (c : exn_class) (msg : string) : result unit :=
  if guard then raise c msg else Ok tt.

Definition is_ok {A} (m : result A) : bool := match m with Ok _ => true | Raise _ => false end.

Definition exn_of {A} (m : result A) : option exn := match m with Ok _ => None | Raise e => Some e end.

Lemma exn_of_raise {A} (m : result A) e : exn_of m = Some e -> m = Raise e.
Proof. destruct m; cbn; congruence. Qed.

Definition of_option {A} (o : option A) (c : exn_class) (msg : string) : result A :=
  match o with Some a => Ok a | None => raise c msg end.

(** A list comprehension whose element may raise. *)
Fixpoint mapM_result {A B} (f : A -> result B) (l : list A) : result (list B) :=
  match l with
  | [] => Ok []
  | x :: l' => y ← f x; ys ← mapM_result f l'; Ok (y :: ys)
  end.

(** ** Bytes *)

Abbreviation byte := Init.Byte.byte.
Abbreviation bytes := (list byte).

#[export] Instance byte_eq_dec : EqDecision byte := Byte.byte_eq_dec.

(** ** Python conveniences *)

Definition truthy_str (s : string) : bool := match s with EmptyString => false | _ => true end.

(** [x or default] on an optional string. *)
Definition or_str (o : option string) (d : string) : string :=
  match o with Some s => if truthy_str s then s else d | None => d end.

(** Induction by pairs and by groups of three elements. *)
Lemma list_ind2 {A} (P : list A -> Prop) :
  P [] -> (forall a, P [a]) -> (forall a b l, P l -> P (a :: b :: l)) -> forall l, P l.
Proof. intros H0 H1 H2. fix IH 1. intros [|a [|b l]]; [done|apply H1|apply H2, IH]. Qed.

Lemma list_ind3 {A} (P : list A -> Prop) :
  P [] -> (forall a, P [a]) -> (forall a b, P [a; b]) ->
  (forall a b c l, P l -> P (a :: b :: c :: l)) -> forall l, P l.
Proof.
  intros H0 H1 H2 H3. fix IH 1. intros [|a [|b [|c l]]]; [done|apply H1|apply H2|apply H3, IH].
Qed.

(** Halving with rounding up takes one off the rounded-up logarithm. *)
Lemma log2_up_half n : (1 < n)%nat -> Nat.log2_up n = S (Nat.log2_up ((n + 1) / 2)).
Proof.
  intros Hn. set (m := ((n + 1) / 2)%nat).
  assert (2 * m = n \/ 2 * m = n + 1)%nat as Hm.
  { pose proof (Nat.div_mod (n + 1) 2). pose proof (Nat.mod_upper_bound (n + 1) 2). lia. }
  destruct (Nat.eq_dec m 1) as [E|E].
  { rewrite E. assert (n = 2)%nat as -> by lia. done. }
  destruct (Nat.log2_up_spec m) as [H1 H2]; [lia|].
  pose proof (Nat.log2_up_pos m ltac:(lia)) as Hpos.
  apply Nat.log2_up_unique; [lia|]. destruct (Nat.log2_up m) as [|k]; [lia|]. cbn [Nat.pred] in *.
  rewrite !Nat.pow_succ_r' in *. lia.
Qed.

(** ** Automation *)

Create HintDb aor discriminated.

(** [lia] with division and modulo by constants. *)
Ltac dlia := Z.to_euclidean_division_equations; lia.

(** Split the hypotheses that state how a result was produced. *)
Ltac inv_result :=
  repeat match goal with
  | H : Ok _ = Ok _ |- _ => injection H as H
  | H : Raise _ = Raise _ |- _ => injection H as H
  | H : Ok _ = Raise _ |- _ => discriminate H
  | H : Raise _ = Ok _ |- _ => discriminate H
  | H : mbind _ ?m = _ |- _ => destruct m eqn:?; cbn in H
  | H : raise _ _ = Ok _ |- _ => discriminate H
  | H : raise_if ?b _ _ = _ |- _ => destruct b eqn:?; cbn in H
  end; subst.
