(* ===== verification/PyStr.v ===== *)
(** * The string and bytes methods the sources call

    A Python [str] is a [string] whose characters are the code points 0..255 (Latin-1); a
    [bytes] object is a list of [byte].  [strip], [lower], [split] and the UTF-8 encoder are
    exact on that range; [bytes.hex] and [bytes.fromhex] are exact everywhere. *)

From S2P Require Import Prelude.

#[local] Open Scope Z_scope.

(** ** Bytes and integers *)

Definition byte_to_Z (b : byte) : Z := Z.of_N (Byte.to_N b).

Definition byte_of_Z (z : Z) : byte :=
  match Byte.of_N (Z.to_N (z mod 256)) with Some b => b | None => x00 end.

(** [int.from_bytes(bs, "big")]. *)
Definition int_from_bytes_big (bs : bytes) : Z :=
  fold_left (fun acc b => acc * 256 + byte_to_Z b) bs 0.

(** [z.to_bytes(n, "big")] for [0 <= z < 256^n]. *)
Fixpoint int_to_bytes_big (n : nat) (z : Z) : bytes :=
  match n with
  | O => []
  | S n' => int_to_bytes_big n' (z / 256) ++ [byte_of_Z z]
  end.

(** ** Characters *)

Definition ord (c : ascii) : Z := Z.of_N (N_of_ascii c).
Definition chr (z : Z) : ascii := ascii_of_N (Z.to_N z).

(** [str.isspace] for one code point below 256. *)
Definition is_space (c : ascii) : bool :=
  let n := ord c in
  ((9 <=? n) && (n <=? 13)) || ((28 <=? n) && (n <=? 32)) || (n =? 133) || (n =? 160).

(** The whitespace [bytes.fromhex] skips. *)
Definition is_ascii_space (c : ascii) : bool :=
  let n := ord c in ((9 <=? n) && (n <=? 13)) || (n =? 32).

Definition lower_char (c : ascii) : ascii :=
  let n := ord c in
  if ((65 <=? n) && (n <=? 90)) || ((192 <=? n) && (n <=? 222) && negb (n =? 215))
  then chr (n + 32) else c.

Definition is_digit (c : ascii) : bool := let n := ord c in (48 <=? n) && (n <=? 57).
Definition is_alpha_ascii (c : ascii) : bool :=
  let n := ord c in ((65 <=? n) && (n <=? 90)) || ((97 <=? n) && (n <=? 122)).

(** ** String methods *)

Fixpoint str_map (f : ascii -> ascii) (s : string) : string :=
  match s with EmptyString => EmptyString | String c s' => String (f c) (str_map f s') end.

Definition str_lower : string -> string := str_map lower_char.

Fixpoint str_filter (p : ascii -> bool) (s : string) : string :=
  match s with
  | EmptyString => EmptyString
  | String c s' => if p c then String c (str_filter p s') else str_filter p s'
  end.

Fixpoint str_forallb (p : ascii -> bool) (s : string) : bool :=
  match s with EmptyString => true | String c s' => p c && str_forallb p s' end.

Fixpoint str_lstrip (s : string) : string :=
  match s with
  | EmptyString => EmptyString
  | String c s' => if is_space c then str_lstrip s' else s
  end.

Fixpoint str_rstrip (s : string) : string :=
  match s with
  | EmptyString => EmptyString
  | String c s' =>
      match str_rstrip s' with
      | EmptyString => if is_space c then EmptyString else String c EmptyString
      | r => String c r
      end
  end.

Definition str_strip (s : string) : string := str_rstrip (str_lstrip s).

(** ["".join(s.split())]: every whitespace character removed. *)
Definition str_join_split (s : string) : string := str_filter (fun c => negb (is_space c)) s.

Definition str_startswith (p s : string) : bool := String.prefix p s.

Definition str_endswith (p s : string) : bool :=
  (String.length p <=? String.length s)%nat
  && bool_decide (String.substring (String.length s - String.length p) (String.length p) s = p).

(** [s.replace(old, new)] for a non-empty [old]: [skip] counts the characters of a match
    still to be dropped. *)
Fixpoint replace_skip (old new : string) (skip : nat) (s : string) : string :=
  match s with
  | EmptyString => EmptyString
  | String c s' =>
      match skip with
      | S k => replace_skip old new k s'
      | O => if String.prefix old s
             then String.append new (replace_skip old new (String.length old - 1) s')
             else String c (replace_skip old new 0 s')
      end
  end.

Definition str_replace (old new s : string) : string := replace_skip old new 0 s.

(** [sub in s]. *)
Fixpoint str_contains (sub s : string) : bool :=
  String.prefix sub s || match s with EmptyString => false | String _ s' => str_contains sub s' end.

(** [sep.join(parts)]. *)
Definition str_join (sep : string) (parts : list string) : string := String.concat sep parts.

(** The line boundaries of [str.splitlines] below 256. *)
Definition is_linebreak (c : ascii) : bool :=
  let n := ord c in (10 <=? n) && (n <=? 13) || (28 <=? n) && (n <=? 30) || (n =? 133).

Definition starts_lf (s : string) : bool :=
  match s with String c _ => ord c =? 10 | EmptyString => false end.

(** [s.splitlines(keepends=True)]; a carriage return and a line feed end one line. *)
Fixpoint splitlines_keep (s : string) : list string :=
  match s with
  | EmptyString => []
  | String c s' =>
      if is_linebreak c && negb ((ord c =? 13) && starts_lf s')
      then String c EmptyString :: splitlines_keep s'
      else match splitlines_keep s' with
           | [] => [String c EmptyString]
           | l :: ls => String c l :: ls
           end
  end.

(** [s.encode("utf-8")]. *)
Fixpoint utf8_encode (s : string) : bytes :=
  match s with
  | EmptyString => []
  | String c s' =>
      let n := ord c in
      (if n <? 128 then [byte_of_Z n] else [byte_of_Z (192 + n / 64); byte_of_Z (128 + n mod 64)])
      ++ utf8_encode s'
  end.

(** [bs.decode("utf-8")]; characters above 255 are outside the model. *)
Fixpoint utf8_decode (bs : bytes) : result string :=
  match bs with
  | [] => Ok EmptyString
  | b :: bs' =>
      let n := byte_to_Z b in
      if n <? 128 then s ← utf8_decode bs'; Ok (String (chr n) s)
      else if (196 <=? n) && (n <? 245) then raise OutsideModel "code point above 255"
      else if n <? 194 then raise UnicodeError "'utf-8' codec can't decode byte"
      else
        match bs' with
        | c :: bs'' =>
            let m := byte_to_Z c in
            if (128 <=? m) && (m <? 192) && (n <? 196)
            then s ← utf8_decode bs''; Ok (String (chr ((n - 192) * 64 + (m - 128))) s)
            else raise UnicodeError "'utf-8' codec can't decode byte"
        | [] => raise UnicodeError "'utf-8' codec can't decode byte"
        end
  end.

(** ** Hexadecimal *)

Definition hex_digit (n : Z) : ascii := if n <? 10 then chr (48 + n) else chr (87 + n).

Definition hex_value (c : ascii) : option Z :=
  let n := ord c in
  if (48 <=? n) && (n <=? 57) then Some (n - 48)
  else if (97 <=? n) && (n <=? 102) then Some (n - 87)
  else if (65 <=? n) && (n <=? 70) then Some (n - 55)
  else None.

(** [bs.hex()]. *)
Fixpoint hex (bs : bytes) : string :=
  match bs with
  | [] => EmptyString
  | b :: bs' =>
      String (hex_digit (byte_to_Z b / 16)) (String (hex_digit (byte_to_Z b mod 16)) (hex bs'))
  end.

Definition fromhex_error {A} : result A :=
  raise ValueError "non-hexadecimal number found in fromhex() arg".

(** [bytes.fromhex(s)]: ASCII whitespace is skipped between bytes. *)
Fixpoint fromhex (s : string) : result bytes :=
  match s with
  | EmptyString => Ok []
  | String c s1 =>
      if is_ascii_space c then fromhex s1
      else match hex_value c, s1 with
           | Some h, String d s2 =>
               match hex_value d with
               | Some l => bs ← fromhex s2; Ok (byte_of_Z (16 * h + l) :: bs)
               | None => fromhex_error
               end
           | _, _ => fromhex_error
           end
  end.

(** ** Representations *)

(** [str.isprintable] of one code point below 256. *)
Definition is_printable (c : ascii) : bool :=
  let n := ord c in (32 <=? n) && (n <=? 126) || (161 <=? n) && negb (n =? 173).

Definition str_has (c : ascii) : string -> bool :=
  fix go s := match s with EmptyString => false | String x s' => (ord x =? ord c) || go s' end.

(** One character of [repr(s)] between quotes [q]. *)
Definition repr_char (q c : ascii) : string :=
  let n := ord c in
  let bs (x : string) := String (chr 92) x in
  if (n =? 92) || (n =? ord q) then bs (String c EmptyString)
  else if n =? 9 then bs "t" else if n =? 10 then bs "n" else if n =? 13 then bs "r"
  else if is_printable c then String c EmptyString
  else bs (String "x"%char (String (hex_digit (n / 16)) (String (hex_digit (n mod 16)) EmptyString))).

(** [repr(s)]: single quotes, unless the text has some and no double ones. *)
Definition str_repr (s : string) : string :=
  let q := if str_has (chr 39) s && negb (str_has (chr 34) s) then chr 34 else chr 39 in
  let body := (fix go s := match s with EmptyString => EmptyString
                                     | String c s' => String.append (repr_char q c) (go s') end) s in
  String q (String.append body (String q EmptyString)).

(** ** Lemmas *)

Lemma byte_to_Z_range b : 0 <= byte_to_Z b < 256.
Proof. unfold byte_to_Z. pose proof (Byte.to_N_bounded b). lia. Qed.

Lemma byte_of_to_Z b : byte_of_Z (byte_to_Z b) = b.
Proof.
  unfold byte_of_Z. rewrite Z.mod_small by apply byte_to_Z_range.
  unfold byte_to_Z. rewrite N2Z.id, Byte.of_to_N. done.
Qed.

Lemma byte_to_of_Z z : 0 <= z < 256 -> byte_to_Z (byte_of_Z z) = z.
Proof.
  intros Hz. unfold byte_of_Z. rewrite Z.mod_small by lia.
  destruct (Byte.of_N (Z.to_N z)) as [b|] eqn:E.
  - unfold byte_to_Z. apply Byte.to_of_N in E. rewrite E. lia.
  - apply Byte.of_N_None_iff in E. lia.
Qed.

#[export] Instance byte_to_Z_inj : Inj (=) (=) byte_to_Z.
Proof. intros a b H. rewrite <- (byte_of_to_Z a), H. apply byte_of_to_Z. Qed.

Lemma ord_range c : 0 <= ord c < 256.
Proof. unfold ord. pose proof (N_ascii_bounded c). lia. Qed.

Lemma chr_ord c : chr (ord c) = c.
Proof. unfold chr, ord. rewrite N2Z.id. apply ascii_N_embedding. Qed.

Lemma ord_chr z : 0 <= z < 256 -> ord (chr z) = z.
Proof. intros ?. unfold chr, ord. rewrite N_ascii_embedding by lia. lia. Qed.

(** Decide a property of a small integer by its values. *)
Lemma Z_small_ind (P : Z -> Prop) (n : nat) :
  Forall P (Z.of_nat <$> seq 0 n) -> forall z, 0 <= z < Z.of_nat n -> P z.
Proof.
  intros HP z Hz. rewrite Forall_forall in HP. apply HP.
  apply list_elem_of_fmap. exists (Z.to_nat z). rewrite elem_of_seq. lia.
Qed.

Ltac small_cases z n :=
  pattern z; apply (Z_small_ind _ n); [|lia];
  let l := eval vm_compute in (Z.of_nat <$> seq 0 n) in change (Z.of_nat <$> seq 0 n) with l;
  repeat apply Forall_cons_2; try apply Forall_nil_2; try reflexivity.

Lemma is_digit_chr n : 0 <= n < 10 -> is_digit (chr (48 + n)) = true /\ ord (chr (48 + n)) - 48 = n.
Proof. intros Hn. small_cases n 10%nat; done. Qed.

Lemma hex_value_digit z : 0 <= z < 16 -> hex_value (hex_digit z) = Some z.
Proof. intros Hz. small_cases z 16%nat. Qed.

Lemma hex_digit_not_space z : 0 <= z < 16 -> is_ascii_space (hex_digit z) = false.
Proof. intros Hz. small_cases z 16%nat. Qed.

Lemma hex_length bs : String.length (hex bs) = (2 * List.length bs)%nat.
Proof. induction bs as [|b bs IH]; cbn [hex String.length List.length]; lia. Qed.

Lemma fromhex_hex bs : fromhex (hex bs) = Ok bs.
Proof.
  induction bs as [|b bs IH]; [done|]. cbn [hex fromhex].
  pose proof (byte_to_Z_range b) as Hb.
  assert (0 <= byte_to_Z b / 16 < 16) as Hh by dlia.
  assert (0 <= byte_to_Z b mod 16 < 16) as Hl by dlia.
  rewrite hex_digit_not_space, !hex_value_digit by done.
  rewrite IH. cbn. rewrite <- Z.div_mod by lia. by rewrite byte_of_to_Z.
Qed.

#[export] Instance hex_inj : Inj (=) (=) hex.
Proof.
  intros a b H. assert (Ok a = Ok b) as E by (rewrite <- (fromhex_hex a), <- (fromhex_hex b); by f_equal).
  by injection E.
Qed.

Lemma length_int_to_bytes_big n z : List.length (int_to_bytes_big n z) = n.
Proof. revert z. induction n as [|n IH]; intros z; cbn [int_to_bytes_big]; [done|]. rewrite length_app, IH. cbn [List.length]. lia. Qed.

Lemma int_from_to_bytes_big n z :
  0 <= z < 256 ^ Z.of_nat n -> int_from_bytes_big (int_to_bytes_big n z) = z.
Proof.
  unfold int_from_bytes_big. revert z. induction n as [|n IH]; intros z Hz; cbn [int_to_bytes_big].
  - cbn in *. lia.
  - rewrite Nat2Z.inj_succ, Z.pow_succ_r in Hz by lia.
    rewrite fold_left_app, IH.
    + cbn [fold_left]. unfold byte_of_Z. rewrite <- (Z.mod_mod z 256) by lia.
      fold (byte_of_Z (z mod 256)). rewrite byte_to_of_Z by dlia. dlia.
    + dlia.
Qed.

Lemma str_append_cons c (s t : string) : (String c s +:+ t = String c (s +:+ t))%string.
Proof. done. Qed.

Lemma str_append_nil_l (s : string) : ("" +:+ s = s)%string.
Proof. done. Qed.

#[export] Hint Rewrite str_append_cons str_append_nil_l : aor.

Lemma str_append_nil_r s : (s +:+ "")%string = s.
Proof. induction s as [|c s IH]; [done|]. by rewrite str_append_cons, IH. Qed.

Lemma str_append_assoc (a b c : string) : ((a +:+ b) +:+ c = a +:+ (b +:+ c))%string.
Proof. induction a as [|x a IH]; [done|]. by rewrite !str_append_cons, IH. Qed.

Lemma str_forallb_app p (a b : string) : str_forallb p (a +:+ b)%string = str_forallb p a && str_forallb p b.
Proof.
  induction a as [|x a IH]; [done|]. rewrite str_append_cons. cbn [str_forallb].
  by rewrite IH, andb_assoc.
Qed.

Lemma str_filter_id p s : str_forallb p s = true -> str_filter p s = s.
Proof.
  induction s as [|c s IH]; cbn [str_forallb str_filter]; [done|].
  intros [-> H]%andb_prop. by rewrite IH.
Qed.

Lemma str_length_app (a b : string) : String.length (a +:+ b)%string = (String.length a + String.length b)%nat.
Proof. induction a as [|x a IH]; [done|]. rewrite str_append_cons. cbn. by rewrite IH. Qed.

(** UTF-8 determines the text: the first byte says which form a character has. *)
#[export] Instance utf8_encode_inj : Inj (=) (=) utf8_encode.
Proof.
  intros s. induction s as [|c s IH]; intros [|d t]; cbn [utf8_encode].
  - done.
  - by destruct (ord d <? 128).
  - by destruct (ord c <? 128).
  - pose proof (ord_range c) as Hc. pose proof (ord_range d) as Hd.
    intros E. enough (ord c = ord d /\ utf8_encode s = utf8_encode t) as [Ho Hs].
    { rewrite (IH t Hs). f_equal. by rewrite <- (chr_ord c), Ho, chr_ord. }
    destruct (Z.ltb_spec (ord c) 128), (Z.ltb_spec (ord d) 128); cbn [app] in E;
      injection E as E1 E2; try (injection E2 as E2 E3);
      apply (f_equal byte_to_Z) in E1; rewrite !byte_to_of_Z in E1 by dlia; try dlia.
    + done.
    + apply (f_equal byte_to_Z) in E2. rewrite !byte_to_of_Z in E2 by dlia. split; [dlia|done].
Qed.

Lemma utf8_decode_encode s : utf8_decode (utf8_encode s) = Ok s.
Proof.
  induction s as [|c s IH]; [done|]. cbn [utf8_encode]. pose proof (ord_range c) as Hc.
  destruct (Z.ltb_spec (ord c) 128) as [Hlt|Hge]; cbn [app utf8_decode].
  - rewrite byte_to_of_Z by lia. rewrite (proj2 (Z.ltb_lt _ _) Hlt), IH. cbn [mbind result_bind]. by rewrite chr_ord.
  - rewrite !byte_to_of_Z by dlia.
    assert (192 + ord c / 64 = 194 \/ 192 + ord c / 64 = 195) as Hn by dlia.
    assert ((128 <=? 128 + ord c mod 64) && (128 + ord c mod 64 <? 192) = true) as -> by dlia.
    replace ((192 + ord c / 64 - 192) * 64 + (128 + ord c mod 64 - 128)) with (ord c) by dlia.
    rewrite IH, chr_ord. destruct Hn as [-> | ->]; done.
Qed.

Lemma concat_cons_nosep (x : string) l : String.concat "" (x :: l) = (x +:+ String.concat "" l)%string.
Proof. destruct l as [|y l]; cbn; [by rewrite str_append_nil_r|done]. Qed.

(** The lines, joined, are the text. *)
Lemma splitlines_keep_concat s : String.concat "" (splitlines_keep s) = s.
Proof.
  induction s as [|c s IH]; [done|]. cbn [splitlines_keep].
  destruct (_ && negb _).
  - rewrite concat_cons_nosep, IH. by rewrite str_append_cons, str_append_nil_l.
  - destruct (splitlines_keep s) as [|l ls]; [by rewrite <- IH|].
    rewrite concat_cons_nosep in IH |- *. by rewrite str_append_cons, IH.
Qed.
