(* ===== verification/Base64.v ===== *)
(** * The base64 module as the sources call it

    [b64encode], [b64decode] (with and without [validate]), and the URL-safe variants, with
    the decoder written as the state machine of [binascii.a2b_base64] (CPython 3.11): the
    position in the current quad, the bits left over, the pads seen, and whether padding has
    started.  The round trips the components rely on are proved at the end. *)

From S2P Require Import Prelude PyStr.

#[local] Open Scope Z_scope.

(** ** Encoding *)

(** The standard alphabet. *)
Definition b64_char (n : Z) : ascii :=
  if n <? 26 then chr (65 + n)
  else if n <? 52 then chr (71 + n)
  else if n <? 62 then chr (n - 4)
  else if n =? 62 then "+"%char else "/"%char.

Definition b64_pad : ascii := "="%char.

(** [b64encode(bs).decode("ascii")]. *)
Fixpoint b64encode (bs : bytes) : string :=
  match bs with
  | [] => EmptyString
  | [a] =>
      let a := byte_to_Z a in
      String (b64_char (a / 4)) (String (b64_char (a mod 4 * 16)) (String b64_pad (String b64_pad EmptyString)))
  | [a; b] =>
      let a := byte_to_Z a in let b := byte_to_Z b in
      String (b64_char (a / 4)) (String (b64_char (a mod 4 * 16 + b / 16))
        (String (b64_char (b mod 16 * 4)) (String b64_pad EmptyString)))
  | a :: b :: c :: rest =>
      let a := byte_to_Z a in let b := byte_to_Z b in let c := byte_to_Z c in
      String (b64_char (a / 4)) (String (b64_char (a mod 4 * 16 + b / 16))
        (String (b64_char (b mod 16 * 4 + c / 64)) (String (b64_char (c mod 64)) (b64encode rest))))
  end.

Definition urlsafe_encode_char (c : ascii) : ascii :=
  if decide (c = "+"%char) then "-"%char else if decide (c = "/"%char) then "_"%char else c.

Definition urlsafe_b64encode (bs : bytes) : string := str_map urlsafe_encode_char (b64encode bs).

(** ** Decoding *)

(** [table_a2b_base64]. *)
Definition b64_value (c : ascii) : option Z :=
  let n := ord c in
  if (65 <=? n) && (n <=? 90) then Some (n - 65)
  else if (97 <=? n) && (n <=? 122) then Some (n - 71)
  else if (48 <=? n) && (n <=? 57) then Some (n + 4)
  else if n =? 43 then Some 62
  else if n =? 47 then Some 63
  else None.

Definition a2b_finish (quad_pos : nat) : result bytes :=
  match quad_pos with
  | 0%nat => Ok []
  | 1%nat => raise BinasciiError
      "Invalid base64-encoded string: number of data characters cannot be 1 more than a multiple of 4"
  | _ => raise BinasciiError "Incorrect padding"
  end.

(** One run of the decoder from a given position. *)
Fixpoint a2b_base64 (strict : bool) (quad_pos : nat) (leftchar : Z) (pads : nat) (padding_started : bool)
    (s : string) : result bytes :=
  match s with
  | EmptyString => a2b_finish quad_pos
  | String c s' =>
      if decide (c = b64_pad) then
        if (2 <=? quad_pos)%nat && (4 <=? quad_pos + S pads)%nat then
          (if strict && truthy_str s' then raise BinasciiError "Excess data after padding" else Ok [])
        else a2b_base64 strict quad_pos leftchar
               (if (2 <=? quad_pos)%nat then S pads else pads) true s'
      else match b64_value c with
           | None =>
               if strict then raise BinasciiError "Only base64 data is allowed"
               else a2b_base64 strict quad_pos leftchar pads padding_started s'
           | Some v =>
               if strict && padding_started then raise BinasciiError "Discontinuous padding not allowed"
               else match quad_pos with
                    | 0%nat => a2b_base64 strict 1 v 0 padding_started s'
                    | 1%nat =>
                        bs ← a2b_base64 strict 2 (v mod 16) 0 padding_started s';
                        Ok (byte_of_Z (leftchar * 4 + v / 16) :: bs)
                    | 2%nat =>
                        bs ← a2b_base64 strict 3 (v mod 4) 0 padding_started s';
                        Ok (byte_of_Z (leftchar * 16 + v / 4) :: bs)
                    | _ =>
                        bs ← a2b_base64 strict 0 0 0 padding_started s';
                        Ok (byte_of_Z (leftchar * 64 + v) :: bs)
                    end
           end
  end.

(** [base64.b64decode(s, validate=validate)] on a [str]. *)
Definition b64decode (validate : bool) (s : string) : result bytes :=
  if str_forallb (fun c => ord c <? 128) s then
    match s with
    | String c _ =>
        if validate && bool_decide (c = b64_pad)
        then raise BinasciiError "Leading padding not allowed"
        else a2b_base64 validate 0 0 0 false s
    | EmptyString => Ok []
    end
  else raise ValueError "string argument should contain only ASCII characters".

Definition urlsafe_decode_char (c : ascii) : ascii :=
  if decide (c = "-"%char) then "+"%char else if decide (c = "_"%char) then "/"%char else c.

(** [base64.urlsafe_b64decode(s)]: no validation. *)
Definition urlsafe_b64decode (s : string) : result bytes :=
  b64decode false (str_map urlsafe_decode_char s).

(** ** Lemmas *)

Lemma b64_value_char n : 0 <= n < 64 -> b64_value (b64_char n) = Some n.
Proof. intros Hn. small_cases n 64%nat. Qed.

Lemma b64_char_not_pad n : 0 <= n < 64 -> b64_char n ≠ b64_pad.
Proof. intros Hn. small_cases n 64%nat; vm_compute; discriminate. Qed.

Lemma b64_char_ascii n : 0 <= n < 64 -> (ord (b64_char n) <? 128) = true.
Proof. intros Hn. small_cases n 64%nat. Qed.

Lemma b64_char_urlsafe n :
  0 <= n < 64 -> urlsafe_decode_char (urlsafe_encode_char (b64_char n)) = b64_char n.
Proof. intros Hn. small_cases n 64%nat. Qed.

Lemma b64_char_not_space n : 0 <= n < 64 -> is_space (urlsafe_encode_char (b64_char n)) = false.
Proof. intros Hn. small_cases n 64%nat. Qed.

(** The sextets of an encoding are in range. *)
Ltac sextet :=
  repeat match goal with b : byte |- _ =>
    lazymatch goal with
    | H : 0 <= byte_to_Z b < 256 |- _ => fail
    | _ => pose proof (byte_to_Z_range b)
    end end;
  dlia.

Lemma a2b_char strict q left pads n s :
  0 <= n < 64 ->
  a2b_base64 strict q left pads false (String (b64_char n) s) =
  match q with
  | 0%nat => a2b_base64 strict 1 n 0 false s
  | 1%nat => bs ← a2b_base64 strict 2 (n mod 16) 0 false s; Ok (byte_of_Z (left * 4 + n / 16) :: bs)
  | 2%nat => bs ← a2b_base64 strict 3 (n mod 4) 0 false s; Ok (byte_of_Z (left * 16 + n / 4) :: bs)
  | _ => bs ← a2b_base64 strict 0 0 0 false s; Ok (byte_of_Z (left * 64 + n) :: bs)
  end.
Proof.
  intros Hn. cbn [a2b_base64]. rewrite decide_False by by apply b64_char_not_pad.
  rewrite b64_value_char by done. by rewrite andb_false_r.
Qed.

Lemma byte_of_Z_eq z b : z = byte_to_Z b -> byte_of_Z z = b.
Proof. intros ->. apply byte_of_to_Z. Qed.

Lemma a2b_pad2 strict left :
  a2b_base64 strict 2 left 0 false (String b64_pad (String b64_pad EmptyString)) = Ok [].
Proof. by destruct strict. Qed.

Lemma a2b_pad3 strict left : a2b_base64 strict 3 left 0 false (String b64_pad EmptyString) = Ok [].
Proof. by destruct strict. Qed.

Lemma a2b_b64encode strict bs : a2b_base64 strict 0 0 0 false (b64encode bs) = Ok bs.
Proof.
  induction bs as [|a|a b|a b c l IH] using list_ind3; cbn [b64encode]; [done|..];
    rewrite !a2b_char by sextet; rewrite ?a2b_pad2, ?a2b_pad3, ?IH; cbn [mbind result_bind];
    repeat f_equal; apply byte_of_Z_eq; sextet.
Qed.

Lemma b64encode_forallb (p : ascii -> bool) bs :
  p b64_pad = true -> (forall n, 0 <= n < 64 -> p (b64_char n) = true) ->
  str_forallb p (b64encode bs) = true.
Proof.
  intros Hpad Hp.
  induction bs as [|a|a b|a b c l IH] using list_ind3; cbn [b64encode str_forallb]; [done|..];
    rewrite ?Hpad, ?Hp by sextet; done.
Qed.

Lemma str_map_compose f g s : str_map f (str_map g s) = str_map (fun c => f (g c)) s.
Proof. induction s as [|c s IH]; cbn; [done|]. by rewrite IH. Qed.

Lemma str_forallb_map p f s : str_forallb p (str_map f s) = str_forallb (fun c => p (f c)) s.
Proof. induction s as [|c s IH]; cbn; [done|]. by rewrite IH. Qed.

Lemma b64encode_map_id f bs :
  f b64_pad = b64_pad -> (forall n, 0 <= n < 64 -> f (b64_char n) = b64_char n) ->
  str_map f (b64encode bs) = b64encode bs.
Proof.
  intros Hpad Hp.
  induction bs as [|a|a b|a b c l IH] using list_ind3; cbn [b64encode str_map]; [done|..];
    rewrite ?Hpad, !Hp by sextet; [done..|]. by rewrite IH.
Qed.

Lemma b64encode_first_not_pad bs c s : b64encode bs = String c s -> c ≠ b64_pad.
Proof.
  destruct bs as [|x [|y [|z l]]]; cbn [b64encode]; intros E; [done|..]; injection E as <- _;
    apply b64_char_not_pad; sextet.
Qed.

(** Decoding an encoding gives the bytes back, in either mode. *)
Lemma b64decode_encode validate bs : b64decode validate (b64encode bs) = Ok bs.
Proof.
  unfold b64decode. rewrite b64encode_forallb; [|done|exact b64_char_ascii].
  destruct (b64encode bs) as [|c s] eqn:E; rewrite <- ?E.
  - by destruct bs as [|? [|? [|? ?]]].
  - rewrite bool_decide_false by by eapply b64encode_first_not_pad.
    rewrite andb_false_r. apply a2b_b64encode.
Qed.

Lemma urlsafe_b64decode_encode bs : urlsafe_b64decode (urlsafe_b64encode bs) = Ok bs.
Proof.
  unfold urlsafe_b64decode, urlsafe_b64encode. rewrite str_map_compose, b64encode_map_id.
  - apply b64decode_encode.
  - done.
  - exact b64_char_urlsafe.
Qed.

(** An encoded header value holds no whitespace. *)
Lemma urlsafe_b64encode_no_space bs : str_join_split (urlsafe_b64encode bs) = urlsafe_b64encode bs.
Proof.
  apply str_filter_id. unfold urlsafe_b64encode. rewrite str_forallb_map.
  apply b64encode_forallb; [done|]. intros n Hn. by rewrite b64_char_not_space.
Qed.

(** Three bytes become four characters. *)
Lemma b64encode_length bs :
  String.length (b64encode bs) = (4 * ((List.length bs + 2) / 3))%nat.
Proof.
  induction bs as [|a|a b|a b c l IH] using list_ind3; [done..|].
  cbn [b64encode String.length List.length]. rewrite IH.
  replace (S (S (S (List.length l))) + 2)%nat with (List.length l + 2 + 1 * 3)%nat by lia.
  rewrite Nat.div_add by lia. lia.
Qed.

#[export] Hint Rewrite b64decode_encode urlsafe_b64decode_encode urlsafe_b64encode_no_space : aor.
