(* ===== verification/Json.v ===== *)
(** * JSON-like Python values

    The values the sources hash, store and exchange: [None], booleans, integers, strings,
    lists and dictionaries with string keys.  A dictionary is an association list in insertion
    order; [json_wf] says its keys are distinct.  [canon] sorts every dictionary by key, and
    [json_equiv], equality of canonical forms, is Python's order-insensitive equality of
    dictionaries, an equivalence that [dict_get] respects. *)

From S2P Require Import Prelude PyStr.

Inductive json :=
| JNull
| JBool (b : bool)
| JInt (z : Z)
| JStr (s : string)
| JList (l : list json)
| JObj (kvs : list (string * json)).

Abbreviation dict := (list (string * json)).

(** ** Dictionary operations *)

(** [d.get(k)]. *)
Fixpoint dict_get {V : Type} (k : string) (d : list (string * V)) : option V :=
  match d with
  | [] => None
  | (k', v) :: d' => if decide (k = k') then Some v else dict_get k d'
  end.

(** [d[k] = v]: in place when the key is there, at the end otherwise. *)
Fixpoint dict_set {V : Type} (k : string) (v : V) (d : list (string * V)) : list (string * V) :=
  match d with
  | [] => [(k, v)]
  | (k', v') :: d' => if decide (k = k') then (k', v) :: d' else (k', v') :: dict_set k v d'
  end.

Definition dict_keys (d : dict) : list string := d.*1.

(** [d[k]], raising [KeyError]. *)
Definition dict_item (k : string) (d : dict) : result json :=
  of_option (dict_get k d) KeyError (String.append "'" (String.append k "'")).

Definition json_truthy (j : json) : bool :=
  match j with
  | JNull => false
  | JBool b => b
  | JInt z => negb (z =? 0)%Z
  | JStr s => truthy_str s
  | JList l => match l with [] => false | _ => true end
  | JObj d => match d with [] => false | _ => true end
  end.

Definition opt_str (o : option string) : json := match o with Some s => JStr s | None => JNull end.

(** ** Well-formedness and canonical forms *)

Fixpoint json_wf (j : json) : Prop :=
  match j with
  | JList l => (fix all (l : list json) := match l with [] => True | x :: l' => json_wf x /\ all l' end) l
  | JObj d =>
      NoDup (d.*1) /\
      (fix all (d : dict) := match d with [] => True | (_, x) :: d' => json_wf x /\ all d' end) d
  | _ => True
  end.

Definition items_wf (l : list json) : Prop := Forall json_wf l.
Definition dict_wf (d : dict) : Prop := NoDup (d.*1) /\ Forall (fun kv => json_wf kv.2) d.

(** Insertion by key, and insertion sort. *)
Fixpoint insert_key (kv : string * json) (d : dict) : dict :=
  match d with
  | [] => [kv]
  | kv' :: d' => if String.leb kv.1 kv'.1 then kv :: d else kv' :: insert_key kv d'
  end.

Definition sort_keys (d : dict) : dict := foldr insert_key [] d.

Fixpoint canon (j : json) : json :=
  match j with
  | JList l => JList (map canon l)
  | JObj d => JObj (sort_keys (map (fun kv => (kv.1, canon kv.2)) d))
  | _ => j
  end.

Definition json_equiv (a b : json) : Prop := canon a = canon b.

(** ** Lemmas *)

Lemma json_ind' (P : json -> Prop) :
  P JNull -> (forall b, P (JBool b)) -> (forall z, P (JInt z)) -> (forall s, P (JStr s)) ->
  (forall l, Forall P l -> P (JList l)) ->
  (forall d, Forall (fun kv => P kv.2) d -> P (JObj d)) ->
  forall j, P j.
Proof.
  intros Hn Hb Hi Hs Hl Ho. fix IH 1. intros [|b|z|s|l|d]; [done|done|done|done| |].
  - apply Hl. induction l as [|x l IHl]; constructor; [apply IH|done].
  - apply Ho. induction d as [|[k x] d IHd]; constructor; [apply IH|done].
Qed.

Lemma json_wf_list l : json_wf (JList l) <-> items_wf l.
Proof.
  unfold items_wf. cbn. induction l as [|x l IH]; [by split|]. rewrite Forall_cons, <- IH. done.
Qed.

Lemma json_wf_obj d : json_wf (JObj d) <-> dict_wf d.
Proof.
  unfold dict_wf. cbn. apply and_iff_compat_l.
  induction d as [|[k x] d IH]; [by split|]. rewrite Forall_cons, <- IH. done.
Qed.

#[export] Instance json_equiv_equivalence : Equivalence json_equiv.
Proof. unfold json_equiv. split; [done|by intros ???|by intros ??? -> ->]. Qed.

Lemma insert_key_perm kv d : insert_key kv d ≡ₚ kv :: d.
Proof.
  induction d as [|kv' d IH]; cbn [insert_key]; [done|].
  destruct (String.leb kv.1 kv'.1); [done|]. rewrite IH. constructor.
Qed.

Lemma sort_keys_perm d : sort_keys d ≡ₚ d.
Proof. induction d as [|kv d IH]; cbn; [done|]. by rewrite insert_key_perm, IH. Qed.

Lemma dict_get_elem {V : Type} k (v : V) d : NoDup (d.*1) -> dict_get k d = Some v <-> (k, v) ∈ d.
Proof.
  induction d as [|[k' v'] d IH]; cbn; intros Hd.
  - split; [done|]. intros H. by apply not_elem_of_nil in H.
  - apply NoDup_cons in Hd as [Hk' Hd]. rewrite elem_of_cons. case_decide as Hk.
    + subst k'. split; [intros [= ->]; by left|]. intros [[= ->]|Hin]; [done|].
      destruct Hk'. apply list_elem_of_fmap. by exists (k, v).
    + rewrite IH by done. split; [by right|]. intros [[= ? ?]|?]; done.
Qed.

Lemma dict_get_perm {V : Type} k (d1 d2 : list (string * V)) :
  NoDup (d1.*1) -> d1 ≡ₚ d2 -> dict_get k d1 = dict_get k d2.
Proof.
  intros H1 Hp. assert (NoDup (d2.*1)) as H2 by by rewrite <- Hp.
  apply option_eq. intros v. rewrite !dict_get_elem by done. by rewrite Hp.
Qed.

Lemma dict_get_map {V W : Type} (f : V -> W) k d :
  dict_get k (map (fun kv => (kv.1, f kv.2)) d) = f <$> dict_get k d.
Proof. induction d as [|[k' v] d IH]; cbn; [done|]. by case_decide. Qed.

Lemma map_fst_canon (f : json -> json) (d : dict) : (map (fun kv => (kv.1, f kv.2)) d).*1 = d.*1.
Proof. induction d as [|[k v] d IH]; cbn; [done|]. by f_equal. Qed.

(** Reading a key of the canonical form reads the canonical form of the value. *)
Lemma dict_get_canon k d :
  NoDup (d.*1) ->
  dict_get k (sort_keys (map (fun kv => (kv.1, canon kv.2)) d)) = canon <$> dict_get k d.
Proof.
  intros Hd. rewrite <- dict_get_map. apply dict_get_perm; [|apply sort_keys_perm].
  by rewrite sort_keys_perm, map_fst_canon.
Qed.

(** Equivalent dictionaries have equivalent entries under every key. *)
Lemma json_equiv_get k d1 d2 :
  NoDup (d1.*1) -> NoDup (d2.*1) -> json_equiv (JObj d1) (JObj d2) ->
  canon <$> dict_get k d1 = canon <$> dict_get k d2.
Proof.
  intros H1 H2 He. injection He as He. rewrite <- !dict_get_canon by done. by rewrite He.
Qed.

(** A scalar is its own canonical form, and nothing else has it. *)
Lemma canon_str_inv j s : canon j = JStr s -> j = JStr s.
Proof. by destruct j. Qed.

Lemma canon_null_inv j : canon j = JNull -> j = JNull.
Proof. by destruct j. Qed.

Lemma canon_wf j : json_wf j -> json_wf (canon j).
Proof.
  induction j as [|b|z|s|l IH|d IH] using json_ind'; intros Hwf; try done.
  - cbn [canon]. rewrite json_wf_list in *. unfold items_wf in *.
    apply Forall_fmap. rewrite Forall_forall in *. intros x Hx. apply IH; auto.
  - cbn [canon]. rewrite json_wf_obj in *. destruct Hwf as [Hd Hwf]. split.
    + by rewrite sort_keys_perm, map_fst_canon.
    + rewrite sort_keys_perm.
      apply (Forall_fmap (fun kv => (kv.1, canon kv.2)) (fun kv => json_wf kv.2)).
      rewrite Forall_forall in *. intros x Hx. apply IH; auto.
Qed.

(** A list equivalence is element by element. *)
Lemma json_equiv_list l1 l2 : json_equiv (JList l1) (JList l2) <-> Forall2 json_equiv l1 l2.
Proof.
  unfold json_equiv. cbn [canon]. split.
  - intros [= H]. revert l2 H. induction l1 as [|x l1 IH]; intros [|y l2] H; try done.
    injection H as H1 H2. constructor; auto.
  - intros H. f_equal. induction H; cbn; [done|]. by f_equal.
Qed.

(** Entries under the same key of equivalent dictionaries. *)
Lemma json_equiv_get_some k d1 d2 v1 v2 :
  NoDup (d1.*1) -> NoDup (d2.*1) -> json_equiv (JObj d1) (JObj d2) ->
  dict_get k d1 = Some v1 -> dict_get k d2 = Some v2 -> json_equiv v1 v2.
Proof.
  intros H1 H2 He E1 E2. pose proof (json_equiv_get k d1 d2 H1 H2 He) as E.
  rewrite E1, E2 in E. by injection E.
Qed.

Lemma dict_get_set_eq {V : Type} k (v : V) d : dict_get k (dict_set k v d) = Some v.
Proof.
  induction d as [|[k' v'] d IH]; cbn; [by rewrite decide_True|].
  case_decide; cbn; [by rewrite decide_True|by rewrite decide_False].
Qed.

Lemma dict_get_set_ne {V : Type} k k' (v : V) d : k ≠ k' -> dict_get k (dict_set k' v d) = dict_get k d.
Proof.
  intros Hk. induction d as [|[k1 v1] d IH]; cbn; [by rewrite decide_False|].
  case_decide; cbn; [|by rewrite IH]. subst. by rewrite !decide_False.
Qed.

(** Setting a fresh key appends it. *)
Lemma dict_set_fresh {V : Type} k (v : V) d : k ∉ d.*1 -> dict_set k v d = d ++ [(k, v)].
Proof.
  induction d as [|[k1 v1] d IH]; cbn; [done|]. intros [H1 H2]%not_elem_of_cons.
  rewrite decide_False by done. by rewrite IH.
Qed.

#[export] Hint Rewrite @dict_get_set_eq : aor.

Lemma dict_set_keys {V : Type} k (v : V) d : k ∈ d.*1 -> (dict_set k v d).*1 = d.*1.
Proof.
  induction d as [|[k' v'] d IH]; cbn; [set_solver|]. destruct (decide (k = k')) as [->|Hne]; cbn; [done|].
  intros Hin. rewrite IH; [done|]. set_solver.
Qed.
