(* ===== verification/JsonText.v ===== *)
(** * JSON text: json.dumps and json.loads

    [json_dumps] is [json.dumps(value, separators=(",", ":"))] with the default
    [ensure_ascii=True]; [json_loads] is [json.loads] on the values of [Json.json].  The
    scanner follows [json.decoder] (whitespace, string escapes, number grammar, last duplicate
    key wins).  A float literal or an escape above U+00FF is [OutsideModel].  The main lemma,
    [json_loads_dumps], is the round trip every stored record relies on. *)

From S2P Require Import Prelude PyStr Json.

#[local] Open Scope Z_scope.

(** ** Printing *)

(** The decimal digits of [n >= 0] before [acc]; [fuel] bounds the number of digits. *)
Fixpoint dec_digits (fuel : nat) (n : Z) (acc : string) : string :=
  match fuel with
  | O => acc
  | S f =>
      let acc' := String (chr (48 + n mod 10)) acc in
      if n / 10 =? 0 then acc' else dec_digits f (n / 10) acc'
  end.

(** [str(z)]: a number has at most as many decimal as binary digits. *)
Definition dec_nonneg (n : Z) : string := dec_digits (S (Z.to_nat (Z.log2 n))) n EmptyString.

Definition str_of_int (z : Z) : string :=
  if z <? 0 then String "-"%char (dec_nonneg (- z)) else dec_nonneg z.

Definition hex4 (n : Z) : string :=
  String (hex_digit (n / 4096 mod 16)) (String (hex_digit (n / 256 mod 16))
    (String (hex_digit (n / 16 mod 16)) (String (hex_digit (n mod 16)) EmptyString))).

Definition bslash : ascii := "\"%char.
Definition dquote : ascii := chr 34.

(** One character of a JSON string. *)
Definition escape_char (c : ascii) : string :=
  let n := ord c in
  let short (x : ascii) := String bslash (String x EmptyString) in
  if n =? 34 then short dquote
  else if n =? 92 then short bslash
  else if n =? 10 then short "n"%char
  else if n =? 13 then short "r"%char
  else if n =? 9 then short "t"%char
  else if n =? 12 then short "f"%char
  else if n =? 8 then short "b"%char
  else if (32 <=? n) && (n <=? 126) then String c EmptyString
  else String bslash (String "u"%char (hex4 n)).

Fixpoint escape (s : string) : string :=
  match s with
  | EmptyString => EmptyString
  | String c s' => String.append (escape_char c) (escape s')
  end.

Definition quote (s : string) : string :=
  String dquote (String.append (escape s) (String dquote EmptyString)).

Fixpoint json_dumps (j : json) : string :=
  match j with
  | JNull => "null"
  | JBool true => "true"
  | JBool false => "false"
  | JInt z => str_of_int z
  | JStr s => quote s
  | JList l =>
      String "["%char (String.append (str_join "," (map json_dumps l)) (String "]"%char EmptyString))
  | JObj d =>
      String "{"%char (String.append
        (str_join "," (map (fun kv => String.append (quote kv.1) (String ":"%char (json_dumps kv.2))) d))
        (String "}"%char EmptyString))
  end.

(** ** Scanning *)

Definition json_error {A} : result A := raise JSONDecodeError "Expecting value".
Definition outside {A} : result A := raise OutsideModel "outside the model".

Definition is_json_ws (c : ascii) : bool :=
  let n := ord c in (n =? 32) || (n =? 9) || (n =? 10) || (n =? 13).

Fixpoint skip_ws (s : string) : string :=
  match s with
  | String c s' => if is_json_ws c then skip_ws s' else s
  | EmptyString => s
  end.

Definition hex4_value (a b c d : ascii) : option Z :=
  match hex_value a, hex_value b, hex_value c, hex_value d with
  | Some w, Some x, Some y, Some z => Some (4096 * w + 256 * x + 16 * y + z)
  | _, _, _, _ => None
  end.

Definition unescape_short (c : ascii) : option ascii :=
  let n := ord c in
  if n =? 34 then Some dquote else if n =? 92 then Some bslash else if n =? 47 then Some "/"%char
  else if n =? 98 then Some (chr 8) else if n =? 102 then Some (chr 12)
  else if n =? 110 then Some (chr 10) else if n =? 114 then Some (chr 13)
  else if n =? 116 then Some (chr 9) else None.

(** The rest of a string literal, after its opening quote. *)
Fixpoint scanstring (s : string) : result (string * string) :=
  match s with
  | EmptyString => json_error
  | String c s1 =>
      if decide (c = dquote) then Ok (EmptyString, s1)
      else if decide (c = bslash) then
        match s1 with
        | EmptyString => json_error
        | String e s2 =>
            if decide (e = "u"%char) then
              match s2 with
              | String h1 (String h2 (String h3 (String h4 s3))) =>
                  match hex4_value h1 h2 h3 h4 with
                  | Some n =>
                      if n <? 256
                      then '(t, r) ← scanstring s3; Ok (String (chr n) t, r)
                      else outside
                  | None => json_error
                  end
              | _ => json_error
              end
            else match unescape_short e with
                 | Some x => '(t, r) ← scanstring s2; Ok (String x t, r)
                 | None => json_error
                 end
        end
      else if ord c <? 32 then json_error
      else '(t, r) ← scanstring s1; Ok (String c t, r)
  end.

Fixpoint parse_digits (acc : Z) (s : string) : Z * string :=
  match s with
  | String c s' => if is_digit c then parse_digits (acc * 10 + (ord c - 48)) s' else (acc, s)
  | EmptyString => (acc, s)
  end.

(** A fraction or an exponent follows. *)
Definition float_tail (s : string) : bool :=
  match s with
  | String c (String d s') =>
      (bool_decide (c = "."%char) && is_digit d)
      || ((bool_decide (c = "e"%char) || bool_decide (c = "E"%char))
          && (is_digit d
              || ((bool_decide (d = "+"%char) || bool_decide (d = "-"%char))
                  && match s' with String x _ => is_digit x | _ => false end)))
  | _ => false
  end.

(** A number without its sign; a leading zero is a whole number. *)
Definition scan_nonneg (s : string) : result (Z * string) :=
  match s with
  | String c s' =>
      if decide (c = "0"%char) then (if float_tail s' then outside else Ok (0, s'))
      else if is_digit c then
        let '(n, r) := parse_digits 0 s in if float_tail r then outside else Ok (n, r)
      else json_error
  | EmptyString => json_error
  end.

Definition scan_number (s : string) : result (json * string) :=
  match s with
  | String c s' =>
      if decide (c = "-"%char) then '(n, r) ← scan_nonneg s'; Ok (JInt (- n), r)
      else '(n, r) ← scan_nonneg s; Ok (JInt n, r)
  | EmptyString => json_error
  end.

(** [dict(pairs)]. *)
Definition dict_of_pairs (d : dict) : dict := fold_left (fun acc kv => dict_set kv.1 kv.2 acc) d [].

(** [scan_once], with the loops of [JSONArray] and [JSONObject].  [fuel] bounds the number of
    nested calls; the length of the text is enough. *)
Fixpoint scan_once (fuel : nat) (s : string) : result (json * string) :=
  match fuel with
  | O => outside
  | S f =>
      match s with
      | EmptyString => json_error
      | String c s' =>
          if decide (c = dquote) then '(t, r) ← scanstring s'; Ok (JStr t, r)
          else if decide (c = "["%char) then
            match skip_ws s' with
            | EmptyString => json_error
            | String d r =>
                if decide (d = "]"%char) then Ok (JList [], r)
                else '(l, r') ← scan_items f (String d r); Ok (JList l, r')
            end
          else if decide (c = "{"%char) then
            match skip_ws s' with
            | EmptyString => json_error
            | String d r =>
                if decide (d = "}"%char) then Ok (JObj [], r)
                else '(l, r') ← scan_members f (String d r); Ok (JObj (dict_of_pairs l), r')
            end
          else match s with
               | String "n" (String "u" (String "l" (String "l" r))) => Ok (JNull, r)
               | String "t" (String "r" (String "u" (String "e" r))) => Ok (JBool true, r)
               | String "f" (String "a" (String "l" (String "s" (String "e" r)))) => Ok (JBool false, r)
               | _ => scan_number s
               end
      end
  end
with scan_items (fuel : nat) (s : string) : result (list json * string) :=
  match fuel with
  | O => outside
  | S f =>
      '(x, r) ← scan_once f s;
      match skip_ws r with
      | String c r' =>
          if decide (c = "]"%char) then Ok ([x], r')
          else if decide (c = ","%char) then '(l, r'') ← scan_items f (skip_ws r'); Ok (x :: l, r'')
          else json_error
      | EmptyString => json_error
      end
  end
with scan_members (fuel : nat) (s : string) : result (dict * string) :=
  match fuel with
  | O => outside
  | S f =>
      match s with
      | String q s' =>
          if decide (q = dquote) then
            '(k, r) ← scanstring s';
            match skip_ws r with
            | String c r1 =>
                if decide (c = ":"%char) then
                  '(x, r2) ← scan_once f (skip_ws r1);
                  match skip_ws r2 with
                  | String c2 r3 =>
                      if decide (c2 = "}"%char) then Ok ([(k, x)], r3)
                      else if decide (c2 = ","%char)
                           then '(l, r4) ← scan_members f (skip_ws r3); Ok ((k, x) :: l, r4)
                           else json_error
                  | EmptyString => json_error
                  end
                else json_error
            | EmptyString => json_error
            end
          else json_error
      | EmptyString => json_error
      end
  end.

Definition json_loads (s : string) : result json :=
  '(j, r) ← scan_once (S (String.length s)) (skip_ws s);
  match skip_ws r with EmptyString => Ok j | _ => raise JSONDecodeError "Extra data" end.

(** ** Integers *)

(** What may follow a value: the end of the text or a delimiter. *)
Definition delim (s : string) : Prop :=
  match s with
  | EmptyString => True
  | String c _ => c = ","%char \/ c = "]"%char \/ c = "}"%char
  end.

Lemma parse_dec_digits fuel n acc rest :
  0 <= n -> n < 2 ^ Z.of_nat fuel ->
  parse_digits 0 (dec_digits fuel n acc +:+ rest) = parse_digits n (acc +:+ rest).
Proof.
  revert n acc. induction fuel as [|f IH]; intros n acc Hn Hf.
  - assert (n = 0) as -> by (cbn in Hf; lia). done.
  - cbn [dec_digits]. rewrite Nat2Z.inj_succ, Z.pow_succ_r in Hf by lia.
    destruct (is_digit_chr (n mod 10)) as [Hd Ho]; [dlia|].
    destruct (Z.eqb_spec (n / 10) 0) as [H0|H0].
    + rewrite str_append_cons. cbn [parse_digits]. rewrite Hd, Ho. f_equal. dlia.
    + rewrite IH by dlia. rewrite str_append_cons. cbn [parse_digits]. rewrite Hd, Ho. f_equal. dlia.
Qed.

Lemma dec_digits_first fuel n acc :
  0 < n -> n < 2 ^ Z.of_nat fuel ->
  exists k s, 1 <= k < 10 /\ dec_digits fuel n acc = String (chr (48 + k)) s.
Proof.
  revert n acc. induction fuel as [|f IH]; intros n acc Hn Hf; [cbn in Hf; lia|].
  cbn [dec_digits]. rewrite Nat2Z.inj_succ, Z.pow_succ_r in Hf by lia.
  destruct (Z.eqb_spec (n / 10) 0) as [H0|H0].
  - exists (n mod 10). eexists. split; [dlia|done].
  - apply IH; dlia.
Qed.

Lemma dec_fuel n : 0 <= n -> n < 2 ^ Z.of_nat (S (Z.to_nat (Z.log2 n))).
Proof.
  intros Hn. destruct (Z.eq_dec n 0) as [->|H0]; [done|].
  rewrite Nat2Z.inj_succ, Z2Nat.id by apply Z.log2_nonneg.
  apply Z.log2_spec. lia.
Qed.

Lemma delim_no_float rest : delim rest -> float_tail rest = false.
Proof. destruct rest as [|c [|d s]]; [done|done|]. intros [-> | [-> | ->] ]; done. Qed.

Lemma delim_parse_digits n rest : delim rest -> parse_digits n rest = (n, rest).
Proof. destruct rest as [|c s]; [done|]. intros [-> | [-> | ->] ]; done. Qed.

Lemma digit_char_cases k : 1 <= k < 10 ->
  is_digit (chr (48 + k)) = true /\ chr (48 + k) ≠ "0"%char /\ chr (48 + k) ≠ "-"%char.
Proof.
  intros Hk. assert (0 <= k - 1 < 9) as Hk' by lia. replace k with (k - 1 + 1) by lia.
  generalize dependent (k - 1). clear. intros k Hk. small_cases k 9%nat; vm_compute; split_and!; done.
Qed.

Lemma scan_nonneg_dec n rest : 0 <= n -> delim rest -> scan_nonneg (dec_nonneg n +:+ rest) = Ok (n, rest).
Proof.
  intros Hn Hr. destruct (Z.eq_dec n 0) as [->|H0].
  - change (dec_nonneg 0 +:+ rest) with (String "0"%char rest). cbn [scan_nonneg].
    by rewrite decide_True, delim_no_float.
  - unfold dec_nonneg. destruct (dec_digits_first _ n EmptyString ltac:(lia) (dec_fuel n Hn)) as (k & s & Hk & E).
    pose proof (parse_dec_digits _ n EmptyString rest Hn (dec_fuel n Hn)) as Hp.
    rewrite E in *. destruct (digit_char_cases k Hk) as (Hd & Hz & _).
    rewrite str_append_cons in *. unfold scan_nonneg. rewrite decide_False, Hd by done.
    rewrite Hp, str_append_nil_l, delim_parse_digits by done. by rewrite delim_no_float.
Qed.

Lemma dec_nonneg_first n : 0 <= n ->
  exists k s, 0 <= k < 10 /\ dec_nonneg n = String (chr (48 + k)) s.
Proof.
  intros Hn. destruct (Z.eq_dec n 0) as [->|H0].
  - exists 0, EmptyString. split; [lia|done].
  - destruct (dec_digits_first _ n EmptyString ltac:(lia) (dec_fuel n Hn)) as (k & s & Hk & E).
    exists k, s. split; [lia|done].
Qed.

Lemma scan_number_int z rest :
  delim rest -> scan_number (str_of_int z +:+ rest) = Ok (JInt z, rest).
Proof.
  intros Hr. unfold str_of_int. destruct (Z.ltb_spec z 0) as [ Hz | Hz ].
  - rewrite str_append_cons. cbn [scan_number]. rewrite decide_True by done.
    rewrite scan_nonneg_dec by (done || lia). cbn. by rewrite Z.opp_involutive.
  - destruct (dec_nonneg_first z Hz) as (k & s & Hk & E).
    pose proof (scan_nonneg_dec z rest Hz Hr) as Hs. rewrite E in *. rewrite str_append_cons in *.
    unfold scan_number. rewrite decide_False; [by rewrite Hs|].
    clear -Hk. small_cases k 10%nat; done.
Qed.

(** ** Strings *)

Lemma hex4_scan n rest : 0 <= n < 256 ->
  scanstring (String bslash (String "u"%char (hex4 n +:+ rest))) =
  '(t, r) ← scanstring rest; Ok (String (chr n) t, r).
Proof.
  intros Hn. cbn -[hex4 scanstring]. unfold hex4. rewrite !str_append_cons, str_append_nil_l.
  cbn [scanstring]. rewrite decide_False, decide_True, decide_True by done. unfold hex4_value.
  rewrite !hex_value_digit by dlia.
  replace (4096 * (n / 4096 mod 16) + 256 * (n / 256 mod 16) + 16 * (n / 16 mod 16) + n mod 16)
    with n by dlia.
  destruct (Z.ltb_spec n 256); [done|lia].
Qed.

(** Either the scanner meets the character itself, a short escape, or four hex digits. *)
Lemma scanstring_escape_char c rest :
  scanstring (escape_char c +:+ rest) = '(t, r) ← scanstring rest; Ok (String c t, r).
Proof.
  rewrite <- (chr_ord c). pose proof (ord_range c) as Hc. revert Hc. generalize (ord c). clear c.
  intros n Hn. unfold escape_char. rewrite ord_chr by done.
  repeat (match goal with |- context [n =? ?k] => destruct (Z.eqb_spec n k) as [->|] end;
    [reflexivity|]).
  destruct ((32 <=? n) && (n <=? 126)) eqn:Hp.
  - rewrite str_append_cons, str_append_nil_l. cbn [scanstring].
    assert (forall k, 0 <= k < 256 -> n ≠ k -> chr n ≠ chr k) as Hchr.
    { intros k Hk Hnk E. apply Hnk. by rewrite <- (ord_chr n), E, ord_chr. }
    rewrite decide_False by by apply Hchr. rewrite decide_False by by apply (Hchr 92).
    rewrite ord_chr by done. destruct (Z.ltb_spec n 32); [lia|done].
  - rewrite !str_append_cons. by apply hex4_scan.
Qed.

Lemma scanstring_escape s rest :
  scanstring (escape s +:+ String dquote rest) = Ok (s, rest).
Proof.
  induction s as [|c s IH]; [done|]. cbn [escape].
  rewrite str_append_assoc, scanstring_escape_char, IH. done.
Qed.

Lemma scanstring_quote s rest :
  scanstring (escape s +:+ String dquote EmptyString +:+ rest) = Ok (s, rest).
Proof. rewrite str_append_cons, str_append_nil_l. apply scanstring_escape. Qed.

(** ** Values *)

Lemma skip_ws_id c s : is_json_ws c = false -> skip_ws (String c s) = String c s.
Proof. intros H. cbn. by rewrite H. Qed.

(** No printed value starts with whitespace or with a closing bracket. *)
Lemma dumps_first j :
  exists c s, json_dumps j = String c s /\ is_json_ws c = false /\ c ≠ "]"%char.
Proof.
  destruct j as [|[]|z|s|l|d]; cbn [json_dumps];
    try (eexists _, _; split_and!; [reflexivity|reflexivity|discriminate]).
  unfold str_of_int. destruct (z <? 0) eqn:Hz.
  - eexists _, _; split_and!; [reflexivity|reflexivity|discriminate].
  - destruct (dec_nonneg_first z) as (k & s & Hk & ->); [lia|].
    exists (chr (48 + k)), s. split; [done|]. clear -Hk. small_cases k 10%nat; done.
Qed.

Lemma skip_ws_dumps j rest : skip_ws (json_dumps j +:+ rest) = json_dumps j +:+ rest.
Proof.
  destruct (dumps_first j) as (c & s & -> & Hc & _). rewrite str_append_cons. by apply skip_ws_id.
Qed.

Lemma dict_of_pairs_app {V : Type} (d1 d2 : list (string * V)) :
  NoDup ((d1 ++ d2).*1) ->
  fold_left (fun acc kv => dict_set kv.1 kv.2 acc) d2 d1 = d1 ++ d2.
Proof.
  revert d1. induction d2 as [|[k v] d2 IH]; intros d1 Hd; cbn; [by rewrite app_nil_r|].
  rewrite dict_set_fresh.
  - rewrite IH; rewrite <- app_assoc; done.
  - rewrite fmap_app in Hd. apply NoDup_app in Hd as (_ & Hd & _).
    intros Hin. apply (Hd k Hin). cbn. left.
Qed.

Lemma dict_of_pairs_id d : NoDup (d.*1) -> dict_of_pairs d = d.
Proof. intros Hd. unfold dict_of_pairs. by rewrite dict_of_pairs_app. Qed.

(** The scanner reads back the text of [j] and stops at its end. *)
Definition scans (j : json) : Prop :=
  forall fuel rest, delim rest -> (String.length (json_dumps j) <= fuel)%nat ->
    scan_once fuel (json_dumps j +:+ rest) = Ok (j, rest).

Lemma str_join_cons (s : string) (l : list string) :
  str_join "," (s :: l) = s +:+ match l with [] => EmptyString | _ => String ","%char (str_join "," l) end.
Proof. destruct l; [by rewrite str_append_nil_r|done]. Qed.

Lemma scan_items_dumps x l fuel rest :
  Forall scans (x :: l) ->
  (String.length (str_join "," (map json_dumps (x :: l))) < fuel)%nat ->
  scan_items fuel (str_join "," (map json_dumps (x :: l)) +:+ String "]"%char rest) = Ok (x :: l, rest).
Proof.
  revert x fuel. induction l as [|y l IH]; intros x fuel [Hx Hl]%Forall_cons Hf;
    (destruct fuel as [|f]; [lia|]); cbn [map] in *; rewrite str_join_cons in *;
    rewrite str_length_app in Hf; cbn [String.length] in Hf;
    rewrite str_append_assoc; cbn [scan_items].
  - rewrite str_append_nil_l, Hx by (cbn; lia || by right; left). done.
  - rewrite str_append_cons, Hx by (cbn; lia || by left). cbn [mbind result_bind].
    rewrite skip_ws_id by done. rewrite decide_False, decide_True by done.
    destruct (dumps_first y) as (c & s & Ey & Hc & _).
    assert (skip_ws (str_join "," (json_dumps y :: map json_dumps l) +:+ String "]"%char rest)
            = str_join "," (json_dumps y :: map json_dumps l) +:+ String "]"%char rest) as ->.
    { rewrite str_join_cons, str_append_assoc. apply skip_ws_dumps. }
    rewrite (IH y) by (done || cbn [map]; lia). done.
Qed.

Definition member_text (kv : string * json) : string :=
  String.append (quote kv.1) (String ":"%char (json_dumps kv.2)).

Lemma member_text_cons k v rest :
  member_text (k, v) +:+ rest
  = String dquote (escape k +:+ String dquote (String ":"%char (json_dumps v +:+ rest))).
Proof.
  unfold member_text, quote. cbn [fst snd]. rewrite !str_append_cons, !str_append_assoc.
  by rewrite !str_append_cons, str_append_nil_l.
Qed.

Lemma scan_members_dumps kv d fuel rest :
  Forall (fun kv => scans kv.2) (kv :: d) ->
  (String.length (str_join "," (map member_text (kv :: d))) < fuel)%nat ->
  scan_members fuel (str_join "," (map member_text (kv :: d)) +:+ String "}"%char rest) = Ok (kv :: d, rest).
Proof.
  revert kv fuel. induction d as [|kv2 d IH]; intros [k v] fuel [Hx Hl]%Forall_cons Hf;
    (destruct fuel as [|f]; [lia|]); cbn [map] in *; rewrite str_join_cons in *;
    rewrite str_length_app in Hf; unfold member_text in Hf at 1; cbn [String.length fst snd] in Hf;
    rewrite str_length_app in Hf; cbn [String.length] in Hf;
    rewrite str_append_assoc, member_text_cons; cbn [scan_members];
    rewrite decide_True by done; rewrite scanstring_escape; cbn [mbind result_bind];
    rewrite skip_ws_id by done; rewrite decide_True by done; rewrite skip_ws_dumps.
  - rewrite str_append_nil_l. cbn in Hx. rewrite Hx by (cbn; lia || by right; right). done.
  - rewrite str_append_cons. cbn in Hx. rewrite Hx by (cbn; lia || by left). cbn [mbind result_bind].
    rewrite skip_ws_id by done. rewrite decide_False, decide_True by done.
    assert (skip_ws (str_join "," (member_text kv2 :: map member_text d) +:+ String "}"%char rest)
            = str_join "," (member_text kv2 :: map member_text d) +:+ String "}"%char rest) as ->.
    { rewrite str_join_cons, str_append_assoc. destruct kv2. rewrite member_text_cons.
      by apply skip_ws_id. }
    rewrite (IH kv2) by (done || cbn [map]; lia). done.
Qed.

(** A printed integer is not mistaken for another kind of value. *)
Lemma scan_once_int z fuel rest :
  delim rest -> scan_once (S fuel) (str_of_int z +:+ rest) = Ok (JInt z, rest).
Proof.
  intros Hr. pose proof (scan_number_int z rest Hr) as Hs. revert Hs. unfold str_of_int.
  destruct (Z.ltb_spec z 0) as [ Hz | Hz ].
  - rewrite !str_append_cons. intros Hs. cbn [scan_once].
    rewrite !decide_False by done. exact Hs.
  - destruct (dec_nonneg_first z Hz) as (k & s & Hk & ->). rewrite !str_append_cons.
    small_cases k 10%nat; intros Hs; exact Hs.
Qed.

Lemma scan_once_dumps j : json_wf j -> scans j.
Proof.
  unfold scans. induction j as [|[]|z|s|l IH|d IH] using json_ind'; intros Hwf fuel rest Hr Hf;
    (destruct fuel as [|f]; [exfalso; revert Hf; edestruct dumps_first as (? & ? & -> & _); cbn; lia|]);
    cbn [json_dumps] in *; try done.
  - by apply scan_once_int.
  - unfold quote. rewrite str_append_cons, str_append_assoc. cbn [scan_once].
    rewrite decide_True by done. by rewrite scanstring_quote.
  - rewrite json_wf_list in Hwf. rewrite str_append_cons. cbn [scan_once String.length] in *.
    rewrite decide_False, decide_True by done. rewrite str_append_assoc, str_append_cons, str_append_nil_l.
    rewrite str_length_app in Hf. cbn [String.length] in Hf.
    destruct l as [|x l]; [done|].
    assert (Forall scans (x :: l)) as Hs.
    { eapply Forall_impl; [apply Forall_and; split; [exact IH|exact Hwf]|]. intros ? [Ha Hb]; exact (Ha Hb). }
    destruct (dumps_first x) as (c & s & Ex & Hc & Hb).
    assert (exists s', str_join "," (map json_dumps (x :: l)) +:+ String "]"%char rest = String c s') as [s' Es].
    { cbn [map]. rewrite str_join_cons, Ex, !str_append_cons. eauto. }
    rewrite Es, skip_ws_id by done. rewrite decide_False by done. rewrite <- Es.
    rewrite scan_items_dumps by (done || lia). done.
  - rewrite json_wf_obj in Hwf. destruct Hwf as [Hnd Hwf].
    rewrite str_append_cons. cbn [scan_once String.length] in *.
    rewrite !decide_False, decide_True by done. rewrite str_append_assoc, str_append_cons, str_append_nil_l.
    rewrite str_length_app in Hf. cbn [String.length] in Hf. fold member_text in *.
    change (map (fun kv => quote kv.1 +:+ String ":"%char (json_dumps kv.2)) d) with (map member_text d) in *.
    destruct d as [|[k v] d]; [done|].
    assert (Forall (fun kv => scans kv.2) ((k, v) :: d)) as Hs.
    { eapply Forall_impl; [apply Forall_and; split; [exact IH|exact Hwf]|]. intros ? [Ha Hb]; exact (Ha Hb). }
    assert (exists s', str_join "," (map member_text ((k, v) :: d)) +:+ String "}"%char rest
                       = String dquote s') as [s' Es].
    { cbn [map]. rewrite str_join_cons, str_append_assoc, member_text_cons. eauto. }
    rewrite Es, skip_ws_id by done. rewrite decide_False by done. rewrite <- Es.
    rewrite scan_members_dumps by (done || lia). cbn [mbind result_bind].
    by rewrite dict_of_pairs_id.
Qed.

Lemma json_loads_dumps j : json_wf j -> json_loads (json_dumps j) = Ok j.
Proof.
  intros Hwf. unfold json_loads. rewrite <- (str_append_nil_r (json_dumps j)) at 2.
  rewrite skip_ws_dumps, (scan_once_dumps j Hwf) by (done || lia). done.
Qed.

#[export] Hint Rewrite json_loads_dumps using done : aor.
