(* ===== verification/PyTime.v ===== *)
(** * UTC instants and their ISO 8601 text

    The [datetime] operations the sources use.  A point in time is its number of microseconds
    since 0001-01-01T00:00:00; a [datetime] is a local point in time with an optional UTC
    offset.  [ord_to_ymd] and [ymd_to_ord] are the proleptic Gregorian conversions of
    [datetime.py]; [isoformat_utc] prints a UTC value, [fromisoformat] reads the grammar of
    Python 3.10, and [fromisoformat_isoformat] is their round trip on every representable
    instant. *)

From S2P Require Import Prelude PyStr.

#[local] Open Scope Z_scope.

(** ** Calendar *)

Definition is_leap (y : Z) : bool :=
  (y mod 4 =? 0) && (negb (y mod 100 =? 0) || (y mod 400 =? 0)).

Definition days_before_year (y : Z) : Z := let y := y - 1 in y * 365 + y / 4 - y / 100 + y / 400.

(** Days before a month in a common year. *)
Definition days_before_month_common (m : Z) : Z :=
  match m with
  | 1 => 0 | 2 => 31 | 3 => 59 | 4 => 90 | 5 => 120 | 6 => 151
  | 7 => 181 | 8 => 212 | 9 => 243 | 10 => 273 | 11 => 304 | _ => 334
  end.

Definition days_in_month_leap (leap : bool) (m : Z) : Z :=
  match m with
  | 2 => if leap then 29 else 28
  | 4 | 6 | 9 | 11 => 30
  | _ => 31
  end.

Definition days_before_month (leap : bool) (m : Z) : Z :=
  days_before_month_common m + (if (2 <? m) && leap then 1 else 0).

(** [_ymd2ord], the ordinal of a date, 1 for 0001-01-01. *)
Definition ymd_to_ord (y m d : Z) : Z := days_before_year y + days_before_month (is_leap y) m + d.

(** The month and the day of the [n]-th day (from 0) of a year. *)
Definition month_day (leap : bool) (n : Z) : Z * Z :=
  let month := (n + 50) / 32 in
  let preceding := days_before_month leap month in
  if n <? preceding
  then (month - 1, n - (preceding - days_in_month_leap leap (month - 1)) + 1)
  else (month, n - preceding + 1).

(** [_ord2ymd]. *)
Definition ord_to_ymd (n : Z) : Z * Z * Z :=
  let n := n - 1 in
  let n400 := n / 146097 in let n := n mod 146097 in
  let n100 := n / 36524 in let n := n mod 36524 in
  let n4 := n / 1461 in let n := n mod 1461 in
  let n1 := n / 365 in let n := n mod 365 in
  let year := n400 * 400 + 1 + n100 * 100 + n4 * 4 + n1 in
  if (n1 =? 4) || (n100 =? 4) then (year - 1, 12, 31)
  else
    let leap := (n1 =? 3) && (negb (n4 =? 24) || (n100 =? 3)) in
    let '(m, d) := month_day leap n in (year, m, d).

(** ** Instants *)

Definition us_per_day : Z := 86400000000.
Definition max_ordinal : Z := 3652059.
Definition max_us : Z := max_ordinal * us_per_day.

(** [datetime] covers the years 1 to 9999. *)
Definition valid_us (t : Z) : Prop := 0 <= t < max_us.
Definition valid_usb (t : Z) : bool := (0 <=? t) && (t <? max_us).

Record datetime := DateTime { dt_local : Z; dt_offset : option Z }.

Definition utc (t : Z) : datetime := DateTime t (Some 0).

(** [value.astimezone(timezone.utc)] of an aware value; the shifted value must still be
    representable. *)
Definition to_utc (t : datetime) : result Z :=
  match dt_offset t with
  | None => raise OutsideModel "local time zone"
  | Some off => if valid_usb (dt_local t - off) then Ok (dt_local t - off)
                else raise OverflowError "date value out of range"
  end.

(** ** Printing *)

(** [z] in decimal, padded to [n] digits. *)
Fixpoint pad_digits (n : nat) (z : Z) : string :=
  match n with
  | O => EmptyString
  | S n' => String.append (pad_digits n' (z / 10)) (String (chr (48 + z mod 10)) EmptyString)
  end.

Definition iso_date (days : Z) : string :=
  let '(y, m, d) := ord_to_ymd (days + 1) in
  pad_digits 4 y +:+ "-" +:+ pad_digits 2 m +:+ "-" +:+ pad_digits 2 d.

Definition iso_time (us : Z) : string :=
  let s := us / 1000000 in
  pad_digits 2 (s / 3600) +:+ ":" +:+ pad_digits 2 (s / 60 mod 60) +:+ ":" +:+ pad_digits 2 (s mod 60)
  +:+ (if us mod 1000000 =? 0 then EmptyString else "." +:+ pad_digits 6 (us mod 1000000)).

(** [value.isoformat()] for a UTC value. *)
Definition isoformat_utc (t : Z) : string :=
  iso_date (t / us_per_day) +:+ "T" +:+ iso_time (t mod us_per_day) +:+ "+00:00".

(** [value.isoformat().replace("+00:00", "Z")]. *)
Definition isoformat_z (t : Z) : string := str_replace "+00:00" "Z" (isoformat_utc t).

(** ** Parsing *)

(** [n] decimal digits. *)
Fixpoint take_digits (n : nat) (acc : Z) (s : string) : option (Z * string) :=
  match n with
  | O => Some (acc, s)
  | S n' =>
      match s with
      | String c s' => if is_digit c then take_digits n' (acc * 10 + (ord c - 48)) s' else None
      | EmptyString => None
      end
  end.

Definition take_char (c : ascii) (s : string) : option string :=
  match s with
  | String c' s' => if decide (c = c') then Some s' else None
  | EmptyString => None
  end.

(** The text before and after the first [c]. *)
Fixpoint split_at (c : ascii) (s : string) : option (string * string) :=
  match s with
  | EmptyString => None
  | String c' s' =>
      if decide (c = c') then Some (EmptyString, s')
      else match split_at c s' with Some (a, b) => Some (String c' a, b) | None => None end
  end.

(** Optional fraction of three or six digits, to the end of the text. *)
Definition parse_fraction (s : string) : option Z :=
  match s with
  | EmptyString => Some 0
  | _ =>
      s ← take_char "."%char s;
      match String.length s with
      | 3%nat => '(n, _) ← take_digits 3 0 s; Some (n * 1000)
      | 6%nat => '(n, _) ← take_digits 6 0 s; Some n
      | _ => None
      end
  end.

(** [HH[:MM[:SS[.fff[fff]]]]], as hour, minute, second, microsecond. *)
Definition parse_hms (s : string) : option (Z * Z * Z * Z) :=
  '(h, s) ← take_digits 2 0 s;
  match s with
  | EmptyString => Some (h, 0, 0, 0)
  | _ =>
      s ← take_char ":"%char s;
      '(m, s) ← take_digits 2 0 s;
      match s with
      | EmptyString => Some (h, m, 0, 0)
      | _ =>
          s ← take_char ":"%char s;
          '(sec, s) ← take_digits 2 0 s;
          us ← parse_fraction s;
          Some (h, m, sec, us)
      end
  end.

Definition hms_us (c : Z * Z * Z * Z) : Z :=
  let '(h, m, s, us) := c in ((h * 60 + m) * 60 + s) * 1000000 + us.

(** The offset after its sign: [HH:MM], [HH:MM:SS] or [HH:MM:SS.ffffff], below 24 hours. *)
Definition parse_offset (sign : Z) (s : string) : option Z :=
  match String.length s with
  | 5%nat | 8%nat | 15%nat =>
      c ← parse_hms s;
      if hms_us c <? us_per_day then Some (sign * hms_us c) else None
  | _ => None
  end.

(** The time of day and the offset. *)
Definition parse_time (s : string) : option ((Z * Z * Z * Z) * option Z) :=
  match split_at "-"%char s with
  | Some (a, b) => c ← parse_hms a; off ← parse_offset (-1) b; Some (c, Some off)
  | None =>
      match split_at "+"%char s with
      | Some (a, b) => c ← parse_hms a; off ← parse_offset 1 b; Some (c, Some off)
      | None => c ← parse_hms s; Some (c, None : option Z)
      end
  end.

Definition parse_date (s : string) : option (Z * Z * Z * string) :=
  '(y, s) ← take_digits 4 0 s; s ← take_char "-"%char s;
  '(m, s) ← take_digits 2 0 s; s ← take_char "-"%char s;
  '(d, s) ← take_digits 2 0 s; Some (y, m, d, s).

Definition in_range (lo hi z : Z) : bool := (lo <=? z) && (z <=? hi).

(** The [datetime] constructor's range checks. *)
Definition make_datetime (y m d : Z) (c : Z * Z * Z * Z) (off : option Z) : option datetime :=
  let '(h, mi, s, us) := c in
  if in_range 1 9999 y && in_range 1 12 m && in_range 1 (days_in_month_leap (is_leap y) m) d
     && in_range 0 23 h && in_range 0 59 mi && in_range 0 59 s && in_range 0 999999 us
  then Some (DateTime ((ymd_to_ord y m d - 1) * us_per_day + hms_us c) off)
  else None.

Definition parse_iso (s : string) : option datetime :=
  '(y, m, d, s) ← parse_date s;
  match s with
  | EmptyString | String _ EmptyString => make_datetime y m d (0, 0, 0, 0) None
  | String _ t => '(c, off) ← parse_time t; make_datetime y m d c off
  end.

(** [datetime.fromisoformat(s)]. *)
Definition fromisoformat (s : string) : result datetime :=
  of_option (parse_iso s) ValueError "Invalid isoformat string".

(** ** Calendar lemmas *)

Lemma month_day_ok (leap : bool) n :
  0 <= n < (if leap then 366 else 365) ->
  let '(m, d) := month_day leap n in
  in_range 1 12 m && in_range 1 (days_in_month_leap leap m) d
  && (days_before_month leap m + d =? n + 1) = true.
Proof. intros Hn. destruct leap; [small_cases n 366%nat|small_cases n 365%nat]. Qed.

Lemma ord_to_ymd_ok n :
  1 <= n <= max_ordinal ->
  let '(y, m, d) := ord_to_ymd n in
  1 <= y <= 9999 /\ in_range 1 12 m = true /\ in_range 1 (days_in_month_leap (is_leap y) m) d = true
  /\ ymd_to_ord y m d = n.
Proof.
  unfold max_ordinal. intros Hn. unfold ord_to_ymd. cbv zeta.
  pose proof (Z.div_mod (n - 1) 146097 ltac:(lia)) as E1.
  pose proof (Z.mod_pos_bound (n - 1) 146097 ltac:(lia)) as B1.
  set (a := (n - 1) / 146097) in *. set (r1 := (n - 1) mod 146097) in *. clearbody a r1.
  pose proof (Z.div_mod r1 36524 ltac:(lia)) as E2.
  pose proof (Z.mod_pos_bound r1 36524 ltac:(lia)) as B2.
  set (b := r1 / 36524) in *. set (r2 := r1 mod 36524) in *. clearbody b r2.
  pose proof (Z.div_mod r2 1461 ltac:(lia)) as E3.
  pose proof (Z.mod_pos_bound r2 1461 ltac:(lia)) as B3.
  set (c := r2 / 1461) in *. set (r3 := r2 mod 1461) in *. clearbody c r3.
  pose proof (Z.div_mod r3 365 ltac:(lia)) as E4.
  pose proof (Z.mod_pos_bound r3 365 ltac:(lia)) as B4.
  set (d := r3 / 365) in *. set (r4 := r3 mod 365) in *. clearbody d r4.
  assert (0 <= a <= 24 /\ 0 <= b <= 4 /\ 0 <= c <= 24 /\ 0 <= d <= 4) as (Ha & Hb & Hc & Hd) by lia.
  unfold ymd_to_ord, days_before_year, is_leap. cbv zeta.
  destruct ((d =? 4) || (b =? 4)) eqn:Hlast.
  - assert (((a * 400 + 1 + b * 100 + c * 4 + d - 1) mod 4 =? 0)
            && (negb ((a * 400 + 1 + b * 100 + c * 4 + d - 1) mod 100 =? 0)
                || ((a * 400 + 1 + b * 100 + c * 4 + d - 1) mod 400 =? 0)) = true) as -> by dlia.
    cbn [in_range days_in_month_leap days_before_month days_before_month_common].
    split_and!; [dlia|dlia|done|done|]. unfold days_before_month; cbn. dlia.
  - pose proof (month_day_ok ((d =? 3) && (negb (c =? 24) || (b =? 3))) r4) as Hm.
    destruct (month_day _ r4) as [m k].
    assert (((a * 400 + 1 + b * 100 + c * 4 + d) mod 4 =? 0)
            && (negb ((a * 400 + 1 + b * 100 + c * 4 + d) mod 100 =? 0)
                || ((a * 400 + 1 + b * 100 + c * 4 + d) mod 400 =? 0))
            = (d =? 3) && (negb (c =? 24) || (b =? 3))) as -> by dlia.
    assert (0 <= r4 < (if (d =? 3) && (negb (c =? 24) || (b =? 3)) then 366 else 365)) as Hr
      by (destruct ((d =? 3) && _); lia).
    specialize (Hm Hr). apply andb_prop in Hm as [[H1 H2]%andb_prop H3]. split_and!; [dlia|dlia|done|done|]. dlia.
Qed.

(** ** The round trip *)

Lemma take_pad_digits n z acc rest :
  0 <= z < 10 ^ Z.of_nat n ->
  take_digits n acc (pad_digits n z +:+ rest) = Some (acc * 10 ^ Z.of_nat n + z, rest).
Proof.
  revert z acc rest. induction n as [|n IH]; intros z acc rest Hz.
  - change (10 ^ Z.of_nat 0) with 1 in *. rewrite str_append_nil_l. cbn. do 2 f_equal. lia.
  - rewrite Nat2Z.inj_succ, Z.pow_succ_r in Hz |- * by lia. cbn [pad_digits].
    rewrite str_append_assoc, str_append_cons, str_append_nil_l.
    assert (forall m a s k, 0 <= k < 10 -> take_digits (S m) a s = '(v, r) ← take_digits m a s;
      '(v', r') ← take_digits 1 v r; Some (v', r')) as Hsplit.
    { clear. intros m a s k Hk. revert a s. induction m as [|m IHm]; intros a s.
      - cbn. destruct s as [|c s]; [done|]. by destruct (is_digit c).
      - destruct s as [|c s]; [done|]. cbn [take_digits]. destruct (is_digit c); [|done].
        cbn [take_digits] in IHm. by rewrite IHm. }
    rewrite (Hsplit _ _ _ 0), IH by dlia. cbn [mbind option_bind take_digits].
    destruct (is_digit_chr (z mod 10)) as [-> ->]; [dlia|]. cbn [mbind option_bind]. do 2 f_equal.
    transitivity (acc * 10 ^ Z.of_nat n * 10 + (10 * (z / 10) + z mod 10)); [ring|].
    rewrite <- Z.div_mod by lia. ring.
Qed.

Lemma take_pad_digits0 n z rest :
  0 <= z < 10 ^ Z.of_nat n -> take_digits n 0 (pad_digits n z +:+ rest) = Some (z, rest).
Proof. intros Hz. rewrite take_pad_digits by done. do 2 f_equal. Qed.

Lemma pad_digits_forallb p n z :
  (forall k, 0 <= k < 10 -> p (chr (48 + k)) = true) -> str_forallb p (pad_digits n z) = true.
Proof.
  intros Hp. revert z. induction n as [|n IH]; intros z; [done|]. cbn [pad_digits].
  rewrite str_forallb_app, IH. cbn. rewrite Hp by dlia. done.
Qed.

Lemma pad_digits_length n z : String.length (pad_digits n z) = n.
Proof. revert z. induction n as [|n IH]; intros z; [done|]. cbn [pad_digits]. rewrite str_length_app, IH. cbn. lia. Qed.

Lemma split_at_none c s : str_forallb (fun x => negb (bool_decide (c = x))) s = true -> split_at c s = None.
Proof.
  induction s as [|x s IH]; cbn; [done|]. intros [Hx Hs]%andb_prop.
  destruct (decide (c = x)); [by rewrite bool_decide_true in Hx|]. by rewrite IH.
Qed.

Lemma split_at_app c a b :
  str_forallb (fun x => negb (bool_decide (c = x))) a = true -> split_at c (a +:+ String c b) = Some (a, b).
Proof.
  induction a as [|x a IH]; intros Ha.
  - rewrite str_append_nil_l. cbn. by rewrite decide_True.
  - cbn [str_forallb] in Ha. apply andb_prop in Ha as [Hx Ha]. rewrite str_append_cons. cbn [split_at].
    destruct (decide (c = x)); [by rewrite bool_decide_true in Hx|]. by rewrite IH.
Qed.

(** Every character of a printed time of day satisfies [p] when digits, [:] and [.] do. *)
Lemma iso_time_forallb p us :
  (forall k, 0 <= k < 10 -> p (chr (48 + k)) = true) -> p ":"%char = true -> p "."%char = true ->
  str_forallb p (iso_time us) = true.
Proof.
  intros Hd Hc Hp. unfold iso_time. rewrite !str_forallb_app, !pad_digits_forallb by done.
  cbn [str_forallb andb]. rewrite Hc. cbn [str_forallb andb].
  destruct (us mod 1000000 =? 0); [done|].
  rewrite str_forallb_app, pad_digits_forallb by done. cbn [str_forallb andb]. by rewrite Hp.
Qed.

Lemma parse_hms_iso_time us :
  0 <= us < us_per_day ->
  parse_hms (iso_time us)
  = Some (us / 1000000 / 3600, us / 1000000 / 60 mod 60, us / 1000000 mod 60, us mod 1000000).
Proof.
  unfold us_per_day. intros Hus. unfold parse_hms, iso_time.
  rewrite take_pad_digits0 by (cbn; dlia). cbn [mbind option_bind].
  rewrite str_append_cons, str_append_nil_l. cbn [take_char]. rewrite decide_True by done. cbn [mbind option_bind].
  rewrite take_pad_digits0 by (cbn; dlia). cbn [mbind option_bind].
  rewrite str_append_cons, str_append_nil_l. cbn [take_char]. rewrite decide_True by done. cbn [mbind option_bind].
  rewrite take_pad_digits0 by (cbn; dlia). cbn [mbind option_bind].
  destruct (Z.eqb_spec (us mod 1000000) 0) as [->|H0]; [done|].
  unfold parse_fraction. rewrite str_append_cons, str_append_nil_l. cbn [take_char].
  rewrite decide_True by done. cbn [mbind option_bind].
  rewrite pad_digits_length. rewrite <- (str_append_nil_r (pad_digits 6 _)).
  rewrite take_pad_digits0 by (cbn; dlia). done.
Qed.

Lemma fromisoformat_isoformat t :
  valid_us t -> fromisoformat (isoformat_utc t) = Ok (utc t).
Proof.
  unfold valid_us, max_us. intros Ht. unfold fromisoformat, isoformat_utc, iso_date.
  assert (exists us days, t mod us_per_day = us /\ t / us_per_day = days /\ 0 <= us < us_per_day
    /\ 0 <= days < max_ordinal /\ t = days * us_per_day + us) as (us & days & -> & -> & Hus & Hdays & ->).
  { eexists _, _. split_and!; [done|done|..]; unfold us_per_day in *; dlia. }
  pose proof (ord_to_ymd_ok (days + 1) ltac:(lia)) as Hymd.
  destruct (ord_to_ymd (days + 1)) as [[y m] d] eqn:E. clear E.
  destruct Hymd as (Hy & Hm & Hd & Hord).
  assert (1 <= m <= 12 /\ 1 <= d <= 31) as [Hm' Hd'].
  { unfold in_range in *. assert (days_in_month_leap (is_leap y) m <= 31).
    { unfold days_in_month_leap. repeat case_match; lia. } lia. }
  unfold parse_iso, parse_date. rewrite !str_append_assoc.
  rewrite take_pad_digits0 by (cbn; lia). cbn [mbind option_bind].
  rewrite !str_append_cons, !str_append_nil_l. cbn [take_char]. rewrite decide_True by done. cbn [mbind option_bind].
  rewrite take_pad_digits0 by (cbn; lia). cbn [mbind option_bind].
  cbn [take_char]. rewrite decide_True by done. cbn [mbind option_bind].
  rewrite take_pad_digits0 by (cbn; lia). cbn [mbind option_bind].
  destruct (iso_time us +:+ "+00:00") as [|c0 s0] eqn:E0.
  { unfold iso_time in E0. apply (f_equal String.length) in E0.
    rewrite !str_length_app, !pad_digits_length in E0. cbn in E0. lia. }
  rewrite <- E0. clear c0 s0 E0.
  unfold parse_time.
  rewrite split_at_none, split_at_app.
  - rewrite parse_hms_iso_time by done. cbn [mbind option_bind].
    change (parse_offset 1 "00:00") with (Some 0). cbn [mbind option_bind].
    unfold make_datetime, in_range at 4 5 6 7. unfold us_per_day in Hus. unfold in_range at 1.
    rewrite Hm, Hd, Hord.
    assert ((1 <=? y) && (y <=? 9999) && true && true
      && ((0 <=? us / 1000000 / 3600) && (us / 1000000 / 3600 <=? 23))
      && ((0 <=? us / 1000000 / 60 mod 60) && (us / 1000000 / 60 mod 60 <=? 59))
      && ((0 <=? us / 1000000 mod 60) && (us / 1000000 mod 60 <=? 59))
      && ((0 <=? us mod 1000000) && (us mod 1000000 <=? 999999)) = true) as -> by dlia.
    cbn [of_option]. unfold utc. do 2 f_equal. unfold hms_us, us_per_day. dlia.
  - apply iso_time_forallb; [|done|done]. intros k Hk. clear -Hk. small_cases k 10%nat.
  - rewrite str_forallb_app. apply andb_true_intro. split; [|done].
    apply iso_time_forallb; [|done|done]. intros k Hk. clear -Hk. small_cases k 10%nat.
Qed.
