(* ===== verification/Crypto.v ===== *)
(** * crypto_core: canonicalisation, hashing, signing

    Models [crypto_core/canonical.py], [crypto_core/hashing.py] and [crypto_core/signing.py].
    The packages [rfc8785] and [cryptography] and the digests of [hashlib] are interfaces:
    classes of operations, and classes of the laws their documentation states.  The functions
    of the sources are defined over the operations alone; a theorem that needs a law takes it
    as an instance. *)

From S2P Require Import Prelude PyStr Json.

#[local] Open Scope Z_scope.

(** ** Interfaces *)

(** [hashlib.sha3_256] and [hashlib.sha256], as digests of 32 bytes. *)
Class Hashlib := {
  sha3_256 : bytes -> bytes;
  sha256 : bytes -> bytes;
  sha3_256_length b : length (sha3_256 b) = 32%nat;
  sha256_length b : length (sha256 b) = 32%nat;
}.

(** [rfc8785.dumps]: it may raise on values RFC 8785 cannot represent. *)
Class Rfc8785 := { rfc8785_dumps : json -> result bytes }.

(** A canonical form does not depend on the order of keys, and determines the value up to
    it. *)
Class Rfc8785Laws `{Rfc8785} := {
  rfc8785_proper :: Proper (json_equiv ==> eq) rfc8785_dumps;
  rfc8785_inj a b x :
    json_wf a -> json_wf b -> rfc8785_dumps a = Ok x -> rfc8785_dumps b = Ok x -> json_equiv a b;
}.

(** The keys and primitives of [cryptography].  A loaded public key is an Ed25519 key, an
    elliptic-curve key, or of a type the sources do not support. *)
Class Cryptography := {
  Ed25519PrivateKey : Type;
  Ed25519PublicKey : Type;
  EllipticCurvePublicKey : Type;
  ed_public_key : Ed25519PrivateKey -> Ed25519PublicKey;
  ed_sign : Ed25519PrivateKey -> bytes -> bytes;
  ed_verify : Ed25519PublicKey -> bytes -> bytes -> result unit;
  ed_private_raw : Ed25519PrivateKey -> bytes;
  ed_private_pem : Ed25519PrivateKey -> bytes;
  ed_public_raw : Ed25519PublicKey -> bytes;
  ed_public_pem : Ed25519PublicKey -> bytes;
  ed_private_from_raw : bytes -> result Ed25519PrivateKey;
  ed_public_from_raw : bytes -> result Ed25519PublicKey;
  load_pem_private_key : bytes -> result (option Ed25519PrivateKey);
  load_pem_public_key : bytes -> result (Ed25519PublicKey + EllipticCurvePublicKey + unit);
  load_der_public_key : bytes -> result (Ed25519PublicKey + EllipticCurvePublicKey + unit);
  ec_is_p256 : EllipticCurvePublicKey -> bool;
  ec_verify_sha256 : EllipticCurvePublicKey -> bytes -> bytes -> result unit;
  ec_public_der : EllipticCurvePublicKey -> bytes;
  ec_public_numbers : EllipticCurvePublicKey -> Z * Z;
  ec_p256_from_numbers : Z -> Z -> result EllipticCurvePublicKey;
  encode_dss_signature : Z -> Z -> bytes;
  aesgcm_encrypt : bytes -> bytes -> bytes -> bytes;
  aesgcm_decrypt : bytes -> bytes -> bytes -> result bytes;
}.

(** What the documentation of [cryptography] promises about them. *)
Class CryptographyLaws `{Cryptography} := {
  ed_verify_sign k d : ed_verify (ed_public_key k) (ed_sign k d) d = Ok tt;
  ed_private_raw_roundtrip k : ed_private_from_raw (ed_private_raw k) = Ok k;
  ed_public_raw_roundtrip k : ed_public_from_raw (ed_public_raw k) = Ok k;
  ed_public_raw_length k : length (ed_public_raw k) = 32%nat;
  ed_private_pem_roundtrip k : load_pem_private_key (ed_private_pem k) = Ok (Some k);
  ed_public_pem_roundtrip k : load_pem_public_key (ed_public_pem k) = Ok (inl (inl k));
  ec_der_roundtrip k : load_der_public_key (ec_public_der k) = Ok (inl (inr k));
  ec_numbers_roundtrip k :
    ec_is_p256 k = true ->
    0 <= (ec_public_numbers k).1 < 256 ^ 32 /\ 0 <= (ec_public_numbers k).2 < 256 ^ 32 /\
    ec_p256_from_numbers (ec_public_numbers k).1 (ec_public_numbers k).2 = Ok k;
  aesgcm_roundtrip key nonce d : aesgcm_decrypt key nonce (aesgcm_encrypt key nonce d) = Ok d;
  aesgcm_length key nonce d : length (aesgcm_encrypt key nonce d) = (length d + 16)%nat;
}.

(** ** canonical.py and hashing.py *)

Section Hashing.
Context `{Hashlib, Rfc8785}.

Definition canonicalize (data : json) : result bytes :=
  match data with
  | JObj _ => rfc8785_dumps data
  | _ => raise TypeError "data must be a dictionary"
  end.

Definition hash_payload (data : json) : result bytes :=
  b ← canonicalize data; Ok (sha3_256 b).

#[global] Arguments hash_payload : simpl never.

(** No two different elements of [l] have the same SHA3-256 digest. *)
Definition collision_free (l : list bytes) : Prop :=
  forall x y, x ∈ l -> y ∈ l -> sha3_256 x = sha3_256 y -> x = y.

(** [hash_payload(data).hex()]. *)
Definition hash_hex (data : json) : result string := h ← hash_payload data; Ok (hex h).

#[export] Instance collision_free_dec l : Decision (collision_free l).
Proof.
  refine (cast_if (decide (Forall (fun x => Forall (fun y => sha3_256 x = sha3_256 y -> x = y) l) l)));
    unfold collision_free.
  - abstract (intros x y Hx Hy; rewrite Forall_forall in f; specialize (f x Hx);
      rewrite Forall_forall in f; auto).
  - abstract (intros Hc; apply n; apply Forall_forall; intros x Hx; apply Forall_forall; intros y Hy; auto).
Defined.

Lemma collision_free_subset l k : k ⊆ l -> collision_free l -> collision_free k.
Proof. intros Hk Hl x y Hx Hy. apply Hl; by apply Hk. Qed.

Lemma hash_payload_obj d b :
  rfc8785_dumps (JObj d) = Ok b -> hash_payload (JObj d) = Ok (sha3_256 b).
Proof. intros E. unfold hash_payload, canonicalize. by rewrite E. Qed.

(** A digest comes from a canonical form, and has 32 bytes. *)
Lemma hash_payload_inv data h :
  hash_payload data = Ok h -> exists b, rfc8785_dumps data = Ok b /\ h = sha3_256 b.
Proof.
  unfold hash_payload, canonicalize. intros E. destruct data; inv_result; eauto.
Qed.

Lemma hash_payload_length data h : hash_payload data = Ok h -> length h = 32%nat.
Proof. intros (b & _ & ->)%hash_payload_inv. apply sha3_256_length. Qed.

Lemma hash_hex_length data s : hash_hex data = Ok s -> String.length s = 64%nat.
Proof.
  unfold hash_hex. intros E. inv_result. rewrite hex_length. by erewrite hash_payload_length.
Qed.

End Hashing.

(** ** signing.py *)

Section Signing.
Context `{Cryptography}.

(** The objects a caller may pass where the sources check [isinstance]. *)
Inductive pyobj :=
| ObjBytes (b : bytes)
| ObjEdPrivate (k : Ed25519PrivateKey)
| ObjEdPublic (k : Ed25519PublicKey)
| ObjEcPublic (k : EllipticCurvePublicKey)
| ObjOther.

(** The result of a key loader. *)
Definition obj_of_loaded (k : Ed25519PublicKey + EllipticCurvePublicKey + unit) : pyobj :=
  match k with
  | inl (inl k) => ObjEdPublic k
  | inl (inr k) => ObjEcPublic k
  | inr _ => ObjOther
  end.

(** The key [Ed25519PrivateKey.generate()] answers is an argument. *)
Definition generate_keypair (private_key : Ed25519PrivateKey) : Ed25519PrivateKey * Ed25519PublicKey :=
  (private_key, ed_public_key private_key).

Definition sign (private_key data : pyobj) : result bytes :=
  match private_key with
  | ObjEdPrivate k =>
      match data with
      | ObjBytes d => Ok (ed_sign k d)
      | _ => raise TypeError "data must be bytes"
      end
  | _ => raise TypeError "private_key must be an Ed25519PrivateKey"
  end.

(** The raw [r || s] form of Web Crypto, re-encoded for the library. *)
Definition dss_of_raw (signature : bytes) : bytes :=
  encode_dss_signature (int_from_bytes_big (take 32 signature)) (int_from_bytes_big (drop 32 signature)).

(** The body of the [try] block: [Ok false] is its [return False]. *)
Definition verify_body (public_key : pyobj) (signature data : bytes) : result bool :=
  match public_key with
  | ObjEdPublic k => _ ← ed_verify k signature data; Ok true
  | ObjEcPublic k =>
      if ec_is_p256 k && (length signature =? 64)%nat
      then _ ← ec_verify_sha256 k (dss_of_raw signature) data; Ok true
      else Ok false
  | _ => Ok false
  end.

Definition verify (public_key signature data : pyobj) : result bool :=
  match public_key with
  | ObjEdPublic _ | ObjEcPublic _ =>
      match signature, data with
      | ObjBytes s, ObjBytes d =>
          try_except (verify_body public_key s d) [InvalidSignature; ValueError] (fun _ => Ok false)
      | _, _ => raise TypeError "signature and data must be bytes"
      end
  | _ => raise TypeError "public_key must be an Ed25519PublicKey or P-256 public key"
  end.

Definition serialize_private_key_raw (private_key : pyobj) : result bytes :=
  match private_key with
  | ObjEdPrivate k => Ok (ed_private_raw k)
  | _ => raise TypeError "private_key must be an Ed25519PrivateKey"
  end.

Definition deserialize_private_key_raw (raw_key : pyobj) : result Ed25519PrivateKey :=
  match raw_key with
  | ObjBytes b => ed_private_from_raw b
  | _ => raise TypeError "raw_key must be bytes"
  end.

Definition serialize_public_key_raw (public_key : pyobj) : result bytes :=
  match public_key with
  | ObjEdPublic k => Ok (ed_public_raw k)
  | _ => raise TypeError "public_key must be an Ed25519PublicKey"
  end.

Definition deserialize_public_key_raw (raw_key : pyobj) : result Ed25519PublicKey :=
  match raw_key with
  | ObjBytes b => ed_public_from_raw b
  | _ => raise TypeError "raw_key must be bytes"
  end.

Definition serialize_private_key_pem (private_key : pyobj) : result bytes :=
  match private_key with
  | ObjEdPrivate k => Ok (ed_private_pem k)
  | _ => raise TypeError "private_key must be an Ed25519PrivateKey"
  end.

Definition deserialize_private_key_pem (pem_key : pyobj) : result Ed25519PrivateKey :=
  match pem_key with
  | ObjBytes b =>
      k ← load_pem_private_key b;
      of_option k TypeError "PEM does not contain an Ed25519 private key"
  | _ => raise TypeError "pem_key must be bytes"
  end.

Definition serialize_public_key_pem (public_key : pyobj) : result bytes :=
  match public_key with
  | ObjEdPublic k => Ok (ed_public_pem k)
  | _ => raise TypeError "public_key must be an Ed25519PublicKey"
  end.

Definition deserialize_public_key_pem (pem_key : pyobj) : result Ed25519PublicKey :=
  match pem_key with
  | ObjBytes b =>
      k ← load_pem_public_key b;
      match k with
      | inl (inl k) => Ok k
      | _ => raise TypeError "PEM does not contain an Ed25519 public key"
      end
  | _ => raise TypeError "pem_key must be bytes"
  end.

(** The loader shared by the registry, the verifier and the portal: DER, or 32 raw bytes of an
    Ed25519 key.  [short] and [unsupported] are the messages of the caller's two errors; [None]
    re-raises the loader's own error. *)
Definition load_key_bytes (short : option string) (unsupported : string) (key_bytes : bytes) : result pyobj :=
  match load_der_public_key key_bytes with
  | Ok (inr _) => raise ValueError unsupported
  | Ok k => Ok (obj_of_loaded k)
  | Raise e =>
      if catches [ValueError] e then
        if (length key_bytes =? 32)%nat then k ← ed_public_from_raw key_bytes; Ok (ObjEdPublic k)
        else match short with Some m => raise ValueError m | None => Raise e end
      else Raise e
  end.

Definition is_bytes (o : pyobj) : bool := match o with ObjBytes _ => true | _ => false end.
Definition is_public (o : pyobj) : bool :=
  match o with ObjEdPublic _ | ObjEcPublic _ => true | _ => false end.

(** ** Lemmas *)

Lemma load_key_bytes_public short unsupported b o :
  load_key_bytes short unsupported b = Ok o -> is_public o = true.
Proof.
  unfold load_key_bytes. destruct (load_der_public_key b) as [[[k|k]|[]]|e]; intros E; inv_result; try done.
  repeat case_match; inv_result; done.
Qed.

(** On byte arguments and a supported key, [verify] answers, or passes on an exception of the
    library that is neither [InvalidSignature] nor a [ValueError]. *)
Lemma verify_public_cases o s d :
  is_public o = true ->
  (exists b, verify o (ObjBytes s) (ObjBytes d) = Ok b) \/
  (exists e, verify o (ObjBytes s) (ObjBytes d) = Raise e /\ catches [InvalidSignature; ValueError] e = false).
Proof.
  intros Hp. unfold verify, try_except. destruct o; try done;
    (destruct (verify_body _ s d) as [b|e]; [left; by eexists|]);
    (destruct (catches _ e) eqn:He; [left; by eexists|right; by eexists]).
Qed.

Lemma verify_ed_true k s d :
  verify (ObjEdPublic k) (ObjBytes s) (ObjBytes d) = Ok true <-> ed_verify k s d = Ok tt.
Proof.
  unfold verify, verify_body, try_except. destruct (ed_verify k s d) as [[]|e]; cbn; [done|].
  split; [|done]. case_match; done.
Qed.

(** A P-256 verification succeeds exactly on 64-byte signatures the library accepts. *)
Lemma verify_ec_true k s d :
  verify (ObjEcPublic k) (ObjBytes s) (ObjBytes d) = Ok true <->
  ec_is_p256 k = true /\ length s = 64%nat /\ ec_verify_sha256 k (dss_of_raw s) d = Ok tt.
Proof.
  unfold verify, verify_body, try_except. destruct (ec_is_p256 k); cbn; [|naive_solver].
  destruct (Nat.eqb_spec (length s) 64) as [Hl|Hl]; [|naive_solver].
  destruct (ec_verify_sha256 _ _ d) as [[]|e]; cbn; [done|].
  split; [case_match; done|by intros (_ & _ & ?)].
Qed.

End Signing.

(** ** Theorems *)

(** Key serialisation: every serialiser is inverted by its deserialiser, raw and PEM, private
    and public. *)
Theorem key_serialization_roundtrips `{CryptographyLaws} (k : Ed25519PrivateKey) :
  (b ← serialize_private_key_raw (ObjEdPrivate k); deserialize_private_key_raw (ObjBytes b)) = Ok k /\
  (b ← serialize_private_key_pem (ObjEdPrivate k); deserialize_private_key_pem (ObjBytes b)) = Ok k /\
  (b ← serialize_public_key_raw (ObjEdPublic (ed_public_key k)); deserialize_public_key_raw (ObjBytes b))
    = Ok (ed_public_key k) /\
  (b ← serialize_public_key_pem (ObjEdPublic (ed_public_key k)); deserialize_public_key_pem (ObjBytes b))
    = Ok (ed_public_key k).
Proof.
  cbn. rewrite ed_private_raw_roundtrip, ed_public_raw_roundtrip, ed_private_pem_roundtrip,
    ed_public_pem_roundtrip. done.
Qed.
