(* ===== verification/Instances.v ===== *)
(** * Concrete instances of the library interfaces

    Small executable functions with which every interface of [Crypto.v] is inhabited and its
    laws hold.  They make no claim about the real primitives: theorems are stated over any
    instance, and these let the witnesses evaluate them at concrete inputs.  They are
    definitions, not global instances; a witness section declares the ones it uses. *)

From S2P Require Import Prelude PyStr Json JsonText Crypto.

#[local] Open Scope Z_scope.

(** A fingerprint of a byte string: a 24-bit rolling sum, padded to the length of a digest. *)
Definition demo_digest (seed : Z) (b : bytes) : bytes :=
  int_to_bytes_big 32 (fold_left (fun acc x => Z.land (acc * 33 + byte_to_Z x) 16777215) b seed).

#[program] Definition demo_hashlib : Hashlib :=
  {| sha3_256 := demo_digest 7; sha256 := demo_digest 11 |}.
Next Obligation. intros. apply length_int_to_bytes_big. Qed.
Next Obligation. intros. apply length_int_to_bytes_big. Qed.

(** Sorted keys, no whitespace. *)
Definition demo_rfc8785 : Rfc8785 :=
  {| rfc8785_dumps d := Ok (utf8_encode (json_dumps (canon d))) |}.

Lemma demo_rfc8785_laws : @Rfc8785Laws demo_rfc8785.
Proof.
  split.
  - intros a b Hab. unfold rfc8785_dumps, demo_rfc8785. by rewrite Hab.
  - intros a b x Ha Hb [= Ea] [= Eb].
    assert (json_dumps (canon a) = json_dumps (canon b)) as E.
    { rewrite <- Eb in Ea. by apply utf8_encode_inj in Ea. }
    pose proof (json_loads_dumps _ (canon_wf a Ha)) as La.
    rewrite E, (json_loads_dumps _ (canon_wf b Hb)) in La. by injection La.
Qed.

(** Keys: an Ed25519 key is 32 bytes, the public half equal to the private one; a curve key is
    a pair of 32-byte coordinates with a flag for P-256. *)
Definition demo_ed : Type := dsig (fun b : bytes => length b = 32%nat).

Definition demo_ed_of (b : bytes) : result demo_ed :=
  match decide (length b = 32%nat) with
  | left H => Ok (dexist b H)
  | right _ => raise ValueError "An Ed25519 key is 32 bytes long"
  end.

Definition coordinates_ok (k : Z * Z * bool) : Prop :=
  0 <= k.1.1 < 256 ^ 32 /\ 0 <= k.1.2 < 256 ^ 32.
#[export] Instance coordinates_ok_dec k : Decision (coordinates_ok k).
Proof. unfold coordinates_ok. apply _. Defined.

Definition demo_ec : Type := dsig coordinates_ok.

Definition demo_ec_of (k : Z * Z * bool) : result demo_ec :=
  match decide (coordinates_ok k) with
  | left H => Ok (dexist k H)
  | right _ => raise ValueError "invalid coordinates"
  end.

Definition demo_mac (k d : bytes) : bytes := demo_digest 13 (k ++ d).

Definition demo_check (expected got : bytes) : result unit :=
  if decide (expected = got) then Ok tt else raise InvalidSignature EmptyString.

Definition demo_ec_bytes (k : demo_ec) : bytes :=
  int_to_bytes_big 32 (`k).1.1 ++ int_to_bytes_big 32 (`k).1.2.

Definition demo_der (k : demo_ec) : bytes :=
  x02 :: (if (`k).2 then x01 else x00) :: demo_ec_bytes k.

Definition demo_pem (b : bytes) : bytes := x01 :: b.

Definition demo_load (b : bytes) : result (demo_ed + demo_ec + unit) :=
  match b with
  | x01 :: k => k ← demo_ed_of k; Ok (inl (inl k))
  | x02 :: f :: k =>
      k ← demo_ec_of (int_from_bytes_big (take 32 k), int_from_bytes_big (drop 32 k), bool_decide (f = x01));
      Ok (inl (inr k))
  | [x03] => Ok (inr tt)
  | _ => raise ValueError "Could not deserialize key data."
  end.

Definition demo_dss (r s : Z) : bytes := int_to_bytes_big 32 r ++ int_to_bytes_big 32 s.

(** A curve signature in raw form: the keyed fingerprint twice. *)
Definition demo_ec_sign (k : demo_ec) (d : bytes) : bytes :=
  demo_mac (demo_ec_bytes k) d ++ demo_mac (demo_ec_bytes k) d.

Definition demo_cryptography : Cryptography :=
  {| Ed25519PrivateKey := demo_ed; Ed25519PublicKey := demo_ed; EllipticCurvePublicKey := demo_ec;
     ed_public_key k := k;
     ed_sign k d := demo_mac (`k) d;
     ed_verify k s d := demo_check (demo_mac (`k) d) s;
     ed_private_raw k := `k; ed_private_pem k := demo_pem (`k);
     ed_public_raw k := `k; ed_public_pem k := demo_pem (`k);
     ed_private_from_raw := demo_ed_of; ed_public_from_raw := demo_ed_of;
     load_pem_private_key b :=
       k ← demo_load b; Ok (match k with inl (inl k) => Some k | _ => None end);
     load_pem_public_key := demo_load; load_der_public_key := demo_load;
     ec_is_p256 k := (`k).2;
     ec_verify_sha256 k s d := demo_check (demo_ec_sign k d) s;
     ec_public_der := demo_der;
     ec_public_numbers k := (`k).1;
     ec_p256_from_numbers x y := demo_ec_of (x, y, true);
     encode_dss_signature := demo_dss;
     aesgcm_encrypt key nonce d := d ++ take 16 (demo_mac (key ++ nonce) d);
     aesgcm_decrypt key nonce c :=
       let d := take (length c - 16) c in
       if decide (drop (length c - 16) c = take 16 (demo_mac (key ++ nonce) d))
       then Ok d else raise InvalidTag EmptyString |}.

Lemma demo_ed_of_raw (k : demo_ed) : demo_ed_of (`k) = Ok k.
Proof.
  unfold demo_ed_of. destruct (decide _) as [H|H].
  - f_equal. by apply dsig_eq.
  - destruct H. apply (proj2_dsig k).
Qed.

Lemma demo_ec_of_raw (k : demo_ec) : demo_ec_of (`k) = Ok k.
Proof.
  unfold demo_ec_of. destruct (decide _) as [H|H].
  - f_equal. by apply dsig_eq.
  - destruct H. apply (proj2_dsig k).
Qed.

Lemma demo_load_der k : demo_load (demo_der k) = Ok (inl (inr k)).
Proof.
  unfold demo_der, demo_ec_bytes. cbn [demo_load].
  rewrite take_app_length', drop_app_length' by (symmetry; apply length_int_to_bytes_big).
  pose proof (proj2_dsig k) as [Hx Hy].
  rewrite !int_from_to_bytes_big by done.
  assert (bool_decide ((if (`k).2 then x01 else x00) = x01) = (`k).2) as -> by by destruct (`k).2.
  replace ((`k).1.1, (`k).1.2, (`k).2) with (`k) by by destruct (`k) as [[] ].
  by rewrite demo_ec_of_raw.
Qed.

Lemma demo_ec_numbers (k : demo_ec) :
  (`k).2 = true ->
  0 <= (`k).1.1 < 256 ^ 32 /\ 0 <= (`k).1.2 < 256 ^ 32 /\
  demo_ec_of ((`k).1.1, (`k).1.2, true) = Ok k.
Proof.
  intros Hk. pose proof (proj2_dsig k) as [Hx Hy]. split; [exact Hx|]. split; [exact Hy|].
  rewrite <- (demo_ec_of_raw k). f_equal. destruct (`k) as [[x y] f]. cbn in *. by subst.
Qed.

Lemma demo_check_refl x : demo_check x x = Ok tt.
Proof. unfold demo_check. by rewrite decide_True. Qed.

Lemma demo_pem_load (k : demo_ed) : demo_load (demo_pem (`k)) = Ok (inl (inl k)).
Proof. unfold demo_pem. cbn [demo_load]. by rewrite demo_ed_of_raw. Qed.

Lemma demo_mac_length k d : length (demo_mac k d) = 32%nat.
Proof. apply length_int_to_bytes_big. Qed.

Lemma demo_aesgcm_length k d : length (d ++ take 16 (demo_mac k d)) = (length d + 16)%nat.
Proof. rewrite length_app, length_take, demo_mac_length. done. Qed.

Lemma demo_aesgcm_roundtrip k d :
  (let c := d ++ take 16 (demo_mac k d) in
   let d' := take (length c - 16) c in
   if decide (drop (length c - 16) c = take 16 (demo_mac k d')) then Ok d'
   else raise InvalidTag EmptyString) = Ok d.
Proof.
  cbv zeta. rewrite demo_aesgcm_length. replace (length d + 16 - 16)%nat with (length d) by lia.
  rewrite take_app_length, drop_app_length. by rewrite decide_True.
Qed.

Lemma demo_cryptography_laws : @CryptographyLaws demo_cryptography.
Proof.
  split.
  - intros k d. exact (demo_check_refl _).
  - exact demo_ed_of_raw.
  - exact demo_ed_of_raw.
  - intros k. exact (proj2_dsig k).
  - intros k. unfold load_pem_private_key, ed_private_pem, demo_cryptography. by rewrite demo_pem_load.
  - exact demo_pem_load.
  - exact demo_load_der.
  - exact demo_ec_numbers.
  - intros key nonce d. exact (demo_aesgcm_roundtrip _ _).
  - intros key nonce d. exact (demo_aesgcm_length _ _).
Qed.

(** Two keys for the witnesses. *)
Definition demo_key (n : Z) : demo_ed := dexist (int_to_bytes_big 32 n) (length_int_to_bytes_big 32 n).

(** The digest of a payload, as a proof commits it. *)
Definition demo_payload_hash (d : dict) : string :=
  match @hash_hex demo_hashlib demo_rfc8785 (JObj d) with Ok h => h | Raise _ => "" end.
