(* ===== verification/Ledger.v ===== *)
(** * ledger_core/ledger.py: the append-only hash chain

    A ledger is the list [_entries], oldest first.  The operations follow the class method by
    method; an argument the source checks with [isinstance] is a [json] value, and the clock is
    an argument.  [chain_from] is the specification of a valid chain: the theorems say that
    [append] keeps it, that [first_invalid_entry_id] finds its first violation, and that the
    last leaf hash commits every entry. *)

From S2P Require Import Prelude PyStr Json JsonText PyTime Crypto Instances.

#[local] Open Scope Z_scope.

Record LedgerEntry := mkLedgerEntry {
  entry_id : Z;
  entry_type : string;
  content : json;
  timestamp : string;
  prev_hash : bytes;
  leaf_hash : bytes;
}.

Abbreviation Ledger := (list LedgerEntry).

(** [content] replaced in place: what a caller holding a reference to the record can do. *)
Definition set_content (c : json) (e : LedgerEntry) : LedgerEntry :=
  mkLedgerEntry (entry_id e) (entry_type e) c (timestamp e) (prev_hash e) (leaf_hash e).

(** ** Operations *)

Section Operations.
Context `{Hashlib, Rfc8785}.

Definition Ledger_init : Ledger := [].

Definition from_entries (entries : list LedgerEntry) : Ledger :=
  map (fun e => mkLedgerEntry (entry_id e) (entry_type e) (content e) (timestamp e)
                  (prev_hash e) (leaf_hash e)) entries.

Definition leaf_material (content : json) (prev_hash : bytes) : json :=
  JObj [("content", content); ("prev_hash", JStr (hex prev_hash))].

Definition compute_leaf_hash (content : json) (prev_hash : bytes) : result bytes :=
  hash_payload (leaf_material content prev_hash).

(** The hash the next entry must name: [prev] before the first one. *)
Definition end_hash (prev : bytes) (l : Ledger) : bytes :=
  match last l with Some e => leaf_hash e | None => prev end.

(** [self._entries[-1].leaf_hash if self._entries else b""]. *)
Definition last_leaf_hash (l : Ledger) : bytes := end_hash [] l.

Definition is_dict (j : json) : bool := match j with JObj _ => true | _ => false end.

#[global] Arguments compute_leaf_hash : simpl never.

(** The new ledger and the new record; a raised exception leaves the ledger as it was. *)
Definition append (now : Z) (l : Ledger) (entry_type content : json) : result (Ledger * LedgerEntry) :=
  match entry_type with
  | JStr ty =>
      if truthy_str ty then
        if is_dict content then
          let prev_hash := last_leaf_hash l in
          leaf ← compute_leaf_hash content prev_hash;
          let entry := mkLedgerEntry (Z.of_nat (length l) + 1) ty content (isoformat_z now) prev_hash leaf in
          Ok (l ++ [entry], entry)
        else raise TypeError "content must be a dictionary"
      else raise ValueError "entry_type must be a non-empty string"
  | _ => raise ValueError "entry_type must be a non-empty string"
  end.

(** A Python [bool] is an [int]. *)
Definition as_int (j : json) : option Z :=
  match j with JInt z => Some z | JBool b => Some (if b then 1 else 0) | _ => None end.

Definition get_entry (l : Ledger) (entry_id : json) : result LedgerEntry :=
  match as_int entry_id with
  | Some z =>
      if z <? 1 then raise KeyError (str_of_int z)
      else of_option (l !! Z.to_nat (z - 1)) KeyError (str_of_int z)
  | None => raise KeyError EmptyString
  end.

Definition all_entries (l : Ledger) : list LedgerEntry := l.

(** The loop of [first_invalid_entry_id] from a given [expected_prev_hash]. *)
Fixpoint first_invalid_from (expected_prev_hash : bytes) (l : Ledger) : result (option Z) :=
  match l with
  | [] => Ok None
  | e :: l' =>
      expected_leaf_hash ← compute_leaf_hash (content e) expected_prev_hash;
      if negb (bool_decide (prev_hash e = expected_prev_hash))
         || negb (bool_decide (leaf_hash e = expected_leaf_hash))
      then Ok (Some (entry_id e))
      else first_invalid_from (leaf_hash e) l'
  end.

Definition first_invalid_entry_id (l : Ledger) : result (option Z) := first_invalid_from [] l.

Definition verify_chain (l : Ledger) : result bool :=
  r ← first_invalid_entry_id l; Ok (match r with None => true | Some _ => false end).

(** ** Specification *)

(** [e] follows a predecessor whose leaf hash is [prev]. *)
Definition entry_ok (prev : bytes) (e : LedgerEntry) : Prop :=
  prev_hash e = prev /\ compute_leaf_hash (content e) prev = Ok (leaf_hash e).

Fixpoint chain_from (prev : bytes) (l : Ledger) : Prop :=
  match l with
  | [] => True
  | e :: l' => entry_ok prev e /\ chain_from (leaf_hash e) l'
  end.

Definition chain_ok (l : Ledger) : Prop := chain_from [] l.

(** The well-formed ledgers: numbered from 1, with typed dictionaries, chained. *)
Definition ledger_wf (l : Ledger) : Prop :=
  (forall i e, l !! i = Some e -> entry_id e = Z.of_nat i + 1) /\
  Forall (fun e => truthy_str (entry_type e) = true /\ is_dict (content e) = true) l /\
  chain_ok l.

(** The ledgers the interface can produce. *)
Inductive reachable : Ledger -> Prop :=
| reachable_init : reachable Ledger_init
| reachable_append now l ty c l' e : reachable l -> append now l ty c = Ok (l', e) -> reachable l'.

(** The byte strings hashed to commit the entries of [l]. *)
Definition leaf_preimages (l : Ledger) : list bytes :=
  flat_map (fun e => match rfc8785_dumps (leaf_material (content e) (prev_hash e)) with
                     | Ok b => [b] | Raise _ => [] end) l.

(** Two entries commit the same content after the same predecessor. *)
Definition same_entry (e1 e2 : LedgerEntry) : Prop :=
  json_equiv (content e1) (content e2) /\ prev_hash e1 = prev_hash e2 /\ leaf_hash e1 = leaf_hash e2.

(** ** Lemmas *)

Lemma end_hash_cons prev e l : end_hash prev (e :: l) = end_hash (leaf_hash e) l.
Proof.
  unfold end_hash. destruct l as [|x l]; [done|]. cbn [last].
  by destruct (last (x :: l)) eqn:E; [|apply last_None in E].
Qed.

Lemma chain_from_app prev l1 l2 :
  chain_from prev (l1 ++ l2) <-> chain_from prev l1 /\ chain_from (end_hash prev l1) l2.
Proof.
  revert prev. induction l1 as [|e l1 IH]; intros prev; cbn [app chain_from].
  - cbn. tauto.
  - rewrite IH, end_hash_cons. tauto.
Qed.

Lemma chain_ok_snoc l e : chain_ok (l ++ [e]) <-> chain_ok l /\ entry_ok (last_leaf_hash l) e.
Proof. unfold chain_ok, last_leaf_hash. rewrite chain_from_app. cbn. tauto. Qed.

Lemma append_inv now l ty c l' e :
  append now l ty c = Ok (l', e) ->
  exists s leaf, ty = JStr s /\ truthy_str s = true /\ is_dict c = true
    /\ compute_leaf_hash c (last_leaf_hash l) = Ok leaf
    /\ e = mkLedgerEntry (Z.of_nat (length l) + 1) s c (isoformat_z now) (last_leaf_hash l) leaf
    /\ l' = l ++ [e].
Proof.
  unfold append. intros E. destruct ty; try done. destruct (truthy_str s) eqn:Hs; [|done].
  destruct (is_dict c) eqn:Hc; [|done]. inv_result. eauto 10.
Qed.

Lemma ledger_wf_append now l ty c l' e :
  ledger_wf l -> append now l ty c = Ok (l', e) -> ledger_wf l'.
Proof.
  intros (Hid & Hty & Hch) (s & leaf & -> & Hs & Hc & Hleaf & -> & ->)%append_inv. split_and!.
  - intros i x. rewrite lookup_snoc_Some. intros [[Hi Hx]|[-> <-]]; [by apply Hid|done].
  - apply Forall_app; split; [done|]. by constructor.
  - apply chain_ok_snoc. by split.
Qed.

Lemma reachable_wf l : reachable l -> ledger_wf l.
Proof.
  induction 1 as [|now l ty c l' e _ IH E].
  - split_and!; [by intros [|i] e|constructor|done].
  - by eapply ledger_wf_append.
Qed.

Lemma first_invalid_none prev l : first_invalid_from prev l = Ok None <-> chain_from prev l.
Proof.
  revert prev. induction l as [|e l IH]; intros prev; cbn [first_invalid_from chain_from]; [done|].
  unfold entry_ok. destruct (compute_leaf_hash (content e) prev) as [h|ex]; cbn; [|naive_solver].
  repeat case_bool_decide; cbn; naive_solver.
Qed.

(** The reported entry is the first that does not follow its predecessor. *)
Lemma first_invalid_some prev l id :
  first_invalid_from prev l = Ok (Some id) <->
  exists l1 e l2, l = l1 ++ e :: l2 /\ chain_from prev l1 /\ entry_id e = id /\
    is_ok (compute_leaf_hash (content e) (end_hash prev l1)) = true /\ ~ entry_ok (end_hash prev l1) e.
Proof.
  split.
  - revert prev. induction l as [|e l IH]; intros prev; cbn [first_invalid_from]; [done|].
    destruct (compute_leaf_hash (content e) prev) as [h|ex] eqn:Eh; cbn; [|done].
    destruct (_ || _) eqn:Hb; intros E.
    + injection E as <-. exists [], e, l. change (end_hash prev []) with prev. rewrite Eh. split_and!; [done..|].
      intros [Hp H2]. rewrite H2 in Eh. injection Eh as Eh.
      by rewrite !bool_decide_true in Hb by done.
    + apply IH in E as (l1 & x & l2 & -> & Hc & Hid & Hx). apply orb_false_iff in Hb as [H1 H2].
      apply negb_false_iff, bool_decide_eq_true in H1, H2. subst h.
      exists (e :: l1), x, l2. rewrite end_hash_cons. split_and!; [done| |done|apply Hx|apply Hx].
      cbn. split; [by split|done].
  - intros (l1 & e & l2 & -> & Hc & <- & Hok & Hbad). revert prev Hc Hok Hbad.
    induction l1 as [|x l1 IH]; intros prev Hc Hok Hbad; cbn [app first_invalid_from].
    + cbn in *. unfold end_hash in *. cbn in *.
      destruct (compute_leaf_hash (content e) prev) as [h|ex] eqn:Eh; [|done]. cbn.
      repeat case_bool_decide; cbn; try done. destruct Hbad. split; [done|]. by subst.
    + rewrite end_hash_cons in *. destruct Hc as [[Hp Hl] Hc]. rewrite Hl. cbn.
      rewrite !bool_decide_true by done. cbn. by apply IH.
Qed.

Lemma compute_leaf_hash_eq c prev b :
  rfc8785_dumps (leaf_material c prev) = Ok b -> compute_leaf_hash c prev = Ok (sha3_256 b).
Proof. apply hash_payload_obj. Qed.

Lemma elem_of_leaf_preimages e l b :
  e ∈ l -> rfc8785_dumps (leaf_material (content e) (prev_hash e)) = Ok b -> b ∈ leaf_preimages l.
Proof.
  intros He Eb. unfold leaf_preimages. apply list_elem_of_In, in_flat_map.
  exists e. rewrite <- list_elem_of_In, Eb. split; [done|]. left. done.
Qed.

Lemma leaf_preimages_app l1 l2 : leaf_preimages (l1 ++ l2) = leaf_preimages l1 ++ leaf_preimages l2.
Proof. apply flat_map_app. Qed.

Lemma entry_ok_preimage prev e :
  entry_ok prev e ->
  exists b, rfc8785_dumps (leaf_material (content e) (prev_hash e)) = Ok b /\ leaf_hash e = sha3_256 b.
Proof. intros [-> (b & Eb & ->)%hash_payload_inv]. eauto. Qed.

Lemma leaf_material_wf c prev : json_wf c -> json_wf (leaf_material c prev).
Proof.
  intros Hc. apply json_wf_obj. split; cbn.
  - repeat constructor; set_solver.
  - repeat constructor; done.
Qed.

Lemma leaf_material_equiv c1 p1 c2 p2 :
  json_equiv (leaf_material c1 p1) (leaf_material c2 p2) -> json_equiv c1 c2 /\ p1 = p2.
Proof.
  unfold leaf_material. intros He.
  assert (forall c p, NoDup ([("content", c); ("prev_hash", JStr (hex p))] : dict).*1) as Hnd.
  { intros c p. cbn. repeat constructor; set_solver. }
  split.
  - eapply (json_equiv_get_some "content"); [apply Hnd|apply Hnd|exact He|done|done].
  - assert (json_equiv (JStr (hex p1)) (JStr (hex p2))) as [= Hp%hex_inj]; [|done].
    eapply (json_equiv_get_some "prev_hash"); [apply Hnd|apply Hnd|exact He|done|done].
Qed.

(** Equal leaf hashes commit the same content and predecessor. *)
Lemma entry_binding `{!Rfc8785Laws} p1 p2 e1 e2 S :
  collision_free S -> leaf_preimages [e1] ⊆ S -> leaf_preimages [e2] ⊆ S ->
  json_wf (content e1) -> json_wf (content e2) -> entry_ok p1 e1 -> entry_ok p2 e2 ->
  leaf_hash e1 = leaf_hash e2 -> same_entry e1 e2.
Proof.
  intros Hcf Hs1 Hs2 Hw1 Hw2 Hok1 Hok2 Hl.
  destruct (entry_ok_preimage _ _ Hok1) as (b1 & E1 & L1).
  destruct (entry_ok_preimage _ _ Hok2) as (b2 & E2 & L2).
  assert (b1 = b2) as ->.
  { apply Hcf; [apply Hs1|apply Hs2|congruence];
      (eapply elem_of_leaf_preimages; [by left|done]). }
  assert (json_equiv (leaf_material (content e1) (prev_hash e1))
                     (leaf_material (content e2) (prev_hash e2))) as He.
  { eapply rfc8785_inj; eauto using leaf_material_wf. }
  apply leaf_material_equiv in He as [Hc Hp]. by split_and!.
Qed.

Lemma entry_ok_leaf_length prev e : entry_ok prev e -> length (leaf_hash e) = 32%nat.
Proof. intros [_ E]. by eapply hash_payload_length. Qed.

Lemma last_leaf_hash_snoc l e : last_leaf_hash (l ++ [e]) = leaf_hash e.
Proof. unfold last_leaf_hash, end_hash. by rewrite last_snoc. Qed.

(** A non-empty valid chain cannot end in the genesis value. *)
Lemma last_leaf_hash_nil l : chain_ok l -> last_leaf_hash l = [] -> l = [].
Proof.
  destruct l as [|e l _] using rev_ind; [done|]. rewrite chain_ok_snoc, last_leaf_hash_snoc.
  intros [_ Hlen%entry_ok_leaf_length] Hnil. rewrite Hnil in Hlen. done.
Qed.

(** Valid chains with the same last leaf hash agree entry by entry. *)
Lemma chain_binding_aux `{!Rfc8785Laws} l1 l2 S :
  collision_free S -> leaf_preimages l1 ⊆ S -> leaf_preimages l2 ⊆ S ->
  Forall (fun e => json_wf (content e)) l1 -> Forall (fun e => json_wf (content e)) l2 ->
  chain_ok l1 -> chain_ok l2 -> last_leaf_hash l1 = last_leaf_hash l2 ->
  Forall2 same_entry l1 l2.
Proof.
  intros Hcf. revert l2. induction l1 as [|e1 l1 IH] using rev_ind; intros l2 Hs1 Hs2 Hw1 Hw2 Hc1 Hc2 Hl.
  - symmetry in Hl. apply last_leaf_hash_nil in Hl; [by subst|done].
  - destruct l2 as [|e2 l2 _] using rev_ind.
    { apply last_leaf_hash_nil in Hl; [by destruct l1|done]. }
    rewrite chain_ok_snoc in Hc1, Hc2. destruct Hc1 as [Hc1 E1], Hc2 as [Hc2 E2].
    rewrite !last_leaf_hash_snoc in Hl. rewrite !leaf_preimages_app in *.
    apply Forall_app in Hw1 as [Hw1 Hw1'], Hw2 as [Hw2 Hw2']. rewrite Forall_singleton in Hw1', Hw2'.
    assert (same_entry e1 e2) as He by (eapply entry_binding; eauto; set_solver).
    apply Forall2_app; [|by constructor]. apply IH; [set_solver..|done|done|done|done|].
    destruct E1 as [<- _], E2 as [<- _]. apply He.
Qed.

End Operations.

#[export] Hint Resolve reachable_wf ledger_wf_append : aor.

(** ** Theorems *)

Section Theorems.
Context `{Hashlib, Rfc8785}.

(** Every ledger the interface can produce is numbered from 1 and passes [verify_chain]:
    appending never breaks the hash chain. *)
Theorem reachable_ledger_verifies (l : Ledger) :
  reachable l ->
  ledger_wf l /\ verify_chain l = Ok true /\ first_invalid_entry_id l = Ok None.
Proof.
  intros Hr%reachable_wf. split; [done|]. unfold verify_chain, first_invalid_entry_id.
  destruct Hr as (_ & _ & Hc). apply first_invalid_none in Hc. by rewrite Hc.
Qed.

(** [first_invalid_entry_id] answers [None] exactly on valid chains, and otherwise names the
    first entry that does not follow its predecessor. *)
Theorem first_invalid_entry_id_spec (l : Ledger) :
  (first_invalid_entry_id l = Ok None <-> chain_ok l) /\
  (forall id, first_invalid_entry_id l = Ok (Some id) <->
    exists l1 e l2, l = l1 ++ e :: l2 /\ chain_ok l1 /\ entry_id e = id /\
      is_ok (compute_leaf_hash (content e) (last_leaf_hash l1)) = true /\
      ~ entry_ok (last_leaf_hash l1) e).
Proof. split; [apply first_invalid_none|]. intros id. apply first_invalid_some. Qed.

(** A successful [append] adds one entry at the end, under the next number, where [get_entry]
    finds it, and leaves every earlier entry in place; a bad type or content is refused with
    the documented exception. *)
Theorem append_spec (now : Z) (l : Ledger) (ty c : json) :
  (forall s, ty = JStr s -> truthy_str s = true -> is_dict c = true ->
     forall h, compute_leaf_hash c (last_leaf_hash l) = Ok h ->
     exists e l', append now l ty c = Ok (l', e) /\ l' = l ++ [e] /\
       entry_id e = Z.of_nat (length l) + 1 /\ content e = c /\ leaf_hash e = h /\
       prev_hash e = last_leaf_hash l /\
       get_entry l' (JInt (entry_id e)) = Ok e /\
       (forall i, 1 <= i <= Z.of_nat (length l) -> get_entry l' (JInt i) = get_entry l (JInt i))) /\
  ((forall s, ty = JStr s -> truthy_str s = false) ->
     append now l ty c = raise ValueError "entry_type must be a non-empty string") /\
  (forall s, ty = JStr s -> truthy_str s = true -> is_dict c = false ->
     append now l ty c = raise TypeError "content must be a dictionary").
Proof.
  split_and!.
  - intros s -> Hs Hc h Hh. unfold append. rewrite Hs, Hc, Hh. cbn.
    eexists _, _. split_and!; try done; cbn.
    + unfold get_entry; cbn. destruct (Z.ltb_spec (Z.of_nat (length l) + 1) 1); [lia|].
      replace (Z.to_nat _) with (length l) by lia.
      by rewrite list_lookup_middle.
    + intros i Hi. unfold get_entry; cbn. destruct (i <? 1); [done|].
      rewrite lookup_app_l; [done|lia].
  - intros Hbad. unfold append. destruct ty; try done. by rewrite Hbad.
  - intros s -> Hs Hc. unfold append. by rewrite Hs, Hc.
Qed.

(** Tampering is located: replacing the content of one entry of a valid ledger, in place and
    with its stored hashes untouched, makes [first_invalid_entry_id] name that entry, unless
    the two canonical forms collide. *)
Theorem mutation_detected (l : Ledger) (i : nat) (e : LedgerEntry) (c : json) (b b' : bytes) :
  ledger_wf l -> l !! i = Some e ->
  rfc8785_dumps (leaf_material (content e) (prev_hash e)) = Ok b ->
  rfc8785_dumps (leaf_material c (prev_hash e)) = Ok b' ->
  b ≠ b' -> collision_free [b; b'] ->
  first_invalid_entry_id (<[i := set_content c e]> l) = Ok (Some (Z.of_nat i + 1)).
Proof.
  intros (Hid & _ & Hc) Hi Hb Hb' Hne Hcf.
  pose proof (lookup_lt_Some _ _ _ Hi) as Hlt. rewrite insert_take_drop by done.
  rewrite <- (take_drop_middle _ _ _ Hi) in Hc. apply chain_from_app in Hc as [Hc1 [[Hp Hl] _]].
  apply first_invalid_some. eexists _, _, _. split_and!; [done|exact Hc1|exact (Hid _ _ Hi)|..].
  - rewrite <- Hp. cbn [content set_content]. by rewrite (compute_leaf_hash_eq _ _ _ Hb').
  - intros [_ Hl']. cbn [content leaf_hash set_content] in Hl'. rewrite <- Hp in Hl, Hl'.
    rewrite (compute_leaf_hash_eq _ _ _ Hb) in Hl. rewrite (compute_leaf_hash_eq _ _ _ Hb') in Hl'.
    apply Hne, Hcf; [set_solver..|congruence].
Qed.

(** C19. The head of a valid chain commits the whole ledger: two valid ledgers with the same last
    leaf hash hold the same entries, content up to the order of keys, when no two of the
    hashed materials collide. *)
Theorem chain_head_binds `{!Rfc8785Laws} (l1 l2 : Ledger) :
  chain_ok l1 -> chain_ok l2 ->
  Forall (fun e => json_wf (content e)) l1 -> Forall (fun e => json_wf (content e)) l2 ->
  collision_free (leaf_preimages l1 ++ leaf_preimages l2) ->
  last_leaf_hash l1 = last_leaf_hash l2 ->
  length l1 = length l2 /\ Forall2 same_entry l1 l2.
Proof.
  intros Hc1 Hc2 Hw1 Hw2 Hcf Hl.
  assert (Forall2 same_entry l1 l2) as Hf.
  { eapply chain_binding_aux; eauto; set_solver. }
  split; [by eapply Forall2_length|done].
Qed.

End Theorems.

(** ** Witnesses *)

Section Witnesses.
#[local] Existing Instance demo_hashlib.
#[local] Existing Instance demo_rfc8785.
#[local] Existing Instance demo_rfc8785_laws.

Definition demo_append (ty : string) (c : dict) (l : Ledger) : Ledger :=
  match append 0 l (JStr ty) (JObj c) with Ok (l', _) => l' | Raise _ => l end.

Definition demo_ledger : Ledger :=
  demo_append "user_prompt" [("text", JStr "send it"); ("user", JStr "u1")]
    (demo_append "system_prompt" [("text", JStr "be safe")] []).

(** The same ledger with the keys of the second entry in the other order. *)
Definition demo_ledger' : Ledger :=
  demo_append "user_prompt" [("user", JStr "u1"); ("text", JStr "send it")]
    (demo_append "system_prompt" [("text", JStr "be safe")] []).

Lemma demo_append_reachable ty c l : reachable l -> reachable (demo_append ty c l).
Proof.
  intros Hl. unfold demo_append. destruct (append 0 l (JStr ty) (JObj c)) as [[l' e]|] eqn:E; [|done].
  by eapply reachable_append.
Qed.

Lemma demo_ledger_reachable : reachable demo_ledger /\ reachable demo_ledger'.
Proof. split; repeat apply demo_append_reachable; constructor. Qed.

Lemma reachable_ledger_verifies_witness : verify_chain demo_ledger = Ok true /\ length demo_ledger = 2%nat.
Proof. split; [apply (reachable_ledger_verifies demo_ledger), demo_ledger_reachable|vm_compute; done]. Defined.

Lemma append_spec_witness :
  append 0 demo_ledger (JStr "") (JObj []) = raise ValueError "entry_type must be a non-empty string".
Proof. apply (append_spec 0 demo_ledger (JStr "") (JObj [])). intros s [= <-]. done. Defined.

Lemma mutation_detected_witness :
  exists e, demo_ledger !! 1%nat = Some e /\
    first_invalid_entry_id (<[1%nat := set_content (JObj [("text", JStr "send all")]) e]> demo_ledger) = Ok (Some 2).
Proof.
  eexists. split; [vm_compute; reflexivity|].
  eapply (mutation_detected demo_ledger 1).
  - apply reachable_wf, demo_ledger_reachable.
  - vm_compute; reflexivity.
  - vm_compute; reflexivity.
  - vm_compute; reflexivity.
  - vm_compute; discriminate.
  - apply (bool_decide_unpack _). vm_compute. exact I.
Defined.

Lemma chain_head_binds_witness :
  demo_ledger ≠ demo_ledger' /\ Forall2 same_entry demo_ledger demo_ledger'.
Proof.
  split; [vm_compute; discriminate|]. apply (chain_head_binds demo_ledger demo_ledger').
  - apply (reachable_wf demo_ledger), demo_ledger_reachable.
  - apply (reachable_wf demo_ledger'), demo_ledger_reachable.
  - vm_compute; repeat constructor; set_solver.
  - vm_compute; repeat constructor; set_solver.
  - apply (bool_decide_unpack _). vm_compute. exact I.
  - vm_compute; reflexivity.
Defined.
End Witnesses.
