(* ===== verification/Merkle.v ===== *)
(** * ledger_core/merkle.py: Merkle trees and inclusion proofs

    [build_merkle_tree] computes the list of levels as the source's loop does ([build_levels],
    with the number of leaves as fuel, proved enough), [get_proof] walks the levels and
    [verify_merkle_proof] folds a proof back to a root.  [up] is one round of the loop; the
    lemmas describe its elements, from which completeness, soundness and the binding of the
    root follow. *)

From S2P Require Import Prelude PyStr Json JsonText Crypto Instances Ledger.

#[local] Open Scope nat_scope.

Definition LEFT_SIBLING : bytes := [x00].
Definition RIGHT_SIBLING : bytes := [x01].
Definition HASH_SIZE : nat := 32.

Record MerkleTree := mkMerkleTree {
  mt_levels : list (list bytes);
  mt_entry_positions : gmap Z nat;
}.

Section Merkle.
Context `{Hashlib}.

Definition parent_hash (left right : bytes) : bytes := sha3_256 (left ++ right).

(** ** Building *)

(** The loop over the entries: positions by entry number, and the leaves. *)
Fixpoint collect_leaves (position : nat) (positions : gmap Z nat) (entries : list LedgerEntry)
    : result (gmap Z nat * list bytes) :=
  match entries with
  | [] => Ok (positions, [])
  | e :: rest =>
      match positions !! entry_id e with
      | Some _ => raise ValueError (String.append "duplicate entry_id: " (str_of_int (entry_id e)))
      | None =>
          if (length (leaf_hash e) =? HASH_SIZE)%nat then
            '(ps, ls) ← collect_leaves (S position) (<[entry_id e := position]> positions) rest;
            Ok (ps, leaf_hash e :: ls)
          else raise ValueError "each entry leaf_hash must be a 32-byte SHA3-256 digest"
      end
  end.

(** An odd level, its last node doubled. *)
Definition pad_level (level : list bytes) : list bytes :=
  if Nat.even (length level) then level
  else level ++ match last level with Some h => [h] | None => [] end.

Fixpoint pair_hashes (level : list bytes) : list bytes :=
  match level with
  | a :: b :: rest => parent_hash a b :: pair_hashes rest
  | _ => []
  end.

(** One round of the loop. *)
Definition up (level : list bytes) : list bytes := pair_hashes (pad_level level).

(** The levels above [current_level]. *)
Fixpoint build_levels (fuel : nat) (current_level : list bytes) : list (list bytes) :=
  match fuel with
  | O => []
  | S f => if 1 <? length current_level
           then up current_level :: build_levels f (up current_level) else []
  end.

Definition build_merkle_tree (entries : list LedgerEntry) : result MerkleTree :=
  match entries with
  | [] => raise ValueError "cannot build a Merkle tree with no entries"
  | _ =>
      '(entry_positions, leaves) ← collect_leaves 0 ∅ entries;
      Ok (mkMerkleTree (leaves :: build_levels (length leaves) leaves) entry_positions)
  end.

(** [self._levels[-1][0]]. *)
Definition root (t : MerkleTree) : result bytes :=
  level ← of_option (last (mt_levels t)) IndexError "list index out of range";
  of_option (level !! 0) IndexError "list index out of range".

Definition levels (t : MerkleTree) : list (list bytes) := mt_levels t.

(** The loop of [get_proof] over [self._levels[:-1]]. *)
Fixpoint proof_items (levels : list (list bytes)) (index : nat) : result (list bytes) :=
  match levels with
  | [] => Ok []
  | level :: rest =>
      let '(sibling_index, direction) :=
        if index mod 2 =? 0
        then ((if index + 1 <? length level then index + 1 else index), RIGHT_SIBLING)
        else (index - 1, LEFT_SIBLING) in
      sibling ← of_option (level !! sibling_index) IndexError "list index out of range";
      items ← proof_items rest (index / 2);
      Ok ((direction ++ sibling) :: items)
  end.

Definition get_proof (t : MerkleTree) (entry_id : Z) : result (list bytes) :=
  match mt_entry_positions t !! entry_id with
  | None => raise KeyError (String.append "entry_id " (String.append (str_of_int entry_id) " is not in this tree"))
  | Some index => proof_items (removelast (mt_levels t)) index
  end.

(** ** Verifying *)

(** The loop of [verify_merkle_proof]: [None] where the source returns [False]. *)
Fixpoint fold_proof (current_hash : bytes) (proof : list bytes) : option bytes :=
  match proof with
  | [] => Some current_hash
  | item :: rest =>
      if (length item =? HASH_SIZE + 1)%nat then
        let direction := take 1 item in
        let sibling_hash := drop 1 item in
        if bool_decide (direction = LEFT_SIBLING) then fold_proof (parent_hash sibling_hash current_hash) rest
        else if bool_decide (direction = RIGHT_SIBLING) then fold_proof (parent_hash current_hash sibling_hash) rest
        else None
      else None
  end.

Definition verify_merkle_proof (leaf_hash : bytes) (proof : list bytes) (root : bytes) : bool :=
  if negb (length leaf_hash =? HASH_SIZE)%nat || negb (length root =? HASH_SIZE)%nat then false
  else match fold_proof leaf_hash proof with
       | Some current_hash => bool_decide (current_hash = root)
       | None => false
       end.

(** ** Specification *)

(** The pairs hashed to build the levels above [level]. *)
Fixpoint pair_preimages (level : list bytes) : list bytes :=
  match level with
  | a :: b :: rest => (a ++ b) :: pair_preimages rest
  | _ => []
  end.

Fixpoint tree_preimages (fuel : nat) (level : list bytes) : list bytes :=
  match fuel with
  | O => []
  | S f => if 1 <? length level
           then pair_preimages (pad_level level) ++ tree_preimages f (up level) else []
  end.

(** The pairs hashed by [fold_proof]. *)
Fixpoint proof_preimages (current_hash : bytes) (proof : list bytes) : list bytes :=
  match proof with
  | [] => []
  | item :: rest =>
      let sibling_hash := drop 1 item in
      let pair := if bool_decide (take 1 item = LEFT_SIBLING)
                  then sibling_hash ++ current_hash else current_hash ++ sibling_hash in
      pair :: proof_preimages (sha3_256 pair) rest
  end.

(** The value the loop ends on. *)
Definition top (fuel : nat) (level : list bytes) : list bytes := default level (last (build_levels fuel level)).

Definition digests (level : list bytes) : Prop := Forall (fun h => length h = HASH_SIZE) level.

(** ** One round of the loop *)

Lemma pad_level_length level : length (pad_level level) = 2 * ((length level + 1) / 2).
Proof.
  unfold pad_level. destruct (Nat.even (length level)) eqn:E.
  - apply Nat.even_spec in E as [k Hk]. rewrite Hk.
    replace (2 * k + 1) with (1 + k * 2) by lia. rewrite Nat.div_add by lia. cbn. lia.
  - assert (Nat.Odd (length level)) as [k Hk] by (apply Nat.odd_spec; unfold Nat.odd; by rewrite E).
    destruct (last level) eqn:El.
    + rewrite length_app. cbn [length]. rewrite Hk.
      replace (2 * k + 1 + 1) with ((k + 1) * 2) by lia. rewrite Nat.div_mul; lia.
    + apply last_None in El. subst. cbn in Hk. lia.
Qed.

(** The source's index loop: position [k] pairs positions [2k] and [2k+1]. *)
Lemma pair_hashes_lookup level k :
  pair_hashes level !! k = a ← level !! (2 * k); b ← level !! (2 * k + 1); Some (parent_hash a b).
Proof.
  revert k. induction level as [|a|a b l IH] using list_ind2; intros k.
  - done.
  - destruct k as [|k]; [done|]. by replace (2 * S k) with (S (S (2 * k))) by lia.
  - destruct k as [|k]; [done|].
    replace (2 * S k) with (S (S (2 * k))) by lia. cbn. by rewrite IH.
Qed.

Lemma pair_hashes_length level : length (pair_hashes level) = length level / 2.
Proof.
  induction level as [|a|a b l IH] using list_ind2; [done..|].
  cbn [pair_hashes length]. rewrite IH. replace (S (S (length l))) with (length l + 1 * 2) by lia.
  rewrite Nat.div_add by lia. lia.
Qed.

Lemma up_length level : length (up level) = (length level + 1) / 2.
Proof.
  unfold up. rewrite pair_hashes_length, pad_level_length, (Nat.mul_comm 2), Nat.div_mul; lia.
Qed.

Lemma up_shorter level : 1 < length level -> 1 <= length (up level) < length level.
Proof.
  intros Hl. rewrite up_length. split; [apply Nat.div_le_lower_bound; lia|].
  apply Nat.div_lt_upper_bound; lia.
Qed.

Lemma pad_level_lookup level i h :
  pad_level level !! i = Some h ->
  level !! i = Some h \/ (i = length level /\ last level = Some h).
Proof.
  unfold pad_level. destruct (Nat.even _); [by left|]. rewrite lookup_app_Some.
  intros [Hi|[Hle Hi]]; [by left|]. right. destruct (last level) as [x|]; [|done].
  apply list_lookup_singleton_Some in Hi as [Hi ->]. split; [lia|done].
Qed.

Lemma pad_level_elem level h : h ∈ pad_level level -> h ∈ level.
Proof.
  intros [i Hi]%list_elem_of_lookup. apply list_elem_of_lookup.
  apply pad_level_lookup in Hi as [?|[_ Hl]]; [eauto|]. rewrite last_lookup in Hl. eauto.
Qed.

Lemma pad_level_lookup_lt level i h : level !! i = Some h -> pad_level level !! i = Some h.
Proof.
  intros Hi. unfold pad_level. destruct (Nat.even _); [done|].
  rewrite lookup_app_l; [done|by eapply lookup_lt_Some].
Qed.

(** The sibling [get_proof] records. *)
Definition sibling_index (level : list bytes) (index : nat) : nat :=
  if index mod 2 =? 0 then (if index + 1 <? length level then index + 1 else index) else index - 1.

Lemma even_odd_cases i : (i mod 2 = 0 /\ i = 2 * (i / 2)) \/ (i mod 2 = 1 /\ i = 2 * (i / 2) + 1).
Proof. pose proof (Nat.div_mod i 2). pose proof (Nat.mod_upper_bound i 2). lia. Qed.

(** A node, its sibling, and their parent one level up. *)
Lemma up_step level i h :
  level !! i = Some h ->
  exists s, level !! sibling_index level i = Some s /\
    up level !! (i / 2) = Some (if i mod 2 =? 0 then parent_hash h s else parent_hash s h).
Proof.
  intros Hi. unfold sibling_index, up. rewrite pair_hashes_lookup.
  destruct (even_odd_cases i) as [[Hm Hk]|[Hm Hk]]; rewrite Hm; cbn [Nat.eqb]; rewrite <- Hk.
  - rewrite (pad_level_lookup_lt _ _ _ Hi). cbn [mbind option_bind].
    destruct (Nat.ltb_spec (i + 1) (length level)) as [Hlt|Hge].
    + destruct (lookup_lt_is_Some_2 level (i + 1) Hlt) as [s Hs]. exists s.
      split; [done|]. by rewrite (pad_level_lookup_lt _ _ _ Hs).
    + exists h. split; [done|]. pose proof (lookup_lt_Some _ _ _ Hi) as Hlt.
      assert (length level = i + 1) as Hlen by lia.
      unfold pad_level. rewrite Hlen, Hk, Nat.even_add, Nat.even_mul. cbn [Nat.even orb eqb].
      rewrite lookup_app_r by lia. rewrite last_lookup, Hlen.
      replace (pred (i + 1)) with i by lia. rewrite Hi.
      by replace (2 * (i / 2) + 1 - (i + 1)) with 0 by lia.
  - replace (2 * (i / 2)) with (i - 1) by lia. pose proof (lookup_lt_Some _ _ _ Hi) as Hlt.
    destruct (lookup_lt_is_Some_2 level (i - 1)) as [s Hs]; [lia|]. exists s. split; [done|].
    by rewrite (pad_level_lookup_lt _ _ _ Hs), (pad_level_lookup_lt _ _ _ Hi).
Qed.

(** Every node above is the parent of two nodes below. *)
Lemma up_inv level k h :
  up level !! k = Some h ->
  exists a b, a ∈ level /\ b ∈ level /\ h = parent_hash a b /\ a ++ b ∈ pair_preimages (pad_level level).
Proof.
  unfold up. intros Hk.
  assert (exists a b, pad_level level !! (2 * k) = Some a /\ pad_level level !! (2 * k + 1) = Some b
    /\ h = parent_hash a b) as (a & b & Ha & Hb & ->).
  { rewrite pair_hashes_lookup in Hk.
    destruct (_ !! (2 * k)) as [a|]; [|done]. cbn in Hk.
    destruct (pad_level level !! _) as [b|]; [|done]. injection Hk as <-. eauto. }
  exists a, b. split_and!; [apply pad_level_elem, list_elem_of_lookup; eauto..|done|].
  clear Hk. revert k Ha Hb. induction (pad_level level) as [|x|x y l IH] using list_ind2; intros k Ha Hb.
  - done.
  - replace (2 * k + 1) with (S (2 * k)) in Hb by lia. done.
  - destruct k as [|k]; cbn [pair_preimages].
    + cbn in Ha, Hb. injection Ha as ->. injection Hb as ->. left.
    + right. apply (IH k).
      * by replace (2 * S k) with (S (S (2 * k))) in Ha by lia.
      * by replace (2 * S k + 1) with (S (S (2 * k + 1))) in Hb by lia.
Qed.

Lemma up_digests level : digests (up level).
Proof.
  apply Forall_lookup. intros i h (a & b & _ & _ & -> & _)%up_inv. apply sha3_256_length.
Qed.

(** ** The whole loop *)

(** The loop ends on one node; [length level <= S fuel] rounds are enough. *)
Lemma build_levels_last fuel level :
  level ≠ [] -> length level <= S fuel -> exists r, last (level :: build_levels fuel level) = Some [r].
Proof.
  revert level. induction fuel as [|f IH]; intros level Hne Hf.
  - destruct level as [|r [|? ?]]; [done|by exists r|cbn in Hf; lia].
  - cbn [build_levels]. destruct (Nat.ltb_spec 1 (length level)) as [Hl|Hl].
    + pose proof (up_shorter level Hl). change (exists r, last (up level :: build_levels f (up level)) = Some [r]).
      apply IH; [|lia]. intros E. rewrite E in *. cbn in *. lia.
    + destruct level as [|r [|? ?]]; [done|by exists r|cbn in Hl; lia].
Qed.

Lemma build_levels_length fuel level :
  level ≠ [] -> length level <= S fuel -> length (build_levels fuel level) = Nat.log2_up (length level).
Proof.
  revert level. induction fuel as [|f IH]; intros level Hne Hf.
  - destruct level as [|r [|? ?]]; [done|done|cbn in Hf; lia].
  - cbn [build_levels]. destruct (Nat.ltb_spec 1 (length level)) as [Hl|Hl].
    + pose proof (up_shorter level Hl) as Hs. cbn [length]. rewrite IH by (try lia; intros E; rewrite E in *; cbn in *; lia).
      rewrite up_length. symmetry. apply log2_up_half. lia.
    + destruct level as [|r [|? ?]]; [done|done|cbn in Hl; lia].
Qed.

(** More rounds than the height of the level change nothing. *)
Lemma build_levels_enough fuel level :
  level ≠ [] -> Nat.log2_up (length level) <= fuel -> build_levels fuel level = build_levels (Nat.log2_up (length level)) level.
Proof.
  revert level. induction fuel as [|f IH]; intros level Hne Hf; [by replace (Nat.log2_up (length level)) with 0 by lia|].
  cbn [build_levels]. destruct (Nat.ltb_spec 1 (length level)) as [Hl|Hl].
  - pose proof (up_shorter level Hl) as Hs. rewrite log2_up_half in Hf |- * by lia. rewrite <- up_length in Hf |- *.
    cbn [build_levels]. rewrite (proj2 (Nat.ltb_lt _ _)) by done. f_equal. apply IH; [|lia].
    intros E. rewrite E in *. cbn in *. lia.
  - destruct level as [|r [|? ?]]; [done| |cbn in Hl; lia]. done.
Qed.

Lemma proof_items_cons level rest i :
  proof_items (level :: rest) i =
  s ← of_option (level !! sibling_index level i) IndexError "list index out of range";
  items ← proof_items rest (i / 2);
  Ok (((if i mod 2 =? 0 then RIGHT_SIBLING else LEFT_SIBLING) ++ s) :: items).
Proof. cbn [proof_items]. unfold sibling_index. by destruct (i mod 2 =? 0). Qed.

Lemma fold_proof_step h dir s rest :
  length s = HASH_SIZE -> dir = LEFT_SIBLING \/ dir = RIGHT_SIBLING ->
  fold_proof h ((dir ++ s) :: rest)
  = fold_proof (if bool_decide (dir = LEFT_SIBLING) then parent_hash s h else parent_hash h s) rest.
Proof.
  intros Hs [-> | ->]; cbn [fold_proof]; rewrite length_app, Hs; cbn; by rewrite drop_0.
Qed.

(** The proof of a node folds to the root. *)
Lemma proof_items_complete fuel level i h :
  digests level -> level !! i = Some h -> length level <= S fuel ->
  exists items r, proof_items (removelast (level :: build_levels fuel level)) i = Ok items
    /\ last (level :: build_levels fuel level) = Some [r] /\ fold_proof h items = Some r
    /\ length items = length (build_levels fuel level).
Proof.
  revert level i h. induction fuel as [|f IH]; intros level i h Hd Hi Hf.
  - destruct level as [|x [|? ?]]; [done| |cbn in Hf; lia].
    destruct i; [|done]. injection Hi as ->. by exists [], h.
  - cbn [build_levels]. destruct (Nat.ltb_spec 1 (length level)) as [Hl|Hl].
    + destruct (up_step level i h Hi) as (s & Hs & Hup). pose proof (up_shorter level Hl).
      destruct (IH (up level) _ _ (up_digests level) Hup) as (items & r & E1 & E2 & E3 & E4); [lia|].
      exists (((if i mod 2 =? 0 then RIGHT_SIBLING else LEFT_SIBLING) ++ s) :: items), r.
      assert (length s = HASH_SIZE) as Hsl by (unfold digests in Hd; exact (Forall_lookup_1 _ _ _ _ Hd Hs)).
      change (removelast (level :: up level :: build_levels f (up level)))
        with (level :: removelast (up level :: build_levels f (up level))).
      rewrite proof_items_cons, Hs. cbn [of_option mbind result_bind]. rewrite E1.
      split_and!; [done|exact E2| |cbn [length]; by rewrite E4].
      rewrite fold_proof_step by (done || destruct (_ =? _); auto). rewrite <- E3.
      by destruct (i mod 2 =? 0).
    + destruct level as [|x [|? ?]]; [done| |cbn in Hl; lia].
      destruct i; [|done]. injection Hi as ->. by exists [], h.
Qed.

(** A folded proof as long as the tree is high ends on the root only from a leaf. *)
Lemma fold_proof_sound fuel level h items r :
  digests level -> length h = HASH_SIZE -> length items = length (build_levels fuel level) ->
  last (level :: build_levels fuel level) = Some [r] -> fold_proof h items = Some r ->
  collision_free (tree_preimages fuel level ++ proof_preimages h items) ->
  h ∈ level.
Proof.
  revert level h items. induction fuel as [|f IH]; intros level h items Hd Hh Hlen Hlast Hfold Hcf.
  - destruct items; [|done]. injection Hlast as ->. injection Hfold as ->. by left.
  - cbn [build_levels tree_preimages] in *. destruct (1 <? length level) eqn:Hl.
    2: { destruct items; [|done]. injection Hlast as ->. injection Hfold as ->. by left. }
    destruct items as [|it rest]; [done|]. injection Hlen as Hlen.
    cbn [fold_proof proof_preimages] in *.
    destruct (Nat.eqb_spec (length it) (HASH_SIZE + 1)) as [Hit|]; [|done].
    set (pair := if bool_decide (take 1 it = LEFT_SIBLING) then drop 1 it ++ h else h ++ drop 1 it) in *.
    assert (fold_proof (sha3_256 pair) rest = Some r) as Hfold'.
    { subst pair. destruct (bool_decide (take 1 it = LEFT_SIBLING)); [done|].
      by destruct (bool_decide (take 1 it = RIGHT_SIBLING)). }
    assert (sha3_256 pair ∈ up level) as Hup.
    { eapply (IH _ _ rest); eauto using up_digests, sha3_256_length.
      eapply collision_free_subset; [|exact Hcf]. set_solver. }
    apply list_elem_of_lookup in Hup as [k (a & b & Ha & Hb & Hab & Hin)%up_inv].
    assert (pair = a ++ b) as Hpair by (apply Hcf; [set_solver..|exact Hab]).
    unfold digests in Hd. rewrite Forall_forall in Hd. pose proof (Hd a Ha) as La. pose proof (Hd b Hb) as Lb.
    subst pair. unfold HASH_SIZE in *.
    destruct (bool_decide (take 1 it = LEFT_SIBLING)); apply app_inj_1 in Hpair as [Hp1 Hp2]; subst; try done;
      rewrite ?length_drop; lia.
Qed.

Lemma pair_preimages_inj l1 l2 :
  digests l1 -> digests l2 -> length l1 = length l2 -> Nat.even (length l1) = true ->
  collision_free (pair_preimages l1 ++ pair_preimages l2) ->
  pair_hashes l1 = pair_hashes l2 -> l1 = l2.
Proof.
  revert l2. induction l1 as [|x|a b l1 IH] using list_ind2; intros l2 Hd1 Hd2 Hlen Hev Hcf Heq.
  - by destruct l2.
  - done.
  - destruct l2 as [|c [|d l2]]; [done|done|]. cbn [pair_hashes pair_preimages app] in *.
    injection Heq as Hab Heq. injection Hlen as Hlen.
    apply Forall_cons in Hd1 as [La [Lb Hd1]%Forall_cons], Hd2 as [Lc [Ld Hd2]%Forall_cons].
    assert (a ++ b = c ++ d) as E by (apply Hcf; [set_solver..|exact Hab]).
    apply app_inj_1 in E as [-> ->]; [|congruence]. do 2 f_equal.
    apply IH; try done. eapply collision_free_subset; [|exact Hcf]. set_solver.
Qed.

Lemma pad_level_digests level : digests level -> digests (pad_level level).
Proof.
  unfold digests. rewrite !Forall_forall. intros Hd h Hh. by apply Hd, pad_level_elem.
Qed.

Lemma pad_level_even level : Nat.even (length (pad_level level)) = true.
Proof. rewrite pad_level_length. by rewrite Nat.even_mul. Qed.

Lemma pad_level_inj l1 l2 : length l1 = length l2 -> pad_level l1 = pad_level l2 -> l1 = l2.
Proof.
  intros Hlen E. apply list_eq_same_length with (n := length l1); [done|done|].
  intros i x y Hi Hx Hy. apply pad_level_lookup_lt in Hx, Hy. rewrite E in Hx. congruence.
Qed.

(** Two levels of the same size below the same root are equal. *)
Lemma top_binding fuel l1 l2 r :
  digests l1 -> digests l2 -> length l1 = length l2 ->
  last (l1 :: build_levels fuel l1) = Some [r] -> last (l2 :: build_levels fuel l2) = Some [r] ->
  collision_free (tree_preimages fuel l1 ++ tree_preimages fuel l2) ->
  l1 = l2.
Proof.
  revert l1 l2. induction fuel as [|f IH]; intros l1 l2 Hd1 Hd2 Hlen Hr1 Hr2 Hcf.
  - cbn in Hr1, Hr2. congruence.
  - cbn [build_levels tree_preimages] in *. rewrite <- Hlen in *. destruct (1 <? length l1).
    + assert (up l1 = up l2) as Hup.
      { apply IH; [apply up_digests..|by rewrite !up_length, Hlen|exact Hr1|exact Hr2|].
        eapply collision_free_subset; [|exact Hcf]. set_solver. }
      apply pad_level_inj; [done|]. apply pair_preimages_inj; auto using pad_level_digests, pad_level_even.
      * by rewrite !pad_level_length, Hlen.
      * eapply collision_free_subset; [|exact Hcf]. set_solver.
    + cbn in Hr1, Hr2. congruence.
Qed.

(** ** Leaves and positions *)

Lemma collect_leaves_ok pos ps entries :
  (forall e, e ∈ entries -> ps !! entry_id e = None) -> NoDup (entry_id <$> entries) ->
  digests (leaf_hash <$> entries) ->
  exists ps', collect_leaves pos ps entries = Ok (ps', leaf_hash <$> entries)
    /\ (forall id, ps' !! id = match list_find (fun e => entry_id e = id) entries with
                               | Some (i, _) => Some (pos + i) | None => ps !! id end).
Proof.
  revert pos ps. induction entries as [|e entries IH]; intros pos ps Hps Hnd Hd; cbn [collect_leaves].
  - by exists ps.
  - apply NoDup_cons in Hnd as [Hid Hnd]. apply Forall_cons in Hd as [He Hd].
    rewrite Hps by by left. unfold HASH_SIZE in *. rewrite (proj2 (Nat.eqb_eq _ _) He).
    destruct (IH (S pos) (<[entry_id e:=pos]> ps)) as (ps' & E & Hlook); [|done|done|].
    { intros x Hx. rewrite lookup_insert_ne; [apply Hps; by right|].
      intros Heq. apply Hid. rewrite Heq. by apply list_elem_of_fmap_2. }
    rewrite E. exists ps'. split; [done|]. intros id. rewrite Hlook. cbn [list_find].
    case_decide as Hde.
    + subst id. assert (list_find (fun x => entry_id x = entry_id e) entries = None) as ->.
      { apply list_find_None, Forall_forall. intros x Hx Heq. apply Hid. rewrite <- Heq.
        by apply list_elem_of_fmap_2. }
      rewrite lookup_insert_eq. f_equal. lia.
    + destruct (list_find _ entries) as [[i x]|] eqn:Ef; cbn; [f_equal; lia|].
      by rewrite lookup_insert_ne.
Qed.

Lemma collect_leaves_inv pos ps entries ps' ls :
  collect_leaves pos ps entries = Ok (ps', ls) ->
  ls = leaf_hash <$> entries /\ NoDup (entry_id <$> entries) /\ digests ls
  /\ (forall e, e ∈ entries -> ps !! entry_id e = None).
Proof.
  revert pos ps ls. induction entries as [|e entries IH]; intros pos ps ls; cbn [collect_leaves].
  - intros [= <- <-]. split_and!; [done|constructor|constructor|]. intros e He. by apply not_elem_of_nil in He.
  - destruct (ps !! entry_id e) eqn:Hps; [done|].
    destruct (Nat.eqb_spec (length (leaf_hash e)) HASH_SIZE) as [Hl|]; [|done]. intros E.
    destruct (collect_leaves (S pos) _ entries) as [[ps1 ls1]|] eqn:E1; [|done].
    cbn in E. injection E as <- <-. apply IH in E1 as (-> & Hnd & Hd & Hfresh).
    assert (entry_id e ∉ entry_id <$> entries) as Hne.
    { intros (x & Hx & Hin)%list_elem_of_fmap. specialize (Hfresh x Hin).
      by rewrite Hx, lookup_insert_eq in Hfresh. }
    split_and!; [done|by constructor|by constructor|].
    intros x [->|Hx]%elem_of_cons; [done|]. specialize (Hfresh x Hx).
    rewrite lookup_insert_ne in Hfresh; [done|]. intros Heq. apply Hne. rewrite Heq.
    by apply list_elem_of_fmap_2.
Qed.

(** The shape of a built tree. *)
Lemma build_merkle_tree_inv entries t :
  build_merkle_tree entries = Ok t ->
  entries ≠ [] /\ NoDup (entry_id <$> entries) /\ digests (leaf_hash <$> entries) /\
  mt_levels t = (leaf_hash <$> entries) :: build_levels (length entries) (leaf_hash <$> entries).
Proof.
  unfold build_merkle_tree. destruct entries as [|e entries]; [done|].
  destruct (collect_leaves 0 ∅ (e :: entries)) as [[ps ls]|] eqn:E; [|done]. intros [= <-].
  apply collect_leaves_inv in E as (-> & Hnd & Hd & _). split_and!; [done..|]. cbn [mt_levels].
  by rewrite length_fmap.
Qed.

Lemma build_merkle_tree_ok entries :
  entries ≠ [] -> NoDup (entry_id <$> entries) -> digests (leaf_hash <$> entries) ->
  exists t, build_merkle_tree entries = Ok t /\
    (forall id, mt_entry_positions t !! id = fst <$> list_find (fun e => entry_id e = id) entries).
Proof.
  intros Hne Hnd Hd.
  destruct (collect_leaves_ok 0 ∅ entries) as (ps & E & Hps); [done..|].
  unfold build_merkle_tree. destruct entries as [|x entries]; [done|]. rewrite E.
  eexists. split; [reflexivity|]. intros id. cbn [mt_entry_positions]. rewrite Hps.
  by destruct (list_find _ (x :: entries)) as [[i y]|].
Qed.

Lemma root_spec t r : root t = Ok r <-> exists l, last (mt_levels t) = Some l /\ head l = Some r.
Proof.
  unfold root. destruct (last (mt_levels t)) as [l|]; cbn [of_option mbind result_bind].
  - rewrite <- head_lookup. destruct (head l) eqn:E; cbn; naive_solver.
  - naive_solver.
Qed.

Lemma root_of_last t r : last (mt_levels t) = Some [r] -> root t = Ok r.
Proof. intros E. apply root_spec. eauto. Qed.

(** A built tree ends on its root alone. *)
Lemma build_root entries t :
  build_merkle_tree entries = Ok t -> exists r, last (mt_levels t) = Some [r] /\ root t = Ok r.
Proof.
  intros (Hne & _ & _ & El)%build_merkle_tree_inv.
  destruct (build_levels_last (length entries) (leaf_hash <$> entries)) as [r Hr].
  - by destruct entries.
  - rewrite length_fmap. lia.
  - exists r. rewrite El. split; [exact Hr|]. apply root_of_last. by rewrite El.
Qed.

Lemma build_root_last entries t r :
  build_merkle_tree entries = Ok t -> root t = Ok r ->
  last ((leaf_hash <$> entries) :: build_levels (length entries) (leaf_hash <$> entries)) = Some [r].
Proof.
  intros Hb Hr. destruct (build_root _ _ Hb) as (r' & Hl & Hr').
  apply build_merkle_tree_inv in Hb as (_ & _ & _ & El). rewrite <- El. congruence.
Qed.

Lemma verify_merkle_proof_true h proof r :
  verify_merkle_proof h proof r = true <->
  length h = HASH_SIZE /\ length r = HASH_SIZE /\ fold_proof h proof = Some r.
Proof.
  unfold verify_merkle_proof. destruct (Nat.eqb_spec (length h) HASH_SIZE); [|cbn; naive_solver].
  destruct (Nat.eqb_spec (length r) HASH_SIZE); [|cbn; naive_solver]. cbn [negb orb].
  destruct (fold_proof h proof); rewrite ?bool_decide_eq_true; naive_solver.
Qed.

(** More fuel changes nothing. *)
Lemma build_levels_fuel f1 f2 level :
  length level <= S f1 -> length level <= S f2 -> build_levels f1 level = build_levels f2 level.
Proof.
  revert f2 level. induction f1 as [|f1 IH]; intros [|f2] level H1 H2; cbn [build_levels]; [done|..];
    destruct (Nat.ltb_spec 1 (length level)) as [Hl|]; try done; [lia..|].
  pose proof (up_shorter level Hl). rewrite (IH f2); [done|lia..].
Qed.

(** An odd level and the same level with its last node repeated have the same parents. *)
Lemma up_duplicate level h :
  Nat.odd (length level) = true -> last level = Some h -> up (level ++ [h]) = up level.
Proof.
  intros Ho Hl. unfold up, pad_level. rewrite length_app, Nat.add_1_r, Nat.even_succ, Ho, Hl.
  rewrite <- Nat.negb_odd, Ho. done.
Qed.

Lemma list_find_entry_id entries i e :
  NoDup (entry_id <$> entries) -> entries !! i = Some e ->
  list_find (fun x => entry_id x = entry_id e) entries = Some (i, e).
Proof.
  intros Hnd Hi. apply list_find_Some. split_and!; [done|done|]. intros j y Hj Hlt Hy.
  assert (j = i); [|lia].
  apply (NoDup_lookup _ j i (entry_id e) Hnd); rewrite list_lookup_fmap; [by rewrite Hj, <- Hy|by rewrite Hi].
Qed.

Lemma last_level_digest f level r :
  digests level -> last (level :: build_levels f level) = Some [r] -> length r = HASH_SIZE.
Proof.
  revert level. induction f as [|f IH]; intros level Hd; cbn [build_levels].
  - intros [= ->]. by apply Forall_cons in Hd as [].
  - destruct (1 <? length level).
    + intros Hl. apply (IH (up level)); [apply up_digests|exact Hl].
    + intros [= ->]. by apply Forall_cons in Hd as [].
Qed.

Lemma duplicate_levels f1 f2 level h :
  Nat.odd (length level) = true -> 1 < length level -> last level = Some h ->
  length level <= f1 -> length level <= f2 ->
  last ((level ++ [h]) :: build_levels f1 (level ++ [h])) = last (level :: build_levels f2 level).
Proof.
  intros Ho Hl Hh H1 H2. destruct f1 as [|f1]; [lia|]. destruct f2 as [|f2]; [lia|].
  pose proof (up_shorter level Hl) as Hs. cbn [build_levels].
  rewrite length_app. cbn [length]. rewrite (up_duplicate level h Ho Hh).
  rewrite (proj2 (Nat.ltb_lt 1 (length level + 1))) by lia. rewrite (proj2 (Nat.ltb_lt _ _) Hl).
  cbn [last]. by rewrite (build_levels_fuel f1 f2) by lia.
Qed.

End Merkle.

(** ** Theorems *)

Section Theorems.
Context `{Hashlib}.

(** Every entry has a proof that verifies, one hash per level above the leaves. *)
Lemma proof_of_entry (entries : list LedgerEntry) (t : MerkleTree) (e : LedgerEntry) :
  build_merkle_tree entries = Ok t -> e ∈ entries ->
  exists r proof, root t = Ok r /\ get_proof t (entry_id e) = Ok proof /\
    length proof = Nat.log2_up (length entries) /\
    verify_merkle_proof (leaf_hash e) proof r = true.
Proof.
  intros Hb [i Hi]%list_elem_of_lookup. pose proof (build_merkle_tree_inv _ _ Hb) as (Hne & Hnd & Hd & El).
  destruct (build_merkle_tree_ok entries Hne Hnd Hd) as (t' & Hb' & Hpos).
  assert (t' = t) as -> by congruence.
  assert ((leaf_hash <$> entries) !! i = Some (leaf_hash e)) as Hli by by rewrite list_lookup_fmap, Hi.
  assert (length (leaf_hash <$> entries) <= S (length entries)) as Hf by (rewrite length_fmap; lia).
  destruct (proof_items_complete (length entries) (leaf_hash <$> entries) i _ Hd Hli Hf)
    as (items & r & E1 & E2 & E3 & E4).
  exists r, items. split_and!.
  - apply root_of_last. by rewrite El.
  - unfold get_proof. rewrite Hpos, (list_find_entry_id _ _ _ Hnd Hi). by rewrite El.
  - rewrite E4, build_levels_length, length_fmap; [done|by destruct entries|exact Hf].
  - apply verify_merkle_proof_true. split_and!; [|by eapply last_level_digest|done].
    by apply (Forall_lookup_1 _ _ _ _ Hd Hli).
Qed.

(** C40. Building succeeds exactly on a non-empty list of entries with distinct numbers and 32-byte
    leaf hashes; the levels start with the leaves, end with one root, and are one more than
    the rounded-up logarithm of the number of leaves. *)
Theorem build_merkle_tree_spec (entries : list LedgerEntry) :
  (is_ok (build_merkle_tree entries) = true <->
    entries ≠ [] /\ NoDup (entry_id <$> entries) /\ Forall (fun e => length (leaf_hash e) = 32) entries) /\
  (forall t, build_merkle_tree entries = Ok t ->
    head (levels t) = Some (leaf_hash <$> entries) /\
    length (levels t) = S (Nat.log2_up (length entries)) /\
    exists r, last (levels t) = Some [r] /\ root t = Ok r).
Proof.
  split; [split|].
  - destruct (build_merkle_tree entries) as [t|] eqn:E; [|done].
    intros _. apply build_merkle_tree_inv in E as (Hne & Hnd & Hd & _).
    split_and!; [done..|]. by apply Forall_fmap in Hd.
  - intros (Hne & Hnd & Hd). destruct (build_merkle_tree_ok entries) as (t & -> & _); [done..| |done].
    by apply Forall_fmap.
  - intros t E. pose proof (build_root _ _ E) as (r & Hl & Hr).
    apply build_merkle_tree_inv in E as (Hne & _ & _ & El). unfold levels. rewrite El in *.
    split_and!; [done| |eauto]. cbn [length]. rewrite build_levels_length, length_fmap; [done| |].
    + by destruct entries.
    + rewrite length_fmap. lia.
Qed.

(** C39. The loop over the levels terminates: after as many rounds as the binary logarithm of the
    number of leaves its condition is false, on a level of one node, so that any greater bound on
    the rounds, the number of leaves among them, gives the same levels. *)
Theorem build_levels_terminates (fuel : nat) (level : list bytes) :
  level ≠ [] -> Nat.log2_up (length level) <= fuel ->
  build_levels fuel level = build_levels (length level) level /\
  length (build_levels fuel level) = Nat.log2_up (length level) /\
  exists r, last (level :: build_levels fuel level) = Some [r].
Proof.
  intros Hne Hf. rewrite build_levels_enough by done.
  assert (Nat.log2_up (length level) <= length level) as Hle by apply Nat.log2_up_le_lin, Nat.le_0_l.
  rewrite <- (build_levels_enough (length level) level Hne Hle). split_and!; [done| |].
  - apply build_levels_length; [done|lia].
  - apply build_levels_last; [done|lia].
Qed.

(** Completeness of inclusion proofs: for every entry of a built tree, [get_proof] gives a proof
    of logarithmic length that [verify_merkle_proof] accepts against the root. *)
Theorem merkle_proof_complete (entries : list LedgerEntry) (t : MerkleTree) (e : LedgerEntry) :
  build_merkle_tree entries = Ok t -> e ∈ entries ->
  exists r proof, root t = Ok r /\ get_proof t (entry_id e) = Ok proof /\
    length proof = Nat.log2_up (length entries) /\
    verify_merkle_proof (leaf_hash e) proof r = true.
Proof. apply proof_of_entry. Qed.

(** C23. Soundness of inclusion proofs: a proof of the height of the tree that verifies against its
    root proves a leaf of the tree, when the hashed pairs do not collide. *)
Theorem merkle_proof_sound (entries : list LedgerEntry) (t : MerkleTree) (h r : bytes) (proof : list bytes) :
  build_merkle_tree entries = Ok t -> root t = Ok r ->
  length proof = length (levels t) - 1 ->
  verify_merkle_proof h proof r = true ->
  collision_free (tree_preimages (length entries) (leaf_hash <$> entries) ++ proof_preimages h proof) ->
  h ∈ leaf_hash <$> entries.
Proof.
  intros Hb Hr Hlen (Hh & _ & Hfold)%verify_merkle_proof_true Hcf.
  pose proof (build_root_last _ _ _ Hb Hr) as Hlast.
  apply build_merkle_tree_inv in Hb as (_ & _ & Hd & El).
  eapply fold_proof_sound; eauto. unfold levels in Hlen. rewrite El in Hlen. cbn [length] in Hlen. lia.
Qed.

(** The root commits the leaves in order: two trees over the same number of entries with the
    same root have the same leaf hashes, when the hashed pairs do not collide. *)
Theorem merkle_root_binds (es1 es2 : list LedgerEntry) (t1 t2 : MerkleTree) (r : bytes) :
  build_merkle_tree es1 = Ok t1 -> build_merkle_tree es2 = Ok t2 ->
  length es1 = length es2 -> root t1 = Ok r -> root t2 = Ok r ->
  collision_free (tree_preimages (length es1) (leaf_hash <$> es1)
                  ++ tree_preimages (length es2) (leaf_hash <$> es2)) ->
  leaf_hash <$> es1 = leaf_hash <$> es2.
Proof.
  intros Hb1 Hb2 Hlen Hr1 Hr2 Hcf.
  pose proof (build_root_last _ _ _ Hb1 Hr1) as Hl1. pose proof (build_root_last _ _ _ Hb2 Hr2) as Hl2.
  apply build_merkle_tree_inv in Hb1 as (_ & _ & Hd1 & _), Hb2 as (_ & _ & Hd2 & _).
  rewrite <- Hlen in *. eapply top_binding; eauto. by rewrite !length_fmap.
Qed.

(** What the root does not commit: repeating the last entry's leaf hash under a new number, on
    an odd ledger of at least three entries, leaves the root unchanged.  The number of entries
    has to be known from elsewhere. *)
Theorem merkle_root_odd_duplicate (es : list LedgerEntry) (e d : LedgerEntry) (t : MerkleTree) (r : bytes) :
  Nat.odd (length (es ++ [e])) = true -> 1 < length (es ++ [e]) ->
  build_merkle_tree (es ++ [e]) = Ok t -> root t = Ok r ->
  leaf_hash d = leaf_hash e -> entry_id d ∉ entry_id <$> (es ++ [e]) ->
  exists t', build_merkle_tree ((es ++ [e]) ++ [d]) = Ok t' /\ root t' = Ok r.
Proof.
  intros Ho Hl Hb Hr Hd Hid. pose proof (build_root_last _ _ _ Hb Hr) as Hlast.
  pose proof (build_merkle_tree_inv _ _ Hb) as (_ & Hnd & Hdig & _).
  destruct (build_merkle_tree_ok ((es ++ [e]) ++ [d])) as (t' & Hb' & _).
  - by destruct es.
  - rewrite fmap_app. apply NoDup_app. split_and!; [done| |cbn; apply NoDup_singleton].
    intros x Hx ->%list_elem_of_singleton. done.
  - unfold digests in *. rewrite (fmap_app _ (es ++ [e])), Forall_app. split; [done|].
    rewrite fmap_app, Forall_app in Hdig. destruct Hdig as [_ He]. cbn in *. by rewrite Hd.
  - exists t'. split; [done|]. apply root_of_last.
    apply build_merkle_tree_inv in Hb' as (_ & _ & _ & ->). rewrite <- Hlast.
    rewrite (fmap_app _ (es ++ [e])). cbn [fmap list_fmap]. rewrite Hd.
    apply duplicate_levels; rewrite ?length_fmap; [done|done| |rewrite (length_app (es ++ [e])); lia|lia].
    rewrite fmap_app. apply last_snoc.
Qed.

End Theorems.

(** ** Witnesses *)

Section Witnesses.
#[local] Existing Instance demo_hashlib.

Definition demo_entry (n : Z) : LedgerEntry :=
  mkLedgerEntry n "agent_response" (JObj []) EmptyString [] (int_to_bytes_big 32 n).

Definition demo_entries : list LedgerEntry := [demo_entry 1; demo_entry 2; demo_entry 3].

Definition demo_tree (es : list LedgerEntry) : MerkleTree :=
  match build_merkle_tree es with Ok t => t | Raise _ => mkMerkleTree [] ∅ end.

Definition demo_root (es : list LedgerEntry) : bytes :=
  match root (demo_tree es) with Ok r => r | Raise _ => [] end.

Definition demo_proof (es : list LedgerEntry) (id : Z) : list bytes :=
  match get_proof (demo_tree es) id with Ok p => p | Raise _ => [] end.

Lemma merkle_proof_complete_witness :
  exists r proof, root (demo_tree demo_entries) = Ok r /\ get_proof (demo_tree demo_entries) 3 = Ok proof /\
    length proof = 2 /\ verify_merkle_proof (int_to_bytes_big 32 3) proof r = true.
Proof.
  apply (merkle_proof_complete demo_entries (demo_tree demo_entries) (demo_entry 3)).
  - vm_compute; reflexivity.
  - repeat constructor.
Defined.

Lemma merkle_proof_sound_witness :
  int_to_bytes_big 32 3 ∈ leaf_hash <$> demo_entries.
Proof.
  apply (merkle_proof_sound demo_entries (demo_tree demo_entries) (int_to_bytes_big 32 3)
           (demo_root demo_entries) (demo_proof demo_entries 3)).
  - vm_compute; reflexivity.
  - vm_compute; reflexivity.
  - vm_compute; reflexivity.
  - vm_compute; reflexivity.
  - apply (bool_decide_unpack _). vm_compute. exact I.
Defined.

Lemma merkle_root_binds_witness :
  leaf_hash <$> demo_entries = leaf_hash <$> [demo_entry 1; demo_entry 2; demo_entry 3].
Proof.
  apply (merkle_root_binds demo_entries _ (demo_tree demo_entries) (demo_tree demo_entries)
           (demo_root demo_entries)).
  - vm_compute; reflexivity.
  - vm_compute; reflexivity.
  - reflexivity.
  - vm_compute; reflexivity.
  - vm_compute; reflexivity.
  - apply (bool_decide_unpack _). vm_compute. exact I.
Defined.

Definition demo_repeated : LedgerEntry :=
  mkLedgerEntry 4 "agent_response" (JObj []) EmptyString [] (int_to_bytes_big 32 3).

Lemma merkle_root_odd_duplicate_witness :
  exists t', build_merkle_tree (demo_entries ++ [demo_repeated]) = Ok t' /\ root t' = Ok (demo_root demo_entries).
Proof.
  apply (merkle_root_odd_duplicate [demo_entry 1; demo_entry 2] (demo_entry 3) demo_repeated
           (demo_tree demo_entries)).
  - reflexivity.
  - cbn; lia.
  - vm_compute; reflexivity.
  - vm_compute; reflexivity.
  - reflexivity.
  - apply (bool_decide_unpack _). vm_compute. exact I.
Defined.

Lemma build_merkle_tree_spec_witness : length (levels (demo_tree demo_entries)) = 3.
Proof. apply (build_merkle_tree_spec demo_entries). vm_compute; reflexivity. Defined.

Lemma build_levels_terminates_witness :
  build_levels 3 (replicate 5 [Byte.x00]) = build_levels 5 (replicate 5 [Byte.x00]) /\ length (build_levels 3 (replicate 5 [Byte.x00])) = 3.
Proof.
  destruct (build_levels_terminates 3 (replicate 5 [Byte.x00])) as (E & L & _); [discriminate|vm_compute; lia|].
  split; [exact E|exact L].
Defined.
End Witnesses.
