(* ===== verification/Sql.v ===== *)
(** * SQLite, as the storage modules use it

    A table is the list of its rows in insertion order.  The order in which [ORDER BY] leaves
    equal keys is not documented, so sorting is an interface: any permutation sorted by the
    column, descending.  [demo_sqlite] inhabits it. *)

From S2P Require Import Prelude.

(** [ORDER BY key DESC]. *)
Class Sqlite := {
  order_by_desc : forall {A : Type}, (A -> string) -> list A -> list A;
  order_by_desc_perm {A} (key : A -> string) l : order_by_desc key l ≡ₚ l;
  order_by_desc_sorted {A} (key : A -> string) l :
    Sorted (fun a b => String.leb (key b) (key a) = true) (order_by_desc key l);
}.

Lemma filter_always {A} (l : list A) : filter (fun _ => True) l = l.
Proof. induction l as [|x l IH]; [done|]. rewrite filter_cons_True by done. by rewrite IH. Qed.

(** Strings in descending order. *)
Definition desc (a b : string) : Prop := String.leb b a = true.

#[export] Instance desc_dec a b : Decision (desc a b).
Proof. unfold desc. apply _. Defined.

#[program] Definition demo_sqlite : Sqlite :=
  {| order_by_desc A key l := merge_sort (fun a b => desc (key a) (key b)) l |}.
Next Obligation. intros. apply merge_sort_Permutation. Qed.
Next Obligation.
  intros. apply Sorted_merge_sort. intros a b. unfold desc. destruct (String.leb_total (key a) (key b)); auto.
Qed.

(** ** Rows by a column *)

(** The first row whose column is [k]: the only one where the column is unique. *)
Definition lookup_row {A K : Type} `{EqDecision K} (key : A -> K) (k : K) (l : list A) : option A :=
  snd <$> list_find (fun x => key x = k) l.

#[global] Arguments lookup_row : simpl never.

Section Lookup.
Context {A K : Type} `{EqDecision K} (key : A -> K).
Implicit Types (l : list A) (x y : A) (k : K).

Lemma lookup_row_cons k x l : lookup_row key k (x :: l) = if decide (key x = k) then Some x else lookup_row key k l.
Proof.
  unfold lookup_row. cbn [list_find]. destruct (decide (key x = k)); [done|]. by destruct (list_find _ l) as [[]|].
Qed.

Lemma lookup_row_some k l x : lookup_row key k l = Some x -> x ∈ l /\ key x = k.
Proof.
  unfold lookup_row. intros ([i y] & Hf & ->)%fmap_Some. apply list_find_Some in Hf as (Hl & Hk & _).
  split; [by eapply list_elem_of_lookup_2|done].
Qed.

Lemma lookup_row_none k l : lookup_row key k l = None <-> k ∉ key <$> l.
Proof. unfold lookup_row. rewrite fmap_None, list_find_None, Forall_forall, list_elem_of_fmap. naive_solver. Qed.

Lemma lookup_row_elem l x : NoDup (key <$> l) -> x ∈ l -> lookup_row key (key x) l = Some x.
Proof.
  induction l as [|y l IH]; [set_solver|]. rewrite lookup_row_cons. cbn. intros [Hn Hd]%NoDup_cons [->|Hx]%elem_of_cons.
  - by rewrite decide_True.
  - rewrite decide_False; [auto|]. intros E. apply Hn. rewrite E. by apply list_elem_of_fmap_2.
Qed.

Lemma lookup_row_snoc k l x :
  lookup_row key k (l ++ [x]) =
    match lookup_row key k l with Some y => Some y | None => if decide (key x = k) then Some x else None end.
Proof.
  induction l as [|y l IH]; cbn [app]; rewrite lookup_row_cons; [done|]. rewrite lookup_row_cons, IH.
  by destruct (decide (key y = k)).
Qed.

Lemma lookup_row_snoc_ne k l x : key x ≠ k -> lookup_row key k (l ++ [x]) = lookup_row key k l.
Proof. intros Hne. rewrite lookup_row_snoc, decide_False by done. by case_match. Qed.

Lemma lookup_row_app k l1 l2 x : lookup_row key k l1 = Some x -> lookup_row key k (l1 ++ l2) = Some x.
Proof. induction l1 as [|y l1 IH]; [done|]. cbn [app]. rewrite !lookup_row_cons. by destruct (decide (key y = k)). Qed.

Lemma lookup_row_filter (P : A -> Prop) `{!forall x, Decision (P x)} k l :
  (forall x, key x = k -> P x) -> lookup_row key k (filter P l) = lookup_row key k l.
Proof.
  intros HP. induction l as [|y l IH]; [done|]. rewrite lookup_row_cons.
  destruct (decide (P y)) as [Hy|Hy].
  - by rewrite filter_cons_True, lookup_row_cons, IH.
  - rewrite filter_cons_False, IH by done. rewrite decide_False; [done|]. naive_solver.
Qed.

(** A row with a new value of a unique column. *)
Lemma column_snoc l x : NoDup (key <$> l) -> lookup_row key (key x) l = None -> NoDup (key <$> (l ++ [x])).
Proof.
  intros Hd Hn%lookup_row_none. rewrite fmap_app. apply NoDup_app. split_and!; [done| |apply NoDup_singleton].
  intros k Hk ->%list_elem_of_singleton. done.
Qed.

Lemma column_filter (P : A -> Prop) `{!forall x, Decision (P x)} l : NoDup (key <$> l) -> NoDup (key <$> filter P l).
Proof. intros Hd. eapply sublist_NoDup; [exact Hd|]. apply fmap_sublist, sublist_filter. Qed.
End Lookup.
