(* ===== verification/Verifier.v ===== *)
(** * verifier_service: envelope verification and replay protection

    Models [nonce_store.py], [pubkey_store.py], [verifier.py] and the envelope of [models.py].
    Clock readings are arguments, in microseconds: [time.monotonic()] for the nonce store and
    [datetime.now(timezone.utc)] for freshness.  [verify_envelope] takes any key store that
    implements [PublicKeyLookup]; it returns the nonce store in every case, a raised exception
    included, because the nonce is consumed before the key is looked up.

    The theorems give the order of the checks and what an acceptance proves, and that no
    envelope is accepted twice by any sequence of calls, as long as the nonces outlive the
    window in which a timestamp is fresh. *)

From S2P Require Import Prelude PyStr Base64 Json JsonText PyTime Crypto Instances.

#[local] Open Scope Z_scope.

(** ** models.py *)

Record SignedEnvelope := mkSignedEnvelope {
  se_prompt : string;
  se_user_id : string;
  se_session_id : string;
  se_timestamp : string;
  se_nonce : string;
  se_signature : string;
  se_pubkey_id : string;
  se_signature_algorithm : string;
}.

#[export] Instance SignedEnvelope_eq_dec : EqDecision SignedEnvelope.
Proof. solve_decision. Defined.

Definition default_signature_algorithm : string := "ECDSA-P256-SHA256".

Definition signing_payload (e : SignedEnvelope) : dict :=
  [("prompt", JStr (se_prompt e)); ("user_id", JStr (se_user_id e));
   ("session_id", JStr (se_session_id e)); ("timestamp", JStr (se_timestamp e));
   ("nonce", JStr (se_nonce e))].

(** ** nonce_store.py *)

Record NonceStore := mkNonceStore {
  ns_ttl_seconds : Z;
  ns_seen : gmap string Z;
}.

Definition NonceStore_init (ttl_seconds : Z) : result NonceStore :=
  if ttl_seconds <=? 0 then raise ValueError "ttl_seconds must be positive"
  else Ok (mkNonceStore ttl_seconds ∅).

Definition ttl_us (s : NonceStore) : Z := ns_ttl_seconds s * 1000000.

Definition sweep_expired (now : Z) (s : NonceStore) : NonceStore :=
  mkNonceStore (ns_ttl_seconds s) (filter (fun '(_, seen_at) => now - seen_at <= ttl_us s) (ns_seen s)).

Definition has_seen (now : Z) (s : NonceStore) (nonce : string) : NonceStore * bool :=
  let s := sweep_expired now s in (s, bool_decide (is_Some (ns_seen s !! nonce))).

(** Two readings of the clock: one to sweep, one to record. *)
Definition mark_seen (now now' : Z) (s : NonceStore) (nonce : string) : NonceStore :=
  let s := sweep_expired now s in mkNonceStore (ns_ttl_seconds s) (<[nonce := now']> (ns_seen s)).

(** ** The interface of the key stores *)

(** [get_pubkey]: key bytes or a parsed key, or [None]. *)
Class PublicKeyLookup `{Cryptography} (S : Type) := {
  lookup_pubkey : S -> string -> result (option pyobj)
}.

(** ** pubkey_store.py *)

Section PubkeyStore.
Context `{Cryptography}.

Definition PubkeyStore : Type := gmap string pyobj.

Definition PubkeyStore_init : PubkeyStore := ∅.

Definition PubkeyStore_register_pubkey (s : PubkeyStore) (pubkey_id : json) (public_key_bytes : pyobj)
    : result PubkeyStore :=
  match pubkey_id with
  | JStr id =>
      if truthy_str id then
        match public_key_bytes with
        | ObjBytes b =>
            k ← load_der_public_key b;
            let public_key := obj_of_loaded k in
            if is_public public_key then Ok (<[id := public_key]> s)
            else raise ValueError "unsupported public key type"
        | _ => raise TypeError "public_key_bytes must be bytes"
        end
      else raise ValueError "pubkey_id must be a non-empty string"
  | _ => raise ValueError "pubkey_id must be a non-empty string"
  end.

Definition PubkeyStore_get_pubkey (s : PubkeyStore) (pubkey_id : string) : option pyobj := s !! pubkey_id.

#[export] Instance PubkeyStore_lookup : PublicKeyLookup PubkeyStore :=
  {| lookup_pubkey s id := Ok (PubkeyStore_get_pubkey s id) |}.

End PubkeyStore.

(** ** verifier.py *)

Record VerificationResult := mkVerificationResult { vr_valid : bool; vr_reason : option string }.

#[export] Instance VerificationResult_eq_dec : EqDecision VerificationResult.
Proof. solve_decision. Defined.

Definition rejected (reason : string) : VerificationResult := mkVerificationResult false (Some reason).
Definition accepted : VerificationResult := mkVerificationResult true None.

(** The clock readings of one call, in the order the source takes them. *)
Record clocks := Clocks { c_wall : Z; c_has_seen : Z; c_mark_sweep : Z; c_mark : Z }.

Section SignatureVerifier.
Context `{Hashlib, Rfc8785, Cryptography} {Store : Type} `{!PublicKeyLookup Store}.

Definition load_registered_public_key (stored_key : pyobj) : result pyobj :=
  match stored_key with
  | ObjEdPublic _ | ObjEcPublic _ => Ok stored_key
  | ObjBytes b => load_key_bytes None "unsupported registered public key" b
  | _ => raise TypeError "argument 'data': from_buffer() cannot return the address of a unit"
  end.

Definition parse_timestamp (timestamp : string) : result (option Z) :=
  match fromisoformat (str_replace "Z" "+00:00" timestamp) with
  | Raise e => if catches [ValueError] e then Ok None else Raise e
  | Ok parsed =>
      match dt_offset parsed with
      | None => Ok None
      | Some _ => t ← to_utc parsed; Ok (Some t)
      end
  end.

Definition timestamp_is_fresh (freshness_seconds now : Z) (timestamp : string) : result bool :=
  parsed ← parse_timestamp timestamp;
  match parsed with
  | None => Ok false
  | Some t => Ok (Z.abs (now - t) <=? freshness_seconds * 1000000)
  end.

(** What follows the nonce checks. *)
Definition verify_signature (keys : Store) (envelope : SignedEnvelope) : result VerificationResult :=
  stored_key ← lookup_pubkey keys (se_pubkey_id envelope);
  match stored_key with
  | None => Ok (rejected "unknown_pubkey")
  | Some stored_key =>
      match load_registered_public_key stored_key with
      | Raise e => if catches [TypeError; ValueError] e then Ok (rejected "unknown_pubkey") else Raise e
      | Ok public_key =>
          if negb (bool_decide (se_signature_algorithm envelope = "ECDSA-P256-SHA256"))
          then Ok (rejected "signature_mismatch")
          else
            match b64decode true (se_signature envelope) with
            | Raise e => if catches [ValueError; BinasciiError] e then Ok (rejected "signature_mismatch") else Raise e
            | Ok signature =>
                payload_hash ← hash_payload (JObj (signing_payload envelope));
                ok ← verify public_key (ObjBytes signature) (ObjBytes payload_hash);
                Ok (if ok : bool then accepted else rejected "signature_mismatch")
            end
      end
  end.

Definition verify_envelope (freshness_seconds : Z) (c : clocks) (keys : Store) (s : NonceStore)
    (envelope : SignedEnvelope) : NonceStore * result VerificationResult :=
  match timestamp_is_fresh freshness_seconds (c_wall c) (se_timestamp envelope) with
  | Raise e => (s, Raise e)
  | Ok false => (s, Ok (rejected "timestamp_stale"))
  | Ok true =>
      let '(s, seen) := has_seen (c_has_seen c) s (se_nonce envelope) in
      if seen : bool then (s, Ok (rejected "nonce_reused"))
      else
        let s := mark_seen (c_mark_sweep c) (c_mark c) s (se_nonce envelope) in
        (s, verify_signature keys envelope)
  end.

(** A sequence of calls, each with its clocks and the key store of the time. *)
Record call := Call { call_clocks : clocks; call_keys : Store; call_envelope : SignedEnvelope }.

Fixpoint run_calls (freshness_seconds : Z) (s : NonceStore) (calls : list call)
    : NonceStore * list (result VerificationResult) :=
  match calls with
  | [] => (s, [])
  | c :: rest =>
      let '(s, r) := verify_envelope freshness_seconds (call_clocks c) (call_keys c) s (call_envelope c) in
      let '(s, rs) := run_calls freshness_seconds s rest in (s, r :: rs)
  end.

(** ** Specification *)

(** The readings of the monotonic clock, in the order of one call. *)
Definition clocks_ordered (c : clocks) : Prop := c_has_seen c <= c_mark_sweep c /\ c_mark_sweep c <= c_mark c.

(** The calls follow each other on the monotonic clock. *)
Fixpoint calls_ordered (calls : list call) : Prop :=
  match calls with
  | [] => True
  | c :: rest =>
      clocks_ordered (call_clocks c) /\
      Forall (fun c' => c_mark (call_clocks c) <= c_has_seen (call_clocks c')) rest /\
      calls_ordered rest
  end.

(** The readings of one call are at most [latency] behind its reading of the wall clock, which
    is [offset] ahead of the monotonic clock. *)
Definition wall_close (offset latency : Z) (c : clocks) : Prop :=
  c_wall c - offset <= c_has_seen c /\ c_mark c <= c_wall c - offset + latency.

(** A timestamp within the freshness window. *)
Definition fresh_at (freshness_seconds now : Z) (timestamp : string) : Prop :=
  exists t, parse_timestamp timestamp = Ok (Some t) /\ Z.abs (now - t) <= freshness_seconds * 1000000.

(** What an acceptance claims of the envelope's signature. *)
Definition signature_ok (keys : Store) (envelope : SignedEnvelope) : Prop :=
  exists stored_key public_key signature payload_hash,
    lookup_pubkey keys (se_pubkey_id envelope) = Ok (Some stored_key) /\
    load_registered_public_key stored_key = Ok public_key /\
    se_signature_algorithm envelope = "ECDSA-P256-SHA256" /\
    b64decode true (se_signature envelope) = Ok signature /\
    hash_payload (JObj (signing_payload envelope)) = Ok payload_hash /\
    verify public_key (ObjBytes signature) (ObjBytes payload_hash) = Ok true.

(** No key is registered, or what is registered is no key of the two kinds. *)
Definition key_unusable (keys : Store) (envelope : SignedEnvelope) : Prop :=
  lookup_pubkey keys (se_pubkey_id envelope) = Ok None \/
  exists stored_key x, lookup_pubkey keys (se_pubkey_id envelope) = Ok (Some stored_key) /\
    load_registered_public_key stored_key = Raise x /\ catches [TypeError; ValueError] x = true.

(** There is a key, but another algorithm is named, the signature is not base64, or it does not
    verify. *)
Definition signature_wrong (keys : Store) (envelope : SignedEnvelope) : Prop :=
  exists stored_key public_key,
    lookup_pubkey keys (se_pubkey_id envelope) = Ok (Some stored_key) /\
    load_registered_public_key stored_key = Ok public_key /\
    (se_signature_algorithm envelope ≠ "ECDSA-P256-SHA256" \/
     se_signature_algorithm envelope = "ECDSA-P256-SHA256" /\
     ((exists x, b64decode true (se_signature envelope) = Raise x /\ catches [ValueError; BinasciiError] x = true) \/
      exists signature payload_hash, b64decode true (se_signature envelope) = Ok signature /\
        hash_payload (JObj (signing_payload envelope)) = Ok payload_hash /\
        verify public_key (ObjBytes signature) (ObjBytes payload_hash) = Ok false)).

(** A nonce seen within the retention window. *)
Definition nonce_live (now : Z) (s : NonceStore) (nonce : string) : Prop :=
  exists seen_at, ns_seen s !! nonce = Some seen_at /\ now - seen_at <= ttl_us s.

(** ** Lemmas *)

Lemma lookup_sweep now s nonce v :
  ns_seen (sweep_expired now s) !! nonce = Some v <-> ns_seen s !! nonce = Some v /\ now - v <= ttl_us s.
Proof. unfold sweep_expired. cbn [ns_seen]. apply map_lookup_filter_Some. Qed.

Lemma has_seen_true now s nonce : (has_seen now s nonce).2 = true <-> nonce_live now s nonce.
Proof.
  unfold has_seen, nonce_live. cbn [snd]. rewrite bool_decide_eq_true. unfold is_Some.
  by setoid_rewrite lookup_sweep.
Qed.

Lemma timestamp_is_fresh_true f now ts : timestamp_is_fresh f now ts = Ok true <-> fresh_at f now ts.
Proof.
  unfold timestamp_is_fresh, fresh_at. destruct (parse_timestamp ts) as [[t|]|e]; cbn [mbind result_bind].
  - split.
    + intros [= E]. exists t. split; [done|lia].
    + intros (t' & [= <-] & Ht). f_equal. lia.
  - split; [done|]. by intros (t & ? & _).
  - split; [done|]. by intros (t & ? & _).
Qed.

Lemma verify_signature_accepts keys e :
  verify_signature keys e = Ok accepted <-> signature_ok keys e.
Proof.
  unfold verify_signature, signature_ok. split.
  - intros E. destruct (lookup_pubkey keys _) as [[k|]|]; cbn [mbind result_bind] in E; [|done|done].
    destruct (load_registered_public_key k) as [pk|x] eqn:Ek; [|by destruct (catches _ x)].
    destruct (bool_decide_reflect (se_signature_algorithm e = "ECDSA-P256-SHA256")); [|done].
    cbn [negb] in E. destruct (b64decode true _) as [sg|x]; [|by destruct (catches _ x)].
    destruct (hash_payload _) as [h|]; cbn [mbind result_bind] in E; [|done].
    destruct (verify pk _ _) as [[]|] eqn:Ev; cbn [mbind result_bind] in E; [|done..].
    exists k, pk, sg, h. done.
  - intros (k & pk & sg & h & -> & Hk & Ha & Hs & Hh & Hv). cbn [mbind result_bind].
    rewrite Hk, Hs, Hh, bool_decide_eq_true_2 by done. cbn [negb mbind result_bind]. by rewrite Hv.
Qed.

(** What the verifier answers when it does not accept. *)
Lemma verify_signature_cases keys e :
  verify_signature keys e = Ok accepted /\ signature_ok keys e \/
  verify_signature keys e = Ok (rejected "unknown_pubkey") /\ key_unusable keys e \/
  verify_signature keys e = Ok (rejected "signature_mismatch") /\ signature_wrong keys e \/
  (exists x, verify_signature keys e = Raise x) /\ ~ key_unusable keys e /\ ~ signature_wrong keys e.
Proof.
  destruct (decide (verify_signature keys e = Ok accepted)) as [Ha|Ha]; [left; by rewrite <- verify_signature_accepts|right].
  unfold verify_signature, key_unusable, signature_wrong in *.
  destruct (lookup_pubkey keys _) as [[k|]|x]; cbn [mbind result_bind] in *.
  2: { left. eauto. }
  2: { right; right. split; [eauto|]. split; [by intros [?|(? & ? & ? & _)]|by intros (? & ? & ? & _)]. }
  destruct (load_registered_public_key k) as [pk|x] eqn:Ek.
  2: { destruct (catches _ x) eqn:Ex; [left; eauto 10|right; right]. split; [eauto|].
       split; [intros [?|(k' & x' & [= <-] & Ek' & ?)]|intros (k' & pk & [= <-] & Ek' & _)]; congruence. }
  destruct (bool_decide_reflect (se_signature_algorithm e = "ECDSA-P256-SHA256")); cbn [negb] in *; [|right; left; eauto 10].
  destruct (b64decode true _) as [sg|x] eqn:Eb.
  2: { destruct (catches _ x) eqn:Ex; [right; left; eauto 20|right; right]. split; [eauto|].
       split; [intros [?|(k' & x' & [= <-] & Ek' & ?)]; congruence|].
       intros (k' & pk' & [= <-] & Ek' & [?|[_ [(x' & [= <-] & ?)|(? & ? & ? & _)]]]); congruence. }
  destruct (hash_payload _) as [h|x] eqn:Eh; cbn [mbind result_bind] in *.
  2: { right; right. split; [eauto|]. split; [intros [?|(k' & x' & [= <-] & Ek' & ?)]; congruence|].
       intros (k' & pk' & [= <-] & Ek' & [?|[_ [(x' & ? & ?)|(? & ? & ? & ? & _)]]]); congruence. }
  destruct (verify pk _ _) as [[]|x] eqn:Ev; cbn [mbind result_bind] in *; [done|right; left; eauto 20|right; right].
  split; [eauto|]. split; [intros [?|(k' & x' & [= <-] & Ek' & ?)]; congruence|].
  intros (k' & pk' & [= <-] & Ek' & [?|[_ [(x' & ? & ?)|(? & ? & ? & ? & ?)]]]); congruence.
Qed.

Lemma signature_states keys e :
  (signature_ok keys e -> ~ key_unusable keys e /\ ~ signature_wrong keys e) /\ (key_unusable keys e -> ~ signature_wrong keys e).
Proof.
  unfold signature_ok, key_unusable, signature_wrong. split.
  - intros (k & pk & sg & h & -> & Ek & Ea & Es & Eh & Ev). split.
    + intros [?|(k' & x & [= <-] & ? & _)]; congruence.
    + intros (k' & pk' & [= <-] & Ek' & [?|[_ [(x' & ? & ?)|(? & ? & ? & ? & ?)]]]); congruence.
  - intros [->|(k & x & -> & Ek & _)] (k' & pk' & E & Ek' & _); [done|]. injection E as <-. congruence.
Qed.

Lemma verify_signature_reasons keys e :
  (verify_signature keys e = Ok (rejected "unknown_pubkey") <-> key_unusable keys e) /\
  (verify_signature keys e = Ok (rejected "signature_mismatch") <-> signature_wrong keys e).
Proof.
  pose proof (signature_states keys e) as [Ho Hu].
  destruct (verify_signature_cases keys e) as [[-> H']|[[-> H']|[[-> H']|[[x ->] [H1' H2']]]]].
  - destruct (Ho H'). by split; split.
  - pose proof (Hu H'). by split; split.
  - split; split; [done|intros Hk; by destruct (Hu Hk)|done|done].
  - by split; split.
Qed.

(** The store after a call: swept, and the nonce recorded if the timestamp was fresh and the
    nonce not live. *)
Lemma verify_envelope_store f c keys s e n v :
  ns_seen s !! n = Some v -> c_has_seen c - v <= ttl_us s -> c_mark_sweep c - v <= ttl_us s ->
  ns_seen (verify_envelope f c keys s e).1 !! n = Some v.
Proof.
  intros Hn H1' H2'. unfold verify_envelope.
  destruct (timestamp_is_fresh f _ _) as [[]|]; [|done..].
  assert (ns_seen (sweep_expired (c_has_seen c) s) !! n = Some v) as Hn1 by by apply lookup_sweep.
  unfold has_seen. case_bool_decide as Hb; cbn [fst]; [done|]. unfold mark_seen. cbn [ns_seen].
  destruct (decide (se_nonce e = n)) as [En|Hne]; [destruct Hb; rewrite En; by exists v|].
  rewrite lookup_insert_ne by done. by apply lookup_sweep.
Qed.

Lemma verify_envelope_ttl f c keys s e : ttl_us (verify_envelope f c keys s e).1 = ttl_us s.
Proof.
  unfold verify_envelope, has_seen, ttl_us.
  destruct (timestamp_is_fresh f _ _) as [[]|]; [|done..]. by destruct (bool_decide _).
Qed.

Lemma verify_envelope_seen f c keys s e :
  nonce_live (c_has_seen c) s (se_nonce e) -> (verify_envelope f c keys s e).2 ≠ Ok accepted.
Proof.
  intros Hn%has_seen_true. unfold verify_envelope.
  destruct (timestamp_is_fresh f _ _) as [[]|]; [|done..].
  destruct (has_seen _ s _) as [s' seen]. cbn [snd] in Hn. by rewrite Hn.
Qed.

Lemma verify_envelope_reused f c keys s e :
  fresh_at f (c_wall c) (se_timestamp e) -> nonce_live (c_has_seen c) s (se_nonce e) ->
  (verify_envelope f c keys s e).2 = Ok (rejected "nonce_reused").
Proof.
  intros Hf%timestamp_is_fresh_true Hn%has_seen_true. unfold verify_envelope. rewrite Hf.
  destruct (has_seen _ s _) as [s' seen]. cbn [snd] in Hn. by rewrite Hn.
Qed.

(** A call whose timestamp is not fresh ends there. *)
Lemma verify_envelope_stale f c keys s e :
  ~ fresh_at f (c_wall c) (se_timestamp e) ->
  (verify_envelope f c keys s e).1 = s /\
  ((verify_envelope f c keys s e).2 = Ok (rejected "timestamp_stale") \/
   exists x, parse_timestamp (se_timestamp e) = Raise x /\ (verify_envelope f c keys s e).2 = Raise x).
Proof.
  rewrite <- timestamp_is_fresh_true. unfold verify_envelope, timestamp_is_fresh. destruct (parse_timestamp _) as [[t|]|x]; cbn [mbind result_bind].
  - destruct (_ <=? _); [done|]. intros _. split; [done|by left].
  - intros _. split; [done|by left].
  - intros _. split; [done|right; eauto].
Qed.

(** An unseen nonce is consumed, whatever the answer. *)
Lemma verify_envelope_fresh f c keys s e :
  fresh_at f (c_wall c) (se_timestamp e) -> ~ nonce_live (c_has_seen c) s (se_nonce e) ->
  (verify_envelope f c keys s e).2 = verify_signature keys e /\
  ns_seen (verify_envelope f c keys s e).1 !! se_nonce e = Some (c_mark c).
Proof.
  intros Hf%timestamp_is_fresh_true Hn. unfold verify_envelope. rewrite Hf. pose proof (has_seen_true (c_has_seen c) s (se_nonce e)) as Hs.
  destruct (has_seen _ s _) as [s' []]; [by destruct Hn; apply Hs|]. split; [done|]. unfold mark_seen. cbn. apply lookup_insert_eq.
Qed.

(** An acceptance leaves the nonce recorded at the time of the call. *)
Lemma verify_envelope_accept_inv f c keys s e :
  (verify_envelope f c keys s e).2 = Ok accepted ->
  fresh_at f (c_wall c) (se_timestamp e) /\ ~ nonce_live (c_has_seen c) s (se_nonce e) /\
  signature_ok keys e /\ ns_seen (verify_envelope f c keys s e).1 !! se_nonce e = Some (c_mark c).
Proof.
  unfold verify_envelope. pose proof (timestamp_is_fresh_true f (c_wall c) (se_timestamp e)) as Hf.
  destruct (timestamp_is_fresh f _ _) as [[]|]; [|done..].
  pose proof (has_seen_true (c_has_seen c) s (se_nonce e)) as Hs.
  destruct (has_seen _ s _) as [s' seen]. cbn [snd] in Hs. destruct seen; [done|].
  cbn [fst snd]. intros E%verify_signature_accepts. split_and!; [by apply Hf| |done|].
  - by intros ?%Hs.
  - unfold mark_seen. cbn [ns_seen]. apply lookup_insert_eq.
Qed.

Lemma run_calls_cons f s c rest :
  run_calls f s (c :: rest) =
    (let s' := (verify_envelope f (call_clocks c) (call_keys c) s (call_envelope c)).1 in
     ((run_calls f s' rest).1,
      (verify_envelope f (call_clocks c) (call_keys c) s (call_envelope c)).2 :: (run_calls f s' rest).2)).
Proof.
  cbn [run_calls]. destruct (verify_envelope _ _ _ _ _) as [s' r]. cbn [fst snd].
  by destruct (run_calls f s' rest).
Qed.

(** A recorded nonce is refused for as long as it is retained. *)
Lemma run_calls_refuses f calls s n v j c :
  calls_ordered calls -> ns_seen s !! n = Some v ->
  calls !! j = Some c -> se_nonce (call_envelope c) = n -> c_has_seen (call_clocks c) - v <= ttl_us s ->
  (run_calls f s calls).2 !! j ≠ Some (Ok accepted) /\
  (fresh_at f (c_wall (call_clocks c)) (se_timestamp (call_envelope c)) ->
     (run_calls f s calls).2 !! j = Some (Ok (rejected "nonce_reused"))).
Proof.
  revert s j. induction calls as [|c0 calls IH]; intros s j Hc Hn Hj He Ht; [done|].
  rewrite run_calls_cons. cbn [snd]. destruct Hc as ((H1' & H2') & Hall & Hc).
  destruct j as [|j].
  - injection Hj as ->. cbn. assert (nonce_live (c_has_seen (call_clocks c)) s (se_nonce (call_envelope c))) as Hl.
    { exists v. by rewrite He. }
    split; [intros [= E]; by apply (verify_envelope_seen f (call_clocks c) (call_keys c)) in Hl|].
    intros Hf. by rewrite (verify_envelope_reused _ _ _ _ _ Hf Hl).
  - cbn in Hj |- *. rewrite Forall_forall in Hall.
    pose proof (Hall c (list_elem_of_lookup_2 _ _ _ Hj)) as Hle.
    apply IH; [done| |done|done|by rewrite verify_envelope_ttl].
    apply verify_envelope_store; [done|lia..].
Qed.

Lemma run_calls_fresh f s calls k c :
  calls !! k = Some c -> (run_calls f s calls).2 !! k = Some (Ok accepted) ->
  fresh_at f (c_wall (call_clocks c)) (se_timestamp (call_envelope c)).
Proof.
  revert s k. induction calls as [|c0 calls IH]; intros s k Hk; [done|].
  rewrite run_calls_cons. cbn [snd]. destruct k as [|k]; [|apply IH; done].
  injection Hk as ->. intros [= E]. by apply verify_envelope_accept_inv in E as [? _].
Qed.

Lemma calls_ordered_lookup calls k c : calls_ordered calls -> calls !! k = Some c -> clocks_ordered (call_clocks c).
Proof.
  revert k. induction calls as [|c0 calls IH]; intros k Hc Hk; [done|]. destruct Hc as (Ho & _ & Hc).
  destruct k; [by injection Hk as ->|by eapply IH].
Qed.

(** An accepted call is followed by refusals of its nonce, for as long as it is retained. *)
Lemma run_calls_replay f s calls i j ci cj :
  calls_ordered calls -> (i < j)%nat -> calls !! i = Some ci -> calls !! j = Some cj ->
  se_nonce (call_envelope ci) = se_nonce (call_envelope cj) -> (run_calls f s calls).2 !! i = Some (Ok accepted) ->
  c_has_seen (call_clocks cj) - c_mark (call_clocks ci) <= ttl_us s ->
  (run_calls f s calls).2 !! j ≠ Some (Ok accepted) /\
  (fresh_at f (c_wall (call_clocks cj)) (se_timestamp (call_envelope cj)) ->
     (run_calls f s calls).2 !! j = Some (Ok (rejected "nonce_reused"))).
Proof.
  intros Hc Hij Hi Hj Hn Hr Ht. revert s j i Hij Hi Hj Hr Ht. induction calls as [|c0 calls IH]; intros s j i Hij Hi Hj Hr Ht; [done|].
  rewrite run_calls_cons in Hr |- *. cbn [snd] in *. destruct j as [|j]; [lia|]. destruct Hc as (_ & _ & Hc). destruct i as [|i].
  - injection Hi as ->. injection Hr as Hr. apply verify_envelope_accept_inv in Hr as (_ & _ & _ & Hseen).
    eapply (run_calls_refuses f calls); [exact Hc|exact Hseen|exact Hj|by rewrite Hn|]. by rewrite verify_envelope_ttl.
  - eapply (IH Hc _ j i); [lia|exact Hi|exact Hj|exact Hr|]. by rewrite verify_envelope_ttl.
Qed.

End SignatureVerifier.

(** ** Theorems *)

Section Theorems.
Context `{Hashlib, Rfc8785, Cryptography} {Store : Type} `{!PublicKeyLookup Store}.

(** C22. The verdict of one call, in the order of its checks.  An envelope is accepted exactly when its
    timestamp is fresh, its nonce is not live in the store, and its signature verifies over the
    canonical hash of its five signed fields under the registered key.  A timestamp that is not
    fresh is refused as stale (or its exception escapes) and leaves the store as it was; a live
    nonce is refused as reused; and a call with a fresh timestamp and an unseen nonce consumes the
    nonce, accepted or not, and is refused as unknown_pubkey exactly when there is no usable key
    and as signature_mismatch exactly when there is one but the signature is wrong. *)
Theorem verify_envelope_spec (f : Z) (c : clocks) (keys : Store) (s : NonceStore) (e : SignedEnvelope) :
  ((verify_envelope f c keys s e).2 = Ok accepted <->
     fresh_at f (c_wall c) (se_timestamp e) /\ ~ nonce_live (c_has_seen c) s (se_nonce e) /\ signature_ok keys e) /\
  (~ fresh_at f (c_wall c) (se_timestamp e) -> (verify_envelope f c keys s e).1 = s /\
     ((verify_envelope f c keys s e).2 = Ok (rejected "timestamp_stale") \/
      exists x, parse_timestamp (se_timestamp e) = Raise x /\ (verify_envelope f c keys s e).2 = Raise x)) /\
  (fresh_at f (c_wall c) (se_timestamp e) -> nonce_live (c_has_seen c) s (se_nonce e) ->
     (verify_envelope f c keys s e).2 = Ok (rejected "nonce_reused")) /\
  (fresh_at f (c_wall c) (se_timestamp e) -> ~ nonce_live (c_has_seen c) s (se_nonce e) ->
     ns_seen (verify_envelope f c keys s e).1 !! se_nonce e = Some (c_mark c) /\
     ((verify_envelope f c keys s e).2 = Ok (rejected "unknown_pubkey") <-> key_unusable keys e) /\
     ((verify_envelope f c keys s e).2 = Ok (rejected "signature_mismatch") <-> signature_wrong keys e)).
Proof.
  split_and!; [split| | |].
  - intros (Hf & Hn & Hg & _)%verify_envelope_accept_inv. done.
  - intros (Hf & Hn & Hg). destruct (verify_envelope_fresh f c keys s e Hf Hn) as [-> _]. by apply verify_signature_accepts.
  - apply verify_envelope_stale.
  - apply verify_envelope_reused.
  - intros Hf Hn. destruct (verify_envelope_fresh f c keys s e Hf Hn) as [-> Hm]. split; [done|]. apply verify_signature_reasons.
Qed.

(** C21. No replay.  In any sequence of calls, with any keys, once a call is accepted every later call
    with the same nonce, whatever its timestamp and the rest of it, is refused for as long as the
    nonce is retained, and as reused when its timestamp is fresh.  After that time a copy with the
    same timestamp is refused still, when nonces are retained for twice the freshness window and
    the latency of a call: the service's defaults, 60 and 300 seconds, leave 180 seconds. *)
Theorem replay_rejected (f : Z) (s : NonceStore) (calls : list call) (i j : nat) (ci cj : call) :
  calls_ordered calls -> (i < j)%nat -> calls !! i = Some ci -> calls !! j = Some cj ->
  se_nonce (call_envelope ci) = se_nonce (call_envelope cj) -> (run_calls f s calls).2 !! i = Some (Ok accepted) ->
  (c_has_seen (call_clocks cj) - c_mark (call_clocks ci) <= ttl_us s ->
     (run_calls f s calls).2 !! j ≠ Some (Ok accepted) /\
     (fresh_at f (c_wall (call_clocks cj)) (se_timestamp (call_envelope cj)) ->
        (run_calls f s calls).2 !! j = Some (Ok (rejected "nonce_reused")))) /\
  (forall offset latency, wall_close offset latency (call_clocks ci) -> wall_close offset latency (call_clocks cj) ->
     2 * (f * 1000000) + latency <= ttl_us s -> se_timestamp (call_envelope ci) = se_timestamp (call_envelope cj) ->
     (run_calls f s calls).2 !! j ≠ Some (Ok accepted)).
Proof.
  intros Hc Hij Hi Hj Hn Hri. split; [by eapply run_calls_replay|].
  intros offset latency [Hwi Hmi] [Hwj Hmj] Httl Hts Hrj.
  pose proof (run_calls_fresh _ _ _ _ _ Hi Hri) as (t & Et & Hti). pose proof (run_calls_fresh _ _ _ _ _ Hj Hrj) as (t' & Et' & Htj).
  assert (t' = t) as -> by (rewrite Hts in Et; congruence).
  pose proof (calls_ordered_lookup _ _ _ Hc Hi) as [Hi1 Hi2]. pose proof (calls_ordered_lookup _ _ _ Hc Hj) as [Hj1 Hj2].
  destruct (run_calls_replay f s calls i j ci cj Hc Hij Hi Hj Hn Hri) as [Hr _]; [lia|by apply Hr].
Qed.

(** An honest client is accepted: a P-256 key registered in the store, a fresh timestamp, a new
    nonce, and a raw 64-byte signature over the canonical hash of the signed fields that the
    library verifies. *)
Theorem honest_envelope_accepted `{!CryptographyLaws} (f : Z) (c : clocks) (s : NonceStore)
    (store store' : PubkeyStore) (e : SignedEnvelope) (k : EllipticCurvePublicKey) (signature h : bytes) :
  PubkeyStore_register_pubkey store (JStr (se_pubkey_id e)) (ObjBytes (ec_public_der k)) = Ok store' ->
  ec_is_p256 k = true ->
  fresh_at f (c_wall c) (se_timestamp e) -> ~ nonce_live (c_has_seen c) s (se_nonce e) ->
  se_signature_algorithm e = default_signature_algorithm ->
  se_signature e = b64encode signature -> length signature = 64%nat ->
  hash_payload (JObj (signing_payload e)) = Ok h ->
  ec_verify_sha256 k (dss_of_raw signature) h = Ok tt ->
  (verify_envelope f c store' s e).2 = Ok accepted.
Proof.
  intros Hreg Hk Hf Hn Ha Hs Hl Hh Hv. unfold verify_envelope.
  apply timestamp_is_fresh_true in Hf as ->.
  pose proof (has_seen_true (c_has_seen c) s (se_nonce e)) as Hb.
  destruct (has_seen _ s _) as [s' []]; [by destruct Hn; apply Hb|]. cbn [snd].
  apply verify_signature_accepts. exists (ObjEcPublic k), (ObjEcPublic k), signature, h.
  split_and!; [|done|done| |done|by apply verify_ec_true].
  - unfold PubkeyStore_register_pubkey in Hreg. destruct (truthy_str _); [|done].
    rewrite ec_der_roundtrip in Hreg. injection Hreg as <-.
    unfold lookup_pubkey, PubkeyStore_lookup, PubkeyStore_get_pubkey. f_equal.
    exact (lookup_insert_eq (M := gmap string) store _ _).
  - rewrite Hs. apply b64decode_encode.
Qed.

(** The nonce store forgets nothing it must keep and keeps nothing it must forget: after
    [mark_seen] the nonce is seen until its time to live has passed and no longer, other nonces
    are unaffected, and a sweep keeps exactly the live entries. *)
Theorem nonce_store_spec (s : NonceStore) (nonce other : string) (t t' now : Z) :
  ((has_seen now (mark_seen t t' s nonce) nonce).2 = true <-> now - t' <= ttl_us s) /\
  (other ≠ nonce -> t <= now ->
     (has_seen now (mark_seen t t' s nonce) other).2 = (has_seen now s other).2) /\
  (forall n v, ns_seen (has_seen now s nonce).1 !! n = Some v <-> ns_seen s !! n = Some v /\ now - v <= ttl_us s).
Proof.
  split_and!.
  - rewrite has_seen_true. unfold nonce_live, mark_seen, ttl_us. cbn. rewrite lookup_insert_eq. naive_solver.
  - intros Ho Ht. apply eq_true_iff_eq. rewrite !has_seen_true. unfold nonce_live, mark_seen. cbn [ns_seen].
    rewrite lookup_insert_ne by done. setoid_rewrite lookup_sweep. unfold ttl_us in *. cbn [ns_ttl_seconds sweep_expired].
    split; [intros (v & (? & ?) & ?)|intros (v & ? & ?)]; exists v; repeat split; (done || lia).
  - intros n v. apply lookup_sweep.
Qed.

(** A timestamp whose UTC value is not representable is not refused: the exception of
    [astimezone] leaves [verify_envelope], whatever the keys and the store. *)
Theorem verify_envelope_overflow (f : Z) (c : clocks) (keys : Store) (s : NonceStore) (e : SignedEnvelope) :
  se_timestamp e = "0001-01-01T00:00:00+01:00" ->
  verify_envelope f c keys s e = (s, raise OverflowError "date value out of range").
Proof.
  intros He. unfold verify_envelope, timestamp_is_fresh. rewrite He.
  assert (parse_timestamp "0001-01-01T00:00:00+01:00" = raise OverflowError "date value out of range") as ->
    by (vm_compute; reflexivity). done.
Qed.

End Theorems.

(** ** Witnesses *)

Section Witnesses.
#[local] Existing Instance demo_hashlib.
#[local] Existing Instance demo_rfc8785.
#[local] Existing Instance demo_rfc8785_laws.
#[local] Existing Instance demo_cryptography.
#[local] Existing Instance demo_cryptography_laws.

Definition demo_wall : Z := 63902822400000000.
Definition demo_clocks (n : Z) : clocks := Clocks (demo_wall + n) n (n + 1) (n + 2).

Lemma demo_coordinates_ok : coordinates_ok (1, 2, true).
Proof. apply (bool_decide_unpack _). vm_compute. exact I. Qed.

Definition demo_curve_key : demo_ec := dexist (1, 2, true) demo_coordinates_ok.

Definition demo_envelope (signature : string) : SignedEnvelope :=
  mkSignedEnvelope "send it" "u1" "s1" "2026-01-01T00:00:00Z" "n1" signature "k1" default_signature_algorithm.

Definition demo_envelope_hash : bytes :=
  match hash_payload (JObj (signing_payload (demo_envelope ""))) with Ok h => h | Raise _ => [] end.

Definition demo_signature : bytes := demo_ec_sign demo_curve_key demo_envelope_hash.

Definition demo_signed : SignedEnvelope := demo_envelope (b64encode demo_signature).

Definition demo_store : PubkeyStore :=
  match PubkeyStore_register_pubkey PubkeyStore_init (JStr "k1") (ObjBytes (demo_der demo_curve_key)) with
  | Ok s => s | Raise _ => ∅ end.

Lemma demo_store_registered :
  PubkeyStore_register_pubkey PubkeyStore_init (JStr (se_pubkey_id demo_signed))
    (ObjBytes (demo_der demo_curve_key)) = Ok demo_store.
Proof.
  assert (is_ok (PubkeyStore_register_pubkey PubkeyStore_init (JStr "k1") (ObjBytes (demo_der demo_curve_key))) = true)
    as E by (vm_compute; reflexivity).
  unfold demo_store. change (se_pubkey_id demo_signed) with "k1"%string.
  destruct (PubkeyStore_register_pubkey _ _ _); [done|discriminate E].
Qed.

Definition demo_nonces : NonceStore := mkNonceStore 300 ∅.

Lemma demo_fresh : fresh_at 60 demo_wall (se_timestamp demo_signed).
Proof. exists demo_wall. split; [vm_compute; reflexivity|lia]. Qed.

Lemma demo_not_live n : ~ nonce_live n demo_nonces "n1".
Proof. by intros (v & Hv & _). Qed.

Lemma demo_fresh_0 : fresh_at 60 (c_wall (demo_clocks 0)) (se_timestamp demo_signed).
Proof. replace (c_wall (demo_clocks 0)) with demo_wall by (vm_compute; reflexivity). exact demo_fresh. Qed.

Lemma verify_envelope_spec_witness :
  (verify_envelope 60 (demo_clocks 0) demo_store demo_nonces demo_signed).2 = Ok accepted /\
  (verify_envelope 60 (demo_clocks 120000000) demo_store demo_nonces demo_signed).1 = demo_nonces /\
  (verify_envelope 60 (demo_clocks 0) PubkeyStore_init demo_nonces demo_signed).2 = Ok (rejected "unknown_pubkey").
Proof.
  split; [|split].
  - apply (verify_envelope_spec 60 (demo_clocks 0) demo_store demo_nonces demo_signed). split_and!; [exact demo_fresh_0|apply demo_not_live|].
    apply verify_signature_accepts. vm_compute; reflexivity.
  - apply (verify_envelope_spec 60 (demo_clocks 120000000) demo_store demo_nonces demo_signed).
    intros (t & Et & Ht). vm_compute in Et. injection Et as <-. vm_compute in Ht. by apply Ht.
  - destruct (verify_envelope_spec 60 (demo_clocks 0) PubkeyStore_init demo_nonces demo_signed) as (_ & _ & _ & Hm).
    apply (Hm demo_fresh_0 (demo_not_live _)). left. reflexivity.
Defined.

Definition demo_call (n : Z) : call := Call (demo_clocks n) demo_store demo_signed.

(** The same nonce under another timestamp. *)
Definition demo_renewed : SignedEnvelope :=
  mkSignedEnvelope (se_prompt demo_signed) (se_user_id demo_signed) (se_session_id demo_signed) "2026-01-01T00:00:30Z" (se_nonce demo_signed)
    (se_signature demo_signed) (se_pubkey_id demo_signed) (se_signature_algorithm demo_signed).

Lemma replay_rejected_witness :
  let calls := [demo_call 0; demo_call 30000000; Call (demo_clocks 60000000) demo_store demo_renewed] in
  (run_calls 60 demo_nonces calls).2 !! 1%nat ≠ Some (Ok accepted) /\
  (run_calls 60 demo_nonces calls).2 !! 2%nat ≠ Some (Ok accepted).
Proof.
  intros calls. assert (calls_ordered calls) as Hc by (cbn; unfold clocks_ordered; cbn; repeat constructor; cbn; lia).
  assert ((run_calls 60 demo_nonces calls).2 !! 0%nat = Some (Ok accepted)) as Ha by (vm_compute; reflexivity). split.
  - apply (replay_rejected 60 demo_nonces calls 0 1 (demo_call 0) (demo_call 30000000) Hc ltac:(lia) eq_refl eq_refl eq_refl Ha)
      with (offset := demo_wall) (latency := 2); [unfold wall_close; cbn; lia..|vm_compute; discriminate|reflexivity].
  - apply (replay_rejected 60 demo_nonces calls 0 2 (demo_call 0) (Call (demo_clocks 60000000) demo_store demo_renewed)
      Hc ltac:(lia) eq_refl eq_refl eq_refl Ha). vm_compute; discriminate.
Defined.

Lemma honest_envelope_accepted_witness :
  (verify_envelope 60 (demo_clocks 0) demo_store demo_nonces demo_signed).2 = Ok accepted.
Proof.
  apply (honest_envelope_accepted 60 (demo_clocks 0) demo_nonces PubkeyStore_init demo_store demo_signed
           demo_curve_key demo_signature demo_envelope_hash).
  - apply demo_store_registered.
  - reflexivity.
  - replace (c_wall (demo_clocks 0)) with demo_wall by (vm_compute; reflexivity). apply demo_fresh.
  - apply demo_not_live.
  - reflexivity.
  - reflexivity.
  - vm_compute; reflexivity.
  - vm_compute; reflexivity.
  - vm_compute; reflexivity.
Defined.

Lemma nonce_store_spec_witness :
  (has_seen 8 (mark_seen 5 6 demo_nonces "n1") "n2").2 = (has_seen 8 demo_nonces "n2").2.
Proof. apply (nonce_store_spec demo_nonces "n1" "n2" 5 6 8); [discriminate|lia]. Defined.

Definition demo_overflow : SignedEnvelope :=
  mkSignedEnvelope "send it" "u1" "s1" "0001-01-01T00:00:00+01:00" "n1" "x" "k1" default_signature_algorithm.

Lemma verify_envelope_overflow_witness :
  verify_envelope 60 (demo_clocks 0) demo_store demo_nonces demo_overflow
  = (demo_nonces, raise OverflowError "date value out of range").
Proof. apply verify_envelope_overflow. reflexivity. Defined.
End Witnesses.
