(* ===== verification/Registry.v ===== *)
(** * key_registry: key records, their storage, and JWK sets

    Models [models.py], [jwks.py], [storage.py] and [registry.py].  The [agent_keys] table is
    the list of its rows in insertion order, with the columns as SQLite stores them (timestamps
    as ISO text); the statements of [storage.py] are functions on it.  [ORDER BY] is an
    interface, [Sqlite]: a permutation sorted by the column.  Every reading of [_now] is an
    argument.  The registry implements [PublicKeyLookup], the interface of the verifier.

    The theorems: the table keeps one valid row per key identifier under every operation, a
    lookup answers exactly for active keys, revocation is permanent, and a published JWK
    imports back to the same key. *)

From S2P Require Import Prelude PyStr Base64 Json JsonText PyTime Crypto Instances Sql Verifier.

#[local] Open Scope Z_scope.

(** ** models.py *)

(** Timestamps are held in UTC, as the validators convert them. *)
Record AgentKeyRecord := mkAgentKeyRecord {
  kr_agent_id : string;
  kr_agent_type : option string;
  kr_pubkey_id : string;
  kr_public_key_bytes : bytes;
  kr_algorithm : string;
  kr_valid_from : Z;
  kr_valid_until : option Z;
  kr_revoked : bool;
  kr_created_at : Z;
}.

#[export] Instance AgentKeyRecord_eq_dec : EqDecision AgentKeyRecord.
Proof. solve_decision. Defined.

Definition as_utc (value : datetime) : result Z :=
  match dt_offset value with
  | None => raise ValueError "timestamps must include a timezone"
  | Some _ => to_utc value
  end.

(** A field validator: a [ValueError] is collected ([None]), any other exception passes. *)
Definition validated {A} (m : result A) : result (option A) :=
  match m with
  | Ok a => Ok (Some a)
  | Raise e => if catches [ValueError] e then Ok None else Raise e
  end.

Definition validated_opt {A B} (f : A -> result B) (o : option A) : result (option (option B)) :=
  match o with None => Ok (Some None) | Some a => r ← validated (f a); Ok (option_map Some r) end.

Definition opt_min_length (o : option string) : bool :=
  match o with None => true | Some s => truthy_str s end.

Definition window_ordered (valid_from : Z) (valid_until : option Z) : bool :=
  match valid_until with None => true | Some u => valid_from <=? u end.

Definition validation_error {A} : result A := raise ValidationError "1 validation error".

(** The constructor: fields in order, then the model validator. *)
Definition AgentKeyRecord_init (agent_id : string) (agent_type : option string) (pubkey_id : string)
    (public_key_bytes : bytes) (algorithm : string) (valid_from : datetime) (valid_until : option datetime)
    (revoked : bool) (created_at : datetime) : result AgentKeyRecord :=
  from ← validated (as_utc valid_from);
  until ← validated_opt as_utc valid_until;
  created ← validated (as_utc created_at);
  match from, until, created with
  | Some from, Some until, Some created =>
      if truthy_str agent_id && opt_min_length agent_type && truthy_str pubkey_id
         && negb (bool_decide (public_key_bytes = [])) && truthy_str algorithm
         && window_ordered from until
      then Ok (mkAgentKeyRecord agent_id agent_type pubkey_id public_key_bytes algorithm from until revoked created)
      else validation_error
  | _, _, _ => validation_error
  end.

(** ** jwks.py *)

(** [s.rstrip(c)]. *)
Fixpoint rstrip_char (c : ascii) (s : string) : string :=
  match s with
  | EmptyString => EmptyString
  | String x s' =>
      match rstrip_char c s' with
      | EmptyString => if decide (x = c) then EmptyString else String x EmptyString
      | r => String x r
      end
  end.

(** [c * n]. *)
Fixpoint str_repeat (c : ascii) (n : nat) : string :=
  match n with O => EmptyString | S n' => String c (str_repeat c n') end.

Definition base64url_encode (value : bytes) : string := rstrip_char b64_pad (urlsafe_b64encode value).

Definition base64url_decode (value : string) : result bytes :=
  urlsafe_b64decode (value +:+ str_repeat b64_pad (Z.to_nat (- Z.of_nat (String.length value) mod 4))).

Section Jwks.
Context `{Cryptography}.

Definition load_supported_public_key (public_key_bytes : bytes) : result pyobj :=
  load_key_bytes (Some "public key must be DER SPKI or raw 32-byte Ed25519") "unsupported public key type"
    public_key_bytes.

Definition public_key_to_jwk (record : AgentKeyRecord) : result dict :=
  public_key ← load_supported_public_key (kr_public_key_bytes record);
  let common := [("kid", JStr (kr_pubkey_id record)); ("use", JStr "sig")] in
  match public_key with
  | ObjEdPublic k =>
      Ok (common ++ [("kty", JStr "OKP"); ("crv", JStr "Ed25519");
                     ("x", JStr (base64url_encode (ed_public_raw k))); ("alg", JStr "EdDSA")])
  | ObjEcPublic k =>
      if ec_is_p256 k then
        let numbers := ec_public_numbers k in
        Ok (common ++ [("kty", JStr "EC"); ("crv", JStr "P-256");
                       ("x", JStr (base64url_encode (int_to_bytes_big 32 numbers.1)));
                       ("y", JStr (base64url_encode (int_to_bytes_big 32 numbers.2)));
                       ("alg", JStr "ES256")])
      else raise ValueError "only Ed25519 and ECDSA P-256 public keys are supported"
  | _ => raise ValueError "only Ed25519 and ECDSA P-256 public keys are supported"
  end.

Definition export_jwks (records : list AgentKeyRecord) : result (list dict) := mapM_result public_key_to_jwk records.

(** [jwk[k] == s]. *)
Definition item_is (jwk : dict) (k s : string) : result bool :=
  v ← dict_item k jwk; Ok (match v with JStr t => bool_decide (t = s) | _ => false end).

(** [_base64url_decode(jwk[k])]: anything but a string fails in [len] or [+]. *)
Definition item_bytes (jwk : dict) (k : string) : result bytes :=
  v ← dict_item k jwk;
  match v with JStr t => base64url_decode t | _ => raise TypeError "unsupported operand" end.

(** The body of the [try]: [None] when neither branch applies. *)
Definition import_jwk_body (jwk : dict) : result (option bytes) :=
  okp ← item_is jwk "kty" "OKP";
  ed ← (if okp : bool then item_is jwk "crv" "Ed25519" else Ok false);
  if ed : bool then
    raw_key ← item_bytes jwk "x";
    _ ← ed_public_from_raw raw_key;
    Ok (Some raw_key)
  else
    ec ← item_is jwk "kty" "EC";
    p256 ← (if ec : bool then item_is jwk "crv" "P-256" else Ok false);
    if p256 : bool then
      x ← item_bytes jwk "x";
      y ← item_bytes jwk "y";
      public_key ← ec_p256_from_numbers (int_from_bytes_big x) (int_from_bytes_big y);
      Ok (Some (ec_public_der public_key))
    else Ok None.

Definition import_jwk (jwk : dict) : result bytes :=
  r ← try_except (import_jwk_body jwk) [KeyError; TypeError; ValueError; BinasciiError]
        (fun _ => raise ValueError "invalid supported public JWK");
  of_option r ValueError "unsupported JWK type".

End Jwks.

(** ** storage.py *)

(** A row of [agent_keys]. *)
Record KeyRow := mkKeyRow {
  row_pubkey_id : string;
  row_agent_id : string;
  row_agent_type : option string;
  row_public_key_bytes : bytes;
  row_algorithm : string;
  row_valid_from : string;
  row_valid_until : option string;
  row_revoked : Z;
  row_created_at : string;
}.

Abbreviation KeyTable := (list KeyRow).

Definition timestamp_to_storage (value : option Z) : option string := isoformat_utc <$> value.

Definition timestamp_from_storage (value : string) : result datetime :=
  d ← fromisoformat value; t ← to_utc d; Ok (utc t).

Definition timestamp_from_storage_opt (value : option string) : result (option datetime) :=
  match value with None => Ok None | Some s => d ← timestamp_from_storage s; Ok (Some d) end.

Definition record_from_row (row : KeyRow) : result AgentKeyRecord :=
  valid_from ← timestamp_from_storage (row_valid_from row);
  valid_until ← timestamp_from_storage_opt (row_valid_until row);
  created_at ← timestamp_from_storage (row_created_at row);
  AgentKeyRecord_init (row_agent_id row) (row_agent_type row) (row_pubkey_id row) (row_public_key_bytes row)
    (row_algorithm row) valid_from valid_until (negb (row_revoked row =? 0)) created_at.

(** The values bound by the [INSERT]. *)
Definition row_of_record (record : AgentKeyRecord) : KeyRow :=
  mkKeyRow (kr_pubkey_id record) (kr_agent_id record) (kr_agent_type record) (kr_public_key_bytes record)
    (kr_algorithm record) (isoformat_utc (kr_valid_from record)) (timestamp_to_storage (kr_valid_until record))
    (if kr_revoked record then 1 else 0) (isoformat_utc (kr_created_at record)).

Definition has_key (pubkey_id : string) (t : KeyTable) : bool :=
  existsb (fun row => bool_decide (row_pubkey_id row = pubkey_id)) t.

(** [pubkey_id] is the primary key: a second row is an [IntegrityError]. *)
Definition insert_key (t : KeyTable) (record : AgentKeyRecord) : result KeyTable :=
  if has_key (kr_pubkey_id record) t
  then raise ValueError ("pubkey_id already registered: " +:+ kr_pubkey_id record)
  else Ok (t ++ [row_of_record record]).

Definition find_row (t : KeyTable) (pubkey_id : string) : option KeyRow :=
  snd <$> list_find (fun row => row_pubkey_id row = pubkey_id) t.

Definition get_key_by_id (t : KeyTable) (pubkey_id : string) : result (option AgentKeyRecord) :=
  match find_row t pubkey_id with
  | None => Ok None
  | Some row => r ← record_from_row row; Ok (Some r)
  end.

Definition get_keys_by_agent `{Sqlite} (t : KeyTable) (agent_id : string) : result (list AgentKeyRecord) :=
  mapM_result record_from_row
    (order_by_desc row_created_at (filter (fun row => row_agent_id row = agent_id) t)).

Definition all_keys `{Sqlite} (t : KeyTable) : result (list AgentKeyRecord) :=
  mapM_result record_from_row (order_by_desc row_created_at t).

Definition set_revoked (row : KeyRow) : KeyRow :=
  mkKeyRow (row_pubkey_id row) (row_agent_id row) (row_agent_type row) (row_public_key_bytes row)
    (row_algorithm row) (row_valid_from row) (row_valid_until row) 1 (row_created_at row).

(** The updated table, and whether [rowcount] is positive. *)
Definition storage_revoke_key (t : KeyTable) (pubkey_id : string) : KeyTable * bool :=
  (map (fun row => if bool_decide (row_pubkey_id row = pubkey_id) then set_revoked row else row) t,
   has_key pubkey_id t).

(** ** registry.py *)

Section Registry.
Context `{Cryptography}.

Definition algorithm_for_key (public_key_bytes : bytes) : result string :=
  public_key ← load_supported_public_key public_key_bytes;
  match public_key with
  | ObjEdPublic _ => Ok "Ed25519"
  | ObjEcPublic k =>
      if ec_is_p256 k then Ok "ECDSA-P256-SHA256" else raise ValueError "unsupported public key algorithm"
  | _ => raise ValueError "unsupported public key algorithm"
  end.

Definition is_active (record : AgentKeyRecord) (now : Z) : bool :=
  negb (kr_revoked record) && (kr_valid_from record <=? now)
  && match kr_valid_until record with None => true | Some u => now <=? u end.

Definition accepted_algorithm_ids (expected : string) : list string :=
  if bool_decide (expected = "Ed25519") then ["Ed25519"; "EdDSA"] else ["ECDSA-P256-SHA256"; "ES256"].

Definition agent_suffix : string := "-agent".

Definition agent_type_for_id (agent_id : string) : option string :=
  if str_endswith agent_suffix agent_id && (6 <? String.length agent_id)%nat
  then Some (substring 0 (String.length agent_id - 6) agent_id) else None.

(** [agent_type or default]. *)
Definition or_else (o d : option string) : option string :=
  match o with Some s => if truthy_str s then o else d | None => d end.

Definition register_key (now : Z) (t : KeyTable) (agent_id pubkey_id : string) (public_key_bytes : bytes)
    (algorithm : string) (valid_from : datetime) (valid_until : option datetime) (agent_type : option string)
    : result (KeyTable * AgentKeyRecord) :=
  expected_algorithm ← algorithm_for_key public_key_bytes;
  if negb (bool_decide (algorithm ∈ accepted_algorithm_ids expected_algorithm))
  then raise ValueError ("algorithm does not match public key: expected " +:+ expected_algorithm)
  else
    record ← AgentKeyRecord_init agent_id (or_else agent_type (agent_type_for_id agent_id)) pubkey_id
               public_key_bytes expected_algorithm valid_from valid_until false (utc now);
    t' ← insert_key t record;
    Ok (t', record).

(** [now] is read for the activity check, or for [valid_from] and then [created_at]. *)
Definition register_pubkey (now now' : Z) (t : KeyTable) (pubkey_id : string) (public_key_bytes : bytes)
    : result KeyTable :=
  existing ← get_key_by_id t pubkey_id;
  match existing with
  | Some existing =>
      if bool_decide (kr_public_key_bytes existing = public_key_bytes) && is_active existing now then Ok t
      else raise ValueError ("pubkey_id already registered: " +:+ pubkey_id)
  | None =>
      algorithm ← algorithm_for_key public_key_bytes;
      '(t', _) ← register_key now' t "unassigned" pubkey_id public_key_bytes algorithm (utc now) None None;
      Ok t'
  end.

Definition get_key_record (now : Z) (t : KeyTable) (pubkey_id : string) : result (option AgentKeyRecord) :=
  record ← get_key_by_id t pubkey_id;
  Ok (match record with Some r => if is_active r now then Some r else None | None => None end).

Definition get_pubkey (now : Z) (t : KeyTable) (pubkey_id : string) : result (option bytes) :=
  record ← get_key_by_id t pubkey_id;
  match record with
  | None => Ok None
  | Some r => if negb (is_active r now) then Ok None else Ok (Some (kr_public_key_bytes r))
  end.

Definition revoke_key (t : KeyTable) (pubkey_id : string) : KeyTable * bool := storage_revoke_key t pubkey_id.

Definition list_active_keys `{Sqlite} (now : Z) (t : KeyTable) (agent_id : string) : result (list AgentKeyRecord) :=
  records ← get_keys_by_agent t agent_id;
  Ok (filter (fun r => is_active r now = true) records).

Definition registry_export_jwks `{Sqlite} (now : Z) (t : KeyTable) : result (list dict) :=
  records ← all_keys t;
  export_jwks (filter (fun r => is_active r now = true) records).

(** The registry at a point in time, as the verifier's key store. *)
#[export] Instance KeyRegistry_lookup : PublicKeyLookup (Z * KeyTable) :=
  {| lookup_pubkey s id := b ← get_pubkey s.1 s.2 id; Ok (option_map ObjBytes b) |}.

(** ** Specification *)

(** What the constructor guarantees of a record, and registration of its key. *)
Definition fields_ok (r : AgentKeyRecord) : Prop :=
  truthy_str (kr_agent_id r) = true /\ opt_min_length (kr_agent_type r) = true /\
  truthy_str (kr_pubkey_id r) = true /\ kr_public_key_bytes r ≠ [] /\ truthy_str (kr_algorithm r) = true /\
  valid_us (kr_valid_from r) /\ valid_us (kr_created_at r) /\
  (forall u, kr_valid_until r = Some u -> valid_us u /\ kr_valid_from r <= u).

Definition record_wf (r : AgentKeyRecord) : Prop :=
  fields_ok r /\ algorithm_for_key (kr_public_key_bytes r) = Ok (kr_algorithm r).

Definition row_ok (row : KeyRow) : Prop := exists r, record_wf r /\ row = row_of_record r.

(** One valid row per key identifier. *)
Definition table_ok (t : KeyTable) : Prop := NoDup (row_pubkey_id <$> t) /\ Forall row_ok t.

(** One call that may write the table; a call that raises leaves it. *)
Inductive registry_step : KeyTable -> KeyTable -> Prop :=
| step_register_key now t agent_id id b algorithm from until agent_type t' r :
    register_key now t agent_id id b algorithm from until agent_type = Ok (t', r) -> registry_step t t'
| step_register_pubkey now now' t id b t' :
    register_pubkey now now' t id b = Ok t' -> registry_step t t'
| step_revoke t id : registry_step t (revoke_key t id).1.

(** The record of [r] in a later table: the same, or revoked since. *)
Definition later (r r' : AgentKeyRecord) : Prop :=
  r' = r \/ r' = mkAgentKeyRecord (kr_agent_id r) (kr_agent_type r) (kr_pubkey_id r) (kr_public_key_bytes r)
                   (kr_algorithm r) (kr_valid_from r) (kr_valid_until r) true (kr_created_at r).

(** The registered records that are active at [now]. *)
Definition active_in (now : Z) (t : KeyTable) (r : AgentKeyRecord) : Prop :=
  get_key_by_id t (kr_pubkey_id r) = Ok (Some r) /\ is_active r now = true.

(** ** Lemmas on records and rows *)

Lemma as_utc_ok d t : as_utc d = Ok t -> valid_us t.
Proof.
  unfold as_utc, to_utc, valid_us, valid_usb. destruct (dt_offset d); [|done].
  destruct ((0 <=? _) && _) eqn:E; [|done]. intros [= <-]. lia.
Qed.

Lemma as_utc_utc t : valid_us t -> as_utc (utc t) = Ok t.
Proof.
  unfold as_utc, to_utc, valid_us, valid_usb. cbn. rewrite Z.sub_0_r. intros Ht.
  by replace ((0 <=? t) && (t <? max_us)) with true by lia.
Qed.

Lemma validated_some {A} (m : result A) a : validated m = Ok (Some a) -> m = Ok a.
Proof. unfold validated. destruct m as [x|e]; [by intros [= ->]|]. by destruct (catches _ e). Qed.

Lemma validated_opt_some {A B} (f : A -> result B) o r :
  validated_opt f o = Ok (Some r) ->
  match o with None => r = None | Some a => exists b, f a = Ok b /\ r = Some b end.
Proof.
  unfold validated_opt. destruct o as [a|]; [|by intros [= <-]].
  destruct (validated (f a)) as [[b|]|] eqn:E; [|done..]. intros [= <-].
  apply validated_some in E. eauto.
Qed.

Lemma AgentKeyRecord_init_inv aid aty id b alg from until rev created r :
  AgentKeyRecord_init aid aty id b alg from until rev created = Ok r ->
  fields_ok r /\ kr_agent_id r = aid /\ kr_agent_type r = aty /\ kr_pubkey_id r = id /\
  kr_public_key_bytes r = b /\ kr_algorithm r = alg /\ kr_revoked r = rev /\
  as_utc from = Ok (kr_valid_from r) /\ as_utc created = Ok (kr_created_at r) /\
  match until with None => kr_valid_until r = None
                 | Some d => exists u, as_utc d = Ok u /\ kr_valid_until r = Some u end.
Proof.
  unfold AgentKeyRecord_init.
  destruct (validated (as_utc from)) as [[f|]|] eqn:Ef; cbn [mbind result_bind]; [|
    destruct (validated_opt as_utc until); cbn [mbind result_bind]; [|done];
    destruct (validated (as_utc created)); done|done].
  destruct (validated_opt as_utc until) as [[u|]|] eqn:Eu; cbn [mbind result_bind]; [|
    destruct (validated (as_utc created)); done|done].
  destruct (validated (as_utc created)) as [[c|]|] eqn:Ec; cbn [mbind result_bind]; [|done..].
  apply validated_some in Ef, Ec. apply validated_opt_some in Eu.
  destruct (_ && _) eqn:E; [|done]. intros [= <-].
  rewrite !andb_true_iff in E. destruct E as [[[[[E1 E2] E3] E4] E5] E6].
  unfold fields_ok. cbn. split_and!; try done.
  - by intros ->.
  - by eapply as_utc_ok.
  - by eapply as_utc_ok.
  - intros v ->. destruct until as [d|]; [|done]. destruct Eu as (w & Ew & [= <-]).
    split; [by eapply as_utc_ok|]. cbn in E6. lia.
Qed.

Lemma timestamp_storage_roundtrip t : valid_us t -> timestamp_from_storage (isoformat_utc t) = Ok (utc t).
Proof.
  intros Ht. unfold timestamp_from_storage. rewrite fromisoformat_isoformat by done. cbn [mbind result_bind].
  pose proof (as_utc_utc t Ht) as E. unfold as_utc in E. cbn [dt_offset utc] in E. by rewrite E.
Qed.

(** Reading back what was written. *)
Lemma record_from_row_of_record r : record_wf r -> record_from_row (row_of_record r) = Ok r.
Proof.
  intros [(H1 & H2 & H3 & H4 & H5 & H6 & H7 & H8) _]. unfold record_from_row. cbn.
  rewrite timestamp_storage_roundtrip by done. cbn [mbind result_bind].
  assert (timestamp_from_storage_opt (timestamp_to_storage (kr_valid_until r)) = Ok (utc <$> kr_valid_until r)) as ->.
  { destruct (kr_valid_until r) as [u|]; [|done]. cbn. destruct (H8 u eq_refl) as [Hu _].
    by rewrite timestamp_storage_roundtrip. }
  cbn [mbind result_bind]. rewrite timestamp_storage_roundtrip by done. cbn [mbind result_bind].
  unfold AgentKeyRecord_init. rewrite (as_utc_utc (kr_valid_from r)) by done. cbn [validated mbind result_bind].
  assert (validated_opt as_utc (utc <$> kr_valid_until r) = Ok (Some (kr_valid_until r))) as ->.
  { destruct (kr_valid_until r) as [u|]; [|done].
    destruct (H8 u eq_refl) as [Hu _]. unfold validated_opt. cbn [fmap option_fmap option_map].
    by rewrite as_utc_utc. }
  cbn [mbind result_bind]. rewrite as_utc_utc by done. cbn [validated mbind result_bind].
  rewrite H1, H2, H3, H5, bool_decide_eq_false_2 by done.
  assert (window_ordered (kr_valid_from r) (kr_valid_until r) = true) as ->.
  { destruct (kr_valid_until r) as [u|]; [|done]. destruct (H8 u eq_refl) as [_ Hu]. cbn. lia. }
  cbn. f_equal. destruct r as [? ? ? ? ? ? ? [] ?]; done.
Qed.

Lemma row_of_record_id r : row_pubkey_id (row_of_record r) = kr_pubkey_id r.
Proof. done. Qed.

(** ** Lemmas on tables *)

Lemma has_key_elem id t : has_key id t = true <-> id ∈ row_pubkey_id <$> t.
Proof.
  unfold has_key. rewrite existsb_exists, list_elem_of_fmap. split.
  - intros (row & Hin & E%bool_decide_eq_true). exists row. split; [done|]. by apply list_elem_of_In.
  - intros (row & -> & Hin). exists row. split; [by apply list_elem_of_In|]. by apply bool_decide_eq_true.
Qed.

Lemma find_row_some t id row :
  NoDup (row_pubkey_id <$> t) -> find_row t id = Some row <-> row ∈ t /\ row_pubkey_id row = id.
Proof.
  unfold find_row. induction t as [|x t IH]; intros Hnd; cbn [list_find].
  - split; [done|]. by intros [?%not_elem_of_nil _].
  - rewrite fmap_cons in Hnd. apply NoDup_cons in Hnd as [Hx Hnd]. case_decide as Hid.
    + cbn. split.
      * intros [= <-]. split; [left|done].
      * intros [[->|Hin]%elem_of_cons Hr]; [done|]. destruct Hx. rewrite Hid, <- Hr.
        by apply list_elem_of_fmap_2.
    + specialize (IH Hnd). rewrite elem_of_cons.
      assert (snd <$> (prod_map S Datatypes.id <$> list_find (fun row => row_pubkey_id row = id) t)
        = snd <$> list_find (fun row => row_pubkey_id row = id) t) as E.
      { destruct (list_find _ t) as [[]|]; done. }
      rewrite E, IH. naive_solver.
Qed.

Lemma find_row_none t id : find_row t id = None <-> id ∉ row_pubkey_id <$> t.
Proof.
  unfold find_row. rewrite fmap_None, list_find_None, Forall_forall, list_elem_of_fmap. naive_solver.
Qed.

Lemma row_of_record_inj r1 r2 :
  record_wf r1 -> record_wf r2 -> row_of_record r1 = row_of_record r2 -> r1 = r2.
Proof.
  intros H1 H2 E. pose proof (record_from_row_of_record r1 H1) as E1. rewrite E in E1.
  rewrite record_from_row_of_record in E1 by done. congruence.
Qed.

Lemma get_key_by_id_some t id r :
  table_ok t -> get_key_by_id t id = Ok (Some r) <-> record_wf r /\ row_of_record r ∈ t /\ kr_pubkey_id r = id.
Proof.
  intros [Hnd Hok]. rewrite Forall_forall in Hok. unfold get_key_by_id. split.
  - destruct (find_row t id) as [row|] eqn:E; [|done].
    apply find_row_some in E as [Hin Hid]; [|done]. destruct (Hok row Hin) as (r' & Hwf & ->).
    rewrite record_from_row_of_record by done. intros [= <-]. done.
  - intros (Hwf & Hin & Hid).
    assert (find_row t id = Some (row_of_record r)) as -> by by apply find_row_some.
    by rewrite record_from_row_of_record.
Qed.

Lemma get_key_by_id_none t id : table_ok t -> get_key_by_id t id = Ok None <-> id ∉ row_pubkey_id <$> t.
Proof.
  intros [Hnd Hok]. rewrite <- find_row_none. unfold get_key_by_id.
  destruct (find_row t id) as [row|] eqn:E; [|done]. split; [|done].
  destruct (record_from_row row); done.
Qed.

Lemma get_key_by_id_total t id :
  table_ok t -> get_key_by_id t id = Ok None \/ exists r, get_key_by_id t id = Ok (Some r).
Proof.
  intros [Hnd Hok]. rewrite Forall_forall in Hok. unfold get_key_by_id.
  destruct (find_row t id) as [row|] eqn:E; [|by left].
  apply find_row_some in E as [Hin Hid]; [|done]. destruct (Hok row Hin) as (r' & Hwf & ->).
  rewrite record_from_row_of_record by done. right. by exists r'.
Qed.

Lemma insert_key_inv t r t' :
  insert_key t r = Ok t' -> t' = t ++ [row_of_record r] /\ kr_pubkey_id r ∉ row_pubkey_id <$> t.
Proof.
  unfold insert_key. destruct (has_key _ t) eqn:E; [done|]. intros [= <-]. split; [done|].
  intros Hin%has_key_elem. congruence.
Qed.

Lemma insert_key_table_ok t r t' : table_ok t -> record_wf r -> insert_key t r = Ok t' -> table_ok t'.
Proof.
  intros [Hnd Hok] Hwf [-> Hid]%insert_key_inv. split.
  - rewrite fmap_app. apply NoDup_app. split_and!; [done| |apply NoDup_singleton].
    intros x Hx ->%list_elem_of_singleton. done.
  - apply Forall_app. split; [done|]. apply Forall_singleton. by exists r.
Qed.

(** The record after a revocation of [id]. *)
Definition revoked_by (id : string) (r : AgentKeyRecord) : AgentKeyRecord :=
  if bool_decide (kr_pubkey_id r = id)
  then mkAgentKeyRecord (kr_agent_id r) (kr_agent_type r) (kr_pubkey_id r) (kr_public_key_bytes r)
         (kr_algorithm r) (kr_valid_from r) (kr_valid_until r) true (kr_created_at r)
  else r.

Lemma revoked_by_wf id r : record_wf r -> record_wf (revoked_by id r).
Proof. unfold revoked_by. by case_bool_decide. Qed.

Lemma revoked_by_row id r :
  (if bool_decide (row_pubkey_id (row_of_record r) = id) then set_revoked (row_of_record r) else row_of_record r)
  = row_of_record (revoked_by id r).
Proof. unfold revoked_by. rewrite row_of_record_id. by case_bool_decide. Qed.

Lemma revoked_by_later id r : later r (revoked_by id r).
Proof. unfold revoked_by, later. case_bool_decide; auto. Qed.

Lemma revoke_keys t id : row_pubkey_id <$> (revoke_key t id).1 = row_pubkey_id <$> t.
Proof.
  cbn [revoke_key storage_revoke_key fst]. induction t as [|row t IH]; [done|].
  cbn [map]. rewrite !fmap_cons, IH. by case_bool_decide.
Qed.

Lemma revoke_table_ok t id : table_ok t -> table_ok (revoke_key t id).1.
Proof.
  intros [Hnd Hok]. split; [by rewrite revoke_keys|]. rewrite Forall_forall in *.
  intros row (row0 & -> & Hin)%list_elem_of_fmap. destruct (Hok row0 Hin) as (r & Hwf & ->).
  exists (revoked_by id r). split; [by apply revoked_by_wf|apply revoked_by_row].
Qed.

Lemma register_key_inv now t aid id b alg from until aty t' r :
  register_key now t aid id b alg from until aty = Ok (t', r) ->
  exists expected, algorithm_for_key b = Ok expected /\ alg ∈ accepted_algorithm_ids expected /\
    AgentKeyRecord_init aid (or_else aty (agent_type_for_id aid)) id b expected from until false (utc now) = Ok r /\
    insert_key t r = Ok t'.
Proof.
  unfold register_key. intros E. destruct (algorithm_for_key b) as [expected|]; [|done].
  cbn [mbind result_bind] in E. case_bool_decide as Ha; [|done]. cbn [negb] in E.
  destruct (AgentKeyRecord_init _ _ _ _ _ _ _ _ _) as [r0|] eqn:Er; [|done]. cbn [mbind result_bind] in E.
  destruct (insert_key t r0) as [t0|] eqn:Et; [|done]. injection E as <- <-. eauto.
Qed.

Lemma register_key_record_wf now t aid id b alg from until aty t' r :
  register_key now t aid id b alg from until aty = Ok (t', r) -> record_wf r /\ insert_key t r = Ok t'.
Proof.
  intros (ex & Ha & _ & Er & Et)%register_key_inv. split; [|done].
  apply AgentKeyRecord_init_inv in Er as (Hf & _ & _ & _ & Hb & Hal & _). split; [done|]. by rewrite Hb, Hal.
Qed.

Lemma registry_step_inv t t' :
  registry_step t t' ->
  t' = t \/ (exists r, record_wf r /\ insert_key t r = Ok t') \/ exists id, t' = (revoke_key t id).1.
Proof.
  intros [now t0 aid id b alg from until aty t1 r E|now now' t0 id b t1 E|t0 id].
  - apply register_key_record_wf in E as [Hwf Et]. eauto.
  - unfold register_pubkey in E. destruct (get_key_by_id t0 id) as [[ex|]|]; cbn [mbind result_bind] in E; [| |done].
    + destruct (_ && _); [|done]. injection E as ->. by left.
    + destruct (algorithm_for_key b) as [alg|]; [|done]. cbn [mbind result_bind] in E.
      destruct (register_key _ _ _ _ _ _ _ _ _) as [[t2 r]|] eqn:Er; [|done]. injection E as <-.
      apply register_key_record_wf in Er as [Hwf Et]. eauto.
  - eauto.
Qed.

Lemma registry_step_ok t t' : table_ok t -> registry_step t t' -> table_ok t'.
Proof.
  intros Hok [->|[(r & Hwf & E)|[id ->]]]%registry_step_inv; [done| |by apply revoke_table_ok].
  by eapply insert_key_table_ok.
Qed.

Lemma registry_steps_ok t t' : table_ok t -> rtc registry_step t t' -> table_ok t'.
Proof. intros Hok Hs. induction Hs as [|x y z Hxy _ IH]; [done|]. apply IH. by eapply registry_step_ok. Qed.

Lemma table_ok_nil : table_ok [].
Proof. split; constructor. Qed.

Lemma get_after_insert t r t' id :
  table_ok t -> record_wf r -> insert_key t r = Ok t' ->
  get_key_by_id t' id = (if bool_decide (id = kr_pubkey_id r) then Ok (Some r) else get_key_by_id t id).
Proof.
  intros Hok Hwf E. pose proof (insert_key_table_ok _ _ _ Hok Hwf E) as Hok'.
  apply insert_key_inv in E as [-> Hid]. case_bool_decide as Hb.
  - subst id. apply get_key_by_id_some; [done|]. set_solver.
  - destruct (get_key_by_id_total t id Hok) as [Hn|[r0 Hr0]].
    + rewrite Hn. apply get_key_by_id_none; [done|]. apply get_key_by_id_none in Hn; [|done].
      rewrite fmap_app. set_solver.
    + rewrite Hr0. apply get_key_by_id_some; [done|]. apply get_key_by_id_some in Hr0; [|done].
      set_solver.
Qed.

Lemma get_after_revoke t id id' :
  table_ok t ->
  get_key_by_id (revoke_key t id).1 id' = (r ← get_key_by_id t id'; Ok (option_map (revoked_by id) r)).
Proof.
  intros Hok. pose proof (revoke_table_ok t id Hok) as Hok'.
  destruct (get_key_by_id_total t id' Hok) as [Hn|[r Hr]].
  - rewrite Hn. apply get_key_by_id_none; [done|]. rewrite revoke_keys. by apply get_key_by_id_none in Hn.
  - rewrite Hr. apply get_key_by_id_some; [done|]. apply get_key_by_id_some in Hr as (Hwf & Hin & Hid); [|done].
    split_and!; [by apply revoked_by_wf| |by unfold revoked_by; case_bool_decide].
    rewrite <- revoked_by_row. cbn. apply list_elem_of_fmap. by exists (row_of_record r).
Qed.

Lemma later_trans r1 r2 r3 : later r1 r2 -> later r2 r3 -> later r1 r3.
Proof. intros [->| ->] [->| ->]; unfold later; cbn; auto. Qed.

(** A record never changes but for its revocation. *)
Lemma registry_steps_later t t' id r :
  table_ok t -> rtc registry_step t t' -> get_key_by_id t id = Ok (Some r) ->
  exists r', get_key_by_id t' id = Ok (Some r') /\ later r r'.
Proof.
  intros Hok Hs. revert r. induction Hs as [t|t1 t2 t3 Hstep _ IH]; intros r Hr.
  - exists r. split; [done|by left].
  - assert (exists r', get_key_by_id t2 id = Ok (Some r') /\ later r r') as (r' & Hr' & Hl).
    { apply registry_step_inv in Hstep as [->|[(x & Hwf & E)|[id' ->]]].
      - exists r. split; [done|by left].
      - exists r. split; [|by left]. rewrite (get_after_insert _ _ _ id Hok Hwf E).
        apply insert_key_inv in E as [_ Hid]. pose proof (proj1 (get_key_by_id_some _ _ _ Hok) Hr) as (_ & Hin & Hk).
        case_bool_decide as Hb; [|done]. destruct Hid. rewrite <- Hb, <- Hk, <- row_of_record_id. by apply list_elem_of_fmap_2.
      - exists (revoked_by id' r). split; [|apply revoked_by_later]. by rewrite get_after_revoke, Hr. }
    destruct (IH (registry_step_ok _ _ Hok Hstep) r' Hr') as (r'' & Hr'' & Hl').
    exists r''. split; [done|]. by eapply later_trans.
Qed.

(** ** Lemmas on JWKs *)

Lemma rstrip_char_cons c x s : x ≠ c -> rstrip_char c (String x s) = String x (rstrip_char c s).
Proof. intros Hx. cbn [rstrip_char]. destruct (rstrip_char c s); [|done]. by rewrite decide_False. Qed.

Lemma urlsafe_char_not_pad n : 0 <= n < 64 -> urlsafe_encode_char (b64_char n) ≠ b64_pad.
Proof. intros Hn. small_cases n 64%nat; vm_compute; discriminate. Qed.

Lemma base64url_repad bs :
  base64url_encode bs +:+ str_repeat b64_pad (Z.to_nat (- Z.of_nat (String.length (base64url_encode bs)) mod 4))
  = urlsafe_b64encode bs.
Proof.
  unfold base64url_encode, urlsafe_b64encode.
  induction bs as [|a|a b|a b c l IH] using list_ind3; cbn [b64encode str_map]; [done|..];
    rewrite !rstrip_char_cons by (apply urlsafe_char_not_pad; sextet).
  - done.
  - done.
  - cbn [String.length]. rewrite !str_append_cons. do 4 f_equal. rewrite <- IH at 3. do 3 f_equal. dlia.
Qed.

Lemma base64url_roundtrip bs : base64url_decode (base64url_encode bs) = Ok bs.
Proof. unfold base64url_decode. rewrite base64url_repad. apply urlsafe_b64decode_encode. Qed.

(** The bytes a published key imports as. *)
Definition jwk_bytes (k : pyobj) : bytes :=
  match k with ObjEdPublic k => ed_public_raw k | ObjEcPublic k => ec_public_der k | _ => [] end.

Lemma algorithm_for_key_inv b alg :
  algorithm_for_key b = Ok alg ->
  exists k, load_supported_public_key b = Ok k /\
    match k with
    | ObjEdPublic _ => alg = "Ed25519"
    | ObjEcPublic k => ec_is_p256 k = true /\ alg = "ECDSA-P256-SHA256"
    | _ => False
    end.
Proof.
  unfold algorithm_for_key. destruct (load_supported_public_key b) as [k|]; cbn [mbind result_bind]; [|done].
  intros E. exists k. split; [done|]. destruct k; try done; [by injection E as <-|].
  destruct (ec_is_p256 k); [by injection E as <-|done].
Qed.

Lemma import_jwk_okp kid k :
  ed_public_from_raw (ed_public_raw k) = Ok k ->
  import_jwk ([("kid", JStr kid); ("use", JStr "sig")]
    ++ [("kty", JStr "OKP"); ("crv", JStr "Ed25519"); ("x", JStr (base64url_encode (ed_public_raw k)));
        ("alg", JStr "EdDSA")]) = Ok (ed_public_raw k).
Proof.
  intros Hk. unfold import_jwk, import_jwk_body, item_is, item_bytes, dict_item. simpl.
  rewrite base64url_roundtrip. cbn [mbind result_bind]. by rewrite Hk.
Qed.

Lemma import_jwk_ec kid k :
  0 <= (ec_public_numbers k).1 < 256 ^ 32 -> 0 <= (ec_public_numbers k).2 < 256 ^ 32 ->
  ec_p256_from_numbers (ec_public_numbers k).1 (ec_public_numbers k).2 = Ok k ->
  import_jwk ([("kid", JStr kid); ("use", JStr "sig")]
    ++ [("kty", JStr "EC"); ("crv", JStr "P-256");
        ("x", JStr (base64url_encode (int_to_bytes_big 32 (ec_public_numbers k).1)));
        ("y", JStr (base64url_encode (int_to_bytes_big 32 (ec_public_numbers k).2))); ("alg", JStr "ES256")])
  = Ok (ec_public_der k).
Proof.
  intros Hx Hy Hk. remember (int_to_bytes_big 32 (ec_public_numbers k).1) as bx eqn:Ex.
  remember (int_to_bytes_big 32 (ec_public_numbers k).2) as by' eqn:Ey.
  unfold import_jwk, import_jwk_body, item_is, item_bytes, dict_item. simpl.
  rewrite !base64url_roundtrip. cbn [mbind result_bind]. subst bx by'.
  rewrite !int_from_to_bytes_big by done. by rewrite Hk.
Qed.

Lemma public_key_to_jwk_ok r :
  record_wf r -> exists jwk, public_key_to_jwk r = Ok jwk /\ dict_get "kid" jwk = Some (JStr (kr_pubkey_id r)).
Proof.
  intros [_ (k & Hk & Hc)%algorithm_for_key_inv]. unfold public_key_to_jwk. rewrite Hk. cbn [mbind result_bind].
  destruct k as [|k|k|k|]; try done; [|destruct Hc as [-> _]]; eexists; (split; [reflexivity|done]).
Qed.

Lemma mapM_result_records rows :
  Forall row_ok rows ->
  exists rs, mapM_result record_from_row rows = Ok rs /\ rows = row_of_record <$> rs /\ Forall record_wf rs.
Proof.
  induction 1 as [|row rows (r & Hwf & ->) _ (rs & E & -> & Hrs)]; [by exists []|].
  cbn [mapM_result]. rewrite record_from_row_of_record by done. cbn [mbind result_bind]. rewrite E.
  exists (r :: rs). split_and!; [done|done|]. by constructor.
Qed.

Lemma mapM_result_jwks rs :
  Forall record_wf rs ->
  exists ks, mapM_result public_key_to_jwk rs = Ok ks /\
    Forall2 (fun r jwk => public_key_to_jwk r = Ok jwk /\ dict_get "kid" jwk = Some (JStr (kr_pubkey_id r))) rs ks.
Proof.
  induction 1 as [|r rs Hwf _ (ks & E & Hks)]; [by exists []; split; [|constructor]|].
  destruct (public_key_to_jwk_ok r Hwf) as (jwk & Hj & Hkid).
  cbn [mapM_result]. rewrite Hj. cbn [mbind result_bind]. rewrite E.
  exists (jwk :: ks). split; [done|]. by constructor.
Qed.

(** A sorted permutation of part of the table, read back. *)
Lemma read_sorted `{Sqlite} t (P : KeyRow -> Prop) `{!forall row, Decision (P row)} :
  table_ok t ->
  exists rs, mapM_result record_from_row (order_by_desc row_created_at (filter P t)) = Ok rs /\
    NoDup rs /\ Forall record_wf rs /\
    (forall r, r ∈ rs <-> get_key_by_id t (kr_pubkey_id r) = Ok (Some r) /\ P (row_of_record r)) /\
    Sorted (fun a b => String.leb (isoformat_utc (kr_created_at b)) (isoformat_utc (kr_created_at a)) = true) rs.
Proof.
  intros Hok. pose proof Hok as [Hnd Hrows].
  destruct (mapM_result_records (order_by_desc row_created_at (filter P t))) as (rs & E & Ers & Hwf).
  { rewrite order_by_desc_perm. rewrite Forall_forall in *. intros row [_ Hin]%list_elem_of_filter. auto. }
  assert (forall row, row ∈ row_of_record <$> rs <-> row ∈ t /\ P row) as Hin.
  { intros row. rewrite <- Ers, order_by_desc_perm, list_elem_of_filter. tauto. }
  exists rs. split_and!; [done| |done| |].
  - apply (NoDup_fmap_1 row_of_record). rewrite <- Ers, order_by_desc_perm. apply NoDup_filter.
    by eapply NoDup_fmap_1.
  - intros r. rewrite get_key_by_id_some by done. rewrite Forall_forall in Hwf. split.
    + intros Hr. pose proof (list_elem_of_fmap_2 row_of_record _ _ Hr) as Hr'. apply Hin in Hr' as [? ?].
      split_and!; auto.
    + intros ((Hr & Hrt & _) & HP). pose proof (proj2 (Hin (row_of_record r)) (conj Hrt HP)) as Hr'.
      apply list_elem_of_fmap in Hr' as (r' & Hrr & Hr'). apply row_of_record_inj in Hrr; [by subst|done|auto].
  - pose proof (order_by_desc_sorted row_created_at (filter P t)) as Hs. rewrite Ers in Hs. clear -Hs.
    induction rs as [|r rs IH]; [constructor|]. rewrite fmap_cons in Hs. inversion Hs as [|? ? Hs' Hhd]; subst.
    constructor; [by apply IH|]. destruct rs as [|r' rs]; [constructor|]. rewrite fmap_cons in Hhd.
    inversion Hhd; subst. by constructor.
Qed.

End Registry.

#[export] Hint Resolve table_ok_nil registry_step_ok registry_steps_ok : aor.

(** ** Theorems *)

Section Theorems.
Context `{Hashlib, Rfc8785, Cryptography}.

(** C24. The table of every registry keeps one row per key identifier, each of which reads back to
    the record that was written, and no lookup raises. *)
Theorem registry_invariant (t : KeyTable) :
  rtc registry_step [] t ->
  NoDup (row_pubkey_id <$> t) /\
  Forall (fun row => exists r, record_from_row row = Ok r /\ row_of_record r = row /\ fields_ok r) t /\
  forall now id, is_ok (get_pubkey now t id) = true /\ is_ok (get_key_record now t id) = true.
Proof.
  intros Hok%(registry_steps_ok _ _ table_ok_nil). pose proof Hok as [Hnd Hrows]. split_and!; [done|..].
  - eapply Forall_impl; [exact Hrows|]. intros row (r & Hwf & ->). exists r.
    split_and!; [by apply record_from_row_of_record|done|apply Hwf].
  - intros now id. unfold get_pubkey, get_key_record.
    destruct (get_key_by_id_total t id Hok) as [->|[r ->]]; [done|]. cbn [mbind result_bind].
    by destruct (is_active r now).
Qed.

(** Registering a key: on success the identifier was free, the new record alone is added, and
    the key is answered exactly within its window; an identifier in use is refused. *)
Theorem register_key_spec (now : Z) (t t' : KeyTable) (agent_id id : string) (b : bytes) (algorithm : string)
    (from : datetime) (until : option datetime) (agent_type : option string) (r : AgentKeyRecord) :
  table_ok t ->
  register_key now t agent_id id b algorithm from until agent_type = Ok (t', r) ->
  get_key_by_id t id = Ok None /\ get_key_by_id t' id = Ok (Some r) /\
  (forall other, other ≠ id -> get_key_by_id t' other = get_key_by_id t other) /\
  (forall n, get_pubkey n t' id =
     Ok (if (kr_valid_from r <=? n) && match kr_valid_until r with None => true | Some u => n <=? u end
         then Some b else None)) /\
  (forall now' agent_id' b' algorithm' from' until' agent_type',
     is_ok (register_key now' t' agent_id' id b' algorithm' from' until' agent_type') = false).
Proof.
  intros Hok E. pose proof (register_key_record_wf _ _ _ _ _ _ _ _ _ _ _ E) as [Hwf Et].
  apply register_key_inv in E as (ex & _ & _ & Er & _).
  apply AgentKeyRecord_init_inv in Er as (_ & _ & _ & Hid & Hb & _ & Hrev & _).
  assert (get_key_by_id t' id = Ok (Some r)) as Hget.
  { rewrite (get_after_insert _ _ _ id Hok Hwf Et). by rewrite Hid, bool_decide_eq_true_2. }
  pose proof (insert_key_table_ok _ _ _ Hok Hwf Et) as Hok'.
  split_and!; [|done|..].
  - apply insert_key_inv in Et as [_ Hn]. rewrite Hid in Hn. by apply get_key_by_id_none.
  - intros other Ho. rewrite (get_after_insert _ _ _ other Hok Hwf Et), Hid. by rewrite bool_decide_eq_false_2.
  - intros n. unfold get_pubkey. rewrite Hget. cbn [mbind result_bind]. unfold is_active. rewrite Hrev, Hb.
    cbn [negb andb]. by destruct (_ && _).
  - intros. destruct (register_key now' t' _ _ _ _ _ _ _) as [[t2 r2]|] eqn:E2; [|done].
    apply register_key_inv in E2 as (ex2 & _ & _ & Er2 & Et2).
    apply AgentKeyRecord_init_inv in Er2 as (_ & _ & _ & Hid2 & _).
    apply insert_key_inv in Et2 as [_ Hn]. rewrite Hid2 in Hn. apply get_key_by_id_none in Hn; [|done]. congruence.
Qed.

(** A registered record is immutable: whatever is registered or revoked later, its identifier
    answers the same record, except that it may have been revoked. *)
Theorem key_records_immutable (t t' : KeyTable) (id : string) (r : AgentKeyRecord) :
  rtc registry_step [] t -> get_key_by_id t id = Ok (Some r) -> rtc registry_step t t' ->
  exists r', get_key_by_id t' id = Ok (Some r') /\
    kr_public_key_bytes r' = kr_public_key_bytes r /\ kr_agent_id r' = kr_agent_id r /\
    kr_agent_type r' = kr_agent_type r /\ kr_algorithm r' = kr_algorithm r /\
    kr_valid_from r' = kr_valid_from r /\ kr_valid_until r' = kr_valid_until r /\
    (kr_revoked r = true -> kr_revoked r' = true).
Proof.
  intros Hok%(registry_steps_ok _ _ table_ok_nil) Hr Hs.
  destruct (registry_steps_later _ _ _ _ Hok Hs Hr) as (r' & Hr' & Hl). exists r'.
  split; [done|]. destruct Hl as [->| ->]; done.
Qed.

(** C25. Revocation is permanent: once a registered key is revoked, no later registration or
    revocation makes it answered again, and the verifier refuses every envelope that names it
    as it refuses an unknown key. *)
Theorem revocation_permanent (t t' : KeyTable) (id : string) (now : Z) (e : SignedEnvelope) :
  rtc registry_step [] t -> has_key id t = true ->
  rtc registry_step (revoke_key t id).1 t' ->
  get_pubkey now t' id = Ok None /\ get_key_record now t' id = Ok None /\
  (se_pubkey_id e = id -> verify_signature (now, t') e = Ok (rejected "unknown_pubkey")).
Proof.
  intros Hok%(registry_steps_ok _ _ table_ok_nil) Hk%has_key_elem Hs.
  assert (exists r, get_key_by_id t id = Ok (Some r) /\ kr_pubkey_id r = id) as (r & Hr & Hid).
  { destruct (get_key_by_id_total t id Hok) as [Hn|[r Hr]].
    - by apply get_key_by_id_none in Hn.
    - exists r. split; [done|]. by apply get_key_by_id_some in Hr as (_ & _ & ?). }
  assert (get_key_by_id (revoke_key t id).1 id = Ok (Some (revoked_by id r))) as Hr1 by by rewrite get_after_revoke, Hr.
  destruct (registry_steps_later _ _ _ _ (revoke_table_ok t id Hok) Hs Hr1) as (r' & Hr' & Hl).
  assert (kr_revoked r' = true) as Hrev.
  { assert (kr_revoked (revoked_by id r) = true) as Hx by by (unfold revoked_by; rewrite bool_decide_eq_true_2).
    by destruct Hl as [->| ->]. }
  assert (is_active r' now = false) as Hact by (unfold is_active; by rewrite Hrev).
  assert (get_pubkey now t' id = Ok None) as Hp.
  { unfold get_pubkey. rewrite Hr'. cbn [mbind result_bind]. by rewrite Hact. }
  split_and!; [done| |].
  - unfold get_key_record. rewrite Hr'. cbn [mbind result_bind]. by rewrite Hact.
  - intros He. unfold verify_signature. cbn [lookup_pubkey KeyRegistry_lookup fst snd]. by rewrite He, Hp.
Qed.

(** A published key imports back: the JWK of a registered key parses to key bytes that load as
    the same key, the raw 32 bytes of an Ed25519 key and the DER of a P-256 key. *)
Theorem jwk_roundtrip `{!CryptographyLaws} (r : AgentKeyRecord) :
  algorithm_for_key (kr_public_key_bytes r) = Ok (kr_algorithm r) ->
  exists jwk k, public_key_to_jwk r = Ok jwk /\ load_supported_public_key (kr_public_key_bytes r) = Ok k /\
    import_jwk jwk = Ok (jwk_bytes k) /\
    match k with
    | ObjEdPublic p => length (jwk_bytes k) = 32%nat /\ ed_public_from_raw (jwk_bytes k) = Ok p
    | _ => load_supported_public_key (jwk_bytes k) = Ok k
    end.
Proof.
  intros (k & Hk & Hc)%algorithm_for_key_inv. unfold public_key_to_jwk. rewrite Hk. cbn [mbind result_bind].
  destruct k as [|k|k|k|]; try done.
  - eexists _, (ObjEdPublic k). split_and!; [reflexivity|done| |apply ed_public_raw_length|apply ed_public_raw_roundtrip].
    apply import_jwk_okp, ed_public_raw_roundtrip.
  - destruct Hc as [Hp _]. rewrite Hp. destruct (ec_numbers_roundtrip k Hp) as (Hx & Hy & Hn).
    eexists _, (ObjEcPublic k). split_and!; [reflexivity|done|by apply import_jwk_ec|].
    unfold load_supported_public_key, load_key_bytes. cbn [jwk_bytes]. by rewrite ec_der_roundtrip.
Qed.

(** Publication never fails and is exact: the key set holds one JWK per active record, and the
    list of an agent's active keys is the part that belongs to it. *)
Theorem published_keys_exact `{Sqlite} (now : Z) (t : KeyTable) (agent_id : string) :
  rtc registry_step [] t ->
  (exists rs ks, registry_export_jwks now t = Ok ks /\ NoDup rs /\
    (forall r, r ∈ rs <-> active_in now t r) /\
    Forall2 (fun r jwk => public_key_to_jwk r = Ok jwk /\ dict_get "kid" jwk = Some (JStr (kr_pubkey_id r))) rs ks) /\
  (exists rs, list_active_keys now t agent_id = Ok rs /\
    forall r, r ∈ rs <-> active_in now t r /\ kr_agent_id r = agent_id).
Proof.
  intros Hok%(registry_steps_ok _ _ table_ok_nil). split.
  - destruct (read_sorted t (fun _ => True) Hok) as (rs & E & Hnd & Hwf & Hin & _).
    rewrite filter_always in E.
    destruct (mapM_result_jwks (filter (fun r => is_active r now = true) rs)) as (ks & Eks & Hks).
    { rewrite Forall_forall in *. intros r [_ Hr]%list_elem_of_filter. auto. }
    exists (filter (fun r => is_active r now = true) rs), ks. split_and!; [|by apply NoDup_filter| |done].
    + unfold registry_export_jwks, all_keys. by rewrite E.
    + intros r. rewrite list_elem_of_filter, Hin. unfold active_in. tauto.
  - destruct (read_sorted t (fun row => row_agent_id row = agent_id) Hok) as (rs & E & Hnd & Hwf & Hin & _).
    exists (filter (fun r => is_active r now = true) rs). split.
    + unfold list_active_keys, get_keys_by_agent. by rewrite E.
    + intros r. rewrite list_elem_of_filter, Hin. unfold active_in. cbn. tauto.
Qed.

End Theorems.

(** ** Witnesses *)

Section Witnesses.
#[local] Existing Instance demo_hashlib.
#[local] Existing Instance demo_rfc8785.
#[local] Existing Instance demo_cryptography.
#[local] Existing Instance demo_cryptography_laws.
#[local] Existing Instance demo_sqlite.

Definition demo_register (id : string) (n now : Z) (t : KeyTable) : KeyTable :=
  match register_key now t "email-agent" id (int_to_bytes_big 32 n) "EdDSA" (utc now) (Some (utc (now + 100))) None with
  | Ok (t', _) => t' | Raise _ => t end.

Definition demo_table : KeyTable := demo_register "k2" 6 demo_wall (demo_register "k1" 5 demo_wall []).

Definition demo_record (id : string) : AgentKeyRecord :=
  match get_key_by_id demo_table id with
  | Ok (Some r) => r | _ => mkAgentKeyRecord "" None "" [] "" 0 None false 0 end.

Lemma demo_register_step id n now t : rtc registry_step t (demo_register id n now t).
Proof.
  unfold demo_register. destruct (register_key _ _ _ _ _ _ _ _ _) as [[t' r]|] eqn:E; [|constructor].
  eapply rtc_l; [by eapply step_register_key|constructor].
Qed.

Lemma demo_table_reachable : rtc registry_step [] demo_table.
Proof. etransitivity; apply demo_register_step. Qed.

Lemma demo_table_ok : table_ok demo_table.
Proof. apply (registry_steps_ok _ _ table_ok_nil demo_table_reachable). Qed.

Lemma registry_invariant_witness : length demo_table = 2%nat /\ NoDup (row_pubkey_id <$> demo_table).
Proof. split; [vm_compute; reflexivity|]. apply (registry_invariant demo_table), demo_table_reachable. Defined.

Lemma register_key_spec_witness :
  get_pubkey (demo_wall + 50) (demo_register "k1" 5 demo_wall []) "k1" = Ok (Some (int_to_bytes_big 32 5)) /\
  get_pubkey (demo_wall + 500) (demo_register "k1" 5 demo_wall []) "k1" = Ok None.
Proof.
  destruct (register_key_spec demo_wall [] (demo_register "k1" 5 demo_wall []) "email-agent" "k1"
    (int_to_bytes_big 32 5) "EdDSA" (utc demo_wall) (Some (utc (demo_wall + 100))) None (demo_record "k1"))
    as (_ & _ & _ & Hget & _).
  - exact table_ok_nil.
  - vm_compute; reflexivity.
  - rewrite !Hget. split; vm_compute; reflexivity.
Defined.

Lemma key_records_immutable_witness :
  exists r', get_key_by_id (revoke_key demo_table "k1").1 "k1" = Ok (Some r') /\
    kr_public_key_bytes r' = int_to_bytes_big 32 5.
Proof.
  destruct (key_records_immutable demo_table (revoke_key demo_table "k1").1 "k1" (demo_record "k1"))
    as (r' & Hr' & Hb & _).
  - apply demo_table_reachable.
  - vm_compute; reflexivity.
  - apply rtc_once. constructor.
  - exists r'. split; [exact Hr'|]. rewrite Hb. vm_compute; reflexivity.
Defined.

Lemma revocation_permanent_witness :
  get_pubkey demo_wall demo_table "k1" = Ok (Some (int_to_bytes_big 32 5)) /\
  get_pubkey demo_wall (demo_register "k1" 7 demo_wall (revoke_key demo_table "k1").1) "k1" = Ok None.
Proof.
  split; [vm_compute; reflexivity|].
  apply (revocation_permanent demo_table (demo_register "k1" 7 demo_wall (revoke_key demo_table "k1").1) "k1"
           demo_wall demo_signed).
  - apply demo_table_reachable.
  - vm_compute; reflexivity.
  - apply demo_register_step.
Defined.

Lemma jwk_roundtrip_witness :
  exists jwk k, public_key_to_jwk (demo_record "k1") = Ok jwk /\
    load_supported_public_key (kr_public_key_bytes (demo_record "k1")) = Ok k /\
    import_jwk jwk = Ok (jwk_bytes k).
Proof.
  destruct (jwk_roundtrip (demo_record "k1")) as (jwk & k & H1 & H2 & H3 & _); [vm_compute; reflexivity|].
  exists jwk, k. split; [exact H1|]. split; [exact H2|exact H3].
Defined.

Lemma published_keys_exact_witness :
  exists rs, list_active_keys demo_wall demo_table "email-agent" = Ok rs /\
    forall r, r ∈ rs <-> active_in demo_wall demo_table r /\ kr_agent_id r = "email-agent".
Proof. apply (published_keys_exact demo_wall demo_table "email-agent"), demo_table_reachable. Defined.
End Witnesses.
