(* ===== verification/Client.v ===== *)
(** * The signing client

    What the command line (aor/cli.py) and the end-to-end pipeline (e2e_tests/pipeline.py) do in
    place of the browser: they sign the five fields of a prompt with a P-256 key, in the raw form
    of Web Crypto.  The private keys and the decoding of a DER signature are the interface
    [EcSigning]; the randomness of ECDSA, the clock and the UUID are arguments.

    The theorem: what such a client signs, the verifier accepts, as long as the key is active in
    the registry, the timestamp is fresh and the nonce unseen. *)

From S2P Require Import Prelude PyStr Base64 Json JsonText PyTime Crypto Instances Sql Verifier Registry.

#[local] Open Scope Z_scope.

(** ** Interface: P-256 private keys *)

Class EcSigning `{Cryptography} := {
  EcPrivateKey : Type;
  ec_private_public : EcPrivateKey -> EllipticCurvePublicKey;
  ec_sign_sha256 : EcPrivateKey -> bytes -> bytes -> bytes;
  decode_dss_signature : bytes -> result (Z * Z);
}.

(** The keys are generated on P-256; a signature decodes to two scalars of 256 bits, and they
    verify under the public half. *)
Class EcSigningLaws `{EcSigning} := {
  ec_private_p256 k : ec_is_p256 (ec_private_public k) = true;
  ec_sign_verifies k random d : exists r s,
    decode_dss_signature (ec_sign_sha256 k random d) = Ok (r, s) /\ 0 <= r < 256 ^ 32 /\ 0 <= s < 256 ^ 32 /\
    ec_verify_sha256 (ec_private_public k) (encode_dss_signature r s) d = Ok tt;
}.

Section Client.
Context `{Hashlib, Rfc8785, Cryptography, !EcSigning}.

(** [z.to_bytes(32, "big")]. *)
Definition to_bytes_32 (z : Z) : result bytes :=
  if z <? 0 then raise OverflowError "can't convert negative int to unsigned"
  else if 256 ^ 32 <=? z then raise OverflowError "int too big to convert"
  else Ok (int_to_bytes_big 32 z).

(** [FullPipeline._sign_user_payload]. *)
Definition sign_user_payload (random : bytes) (private_key : EcPrivateKey) (payload : dict) : result string :=
  h ← hash_payload (JObj payload);
  '(r, s) ← decode_dss_signature (ec_sign_sha256 private_key random h);
  r ← to_bytes_32 r;
  s ← to_bytes_32 s;
  Ok (b64encode (r ++ s)).

(** [SignedEnvelope(...)], with the default algorithm. *)
Definition SignedEnvelope_init (prompt user_id session_id timestamp nonce signature pubkey_id : string) : result SignedEnvelope :=
  if forallb truthy_str [prompt; user_id; session_id; timestamp; nonce; signature; pubkey_id]
  then Ok (mkSignedEnvelope prompt user_id session_id timestamp nonce signature pubkey_id default_signature_algorithm)
  else validation_error.

(** The payload signed and put into an envelope. *)
Definition sign_envelope (random : bytes) (private_key : EcPrivateKey) (prompt user_id session_id timestamp nonce pubkey_id : string)
    : result SignedEnvelope :=
  signature ← sign_user_payload random private_key
    [("prompt", JStr prompt); ("user_id", JStr user_id); ("session_id", JStr session_id); ("timestamp", JStr timestamp); ("nonce", JStr nonce)];
  SignedEnvelope_init prompt user_id session_id timestamp nonce signature pubkey_id.

(** ** The envelope verifies *)

Lemma to_bytes_32_ok z : 0 <= z < 256 ^ 32 -> to_bytes_32 z = Ok (int_to_bytes_big 32 z).
Proof. intros Hz. unfold to_bytes_32. rewrite (proj2 (Z.ltb_ge _ _)), (proj2 (Z.leb_gt _ _)) by lia. done. Qed.

(** The raw form decodes to the signature of the library. *)
Lemma dss_of_raw_pair r s :
  0 <= r < 256 ^ 32 -> 0 <= s < 256 ^ 32 -> dss_of_raw (int_to_bytes_big 32 r ++ int_to_bytes_big 32 s) = encode_dss_signature r s.
Proof.
  intros Hr Hs. pose proof (length_int_to_bytes_big 32 r) as Hl. unfold dss_of_raw.
  rewrite take_app_length', drop_app_length' by done. by rewrite !int_from_to_bytes_big.
Qed.

Lemma sign_envelope_inv `{!EcSigningLaws} random key prompt user_id session_id timestamp nonce pubkey_id e :
  sign_envelope random key prompt user_id session_id timestamp nonce pubkey_id = Ok e ->
  exists sg h, e = mkSignedEnvelope prompt user_id session_id timestamp nonce (b64encode sg) pubkey_id default_signature_algorithm /\
    length sg = 64%nat /\ hash_payload (JObj (signing_payload e)) = Ok h /\
    ec_verify_sha256 (ec_private_public key) (dss_of_raw sg) h = Ok tt.
Proof.
  unfold sign_envelope, sign_user_payload. destruct (hash_payload _) as [h|] eqn:Eh; cbn [mbind result_bind]; [|done].
  destruct (ec_sign_verifies key random h) as (r & s & -> & Hr & Hs & Hv). cbn [mbind result_bind].
  rewrite !to_bytes_32_ok by done. cbn [mbind result_bind]. unfold SignedEnvelope_init. destruct (forallb _ _); [|done].
  intros [= <-]. exists (int_to_bytes_big 32 r ++ int_to_bytes_big 32 s), h. split_and!; [done| |done|by rewrite dss_of_raw_pair].
  by rewrite length_app, !length_int_to_bytes_big.
Qed.

End Client.

(** ** Timestamps as the clients write them *)

(** Text without the first character of the searched string is kept. *)
Lemma str_replace_app o old new a rest :
  str_forallb (fun c => negb (Ascii.eqb o c)) a = true ->
  str_replace (String o old) new (a +:+ rest) = a +:+ str_replace (String o old) new rest.
Proof.
  unfold str_replace. induction a as [|c a IH]; [done|]. cbn [str_forallb]. intros [Hc Ha]%andb_prop.
  rewrite str_append_cons. cbn [replace_skip String.prefix]. destruct (ascii_dec o c) as [->|]; [by rewrite Ascii.eqb_refl in Hc|].
  by rewrite IH, str_append_cons.
Qed.

Definition iso_char (o c : ascii) : bool := negb (Ascii.eqb o c).

Lemma digit_not o k : negb ((48 <=? ord o) && (ord o <? 58)) = true -> 0 <= k < 10 -> iso_char o (chr (48 + k)) = true.
Proof.
  intros Ho Hk. unfold iso_char. apply negb_true_iff, Ascii.eqb_neq. intros ->. rewrite ord_chr in Ho by lia. lia.
Qed.

Lemma iso_text_forallb o t :
  negb ((48 <=? ord o) && (ord o <? 58)) = true -> iso_char o "-"%char && iso_char o ":"%char && iso_char o "."%char && iso_char o "T"%char = true ->
  str_forallb (iso_char o) (iso_date (t / us_per_day) +:+ "T" +:+ iso_time (t mod us_per_day)) = true.
Proof.
  intros Hd Hc. rewrite !andb_true_iff in Hc. destruct Hc as [[[Hm Hcol] Hdot] HT].
  assert (forall k, 0 <= k < 10 -> iso_char o (chr (48 + k)) = true) as Hdig by (intros; by apply digit_not).
  rewrite !str_forallb_app, iso_time_forallb by done. unfold iso_date. destruct (ord_to_ymd _) as [[y m] d].
  rewrite !str_forallb_app, !pad_digits_forallb by done. cbn. by rewrite Hm, HT.
Qed.

Lemma isoformat_utc_eq t :
  isoformat_utc t = (iso_date (t / us_per_day) +:+ "T" +:+ iso_time (t mod us_per_day)) +:+ "+00:00".
Proof. unfold isoformat_utc. by rewrite !str_append_assoc. Qed.

Lemma isoformat_z_eq t : isoformat_z t = (iso_date (t / us_per_day) +:+ "T" +:+ iso_time (t mod us_per_day)) +:+ "Z".
Proof.
  unfold isoformat_z. rewrite isoformat_utc_eq, str_replace_app; [done|]. by apply iso_text_forallb.
Qed.

(** A client's timestamp is read back. *)
Lemma parse_isoformat_z t : valid_us t -> parse_timestamp (isoformat_z t) = Ok (Some t).
Proof.
  intros Ht. unfold parse_timestamp. rewrite isoformat_z_eq, str_replace_app by by apply iso_text_forallb.
  change (str_replace "Z" "+00:00" "Z") with "+00:00".
  rewrite <- isoformat_utc_eq, fromisoformat_isoformat by done. cbn. unfold to_utc. cbn. rewrite Z.sub_0_r.
  unfold valid_usb. unfold valid_us in Ht. by rewrite (proj2 (Z.leb_le _ _)), (proj2 (Z.ltb_lt _ _)) by lia.
Qed.

(** ** Theorem *)

Section Theorems.
Context `{Hashlib, Rfc8785, Cryptography, !EcSigning, Sqlite}.

(** C26. A client's envelope against the registry.  Once the client's public key is registered, and
    while the record is active, the verifier answers what it signed now by the clock and the
    nonce alone: it is stale outside the window around the signing time, refused as reused while
    the nonce is remembered, and accepted otherwise. *)
Theorem client_envelope_verdict `{!CryptographyLaws, !EcSigningLaws} freshness c nonces now now_key t t' agent_id algorithm from until
    agent_type rec random key prompt user_id session_id t_sign nonce pubkey_id e :
  table_ok t ->
  register_key now t agent_id pubkey_id (ec_public_der (ec_private_public key)) algorithm from until agent_type = Ok (t', rec) ->
  kr_valid_from rec <= now_key -> (forall u, kr_valid_until rec = Some u -> now_key <= u) ->
  valid_us t_sign -> sign_envelope random key prompt user_id session_id (isoformat_z t_sign) nonce pubkey_id = Ok e ->
  (verify_envelope freshness c (now_key, t') nonces e).2 =
    Ok (if negb (Z.abs (c_wall c - t_sign) <=? freshness * 1000000) then rejected "timestamp_stale"
        else if (has_seen (c_has_seen c) nonces nonce).2 then rejected "nonce_reused" else accepted).
Proof.
  intros Hok Hreg Hfrom Huntil Ht He. apply sign_envelope_inv in He as (sg & h & -> & Hl & Hh & Hv).
  destruct (register_key_spec _ _ _ _ _ _ _ _ _ _ _ Hok Hreg) as (_ & _ & _ & Hget & _).
  unfold verify_envelope, timestamp_is_fresh. cbn [se_timestamp se_nonce]. rewrite parse_isoformat_z by done. cbn [mbind result_bind].
  destruct (_ <=? _); [|done]. destruct (has_seen _ nonces nonce) as [n []]; [done|]. cbn [negb snd].
  apply verify_signature_accepts. exists (ObjBytes (ec_public_der (ec_private_public key))), (ObjEcPublic (ec_private_public key)), sg, h.
  split_and!.
  - cbn [lookup_pubkey KeyRegistry_lookup fst snd se_pubkey_id]. rewrite Hget, (proj2 (Z.leb_le _ _)) by done. cbn [andb].
    destruct (kr_valid_until rec) as [u|]; [|done]. by rewrite (proj2 (Z.leb_le _ _)) by auto.
  - cbn [load_registered_public_key]. unfold load_key_bytes. by rewrite ec_der_roundtrip.
  - done.
  - apply b64decode_encode.
  - done.
  - apply verify_ec_true. split_and!; [apply ec_private_p256|done|done].
Qed.
End Theorems.

(** ** Witness: keys of the demonstration primitives *)

Lemma int_from_bytes_big_snoc l x : int_from_bytes_big (l ++ [x]) = int_from_bytes_big l * 256 + byte_to_Z x.
Proof. unfold int_from_bytes_big. by rewrite fold_left_app. Qed.

Lemma int_from_bytes_big_bound l : 0 <= int_from_bytes_big l < 256 ^ Z.of_nat (length l).
Proof.
  induction l as [|x l IH] using rev_ind; [cbn; lia|]. rewrite int_from_bytes_big_snoc, length_app, Nat2Z.inj_add, Z.pow_add_r by lia.
  pose proof (byte_to_Z_range x). change (256 ^ Z.of_nat (length [x])) with 256. lia.
Qed.

Lemma int_to_from_bytes_big l : int_to_bytes_big (length l) (int_from_bytes_big l) = l.
Proof.
  induction l as [|x l IH] using rev_ind; [done|]. rewrite int_from_bytes_big_snoc, length_app, Nat.add_comm. cbn [length Nat.add int_to_bytes_big].
  pose proof (byte_to_Z_range x) as Hx. rewrite Z.div_add_l, (Z.div_small (byte_to_Z x)), Z.add_0_r, IH by lia. f_equal.
  unfold byte_of_Z. rewrite Z.add_comm, Z_mod_plus_full. fold (byte_of_Z (byte_to_Z x)). by rewrite byte_of_to_Z.
Qed.

#[local] Existing Instance demo_hashlib.
#[local] Existing Instance demo_rfc8785.
#[local] Existing Instance demo_cryptography.
#[local] Existing Instance demo_cryptography_laws.
#[local] Existing Instance demo_sqlite.

Definition demo_ec_private : Type := dsig (fun k : demo_ec => (`k).2 = true).

Definition demo_ec_signing : EcSigning :=
  {| EcPrivateKey := demo_ec_private;
     ec_private_public k := `k;
     ec_sign_sha256 k _ d := demo_ec_sign (`k) d;
     decode_dss_signature b := Ok (int_from_bytes_big (take 32 b), int_from_bytes_big (drop 32 b)) |}.

Lemma demo_ec_signing_laws : @EcSigningLaws demo_cryptography demo_ec_signing.
Proof.
  split; [intros k; exact (proj2_dsig k)|]. intros k random d.
  pose proof (demo_mac_length (demo_ec_bytes (`k)) d) as Hl. set (m := demo_mac (demo_ec_bytes (`k)) d) in *.
  exists (int_from_bytes_big m), (int_from_bytes_big m). pose proof (int_from_bytes_big_bound m) as Hb. rewrite Hl in Hb.
  pose proof (int_to_from_bytes_big m) as Hm. rewrite Hl in Hm. split_and!; [|apply Hb..|].
  - change (Ok (int_from_bytes_big (take 32 (m ++ m)), int_from_bytes_big (drop 32 (m ++ m))) = Ok (int_from_bytes_big m, int_from_bytes_big m)).
    by rewrite take_app_length', drop_app_length' by done.
  - change (demo_check (m ++ m) (int_to_bytes_big 32 (int_from_bytes_big m) ++ int_to_bytes_big 32 (int_from_bytes_big m)) = Ok tt).
    rewrite Hm. apply demo_check_refl.
Qed.

#[local] Existing Instance demo_ec_signing.
#[local] Existing Instance demo_ec_signing_laws.

Definition demo_private : EcPrivateKey := dexist demo_curve_key eq_refl.

Definition demo_client_table : KeyTable :=
  match register_key demo_wall [] "u1" "k1" (ec_public_der (ec_private_public demo_private)) "ES256" (utc demo_wall) None None with
  | Ok (t, _) => t | Raise _ => [] end.

Definition demo_client_envelope : SignedEnvelope :=
  match sign_envelope [] demo_private "send it" "u1" "s1" (isoformat_z demo_wall) "n1" "k1" with Ok e => e | Raise _ => demo_signed end.

(** Accepted at once, stale after 61 seconds. *)
Lemma client_envelope_verdict_witness :
  (verify_envelope 60 (demo_clocks 0) (demo_wall, demo_client_table) demo_nonces demo_client_envelope).2 = Ok accepted /\
  (verify_envelope 60 (demo_clocks 61000000) (demo_wall, demo_client_table) demo_nonces demo_client_envelope).2
    = Ok (rejected "timestamp_stale").
Proof.
  assert (exists rec, register_key demo_wall [] "u1" "k1" (ec_public_der (ec_private_public demo_private)) "ES256" (utc demo_wall) None None
    = Ok (demo_client_table, rec) /\ kr_valid_from rec = demo_wall /\ kr_valid_until rec = None) as (rec & Hreg & Hfrom & Huntil)
    by (eexists; split; [vm_compute; reflexivity|split; reflexivity]).
  assert (sign_envelope [] demo_private "send it" "u1" "s1" (isoformat_z demo_wall) "n1" "k1" = Ok demo_client_envelope) as He
    by (vm_compute; reflexivity).
  assert (valid_us demo_wall) as Hw by (unfold valid_us; vm_compute; split; [discriminate|reflexivity]).
  assert (forall c, (verify_envelope 60 c (demo_wall, demo_client_table) demo_nonces demo_client_envelope).2 =
    Ok (if negb (Z.abs (c_wall c - demo_wall) <=? 60 * 1000000) then rejected "timestamp_stale"
        else if (has_seen (c_has_seen c) demo_nonces "n1").2 then rejected "nonce_reused" else accepted)) as Hv.
  { intros c. apply (client_envelope_verdict 60 c demo_nonces demo_wall demo_wall [] demo_client_table "u1" "ES256" (utc demo_wall) None None
      rec [] demo_private "send it" "u1" "s1" demo_wall "n1" "k1" demo_client_envelope table_ok_nil Hreg).
    - rewrite Hfrom. lia.
    - intros u Hu. rewrite Huntil in Hu. discriminate Hu.
    - exact Hw.
    - exact He. }
  split; rewrite Hv; vm_compute; reflexivity.
Defined.
