(* ===== verification/Poi.v ===== *)
(** * poi_generator: proofs of intent

    Models [models.py], [poi.py], [agent_keys.py] and [callback_handler.py].  A proof of intent
    is a record with the model's fields; its constructor checks the declared constraints.  The
    callback keeps its ledgers by reference: [hs_ledgers] maps a location to the ledger object
    every context that holds the location shares.  The clock, the UUIDs, the generated key and
    the file system are arguments.

    The theorems: what a built proof commits, that a signed proof verifies under the agent's
    key, that the signature commits every field, that the callback blocks a tool call without a
    verified session, and otherwise stores a proof of the ledger as it was before the call. *)

From S2P Require Import Prelude PyStr Json JsonText PyTime Crypto Instances Ledger Merkle Sql Verifier Registry.

#[local] Open Scope Z_scope.

(** ** models.py *)

Record ProofOfIntent := mkProofOfIntent {
  poi_user_prompt_hash : string;
  poi_system_prompt_hash : string;
  poi_context_root : string;
  poi_action_payload_hash : string;
  poi_model_id : string;
  poi_timestamp : string;
  poi_nonce : string;
  poi_agent_type : option string;
  poi_agent_id : option string;
  poi_action_type : option string;
  poi_policy_decision : option string;
  poi_agent_signature : option string;
  poi_agent_pubkey_id : option string;
}.

#[export] Instance ProofOfIntent_eq_dec : EqDecision ProofOfIntent.
Proof. solve_decision. Defined.

Definition hash_length (s : string) : bool := (String.length s =? 64)%nat.

(** The [Field] constraints. *)
Definition poi_constraints (p : ProofOfIntent) : bool :=
  hash_length (poi_user_prompt_hash p) && hash_length (poi_system_prompt_hash p)
  && hash_length (poi_context_root p) && hash_length (poi_action_payload_hash p)
  && truthy_str (poi_model_id p) && truthy_str (poi_timestamp p) && truthy_str (poi_nonce p)
  && opt_min_length (poi_agent_type p) && opt_min_length (poi_agent_id p)
  && opt_min_length (poi_action_type p) && opt_min_length (poi_policy_decision p).

(** The constructor. *)
Definition ProofOfIntent_init (p : ProofOfIntent) : result ProofOfIntent :=
  if poi_constraints p then Ok p else validation_error.

(** [self.model_dump(exclude={"agent_signature"})]. *)
Definition poi_signing_payload (p : ProofOfIntent) : dict :=
  [("user_prompt_hash", JStr (poi_user_prompt_hash p)); ("system_prompt_hash", JStr (poi_system_prompt_hash p));
   ("context_root", JStr (poi_context_root p)); ("action_payload_hash", JStr (poi_action_payload_hash p));
   ("model_id", JStr (poi_model_id p)); ("timestamp", JStr (poi_timestamp p)); ("nonce", JStr (poi_nonce p));
   ("agent_type", opt_str (poi_agent_type p)); ("agent_id", opt_str (poi_agent_id p));
   ("action_type", opt_str (poi_action_type p)); ("policy_decision", opt_str (poi_policy_decision p));
   ("agent_pubkey_id", opt_str (poi_agent_pubkey_id p))].

(** [self.model_dump()], in field order. *)
Definition poi_model_dump (p : ProofOfIntent) : dict :=
  [("user_prompt_hash", JStr (poi_user_prompt_hash p)); ("system_prompt_hash", JStr (poi_system_prompt_hash p));
   ("context_root", JStr (poi_context_root p)); ("action_payload_hash", JStr (poi_action_payload_hash p));
   ("model_id", JStr (poi_model_id p)); ("timestamp", JStr (poi_timestamp p)); ("nonce", JStr (poi_nonce p));
   ("agent_type", opt_str (poi_agent_type p)); ("agent_id", opt_str (poi_agent_id p));
   ("action_type", opt_str (poi_action_type p)); ("policy_decision", opt_str (poi_policy_decision p));
   ("agent_signature", opt_str (poi_agent_signature p)); ("agent_pubkey_id", opt_str (poi_agent_pubkey_id p))].

(** [p.model_copy(update={"agent_pubkey_id": id, "agent_signature": sig})]. *)
Definition poi_with_signature (p : ProofOfIntent) (id : option string) (sig : option string) : ProofOfIntent :=
  mkProofOfIntent (poi_user_prompt_hash p) (poi_system_prompt_hash p) (poi_context_root p)
    (poi_action_payload_hash p) (poi_model_id p) (poi_timestamp p) (poi_nonce p) (poi_agent_type p)
    (poi_agent_id p) (poi_action_type p) (poi_policy_decision p) sig id.

(** ** poi.py *)

Section Poi.
Context `{Hashlib, Rfc8785, Cryptography}.

Definition poi_signing_hash (p : ProofOfIntent) : result bytes :=
  b ← canonicalize (JObj (poi_signing_payload p)); Ok (sha3_256 b).

(** The optional identity fields of [build_poi]. *)
Record PoiIdentity := mkPoiIdentity {
  pi_agent_type : option string;
  pi_agent_id : option string;
  pi_action_type : option string;
  pi_policy_decision : option string;
}.

Definition no_identity : PoiIdentity := mkPoiIdentity None None None None.

Definition build_poi (now : Z) (uuid : string) (user_prompt system_prompt : string) (ledger : Ledger)
    (action_payload : json) (model_id : string) (identity : PoiIdentity) : result ProofOfIntent :=
  if negb (truthy_str user_prompt) || negb (truthy_str system_prompt) || negb (truthy_str model_id)
  then raise ValueError "user_prompt, system_prompt, and model_id are required"
  else if negb (is_dict action_payload) then raise TypeError "action_payload must be a dictionary"
  else
    tree ← build_merkle_tree (all_entries ledger);
    context_root ← root tree;
    user_prompt_hash ← hash_hex (JObj [("prompt", JStr user_prompt)]);
    system_prompt_hash ← hash_hex (JObj [("system_prompt", JStr system_prompt)]);
    action_payload_hash ← hash_hex action_payload;
    ProofOfIntent_init
      (mkProofOfIntent user_prompt_hash system_prompt_hash (hex context_root) action_payload_hash model_id
         (isoformat_z now) uuid (pi_agent_type identity) (pi_agent_id identity) (pi_action_type identity)
         (pi_policy_decision identity) None None).

(** ** agent_keys.py *)

Definition agent_pubkey_id (private_key : Ed25519PrivateKey) : result string :=
  raw_public_key ← serialize_public_key_raw (ObjEdPublic (ed_public_key private_key));
  Ok ("agent-ed25519-" +:+ hex (sha3_256 raw_public_key)).

Definition key_file (agent_id key_directory : string) : result string :=
  if negb (truthy_str agent_id) then raise ValueError "agent_id must be a non-empty string"
  else Ok (key_directory +:+ "/" +:+ hex (sha3_256 (utf8_encode agent_id)) +:+ ".pem").

(** The files by path.  [before] is the file system when the path is looked up, [at_open] when
    it is created: another worker may have written in between. *)
Definition load_agent_keypair (before at_open : gmap string bytes) (generated : Ed25519PrivateKey)
    (agent_id key_directory : string) : result (gmap string bytes * Ed25519PrivateKey) :=
  key_path ← key_file agent_id key_directory;
  match before !! key_path with
  | Some pem => k ← deserialize_private_key_pem (ObjBytes pem); Ok (before, k)
  | None =>
      match at_open !! key_path with
      | Some pem => k ← deserialize_private_key_pem (ObjBytes pem); Ok (at_open, k)
      | None =>
          pem ← serialize_private_key_pem (ObjEdPrivate generated);
          Ok (<[key_path := pem]> at_open, generated)
      end
  end.

Definition register_agent_public_key (now now_from now_created : Z) (registry : KeyTable) (agent_id : string)
    (private_key : Ed25519PrivateKey) : result (KeyTable * string) :=
  pubkey_id ← agent_pubkey_id private_key;
  public_key_bytes ← serialize_public_key_raw (ObjEdPublic (ed_public_key private_key));
  current ← get_pubkey now registry pubkey_id;
  if bool_decide (current = Some public_key_bytes) then Ok (registry, pubkey_id)
  else
    match register_key now_created registry agent_id pubkey_id public_key_bytes "Ed25519" (utc now_from) None None with
    | Ok (registry, _) => Ok (registry, pubkey_id)
    | Raise e =>
        if catches [ValueError] e && str_contains "already registered" (exn_msg e)
        then Ok (registry, pubkey_id) else Raise e
    end.

(** ** Signing *)

Definition sign_poi (poi : ProofOfIntent) (agent_private_key : Ed25519PrivateKey) : result ProofOfIntent :=
  id ← agent_pubkey_id agent_private_key;
  let with_key_id := poi_with_signature poi (Some id) None in
  h ← poi_signing_hash with_key_id;
  signature ← sign (ObjEdPrivate agent_private_key) (ObjBytes h);
  Ok (poi_with_signature with_key_id (poi_agent_pubkey_id with_key_id) (Some (hex signature))).

Definition verify_poi_signature (poi : ProofOfIntent) (agent_public_key : pyobj) : result bool :=
  match poi_agent_signature poi, poi_agent_pubkey_id poi with
  | Some s, Some _ =>
      match fromhex s with
      | Raise e => if catches [ValueError] e then Ok false else Raise e
      | Ok signature => h ← poi_signing_hash poi; verify agent_public_key (ObjBytes signature) (ObjBytes h)
      end
  | _, _ => Ok false
  end.

(** ** callback_handler.py *)

Record VerifiedSessionContext := mkVerifiedSessionContext {
  vs_session_id : string;
  vs_user_prompt : string;
  vs_system_prompt : string;
  vs_ledger : nat;
  vs_model_id : string;
}.

(** The handler and the ledgers it shares with its callers. *)
Record HandlerState := mkHandlerState {
  hs_sessions : gmap string VerifiedSessionContext;
  hs_agent_private_key : Ed25519PrivateKey;
  hs_pois_by_run_id : gmap string ProofOfIntent;
  hs_ledgers : gmap nat Ledger;
}.

(** The key custody part of [__init__]: the registry and the key the handler keeps. *)
Definition PoICallbackHandler_init (now now_from now_created : Z) (before at_open : gmap string bytes)
    (generated : Ed25519PrivateKey) (key_directory : string) (agent_private_key : option Ed25519PrivateKey)
    (agent_id : option string) (registry : option KeyTable)
    : result (gmap string bytes * option KeyTable * Ed25519PrivateKey) :=
  match agent_private_key with
  | None =>
      match agent_id, registry with
      | Some id, Some t =>
          if truthy_str id then
            '(files, k) ← load_agent_keypair before at_open generated id key_directory;
            '(t, _) ← register_agent_public_key now now_from now_created t id k;
            Ok (files, Some t, k)
          else raise ValueError "agent_id and registry are required when loading an agent key"
      | _, _ => raise ValueError "agent_id and registry are required when loading an agent key"
      end
  | Some k =>
      match agent_id, registry with
      | Some id, Some t =>
          if truthy_str id then
            '(t, _) ← register_agent_public_key now now_from now_created t id k; Ok (before, Some t, k)
          else Ok (before, Some t, k)
      | _, _ => Ok (before, registry, k)
      end
  end.

Definition register_verified_session (s : HandlerState) (context : VerifiedSessionContext) : HandlerState :=
  mkHandlerState (<[vs_session_id context := context]> (hs_sessions s)) (hs_agent_private_key s)
    (hs_pois_by_run_id s) (hs_ledgers s).

Definition get_poi (s : HandlerState) (run_id : string) : result ProofOfIntent :=
  of_option (hs_pois_by_run_id s !! run_id) KeyError run_id.

Definition action_payload_of (input_str : string) : result dict :=
  match json_loads input_str with
  | Ok (JObj d) => Ok d
  | Ok _ => Ok [("input", JStr input_str)]
  | Raise e => if catches [JSONDecodeError] e then Ok [("input", JStr input_str)] else Raise e
  end.

(** [serialized.get("name") or serialized.get("id") or "unknown_tool"]. *)
Definition tool_name (serialized : dict) : json :=
  match dict_get "name" serialized with
  | Some v => if json_truthy v then v else
      match dict_get "id" serialized with Some w => if json_truthy w then w else JStr "unknown_tool" | None => JStr "unknown_tool" end
  | None =>
      match dict_get "id" serialized with Some w => if json_truthy w then w else JStr "unknown_tool" | None => JStr "unknown_tool" end
  end.

(** The context named by [(metadata or {}).get("session_id")]. *)
Definition session_of (s : HandlerState) (metadata : option dict) : option VerifiedSessionContext :=
  match dict_get "session_id" (default [] metadata) with
  | Some (JStr id) => hs_sessions s !! id
  | _ => None
  end.

Definition set_poi (s : HandlerState) (run_id : string) (p : ProofOfIntent) : HandlerState :=
  mkHandlerState (hs_sessions s) (hs_agent_private_key s) (<[run_id := p]> (hs_pois_by_run_id s)) (hs_ledgers s).

Definition set_ledger (s : HandlerState) (loc : nat) (l : Ledger) : HandlerState :=
  mkHandlerState (hs_sessions s) (hs_agent_private_key s) (hs_pois_by_run_id s) (<[loc := l]> (hs_ledgers s)).

(** [now] and [uuid] are drawn by [build_poi], [now'] by [append].  A location that holds no
    ledger does not occur in Python; it reads as the empty one. *)
Definition on_tool_start (now now' : Z) (uuid : string) (s : HandlerState) (serialized : dict)
    (input_str run_id : string) (metadata : option dict) : HandlerState * result unit :=
  match session_of s metadata with
  | None =>
      (s, raise MissingVerifiedSessionContext
            "tool execution blocked: no verified session context in callback metadata")
  | Some context =>
      let ledger := default [] (hs_ledgers s !! vs_ledger context) in
      match (action_payload ← action_payload_of input_str;
             unsigned ← build_poi now uuid (vs_user_prompt context) (vs_system_prompt context) ledger
                          (JObj action_payload) (vs_model_id context) no_identity;
             poi ← sign_poi unsigned (hs_agent_private_key s);
             Ok (action_payload, poi)) with
      | Raise e => (s, Raise e)
      | Ok (action_payload, poi) =>
          let s := set_poi s run_id poi in
          match append now' ledger (JStr "tool_call")
                  (JObj [("tool_name", tool_name serialized); ("input", JObj action_payload);
                         ("run_id", JStr run_id)]) with
          | Raise e => (s, Raise e)
          | Ok (ledger, _) => (set_ledger s (vs_ledger context) ledger, Ok tt)
          end
      end
  end.

(** ** Lemmas *)

Lemma opt_str_inj o1 o2 : opt_str o1 = opt_str o2 -> o1 = o2.
Proof. destruct o1, o2; cbn; congruence. Qed.

Lemma canon_opt_str o : canon (opt_str o) = opt_str o.
Proof. by destruct o. Qed.

Lemma json_wf_opt_str o : json_wf (opt_str o).
Proof. by destruct o. Qed.

Lemma poi_signing_payload_wf p : json_wf (JObj (poi_signing_payload p)).
Proof.
  apply json_wf_obj. split.
  - apply (bool_decide_unpack _). vm_compute. exact I.
  - repeat constructor; apply json_wf_opt_str.
Qed.

Lemma poi_signing_hash_eq p : poi_signing_hash p = hash_payload (JObj (poi_signing_payload p)).
Proof. done. Qed.

(** The signed dictionary determines every field but the signature. *)
Lemma poi_signing_payload_inj p1 p2 :
  json_equiv (JObj (poi_signing_payload p1)) (JObj (poi_signing_payload p2)) ->
  poi_with_signature p1 (poi_agent_pubkey_id p1) None = poi_with_signature p2 (poi_agent_pubkey_id p2) None.
Proof.
  intros E.
  assert (forall k, canon <$> dict_get k (poi_signing_payload p1) = canon <$> dict_get k (poi_signing_payload p2)) as Hk.
  { intros k. apply json_equiv_get; [apply (poi_signing_payload_wf p1)|apply (poi_signing_payload_wf p2)|done]. }
  pose proof (Hk "user_prompt_hash") as K1. pose proof (Hk "system_prompt_hash") as K2.
  pose proof (Hk "context_root") as K3. pose proof (Hk "action_payload_hash") as K4.
  pose proof (Hk "model_id") as K5. pose proof (Hk "timestamp") as K6. pose proof (Hk "nonce") as K7.
  pose proof (Hk "agent_type") as K8. pose proof (Hk "agent_id") as K9. pose proof (Hk "action_type") as K10.
  pose proof (Hk "policy_decision") as K11. pose proof (Hk "agent_pubkey_id") as K12. clear Hk E.
  destruct p1, p2. simpl in *. rewrite !canon_opt_str in *.
  repeat match goal with E : Some _ = Some _ |- _ => injection E as E end.
  repeat match goal with E : opt_str _ = opt_str _ |- _ => apply opt_str_inj in E end.
  unfold poi_with_signature. cbn. congruence.
Qed.

Lemma sign_poi_inv poi k p :
  sign_poi poi k = Ok p ->
  exists id h, agent_pubkey_id k = Ok id /\ poi_signing_hash (poi_with_signature poi (Some id) None) = Ok h /\
    p = poi_with_signature poi (Some id) (Some (hex (ed_sign k h))).
Proof.
  unfold sign_poi. intros E. destruct (agent_pubkey_id k) as [id|]; [|done]. cbn [mbind result_bind] in E.
  destruct (poi_signing_hash _) as [h|] eqn:Eh; [|done]. cbn [mbind result_bind sign] in E.
  injection E as <-. eauto.
Qed.

Lemma sign_verify_poi_lemma `{!CryptographyLaws} poi k p :
  sign_poi poi k = Ok p -> verify_poi_signature p (ObjEdPublic (ed_public_key k)) = Ok true.
Proof.
  intros (id & h & Eid & Eh & ->)%sign_poi_inv. unfold verify_poi_signature. cbn [poi_agent_signature poi_agent_pubkey_id poi_with_signature].
  rewrite fromhex_hex. change (poi_signing_hash _) with (poi_signing_hash (poi_with_signature poi (Some id) None)) at 1.
  rewrite Eh. cbn [mbind result_bind]. apply verify_ed_true, ed_verify_sign.
Qed.

Lemma build_poi_inv now uuid up sp l payload m id p :
  build_poi now uuid up sp l payload m id = Ok p ->
  exists t r, build_merkle_tree l = Ok t /\ root t = Ok r /\ poi_context_root p = hex r /\
    hash_hex (JObj [("prompt", JStr up)]) = Ok (poi_user_prompt_hash p) /\
    hash_hex (JObj [("system_prompt", JStr sp)]) = Ok (poi_system_prompt_hash p) /\
    hash_hex payload = Ok (poi_action_payload_hash p) /\ is_dict payload = true /\
    poi_model_id p = m /\ poi_timestamp p = isoformat_z now /\ poi_nonce p = uuid /\
    poi_agent_type p = pi_agent_type id /\ poi_agent_id p = pi_agent_id id /\
    poi_action_type p = pi_action_type id /\ poi_policy_decision p = pi_policy_decision id /\
    poi_agent_signature p = None /\ poi_agent_pubkey_id p = None /\ poi_constraints p = true.
Proof.
  unfold build_poi, all_entries. intros E. destruct (_ || _ || _); [done|].
  destruct (is_dict payload) eqn:Ed; [|done]. cbn [negb] in E.
  destruct (build_merkle_tree l) as [t|]; [|done]. cbn [mbind result_bind] in E.
  destruct (root t) as [r|] eqn:Er; [|done]. cbn [mbind result_bind] in E.
  destruct (hash_hex (JObj [("prompt", _)])) as [h1|]; [|done]. cbn [mbind result_bind] in E.
  destruct (hash_hex (JObj [("system_prompt", _)])) as [h2|]; [|done]. cbn [mbind result_bind] in E.
  destruct (hash_hex payload) as [h3|]; [|done]. cbn [mbind result_bind] in E.
  unfold ProofOfIntent_init in E. destruct (poi_constraints _) eqn:Ec; [|done]. injection E as <-.
  exists t, r. done.
Qed.

Lemma register_conflict_message now t aid id b from until aty r alg :
  AgentKeyRecord_init aid (or_else aty (agent_type_for_id aid)) id b alg from until false (utc now) = Ok r ->
  algorithm_for_key b = Ok alg -> has_key id t = true -> alg ∈ accepted_algorithm_ids alg ->
  register_key now t aid id b alg from until aty = raise ValueError ("pubkey_id already registered: " +:+ id).
Proof.
  intros Er Ea Hk Hin. unfold register_key. rewrite Ea. cbn [mbind result_bind].
  rewrite bool_decide_eq_true_2 by done. cbn [negb]. rewrite Er. cbn [mbind result_bind].
  apply AgentKeyRecord_init_inv in Er as (_ & _ & _ & Hid & _). unfold insert_key. by rewrite Hid, Hk.
Qed.

Lemma AgentKeyRecord_init_agent aid id b now now' :
  truthy_str aid = true -> truthy_str id = true -> b ≠ [] -> valid_us now -> valid_us now' ->
  exists r, AgentKeyRecord_init aid (or_else None (agent_type_for_id aid)) id b "Ed25519" (utc now') None false (utc now) = Ok r
    /\ is_active r now' = true.
Proof.
  intros Ha Hid Hb Hn Hn'. unfold AgentKeyRecord_init. rewrite !as_utc_utc by done. cbn [validated validated_opt mbind result_bind].
  assert (opt_min_length (or_else None (agent_type_for_id aid)) = true) as Ht.
  { cbn [or_else]. unfold agent_type_for_id. destruct (str_endswith _ aid); [|done].
    destruct (Nat.ltb_spec 6 (String.length aid)); [|done]. cbn [andb opt_min_length].
    destruct aid as [|c aid]; [done|]. cbn [String.length] in *.
    destruct (S (String.length aid) - 6)%nat as [|n] eqn:En; [lia|]. done. }
  rewrite Ha, Hid, Ht, bool_decide_eq_false_2 by done. cbn [andb negb truthy_str window_ordered].
  eexists. split; [reflexivity|]. unfold is_active. cbn. by rewrite Z.leb_refl.
Qed.

Lemma agent_pubkey_id_truthy k id : agent_pubkey_id k = Ok id -> truthy_str id = true.
Proof. unfold agent_pubkey_id. cbn. by intros [= <-]. Qed.

End Poi.

(** ** Theorems *)

Section Theorems.
Context `{Hashlib, Rfc8785, Cryptography}.

(** A signed proof verifies under the agent's public key, differs from the unsigned one only in
    the signature and the key identifier, and names the key that signed it. *)
Theorem sign_then_verify_poi `{!CryptographyLaws} (poi p : ProofOfIntent) (k : Ed25519PrivateKey) :
  sign_poi poi k = Ok p ->
  verify_poi_signature p (ObjEdPublic (ed_public_key k)) = Ok true /\
  exists id sig, agent_pubkey_id k = Ok id /\ p = poi_with_signature poi (Some id) (Some sig) /\
    poi_constraints p = poi_constraints poi.
Proof.
  intros E. split; [by eapply sign_verify_poi_lemma|].
  apply sign_poi_inv in E as (id & h & Eid & _ & ->). eauto 10.
Qed.

(** C30. The signing hash commits every field but the signature: two proofs with the same signing
    hash agree on the prompts, the context root, the action, the model, the time, the nonce,
    the identity fields and the key, when the two signed forms do not collide. *)
Theorem poi_signing_hash_binds `{!Rfc8785Laws} (p1 p2 : ProofOfIntent) (b1 b2 h : bytes) :
  rfc8785_dumps (JObj (poi_signing_payload p1)) = Ok b1 ->
  rfc8785_dumps (JObj (poi_signing_payload p2)) = Ok b2 ->
  collision_free [b1; b2] ->
  poi_signing_hash p1 = Ok h -> poi_signing_hash p2 = Ok h ->
  poi_with_signature p1 (poi_agent_pubkey_id p1) None = poi_with_signature p2 (poi_agent_pubkey_id p2) None.
Proof.
  intros E1 E2 Hcf Hh1 Hh2. rewrite poi_signing_hash_eq in Hh1, Hh2.
  rewrite (hash_payload_obj _ _ E1) in Hh1. rewrite (hash_payload_obj _ _ E2) in Hh2.
  apply poi_signing_payload_inj. apply (rfc8785_inj _ _ b1); auto using poi_signing_payload_wf.
  assert (b2 = b1) as -> by (apply Hcf; [set_solver..|congruence]). done.
Qed.

(** A built proof commits the prompts, the Merkle root of the whole ledger and the exact action
    payload, and satisfies the model's constraints; nothing is built without the prompts and
    the model, for a payload that is no dictionary, or on an empty ledger. *)
Theorem build_poi_spec (now : Z) (uuid up sp : string) (l : Ledger) (payload : json) (m : string) (id : PoiIdentity) :
  (forall p, build_poi now uuid up sp l payload m id = Ok p ->
    exists t r, build_merkle_tree l = Ok t /\ root t = Ok r /\ poi_context_root p = hex r /\
      hash_hex (JObj [("prompt", JStr up)]) = Ok (poi_user_prompt_hash p) /\
      hash_hex (JObj [("system_prompt", JStr sp)]) = Ok (poi_system_prompt_hash p) /\
      hash_hex payload = Ok (poi_action_payload_hash p) /\
      poi_model_id p = m /\ poi_nonce p = uuid /\ poi_action_type p = pi_action_type id /\
      poi_policy_decision p = pi_policy_decision id /\ poi_agent_signature p = None /\ poi_constraints p = true) /\
  (up = EmptyString \/ sp = EmptyString \/ m = EmptyString ->
     build_poi now uuid up sp l payload m id = raise ValueError "user_prompt, system_prompt, and model_id are required") /\
  (truthy_str up = true -> truthy_str sp = true -> truthy_str m = true -> is_dict payload = false ->
     build_poi now uuid up sp l payload m id = raise TypeError "action_payload must be a dictionary") /\
  (truthy_str up = true -> truthy_str sp = true -> truthy_str m = true -> is_dict payload = true ->
     build_poi now uuid up sp [] payload m id = raise ValueError "cannot build a Merkle tree with no entries").
Proof.
  split_and!.
  - intros p E. apply build_poi_inv in E as (t & r & E). exists t, r. naive_solver.
  - intros Hempty. unfold build_poi.
    assert (negb (truthy_str up) || negb (truthy_str sp) || negb (truthy_str m) = true) as ->; [|done].
    destruct Hempty as [->|[->| ->]]; cbn; rewrite ?orb_true_r; done.
  - intros Hu Hs Hm Hd. unfold build_poi. by rewrite Hu, Hs, Hm, Hd.
  - intros Hu Hs Hm Hd. unfold build_poi. by rewrite Hu, Hs, Hm, Hd.
Qed.

(** The callback is a gate.  Without a verified session it raises and changes nothing; when it
    returns, the run's proof is stored, verifies under the agent's key, and commits the
    session's ledger as it was before the call, which the call then extends by one entry; and
    whenever it raises, no ledger has changed. *)
Theorem on_tool_start_spec `{!CryptographyLaws} (now now' : Z) (uuid : string) (s s' : HandlerState) (serialized : dict)
    (input run_id : string) (metadata : option dict) (r : result unit) :
  on_tool_start now now' uuid s serialized input run_id metadata = (s', r) ->
  (session_of s metadata = None ->
     s' = s /\ r = raise MissingVerifiedSessionContext
                     "tool execution blocked: no verified session context in callback metadata") /\
  (is_ok r = false -> hs_ledgers s' = hs_ledgers s) /\
  (r = Ok tt -> exists c l t rt poi e payload,
     session_of s metadata = Some c /\ l = default [] (hs_ledgers s !! vs_ledger c) /\
     get_poi s' run_id = Ok poi /\
     verify_poi_signature poi (ObjEdPublic (ed_public_key (hs_agent_private_key s))) = Ok true /\
     build_merkle_tree l = Ok t /\ root t = Ok rt /\ poi_context_root poi = hex rt /\
     action_payload_of input = Ok payload /\ hash_hex (JObj payload) = Ok (poi_action_payload_hash poi) /\
     hs_ledgers s' = <[vs_ledger c := l ++ [e]]> (hs_ledgers s) /\
     content e = JObj [("tool_name", tool_name serialized); ("input", JObj payload); ("run_id", JStr run_id)]).
Proof.
  unfold on_tool_start. destruct (session_of s metadata) as [c|]; [|by intros [= <- <-]].
  set (l := default [] (hs_ledgers s !! vs_ledger c)).
  destruct (action_payload_of input) as [payload|] eqn:Ep; cbn [mbind result_bind]; [|by intros [= <- <-]].
  destruct (build_poi _ _ _ _ l _ _ _) as [unsigned|] eqn:Eb; cbn [mbind result_bind]; [|by intros [= <- <-]].
  destruct (sign_poi unsigned _) as [poi|] eqn:Es; cbn [mbind result_bind]; [|by intros [= <- <-]].
  unfold append. cbn [truthy_str is_dict]. destruct (compute_leaf_hash _ _) as [h|] eqn:Eh;
    cbn [mbind result_bind]; intros [= <- <-]; [|done].
  split_and!; [done|done|]. intros _.
  apply build_poi_inv in Eb as (t & rt & Et & Ert & Ec & _ & _ & Ea & _).
  pose proof (sign_verify_poi_lemma _ _ _ Es) as Hv.
  apply sign_poi_inv in Es as (id & hh & _ & _ & ->).
  eexists c, l, t, rt, _, _, payload. split_and!; try done.
  unfold get_poi. cbn. by rewrite lookup_insert_eq.
Qed.

(** An agent's key is published: on a registry that does not know its identifier,
    [register_agent_public_key] registers it, and the registry then answers the agent's raw
    key under the identifier derived from it. *)
Theorem agent_key_registered (now now_from now_created : Z) (t : KeyTable) (agent_id : string) (k : Ed25519PrivateKey)
    (id : string) (raw : bytes) :
  table_ok t -> agent_pubkey_id k = Ok id -> raw = ed_public_raw (ed_public_key k) ->
  load_supported_public_key raw = Ok (ObjEdPublic (ed_public_key k)) -> raw ≠ [] ->
  has_key id t = false -> truthy_str agent_id = true -> valid_us now_from -> valid_us now_created ->
  exists t', register_agent_public_key now now_from now_created t agent_id k = Ok (t', id) /\
    get_pubkey now_from t' id = Ok (Some raw).
Proof.
  intros Hok Hid -> Hl Hne Hk Ha Hf Hc.
  assert (algorithm_for_key (ed_public_raw (ed_public_key k)) = Ok "Ed25519") as Halg.
  { unfold algorithm_for_key. by rewrite Hl. }
  pose proof (agent_pubkey_id_truthy _ _ Hid) as Hti.
  destruct (AgentKeyRecord_init_agent agent_id id _ now_created now_from Ha Hti Hne Hc Hf) as (r & Er & Hact).
  assert (get_key_by_id t id = Ok None) as Hn.
  { apply get_key_by_id_none; [done|]. intros Hin%has_key_elem. congruence. }
  pose proof (AgentKeyRecord_init_inv _ _ _ _ _ _ _ _ _ _ Er) as (Hfo & _ & _ & Hrid & Hrb & Hral & _).
  assert (insert_key t r = Ok (t ++ [row_of_record r])) as Ei by by unfold insert_key; rewrite Hrid, Hk.
  exists (t ++ [row_of_record r]). split.
  - unfold register_agent_public_key. rewrite Hid. cbn [mbind result_bind serialize_public_key_raw].
    unfold get_pubkey. rewrite Hn. cbn [mbind result_bind]. rewrite bool_decide_eq_false_2 by done.
    unfold register_key. rewrite Halg. cbn [mbind result_bind]. rewrite bool_decide_eq_true_2 by (vm_compute; by left).
    cbn [negb]. rewrite Er. cbn [mbind result_bind]. by rewrite Ei.
  - unfold get_pubkey. erewrite get_after_insert; [|exact Hok|split; [exact Hfo|by rewrite Hrb, Hral]|exact Ei].
    rewrite bool_decide_eq_true_2 by done. cbn [mbind result_bind]. by rewrite Hact, Hrb.
Qed.

(** What it does when the identifier is taken: it accepts the registration without comparing
    the keys, so it answers the identifier although the registry holds other bytes under it. *)
Theorem agent_key_conflict_ignored (now now_from now_created : Z) (t : KeyTable) (agent_id : string)
    (k : Ed25519PrivateKey) (id : string) (raw : bytes) (r : AgentKeyRecord) :
  table_ok t -> agent_pubkey_id k = Ok id -> raw = ed_public_raw (ed_public_key k) ->
  load_supported_public_key raw = Ok (ObjEdPublic (ed_public_key k)) -> raw ≠ [] ->
  get_key_by_id t id = Ok (Some r) -> kr_public_key_bytes r ≠ raw ->
  truthy_str agent_id = true -> valid_us now_from -> valid_us now_created ->
  register_agent_public_key now now_from now_created t agent_id k = Ok (t, id) /\
  forall n, get_pubkey n t id ≠ Ok (Some raw).
Proof.
  intros Hok Hid -> Hl Hne Hr Hdiff Ha Hf Hc.
  assert (forall n, get_pubkey n t id ≠ Ok (Some (ed_public_raw (ed_public_key k)))) as Hget.
  { intros n. unfold get_pubkey. rewrite Hr. cbn [mbind result_bind]. destruct (is_active r n); cbn; congruence. }
  split; [|done].
  pose proof (agent_pubkey_id_truthy _ _ Hid) as Hti.
  destruct (AgentKeyRecord_init_agent agent_id id _ now_created now_from Ha Hti Hne Hc Hf) as (r' & Er & _).
  assert (has_key id t = true) as Hk.
  { apply has_key_elem. apply get_key_by_id_some in Hr as (_ & Hin & <-); [|done].
    rewrite <- row_of_record_id. by apply list_elem_of_fmap_2. }
  assert (algorithm_for_key (ed_public_raw (ed_public_key k)) = Ok "Ed25519") as Halg.
  { unfold algorithm_for_key. by rewrite Hl. }
  unfold register_agent_public_key. rewrite Hid. cbn [mbind result_bind serialize_public_key_raw].
  specialize (Hget now). destruct (get_key_by_id_total t id Hok) as [Hx|[x Hx]]; [congruence|].
  destruct (get_pubkey now t id) as [cur|] eqn:Ec.
  2: { unfold get_pubkey in Ec. rewrite Hx in Ec. cbn [mbind result_bind] in Ec. by destruct (negb _). }
  cbn [mbind result_bind]. rewrite bool_decide_eq_false_2 by congruence.
  erewrite register_conflict_message; [reflexivity|exact Er|exact Halg|exact Hk|vm_compute; by left].
Qed.

End Theorems.

(** ** Witnesses *)

Section Witnesses.
#[local] Existing Instance demo_hashlib.
#[local] Existing Instance demo_rfc8785.
#[local] Existing Instance demo_rfc8785_laws.
#[local] Existing Instance demo_cryptography.
#[local] Existing Instance demo_cryptography_laws.

Definition demo_payload : dict := [("to", JStr "bob@example.com"); ("subject", JStr "hi"); ("body", JStr "update")].

Definition demo_identity : PoiIdentity := mkPoiIdentity (Some "email") (Some "email-agent") (Some "email") (Some "allow").

Definition demo_built : result ProofOfIntent :=
  build_poi demo_wall "uuid-1" "send it" "be safe" demo_ledger (JObj demo_payload) "model-1" demo_identity.

Definition demo_empty_poi : ProofOfIntent :=
  mkProofOfIntent "" "" "" "" "" "" "" None None None None None None.

Definition demo_unsigned : ProofOfIntent := match demo_built with Ok p => p | Raise _ => demo_empty_poi end.

Definition demo_agent_key : Ed25519PrivateKey := demo_key 5.

Definition demo_poi : ProofOfIntent :=
  match sign_poi demo_unsigned demo_agent_key with Ok p => p | Raise _ => demo_empty_poi end.

Lemma demo_poi_signed : sign_poi demo_unsigned demo_agent_key = Ok demo_poi.
Proof. vm_compute. reflexivity. Qed.

(** The raw key is no DER: it loads as an Ed25519 key. *)
Lemma demo_key_loads :
  load_supported_public_key (ed_public_raw (ed_public_key demo_agent_key)) = Ok (ObjEdPublic (ed_public_key demo_agent_key)).
Proof.
  unfold load_supported_public_key, load_key_bytes.
  assert (load_der_public_key (ed_public_raw (ed_public_key demo_agent_key)) = raise ValueError "Could not deserialize key data.") as ->
    by (apply exn_of_raise; vm_compute; reflexivity).
  cbn [raise]. pose proof (demo_ed_of_raw demo_agent_key) as E.
  assert (ed_public_from_raw (ed_public_raw (ed_public_key demo_agent_key)) = Ok (ed_public_key demo_agent_key)) as -> by exact E. done.
Qed.

Lemma sign_then_verify_poi_witness :
  poi_agent_signature demo_poi ≠ None /\ verify_poi_signature demo_poi (ObjEdPublic (ed_public_key demo_agent_key)) = Ok true.
Proof.
  split; [vm_compute; discriminate|].
  apply (sign_then_verify_poi demo_unsigned demo_poi demo_agent_key). exact demo_poi_signed.
Defined.

Definition demo_signed_form : bytes :=
  match rfc8785_dumps (JObj (poi_signing_payload demo_poi)) with Ok b => b | Raise _ => [] end.

Definition demo_forged : ProofOfIntent := poi_with_signature demo_poi (poi_agent_pubkey_id demo_poi) (Some "00").

Lemma poi_signing_hash_binds_witness :
  poi_with_signature demo_poi (poi_agent_pubkey_id demo_poi) None
  = poi_with_signature demo_forged (poi_agent_pubkey_id demo_forged) None.
Proof.
  apply (poi_signing_hash_binds demo_poi demo_forged demo_signed_form demo_signed_form (sha3_256 demo_signed_form)).
  - vm_compute; reflexivity.
  - vm_compute; reflexivity.
  - apply (bool_decide_unpack _). vm_compute. exact I.
  - vm_compute; reflexivity.
  - vm_compute; reflexivity.
Defined.

Lemma build_poi_spec_witness :
  poi_constraints demo_unsigned = true /\
  build_poi 0 "u" "" "be safe" [] JNull "m" no_identity
    = raise ValueError "user_prompt, system_prompt, and model_id are required".
Proof.
  split; [vm_compute; reflexivity|].
  apply (build_poi_spec 0 "u" "" "be safe" [] JNull "m" no_identity). left. reflexivity.
Defined.

Definition demo_context : VerifiedSessionContext := mkVerifiedSessionContext "s1" "send it" "be safe" 0%nat "model-1".

Definition demo_handler : HandlerState :=
  register_verified_session (mkHandlerState ∅ demo_agent_key ∅ {[ 0%nat := demo_ledger ]}) demo_context.

Definition demo_start : HandlerState * result unit :=
  on_tool_start demo_wall (demo_wall + 5) "uuid-1" demo_handler [("name", JStr "send_email")] "{}" "run-1"
    (Some [("session_id", JStr "s1")]).

Lemma on_tool_start_spec_witness :
  (exists poi, get_poi demo_start.1 "run-1" = Ok poi /\
     verify_poi_signature poi (ObjEdPublic (ed_public_key demo_agent_key)) = Ok true) /\
  (on_tool_start 0 0 "u" demo_handler [] "{}" "run-1" None).1 = demo_handler.
Proof.
  split.
  - destruct (on_tool_start_spec demo_wall (demo_wall + 5) "uuid-1" demo_handler demo_start.1 [("name", JStr "send_email")]
      "{}" "run-1" (Some [("session_id", JStr "s1")]) demo_start.2) as (_ & _ & Hok).
    + unfold demo_start. destruct (on_tool_start _ _ _ _ _ _ _ _). reflexivity.
    + destruct Hok as (c & l & t & rt & poi & e & payload & _ & _ & Hp & Hv & _); [vm_compute; reflexivity|].
      exists poi. split; [exact Hp|exact Hv].
  - destruct (on_tool_start_spec 0 0 "u" demo_handler demo_handler [] "{}" "run-1" None
      (raise MissingVerifiedSessionContext "tool execution blocked: no verified session context in callback metadata"))
      as (Hb & _); [reflexivity|]. reflexivity.
Defined.

Definition demo_agent_id : string := match agent_pubkey_id demo_agent_key with Ok i => i | Raise _ => "" end.

Lemma agent_key_registered_witness :
  exists t', register_agent_public_key demo_wall demo_wall demo_wall [] "email-agent" demo_agent_key = Ok (t', demo_agent_id) /\
    get_pubkey demo_wall t' demo_agent_id = Ok (Some (ed_public_raw (ed_public_key demo_agent_key))).
Proof.
  apply (agent_key_registered demo_wall demo_wall demo_wall [] "email-agent" demo_agent_key demo_agent_id).
  - exact table_ok_nil.
  - vm_compute; reflexivity.
  - reflexivity.
  - exact demo_key_loads.
  - vm_compute; discriminate.
  - reflexivity.
  - reflexivity.
  - split; vm_compute; [discriminate|reflexivity].
  - split; vm_compute; [discriminate|reflexivity].
Defined.

(** A registry where another key was registered under the agent's identifier. *)
Definition demo_squatted : KeyTable := demo_register demo_agent_id 7 demo_wall [].

Definition demo_squatter : AgentKeyRecord :=
  match get_key_by_id demo_squatted demo_agent_id with Ok (Some r) => r | _ => demo_record "" end.

Lemma agent_key_conflict_ignored_witness :
  register_agent_public_key demo_wall demo_wall demo_wall demo_squatted "email-agent" demo_agent_key
    = Ok (demo_squatted, demo_agent_id).
Proof.
  apply (agent_key_conflict_ignored demo_wall demo_wall demo_wall demo_squatted "email-agent" demo_agent_key
           demo_agent_id (ed_public_raw (ed_public_key demo_agent_key)) demo_squatter).
  - apply (registry_steps_ok [] demo_squatted table_ok_nil). apply demo_register_step.
  - vm_compute; reflexivity.
  - reflexivity.
  - exact demo_key_loads.
  - vm_compute; discriminate.
  - vm_compute; reflexivity.
  - vm_compute; discriminate.
  - reflexivity.
  - split; vm_compute; [discriminate|reflexivity].
  - split; vm_compute; [discriminate|reflexivity].
Defined.
End Witnesses.
