(* ===== verification/AgentBase.v ===== *)
(** * aor/agents/base.py: the contracts the agents share

    Action plans and results, and the registry of agents by type.  An agent is a record of the
    operations the registry's clients call; executing a plan has effects of its own in each
    agent and stays with it. *)

From S2P Require Import Prelude PyStr Json JsonText Verifier Registry.

Record ActionPlan := mkActionPlan {
  ap_agent_type : string;
  ap_agent_id : option string;
  ap_action_type : string;
  ap_payload : dict;
  ap_requires_confirmation : bool;
  ap_confirmed : bool;
  ap_policy_decision : string;
}.

(** The constructor: the field constraints and the validator that strips [policy_decision]. *)
Definition ActionPlan_init (p : ActionPlan) : result ActionPlan :=
  let decision := str_strip (ap_policy_decision p) in
  if truthy_str (ap_agent_type p) && opt_min_length (ap_agent_id p) && truthy_str (ap_action_type p)
     && truthy_str decision
  then Ok (mkActionPlan (ap_agent_type p) (ap_agent_id p) (ap_action_type p) (ap_payload p)
             (ap_requires_confirmation p) (ap_confirmed p) decision)
  else validation_error.

Record ActionResult := mkActionResult {
  ar_success : bool;
  ar_artifact_ref : option string;
  ar_details : dict;
  ar_observed_effect : dict;
}.

(** [ActionResult(success=False, details={"error": detail})]. *)
Definition failure (detail : string) : ActionResult := mkActionResult false None [("error", JStr detail)] [].

Record Agent := mkAgent {
  ag_agent_type : string;
  ag_agent_id : string;
  ag_can_handle : string -> bool;
  ag_plan : string -> option dict -> result ActionPlan;
}.

(** The checks of [Agent.__init__]. *)
Definition Agent_init (agent_id agent_type : string) : result unit :=
  _ ← raise_if (negb (truthy_str (str_strip agent_id))) ValueError "agent_id must be a non-empty string";
  raise_if (negb (truthy_str (str_strip agent_type))) ValueError "agent_type must be a non-empty string".

Definition default_can_handle (request : string) : bool := truthy_str request && truthy_str (str_strip request).

(** ** Values of a planning context *)

(** [repr] and [str] of the values a context holds. *)
Fixpoint py_repr (j : json) : string :=
  match j with
  | JNull => "None"
  | JBool b => if b then "True" else "False"
  | JInt z => str_of_int z
  | JStr s => str_repr s
  | JList l => "[" +:+ (str_join ", " (map py_repr l) +:+ "]")
  | JObj d => "{" +:+ (str_join ", " (map (fun kv => str_repr kv.1 +:+ (": " +:+ py_repr kv.2)) d) +:+ "}")
  end.

Definition py_str (j : json) : string := match j with JStr s => s | _ => py_repr j end.

(** [values.get(k) or x]. *)
Definition get_or (k : string) (values : dict) (x : json) : json :=
  match dict_get k values with Some v => if json_truthy v then v else x | None => x end.

(** ** The registry: agents in registration order *)

Definition AgentRegistry : Type := list Agent.

Definition find_agent (r : AgentRegistry) (agent_type : string) : option Agent :=
  snd <$> list_find (fun a => ag_agent_type a = agent_type) r.

Definition agent_register (r : AgentRegistry) (agent : Agent) : result AgentRegistry :=
  match find_agent r (ag_agent_type agent) with
  | Some _ => raise ValueError ("agent_type already registered: " +:+ ag_agent_type agent)
  | None => Ok (r ++ [agent])
  end.

Fixpoint AgentRegistry_init_from (r : AgentRegistry) (agents : list Agent) : result AgentRegistry :=
  match agents with
  | [] => Ok r
  | a :: rest => r ← agent_register r a; AgentRegistry_init_from r rest
  end.

Definition AgentRegistry_init (agents : list Agent) : result AgentRegistry := AgentRegistry_init_from [] agents.

Definition agent_get (r : AgentRegistry) (agent_type : string) : result Agent :=
  of_option (find_agent r agent_type) KeyError ("unknown agent_type: " +:+ agent_type).

Definition list_agents (r : AgentRegistry) : list Agent := r.

Definition agent_types (r : AgentRegistry) : list string := ag_agent_type <$> r.

(** ** Lemmas *)

Lemma find_agent_type r ty a : find_agent r ty = Some a -> ag_agent_type a = ty /\ a ∈ r.
Proof.
  unfold find_agent. intros ([i x] & Hf & ->)%fmap_Some. apply list_find_Some in Hf as (Hl & Ht & _).
  split; [done|]. cbn. apply list_elem_of_lookup. eauto.
Qed.

Lemma find_agent_none r ty : find_agent r ty = None <-> ty ∉ agent_types r.
Proof.
  unfold find_agent, agent_types. rewrite fmap_None, list_find_None, Forall_forall, list_elem_of_fmap. naive_solver.
Qed.

Lemma agent_register_inv r a r' :
  agent_register r a = Ok r' -> r' = r ++ [a] /\ ag_agent_type a ∉ agent_types r.
Proof.
  unfold agent_register. destruct (find_agent r _) eqn:E; [done|]. intros [= <-].
  split; [done|]. by apply find_agent_none.
Qed.

Lemma AgentRegistry_init_from_ok r agents r' :
  NoDup (agent_types r) -> AgentRegistry_init_from r agents = Ok r' -> r' = r ++ agents /\ NoDup (agent_types r').
Proof.
  revert r. induction agents as [|a agents IH]; intros r Hnd; cbn [AgentRegistry_init_from].
  - intros [= <-]. by rewrite app_nil_r.
  - destruct (agent_register r a) as [r1|] eqn:E; [|done]. cbn [mbind result_bind].
    apply agent_register_inv in E as [-> Hn]. intros [-> Hnd']%IH; [split; [by rewrite <- app_assoc|done]|].
    unfold agent_types. rewrite fmap_app. apply NoDup_app. split_and!; [done| |apply NoDup_singleton].
    intros x Hx ->%list_elem_of_singleton. done.
Qed.

(** ** Theorems *)

(** The registry: it accepts a list of agents exactly when their types are distinct, keeps them
    in registration order, and then finds every one of them, and only them, by its type. *)
Theorem agent_registry_spec (agents : list Agent) :
  (is_ok (AgentRegistry_init agents) = true <-> NoDup (agent_types agents)) /\
  (forall r, AgentRegistry_init agents = Ok r ->
    list_agents r = agents /\
    (forall a, a ∈ agents -> agent_get r (ag_agent_type a) = Ok a) /\
    (forall ty, ty ∉ agent_types agents -> agent_get r ty = raise KeyError ("unknown agent_type: " +:+ ty))).
Proof.
  assert (forall r, AgentRegistry_init agents = Ok r -> r = agents /\ NoDup (agent_types agents)) as Hinit.
  { intros r E. apply AgentRegistry_init_from_ok in E as [-> ?]; [done|constructor]. }
  split; [split|].
  - destruct (AgentRegistry_init agents) as [r|] eqn:E; [|done]. intros _. by apply (Hinit r).
  - intros Hnd. enough (forall r, NoDup (agent_types (r ++ agents)) -> is_ok (AgentRegistry_init_from r agents) = true)
      as Hen by exact (Hen [] Hnd).
    clear Hnd Hinit. induction agents as [|a agents IH]; intros r Hnd; [done|]. cbn [AgentRegistry_init_from].
    unfold agent_register. assert (find_agent r (ag_agent_type a) = None) as ->.
    { apply find_agent_none. unfold agent_types in *. rewrite fmap_app in Hnd. apply NoDup_app in Hnd as (_ & Hd & _).
      intros Hin. apply (Hd _ Hin). rewrite fmap_cons. by left. }
    cbn [mbind result_bind]. apply IH. by rewrite <- app_assoc.
  - intros r E. destruct (Hinit r E) as [-> Hnd]. split_and!; [done| |].
    + intros a Ha. unfold agent_get.
      destruct (find_agent agents (ag_agent_type a)) as [x|] eqn:Ef; cbn [of_option].
      * apply find_agent_type in Ef as [Ht Hx]. f_equal.
        apply list_elem_of_lookup in Ha as [i Hi], Hx as [j Hj].
        assert (i = j) as ->; [|congruence].
        apply (NoDup_lookup _ i j (ag_agent_type a) Hnd); unfold agent_types; rewrite list_lookup_fmap;
          [by rewrite Hi|by rewrite Hj, <- Ht].
      * apply find_agent_none in Ef. destruct Ef. by apply list_elem_of_fmap_2.
    + intros ty Hty. unfold agent_get. by rewrite (proj2 (find_agent_none agents ty) Hty).
Qed.

(** ** Witness *)

Definition demo_agent (ty : string) : Agent :=
  mkAgent ty (ty +:+ "-agent") default_can_handle (fun _ _ => validation_error).

Lemma agent_registry_spec_witness :
  is_ok (AgentRegistry_init [demo_agent "email"; demo_agent "file"]) = true.
Proof. apply agent_registry_spec. apply (bool_decide_unpack _). vm_compute. exact I. Defined.
