(* ===== verification/Executor.v ===== *)
(** * action_executor: from a signed proof to an outbound action

    Models [poi_encoding.py], [cot_encryption.py], [smtp_action.py], [jwt_action.py] and
    [executor.py].  Effects on the outside world are recorded in order as [Effect]s; whether an
    effect raises is decided by an environment, [smtp_env].  The parser of the pydantic model
    and the database agent are interfaces.  The Message-ID, the file's UUID and the AES nonce
    are arguments.

    The theorems: the header round trip and the encryption round trip; no effect happens
    unless the payload, the action type and the policy decision match the proof, and every
    message written or sent carries that proof and the committed fields; a changed payload is
    refused. *)

From S2P Require Import Prelude PyStr Base64 Json JsonText PyTime Crypto Instances Ledger Merkle Sql Verifier.
From S2P Require Import Registry Poi AgentBase.

#[local] Open Scope Z_scope.

(** ** Interfaces *)

(** [ProofOfIntent.model_validate_json] and [ProofOfIntent.model_validate]. *)
Class PoiModel := {
  poi_validate_json : bytes -> result ProofOfIntent;
  poi_validate : json -> result ProofOfIntent;
}.

(** A parsed model satisfies its constraints, and the canonical JSON of a valid model, or its
    dictionary in any key order, parses back to it. *)
Class PoiModelLaws `{Rfc8785, !PoiModel} := {
  poi_validate_json_sound b p : poi_validate_json b = Ok p -> poi_constraints p = true;
  poi_validate_json_dump p b :
    poi_constraints p = true -> rfc8785_dumps (JObj (poi_model_dump p)) = Ok b -> poi_validate_json b = Ok p;
  poi_validate_dump p d :
    poi_constraints p = true -> json_wf (JObj d) -> json_equiv (JObj d) (JObj (poi_model_dump p)) ->
    poi_validate (JObj d) = Ok p;
}.

(** The database agent as the executor calls it. *)
Class DatabaseOps (DB : Type) := {
  db_plan : DB -> string -> dict -> result ActionPlan;
  db_execute : DB -> ActionPlan -> ProofOfIntent -> DB * result ActionResult;
}.

(** ** poi_encoding.py *)

Section Encoding.
Context `{Hashlib, Rfc8785, !PoiModel}.

Definition encode_poi_header (poi : ProofOfIntent) : result string :=
  b ← canonicalize (JObj (poi_model_dump poi)); Ok (urlsafe_b64encode b).

(** [_urlsafe_base64_decode]: whitespace from header folding is dropped. *)
Definition folded_b64decode (value : string) : result bytes := urlsafe_b64decode (str_join_split value).

Definition decode_poi_header (header_value : string) : result ProofOfIntent :=
  b ← folded_b64decode header_value; poi_validate_json b.

Definition build_signature_header (poi : ProofOfIntent) : result string :=
  match poi_agent_signature poi with
  | None => raise ValueError "a signed PoI is required for an action header"
  | Some s => b ← fromhex s; Ok (urlsafe_b64encode b)
  end.

Definition build_agent_cert_header (agent_pubkey_id : option string) : result string :=
  match agent_pubkey_id with
  | Some id => if truthy_str id then Ok id else raise ValueError "agent_pubkey_id is required for an action header"
  | None => raise ValueError "agent_pubkey_id is required for an action header"
  end.

End Encoding.

(** ** cot_encryption.py *)

Section CoT.
Context `{Cryptography}.

Definition validate_key (key : pyobj) : result bytes :=
  match key with
  | ObjBytes k => if (length k =? 32)%nat then Ok k else raise ValueError "AES-256-GCM requires a 32-byte key"
  | _ => raise ValueError "AES-256-GCM requires a 32-byte key"
  end.

(** [reasoning_text] may be any JSON value of an action payload; only a string encodes. *)
Definition encrypt_cot (nonce : bytes) (reasoning_text : json) (key : pyobj) : result dict :=
  k ← validate_key key;
  match reasoning_text with
  | JStr text =>
      let combined := aesgcm_encrypt k nonce (utf8_encode text) in
      let ciphertext := take (length combined - 16) combined in
      let tag := drop (length combined - 16) combined in
      Ok [("ciphertext", JStr (b64encode ciphertext)); ("nonce", JStr (b64encode nonce));
          ("tag", JStr (b64encode tag))]
  | _ => raise AttributeError "object has no attribute 'encode'"
  end.

(** [base64.b64decode(d[k], validate=True)]. *)
Definition b64_item (k : string) (d : dict) : result bytes :=
  v ← dict_item k d;
  match v with JStr s => b64decode true s | _ => raise TypeError "argument should be a bytes-like object or ASCII string" end.

Definition decrypt_cot (encrypted : dict) (key : pyobj) : result string :=
  k ← validate_key key;
  nonce ← b64_item "nonce" encrypted;
  ciphertext ← b64_item "ciphertext" encrypted;
  tag ← b64_item "tag" encrypted;
  text ← aesgcm_decrypt k nonce (ciphertext ++ tag);
  utf8_decode text.

End CoT.

(** ** smtp_action.py *)

Record SMTPConfig := mkSMTPConfig {
  sc_from_address : string;
  sc_host : option string;
  sc_port : Z;
  sc_username : option string;
  sc_password : option string;
  sc_use_starttls : bool;
  sc_use_ssl : bool;
  sc_dry_run : bool;
  sc_output_dir : string;
}.

Definition default_smtp_config : SMTPConfig :=
  mkSMTPConfig "aor@example.test" None 587 None None true false true ".aor_outbox".

Record EmailMessage := mkEmailMessage { em_headers : list (string * string); em_body : string }.

Definition empty_message : EmailMessage := mkEmailMessage [] EmptyString.

(** [message[name] = value]: a value of more than one line is refused, and what the library
    makes of other objects is not modelled. *)
Definition set_header (m : EmailMessage) (name : string) (value : json) : result EmailMessage :=
  match value with
  | JStr v =>
      if (1 <? length (splitlines_keep v))%nat
      then raise ValueError "Header values may not contain linefeed or carriage return characters"
      else Ok (mkEmailMessage (em_headers m ++ [(name, v)]) (em_body m))
  | _ => raise OutsideModel "header object"
  end.

Definition set_content (m : EmailMessage) (body : json) : result EmailMessage :=
  match body with
  | JStr b => Ok (mkEmailMessage (em_headers m) b)
  | _ => raise KeyError "content type"
  end.

(** The first header of that name. *)
Definition get_header (m : EmailMessage) (name : string) : option string :=
  snd <$> (snd <$> list_find (fun nv => nv.1 = name) (em_headers m)).

(** What the process does to the outside world, in order. *)
Inductive Effect :=
| Mkdir (dir : string)
| WriteEml (path : string) (m : EmailMessage)
| SmtpConnect (ssl : bool) (host : string) (port : Z)
| SmtpStartTls
| SmtpLogin (username password : string)
| SmtpSend (m : EmailMessage).

(** The effects performed until one raises. *)
Fixpoint perform (smtp_env : Effect -> result unit) (effects : list Effect) : list Effect * result unit :=
  match effects with
  | [] => ([], Ok tt)
  | x :: rest =>
      match smtp_env x with
      | Raise e => ([x], Raise e)
      | Ok _ => let '(done, r) := perform smtp_env rest in (x :: done, r)
      end
  end.

Section Smtp.
Context `{Hashlib, Rfc8785, Cryptography}.

(** The values the library draws: the Message-ID, the file's UUID, the AES nonce. *)
Record Draws := mkDraws { dr_message_id : string; dr_uuid : string; dr_nonce : bytes }.

Definition encrypted_reasoning_header (nonce : bytes) (reasoning_text : json) (encryption_key : pyobj) : result string :=
  encrypted ← encrypt_cot nonce reasoning_text encryption_key;
  b ← canonicalize (JObj encrypted);
  Ok (urlsafe_b64encode b).

Definition build_email (draws : Draws) (to subject body : json) (poi : ProofOfIntent) (smtp_config : SMTPConfig)
    (reasoning_text : json) (encryption_key : option pyobj) : result EmailMessage :=
  m ← set_header empty_message "To" to;
  m ← set_header m "From" (JStr (sc_from_address smtp_config));
  m ← set_header m "Subject" subject;
  m ← set_header m "Message-ID" (JStr (dr_message_id draws));
  encoded ← encode_poi_header poi;
  m ← set_header m "X-AoR-Proof-of-Intent" (JStr encoded);
  signature ← build_signature_header poi;
  m ← set_header m "X-AoR-Signature" (JStr signature);
  cert ← build_agent_cert_header (poi_agent_pubkey_id poi);
  m ← set_header m "X-AoR-Agent-Cert" (JStr cert);
  m ← (match reasoning_text with
       | JNull => Ok m
       | _ =>
           match encryption_key with
           | None => raise ValueError "encryption_key is required when adding encrypted reasoning"
           | Some key =>
               r ← encrypted_reasoning_header (dr_nonce draws) reasoning_text key;
               set_header m "X-AoR-Encrypted-Reasoning" (JStr r)
           end
       end);
  set_content m body.

(** [x or y] on optional strings, as a value. *)
Definition opt_truthy (o : option string) : bool := match o with Some s => truthy_str s | None => false end.

(** The effects of delivering [m]. *)
Definition delivery (draws : Draws) (smtp_config : SMTPConfig) (m : EmailMessage) : result (list Effect) :=
  if sc_dry_run smtp_config then
    Ok [Mkdir (sc_output_dir smtp_config);
        WriteEml (sc_output_dir smtp_config +:+ "/" +:+ dr_uuid draws +:+ ".eml") m]
  else if negb (opt_truthy (sc_host smtp_config)) then raise ValueError "host is required for real SMTP delivery"
  else
    Ok ([SmtpConnect (sc_use_ssl smtp_config) (default EmptyString (sc_host smtp_config)) (sc_port smtp_config)]
        ++ (if sc_use_starttls smtp_config && negb (sc_use_ssl smtp_config) then [SmtpStartTls] else [])
        ++ (if opt_truthy (sc_username smtp_config)
            then [SmtpLogin (default EmptyString (sc_username smtp_config)) (or_str (sc_password smtp_config) EmptyString)]
            else [])
        ++ [SmtpSend m]).

Definition send_email_with_proof (smtp_env : Effect -> result unit) (draws : Draws) (to subject body : json)
    (poi : ProofOfIntent) (smtp_config : SMTPConfig) (reasoning_text : json) (encryption_key : option pyobj)
    : list Effect * result string :=
  match (m ← build_email draws to subject body poi smtp_config reasoning_text encryption_key;
         effects ← delivery draws smtp_config m; Ok effects) with
  | Raise e => ([], Raise e)
  | Ok effects => let '(done, r) := perform smtp_env effects in (done, _ ← r; Ok (dr_message_id draws))
  end.

(** ** jwt_action.py *)

Definition execute_jwt_action `{DatabaseOps DB} (action_type : string) (action_payload : dict) (poi : ProofOfIntent)
    (database_agent : option DB) : option DB * result ActionResult :=
  if negb (bool_decide (action_type = "db")) then (database_agent, Ok (failure "unsupported_jwt_action_type"))
  else
    match database_agent with
    | None => (None, Ok (failure "database_agent_required"))
    | Some db =>
        match db_plan db "database query"
                [("database", default JNull (dict_get "database" action_payload));
                 ("template", default JNull (dict_get "template" action_payload));
                 ("params", default (JList []) (dict_get "params" action_payload))] with
        | Raise e => (Some db, Raise e)
        | Ok plan => let '(db, r) := db_execute db plan poi in (Some db, r)
        end
    end.

(** ** executor.py *)

Record ExecutorResult := mkExecutorResult {
  ex_success : bool;
  ex_action_type : string;
  ex_action_id : option string;
  ex_detail : json;
}.

Record ActionExecutor (DB : Type) := mkActionExecutor {
  ae_smtp_config : SMTPConfig;
  ae_encryption_key : option pyobj;
  ae_database_agent : option DB;
}.
#[global] Arguments mkActionExecutor {DB}.
#[global] Arguments ae_smtp_config {DB}.
#[global] Arguments ae_encryption_key {DB}.
#[global] Arguments ae_database_agent {DB}.

Definition refused (action_type detail : string) : ExecutorResult :=
  mkExecutorResult false action_type None (JStr detail).

(** [{action_type, poi_type} == {"db", "db.query"}]. *)
Definition db_alias (action_type poi_type : string) : bool :=
  bool_decide (action_type = "db" /\ poi_type = "db.query") || bool_decide (action_type = "db.query" /\ poi_type = "db").

Definition action_type_matches (action_type : string) (poi : ProofOfIntent) : bool :=
  match poi_action_type poi with
  | None => true
  | Some ty => bool_decide (action_type = ty) || db_alias action_type ty
  end.

Definition policy_allows (poi : ProofOfIntent) : bool :=
  match poi_policy_decision poi with None => true | Some d => bool_decide (d = "allow") end.

Definition has_keys (keys : list string) (d : dict) : bool :=
  forallb (fun k => match dict_get k d with Some _ => true | None => false end) keys.

(** The effects, the database agent afterwards, and the result. *)
Definition execute_action `{DatabaseOps DB} (smtp_env : Effect -> result unit) (draws : Draws)
    (self : ActionExecutor DB) (action_type : string) (action_payload : dict) (poi : ProofOfIntent)
    : list Effect * option DB * result ExecutorResult :=
  let db := ae_database_agent self in
  match hash_hex (JObj action_payload) with
  | Raise e => ([], db, Raise e)
  | Ok h =>
      if negb (bool_decide (h = poi_action_payload_hash poi))
      then ([], db, Ok (refused action_type "action_payload_hash_mismatch"))
      else if negb (action_type_matches action_type poi)
      then ([], db, Ok (refused action_type "action_type_mismatch"))
      else if negb (policy_allows poi)
      then ([], db, Ok (refused action_type "policy_decision_rejected"))
      else if bool_decide (action_type = "email") then
        if negb (has_keys ["to"; "subject"; "body"] action_payload)
        then ([], db, Ok (refused action_type "missing_email_fields"))
        else
          let '(effects, r) :=
            send_email_with_proof smtp_env draws (default JNull (dict_get "to" action_payload))
              (default JNull (dict_get "subject" action_payload)) (default JNull (dict_get "body" action_payload))
              poi (ae_smtp_config self) (default JNull (dict_get "audit_rationale" action_payload))
              (ae_encryption_key self) in
          (effects, db, message_id ← r; Ok (mkExecutorResult true action_type (Some message_id) JNull))
      else if bool_decide (action_type = "db") then
        let '(db, r) := execute_jwt_action action_type action_payload poi db in
        ([], db,
         result ← r;
         Ok (mkExecutorResult (ar_success result) action_type (ar_artifact_ref result)
               (default JNull (dict_get "error" (ar_details result)))))
      else ([], db, Ok (refused action_type "unsupported_action_type"))
  end.

End Smtp.

(** ** Lemmas *)

Lemma set_header_inv m name v m' :
  set_header m name v = Ok m' ->
  exists s, v = JStr s /\ m' = mkEmailMessage (em_headers m ++ [(name, s)]) (em_body m).
Proof.
  unfold set_header. destruct v; try done. destruct (1 <? _)%nat; [done|]. intros [= <-]. eauto.
Qed.

Lemma set_header_str m name s :
  (length (splitlines_keep s) <= 1)%nat ->
  set_header m name (JStr s) = Ok (mkEmailMessage (em_headers m ++ [(name, s)]) (em_body m)).
Proof. intros Hs. unfold set_header. by rewrite (proj2 (Nat.ltb_ge _ _) Hs). Qed.

(** A text without line boundaries is one line. *)
Lemma one_line s : str_forallb (fun c => negb (is_linebreak c)) s = true -> (length (splitlines_keep s) <= 1)%nat.
Proof.
  induction s as [|c s IH]; cbn [str_forallb splitlines_keep]; [cbn; lia|].
  intros [Hc Hs]%andb_prop. specialize (IH Hs). destruct (is_linebreak c); [done|]. cbn [andb].
  destruct (splitlines_keep s) as [|l [|? ?]]; cbn in *; lia.
Qed.

Lemma b64_char_not_linebreak n : 0 <= n < 64 -> is_linebreak (urlsafe_encode_char (b64_char n)) = false.
Proof. intros Hn. small_cases n 64%nat. Qed.

Lemma urlsafe_b64encode_one_line b : (length (splitlines_keep (urlsafe_b64encode b)) <= 1)%nat.
Proof.
  apply one_line. unfold urlsafe_b64encode. rewrite str_forallb_map.
  apply b64encode_forallb; [done|]. intros n Hn. by rewrite b64_char_not_linebreak.
Qed.

Lemma perform_subset env effects x : x ∈ (perform env effects).1 -> x ∈ effects.
Proof.
  induction effects as [|y effects IH]; cbn [perform]; [done|].
  destruct (env y); [|by intros ->%list_elem_of_singleton; left].
  destruct (perform env effects) as [dn r]. cbn in *. rewrite !elem_of_cons. naive_solver.
Qed.

Lemma perform_all env effects :
  (forall x, x ∈ effects -> env x = Ok tt) -> perform env effects = (effects, Ok tt).
Proof.
  induction effects as [|y effects IH]; cbn [perform]; intros He; [done|].
  rewrite He by by left. rewrite IH; [done|]. intros x Hx. apply He. by right.
Qed.

Section Lemmas.
Context `{Hashlib, Rfc8785, Cryptography}.

(** The message [build_email] makes. *)
Lemma build_email_inv draws to subject body poi cfg reasoning key m :
  build_email draws to subject body poi cfg reasoning key = Ok m ->
  exists t s b enc, to = JStr t /\ subject = JStr s /\ body = JStr b /\ encode_poi_header poi = Ok enc /\
    get_header m "To" = Some t /\ get_header m "Subject" = Some s /\ em_body m = b /\
    get_header m "X-AoR-Proof-of-Intent" = Some enc.
Proof.
  unfold build_email. intros E.
  destruct (set_header empty_message _ _) as [m1|] eqn:E1; [|done]. cbn [mbind result_bind] in E.
  destruct (set_header m1 _ _) as [m2|] eqn:E2; [|done]. cbn [mbind result_bind] in E.
  destruct (set_header m2 _ _) as [m3|] eqn:E3; [|done]. cbn [mbind result_bind] in E.
  destruct (set_header m3 _ _) as [m4|] eqn:E4; [|done]. cbn [mbind result_bind] in E.
  destruct (encode_poi_header poi) as [enc|] eqn:Ee; [|done]. cbn [mbind result_bind] in E.
  destruct (set_header m4 _ _) as [m5|] eqn:E5; [|done]. cbn [mbind result_bind] in E.
  destruct (build_signature_header poi) as [sg|]; [|done]. cbn [mbind result_bind] in E.
  destruct (set_header m5 _ _) as [m6|] eqn:E6; [|done]. cbn [mbind result_bind] in E.
  destruct (build_agent_cert_header _) as [cert|]; [|done]. cbn [mbind result_bind] in E.
  destruct (set_header m6 _ _) as [m7|] eqn:E7; [|done]. cbn [mbind result_bind] in E.
  apply set_header_inv in E1 as (t & -> & ->), E2 as (f & _ & ->), E3 as (s & -> & ->), E4 as (i & _ & ->),
    E5 as (en & [= <-] & ->), E6 as (x6 & _ & ->), E7 as (x7 & _ & ->).
  destruct (match reasoning with JNull => _ | _ => _ end) as [m8|] eqn:E8; [|done]. cbn [mbind result_bind] in E.
  unfold set_content in E. destruct body as [| | |b| |]; try done. injection E as <-.
  assert (exists rest, em_headers m8 = [("To", t); ("From", f); ("Subject", s); ("Message-ID", i);
      ("X-AoR-Proof-of-Intent", enc); ("X-AoR-Signature", x6); ("X-AoR-Agent-Cert", x7)] ++ rest) as [rest Hh].
  { destruct reasoning; [injection E8 as <-; by exists []|..];
      (destruct key as [k|]; [|done]; destruct (encrypted_reasoning_header _ _ k) as [r|]; [|done];
       cbn [mbind result_bind] in E8; apply set_header_inv in E8 as (y & _ & ->); eexists; reflexivity). }
  exists t, s, b, enc. unfold get_header. cbn [em_headers em_body]. rewrite Hh. done.
Qed.

Lemma delivery_message draws cfg m effects m' path :
  delivery draws cfg m = Ok effects -> WriteEml path m' ∈ effects \/ SmtpSend m' ∈ effects -> m' = m.
Proof.
  unfold delivery. destruct (sc_dry_run cfg).
  - intros [= <-]. rewrite !elem_of_cons, !elem_of_nil. naive_solver.
  - destruct (negb (opt_truthy _)); [done|]. intros [= <-].
    destruct (sc_use_starttls cfg && _), (opt_truthy (sc_username cfg)); cbn;
      rewrite !elem_of_cons, !elem_of_nil; naive_solver.
Qed.

Lemma send_email_effects env draws to subject body poi cfg reasoning key effects r :
  send_email_with_proof env draws to subject body poi cfg reasoning key = (effects, r) ->
  effects = [] \/
  exists m all, build_email draws to subject body poi cfg reasoning key = Ok m /\ delivery draws cfg m = Ok all /\
    effects = (perform env all).1.
Proof.
  unfold send_email_with_proof. destruct (build_email _ _ _ _ _ _ _ _) as [m|]; cbn [mbind result_bind];
    [|intros [= <- <-]; by left].
  destruct (delivery draws cfg m) as [all|] eqn:Ed; cbn [mbind result_bind]; [|intros [= <- <-]; by left].
  destruct (perform env all) as [dn x] eqn:Ep. intros [= <- <-]. right. exists m, all. by rewrite Ep.
Qed.

Lemma hash_hex_inv j s : hash_hex j = Ok s -> exists b, rfc8785_dumps j = Ok b /\ s = hex (sha3_256 b).
Proof.
  unfold hash_hex. destruct (hash_payload j) as [h|] eqn:E; [|done]. cbn [mbind result_bind]. intros [= <-].
  apply hash_payload_inv in E as (b & Eb & ->). eauto.
Qed.

Lemma hash_hex_obj d b : rfc8785_dumps (JObj d) = Ok b -> hash_hex (JObj d) = Ok (hex (sha3_256 b)).
Proof. intros E. unfold hash_hex. by rewrite (hash_payload_obj _ _ E). Qed.

(** What holds whenever [execute_action] passes its three guards. *)
Lemma execute_action_cases `{DatabaseOps DB} env draws (self : ActionExecutor DB) ty payload poi :
  (exists e, execute_action env draws self ty payload poi = ([], ae_database_agent self, Raise e)) \/
  (exists detail, execute_action env draws self ty payload poi
     = ([], ae_database_agent self, Ok (refused ty detail))) \/
  (hash_hex (JObj payload) = Ok (poi_action_payload_hash poi) /\ action_type_matches ty poi = true /\
   policy_allows poi = true).
Proof.
  unfold execute_action. destruct (hash_hex (JObj payload)) as [h|e]; [|left; eauto].
  case_bool_decide as Hh; cbn [negb]; [|right; left; eauto].
  destruct (action_type_matches ty poi); cbn [negb]; [|right; left; eauto].
  destruct (policy_allows poi); cbn [negb]; [|right; left; eauto].
  subst h. right. right. done.
Qed.

(** The run of an approved email action. *)
Lemma email_delivered `{DatabaseOps DB} (env : Effect -> result unit) (draws : Draws)
    (self : ActionExecutor DB) (payload : dict) (poi : ProofOfIntent) (t s body key_id sig : string) (b sig_bytes : bytes) :
  hash_hex (JObj payload) = Ok (poi_action_payload_hash poi) ->
  action_type_matches "email" poi = true -> policy_allows poi = true ->
  dict_get "to" payload = Some (JStr t) -> dict_get "subject" payload = Some (JStr s) ->
  dict_get "body" payload = Some (JStr body) -> dict_get "audit_rationale" payload = None ->
  (forall v, v ∈ [t; s; key_id; dr_message_id draws; sc_from_address (ae_smtp_config self)] ->
     length (splitlines_keep v) <= 1)%nat ->
  rfc8785_dumps (JObj (poi_model_dump poi)) = Ok b ->
  poi_agent_signature poi = Some sig -> fromhex sig = Ok sig_bytes ->
  poi_agent_pubkey_id poi = Some key_id -> truthy_str key_id = true ->
  sc_dry_run (ae_smtp_config self) = true -> (forall x, env x = Ok tt) ->
  exists m, execute_action env draws self "email" payload poi
    = ([Mkdir (sc_output_dir (ae_smtp_config self));
        WriteEml (sc_output_dir (ae_smtp_config self) +:+ "/" +:+ dr_uuid draws +:+ ".eml") m],
       ae_database_agent self, Ok (mkExecutorResult true "email" (Some (dr_message_id draws)) JNull)) /\
    get_header m "X-AoR-Proof-of-Intent" = Some (urlsafe_b64encode b) /\
    get_header m "To" = Some t /\ get_header m "Subject" = Some s /\ em_body m = body /\
    get_header m "Message-ID" = Some (dr_message_id draws).
Proof.
  intros Hh Ht Hp Eto Esub Ebody Erat Hlines Eb Esig Ehex Eid Htid Hdry Henv.
  unfold execute_action. rewrite Hh, bool_decide_eq_true_2 by done. rewrite Ht, Hp. cbn [negb].
  rewrite bool_decide_eq_true_2 by done. unfold has_keys. cbn [forallb]. rewrite Eto, Esub, Ebody, Erat.
  cbn [andb negb from_option]. unfold id, send_email_with_proof, build_email.
  pose proof (Hlines t ltac:(by constructor)) as Lt.
  pose proof (Hlines s ltac:(by repeat constructor)) as Ls.
  pose proof (Hlines key_id ltac:(by repeat constructor)) as Lk.
  pose proof (Hlines (dr_message_id draws) ltac:(by repeat constructor)) as Li.
  pose proof (Hlines (sc_from_address (ae_smtp_config self)) ltac:(by repeat constructor)) as Lf.
  unfold encode_poi_header, canonicalize, build_signature_header, build_agent_cert_header.
  rewrite Eb, Esig, Ehex, Eid, Htid. cbn [mbind result_bind].
  repeat (rewrite set_header_str by (assumption || apply urlsafe_b64encode_one_line); cbn [mbind result_bind]).
  cbn [set_content]. unfold delivery. rewrite Hdry. cbn [mbind result_bind].
  rewrite perform_all by (intros; apply Henv). cbn [mbind result_bind]. eexists. split; [reflexivity|]. done.
Qed.

(** The header of a valid proof decodes, folded or not. *)
Lemma decode_dumped_poi `{!PoiModel, !PoiModelLaws} poi b folded :
  poi_constraints poi = true -> rfc8785_dumps (JObj (poi_model_dump poi)) = Ok b ->
  str_join_split folded = urlsafe_b64encode b -> decode_poi_header folded = Ok poi.
Proof.
  intros Hp Hb Hf. unfold decode_poi_header, folded_b64decode. rewrite Hf, urlsafe_b64decode_encode.
  cbn [mbind result_bind]. by apply poi_validate_json_dump.
Qed.

End Lemmas.

(** ** Theorems *)

Section Theorems.
Context `{Hashlib, Rfc8785, Cryptography}.

(** The proof header round trip: a valid proof is recovered from its header, also when a mail
    agent has folded the header with whitespace. *)
Theorem poi_header_roundtrip `{PoiModelLaws} (poi : ProofOfIntent) (header folded : string) :
  poi_constraints poi = true -> encode_poi_header poi = Ok header ->
  str_join_split folded = str_join_split header ->
  decode_poi_header folded = Ok poi.
Proof.
  intros Hp Hh Hf. unfold encode_poi_header, canonicalize in Hh.
  destruct (rfc8785_dumps _) as [b|] eqn:Eb; [|done]. cbn [mbind result_bind] in Hh. injection Hh as <-.
  eapply decode_dumped_poi; [done..|]. by rewrite Hf, urlsafe_b64encode_no_space.
Qed.

(** The encrypted rationale decrypts to the text that was encrypted, under the same key. *)
Theorem cot_roundtrip `{!CryptographyLaws} (nonce key : bytes) (text : string) :
  length key = 32%nat ->
  (d ← encrypt_cot nonce (JStr text) (ObjBytes key); decrypt_cot d (ObjBytes key)) = Ok text.
Proof.
  intros Hk. unfold encrypt_cot, validate_key. rewrite Hk. cbn [Nat.eqb mbind result_bind].
  set (c := aesgcm_encrypt key nonce (utf8_encode text)). unfold decrypt_cot, validate_key. rewrite Hk.
  cbn [Nat.eqb mbind result_bind].
  change (b64_item "nonce" _) with (b64decode true (b64encode nonce)).
  change (b64_item "ciphertext" _) with (b64decode true (b64encode (take (length c - 16) c))).
  change (b64_item "tag" _) with (b64decode true (b64encode (drop (length c - 16) c))).
  rewrite !b64decode_encode. cbn [mbind result_bind]. rewrite take_drop. subst c.
  rewrite aesgcm_roundtrip. cbn [mbind result_bind]. apply utf8_decode_encode.
Qed.

(** C20. The executor is a gate: an effect on the outside world, or a reported success, implies that
    the hash of exactly this payload, the action type and the policy decision match the
    proof. *)
Theorem execute_action_guarded `{DatabaseOps DB} (env : Effect -> result unit) (draws : Draws)
    (self : ActionExecutor DB) (ty : string) (payload : dict) (poi : ProofOfIntent) :
  (execute_action env draws self ty payload poi).1.1 ≠ [] \/
  (exists x, (execute_action env draws self ty payload poi).2 = Ok x /\ ex_success x = true) ->
  hash_hex (JObj payload) = Ok (poi_action_payload_hash poi) /\
  (forall ty', poi_action_type poi = Some ty' -> ty = ty' \/ db_alias ty ty' = true) /\
  (forall d, poi_policy_decision poi = Some d -> d = "allow").
Proof.
  intros Heff.
  destruct (execute_action_cases env draws self ty payload poi) as [[e E]|[[detail E]|(Hh & Ht & Hp)]].
  - rewrite E in Heff. destruct Heff as [?|(x & ? & _)]; done.
  - rewrite E in Heff. destruct Heff as [?|(x & [= <-] & Hx)]; done.
  - split_and!; [done| |].
    + intros ty' E. unfold action_type_matches in Ht. rewrite E in Ht. apply orb_prop in Ht as [Ht|Ht]; [left|by right].
      by apply bool_decide_eq_true in Ht.
    + intros d E. unfold policy_allows in Hp. rewrite E in Hp. by apply bool_decide_eq_true in Hp.
Qed.

(** C29. Every message that leaves, written to the outbox or sent, carries the whole proof in its
    header, recoverable by the receiver, and has the recipient, subject and body of the payload
    whose hash the proof commits. *)
Theorem sent_messages_carry_proof `{DatabaseOps DB, PoiModelLaws} (env : Effect -> result unit) (draws : Draws)
    (self : ActionExecutor DB) (ty : string) (payload : dict) (poi : ProofOfIntent) (path : string) (m : EmailMessage) :
  poi_constraints poi = true ->
  WriteEml path m ∈ (execute_action env draws self ty payload poi).1.1 \/
  SmtpSend m ∈ (execute_action env draws self ty payload poi).1.1 ->
  hash_hex (JObj payload) = Ok (poi_action_payload_hash poi) /\
  (exists header, get_header m "X-AoR-Proof-of-Intent" = Some header /\ decode_poi_header header = Ok poi) /\
  exists t s b, dict_get "to" payload = Some (JStr t) /\ dict_get "subject" payload = Some (JStr s) /\
    dict_get "body" payload = Some (JStr b) /\
    get_header m "To" = Some t /\ get_header m "Subject" = Some s /\ em_body m = b.
Proof.
  intros Hc Hm.
  assert (hash_hex (JObj payload) = Ok (poi_action_payload_hash poi)) as Hh.
  { destruct (execute_action_cases env draws self ty payload poi) as [[e E]|[[detail E]|(Hh & _)]]; [..|done];
      rewrite E in Hm; cbn in Hm; rewrite !elem_of_nil in Hm; tauto. }
  split; [done|]. unfold execute_action in Hm. rewrite Hh, bool_decide_eq_true_2 in Hm by done.
  destruct (action_type_matches ty poi); cbn [negb] in Hm; [|cbn in Hm; rewrite !elem_of_nil in Hm; tauto].
  destruct (policy_allows poi); cbn [negb] in Hm; [|cbn in Hm; rewrite !elem_of_nil in Hm; tauto].
  case_bool_decide.
  2: { case_bool_decide; [destruct (execute_jwt_action _ _ _ _)|]; cbn in Hm; rewrite !elem_of_nil in Hm; tauto. }
  destruct (negb _); [cbn in Hm; rewrite !elem_of_nil in Hm; tauto|].
  destruct (send_email_with_proof _ _ _ _ _ _ _ _ _) as [effects r] eqn:Es. cbn [fst] in Hm.
  apply send_email_effects in Es as [->|(m' & all & Eb & Ed & ->)]; [rewrite !elem_of_nil in Hm; tauto|].
  assert (m = m') as ->.
  { eapply delivery_message; [exact Ed|]. destruct Hm as [Hm|Hm]; apply perform_subset in Hm; eauto. }
  apply build_email_inv in Eb as (t & s & b & enc & Et & Es & Ebd & Ee & Ht & Hs & Hb & Hp).
  split.
  - exists enc. split; [done|]. unfold encode_poi_header, canonicalize in Ee.
    destruct (rfc8785_dumps _) as [x|] eqn:Ex; [|done]. injection Ee as <-.
    eapply decode_dumped_poi; [done..|]. apply urlsafe_b64encode_no_space.
  - exists t, s, b. destruct (dict_get "to" payload), (dict_get "subject" payload), (dict_get "body" payload);
      cbn in *; try done; subst; done.
Qed.

(** A changed payload is refused: against a proof of one payload, another payload with a
    different canonical form is rejected without any effect, unless the two forms collide. *)
Theorem changed_payload_refused `{DatabaseOps DB} (env : Effect -> result unit) (draws : Draws)
    (self : ActionExecutor DB) (ty : string) (committed payload : dict) (poi : ProofOfIntent) (b b' : bytes) :
  rfc8785_dumps (JObj committed) = Ok b -> rfc8785_dumps (JObj payload) = Ok b' ->
  hash_hex (JObj committed) = Ok (poi_action_payload_hash poi) ->
  b ≠ b' -> collision_free [b; b'] ->
  execute_action env draws self ty payload poi
  = ([], ae_database_agent self, Ok (refused ty "action_payload_hash_mismatch")).
Proof.
  intros Eb Eb' Hh Hne Hcf. unfold execute_action. rewrite (hash_hex_obj _ _ Eb').
  rewrite (hash_hex_obj _ _ Eb) in Hh. injection Hh as Hh. rewrite bool_decide_eq_false_2; [done|].
  rewrite <- Hh. intros E. apply (inj hex) in E. apply Hne. symmetry. apply Hcf; [set_solver..|done].
Qed.

(** An approved email action succeeds: with matching proof, well-formed single-line fields and a
    dry-run configuration, the message is written to the outbox and its identifier returned. *)
Theorem approved_email_delivered `{DatabaseOps DB} (env : Effect -> result unit) (draws : Draws)
    (self : ActionExecutor DB) (payload : dict) (poi : ProofOfIntent) (t s body key_id sig : string) (b sig_bytes : bytes) :
  hash_hex (JObj payload) = Ok (poi_action_payload_hash poi) ->
  action_type_matches "email" poi = true -> policy_allows poi = true ->
  dict_get "to" payload = Some (JStr t) -> dict_get "subject" payload = Some (JStr s) ->
  dict_get "body" payload = Some (JStr body) -> dict_get "audit_rationale" payload = None ->
  (forall v, v ∈ [t; s; key_id; dr_message_id draws; sc_from_address (ae_smtp_config self)] ->
     length (splitlines_keep v) <= 1)%nat ->
  rfc8785_dumps (JObj (poi_model_dump poi)) = Ok b ->
  poi_agent_signature poi = Some sig -> fromhex sig = Ok sig_bytes ->
  poi_agent_pubkey_id poi = Some key_id -> truthy_str key_id = true ->
  sc_dry_run (ae_smtp_config self) = true -> (forall x, env x = Ok tt) ->
  exists m, execute_action env draws self "email" payload poi
    = ([Mkdir (sc_output_dir (ae_smtp_config self));
        WriteEml (sc_output_dir (ae_smtp_config self) +:+ "/" +:+ dr_uuid draws +:+ ".eml") m],
       ae_database_agent self, Ok (mkExecutorResult true "email" (Some (dr_message_id draws)) JNull)) /\
    get_header m "X-AoR-Proof-of-Intent" = Some (urlsafe_b64encode b).
Proof.
  intros.
  destruct (email_delivered env draws self payload poi t s body key_id sig b sig_bytes) as (m & E & Hm & _); eauto.
Qed.

End Theorems.

(** ** A model parser: the interface is inhabited *)

Section DemoModel.
#[local] Existing Instance demo_rfc8785.

Definition field_str (k : string) (d : dict) : result string :=
  match dict_get k d with Some (JStr s) => Ok s | _ => validation_error end.

Definition field_opt (k : string) (d : dict) : result (option string) :=
  match dict_get k d with
  | None | Some JNull => Ok None
  | Some (JStr s) => Ok (Some s)
  | _ => validation_error
  end.

Definition demo_poi_parse (j : json) : result ProofOfIntent :=
  match j with
  | JObj d =>
      f1 ← field_str "user_prompt_hash" d; f2 ← field_str "system_prompt_hash" d;
      f3 ← field_str "context_root" d; f4 ← field_str "action_payload_hash" d;
      f5 ← field_str "model_id" d; f6 ← field_str "timestamp" d; f7 ← field_str "nonce" d;
      f8 ← field_opt "agent_type" d; f9 ← field_opt "agent_id" d; f10 ← field_opt "action_type" d;
      f11 ← field_opt "policy_decision" d; f12 ← field_opt "agent_signature" d;
      f13 ← field_opt "agent_pubkey_id" d;
      ProofOfIntent_init (mkProofOfIntent f1 f2 f3 f4 f5 f6 f7 f8 f9 f10 f11 f12 f13)
  | _ => validation_error
  end.

Definition demo_validate_json (b : bytes) : result ProofOfIntent :=
  s ← utf8_decode b; j ← json_loads s; demo_poi_parse j.

Definition demo_poi_model : PoiModel :=
  {| poi_validate_json := demo_validate_json; poi_validate := demo_poi_parse |}.

Lemma field_str_ok k d s : canon <$> dict_get k d = Some (JStr s) -> field_str k d = Ok s.
Proof.
  unfold field_str. destruct (dict_get k d) as [v|]; [|done]. cbn. intros [= E].
  by apply canon_str_inv in E as ->.
Qed.

Lemma field_opt_ok k d o : canon <$> dict_get k d = Some (opt_str o) -> field_opt k d = Ok o.
Proof.
  unfold field_opt. destruct (dict_get k d) as [v|]; [|done]. cbn. intros [= E].
  destruct o; [by apply canon_str_inv in E as ->|by apply canon_null_inv in E as ->].
Qed.

Lemma demo_poi_parse_ok p d :
  poi_constraints p = true ->
  (forall k, canon <$> dict_get k d = canon <$> dict_get k (poi_model_dump p)) ->
  demo_poi_parse (JObj d) = Ok p.
Proof.
  intros Hc Hk.
  assert (forall k s, dict_get k (poi_model_dump p) = Some (JStr s) -> field_str k d = Ok s) as Hs.
  { intros k s E. apply field_str_ok. by rewrite Hk, E. }
  assert (forall k o, dict_get k (poi_model_dump p) = Some (opt_str o) -> field_opt k d = Ok o) as Ho.
  { intros k o E. apply field_opt_ok. rewrite Hk, E. cbn. by rewrite canon_opt_str. }
  unfold demo_poi_parse.
  repeat (erewrite Hs by reflexivity; cbn [mbind result_bind]).
  repeat (erewrite Ho by reflexivity; cbn [mbind result_bind]).
  unfold ProofOfIntent_init. replace (mkProofOfIntent _ _ _ _ _ _ _ _ _ _ _ _ _) with p by by destruct p.
  by rewrite Hc.
Qed.

Lemma poi_model_dump_wf p : json_wf (JObj (poi_model_dump p)).
Proof.
  apply json_wf_obj. split.
  - apply (bool_decide_unpack _). vm_compute. exact I.
  - repeat constructor; apply json_wf_opt_str.
Qed.

Lemma canon_dump_value p k : canon <$> (canon <$> dict_get k (poi_model_dump p)) = canon <$> dict_get k (poi_model_dump p).
Proof.
  destruct (dict_get k (poi_model_dump p)) as [v|] eqn:E; [|done].
  apply dict_get_elem in E; [|apply (poi_model_dump_wf p)].
  assert (canon v = v) as Hv; [|cbn; by rewrite !Hv].
  unfold poi_model_dump in E. rewrite !elem_of_cons, elem_of_nil in E.
  repeat destruct E as [[= -> ->]|E]; [..|done]; auto using canon_opt_str.
Qed.

Lemma demo_poi_parse_sound j p : demo_poi_parse j = Ok p -> poi_constraints p = true.
Proof.
  unfold demo_poi_parse. destruct j; try done. intros E.
  repeat match type of E with mbind _ ?m = _ => destruct m; [|done]; cbn [mbind result_bind] in E end.
  unfold ProofOfIntent_init in E. destruct (poi_constraints _) eqn:Hc; [|done]. by injection E as <-.
Qed.

Lemma demo_validate_json_sound b p : demo_validate_json b = Ok p -> poi_constraints p = true.
Proof.
  unfold demo_validate_json. destruct (utf8_decode b) as [a|]; [|done]. cbn [mbind result_bind].
  destruct (json_loads a); [|done]. apply demo_poi_parse_sound.
Qed.

Lemma demo_parse_canon p d :
  poi_constraints p = true -> canon (JObj (poi_model_dump p)) = JObj d -> demo_poi_parse (JObj d) = Ok p.
Proof.
  intros Hc E. apply demo_poi_parse_ok; [done|]. intros k.
  pose proof (f_equal (fun j => match j with JObj x => x | _ => [] end) E) as Ed. cbv beta iota in Ed. rewrite <- Ed.
  pose proof (poi_model_dump_wf p) as [Hnd _]%json_wf_obj.
  pose proof (dict_get_canon k _ Hnd) as Hk. rewrite <- canon_dump_value, <- Hk. reflexivity.
Qed.

Lemma demo_validate_json_dump p :
  poi_constraints p = true -> demo_validate_json (utf8_encode (json_dumps (canon (JObj (poi_model_dump p))))) = Ok p.
Proof.
  intros Hc. pose proof (canon_wf _ (poi_model_dump_wf p)) as Hwf. unfold demo_validate_json.
  destruct (canon (JObj (poi_model_dump p))) as [| | | | |d] eqn:E; try discriminate E.
  rewrite utf8_decode_encode. cbn [mbind result_bind]. rewrite (json_loads_dumps _ Hwf). cbn [mbind result_bind].
  by apply demo_parse_canon.
Qed.

Lemma demo_poi_model_laws : @PoiModelLaws demo_rfc8785 demo_poi_model.
Proof.
  split.
  - exact demo_validate_json_sound.
  - intros p b Hc [= <-]. exact (demo_validate_json_dump p Hc).
  - intros p d Hc Hwf He. apply demo_poi_parse_ok; [done|]. intros k.
    apply json_equiv_get; [apply Hwf|apply (poi_model_dump_wf p)|done].
Qed.
End DemoModel.

(** ** Witnesses *)

Section Witnesses.
#[local] Existing Instance demo_hashlib.
#[local] Existing Instance demo_rfc8785.
#[local] Existing Instance demo_rfc8785_laws.
#[local] Existing Instance demo_cryptography.
#[local] Existing Instance demo_cryptography_laws.
#[local] Existing Instance demo_poi_model.
#[local] Existing Instance demo_poi_model_laws.

(** A database agent that refuses every query. *)
Definition demo_database : DatabaseOps unit :=
  {| db_plan _ _ _ := validation_error; db_execute db _ _ := (db, validation_error) |}.
#[local] Existing Instance demo_database.

Definition demo_header : string := match encode_poi_header demo_poi with Ok h => h | Raise _ => "" end.

Lemma poi_header_roundtrip_witness : decode_poi_header (" " +:+ demo_header) = Ok demo_poi.
Proof.
  apply (poi_header_roundtrip demo_poi demo_header (" " +:+ demo_header)).
  - vm_compute; reflexivity.
  - vm_compute; reflexivity.
  - vm_compute; reflexivity.
Defined.

Lemma cot_roundtrip_witness :
  (d ← encrypt_cot [x01; x02] (JStr "because") (ObjBytes (int_to_bytes_big 32 9));
   decrypt_cot d (ObjBytes (int_to_bytes_big 32 9))) = Ok "because".
Proof. apply cot_roundtrip. reflexivity. Defined.

Definition demo_executor : ActionExecutor unit := mkActionExecutor default_smtp_config None None.
Definition demo_draws : Draws := mkDraws "<1@aor.local>" "uuid-2" [].
Definition demo_env (x : Effect) : result unit := Ok tt.

Definition demo_run : list Effect * option unit * result ExecutorResult :=
  execute_action demo_env demo_draws demo_executor "email" demo_payload demo_poi.

Definition demo_sent : EmailMessage :=
  match demo_run.1.1 with [_; WriteEml _ m] => m | _ => empty_message end.

Lemma demo_run_effects : demo_run.1.1 = [Mkdir ".aor_outbox"; WriteEml ".aor_outbox/uuid-2.eml" demo_sent].
Proof. vm_compute. reflexivity. Qed.

Lemma execute_action_guarded_witness :
  hash_hex (JObj demo_payload) = Ok (poi_action_payload_hash demo_poi).
Proof.
  apply (execute_action_guarded demo_env demo_draws demo_executor "email" demo_payload demo_poi).
  left. intros E. pose proof demo_run_effects as E'. unfold demo_run in E'. rewrite E in E'. discriminate E'.
Defined.

Lemma sent_messages_carry_proof_witness :
  exists header, get_header demo_sent "X-AoR-Proof-of-Intent" = Some header /\ decode_poi_header header = Ok demo_poi.
Proof.
  apply (sent_messages_carry_proof demo_env demo_draws demo_executor "email" demo_payload demo_poi
           ".aor_outbox/uuid-2.eml" demo_sent).
  - vm_compute; reflexivity.
  - left. pose proof demo_run_effects as E. unfold demo_run in E. rewrite E. right. left.
Defined.

Definition demo_canonical (d : dict) : bytes := match rfc8785_dumps (JObj d) with Ok b => b | Raise _ => [] end.

Definition demo_changed : dict := [("to", JStr "eve@example.com"); ("subject", JStr "hi"); ("body", JStr "update")].

Lemma changed_payload_refused_witness :
  execute_action demo_env demo_draws demo_executor "email" demo_changed demo_poi
  = ([], None, Ok (refused "email" "action_payload_hash_mismatch")).
Proof.
  apply (changed_payload_refused demo_env demo_draws demo_executor "email" demo_payload demo_changed demo_poi
           (demo_canonical demo_payload) (demo_canonical demo_changed)).
  - vm_compute; reflexivity.
  - vm_compute; reflexivity.
  - vm_compute; reflexivity.
  - vm_compute; discriminate.
  - apply (bool_decide_unpack _). vm_compute. exact I.
Defined.

Definition demo_sig : string := default "" (poi_agent_signature demo_poi).
Definition demo_sig_bytes : bytes := match fromhex demo_sig with Ok b => b | Raise _ => [] end.

Lemma approved_email_delivered_witness :
  exists m, execute_action demo_env demo_draws demo_executor "email" demo_payload demo_poi
    = ([Mkdir ".aor_outbox"; WriteEml ".aor_outbox/uuid-2.eml" m], None,
       Ok (mkExecutorResult true "email" (Some "<1@aor.local>") JNull)) /\
    get_header m "X-AoR-Proof-of-Intent" = Some (urlsafe_b64encode (demo_canonical (poi_model_dump demo_poi))).
Proof.
  apply (approved_email_delivered demo_env demo_draws demo_executor demo_payload demo_poi "bob@example.com" "hi"
           "update" demo_agent_id demo_sig (demo_canonical (poi_model_dump demo_poi)) demo_sig_bytes).
  - vm_compute; reflexivity.
  - vm_compute; reflexivity.
  - vm_compute; reflexivity.
  - reflexivity.
  - reflexivity.
  - reflexivity.
  - reflexivity.
  - apply Forall_forall. apply (bool_decide_unpack _). vm_compute. exact I.
  - vm_compute; reflexivity.
  - vm_compute; reflexivity.
  - vm_compute; reflexivity.
  - vm_compute; reflexivity.
  - vm_compute; reflexivity.
  - reflexivity.
  - reflexivity.
Defined.
End Witnesses.
