(* ===== verification/Tsa.v ===== *)
(** * tsa_anchor: timestamping the Merkle root

    Models [models.py], [config.py], [tsa_client.py], [tsa_verify.py] and
    [anchor_scheduler.py].  The packages [rfc3161_client] and [cryptography.x509] are the
    interface [Rfc3161]; the HTTP exchange of each attempt is an argument, and the number of
    exchanges made is part of a request's outcome.

    The theorems: a request is retried exactly once; anchoring an unchanged root again neither
    contacts the authority nor adds a record; over any run of the scheduler the store only
    grows, keeps one anchored record per root, and records the response of the exchange that
    anchored it; and a token is reported verified only if the library verified it. *)

From S2P Require Import Prelude PyStr Json JsonText PyTime Crypto Instances Ledger Merkle.

#[local] Open Scope Z_scope.

(** ** Interface *)

(** The fields of a decoded response. *)
Record TimestampResponse := mkTimestampResponse {
  tr_status : Z;
  tr_status_string : list string;
  tr_gen_time : Z;
  tr_serial_number : Z;
  tr_message : bytes;
  tr_hash_oid : string;
}.

Class Rfc3161 := {
  Certificate : Type;
  load_pem_x509_certificate : bytes -> result Certificate;
  load_der_x509_certificate : bytes -> result Certificate;
  known_hash_algorithm : string -> bool;
  timestamp_request : string -> bytes -> bytes;
  decode_timestamp_response : bytes -> result TimestampResponse;
  verify_message : Certificate -> TimestampResponse -> bytes -> result unit;
}.

(** ** models.py *)

Record TimestampToken := mkTimestampToken {
  tt_response_bytes : bytes;
  tt_gen_time : Z;
  tt_serial_number : Z;
  tt_hashed_message : bytes;
  tt_hash_algorithm_oid : string;
}.

Record TimestampVerificationResult := mkTimestampVerificationResult {
  tv_verified : bool;
  tv_gen_time : option Z;
  tv_detail : string;
  tv_hashed_message : option bytes;
}.

Inductive AnchorStatus := Anchored | Pending | Failed.

#[export] Instance AnchorStatus_eq_dec : EqDecision AnchorStatus.
Proof. solve_decision. Defined.

Record AnchorRecord := mkAnchorRecord {
  an_ledger_root : bytes;
  an_token_bytes : option bytes;
  an_gen_time : option Z;
  an_anchored_at : Z;
  an_status : AnchorStatus;
  an_detail : string;
}.

(** The store of anchors: its records, oldest first. *)
Abbreviation AnchorStore := (list AnchorRecord).

(** ** config.py *)

Record TSAConfig := mkTSAConfig {
  tc_endpoint : string;
  tc_root_ca_url : string;
  tc_root_ca_sha256 : string;
  tc_request_hash_algorithm : string;
  tc_timeout_seconds : Z;
}.

(** A value that is used as text; what is not a text is kept by the source, and outside the
    model. *)
Definition config_text (v : json) : result string := match v with JStr s => Ok s | _ => outside end.

(** [float(value)] of the timeout, for whole numbers. *)
Definition config_seconds (v : json) : result Z :=
  match v with
  | JInt z => Ok z
  | JBool b => Ok (if b then 1 else 0)
  | JStr _ => outside
  | _ => raise TypeError "float() argument must be a string or a real number"
  end.

(** [load_tsa_config]; [text] is what reading the file answers. *)
Definition load_tsa_config (text : result string) : result TSAConfig :=
  text ← text;
  raw ← json_loads text;
  match raw with
  | JObj d =>
      endpoint ← dict_item "endpoint" d; endpoint ← config_text endpoint;
      url ← dict_item "root_ca_url" d; url ← config_text url;
      pin ← dict_item "root_ca_sha256" d;
      pin ← match pin with JStr s => Ok (str_lower s) | _ => raise AttributeError "object has no attribute 'lower'" end;
      algorithm ← config_text (default (JStr "SHA256") (dict_get "request_hash_algorithm" d));
      seconds ← config_seconds (default (JInt 20) (dict_get "timeout_seconds" d));
      Ok (mkTSAConfig endpoint url pin algorithm seconds)
  | _ => raise TypeError "object is not subscriptable with 'str'"
  end.

Section Tsa.
Context `{Hashlib, Rfc3161}.

(** [load_pem_x509_certificate], and on a [ValueError] the DER loader. *)
Definition load_certificate_bytes (b : bytes) : result Certificate :=
  try_except (load_pem_x509_certificate b) [ValueError] (fun _ => load_der_x509_certificate b).

(** [download] is what [httpx.get] answers for the configured URL. *)
Definition fetch_pinned_root_certificate (config : TSAConfig) (download : result bytes) : result Certificate :=
  certificate_bytes ← download;
  let actual := hex (sha256 certificate_bytes) in
  if negb (bool_decide (actual = tc_root_ca_sha256 config))
  then raise ValueError "configured TSA root CA SHA-256 pin does not match download"
  else load_certificate_bytes certificate_bytes.

(** ** tsa_client.py *)

Definition build_request (config : TSAConfig) (data_hash : bytes) : result bytes :=
  if negb (length data_hash =? 32)%nat then raise ValueError "ledger root must be a 32-byte SHA3-256 digest"
  else if negb (known_hash_algorithm (tc_request_hash_algorithm config))
  then raise ValueError "configured RFC 3161 request hash is unsupported"
  else Ok (timestamp_request (tc_request_hash_algorithm config) data_hash).

(** [PKIStatus(status) != PKIStatus.GRANTED]. *)
Definition check_granted (response : TimestampResponse) : result unit :=
  if (0 <=? tr_status response) && (tr_status response <=? 5) then
    raise_if (negb (tr_status response =? 0)) TSARequestError
      ("TSA did not grant the request: " +:+ str_join "; " (tr_status_string response))
  else raise ValueError "is not a valid PKIStatus".

(** The body of the loop, given what the exchange answered. *)
Definition attempt (exchange : result bytes) : result TimestampToken :=
  response_bytes ← exchange;
  response ← decode_timestamp_response response_bytes;
  _ ← check_granted response;
  Ok (mkTimestampToken response_bytes (tr_gen_time response) (tr_serial_number response) (tr_message response)
        (tr_hash_oid response)).

Definition retried : list exn_class := [HTTPError; ValueError; TSARequestError].

(** The loop over the remaining attempts; [post n request] is the [n]-th exchange.  The first
    component counts the exchanges. *)
Fixpoint request_loop (post : nat -> bytes -> result bytes) (request : bytes) (n remaining : nat) (last_error : string)
    : nat * result TimestampToken :=
  match remaining with
  | O => (n, raise TSARequestError ("TSA request failed after one retry: " +:+ last_error))
  | S k =>
      match attempt (post n request) with
      | Ok token => (S n, Ok token)
      | Raise e =>
          if catches retried e then request_loop post request (S n) k (exn_msg e) else (S n, Raise e)
      end
  end.

Definition request_timestamp (config : TSAConfig) (post : nat -> bytes -> result bytes) (data_hash : bytes)
    : nat * result TimestampToken :=
  match build_request config data_hash with
  | Raise e => (O, Raise e)
  | Ok request => request_loop post request 0 2 "None"
  end.

(** ** tsa_verify.py *)

Inductive CertificateSource := CertObject (c : Certificate) | CertBytes (b : bytes) | CertPath (contents : result bytes).

Definition load_certificate (value : CertificateSource) : result Certificate :=
  match value with
  | CertObject c => Ok c
  | CertBytes b => load_certificate_bytes b
  | CertPath contents => b ← contents; load_certificate_bytes b
  end.

Definition verify_timestamp_token (token_bytes expected_hash : bytes) (tsa_root_cert : CertificateSource)
    : result TimestampVerificationResult :=
  if negb (length expected_hash =? 32)%nat
  then Ok (mkTimestampVerificationResult false None "expected ledger root must be 32 bytes" None)
  else
    try_except
      (root_cert ← load_certificate tsa_root_cert;
       response ← decode_timestamp_response token_bytes;
       _ ← verify_message root_cert response expected_hash;
       Ok (mkTimestampVerificationResult true (Some (tr_gen_time response))
             "RFC 3161 signature chain and ledger-root message imprint verified" (Some (tr_message response))))
      [VerificationError; ValueError; TypeError]
      (fun e => Ok (mkTimestampVerificationResult false None ("RFC 3161 verification failed: " +:+ exn_msg e) None)).

(** ** anchor_scheduler.py *)

Definition anchor_add (s : AnchorStore) (r : AnchorRecord) : AnchorStore := s ++ [r].

Definition for_root (s : AnchorStore) (ledger_root : bytes) : list AnchorRecord :=
  filter (fun r => an_ledger_root r = ledger_root) s.

Definition latest_anchored (s : AnchorStore) (ledger_root : bytes) : option AnchorRecord :=
  head (filter (fun r => an_status r = Anchored) (reverse (for_root s ledger_root))).

Definition all_records (s : AnchorStore) : list AnchorRecord := s.

(** The store, the number of exchanges, and the record. *)
Definition anchor_current_root (config : TSAConfig) (post : nat -> bytes -> result bytes) (now : Z)
    (ledger : Ledger) (store : AnchorStore) : AnchorStore * nat * result AnchorRecord :=
  match (tree ← build_merkle_tree (all_entries ledger); root tree) with
  | Raise e =>
      if catches [ValueError] e then
        let r := mkAnchorRecord [] None None now Failed (exn_msg e) in (anchor_add store r, O, Ok r)
      else (store, O, Raise e)
  | Ok root =>
      match latest_anchored store root with
      | Some existing => (store, O, Ok existing)
      | None =>
          let '(n, token) := request_timestamp config post root in
          match token with
          | Ok token =>
              let r := mkAnchorRecord root (Some (tt_response_bytes token)) (Some (tt_gen_time token)) now Anchored EmptyString in
              (anchor_add store r, n, Ok r)
          | Raise e =>
              if catches [TSARequestError] e then
                let r := mkAnchorRecord root None None now Failed (exn_msg e) in (anchor_add store r, n, Ok r)
              else (store, n, Raise e)
          end
      end
  end.

Definition AnchorScheduler_init (interval_seconds : Z) : result Z :=
  if interval_seconds <=? 0 then raise ValueError "interval_seconds must be positive" else Ok interval_seconds.

(** One round of [run_periodically]: the ledger at the time, the exchanges, the clock. *)
Record Round := mkRound { rd_ledger : Ledger; rd_post : nat -> bytes -> result bytes; rd_now : Z }.

(** The loop, over the rounds before the stop event; an exception ends the task. *)
Fixpoint run_periodically (config : TSAConfig) (store : AnchorStore) (rounds : list Round) : AnchorStore * result unit :=
  match rounds with
  | [] => (store, Ok tt)
  | r :: rest =>
      let '(store, _, res) := anchor_current_root config (rd_post r) (rd_now r) (rd_ledger r) store in
      match res with Ok _ => run_periodically config store rest | Raise e => (store, Raise e) end
  end.

(** ** Specification *)

(** At most one anchored record per root, and each anchored record holds the response that a
    request over its root was granted. *)
Definition store_ok (s : AnchorStore) : Prop :=
  (forall root, (length (filter (fun r => an_status r = Anchored) (for_root s root)) <= 1)%nat) /\
  Forall (fun r => an_status r = Anchored ->
    length (an_ledger_root r) = 32%nat /\
    exists b t, an_token_bytes r = Some b /\ attempt (Ok b) = Ok t /\ an_gen_time r = Some (tt_gen_time t)) s.

(** ** Lemmas *)

Lemma filter_reverse {A} (P : A -> Prop) `{!forall x, Decision (P x)} (l : list A) :
  filter P (reverse l) = reverse (filter P l).
Proof.
  induction l as [|x l IH]; [done|]. rewrite reverse_cons, filter_app, IH.
  destruct (decide (P x)).
  - rewrite filter_cons_True by done. rewrite (filter_cons_True P x l) by done. by rewrite reverse_cons.
  - rewrite filter_cons_False by done. rewrite (filter_cons_False P x l) by done. by rewrite filter_nil, app_nil_r.
Qed.

Lemma latest_anchored_some s root r :
  latest_anchored s root = Some r -> r ∈ s /\ an_ledger_root r = root /\ an_status r = Anchored.
Proof.
  unfold latest_anchored. intros Hh%head_Some_elem_of. apply list_elem_of_filter in Hh as [Hs Hin].
  rewrite elem_of_reverse in Hin. unfold for_root in Hin. by apply list_elem_of_filter in Hin as [? ?].
Qed.

Lemma latest_anchored_none s root :
  latest_anchored s root = None -> filter (fun r => an_status r = Anchored) (for_root s root) = [].
Proof.
  unfold latest_anchored. rewrite filter_reverse. intros E%head_None.
  apply (f_equal reverse) in E. by rewrite reverse_involutive in E.
Qed.

Lemma latest_anchored_add s r :
  an_status r = Anchored -> latest_anchored (anchor_add s r) (an_ledger_root r) = Some r.
Proof.
  intros Hr. unfold latest_anchored, for_root, anchor_add. rewrite filter_app, filter_cons_True by done.
  rewrite filter_nil, reverse_app. cbn [reverse rev_append app]. by rewrite filter_cons_True.
Qed.

Lemma attempt_inv exchange t :
  attempt exchange = Ok t -> exchange = Ok (tt_response_bytes t) /\ attempt (Ok (tt_response_bytes t)) = Ok t.
Proof.
  unfold attempt. intros E. destruct exchange as [b|]; [|done]. cbn [mbind result_bind] in *.
  destruct (decode_timestamp_response b) as [r|] eqn:Ed; [|done]. cbn [mbind result_bind] in E.
  destruct (check_granted r) eqn:Ec; [|done]. cbn [mbind result_bind] in E. injection E as <-.
  cbn [tt_response_bytes]. rewrite Ed. cbn [mbind result_bind]. by rewrite Ec.
Qed.

Lemma request_loop_token post request n remaining err t k :
  request_loop post request n remaining err = (k, Ok t) -> attempt (Ok (tt_response_bytes t)) = Ok t.
Proof.
  revert n err. induction remaining as [|m IH]; intros n err; cbn [request_loop]; [done|].
  destruct (attempt (post n request)) as [t'|e] eqn:Ea.
  - intros [= <- <-]. by apply attempt_inv in Ea as [_ ?].
  - destruct (catches retried e); [apply IH|done].
Qed.

Lemma request_timestamp_token config post root k t :
  request_timestamp config post root = (k, Ok t) ->
  length root = 32%nat /\ attempt (Ok (tt_response_bytes t)) = Ok t.
Proof.
  unfold request_timestamp, build_request. destruct (Nat.eqb_spec (length root) 32); [|done]. cbn [negb].
  destruct (known_hash_algorithm _); [|done]. cbn [negb]. intros E%request_loop_token. done.
Qed.

Lemma store_ok_add s r :
  store_ok s ->
  (an_status r = Anchored ->
     filter (fun r => an_status r = Anchored) (for_root s (an_ledger_root r)) = [] /\
     length (an_ledger_root r) = 32%nat /\
     exists b t, an_token_bytes r = Some b /\ attempt (Ok b) = Ok t /\ an_gen_time r = Some (tt_gen_time t)) ->
  store_ok (anchor_add s r).
Proof.
  intros [H1 H2] Hr. split.
  - intros root. unfold for_root, anchor_add in *. rewrite !filter_app, length_app.
    destruct (decide (an_ledger_root r = root)) as [E|E].
    + rewrite (filter_cons_True _ r []) by done. destruct (decide (an_status r = Anchored)) as [Ha|Ha].
      * rewrite filter_cons_True by done. destruct (Hr Ha) as (Hnil & _). rewrite E in Hnil. by rewrite Hnil.
      * rewrite filter_cons_False by done. rewrite filter_nil. specialize (H1 root). cbn. lia.
    + rewrite (filter_cons_False _ r []) by done. rewrite !filter_nil. specialize (H1 root). cbn. lia.
  - apply Forall_app. split; [done|]. constructor; [|constructor]. intros Ha. by destruct (Hr Ha) as (_ & ? & ?).
Qed.

(** One call keeps the store well-formed and only appends. *)
Lemma anchor_current_root_ok config post now ledger s s' n r :
  store_ok s -> anchor_current_root config post now ledger s = (s', n, r) ->
  store_ok s' /\ s `prefix_of` s'.
Proof.
  intros Hs. unfold anchor_current_root.
  destruct (build_merkle_tree _ ≫= _) as [rt|e].
  2: { destruct (catches _ e); intros [= <- <- <-]; [|done]. split; [|by eexists]. apply store_ok_add; [done|].
       intros Ha. by cbn in Ha. }
  destruct (latest_anchored s rt) eqn:El; [intros [= <- <- <-]; done|].
  destruct (request_timestamp config post rt) as [k t] eqn:Et. destruct t as [t|e].
  - intros [= <- <- <-]. split; [|by eexists]. apply store_ok_add; [done|]. intros _. cbn [an_ledger_root an_token_bytes an_gen_time].
    apply request_timestamp_token in Et as [Hl Ha]. split_and!; [by apply latest_anchored_none|done|]. eauto.
  - destruct (catches _ e); intros [= <- <- <-]; [|done]. split; [|by eexists]. apply store_ok_add; [done|].
    intros Ha. by cbn in Ha.
Qed.

Lemma store_ok_nil : store_ok [].
Proof. split; [|constructor]. intros root. cbn. lia. Qed.

End Tsa.

(** ** Theorems *)

Section Theorems.
Context `{Hashlib, Rfc3161}.

(** A timestamp request over a 32-byte root makes one exchange, or two when the first fails
    with a retryable error: the outcome is the first success, and two retryable failures are
    one [TSARequestError]. *)
Theorem request_timestamp_retries_once (config : TSAConfig) (post : nat -> bytes -> result bytes) (root request : bytes) :
  build_request config root = Ok request ->
  ((request_timestamp config post root).1 <= 2)%nat /\
  request_timestamp config post root =
    match attempt (post 0%nat request) with
    | Ok t => (1%nat, Ok t)
    | Raise e =>
        if catches retried e then
          match attempt (post 1%nat request) with
          | Ok t => (2%nat, Ok t)
          | Raise e' =>
              (2%nat, if catches retried e'
                      then raise TSARequestError ("TSA request failed after one retry: " +:+ exn_msg e') else Raise e')
          end
        else (1%nat, Raise e)
    end.
Proof.
  intros E. unfold request_timestamp. rewrite E. cbn [request_loop].
  destruct (attempt (post 0%nat request)) as [t|e]; [split; [cbn; lia|done]|].
  destruct (catches retried e); [|split; [cbn; lia|done]].
  destruct (attempt (post 1%nat request)) as [t|e']; [split; [cbn; lia|done]|].
  destruct (catches retried e'); split; (cbn; lia) || done.
Qed.

(** Anchoring is idempotent: once a ledger's root has been anchored, anchoring the unchanged
    ledger again, at any time and through any authority, makes no exchange, adds nothing to the
    store and answers the same record. *)
Theorem anchor_idempotent (config config' : TSAConfig) (post post' : nat -> bytes -> result bytes) (now now' : Z)
    (ledger : Ledger) (s s' : AnchorStore) (n : nat) (r : AnchorRecord) :
  anchor_current_root config post now ledger s = (s', n, Ok r) -> an_status r = Anchored ->
  anchor_current_root config' post' now' ledger s' = (s', O, Ok r).
Proof.
  unfold anchor_current_root. intros E Ha. destruct (build_merkle_tree _ ≫= _) as [rt|e].
  2: { destruct (catches _ e); [|done]. injection E as _ _ <-. by cbn in Ha. }
  destruct (latest_anchored s rt) as [ex|] eqn:El.
  - injection E as <- <- <-. by rewrite El.
  - destruct (request_timestamp config post rt) as [k [t|e]].
    + injection E as <- <- <-. pose proof (latest_anchored_add s _ Ha) as Hl. cbn [an_ledger_root] in Hl. by rewrite Hl.
    + destruct (catches _ e); [|done]. injection E as _ _ <-. by cbn in Ha.
Qed.

(** Over any rounds of the scheduler the store only grows, holds at most one anchored record per
    root, and every anchored record carries a response granted for a 32-byte root together with
    that response's time. *)
Theorem anchor_store_invariant (config : TSAConfig) (s : AnchorStore) (rounds : list Round) :
  store_ok s ->
  s `prefix_of` (run_periodically config s rounds).1 /\ store_ok (run_periodically config s rounds).1.
Proof.
  revert s. induction rounds as [|rd rounds IH]; intros s Hs; [done|]. cbn [run_periodically].
  destruct (anchor_current_root _ _ _ _ s) as [[s1 n] r] eqn:E.
  apply anchor_current_root_ok in E as [Hs1 Hp]; [|done]. destruct r; [|done].
  destruct (IH s1 Hs1) as [Hp' Hs']. split; [by etransitivity|done].
Qed.

(** A failed authority is recorded, not hidden: on a ledger whose root is not anchored yet, a
    request that fails after its retry adds one failed record of that root, and an empty ledger
    one failed record without a root and without any exchange. *)
Theorem anchor_failure_recorded (config : TSAConfig) (post : nat -> bytes -> result bytes) (now : Z)
    (ledger : Ledger) (s : AnchorStore) (t : MerkleTree) (rt : bytes) (n : nat) (msg : string) :
  build_merkle_tree ledger = Ok t -> root t = Ok rt -> latest_anchored s rt = None ->
  request_timestamp config post rt = (n, raise TSARequestError msg) ->
  anchor_current_root config post now ledger s
    = (s ++ [mkAnchorRecord rt None None now Failed msg], n, Ok (mkAnchorRecord rt None None now Failed msg)) /\
  (anchor_current_root config post now [] s).1.2 = O /\
  exists d, (anchor_current_root config post now [] s).1.1 = s ++ [mkAnchorRecord [] None None now Failed d].
Proof.
  intros Et Er El Eq. split_and!.
  - unfold anchor_current_root, all_entries. rewrite Et. cbn [mbind result_bind]. by rewrite Er, El, Eq.
  - done.
  - by eexists.
Qed.

(** A verified token, and what is reported of it. *)
Lemma timestamp_verified_iff (token expected : bytes) (cert : CertificateSource) (v : TimestampVerificationResult) :
  verify_timestamp_token token expected cert = Ok v ->
  (tv_verified v = true <->
   exists c r, length expected = 32%nat /\ load_certificate cert = Ok c /\ decode_timestamp_response token = Ok r /\
     verify_message c r expected = Ok tt) /\
  (tv_verified v = true -> exists r, decode_timestamp_response token = Ok r /\
     tv_gen_time v = Some (tr_gen_time r) /\ tv_hashed_message v = Some (tr_message r)).
Proof.
  unfold verify_timestamp_token. destruct (Nat.eqb_spec (length expected) 32) as [Hl|Hl]; cbn [negb].
  2: { intros [= <-]. split; [split; [done|by intros (? & ? & ? & _)]|done]. }
  destruct (load_certificate cert) as [c|e]; cbn [mbind result_bind].
  2: { unfold try_except. destruct (catches _ e); [|done]. intros [= <-].
       split; [split; [done|by intros (? & ? & _ & ? & _)]|done]. }
  destruct (decode_timestamp_response token) as [r|e]; cbn [mbind result_bind].
  2: { unfold try_except. destruct (catches _ e); [|done]. intros [= <-].
       split; [split; [done|by intros (? & ? & _ & _ & ? & _)]|done]. }
  destruct (verify_message c r expected) as [[]|e] eqn:Ev; cbn [mbind result_bind].
  2: { unfold try_except. destruct (catches _ e); [|done]. intros [= <-].
       split; [split; [done|intros (c' & r' & _ & [= <-] & [= <-] & ?); congruence]|done]. }
  intros [= <-]. cbn. split; [split; [eauto 10|done]|eauto].
Qed.

(** C36. A token is reported verified exactly when the expected root has 32 bytes, the root
    certificate loads, the token decodes and the library accepts it for that root; the result
    then reports the token's own time and imprint. *)
Theorem timestamp_verification_sound (token expected : bytes) (cert : CertificateSource) (v : TimestampVerificationResult) :
  verify_timestamp_token token expected cert = Ok v ->
  (tv_verified v = true <->
   exists c r, length expected = 32%nat /\ load_certificate cert = Ok c /\ decode_timestamp_response token = Ok r /\
     verify_message c r expected = Ok tt) /\
  (tv_verified v = true -> exists r, decode_timestamp_response token = Ok r /\
     tv_gen_time v = Some (tr_gen_time r) /\ tv_hashed_message v = Some (tr_message r)).
Proof. apply timestamp_verified_iff. Qed.

(** The downloaded root certificate is used only if its digest is the pinned one. *)
Theorem pinned_root_only (config : TSAConfig) (download : result bytes) (c : Certificate) :
  fetch_pinned_root_certificate config download = Ok c ->
  exists b, download = Ok b /\ hex (sha256 b) = tc_root_ca_sha256 config /\ load_certificate_bytes b = Ok c.
Proof.
  unfold fetch_pinned_root_certificate. destruct download as [b|]; [|done]. cbn [mbind result_bind].
  case_bool_decide as Hp; [|done]. cbn [negb]. eauto.
Qed.

(** The configuration in the file decides which root is trusted: what is loaded from a dumped
    dictionary has its endpoint, its pin in lower case and the defaults for what it leaves out,
    and a downloaded root is then used only if its digest in hexadecimal is that pin, whatever
    the case it was written in. *)
Theorem configured_pin (endpoint url pin : string) (extra : dict) (download : result bytes) (c : Certificate) :
  let d := [("endpoint", JStr endpoint); ("root_ca_url", JStr url); ("root_ca_sha256", JStr pin)] in
  load_tsa_config (Ok (json_dumps (JObj d))) = Ok (mkTSAConfig endpoint url (str_lower pin) "SHA256" 20) /\
  (forall config, load_tsa_config (Ok (json_dumps (JObj (d ++ extra)))) = Ok config -> json_wf (JObj (d ++ extra)) ->
     tc_root_ca_sha256 config = str_lower pin /\
     (fetch_pinned_root_certificate config download = Ok c ->
      exists b, download = Ok b /\ hex (sha256 b) = str_lower pin /\ load_certificate_bytes b = Ok c)).
Proof.
  intros d. split.
  - unfold load_tsa_config. cbn [mbind result_bind]. rewrite json_loads_dumps; [done|].
    apply json_wf_obj. split; [|by repeat constructor]. apply (bool_decide_eq_true_1 (NoDup ["endpoint"; "root_ca_url"; "root_ca_sha256"])). done.
  - intros config E Hw. unfold load_tsa_config in E. cbn [mbind result_bind] in E. rewrite (json_loads_dumps _ Hw) in E. cbn in E.
    destruct (config_text _) as [alg|]; cbn [mbind result_bind] in E; [|done].
    destruct (config_seconds _) as [sec|]; cbn [mbind result_bind] in E; [|done]. injection E as <-. split; [done|].
    unfold fetch_pinned_root_certificate. destruct download as [b|]; [|done]. cbn [mbind result_bind].
    case_bool_decide as Hp; [|done]. cbn [negb]. eauto.
Qed.

End Theorems.

(** ** Witnesses *)

Section Witnesses.
#[local] Existing Instance demo_hashlib.

(** A library whose responses are their own first byte: status, then the message. *)
Definition demo_rfc3161 : Rfc3161 :=
  {| Certificate := bytes;
     load_pem_x509_certificate b := if bool_decide (b = [x01]) then Ok b else raise ValueError "no PEM";
     load_der_x509_certificate b := if bool_decide (b = [x02]) then Ok b else raise ValueError "no DER";
     known_hash_algorithm a := bool_decide (a = "SHA256");
     timestamp_request _ b := b;
     decode_timestamp_response b :=
       match b with
       | s :: m => Ok (mkTimestampResponse (byte_to_Z s) [] 77 1 m "2.16")
       | [] => raise ValueError "empty"
       end;
     verify_message c r b := if bool_decide (tr_message r = b) then Ok tt else raise VerificationError "mismatch" |}.
#[local] Existing Instance demo_rfc3161.

Definition demo_config : TSAConfig := mkTSAConfig "https://tsa.example" "" (hex (sha256 [x01])) "SHA256" 20.

(** An authority that fails at first and then grants. *)
Definition demo_post (n : nat) (request : bytes) : result bytes :=
  match n with O => raise HTTPError "503" | _ => Ok (x00 :: request) end.

Definition demo_down (n : nat) (request : bytes) : result bytes := raise HTTPError "503".

Definition demo_anchor_root : bytes :=
  match build_merkle_tree demo_ledger with Ok t => match root t with Ok r => r | Raise _ => [] end | Raise _ => [] end.

Definition demo_anchor : AnchorRecord :=
  mkAnchorRecord demo_anchor_root (Some (x00 :: demo_anchor_root)) (Some 77) 5 Anchored "".

Lemma request_timestamp_retries_once_witness :
  request_timestamp demo_config demo_post demo_anchor_root
  = (2%nat, Ok (mkTimestampToken (x00 :: demo_anchor_root) 77 1 demo_anchor_root "2.16")).
Proof.
  destruct (request_timestamp_retries_once demo_config demo_post demo_anchor_root demo_anchor_root) as [_ E].
  - vm_compute; reflexivity.
  - rewrite E. vm_compute; reflexivity.
Defined.

Lemma anchor_idempotent_witness :
  anchor_current_root demo_config demo_down 9 demo_ledger [demo_anchor] = ([demo_anchor], O, Ok demo_anchor).
Proof.
  apply (anchor_idempotent demo_config demo_config demo_post demo_down 5 9 demo_ledger [] [demo_anchor] 2 demo_anchor).
  - vm_compute; reflexivity.
  - reflexivity.
Defined.

Definition demo_rounds : list Round :=
  [mkRound [] demo_post 4; mkRound demo_ledger demo_post 5; mkRound demo_ledger demo_down 9].

Lemma anchor_store_invariant_witness :
  length (run_periodically demo_config [] demo_rounds).1 = 2%nat /\
  store_ok (run_periodically demo_config [] demo_rounds).1.
Proof. split; [vm_compute; reflexivity|]. apply anchor_store_invariant, store_ok_nil. Defined.

Definition demo_anchor_tree : MerkleTree :=
  match build_merkle_tree demo_ledger with Ok t => t | Raise _ => mkMerkleTree [] ∅ end.

Lemma anchor_failure_recorded_witness :
  (anchor_current_root demo_config demo_down 5 demo_ledger []).1.1
  = [mkAnchorRecord demo_anchor_root None None 5 Failed "TSA request failed after one retry: 503"].
Proof.
  destruct (anchor_failure_recorded demo_config demo_down 5 demo_ledger [] demo_anchor_tree demo_anchor_root 2
    "TSA request failed after one retry: 503") as [E _].
  - vm_compute; reflexivity.
  - vm_compute; reflexivity.
  - reflexivity.
  - vm_compute; reflexivity.
  - rewrite E. reflexivity.
Defined.

Definition demo_root32 : bytes := int_to_bytes_big 32 3.

Lemma timestamp_verification_sound_witness :
  exists v, verify_timestamp_token (x00 :: demo_root32) demo_root32 (CertBytes [x02]) = Ok v /\
    (tv_verified v = true -> exists r, decode_timestamp_response (x00 :: demo_root32) = Ok r /\
       tv_gen_time v = Some (tr_gen_time r) /\ tv_hashed_message v = Some (tr_message r)).
Proof.
  eexists. split; [vm_compute; reflexivity|].
  apply (timestamp_verification_sound (x00 :: demo_root32) demo_root32 (CertBytes [x02])).
  vm_compute; reflexivity.
Defined.

Definition demo_certificate : Certificate := [x01] : bytes.

Lemma pinned_root_only_witness :
  exists b, Ok [x01] = Ok b /\ hex (sha256 b) = tc_root_ca_sha256 demo_config /\
    load_certificate_bytes b = Ok demo_certificate.
Proof. apply (pinned_root_only demo_config (Ok [x01]) demo_certificate). vm_compute; reflexivity. Defined.
End Witnesses.
