(* ===== verification/Evidence.v ===== *)
(** * verification_portal/backend/evidence_store.py: captured evidence

    The in-memory store with its optional persistence, and the JSON form of a record.  Evidence
    refers to its ledger by location, so later appends to (or mutations of) the ledger a
    session shares are seen through it; loading a persisted record allocates a new ledger.  The
    persistence and the parser of the envelope model are interfaces.

    The theorems: the stored text reads back to the same evidence with the ledger cut to the
    entries present at the action; a record is found again, from memory or after a restart from
    the persistence, and the store never alters a ledger. *)

From S2P Require Import Prelude PyStr Base64 Json JsonText PyTime Crypto Instances Ledger Merkle Sql Verifier.
From S2P Require Import Registry Poi AgentBase Executor.

#[local] Open Scope Z_scope.

(** [l[:n]]. *)
Definition slice_to {A} (n : Z) (l : list A) : list A :=
  if 0 <=? n then take (Z.to_nat n) l else take (Z.to_nat (Z.of_nat (length l) + n)) l.

(** ** Interfaces *)

(** [SignedEnvelope.model_validate], and what pydantic promises of a dumped model. *)
Class EnvelopeModel := { envelope_validate : json -> result SignedEnvelope }.

Definition envelope_dump (e : SignedEnvelope) : dict :=
  signing_payload e ++
  [("signature", JStr (se_signature e)); ("pubkey_id", JStr (se_pubkey_id e));
   ("signature_algorithm", JStr (se_signature_algorithm e))].

Definition envelope_constraints (e : SignedEnvelope) : bool :=
  truthy_str (se_prompt e) && truthy_str (se_user_id e) && truthy_str (se_session_id e)
  && truthy_str (se_timestamp e) && truthy_str (se_nonce e) && truthy_str (se_signature e)
  && truthy_str (se_pubkey_id e).

Class EnvelopeModelLaws `{EnvelopeModel} := {
  envelope_validate_dump e :
    envelope_constraints e = true -> envelope_validate (JObj (envelope_dump e)) = Ok e;
  envelope_validate_sound j e : envelope_validate j = Ok e -> envelope_constraints e = true;
}.

(** The [EvidencePersistence] protocol. *)
Class EvidencePersistence (P : Type) := {
  save_action_evidence : P -> string -> string -> result P;
  get_action_evidence : P -> string -> result (option string);
}.

(** A saved payload is read back, and saving touches no other action. *)
Class EvidencePersistenceLaws (P : Type) `{EvidencePersistence P} := {
  get_after_save p id s p' : save_action_evidence p id s = Ok p' -> get_action_evidence p' id = Ok (Some s);
  get_after_save_other p id id' s p' :
    id ≠ id' -> save_action_evidence p id s = Ok p' -> get_action_evidence p' id' = get_action_evidence p id';
}.

(** ** The records and the store *)

Record ActionEvidence := mkActionEvidence {
  ev_action_id : string;
  ev_user_envelope : SignedEnvelope;
  ev_system_prompt : string;
  ev_ledger : nat;
  ev_ledger_entry_count : Z;
  ev_eml_bytes : option bytes;
  ev_poi : option ProofOfIntent;
  ev_action_type : option string;
  ev_action_payload : option dict;
  ev_observed_effect : option dict;
  ev_timestamp_token : option bytes;
}.

(** The store and the ledgers its records share with their sessions. *)
Record EvidenceState (P : Type) := mkEvidenceState {
  es_evidence : list (string * ActionEvidence);
  es_persistence : option P;
  es_ledgers : gmap nat Ledger;
}.
Arguments mkEvidenceState {P}.
Arguments es_evidence {P}.
Arguments es_persistence {P}.
Arguments es_ledgers {P}.

Definition ledger_at (ledgers : gmap nat Ledger) (loc : nat) : Ledger := default [] (ledgers !! loc).

Section Store.
Context `{EnvelopeModel, PoiModel} {P : Type} `{!EvidencePersistence P}.

Definition ActionEvidenceStore_init (persistence : option P) (ledgers : gmap nat Ledger) : EvidenceState P :=
  mkEvidenceState [] persistence ledgers.

Definition entry_json (e : LedgerEntry) : json :=
  JObj [("entry_id", JInt (entry_id e)); ("entry_type", JStr (entry_type e)); ("content", content e);
        ("timestamp", JStr (timestamp e)); ("prev_hash", JStr (hex (prev_hash e)));
        ("leaf_hash", JStr (hex (leaf_hash e)))].

Definition opt_b64 (o : option bytes) : json := match o with Some b => JStr (b64encode b) | None => JNull end.
Definition opt_obj (o : option dict) : json := match o with Some d => JObj d | None => JNull end.

(** The dictionary that is dumped, for the ledger [l] of the evidence. *)
Definition evidence_payload (l : Ledger) (ev : ActionEvidence) : dict :=
  let entries := slice_to (ev_ledger_entry_count ev) (all_entries l) in
  [("user_envelope", JObj (envelope_dump (ev_user_envelope ev)));
   ("system_prompt", JStr (ev_system_prompt ev));
   ("ledger_entry_count_at_action", JInt (ev_ledger_entry_count ev));
   ("ledger_entries", JList (map entry_json entries));
   ("eml_bytes", opt_b64 (ev_eml_bytes ev));
   ("poi", match ev_poi ev with Some p => JObj (poi_model_dump p) | None => JNull end);
   ("action_type", opt_str (ev_action_type ev));
   ("action_payload", opt_obj (ev_action_payload ev));
   ("observed_effect", opt_obj (ev_observed_effect ev));
   ("timestamp_token", opt_b64 (ev_timestamp_token ev))].

Definition serialize (l : Ledger) (ev : ActionEvidence) : string := json_dumps (JObj (evidence_payload l ev)).

(** ** Reading back.  The dataclasses check no types; a value of another type than the one
    written would be kept as it is, and is outside the model. *)

Definition item_str (k : string) (d : dict) : result string :=
  v ← dict_item k d; match v with JStr s => Ok s | _ => outside end.
Definition item_int (k : string) (d : dict) : result Z :=
  v ← dict_item k d; match v with JInt z => Ok z | _ => outside end.
Definition item_list (k : string) (d : dict) : result (list json) :=
  v ← dict_item k d; match v with JList l => Ok l | _ => outside end.

(** [bytes.fromhex(d[k])]. *)
Definition item_hex (k : string) (d : dict) : result bytes := s ← item_str k d; fromhex s.

(** [b64decode(d[k]) if d[k] is not None else None]. *)
Definition item_opt_b64 (k : string) (d : dict) : result (option bytes) :=
  v ← dict_item k d;
  match v with JNull => Ok None | JStr s => b ← b64decode false s; Ok (Some b) | _ => outside end.

(** [d.get(k)]. *)
Definition get_opt_str (k : string) (d : dict) : result (option string) :=
  match dict_get k d with None | Some JNull => Ok None | Some (JStr s) => Ok (Some s) | _ => outside end.
Definition get_opt_obj (k : string) (d : dict) : result (option dict) :=
  match dict_get k d with None | Some JNull => Ok None | Some (JObj o) => Ok (Some o) | _ => outside end.

Definition entry_of_json (j : json) : result LedgerEntry :=
  match j with
  | JObj d =>
      id ← item_int "entry_id" d; ty ← item_str "entry_type" d; c ← dict_item "content" d;
      ts ← item_str "timestamp" d; ph ← item_hex "prev_hash" d; lh ← item_hex "leaf_hash" d;
      Ok (mkLedgerEntry id ty c ts ph lh)
  | _ => outside
  end.

(** [ProofOfIntent.model_validate(d["poi"]) if d.get("poi") is not None else None]. *)
Definition get_opt_poi (d : dict) : result (option ProofOfIntent) :=
  match dict_get "poi" d with None | Some JNull => Ok None | Some j => p ← poi_validate j; Ok (Some p) end.

(** The evidence, at location [loc], and the ledger to put there. *)
Definition deserialize (loc : nat) (action_id serialized : string) : result (ActionEvidence * Ledger) :=
  payload ← json_loads serialized;
  match payload with
  | JObj d =>
      items ← item_list "ledger_entries" d;
      entries ← mapM_result entry_of_json items;
      user_envelope ← dict_item "user_envelope" d;
      envelope ← envelope_validate user_envelope;
      system_prompt ← item_str "system_prompt" d;
      count ← item_int "ledger_entry_count_at_action" d;
      eml ← item_opt_b64 "eml_bytes" d;
      poi ← get_opt_poi d;
      action_type ← get_opt_str "action_type" d;
      action_payload ← get_opt_obj "action_payload" d;
      observed_effect ← get_opt_obj "observed_effect" d;
      token ← item_opt_b64 "timestamp_token" d;
      Ok (mkActionEvidence action_id envelope system_prompt loc count eml poi action_type action_payload
            observed_effect token, from_entries entries)
  | _ => raise TypeError "indices must be integers"
  end.

(** The record is in memory also when the persistence fails. *)
Definition evidence_register (s : EvidenceState P) (ev : ActionEvidence) : EvidenceState P * result unit :=
  let evidence := dict_set (ev_action_id ev) ev (es_evidence s) in
  match es_persistence s with
  | None => (mkEvidenceState evidence None (es_ledgers s), Ok tt)
  | Some p =>
      match save_action_evidence p (ev_action_id ev) (serialize (ledger_at (es_ledgers s) (ev_ledger ev)) ev) with
      | Ok p => (mkEvidenceState evidence (Some p) (es_ledgers s), Ok tt)
      | Raise e => (mkEvidenceState evidence (Some p) (es_ledgers s), Raise e)
      end
  end.

(** A location no ledger is at. *)
Definition fresh_loc (s : EvidenceState P) : nat := fresh (dom (es_ledgers s) : gset nat).

Definition evidence_get (s : EvidenceState P) (action_id : string)
    : EvidenceState P * result (option ActionEvidence) :=
  match dict_get action_id (es_evidence s), es_persistence s with
  | Some ev, _ => (s, Ok (Some ev))
  | None, None => (s, Ok None)
  | None, Some p =>
      match get_action_evidence p action_id with
      | Raise e => (s, Raise e)
      | Ok None => (s, Ok None)
      | Ok (Some payload) =>
          match deserialize (fresh_loc s) action_id payload with
          | Raise e => (s, Raise e)
          | Ok (ev, l) =>
              (mkEvidenceState (dict_set action_id ev (es_evidence s)) (es_persistence s)
                 (<[fresh_loc s := l]> (es_ledgers s)), Ok (Some ev))
          end
      end
  end.

Definition evidence_all (s : EvidenceState P) : list ActionEvidence := (es_evidence s).*2.

(** ** Specification *)

(** What a record must satisfy for its JSON to be well-formed: models that satisfy their
    constraints, and dictionaries with distinct keys. *)
Definition evidence_wf (l : Ledger) (ev : ActionEvidence) : Prop :=
  envelope_constraints (ev_user_envelope ev) = true /\
  (forall p, ev_poi ev = Some p -> poi_constraints p = true) /\
  (forall d, ev_action_payload ev = Some d -> json_wf (JObj d)) /\
  (forall d, ev_observed_effect ev = Some d -> json_wf (JObj d)) /\
  Forall (fun e => json_wf (content e)) l.

(** The record as it is read back: at another location. *)
Definition relocated (loc : nat) (ev : ActionEvidence) : ActionEvidence :=
  mkActionEvidence (ev_action_id ev) (ev_user_envelope ev) (ev_system_prompt ev) loc (ev_ledger_entry_count ev)
    (ev_eml_bytes ev) (ev_poi ev) (ev_action_type ev) (ev_action_payload ev) (ev_observed_effect ev)
    (ev_timestamp_token ev).

(** ** Lemmas *)

Lemma entry_json_roundtrip e : entry_of_json (entry_json e) = Ok e.
Proof.
  unfold entry_json, entry_of_json, item_hex, item_str, item_int, dict_item. simpl.
  rewrite !fromhex_hex. by destruct e.
Qed.

Lemma entries_json_roundtrip l : mapM_result entry_of_json (map entry_json l) = Ok l.
Proof.
  induction l as [|e l IH]; [done|]. cbn [map mapM_result]. rewrite entry_json_roundtrip. cbn [mbind result_bind].
  by rewrite IH.
Qed.

Lemma from_entries_id l : from_entries l = l.
Proof.
  induction l as [|e l IH]; [done|]. cbn. unfold from_entries in IH. rewrite IH. by destruct e.
Qed.

Lemma slice_to_subset {A} n (l : list A) x : x ∈ slice_to n l -> x ∈ l.
Proof. unfold slice_to. case_match; apply subseteq_take. Qed.

Lemma entry_json_wf e : json_wf (content e) -> json_wf (entry_json e).
Proof.
  intros Hc. apply json_wf_obj. split.
  - apply (bool_decide_unpack _). vm_compute. exact I.
  - repeat constructor; done.
Qed.

Lemma envelope_dump_wf e : json_wf (JObj (envelope_dump e)).
Proof.
  apply json_wf_obj. split.
  - apply (bool_decide_unpack _). vm_compute. exact I.
  - repeat constructor.
Qed.

Lemma evidence_payload_wf l ev : evidence_wf l ev -> json_wf (JObj (evidence_payload l ev)).
Proof.
  intros (_ & _ & Ha & Ho & Hl). apply json_wf_obj. split.
  - unfold evidence_payload. apply (bool_decide_unpack _). vm_compute. exact I.
  - unfold evidence_payload. repeat (apply Forall_cons; split); cbn [snd]; try done.
    + apply envelope_dump_wf.
    + apply json_wf_list, Forall_fmap, Forall_forall. intros e He. apply entry_json_wf.
      rewrite Forall_forall in Hl. by apply Hl, (slice_to_subset _ _ _ He).
    + by destruct (ev_eml_bytes ev).
    + destruct (ev_poi ev); [apply poi_model_dump_wf|done].
    + apply json_wf_opt_str.
    + destruct (ev_action_payload ev); [by apply Ha|done].
    + destruct (ev_observed_effect ev); [by apply Ho|done].
    + by destruct (ev_timestamp_token ev).
Qed.

Lemma item_opt_b64_ok k d o : dict_get k d = Some (opt_b64 o) -> item_opt_b64 k d = Ok o.
Proof.
  intros E. unfold item_opt_b64, dict_item. rewrite E. cbn [of_option mbind result_bind].
  destruct o as [b|]; [|done]. cbn [opt_b64]. by rewrite b64decode_encode.
Qed.

Lemma serialize_roundtrip_lemma `{!EnvelopeModelLaws, !Rfc8785, !PoiModelLaws} (l : Ledger) (ev : ActionEvidence) (loc : nat) :
  evidence_wf l ev ->
  deserialize loc (ev_action_id ev) (serialize l ev)
  = Ok (relocated loc ev, slice_to (ev_ledger_entry_count ev) l).
Proof.
  intros Hwf. pose proof (evidence_payload_wf l ev Hwf) as Hj. destruct Hwf as (He & Hp & Ha & Ho & Hl).
  unfold deserialize, serialize. rewrite (json_loads_dumps _ Hj). cbn [mbind result_bind].
  set (d := evidence_payload l ev).
  assert (item_list "ledger_entries" d = Ok (map entry_json (slice_to (ev_ledger_entry_count ev) l))) as -> by done.
  cbn [mbind result_bind]. rewrite entries_json_roundtrip. cbn [mbind result_bind].
  assert (dict_item "user_envelope" d = Ok (JObj (envelope_dump (ev_user_envelope ev)))) as -> by done.
  cbn [mbind result_bind]. rewrite envelope_validate_dump by done. cbn [mbind result_bind].
  assert (item_str "system_prompt" d = Ok (ev_system_prompt ev)) as -> by done.
  assert (item_int "ledger_entry_count_at_action" d = Ok (ev_ledger_entry_count ev)) as -> by done.
  cbn [mbind result_bind].
  rewrite (item_opt_b64_ok "eml_bytes" d (ev_eml_bytes ev)) by done. cbn [mbind result_bind].
  assert (get_opt_poi d = Ok (ev_poi ev)) as ->.
  { unfold get_opt_poi. change (dict_get "poi" d) with (Some (match ev_poi ev with Some p => JObj (poi_model_dump p) | None => JNull end)).
    destruct (ev_poi ev) as [p|]; [|done]. rewrite (poi_validate_dump p); [done|by apply Hp|apply poi_model_dump_wf|done]. }
  cbn [mbind result_bind].
  assert (get_opt_str "action_type" d = Ok (ev_action_type ev)) as ->.
  { unfold get_opt_str. change (dict_get "action_type" d) with (Some (opt_str (ev_action_type ev))). by destruct (ev_action_type ev). }
  assert (get_opt_obj "action_payload" d = Ok (ev_action_payload ev)) as ->.
  { unfold get_opt_obj. change (dict_get "action_payload" d) with (Some (opt_obj (ev_action_payload ev))). by destruct (ev_action_payload ev). }
  assert (get_opt_obj "observed_effect" d = Ok (ev_observed_effect ev)) as ->.
  { unfold get_opt_obj. change (dict_get "observed_effect" d) with (Some (opt_obj (ev_observed_effect ev))). by destruct (ev_observed_effect ev). }
  cbn [mbind result_bind].
  rewrite (item_opt_b64_ok "timestamp_token" d (ev_timestamp_token ev)) by done. cbn [mbind result_bind].
  by rewrite from_entries_id.
Qed.

Lemma fresh_loc_fresh (s : EvidenceState P) : es_ledgers s !! fresh_loc s = None.
Proof. apply not_elem_of_dom. unfold fresh_loc. apply is_fresh. Qed.

(** A lookup only adds ledgers. *)
Lemma evidence_get_ledgers (s : EvidenceState P) id :
  es_ledgers s ⊆ es_ledgers (evidence_get s id).1.
Proof.
  unfold evidence_get. destruct (dict_get id _); [done|]. destruct (es_persistence s) as [p|]; [|done].
  destruct (get_action_evidence p id) as [[payload|]|]; [|done..].
  destruct (deserialize _ id payload) as [[ev l]|]; [|done]. cbn. apply insert_subseteq, fresh_loc_fresh.
Qed.

Lemma evidence_get_again (s : EvidenceState P) id s' ev :
  evidence_get s id = (s', Ok (Some ev)) -> evidence_get s' id = (s', Ok (Some ev)).
Proof.
  unfold evidence_get. destruct (dict_get id (es_evidence s)) as [ev'|] eqn:E.
  - intros [= <- <-]. by rewrite E.
  - destruct (es_persistence s) as [p|] eqn:Ep; [|done].
    destruct (get_action_evidence p id) as [[payload|]|]; [|done..].
    destruct (deserialize _ id payload) as [[ev' l]|]; [|done]. intros [= <- <-]. cbn [es_evidence].
    by rewrite dict_get_set_eq.
Qed.

End Store.

(** ** Theorems *)

Section Theorems.
Context `{EnvelopeModel, PoiModel} {P : Type} `{!EvidencePersistence P}.

(** The stored form of a record is complete: it parses back to the same envelope, prompt, proof,
    payload, effect and artifacts, and to a new ledger holding exactly the entries that were
    present at the action. *)
Theorem evidence_serialization_roundtrip `{!EnvelopeModelLaws, !Rfc8785, !PoiModelLaws}
    (l : Ledger) (ev : ActionEvidence) (loc : nat) :
  evidence_wf l ev ->
  deserialize loc (ev_action_id ev) (serialize l ev)
  = Ok (relocated loc ev, slice_to (ev_ledger_entry_count ev) l).
Proof. apply serialize_roundtrip_lemma. Qed.

(** Registered evidence is found again by its action identifier, the same object; other
    identifiers and all ledgers are as before. *)
Theorem evidence_register_then_get (s s' : EvidenceState P) (ev : ActionEvidence) (r : result unit) :
  evidence_register s ev = (s', r) ->
  evidence_get s' (ev_action_id ev) = (s', Ok (Some ev)) /\
  es_ledgers s' = es_ledgers s /\
  forall other, other ≠ ev_action_id ev -> dict_get other (es_evidence s') = dict_get other (es_evidence s).
Proof.
  unfold evidence_register. intros E.
  assert (es_evidence s' = dict_set (ev_action_id ev) ev (es_evidence s) /\ es_ledgers s' = es_ledgers s) as [Ee El].
  { destruct (es_persistence s) as [p|]; [|by injection E as <- <-].
    destruct (save_action_evidence _ _ _); by injection E as <- <-. }
  split_and!; [|done|].
  - unfold evidence_get. by rewrite Ee, dict_get_set_eq.
  - intros other Ho. rewrite Ee. by apply dict_get_set_ne.
Qed.

(** C37. Evidence survives a restart: a new store over the same persistence answers the record that
    was registered, at a new ledger that holds the entries of the action, and every ledger of
    the new process is untouched. *)
Theorem evidence_survives_restart `{!EnvelopeModelLaws, !Rfc8785, !PoiModelLaws, !EvidencePersistenceLaws P}
    (s s' : EvidenceState P) (p p' : P) (ev : ActionEvidence) (ledgers : gmap nat Ledger) (t : EvidenceState P)
    (r : result (option ActionEvidence)) :
  evidence_wf (ledger_at (es_ledgers s) (ev_ledger ev)) ev ->
  es_persistence s = Some p -> evidence_register s ev = (s', Ok tt) -> es_persistence s' = Some p' ->
  evidence_get (ActionEvidenceStore_init (Some p') ledgers) (ev_action_id ev) = (t, r) ->
  exists loc, r = Ok (Some (relocated loc ev)) /\ ledgers !! loc = None /\ ledgers ⊆ es_ledgers t /\
    ledger_at (es_ledgers t) loc = slice_to (ev_ledger_entry_count ev) (ledger_at (es_ledgers s) (ev_ledger ev)).
Proof.
  intros Hwf Hp Hreg Hp' Hget. unfold evidence_register in Hreg. rewrite Hp in Hreg.
  destruct (save_action_evidence p _ _) as [p1|] eqn:Es; [|done]. injection Hreg as <-. injection Hp' as ->.
  unfold evidence_get, ActionEvidenceStore_init in Hget. cbn [es_evidence es_persistence es_ledgers dict_get] in Hget.
  rewrite (get_after_save _ _ _ _ Es), (serialize_roundtrip_lemma _ _ _ Hwf) in Hget. injection Hget as <- <-.
  pose proof (fresh_loc_fresh (ActionEvidenceStore_init (Some p') ledgers)) as Hf. cbn [es_ledgers ActionEvidenceStore_init] in Hf.
  eexists. split_and!; [reflexivity|exact Hf|by apply insert_subseteq|].
  cbn [es_ledgers]. unfold ledger_at at 1. by rewrite lookup_insert_eq.
Qed.

End Theorems.

(** ** Model parsers and witnesses *)

Section Demo.

Definition demo_envelope_parse (j : json) : result SignedEnvelope :=
  match j with
  | JObj d =>
      f1 ← field_str "prompt" d; f2 ← field_str "user_id" d; f3 ← field_str "session_id" d;
      f4 ← field_str "timestamp" d; f5 ← field_str "nonce" d; f6 ← field_str "signature" d;
      f7 ← field_str "pubkey_id" d; f8 ← field_str "signature_algorithm" d;
      let e := mkSignedEnvelope f1 f2 f3 f4 f5 f6 f7 f8 in
      if envelope_constraints e then Ok e else validation_error
  | _ => validation_error
  end.

Definition demo_envelope_model : EnvelopeModel := {| envelope_validate := demo_envelope_parse |}.

Lemma demo_envelope_model_laws : @EnvelopeModelLaws demo_envelope_model.
Proof.
  split.
  - intros e Hc. cbn [envelope_validate demo_envelope_model]. unfold demo_envelope_parse, field_str. simpl.
    replace (mkSignedEnvelope _ _ _ _ _ _ _ _) with e by by destruct e. by rewrite Hc.
  - intros j e. cbn [envelope_validate demo_envelope_model]. unfold demo_envelope_parse. destruct j; try done. intros E.
    repeat match type of E with mbind _ ?m = _ => destruct m; [|done]; cbn [mbind result_bind] in E end.
    destruct (envelope_constraints _) eqn:Hc; [|done]. by injection E as <-.
Qed.

(** A table of payloads by action identifier. *)
Definition demo_persistence : EvidencePersistence (gmap string string) :=
  {| save_action_evidence p id s := Ok (<[id := s]> p); get_action_evidence p id := Ok (p !! id) |}.

Lemma demo_persistence_laws : @EvidencePersistenceLaws (gmap string string) demo_persistence.
Proof.
  split.
  - intros p id s p' [= <-]. cbn. by rewrite lookup_insert_eq.
  - intros p id id' s p' Hne [= <-]. cbn. by rewrite lookup_insert_ne.
Qed.
End Demo.

Section Witnesses.
#[local] Existing Instance demo_hashlib.
#[local] Existing Instance demo_rfc8785.
#[local] Existing Instance demo_cryptography.
#[local] Existing Instance demo_poi_model.
#[local] Existing Instance demo_poi_model_laws.
#[local] Existing Instance demo_envelope_model.
#[local] Existing Instance demo_envelope_model_laws.
#[local] Existing Instance demo_persistence.
#[local] Existing Instance demo_persistence_laws.

Definition demo_evidence : ActionEvidence :=
  mkActionEvidence "a1" demo_signed "be safe" 0 2 None (Some demo_poi) (Some "email") (Some demo_payload) None (Some [x00]).

(** The session's ledger has grown since the action. *)
Definition demo_grown : Ledger := demo_append "agent_response" [("text", JStr "done")] demo_ledger.

Lemma demo_evidence_wf : evidence_wf demo_grown demo_evidence.
Proof.
  split_and!.
  - vm_compute; reflexivity.
  - intros p [= <-]. vm_compute; reflexivity.
  - intros d [= <-]. vm_compute. repeat constructor; set_solver.
  - done.
  - vm_compute. repeat constructor; set_solver.
Qed.

Lemma evidence_serialization_roundtrip_witness :
  length demo_grown = 3%nat /\
  deserialize 7 "a1" (serialize demo_grown demo_evidence) = Ok (relocated 7 demo_evidence, slice_to 2 demo_grown).
Proof.
  split; [vm_compute; reflexivity|].
  apply (evidence_serialization_roundtrip demo_grown demo_evidence 7). apply demo_evidence_wf.
Defined.

Definition demo_evidence_state : EvidenceState (gmap string string) :=
  ActionEvidenceStore_init (Some ∅) {[ 0%nat := demo_grown ]}.

Lemma evidence_register_then_get_witness :
  (evidence_get (evidence_register demo_evidence_state demo_evidence).1 "a1").2 = Ok (Some demo_evidence).
Proof.
  destruct (evidence_register_then_get demo_evidence_state (evidence_register demo_evidence_state demo_evidence).1
    demo_evidence (evidence_register demo_evidence_state demo_evidence).2) as (E & _).
  - destruct (evidence_register _ _). reflexivity.
  - change "a1"%string with (ev_action_id demo_evidence). rewrite E. reflexivity.
Defined.

Definition demo_saved : gmap string string := {[ "a1" := serialize demo_grown demo_evidence ]}.

Lemma evidence_survives_restart_witness :
  exists loc, (evidence_get (ActionEvidenceStore_init (Some demo_saved) ∅) "a1").2 = Ok (Some (relocated loc demo_evidence)).
Proof.
  destruct (evidence_survives_restart demo_evidence_state (evidence_register demo_evidence_state demo_evidence).1 ∅ demo_saved
    demo_evidence ∅ (evidence_get (ActionEvidenceStore_init (Some demo_saved) ∅) "a1").1
    (evidence_get (ActionEvidenceStore_init (Some demo_saved) ∅) "a1").2) as (loc & E & _).
  - apply demo_evidence_wf.
  - reflexivity.
  - reflexivity.
  - reflexivity.
  - change (ev_action_id demo_evidence) with "a1"%string. destruct (evidence_get _ "a1"). reflexivity.
  - exists loc. exact E.
Defined.
End Witnesses.
