(* ===== verification/Portal.v ===== *)
(** * verification_portal: the six-link verification pipeline

    Models [eml_parser.py], [tsa_verify.py], [models.py] and [verify_pipeline.py].
    [run_verification] is split at the source's six numbered steps, each of which adds one link.
    Python's MIME parser is the interface [EmailLib]; the registry is read at three times (agent
    key, agent record, user key), and the evidence store, which may load and cache a persisted
    record, is threaded.  An exception that a step does not catch ends the run.

    The theorems: a trace has exactly the six links in order, and is valid only if every link
    passed; a valid trace proves the agent's and the user's signatures, the identity binding and
    every commitment of the proof against the live evidence; two ledgers that verify against the
    same proof have the same contents, so that tampering is detected; and the branch on which an
    uploaded artifact without captured evidence escapes as an exception. *)

From S2P Require Import Prelude PyStr Base64 Json JsonText PyTime Crypto Instances Ledger Merkle Sql Verifier.
From S2P Require Import Registry Poi AgentBase Executor Tsa Evidence.

#[local] Open Scope Z_scope.

(** ** Interface: the MIME parser *)

(** [get_content()] of a part: text, or bytes ([None]). *)
Record Message := mkMessage {
  msg_get : string -> option string;
  msg_is_multipart : bool;
  msg_plain_part : option (result (option string));
  msg_content : result (option string);
}.

Class EmailLib := { parsebytes : bytes -> result Message }.

(** ** models.py *)

Record LinkResult := mkLinkResult {
  lr_link_name : string;
  lr_passed : bool;
  lr_status : string;
  lr_detail : string;
}.

Definition link_passed (name detail : string) : LinkResult := mkLinkResult name true "passed" detail.
Definition link_failed (name detail : string) : LinkResult := mkLinkResult name false "failed" detail.

(** [passed=ok, status="passed" if ok else "failed"]. *)
Definition link_of (name : string) (ok : bool) (detail : string) : LinkResult :=
  mkLinkResult name ok (if ok then "passed" else "failed") detail.

Record MerkleNodeView := mkMerkleNodeView { mn_hash : string; mn_entry_id : option Z; mn_duplicated : bool }.

Record MerkleLevelView := mkMerkleLevelView { ml_level : nat; ml_label : string; ml_nodes : list MerkleNodeView }.

Record MerkleTreeView := mkMerkleTreeView {
  mv_root : string;
  mv_signed_root : option string;
  mv_root_matches_signed : option bool;
  mv_leaf_count : nat;
  mv_proof_entry_id : option Z;
  mv_proof_valid : option bool;
  mv_levels : list MerkleLevelView;
}.

Record VerificationTrace := mkVerificationTrace {
  vt_action_id : option string;
  vt_agent_type : option string;
  vt_agent_id : option string;
  vt_action_type : option string;
  vt_policy_decision : option string;
  vt_overall_valid : bool;
  vt_links : list LinkResult;
  vt_timestamp_verified : bool;
  vt_merkle_tree : option MerkleTreeView;
}.

(** [except Exception]. *)
Definition catch_all {A} (m : result A) (h : exn -> result A) : result A := try_except m [Exception] h.

(** ** eml_parser.py *)

Section Eml.
Context `{EmailLib}.

(** [s[:-n]]. *)
Definition drop_end (n : nat) (s : string) : string := substring 0 (String.length s - n) s.

Definition crlf : string := String (chr 13) (String (chr 10) EmptyString).
Definition lf : string := String (chr 10) EmptyString.

Definition strip_ending (body : option string) : result string :=
  match body with
  | None => raise TypeError "endswith first arg must be bytes or a tuple of bytes, not str"
  | Some body =>
      Ok (if str_endswith crlf body then drop_end 2 body
          else if str_endswith lf body then drop_end 1 body else body)
  end.

Definition body_from_message (message : Message) : result string :=
  if msg_is_multipart message then
    match msg_plain_part message with
    | None => Ok EmptyString
    | Some content => body ← content; strip_ending body
    end
  else body ← msg_content message; strip_ending body.

Definition parse_eml (file_bytes : bytes) : result dict :=
  message ← parsebytes file_bytes;
  let to := default EmptyString (msg_get message "To") in
  let subject := default EmptyString (msg_get message "Subject") in
  body ← body_from_message message;
  Ok [("action_id", match msg_get message "Message-ID" with
                    | Some i => if truthy_str i then JStr i else JNull | None => JNull end);
      ("to", JStr to); ("subject", JStr subject); ("body", JStr body);
      ("poi_header", opt_str (msg_get message "X-AoR-Proof-of-Intent"));
      ("signature_header", opt_str (msg_get message "X-AoR-Signature"));
      ("agent_cert_header", opt_str (msg_get message "X-AoR-Agent-Cert"));
      ("action_payload", JObj [("to", JStr to); ("subject", JStr subject); ("body", JStr body)])].

End Eml.

(** ** tsa_verify.py *)

Record TimestampAnchorResult := mkTimestampAnchorResult { ta_verified : bool; ta_pending : bool; ta_detail : string }.

Section PortalTsa.
Context `{Hashlib, Rfc3161}.

(** [config] is what [load_tsa_config] answers, [download] the exchange with the authority. *)
Definition portal_verify_timestamp_token (config : result TSAConfig) (download : TSAConfig -> result bytes)
    (timestamp_token : option bytes) (ledger_root : bytes) : result TimestampAnchorResult :=
  match timestamp_token with
  | None => Ok (mkTimestampAnchorResult false true "pending: no RFC 3161 timestamp token recorded")
  | Some token =>
      match (c ← config; cert ← fetch_pinned_root_certificate c (download c);
             verify_timestamp_token token ledger_root (CertObject cert)) with
      | Raise e =>
          if catches [Exception] e
          then Ok (mkTimestampAnchorResult false false ("RFC 3161 verification unavailable: " +:+ exn_msg e))
          else Raise e
      | Ok verification =>
          if negb (tv_verified verification) then Ok (mkTimestampAnchorResult false false (tv_detail verification))
          else
            match tv_gen_time verification with
            | None => raise AssertionError EmptyString
            | Some t => Ok (mkTimestampAnchorResult true false ("verified, anchored at " +:+ isoformat_utc t))
            end
      end
  end.

End PortalTsa.

(** ** verify_pipeline.py *)

Section Pipeline.
Context `{Hashlib, Rfc8785, Cryptography}.

Definition portal_load_public_key (key_bytes : bytes) : result pyobj :=
  load_key_bytes None "unsupported registered public key" key_bytes.

(** The loop of [_recomputed_entries] from a given [previous]. *)
Fixpoint recompute_from (previous : bytes) (entries : list LedgerEntry) : result (list LedgerEntry) :=
  match entries with
  | [] => Ok []
  | entry :: rest =>
      leaf_hash ← compute_leaf_hash (content entry) previous;
      recomputed ← recompute_from leaf_hash rest;
      Ok (mkLedgerEntry (entry_id entry) (entry_type entry) (content entry) (timestamp entry) previous leaf_hash
          :: recomputed)
  end.

Definition recomputed_entries (entries : list LedgerEntry) : result (list LedgerEntry) := recompute_from [] entries.

Definition unavailable (link_name detail : string) : LinkResult := mkLinkResult link_name false "unavailable" detail.

(** [index == duplicate_index] and [entry_ids[min(index, len(entry_ids) - 1)]]. *)
Definition node_views (leaves : bool) (entry_ids : list Z) (display_hashes : list bytes) (duplicate_index : option nat)
    : list MerkleNodeView :=
  imap (fun index digest =>
          mkMerkleNodeView (hex digest)
            (if leaves then entry_ids !! Nat.min index (length entry_ids - 1) else None)
            (bool_decide (Some index = duplicate_index))) display_hashes.

Definition level_view (count : nat) (entry_ids : list Z) (level_index : nat) (hashes : list bytes) : MerkleLevelView :=
  let odd := (level_index <? count - 1)%nat && Nat.odd (length hashes) in
  let display_hashes := if odd then hashes ++ match last hashes with Some h => [h] | None => [] end else hashes in
  mkMerkleLevelView level_index
    (if (level_index =? 0)%nat then "Leaves"
     else if (level_index =? count - 1)%nat then "Root" else "Level " +:+ str_of_int (Z.of_nat level_index))
    (node_views (level_index =? 0)%nat entry_ids display_hashes (if odd then Some (length hashes) else None)).

Definition merkle_tree_view (tree : MerkleTree) (entries : list LedgerEntry) (signed_root : option string)
    (proof_entry_id : option Z) (proof_valid : option bool) : result MerkleTreeView :=
  r ← root tree;
  let tree_levels := levels tree in
  Ok (mkMerkleTreeView (hex r) signed_root
        (match signed_root with
         | Some s => if truthy_str s then Some (bool_decide (hex r = s)) else None | None => None end)
        (length entries) proof_entry_id proof_valid
        (imap (level_view (length tree_levels) (entry_id <$> entries)) tree_levels)).

(** *** Step 1: extraction *)

Record Extraction := mkExtraction {
  xt_evidence : option ActionEvidence;
  xt_action_id : option string;
  xt_parsed : dict;
  xt_poi : option ProofOfIntent;
  xt_link : LinkResult;
}.

Definition truthy_opt (o : option string) : bool := match o with Some s => truthy_str s | None => false end.

(** [parsed.get("action_id")] of a parsed message. *)
Definition parsed_str (k : string) (parsed : dict) : option string :=
  match dict_get k parsed with Some (JStr s) => Some s | _ => None end.

Context `{EmailLib, EnvelopeModel, PoiModel} {P : Type} `{!EvidencePersistence P}.

(** [if action_id: evidence = store.get(action_id)]. *)
Definition lookup_evidence (s : EvidenceState P) (action_id : option string) (evidence : option ActionEvidence)
    : EvidenceState P * result (option ActionEvidence) :=
  match action_id with
  | Some id => if truthy_str id then evidence_get s id else (s, Ok evidence)
  | None => (s, Ok evidence)
  end.

(** The upload parsed, or the failed link. *)
Definition parse_upload (eml_bytes : option bytes) : result (dict * option LinkResult) :=
  match eml_bytes with
  | None => Ok ([], None)
  | Some b =>
      catch_all (parsed ← parse_eml b; Ok (parsed, None))
        (fun e => Ok ([], Some (link_failed "poi_extraction" ("invalid .eml: " +:+ exn_msg e))))
  end.

(** The stored artifact parsed, when there is no upload. *)
Definition parse_stored (eml_bytes : option bytes) (evidence : option ActionEvidence) (parsed : dict)
    (link : option LinkResult) : result (dict * option LinkResult) :=
  match eml_bytes, evidence with
  | None, Some ev =>
      match ev_eml_bytes ev with
      | Some b =>
          catch_all (parsed ← parse_eml b; Ok (parsed, link))
            (fun e => Ok (parsed, Some (link_failed "poi_extraction" ("stored .eml is invalid: " +:+ exn_msg e))))
      | None => Ok (parsed, link)
      end
  | _, _ => Ok (parsed, link)
  end.

(** The proof, from the structured evidence or from the header. *)
Definition find_poi (eml_bytes : option bytes) (evidence : option ActionEvidence) (parsed : dict)
    (link : option LinkResult) : result (dict * option ProofOfIntent * LinkResult) :=
  match link with
  | Some l => Ok (parsed, None, l)
  | None =>
      match eml_bytes, evidence ≫= ev_poi with
      | None, Some poi =>
          let parsed := match evidence ≫= ev_action_payload with
                        | Some d => dict_set "action_payload" (JObj d) parsed | None => parsed end in
          Ok (parsed, Some poi, link_passed "poi_extraction" "signed PoI loaded from structured action evidence")
      | _, _ =>
          match parsed_str "poi_header" parsed with
          | Some header =>
              if truthy_str header then
                catch_all
                  (poi ← decode_poi_header header;
                   Ok (parsed, Some poi, link_passed "poi_extraction" "signed PoI decoded from email header"))
                  (fun e => Ok (parsed, None, link_failed "poi_extraction" ("malformed PoI header: " +:+ exn_msg e)))
              else Ok (parsed, None, link_failed "poi_extraction" "X-AoR-Proof-of-Intent header is missing")
          | None => Ok (parsed, None, link_failed "poi_extraction" "X-AoR-Proof-of-Intent header is missing")
          end
      end
  end.

Definition extract (s : EvidenceState P) (eml_bytes : option bytes) (action_id : option string)
    : EvidenceState P * result Extraction :=
  let '(s, evidence) := lookup_evidence s action_id None in
  match (evidence ← evidence; '(parsed, link) ← parse_upload eml_bytes; Ok (evidence, parsed, link)) with
  | Raise e => (s, Raise e)
  | Ok (evidence, parsed, link) =>
      let action_id := if truthy_opt action_id then action_id
                       else match eml_bytes, link with
                            | Some _, None => parsed_str "action_id" parsed | _, _ => action_id end in
      let '(s, evidence) := lookup_evidence s action_id evidence in
      (s,
       evidence ← evidence;
       '(parsed, link) ← parse_stored eml_bytes evidence parsed link;
       '(parsed, poi, link) ← find_poi eml_bytes evidence parsed link;
       Ok (mkExtraction evidence action_id parsed poi link))
  end.

(** *** Step 2: every content commitment *)

Record Recomputation := mkRecomputation {
  rc_root : option bytes;
  rc_entries : list LedgerEntry;
  rc_tree : option MerkleTree;
  rc_link : LinkResult;
}.

(** [hash_payload(data).hex() != expected] as a list of mismatches. *)
Definition mismatch (data : json) (expected name : string) : result (list string) :=
  h ← hash_hex data; Ok (if bool_decide (h = expected) then [] else [name]).

Definition payload_mismatch (eml_bytes : option bytes) (parsed : dict) (poi : ProofOfIntent) (ev : ActionEvidence)
    : result (list string) :=
  let expected := poi_action_payload_hash poi in
  match eml_bytes with
  | Some _ =>
      match dict_get "action_payload" parsed with
      | Some (JObj d) => mismatch (JObj d) expected "action_payload_hash"
      | _ => Ok ["action_payload_hash"]
      end
  | None =>
      match ev_action_payload ev with
      | Some d => mismatch (JObj d) expected "action_payload_hash"
      | None =>
          match ev_eml_bytes ev with
          | None => Ok ["action_payload_hash (no stored .eml)"]
          | Some b =>
              catch_all
                (parsed ← parse_eml b; stored_payload ← dict_item "action_payload" parsed;
                 mismatch stored_payload expected "action_payload_hash")
                (fun _ => Ok ["action_payload_hash"])
          end
      end
  end.

(** The [try] block on the ledger: what has been assigned when it ends, and the mismatches. *)
Definition recompute_ledger (live_entries : list LedgerEntry) (poi : ProofOfIntent)
    : result (option bytes * list LedgerEntry * option MerkleTree * list string) :=
  let failed entries tree (e : exn) :=
    if catches [Exception] e
    then Ok (None, entries, tree, ["context_root (" +:+ exn_msg e +:+ ")"]) else Raise e in
  match recomputed_entries live_entries with
  | Raise e => failed [] None e
  | Ok entries =>
      match build_merkle_tree entries with
      | Raise e => failed entries None e
      | Ok tree =>
          match root tree with
          | Raise e => failed entries (Some tree) e
          | Ok r => Ok (Some r, entries, Some tree,
                        if bool_decide (hex r = poi_context_root poi) then [] else ["context_root"])
          end
      end
  end.

Definition hash_recomputation (ledger : Ledger) (eml_bytes : option bytes) (parsed : dict) (poi : option ProofOfIntent)
    (evidence : option ActionEvidence) : result Recomputation :=
  match poi, evidence with
  | Some poi, Some ev =>
      m1 ← mismatch (JObj [("prompt", JStr (se_prompt (ev_user_envelope ev)))]) (poi_user_prompt_hash poi) "user_prompt_hash";
      m2 ← mismatch (JObj [("system_prompt", JStr (ev_system_prompt ev))]) (poi_system_prompt_hash poi) "system_prompt_hash";
      m3 ← payload_mismatch eml_bytes parsed poi ev;
      '(r, entries, tree, m4) ← recompute_ledger (slice_to (ev_ledger_entry_count ev) (all_entries ledger)) poi;
      let mismatches := m1 ++ m2 ++ m3 ++ m4 in
      Ok (mkRecomputation r entries tree
            (match mismatches with
             | [] => link_passed "hash_recomputation" "user, system, context, and action hashes all match PoI"
             | _ => link_failed "hash_recomputation" ("mismatched: " +:+ str_join ", " mismatches)
             end))
  | None, _ => Ok (mkRecomputation None [] None (unavailable "hash_recomputation" "unable to recompute hashes: PoI unavailable"))
  | _, _ => Ok (mkRecomputation None [] None
                  (unavailable "hash_recomputation" "unable to recompute hashes: captured action evidence unavailable"))
  end.

(** *** Step 3: the agent's key and identity *)

Definition repr_opt (o : option string) : string := match o with Some s => str_repr s | None => "None" end.

Definition identity_errors (eml_bytes : option bytes) (poi : ProofOfIntent) (evidence : option ActionEvidence)
    (key_record : option AgentKeyRecord) : result (list string) :=
  let agent_id := match key_record, poi_agent_id poi with
    | Some r, Some id => if bool_decide (kr_agent_id r = id) then []
        else ["agent_id_mismatch (PoI claims " +:+ str_repr id +:+ ", key belongs to " +:+ str_repr (kr_agent_id r) +:+ ")"]
    | _, _ => [] end in
  let agent_type := match key_record, poi_agent_type poi with
    | Some r, Some ty => if bool_decide (kr_agent_type r = Some ty) then []
        else ["agent_type_mismatch (PoI claims " +:+ str_repr ty +:+ ", key belongs to " +:+ repr_opt (kr_agent_type r) +:+ ")"]
    | _, _ => [] end in
  action_type ← (match poi_action_type poi with
    | None => Ok []
    | Some ty =>
        match evidence with
        | None => raise AttributeError "'NoneType' object has no attribute 'action_type'"
        | Some ev =>
            match ev_action_type ev with
            | Some ty' => Ok (if bool_decide (ty = ty') then []
                else ["action_type_mismatch (PoI claims " +:+ str_repr ty +:+ ", evidence claims " +:+ str_repr ty' +:+ ")"])
            | None =>
                Ok (if (bool_decide (is_Some eml_bytes) || bool_decide (is_Some (ev_eml_bytes ev)))
                       && negb (bool_decide (ty = "email"))
                    then ["action_type_mismatch (email artifact cannot claim " +:+ str_repr ty +:+ ")"] else [])
            end
        end
    end);
  let policy := match poi_policy_decision poi with
    | Some d => if bool_decide (d = "allow") then [] else ["policy_decision_rejected (PoI contains " +:+ str_repr d +:+ ")"]
    | None => [] end in
  Ok (agent_id ++ agent_type ++ action_type ++ policy).

Definition agent_signature (now now' : Z) (registry : KeyTable) (eml_bytes : option bytes) (poi : option ProofOfIntent)
    (evidence : option ActionEvidence) : result LinkResult :=
  match poi with
  | None => Ok (unavailable "agent_signature" "unable to check: PoI unavailable")
  | Some poi =>
      let id := or_str (poi_agent_pubkey_id poi) EmptyString in
      agent_bytes ← get_pubkey now registry id;
      match agent_bytes with
      | None => Ok (link_failed "agent_signature"
          "agent public key is unknown, expired, or currently revoked; this current trust failure alone does not prove the historical action was fraudulent")
      | Some agent_bytes =>
          key_record ← get_key_record now' registry id;
          errors ← identity_errors eml_bytes poi evidence key_record;
          '(valid_agent_signature, agent_error) ←
            catch_all (k ← portal_load_public_key agent_bytes; b ← verify_poi_signature poi k; Ok (b, EmptyString))
              (fun e => Ok (false, exn_msg e));
          let valid_agent_binding := bool_decide (errors = []) in
          let agent_valid := valid_agent_signature && valid_agent_binding in
          let detail :=
            if negb valid_agent_binding then str_join "; " errors
            else if negb valid_agent_signature then str_strip ("agent signature did not verify " +:+ agent_error)
            else "agent signature and identity binding verified" in
          Ok (link_of "agent_signature" agent_valid detail)
      end
  end.

(** *** Step 4: the user's signature *)

Definition user_signature (now : Z) (registry : KeyTable) (poi : option ProofOfIntent) (evidence : option ActionEvidence)
    : result LinkResult :=
  match poi, evidence with
  | Some _, Some ev =>
      let envelope := ev_user_envelope ev in
      user_key_bytes ← get_pubkey now registry (se_pubkey_id envelope);
      match user_key_bytes with
      | None => Ok (link_failed "user_signature" "user public key is unknown, expired, or revoked")
      | Some b =>
          valid_user_signature ←
            try_except
              (signature ← b64decode true (se_signature envelope);
               k ← portal_load_public_key b;
               h ← hash_payload (JObj (signing_payload envelope));
               verify k (ObjBytes signature) (ObjBytes h))
              [ValueError; TypeError; BinasciiError] (fun _ => Ok false);
          Ok (link_of "user_signature" valid_user_signature
                (if valid_user_signature : bool then "original user prompt signature verified"
                 else "original user prompt signature did not verify"))
      end
  | _, _ => Ok (unavailable "user_signature" "unable to check: original signed envelope unavailable")
  end.

(** *** Step 5: an inclusion proof against the rebuilt root *)

Definition opt_int_text (o : option Z) : string := match o with Some z => str_of_int z | None => "None" end.

(** The link, and [proof_valid] as it is when the step ends. *)
Definition merkle_root_match (ledger : Ledger) (poi : option ProofOfIntent) (evidence : option ActionEvidence)
    (rc : Recomputation) : result (option bool * LinkResult) :=
  match poi, evidence, rc_root rc, rc_entries rc with
  | Some poi, Some ev, Some recomputed_root, first :: rest =>
      let checked :=
        tree ← (match rc_tree rc with Some t => Ok t | None => build_merkle_tree (first :: rest) end);
        proof ← get_proof tree (entry_id first);
        r ← root tree;
        Ok (verify_merkle_proof (leaf_hash first) proof r) in
      let failed pv (e : exn) :=
        if catches [Exception] e
        then Ok (pv, link_failed "merkle_root_match" ("unable to verify Merkle proof: " +:+ exn_msg e)) else Raise e in
      match checked with
      | Raise e => failed None e
      | Ok proof_valid =>
          match first_invalid_entry_id ledger with
          | Raise e => failed (Some proof_valid) e
          | Ok chain_break =>
              let root_ok := bool_decide (hex recomputed_root = poi_context_root poi) in
              let valid_merkle := proof_valid && bool_decide (chain_break = None) && root_ok in
              let detail :=
                if valid_merkle then "recomputed root matches signed PoI and ledger chain"
                else if negb root_ok
                then "recomputed context root " +:+ hex recomputed_root +:+ " != signed root " +:+ poi_context_root poi
                else "ledger hash chain invalid at entry_id " +:+ opt_int_text chain_break in
              Ok (Some proof_valid, link_of "merkle_root_match" valid_merkle detail)
          end
      end
  | _, _, _, _ => Ok (None, unavailable "merkle_root_match" "unable to check: ledger evidence unavailable")
  end.

(** *** Step 6: the timestamp *)

Context `{!Rfc3161}.

(** The step, given the function that the name [verify_timestamp_token] stands for when it is called. *)
Definition timestamp_anchor_with (verify_timestamp_token : option bytes -> bytes -> result TimestampAnchorResult)
    (anchor_store : option AnchorStore) (poi : option ProofOfIntent) (evidence : option ActionEvidence)
    (recomputed_root : option bytes) : result LinkResult :=
  match evidence, recomputed_root with
  | Some ev, Some r =>
      timestamp_token ←
        (match ev_timestamp_token ev, anchor_store, poi with
         | None, Some anchors, Some poi =>
             try_except
               (signed_root ← fromhex (poi_context_root poi);
                Ok (latest_anchored anchors signed_root ≫= an_token_bytes))
               [ValueError] (fun _ => Ok None)
         | token, _, _ => Ok token
         end);
      t ← verify_timestamp_token timestamp_token r;
      Ok (mkLinkResult "timestamp_anchor" (ta_pending t || ta_verified t)
            (if ta_pending t then "pending" else if ta_verified t then "passed" else "failed") (ta_detail t))
  | _, _ => Ok (unavailable "timestamp_anchor" "unable to check: ledger root unavailable")
  end.

Definition timestamp_anchor (config : result TSAConfig) (download : TSAConfig -> result bytes) :=
  timestamp_anchor_with (portal_verify_timestamp_token config download).

(** *** The pipeline *)

(** What the pipeline reads besides the evidence store. *)
Record PipelineEnv := mkPipelineEnv {
  pe_registry : KeyTable;
  pe_now_agent : Z;
  pe_now_record : Z;
  pe_now_user : Z;
  pe_anchor_store : option AnchorStore;
  pe_tsa_config : result TSAConfig;
  pe_tsa_download : TSAConfig -> result bytes;
}.

(** Steps 2 to 6 and the trace, after the extraction. *)
Definition verify_extracted_with (verify_timestamp_token : option bytes -> bytes -> result TimestampAnchorResult) (env : PipelineEnv)
    (ledgers : gmap nat Ledger) (eml_bytes : option bytes) (x : Extraction) : result VerificationTrace :=
  let poi := xt_poi x in
  let evidence := xt_evidence x in
  let ledger := match evidence with Some ev => ledger_at ledgers (ev_ledger ev) | None => [] end in
  rc ← hash_recomputation ledger eml_bytes (xt_parsed x) poi evidence;
  agent ← agent_signature (pe_now_agent env) (pe_now_record env) (pe_registry env) eml_bytes poi evidence;
  user ← user_signature (pe_now_user env) (pe_registry env) poi evidence;
  '(proof_valid, merkle) ← merkle_root_match ledger poi evidence rc;
  stamp ← timestamp_anchor_with verify_timestamp_token (pe_anchor_store env) poi evidence (rc_root rc);
  let links := [xt_link x; rc_link rc; agent; user; merkle; stamp] in
  view ← (match rc_tree rc, rc_entries rc with
          | Some tree, first :: _ =>
              v ← merkle_tree_view tree (rc_entries rc) (poi_context_root <$> poi) (Some (entry_id first)) proof_valid;
              Ok (Some v)
          | _, _ => Ok None
          end);
  Ok (mkVerificationTrace (xt_action_id x) (poi ≫= poi_agent_type) (poi ≫= poi_agent_id) (poi ≫= poi_action_type)
        (poi ≫= poi_policy_decision) (forallb lr_passed links) links
        (match last links with Some l => bool_decide (lr_status l = "passed") | None => false end) view).

Definition run_verification_with (verify_timestamp_token : option bytes -> bytes -> result TimestampAnchorResult) (env : PipelineEnv)
    (s : EvidenceState P) (eml_bytes : option bytes) (action_id : option string) : EvidenceState P * result VerificationTrace :=
  let '(s, x) := extract s eml_bytes action_id in
  (s, x ← x; verify_extracted_with verify_timestamp_token env (es_ledgers s) eml_bytes x).

(** With the function of [tsa_verify.py]. *)
Definition verify_extracted (env : PipelineEnv) : gmap nat Ledger -> option bytes -> Extraction -> result VerificationTrace :=
  verify_extracted_with (portal_verify_timestamp_token (pe_tsa_config env) (pe_tsa_download env)) env.

Definition run_verification (env : PipelineEnv) : EvidenceState P -> option bytes -> option string -> EvidenceState P * result VerificationTrace :=
  run_verification_with (portal_verify_timestamp_token (pe_tsa_config env) (pe_tsa_download env)) env.

(** ** Specification *)

Definition link_names : list string :=
  ["poi_extraction"; "hash_recomputation"; "agent_signature"; "user_signature"; "merkle_root_match"; "timestamp_anchor"].

(** The payload the proof is held against: the uploaded message's, the stored payload, or the
    stored message's. *)
Definition artifact_payload (eml_bytes : option bytes) (parsed : dict) (ev : ActionEvidence) : option json :=
  match eml_bytes with
  | Some _ => match dict_get "action_payload" parsed with Some (JObj d) => Some (JObj d) | _ => None end
  | None =>
      match ev_action_payload ev with
      | Some d => Some (JObj d)
      | None =>
          match ev_eml_bytes ev with
          | Some b => match (parsed ← parse_eml b; dict_item "action_payload" parsed) with Ok j => Some j | Raise _ => None end
          | None => None
          end
      end
  end.

(** The identity the proof claims is the identity of the key, and its action was allowed. *)
Definition identity_bound (eml_bytes : option bytes) (poi : ProofOfIntent) (ev : ActionEvidence)
    (key_record : option AgentKeyRecord) : Prop :=
  (forall r id, key_record = Some r -> poi_agent_id poi = Some id -> kr_agent_id r = id) /\
  (forall r ty, key_record = Some r -> poi_agent_type poi = Some ty -> kr_agent_type r = Some ty) /\
  (forall ty ty', poi_action_type poi = Some ty -> ev_action_type ev = Some ty' -> ty = ty') /\
  (forall ty, poi_action_type poi = Some ty -> ev_action_type ev = None ->
     eml_bytes ≠ None \/ ev_eml_bytes ev ≠ None -> ty = "email") /\
  (forall d, poi_policy_decision poi = Some d -> d = "allow").

(** Everything a valid trace claims about a proof, its evidence and the ledger. *)
Record claims_hold (env : PipelineEnv) (ledger : Ledger) (eml_bytes : option bytes) (parsed : dict)
    (poi : ProofOfIntent) (ev : ActionEvidence) : Prop := {
  ch_prompt : hash_hex (JObj [("prompt", JStr (se_prompt (ev_user_envelope ev)))]) = Ok (poi_user_prompt_hash poi);
  ch_system : hash_hex (JObj [("system_prompt", JStr (ev_system_prompt ev))]) = Ok (poi_system_prompt_hash poi);
  ch_payload : exists j, artifact_payload eml_bytes parsed ev = Some j /\ hash_hex j = Ok (poi_action_payload_hash poi);
  ch_context : exists entries t r, recomputed_entries (slice_to (ev_ledger_entry_count ev) ledger) = Ok entries /\
    build_merkle_tree entries = Ok t /\ root t = Ok r /\ hex r = poi_context_root poi;
  ch_chain : chain_ok ledger;
  ch_agent : exists b k, get_pubkey (pe_now_agent env) (pe_registry env) (or_str (poi_agent_pubkey_id poi) "") = Ok (Some b) /\
    portal_load_public_key b = Ok k /\ verify_poi_signature poi k = Ok true;
  ch_identity : exists key_record,
    get_key_record (pe_now_record env) (pe_registry env) (or_str (poi_agent_pubkey_id poi) "") = Ok key_record /\
    identity_bound eml_bytes poi ev key_record;
  ch_user : exists b k sg h, get_pubkey (pe_now_user env) (pe_registry env) (se_pubkey_id (ev_user_envelope ev)) = Ok (Some b) /\
    portal_load_public_key b = Ok k /\ b64decode true (se_signature (ev_user_envelope ev)) = Ok sg /\
    hash_payload (JObj (signing_payload (ev_user_envelope ev))) = Ok h /\ verify k (ObjBytes sg) (ObjBytes h) = Ok true;
}.

(** ** Lemmas: the name of each link *)

Lemma run_verification_eq env s eml id :
  run_verification env s eml id = let '(s, x) := extract s eml id in (s, x ← x; verify_extracted env (es_ledgers s) eml x).
Proof. done. Qed.

Lemma parse_upload_name eml parsed l : parse_upload eml = Ok (parsed, Some l) -> lr_link_name l = "poi_extraction".
Proof.
  unfold parse_upload, catch_all, try_except. destruct eml as [b|]; [|done].
  destruct (parse_eml b) as [d|e]; cbn [mbind result_bind]; [done|]. destruct (catches _ e); [|done]. by intros [= <- <-].
Qed.

Lemma parse_stored_name eml ev parsed parsed' link l :
  (forall l0, link = Some l0 -> lr_link_name l0 = "poi_extraction") ->
  parse_stored eml ev parsed link = Ok (parsed', Some l) -> lr_link_name l = "poi_extraction".
Proof.
  unfold parse_stored, catch_all, try_except. intros Hl.
  destruct eml as [b|]; [intros [= <- ->]; by apply Hl|]. destruct ev as [ev|]; [|intros [= <- ->]; by apply Hl].
  destruct (ev_eml_bytes ev) as [b|]; [|intros [= <- ->]; by apply Hl].
  destruct (parse_eml b) as [d|e]; cbn [mbind result_bind]; [intros [= <- ->]; by apply Hl|].
  destruct (catches _ e); [|done]. by intros [= <- <-].
Qed.

Lemma find_poi_name eml ev parsed link parsed' poi l :
  (forall l0, link = Some l0 -> lr_link_name l0 = "poi_extraction") ->
  find_poi eml ev parsed link = Ok (parsed', poi, l) -> lr_link_name l = "poi_extraction".
Proof.
  unfold find_poi. intros Hl. destruct link as [l0|]; [intros [= <- <- <-]; by apply Hl|]. clear Hl.
  assert ((match parsed_str "poi_header" parsed with
     | Some header => if truthy_str header then
         catch_all (poi ← decode_poi_header header;
            Ok (parsed, Some poi, link_passed "poi_extraction" "signed PoI decoded from email header"))
           (fun e => Ok (parsed, None, link_failed "poi_extraction" ("malformed PoI header: " +:+ exn_msg e)))
       else Ok (parsed, None, link_failed "poi_extraction" "X-AoR-Proof-of-Intent header is missing")
     | None => Ok (parsed, None, link_failed "poi_extraction" "X-AoR-Proof-of-Intent header is missing")
     end = Ok (parsed', poi, l)) -> lr_link_name l = "poi_extraction") as Hh.
  { destruct (parsed_str _ parsed) as [h|]; [|by intros [= <- <- <-]]. destruct (truthy_str h); [|by intros [= <- <- <-]].
    unfold catch_all, try_except. destruct (decode_poi_header h) as [p|e]; cbn [mbind result_bind]; [by intros [= <- <- <-]|].
    destruct (catches _ e); [|done]. by intros [= <- <- <-]. }
  destruct eml as [b|]; [exact Hh|]. destruct (ev ≫= ev_poi) as [p|]; [|exact Hh]. by intros [= <- <- <-].
Qed.

Lemma extract_name s eml id s' x : extract s eml id = (s', Ok x) -> lr_link_name (xt_link x) = "poi_extraction".
Proof.
  unfold extract. destruct (lookup_evidence s id None) as [s1 [ev|e]]; cbn [mbind result_bind]; [|by intros [= <-]].
  destruct (parse_upload eml) as [[parsed link]|e] eqn:Eu; cbn [mbind result_bind]; [|by intros [= <-]].
  destruct (lookup_evidence s1 _ ev) as [s2 [ev2|e]]; cbn [mbind result_bind]; [|by intros [= <-]].
  destruct (parse_stored eml ev2 parsed link) as [[parsed2 link2]|e] eqn:Es; cbn [mbind result_bind]; [|by intros [= <-]].
  destruct (find_poi eml ev2 parsed2 link2) as [[[parsed3 poi] l]|e] eqn:Ef; cbn [mbind result_bind]; [|by intros [= <-]].
  intros [= <- <-]. cbn [xt_link]. eapply find_poi_name; [|exact Ef]. intros l0 ->.
  eapply parse_stored_name; [|exact Es]. intros l1 ->. by eapply parse_upload_name.
Qed.

Lemma hash_recomputation_name ledger eml parsed poi ev rc :
  hash_recomputation ledger eml parsed poi ev = Ok rc -> lr_link_name (rc_link rc) = "hash_recomputation".
Proof.
  unfold hash_recomputation. destruct poi as [poi|]; [|by intros [= <-]]. destruct ev as [ev|]; [|by intros [= <-]].
  destruct (mismatch _ _ "user_prompt_hash") as [m1|]; cbn [mbind result_bind]; [|done].
  destruct (mismatch _ _ "system_prompt_hash") as [m2|]; cbn [mbind result_bind]; [|done].
  destruct (payload_mismatch _ _ _ _) as [m3|]; cbn [mbind result_bind]; [|done].
  destruct (recompute_ledger _ _) as [[[[r es] t] m4]|]; cbn [mbind result_bind]; [|done].
  intros [= <-]. cbn [rc_link]. by destruct (m1 ++ m2 ++ m3 ++ m4).
Qed.

Lemma agent_signature_name n1 n2 t eml poi ev l :
  agent_signature n1 n2 t eml poi ev = Ok l -> lr_link_name l = "agent_signature".
Proof.
  unfold agent_signature. destruct poi as [poi|]; [|by intros [= <-]].
  destruct (get_pubkey n1 t _) as [[b|]|]; cbn [mbind result_bind]; [|by intros [= <-]|done].
  destruct (get_key_record n2 t _) as [r|]; cbn [mbind result_bind]; [|done].
  destruct (identity_errors _ _ _ _) as [errs|]; cbn [mbind result_bind]; [|done].
  destruct (catch_all _ _) as [[v err]|]; cbn [mbind result_bind]; [|done]. by intros [= <-].
Qed.

Lemma user_signature_name n t poi ev l : user_signature n t poi ev = Ok l -> lr_link_name l = "user_signature".
Proof.
  unfold user_signature. destruct poi as [poi|]; [|by intros [= <-]]. destruct ev as [ev|]; [|by intros [= <-]].
  destruct (get_pubkey n t _) as [[b|]|]; cbn [mbind result_bind]; [|by intros [= <-]|done].
  destruct (try_except _ _ _) as [v|]; cbn [mbind result_bind]; [|done]. by intros [= <-].
Qed.

Lemma merkle_root_match_name ledger poi ev rc pv l :
  merkle_root_match ledger poi ev rc = Ok (pv, l) -> lr_link_name l = "merkle_root_match".
Proof.
  unfold merkle_root_match. destruct poi as [poi|]; [|by intros [= <- <-]]. destruct ev as [ev|]; [|by intros [= <- <-]].
  destruct (rc_root rc) as [r|]; [|by intros [= <- <-]]. destruct (rc_entries rc) as [|first rest]; [by intros [= <- <-]|].
  destruct (match rc_tree rc with Some t => Ok t | None => build_merkle_tree (first :: rest) end ≫= _) as [v|e].
  - destruct (first_invalid_entry_id ledger) as [c|e]; [by intros [= <- <-]|].
    destruct (catches _ e); [by intros [= <- <-]|done].
  - destruct (catches _ e); [by intros [= <- <-]|done].
Qed.

Lemma timestamp_anchor_name config download store poi ev r l :
  timestamp_anchor config download store poi ev r = Ok l -> lr_link_name l = "timestamp_anchor".
Proof.
  unfold timestamp_anchor, timestamp_anchor_with. destruct ev as [ev|]; [|by intros [= <-]]. destruct r as [r|]; [|by intros [= <-]].
  intros E. destruct (match ev_timestamp_token ev with Some _ => _ | None => _ end) as [tok|]; [|done].
  cbn [mbind result_bind] in E. destruct (portal_verify_timestamp_token _ _ _ _); [|done]. by injection E as <-.
Qed.

(** ** Lemmas: what each passed link proves *)

Lemma mismatch_nil j expected name : mismatch j expected name = Ok [] -> hash_hex j = Ok expected.
Proof.
  unfold mismatch. destruct (hash_hex j) as [h|]; [|done]. cbn [mbind result_bind]. case_bool_decide; [by subst|done].
Qed.

Lemma payload_mismatch_nil eml parsed poi ev :
  payload_mismatch eml parsed poi ev = Ok [] ->
  exists j, artifact_payload eml parsed ev = Some j /\ hash_hex j = Ok (poi_action_payload_hash poi).
Proof.
  unfold payload_mismatch, artifact_payload. destruct eml as [b|].
  - destruct (dict_get "action_payload" parsed) as [[]|]; try done. intros ?%mismatch_nil. eauto.
  - destruct (ev_action_payload ev) as [d|]; [intros ?%mismatch_nil; eauto|].
    destruct (ev_eml_bytes ev) as [b|]; [|done]. unfold catch_all, try_except.
    destruct (parse_eml b) as [d|e]; cbn [mbind result_bind]; [|by destruct (catches _ e)].
    destruct (dict_item "action_payload" d) as [j|e]; cbn [mbind result_bind]; [|by destruct (catches _ e)].
    destruct (mismatch j _ _) as [m|e] eqn:Em; [|by destruct (catches _ e)]. intros [= ->]. apply mismatch_nil in Em. eauto.
Qed.

Lemma recompute_ledger_nil live poi r es t :
  recompute_ledger live poi = Ok (r, es, t, []) ->
  exists t' r', recomputed_entries live = Ok es /\ build_merkle_tree es = Ok t' /\ t = Some t' /\ root t' = Ok r' /\
    r = Some r' /\ hex r' = poi_context_root poi.
Proof.
  unfold recompute_ledger. destruct (recomputed_entries live) as [es'|e]; [|by destruct (catches _ e)].
  destruct (build_merkle_tree es') as [t'|e] eqn:Et; [|by destruct (catches _ e)].
  destruct (root t') as [r'|e] eqn:Er; [|by destruct (catches _ e)]. case_bool_decide; [|done].
  intros [= <- <- <-]. exists t', r'. done.
Qed.

Lemma hash_recomputation_passed ledger eml parsed poi ev rc :
  hash_recomputation ledger eml parsed poi ev = Ok rc -> lr_passed (rc_link rc) = true ->
  exists p e, poi = Some p /\ ev = Some e /\
    hash_hex (JObj [("prompt", JStr (se_prompt (ev_user_envelope e)))]) = Ok (poi_user_prompt_hash p) /\
    hash_hex (JObj [("system_prompt", JStr (ev_system_prompt e))]) = Ok (poi_system_prompt_hash p) /\
    (exists j, artifact_payload eml parsed e = Some j /\ hash_hex j = Ok (poi_action_payload_hash p)) /\
    exists entries t r, recomputed_entries (slice_to (ev_ledger_entry_count e) ledger) = Ok entries /\
      build_merkle_tree entries = Ok t /\ root t = Ok r /\ hex r = poi_context_root p /\ rc_root rc = Some r.
Proof.
  unfold hash_recomputation, all_entries. destruct poi as [p|]; [|by intros [= <-]]. destruct ev as [e|]; [|by intros [= <-]].
  destruct (mismatch _ _ "user_prompt_hash") as [m1|] eqn:E1; cbn [mbind result_bind]; [|done].
  destruct (mismatch _ _ "system_prompt_hash") as [m2|] eqn:E2; cbn [mbind result_bind]; [|done].
  destruct (payload_mismatch _ _ _ _) as [m3|] eqn:E3; cbn [mbind result_bind]; [|done].
  destruct (recompute_ledger _ _) as [[[[r es] t] m4]|] eqn:E4; cbn [mbind result_bind]; [|done].
  intros [= <-]. cbn [rc_link rc_root]. destruct (m1 ++ m2 ++ m3 ++ m4) as [|] eqn:Em; [|done]. intros _.
  apply app_nil in Em as [-> [-> [-> ->]%app_nil]%app_nil].
  apply mismatch_nil in E1, E2. apply payload_mismatch_nil in E3.
  apply recompute_ledger_nil in E4 as (t' & r' & Ees & Et & _ & Er & -> & Hr). eauto 20.
Qed.

Lemma app_cons_nil_l {A} (b : bool) (x : A) l : (if b then [] else [x]) ++ l = [] -> b = true /\ l = [].
Proof. by destruct b. Qed.

Lemma identity_errors_nil eml poi ev r :
  identity_errors eml poi (Some ev) r = Ok [] -> identity_bound eml poi ev r.
Proof.
  unfold identity_errors, identity_bound. intros E.
  destruct (match poi_action_type poi with None => _ | Some _ => _ end) as [ty|] eqn:Et; [|done].
  cbn [mbind result_bind] in E. injection E as E. apply app_nil in E as [E1 [E2 [-> E4]%app_nil]%app_nil].
  split_and!.
  - intros rc id -> Hid. rewrite Hid in E1. by case_bool_decide.
  - intros rc tt -> Hty. rewrite Hty in E2. by case_bool_decide.
  - intros t1 t2 H1' H2'. rewrite H1', H2' in Et. injection Et as Et. case_bool_decide; [done|discriminate].
  - intros t1 H1' H2' Hor. rewrite H1', H2' in Et. injection Et as Et.
    assert (bool_decide (is_Some eml) || bool_decide (is_Some (ev_eml_bytes ev)) = true) as Hb.
    { apply orb_true_iff. rewrite !bool_decide_eq_true. rewrite <- !not_eq_None_Some. tauto. }
    rewrite Hb in Et. cbn [andb] in Et. clear Hb. by case_bool_decide.
  - intros d Hd. rewrite Hd in E4. by case_bool_decide.
Qed.

Lemma agent_signature_passed n1 n2 t eml poi e l :
  agent_signature n1 n2 t eml (Some poi) (Some e) = Ok l -> lr_passed l = true ->
  (exists b k, get_pubkey n1 t (or_str (poi_agent_pubkey_id poi) "") = Ok (Some b) /\ portal_load_public_key b = Ok k /\
    verify_poi_signature poi k = Ok true) /\
  exists r, get_key_record n2 t (or_str (poi_agent_pubkey_id poi) "") = Ok r /\ identity_bound eml poi e r.
Proof.
  unfold agent_signature. destruct (get_pubkey n1 t _) as [[b|]|]; cbn [mbind result_bind]; [|by intros [= <-]|done].
  destruct (get_key_record n2 t _) as [r|]; cbn [mbind result_bind]; [|done].
  destruct (identity_errors _ _ _ _) as [errs|] eqn:Ei; cbn [mbind result_bind]; [|done].
  unfold catch_all, try_except.
  destruct (portal_load_public_key b) as [k|ex] eqn:Ek; cbn [mbind result_bind].
  2: { destruct (catches _ ex); [|done]. by intros [= <-]. }
  destruct (verify_poi_signature poi k) as [v|ex] eqn:Ev; cbn [mbind result_bind].
  2: { destruct (catches _ ex); [|done]. by intros [= <-]. }
  intros [= <-]. cbn [lr_passed link_of]. intros [-> Hb]%andb_prop. apply bool_decide_eq_true in Hb as ->.
  split; [eauto 10|]. exists r. split; [done|]. by apply identity_errors_nil.
Qed.

Lemma user_signature_passed n t poi e l :
  user_signature n t (Some poi) (Some e) = Ok l -> lr_passed l = true ->
  exists b k sg h, get_pubkey n t (se_pubkey_id (ev_user_envelope e)) = Ok (Some b) /\
    portal_load_public_key b = Ok k /\ b64decode true (se_signature (ev_user_envelope e)) = Ok sg /\
    hash_payload (JObj (signing_payload (ev_user_envelope e))) = Ok h /\ verify k (ObjBytes sg) (ObjBytes h) = Ok true.
Proof.
  unfold user_signature. destruct (get_pubkey n t _) as [[b|]|]; cbn [mbind result_bind]; [|by intros [= <-]|done].
  unfold try_except. destruct (b64decode true _) as [sg|ex]; cbn [mbind result_bind].
  2: { destruct (catches _ ex); [|done]. by intros [= <-]. }
  destruct (portal_load_public_key b) as [k|ex] eqn:Ek; cbn [mbind result_bind].
  2: { destruct (catches _ ex); [|done]. by intros [= <-]. }
  destruct (hash_payload _) as [h|ex]; cbn [mbind result_bind].
  2: { destruct (catches _ ex); [|done]. by intros [= <-]. }
  destruct (verify k _ _) as [v|ex] eqn:Ev; cbn [mbind result_bind].
  2: { destruct (catches _ ex); [|done]. by intros [= <-]. }
  intros [= <-]. cbn [lr_passed link_of]. intros ->. eauto 10.
Qed.

Lemma merkle_root_match_passed ledger poi ev rc pv l :
  merkle_root_match ledger poi ev rc = Ok (pv, l) -> lr_passed l = true -> chain_ok ledger.
Proof.
  unfold merkle_root_match. destruct poi as [poi|]; [|by intros [= <- <-]]. destruct ev as [ev|]; [|by intros [= <- <-]].
  destruct (rc_root rc) as [r|]; [|by intros [= <- <-]]. destruct (rc_entries rc) as [|first rest]; [by intros [= <- <-]|].
  destruct (match rc_tree rc with Some t => Ok t | None => build_merkle_tree (first :: rest) end ≫= _) as [v|e].
  - destruct (first_invalid_entry_id ledger) as [c|e] eqn:Ec; [|by destruct (catches _ e); [intros [= <- <-]|]].
    intros [= <- <-]. cbn [lr_passed link_of]. intros [[_ Hc]%andb_prop _]%andb_prop.
    apply bool_decide_eq_true in Hc as ->. by apply first_invalid_none.
  - by destruct (catches _ e); [intros [= <- <-]|].
Qed.

(** The results of the steps behind a trace. *)
Lemma verify_extracted_with_inv verify_timestamp_token env ledgers eml x tr :
  verify_extracted_with verify_timestamp_token env ledgers eml x = Ok tr ->
  exists rc agent user pv merkle stamp,
    let ledger := match xt_evidence x with Some ev => ledger_at ledgers (ev_ledger ev) | None => [] end in
    hash_recomputation ledger eml (xt_parsed x) (xt_poi x) (xt_evidence x) = Ok rc /\
    agent_signature (pe_now_agent env) (pe_now_record env) (pe_registry env) eml (xt_poi x) (xt_evidence x) = Ok agent /\
    user_signature (pe_now_user env) (pe_registry env) (xt_poi x) (xt_evidence x) = Ok user /\
    merkle_root_match ledger (xt_poi x) (xt_evidence x) rc = Ok (pv, merkle) /\
    timestamp_anchor_with verify_timestamp_token (pe_anchor_store env) (xt_poi x) (xt_evidence x) (rc_root rc) = Ok stamp /\
    vt_links tr = [xt_link x; rc_link rc; agent; user; merkle; stamp] /\
    vt_overall_valid tr = forallb lr_passed (vt_links tr).
Proof.
  unfold verify_extracted_with. destruct (hash_recomputation _ _ _ _ _) as [rc|]; cbn [mbind result_bind]; [|done].
  destruct (agent_signature _ _ _ _ _ _) as [agent|]; cbn [mbind result_bind]; [|done].
  destruct (user_signature _ _ _ _) as [user|]; cbn [mbind result_bind]; [|done].
  destruct (merkle_root_match _ _ _ _) as [[pv merkle]|] eqn:Em; cbn [mbind result_bind]; [|done].
  destruct (timestamp_anchor_with _ _ _ _ _) as [stamp|] eqn:Es; cbn [mbind result_bind]; [|done].
  destruct (match rc_tree rc with Some _ => _ | None => _ end) as [v|]; cbn [mbind result_bind]; [|done].
  intros [= <-]. exists rc, agent, user, pv, merkle, stamp. by rewrite Em, Es.
Qed.

Lemma verify_extracted_inv env ledgers eml x tr :
  verify_extracted env ledgers eml x = Ok tr ->
  exists rc agent user pv merkle stamp,
    let ledger := match xt_evidence x with Some ev => ledger_at ledgers (ev_ledger ev) | None => [] end in
    hash_recomputation ledger eml (xt_parsed x) (xt_poi x) (xt_evidence x) = Ok rc /\
    agent_signature (pe_now_agent env) (pe_now_record env) (pe_registry env) eml (xt_poi x) (xt_evidence x) = Ok agent /\
    user_signature (pe_now_user env) (pe_registry env) (xt_poi x) (xt_evidence x) = Ok user /\
    merkle_root_match ledger (xt_poi x) (xt_evidence x) rc = Ok (pv, merkle) /\
    timestamp_anchor (pe_tsa_config env) (pe_tsa_download env) (pe_anchor_store env) (xt_poi x) (xt_evidence x)
      (rc_root rc) = Ok stamp /\
    vt_links tr = [xt_link x; rc_link rc; agent; user; merkle; stamp] /\
    vt_overall_valid tr = forallb lr_passed (vt_links tr).
Proof. apply verify_extracted_with_inv. Qed.

(** A valid trace, from the extraction on. *)
Lemma verify_extracted_sound env ledgers eml x tr :
  verify_extracted env ledgers eml x = Ok tr -> vt_overall_valid tr = true ->
  exists poi ev, xt_poi x = Some poi /\ xt_evidence x = Some ev /\
    claims_hold env (ledger_at ledgers (ev_ledger ev)) eml (xt_parsed x) poi ev.
Proof.
  intros (rc & agent & user & pv & merkle & stamp & Erc & Ea & Eu & Em & _ & Hl & Hv)%verify_extracted_inv Hvalid.
  rewrite Hvalid, Hl in Hv. symmetry in Hv. cbn [forallb] in Hv. rewrite !andb_true_iff in Hv.
  destruct Hv as (_ & H2' & H3' & H4' & H5' & _).
  destruct (hash_recomputation_passed _ _ _ _ _ _ Erc H2') as (poi & ev & Ep & Eev & Hp & Hs & Hpl & es & t & r & Hes & Ht & Hr & Hroot & _).
  rewrite Eev, Ep in *. exists poi, ev. split_and!; [done..|].
  destruct (agent_signature_passed _ _ _ _ _ _ _ Ea H3') as [Hag Hid].
  split; [done|done|done|eauto 10|by eapply merkle_root_match_passed|done|done|by eapply user_signature_passed].
Qed.

(** *** Recomputed ledgers *)

Lemma recompute_from_chain prev es rs :
  recompute_from prev es = Ok rs -> chain_from prev rs /\ content <$> rs = content <$> es.
Proof.
  revert prev rs. induction es as [|e es IH]; intros prev rs; cbn [recompute_from].
  - by intros [= <-].
  - destruct (compute_leaf_hash (content e) prev) as [h|] eqn:Eh; cbn [mbind result_bind]; [|done].
    destruct (recompute_from h es) as [rs'|] eqn:Er; cbn [mbind result_bind]; [|done]. intros [= <-].
    apply IH in Er as [Hc Hm]. rewrite !fmap_cons, Hm. split; [|done]. cbn. unfold entry_ok. cbn. by rewrite Eh.
Qed.

Lemma fmap_length_eq {A B} (f : A -> B) l k : f <$> l = f <$> k -> length l = length k.
Proof. intros E. apply (f_equal length) in E. by rewrite !length_fmap in E. Qed.

Lemma last_leaf_hash_fmap l1 l2 : leaf_hash <$> l1 = leaf_hash <$> l2 -> last_leaf_hash l1 = last_leaf_hash l2.
Proof.
  intros E. unfold last_leaf_hash, end_hash.
  assert (leaf_hash <$> last l1 = leaf_hash <$> last l2) as El by by rewrite <- !fmap_last, E.
  destruct (last l1), (last l2); cbn in El; congruence.
Qed.

Lemma same_entry_content l1 l2 : Forall2 same_entry l1 l2 -> Forall2 json_equiv (content <$> l1) (content <$> l2).
Proof. induction 1 as [|x y l1 l2 [Hc _] _ IH]; [constructor|]. rewrite !fmap_cons. by constructor. Qed.

(** Equal roots over as many recomputed entries come from equal contents. *)
Lemma recomputed_root_binds `{!Rfc8785Laws} (l1 l2 es1 es2 : list LedgerEntry) t1 t2 r :
  recomputed_entries l1 = Ok es1 -> recomputed_entries l2 = Ok es2 -> length l1 = length l2 ->
  build_merkle_tree es1 = Ok t1 -> build_merkle_tree es2 = Ok t2 -> root t1 = Ok r -> root t2 = Ok r ->
  Forall (fun e => json_wf (content e)) l1 -> Forall (fun e => json_wf (content e)) l2 ->
  collision_free (tree_preimages (length es1) (leaf_hash <$> es1) ++ tree_preimages (length es2) (leaf_hash <$> es2)) ->
  collision_free (leaf_preimages es1 ++ leaf_preimages es2) ->
  Forall2 json_equiv (content <$> l1) (content <$> l2).
Proof.
  intros E1 E2 Hlen Hb1 Hb2 Hr1 Hr2 Hw1 Hw2 Hcf1 Hcf2.
  apply recompute_from_chain in E1 as [Hc1 Hm1], E2 as [Hc2 Hm2].
  pose proof (fmap_length_eq _ _ _ Hm1) as L1. pose proof (fmap_length_eq _ _ _ Hm2) as L2.
  pose proof (build_root_last _ _ _ Hb1 Hr1) as Hl1. pose proof (build_root_last _ _ _ Hb2 Hr2) as Hl2.
  apply build_merkle_tree_inv in Hb1 as (_ & _ & Hd1 & _), Hb2 as (_ & _ & Hd2 & _).
  assert (length es1 = length es2) as Hle by congruence. rewrite <- Hle in Hl2, Hcf1.
  assert (leaf_hash <$> es1 = leaf_hash <$> es2) as Hleaf.
  { eapply top_binding; eauto. by rewrite !length_fmap. }
  rewrite <- Hm1, <- Hm2. apply same_entry_content.
  eapply (chain_binding_aux es1 es2); [exact Hcf2|set_solver|set_solver| | |exact Hc1|exact Hc2|by apply last_leaf_hash_fmap].
  - apply (Forall_fmap content json_wf). rewrite Hm1. by apply Forall_fmap.
  - apply (Forall_fmap content json_wf). rewrite Hm2. by apply Forall_fmap.
Qed.

End Pipeline.

(** ** Lemmas on the displayed tree *)

Section Views.
Context `{Hashlib}.

(** What [level_view] displays: every level but the last padded to an even length. *)
Definition displayed (count level_index : nat) (hashes : list bytes) : list bytes :=
  if (level_index <? count - 1)%nat then pad_level hashes else hashes.

Lemma level_view_hashes count ids i hashes :
  mn_hash <$> ml_nodes (level_view count ids i hashes) = hex <$> displayed count i hashes.
Proof.
  unfold level_view, displayed, pad_level. cbn [ml_nodes]. rewrite <- Nat.negb_even.
  destruct (i <? count - 1)%nat, (Nat.even (length hashes)); cbn [andb negb];
    unfold node_views; rewrite fmap_imap; apply (imap_const hex).
Qed.

(** A padded node is the one marked as the duplicate; a leaf shows the number of its entry. *)
Lemma level_view_node count ids i hashes j v :
  ml_nodes (level_view count ids i hashes) !! j = Some v ->
  (mn_duplicated v = true <-> j = length hashes) /\
  mn_entry_id v = if (i =? 0)%nat then ids !! Nat.min j (length ids - 1) else None.
Proof.
  unfold level_view. cbn [ml_nodes]. unfold node_views. rewrite list_lookup_imap.
  set (odd := _ && _). destruct odd eqn:Eo.
  - destruct ((_ ++ _) !! j) as [h|]; [|done]. intros [= <-]. cbn. rewrite bool_decide_eq_true. split; [naive_solver|done].
  - destruct (hashes !! j) as [h|] eqn:Ej; [|done]. intros [= <-]. cbn. apply lookup_lt_Some in Ej.
    split; [split; [done|lia]|done].
Qed.

Lemma build_levels_up fuel level i l l' :
  (level :: build_levels fuel level) !! i = Some l -> (level :: build_levels fuel level) !! S i = Some l' -> l' = up l.
Proof.
  revert level i. induction fuel as [|f IH]; intros level i; cbn [build_levels]; [done|].
  destruct (1 <? length level)%nat; [|done]. destruct i as [|i].
  - cbn. congruence.
  - apply IH.
Qed.

Lemma merkle_tree_view_inv tree entries signed id pv v :
  merkle_tree_view tree entries signed id pv = Ok v ->
  exists r, root tree = Ok r /\ mv_root v = hex r /\ mv_leaf_count v = length entries /\
    mv_levels v = imap (level_view (length (levels tree)) (entry_id <$> entries)) (levels tree) /\
    (r ≠ [] -> (mv_root_matches_signed v = Some true <-> signed = Some (hex r))).
Proof.
  unfold merkle_tree_view. destruct (root tree) as [r|]; cbn [mbind result_bind]; [|done]. intros [= <-].
  exists r. split_and!; try done. intros Hr. cbn [mv_root_matches_signed]. destruct signed as [s|]; [|done].
  destruct (truthy_str s) eqn:Es.
  - case_bool_decide; [by subst|]. split; [done|congruence].
  - split; [done|]. intros [= ->]. by destruct r.
Qed.

(** The nodes of the level above, as displayed: each is the parent of its two children. *)
Lemma view_parent tree entries i l l' k h :
  build_merkle_tree entries = Ok tree -> levels tree !! i = Some l -> levels tree !! S i = Some l' ->
  l' !! k = Some h ->
  exists a b, displayed (length (levels tree)) i l !! (2 * k)%nat = Some a /\
    displayed (length (levels tree)) i l !! (2 * k + 1)%nat = Some b /\ h = parent_hash a b.
Proof.
  intros (_ & _ & _ & El)%build_merkle_tree_inv Hi Hi' Hk. pose proof (lookup_lt_Some _ _ _ Hi') as Hlt.
  unfold levels in *. rewrite El in *. pose proof (build_levels_up _ _ _ _ _ Hi Hi') as ->.
  unfold displayed. match goal with |- context [(?x <? ?y)%nat] => destruct (Nat.ltb_spec x y); [|lia] end.
  unfold up in Hk. rewrite pair_hashes_lookup in Hk.
  destruct (pad_level l !! (2 * k)%nat) as [a|]; [|done]. cbn [mbind option_bind] in Hk.
  destruct (pad_level l !! (2 * k + 1)%nat) as [b|]; [|done]. injection Hk as <-. eauto.
Qed.

Lemma displayed_lookup_lt count i l j h : l !! j = Some h -> displayed count i l !! j = Some h.
Proof. unfold displayed. destruct (_ <? _)%nat; [apply pad_level_lookup_lt|done]. Qed.

(** A node that is not the duplicate shows a node of the level. *)
Lemma level_view_lookup count ids i l j n :
  ml_nodes (level_view count ids i l) !! j = Some n -> mn_duplicated n = false ->
  exists h, l !! j = Some h /\ mn_hash n = hex h.
Proof.
  intros Hj Hd. pose proof (level_view_node _ _ _ _ _ _ Hj) as [Hdup _].
  assert ((hex <$> displayed count i l) !! j = Some (mn_hash n)) as E.
  { by rewrite <- (level_view_hashes count ids), list_lookup_fmap, Hj. }
  rewrite list_lookup_fmap in E. destruct (displayed count i l !! j) as [h|] eqn:Eh; [|done]. injection E as E.
  exists h. split; [|done]. unfold displayed in Eh. destruct (_ <? _)%nat; [|done].
  apply pad_level_lookup in Eh as [?|[-> _]]; [done|]. destruct Hdup as [_ Hdup]. rewrite Hdup in Hd; done.
Qed.

Lemma level_view_shows count ids i l j h :
  displayed count i l !! j = Some h -> mn_hash <$> ml_nodes (level_view count ids i l) !! j = Some (hex h).
Proof. intros Hj. by rewrite <- list_lookup_fmap, level_view_hashes, list_lookup_fmap, Hj. Qed.

Lemma view_level_lookup tree (entries : list LedgerEntry) i lv :
  imap (level_view (length (levels tree)) (entry_id <$> entries)) (levels tree) !! i = Some lv ->
  exists l, levels tree !! i = Some l /\ lv = level_view (length (levels tree)) (entry_id <$> entries) i l.
Proof. rewrite list_lookup_imap. destruct (levels tree !! i) as [l|]; [|done]. intros [= <-]. eauto. Qed.

End Views.

(** ** Lemmas on whole runs *)

Section Runs.
Context `{Hashlib, Rfc8785, Cryptography, Sqlite, EmailLib, EnvelopeModel, PoiModel, Rfc3161}.
Context {P : Type} `{!EvidencePersistence P}.

(** The recomputed root of a valid run. *)
Lemma valid_run_root (env : PipelineEnv) (s s' : EvidenceState P) eml id tr x poi ev :
  run_verification env s eml id = (s', Ok tr) -> vt_overall_valid tr = true ->
  extract s eml id = (s', Ok x) -> xt_poi x = Some poi -> xt_evidence x = Some ev ->
  exists entries t r,
    recomputed_entries (slice_to (ev_ledger_entry_count ev) (ledger_at (es_ledgers s') (ev_ledger ev))) = Ok entries /\
    build_merkle_tree entries = Ok t /\ root t = Ok r /\ hex r = poi_context_root poi.
Proof.
  rewrite run_verification_eq. intros R V Ex Ep Ee. rewrite Ex in R. cbn [mbind result_bind] in R. injection R as R.
  destruct (verify_extracted_sound _ _ _ _ _ R V) as (poi' & ev' & Ep' & Ee' & []).
  assert (poi' = poi) as -> by congruence. assert (ev' = ev) as -> by congruence. done.
Qed.

(** A run leaves the state of its extraction. *)
Lemma run_verification_state env (s s1 s' : EvidenceState P) eml id x r :
  extract s eml id = (s1, x) -> run_verification env s eml id = (s', r) -> s' = s1.
Proof. rewrite run_verification_eq. intros ->. by intros [= <- _]. Qed.

(** The record of a readable key is readable. *)
Lemma get_key_record_of_get_pubkey now now' t id (b : bytes) :
  get_pubkey now t id = Ok (Some b) -> exists r, get_key_record now' t id = Ok r.
Proof. unfold get_pubkey, get_key_record. destruct (get_key_by_id t id) as [r|]; [|done]. cbn [mbind result_bind]. eauto. Qed.

End Runs.

(** ** Theorems *)

Section Theorems.
Context `{Hashlib, Rfc8785, Cryptography, Sqlite, EmailLib, EnvelopeModel, PoiModel, Rfc3161}.
Context {P : Type} `{!EvidencePersistence P}.

(** The shape of every trace: exactly the six links, in order, and a verdict that is valid if
    and only if every one of them passed. *)
Theorem trace_links_complete (env : PipelineEnv) (s s' : EvidenceState P) (eml_bytes : option bytes)
    (action_id : option string) (tr : VerificationTrace) :
  run_verification env s eml_bytes action_id = (s', Ok tr) ->
  lr_link_name <$> vt_links tr = link_names /\
  (vt_overall_valid tr = true <-> Forall (fun l => lr_passed l = true) (vt_links tr)).
Proof.
  rewrite run_verification_eq. destruct (extract s eml_bytes action_id) as [s1 [x|e]] eqn:Ex; cbn [mbind result_bind]; [|done].
  intros [= <- Ev]. apply verify_extracted_inv in Ev as (rc & agent & user & pv & merkle & stamp & E1 & E2 & E3 & E4 & E5 & El & Eo).
  split.
  - rewrite El. cbn [fmap list_fmap].
    by rewrite (extract_name _ _ _ _ _ Ex), (hash_recomputation_name _ _ _ _ _ _ E1), (agent_signature_name _ _ _ _ _ _ _ E2),
      (user_signature_name _ _ _ _ _ E3), (merkle_root_match_name _ _ _ _ _ _ E4), (timestamp_anchor_name _ _ _ _ _ _ _ E5).
  - rewrite Eo, <- Is_true_true, forallb_True. apply Forall_iff. intros l. apply Is_true_true.
Qed.

(** C4. Soundness of a valid trace: there is a proof of intent and captured evidence, the agent's
    active registered key verifies the proof, the identity the proof claims is that key's, the
    user's active registered key verifies the original prompt, and the prompt, the system
    prompt, the performed payload and the Merkle root of the recomputed ledger are the ones the
    proof commits to, over a ledger whose hash chain is intact. *)
Theorem verified_trace_sound (env : PipelineEnv) (s s' : EvidenceState P) (eml_bytes : option bytes)
    (action_id : option string) (tr : VerificationTrace) :
  run_verification env s eml_bytes action_id = (s', Ok tr) -> vt_overall_valid tr = true ->
  exists x poi ev, extract s eml_bytes action_id = (s', Ok x) /\ xt_poi x = Some poi /\ xt_evidence x = Some ev /\
    claims_hold env (ledger_at (es_ledgers s') (ev_ledger ev)) eml_bytes (xt_parsed x) poi ev.
Proof.
  rewrite run_verification_eq. destruct (extract s eml_bytes action_id) as [s1 [x|e]] eqn:Ex; cbn [mbind result_bind]; [|done].
  intros [= <- Ev] Hv. destruct (verify_extracted_sound _ _ _ _ _ Ev Hv) as (poi & ev & Hp & He & Hc). eauto 10.
Qed.

(** C11. Tampering is detected: two ledgers that verify against proofs with the same context root,
    over as many entries, have the same contents up to the order of object keys; a ledger
    changed in a committed entry cannot verify.  The hashed strings must not collide. *)
Theorem verified_ledgers_agree `{!Rfc8785Laws} (env1 env2 : PipelineEnv) (s1 s1' s2 s2' : EvidenceState P)
    (eml1 eml2 : option bytes) (id1 id2 : option string) (tr1 tr2 : VerificationTrace) (x1 x2 : Extraction)
    (poi1 poi2 : ProofOfIntent) (ev1 ev2 : ActionEvidence) (es1 es2 : list LedgerEntry) :
  let live s' ev := slice_to (ev_ledger_entry_count ev) (ledger_at (es_ledgers s') (ev_ledger ev)) in
  run_verification env1 s1 eml1 id1 = (s1', Ok tr1) -> run_verification env2 s2 eml2 id2 = (s2', Ok tr2) ->
  vt_overall_valid tr1 = true -> vt_overall_valid tr2 = true ->
  extract s1 eml1 id1 = (s1', Ok x1) -> extract s2 eml2 id2 = (s2', Ok x2) ->
  xt_poi x1 = Some poi1 -> xt_poi x2 = Some poi2 -> xt_evidence x1 = Some ev1 -> xt_evidence x2 = Some ev2 ->
  poi_context_root poi1 = poi_context_root poi2 -> length (live s1' ev1) = length (live s2' ev2) ->
  Forall (fun e => json_wf (content e)) (live s1' ev1) -> Forall (fun e => json_wf (content e)) (live s2' ev2) ->
  recomputed_entries (live s1' ev1) = Ok es1 -> recomputed_entries (live s2' ev2) = Ok es2 ->
  collision_free (tree_preimages (length es1) (leaf_hash <$> es1) ++ tree_preimages (length es2) (leaf_hash <$> es2)) ->
  collision_free (leaf_preimages es1 ++ leaf_preimages es2) ->
  Forall2 json_equiv (content <$> live s1' ev1) (content <$> live s2' ev2).
Proof.
  intros live R1 R2 V1 V2 X1 X2 P1 P2 E1 E2 Hroot Hlen W1 W2 Es1 Es2 C1 C2.
  destruct (valid_run_root _ _ _ _ _ _ _ _ _ R1 V1 X1 P1 E1) as (es1' & t1 & r1 & Q1 & B1 & T1 & K1).
  destruct (valid_run_root _ _ _ _ _ _ _ _ _ R2 V2 X2 P2 E2) as (es2' & t2 & r2 & Q2 & B2 & T2 & K2).
  assert (es1' = es1) as -> by (unfold live in Es1; rewrite Q1 in Es1; by injection Es1).
  assert (es2' = es2) as -> by (unfold live in Es2; rewrite Q2 in Es2; by injection Es2).
  assert (r1 = r2) as -> by (apply hex_inj; congruence).
  by eapply recomputed_root_binds.
Qed.

(** A failing branch of the source: for an uploaded message without captured evidence whose
    proof names an action type and whose key is active, the identity check reads an attribute
    of the missing evidence, and the exception leaves [run_verification] without a trace. *)
Theorem upload_without_evidence_escapes (env : PipelineEnv) (s s' : EvidenceState P) (eml_bytes : option bytes)
    (action_id : option string) (x : Extraction) (poi : ProofOfIntent) (ty : string) (b : bytes) :
  extract s eml_bytes action_id = (s', Ok x) -> xt_evidence x = None -> xt_poi x = Some poi ->
  poi_action_type poi = Some ty ->
  get_pubkey (pe_now_agent env) (pe_registry env) (or_str (poi_agent_pubkey_id poi) "") = Ok (Some b) ->
  run_verification env s eml_bytes action_id
    = (s', raise AttributeError "'NoneType' object has no attribute 'action_type'").
Proof.
  intros Ex He Hp Hty Hk. rewrite run_verification_eq, Ex. cbn [mbind result_bind]. f_equal.
  unfold verify_extracted, verify_extracted_with. rewrite He, Hp. cbn [hash_recomputation mbind result_bind agent_signature]. rewrite Hk.
  cbn [mbind result_bind]. destruct (get_key_record_of_get_pubkey _ (pe_now_record env) _ _ _ Hk) as [r ->].
  cbn [mbind result_bind]. unfold identity_errors. by rewrite Hty.
Qed.

(** The tree shown with a trace is the tree that was verified: its root is the computed root,
    level [i] shows the tree's level [i] (an odd level below the root with its last node
    repeated and marked), two neighbours hash to the node above them, each leaf carries its
    entry's number, and the match with the signed root is reported exactly when it holds. *)
Theorem merkle_view_faithful (tree : MerkleTree) (entries : list LedgerEntry) (signed : option string) (id : option Z)
    (pv : option bool) (v : MerkleTreeView) :
  build_merkle_tree entries = Ok tree -> merkle_tree_view tree entries signed id pv = Ok v ->
  exists r, root tree = Ok r /\ mv_root v = hex r /\ length (mv_levels v) = length (levels tree) /\
    (mv_root_matches_signed v = Some true <-> signed = Some (hex r)) /\
    (forall i lv l, mv_levels v !! i = Some lv -> levels tree !! i = Some l ->
       mn_hash <$> ml_nodes lv = hex <$> displayed (length (levels tree)) i l /\
       (forall j n, ml_nodes lv !! j = Some n -> (mn_duplicated n = true <-> j = length l))) /\
    (forall i k lv up_lv n, mv_levels v !! i = Some lv -> mv_levels v !! S i = Some up_lv ->
       ml_nodes up_lv !! k = Some n -> mn_duplicated n = false ->
       exists a b, mn_hash <$> ml_nodes lv !! (2 * k)%nat = Some (hex a) /\
         mn_hash <$> ml_nodes lv !! (2 * k + 1)%nat = Some (hex b) /\ mn_hash n = hex (parent_hash a b)) /\
    (forall lv j e, mv_levels v !! 0%nat = Some lv -> entries !! j = Some e ->
       exists n, ml_nodes lv !! j = Some n /\ mn_hash n = hex (leaf_hash e) /\ mn_entry_id n = Some (entry_id e)).
Proof.
  intros Hb (r & Hr & Hroot & _ & Hl & Hm)%merkle_tree_view_inv. exists r.
  assert (r ≠ []) as Hne.
  { intros ->. pose proof (build_root_last _ _ _ Hb Hr) as Hlast. pose proof (build_merkle_tree_inv _ _ Hb) as (_ & _ & Hd & _).
    pose proof (last_level_digest _ _ _ Hd Hlast). done. }
  rewrite Hl. split_and!; [done|done|by rewrite length_imap|by apply Hm| | |].
  - intros i lv l (l0 & Hi & ->)%view_level_lookup Hi'. assert (l0 = l) as -> by congruence.
    split; [apply level_view_hashes|]. intros j n Hj. by apply (level_view_node _ _ _ _ _ _ Hj).
  - intros i k lv lv' n (l & Hi & ->)%view_level_lookup (l' & Hi' & ->)%view_level_lookup Hk Hd.
    destruct (level_view_lookup _ _ _ _ _ _ Hk Hd) as (h & Hh & Hn).
    destruct (view_parent _ _ _ _ _ _ _ Hb Hi Hi' Hh) as (a & b & Ha & Hb' & ->).
    exists a, b. split_and!; [by apply level_view_shows..|done].
  - intros lv j e (l & Hi & ->)%view_level_lookup Hj.
    assert (l = leaf_hash <$> entries) as ->.
    { apply build_merkle_tree_inv in Hb as (_ & _ & _ & El). unfold levels in Hi. rewrite El in Hi. by injection Hi. }
    assert ((leaf_hash <$> entries) !! j = Some (leaf_hash e)) as Hlj by by rewrite list_lookup_fmap, Hj.
    pose proof (level_view_shows (length (levels tree)) (entry_id <$> entries) 0 _ _ _
      (displayed_lookup_lt (length (levels tree)) 0 _ _ _ Hlj)) as Hs.
    destruct (ml_nodes _ !! j) as [n|] eqn:En; [|done]. injection Hs as Hs. exists n. split_and!; [done..|].
    pose proof (level_view_node _ _ _ _ _ _ En) as [_ ->]. cbn [Nat.eqb]. apply lookup_lt_Some in Hj as Hlt.
    rewrite length_fmap, Nat.min_l by lia. by rewrite list_lookup_fmap, Hj.
Qed.
End Theorems.

(** ** Witnesses *)

Section Witnesses.
#[local] Existing Instance demo_hashlib.
#[local] Existing Instance demo_rfc8785.
#[local] Existing Instance demo_rfc8785_laws.
#[local] Existing Instance demo_cryptography.
#[local] Existing Instance demo_sqlite.
#[local] Existing Instance demo_poi_model.
#[local] Existing Instance demo_envelope_model.
#[local] Existing Instance demo_persistence.
#[local] Existing Instance demo_rfc3161.

(** A parser that reads every file as the message of the demonstration proof. *)
Definition demo_message : Message :=
  mkMessage (fun h => if bool_decide (h = "X-AoR-Proof-of-Intent") then Some demo_header
                      else if bool_decide (h = "Message-ID") then Some "a1" else None)
    false None (Ok (Some "update")).

Definition demo_email_lib : EmailLib := {| parsebytes _ := Ok demo_message |}.
#[local] Existing Instance demo_email_lib.

(** The agent's key and the user's key, both active. *)
Definition demo_portal_table : KeyTable :=
  match (t ← register_agent_public_key demo_wall demo_wall demo_wall [] "email-agent" demo_agent_key;
         register_key demo_wall (fst t) "user-agent" "k1" (demo_der demo_curve_key) "ECDSA-P256-SHA256" (utc demo_wall) None None) with
  | Ok (t, _) => t | Raise _ => [] end.

Definition demo_portal_env : PipelineEnv :=
  mkPipelineEnv demo_portal_table demo_wall demo_wall demo_wall None (Ok demo_config) (fun _ => Ok [x01]).

(** The record of an action, stamped by the authority, over a ledger that has grown since. *)
Definition demo_stamped : ActionEvidence :=
  mkActionEvidence "a1" demo_signed "be safe" 0 2 None (Some demo_poi) (Some "email") (Some demo_payload) None
    (Some (x00 :: demo_anchor_root)).

Definition demo_portal_state (l : Ledger) : EvidenceState (gmap string string) :=
  mkEvidenceState (dict_set "a1" demo_stamped []) (Some ∅) {[ 0%nat := l ]}.

Definition demo_trace (l : Ledger) : result VerificationTrace :=
  (run_verification demo_portal_env (demo_portal_state l) None (Some "a1")).2.

Definition trace_of (r : result VerificationTrace) : VerificationTrace :=
  match r with Ok t => t | Raise _ => mkVerificationTrace None None None None None false [] false None end.

Lemma demo_run_valid l :
  is_ok (demo_trace l) = true ->
  exists s', run_verification demo_portal_env (demo_portal_state l) None (Some "a1") = (s', Ok (trace_of (demo_trace l))).
Proof.
  unfold demo_trace. destruct (run_verification _ _ _ _) as [s' [t|e]]; [|done]. intros _. by exists s'.
Qed.

Lemma trace_links_complete_witness :
  vt_overall_valid (trace_of (demo_trace demo_grown)) = true /\
  lr_link_name <$> vt_links (trace_of (demo_trace demo_grown)) = link_names.
Proof.
  split; [vm_compute; reflexivity|]. destruct (demo_run_valid demo_grown) as [s' E]; [vm_compute; reflexivity|].
  apply (trace_links_complete _ _ _ _ _ _ E).
Defined.

Lemma verified_trace_sound_witness : exists poi, hex demo_anchor_root = poi_context_root poi /\ chain_ok demo_grown.
Proof.
  destruct (demo_run_valid demo_grown) as [s' E]; [vm_compute; reflexivity|].
  assert (vt_overall_valid (trace_of (demo_trace demo_grown)) = true) as Ev by (vm_compute; reflexivity).
  pose proof (verified_trace_sound _ _ _ _ _ _ E Ev) as (x & poi & ev & Ex & Hp & He & Hc).
  assert (extract (demo_portal_state demo_grown) None (Some "a1")
    = (demo_portal_state demo_grown, Ok (mkExtraction (Some demo_stamped) (Some "a1") [("action_payload", JObj demo_payload)]
        (Some demo_poi) (link_passed "poi_extraction" "signed PoI loaded from structured action evidence")))) as Ex'
    by reflexivity.
  rewrite Ex' in Ex. injection Ex as <- <-. cbn [xt_evidence xt_poi] in He, Hp. injection He as <-. injection Hp as <-.
  exists demo_poi. split; [vm_compute; reflexivity|exact (ch_chain _ _ _ _ _ _ Hc)].
Defined.

Definition demo_extraction : Extraction :=
  mkExtraction (Some demo_stamped) (Some "a1") [("action_payload", JObj demo_payload)]
    (Some demo_poi) (link_passed "poi_extraction" "signed PoI loaded from structured action evidence").

Definition demo_entries_of (l : Ledger) : list LedgerEntry :=
  match recomputed_entries (slice_to 2 l) with Ok es => es | Raise _ => [] end.

Lemma demo_contents_wf :
  Forall (fun e => json_wf (content e)) (slice_to 2 demo_grown) /\
  Forall (fun e => json_wf (content e)) (slice_to 2 demo_ledger').
Proof. split; vm_compute; repeat constructor; set_solver. Qed.

(** The session's ledger with the keys of an entry in the other order verifies as well. *)
Lemma verified_ledgers_agree_witness :
  Forall2 json_equiv (content <$> slice_to 2 demo_grown) (content <$> slice_to 2 demo_ledger').
Proof.
  destruct (demo_run_valid demo_grown) as [s1 E1]; [vm_compute; reflexivity|].
  destruct (demo_run_valid demo_ledger') as [s2 E2]; [vm_compute; reflexivity|].
  assert (extract (demo_portal_state demo_grown) None (Some "a1") = (demo_portal_state demo_grown, Ok demo_extraction))
    as X1 by reflexivity.
  assert (extract (demo_portal_state demo_ledger') None (Some "a1") = (demo_portal_state demo_ledger', Ok demo_extraction))
    as X2 by reflexivity.
  assert (s1 = demo_portal_state demo_grown) as Es1 by exact (run_verification_state _ _ _ _ _ _ _ _ X1 E1).
  assert (s2 = demo_portal_state demo_ledger') as Es2 by exact (run_verification_state _ _ _ _ _ _ _ _ X2 E2).
  subst s1 s2.
  apply (verified_ledgers_agree demo_portal_env demo_portal_env _ _ _ _ _ _ _ _ _ _ demo_extraction demo_extraction
    demo_poi demo_poi demo_stamped demo_stamped (demo_entries_of demo_grown) (demo_entries_of demo_ledger') E1 E2).
  - vm_compute; reflexivity.
  - vm_compute; reflexivity.
  - exact X1.
  - exact X2.
  - reflexivity.
  - reflexivity.
  - reflexivity.
  - reflexivity.
  - reflexivity.
  - reflexivity.
  - exact (proj1 demo_contents_wf).
  - exact (proj2 demo_contents_wf).
  - vm_compute; reflexivity.
  - vm_compute; reflexivity.
  - apply (bool_decide_unpack _). vm_compute. exact I.
  - apply (bool_decide_unpack _). vm_compute. exact I.
Defined.

Definition demo_no_evidence : EvidenceState (gmap string string) := mkEvidenceState [] (Some ∅) ∅.

(** An upload of a signed message to a portal that has no evidence for it. *)
Lemma upload_without_evidence_escapes_witness :
  run_verification demo_portal_env demo_no_evidence (Some [x00]) None
  = (demo_no_evidence, raise AttributeError "'NoneType' object has no attribute 'action_type'").
Proof.
  assert (exists x, extract demo_no_evidence (Some [x00]) None = (demo_no_evidence, Ok x) /\ xt_evidence x = None /\
    xt_poi x = Some demo_poi) as (x & Ex & He & Hp).
  { eexists. split_and!; vm_compute; reflexivity. }
  apply (upload_without_evidence_escapes demo_portal_env demo_no_evidence demo_no_evidence (Some [x00]) None x demo_poi "email"
    (ed_public_raw (ed_public_key demo_agent_key)) Ex He Hp); vm_compute; reflexivity.
Defined.

Definition demo_view : MerkleTreeView :=
  match merkle_tree_view (demo_tree demo_entries) demo_entries None (Some 1) (Some true) with
  | Ok v => v | Raise _ => mkMerkleTreeView "" None None 0 None None [] end.

Lemma merkle_view_faithful_witness :
  (length <$> (ml_nodes <$> mv_levels demo_view)) = [4; 2; 1]%nat /\
  exists r, root (demo_tree demo_entries) = Ok r /\ mv_root demo_view = hex r.
Proof.
  split; [vm_compute; reflexivity|].
  destruct (merkle_view_faithful (demo_tree demo_entries) demo_entries None (Some 1) (Some true) demo_view) as (r & Hr & Hv & _).
  - vm_compute; reflexivity.
  - vm_compute; reflexivity.
  - by exists r.
Defined.
End Witnesses.
