(* ===== verification/Completeness.v ===== *)
(** * The pipeline accepts what is true

    The converse of [Portal.verified_trace_sound]: where everything a valid trace claims holds,
    [run_verification] answers a trace and the trace is valid; and a chain of entries, recomputed,
    is itself.  Together with the soundness, a verdict is exactly the claims and the two outer
    links, the extraction and the timestamp. *)

From S2P Require Import Prelude PyStr Base64 Json JsonText PyTime Crypto Instances Ledger Merkle Sql Verifier.
From S2P Require Import Registry Poi AgentBase Executor Tsa Evidence Portal.

#[local] Open Scope Z_scope.

(** ** Each link, from its claim *)

Section Links.
Context `{Hashlib, Rfc8785, Cryptography, EmailLib, EnvelopeModel, PoiModel, Rfc3161}.

Lemma mismatch_none j expected name : hash_hex j = Ok expected -> mismatch j expected name = Ok [].
Proof. unfold mismatch. intros ->. cbn. by rewrite bool_decide_eq_true_2. Qed.

Lemma payload_mismatch_none eml parsed poi ev j :
  artifact_payload eml parsed ev = Some j -> hash_hex j = Ok (poi_action_payload_hash poi) ->
  payload_mismatch eml parsed poi ev = Ok [].
Proof.
  unfold artifact_payload, payload_mismatch. intros Ej Eh. destruct eml as [b|].
  - destruct (dict_get "action_payload" parsed) as [[]|]; try done. injection Ej as <-. by apply mismatch_none.
  - destruct (ev_action_payload ev) as [d|]; [injection Ej as <-; by apply mismatch_none|].
    destruct (ev_eml_bytes ev) as [b|]; [|done]. unfold catch_all, try_except.
    destruct (parse_eml b) as [d|]; [|done]. cbn [mbind result_bind] in *. destruct (dict_item _ d) as [j'|]; [|done].
    injection Ej as ->. cbn [mbind result_bind]. by rewrite (mismatch_none _ _ _ Eh).
Qed.

Lemma hash_recomputation_complete ledger eml parsed poi ev j entries t r :
  hash_hex (JObj [("prompt", JStr (se_prompt (ev_user_envelope ev)))]) = Ok (poi_user_prompt_hash poi) ->
  hash_hex (JObj [("system_prompt", JStr (ev_system_prompt ev))]) = Ok (poi_system_prompt_hash poi) ->
  artifact_payload eml parsed ev = Some j -> hash_hex j = Ok (poi_action_payload_hash poi) ->
  recomputed_entries (slice_to (ev_ledger_entry_count ev) ledger) = Ok entries ->
  build_merkle_tree entries = Ok t -> root t = Ok r -> hex r = poi_context_root poi ->
  hash_recomputation ledger eml parsed (Some poi) (Some ev)
    = Ok (mkRecomputation (Some r) entries (Some t)
            (link_passed "hash_recomputation" "user, system, context, and action hashes all match PoI")).
Proof.
  intros Hp Hs Ej Eh Ee Et Er Ex. unfold hash_recomputation, all_entries.
  rewrite (mismatch_none _ _ _ Hp). cbn [mbind result_bind]. rewrite (mismatch_none _ _ _ Hs). cbn [mbind result_bind].
  rewrite (payload_mismatch_none _ _ _ _ _ Ej Eh). cbn [mbind result_bind].
  unfold recompute_ledger. rewrite Ee, Et, Er, bool_decide_eq_true_2 by done. done.
Qed.

Lemma identity_errors_none eml poi ev r : identity_bound eml poi ev r -> identity_errors eml poi (Some ev) r = Ok [].
Proof.
  intros (Hid & Hty & Hact & Heml & Hpol). unfold identity_errors.
  assert ((match r, poi_agent_id poi with
    | Some r, Some id => if bool_decide (kr_agent_id r = id) then []
        else ["agent_id_mismatch (PoI claims " +:+ str_repr id +:+ ", key belongs to " +:+ str_repr (kr_agent_id r) +:+ ")"]
    | _, _ => [] end) = []) as ->.
  { destruct r as [r|]; [|done]. destruct (poi_agent_id poi) as [id|]; [|done]. rewrite bool_decide_eq_true_2; [done|]. by eapply Hid. }
  assert ((match r, poi_agent_type poi with
    | Some r, Some ty => if bool_decide (kr_agent_type r = Some ty) then []
        else ["agent_type_mismatch (PoI claims " +:+ str_repr ty +:+ ", key belongs to " +:+ repr_opt (kr_agent_type r) +:+ ")"]
    | _, _ => [] end) = []) as ->.
  { destruct r as [r|]; [|done]. destruct (poi_agent_type poi) as [ty|]; [|done]. rewrite bool_decide_eq_true_2; [done|]. by eapply Hty. }
  assert ((match poi_policy_decision poi with
    | Some d => if bool_decide (d = "allow") then [] else ["policy_decision_rejected (PoI contains " +:+ str_repr d +:+ ")"]
    | None => [] end) = []) as ->.
  { destruct (poi_policy_decision poi) as [d|]; [|done]. rewrite bool_decide_eq_true_2; [done|]. by apply Hpol. }
  destruct (poi_action_type poi) as [ty|]; [|done]. destruct (ev_action_type ev) as [ty'|].
  - rewrite bool_decide_eq_true_2; [done|]. by apply Hact.
  - destruct (bool_decide (is_Some eml) || bool_decide (is_Some (ev_eml_bytes ev))) eqn:Eb; [|done]. cbn [andb].
    rewrite (bool_decide_eq_true_2 (ty = "email")); [done|]. apply Heml; [done..|].
    apply orb_true_iff in Eb. rewrite !bool_decide_eq_true in Eb. rewrite !not_eq_None_Some. done.
Qed.

Lemma agent_signature_complete n1 n2 t eml poi ev b k r :
  get_pubkey n1 t (or_str (poi_agent_pubkey_id poi) "") = Ok (Some b) -> portal_load_public_key b = Ok k ->
  verify_poi_signature poi k = Ok true ->
  get_key_record n2 t (or_str (poi_agent_pubkey_id poi) "") = Ok r -> identity_bound eml poi ev r ->
  exists l, agent_signature n1 n2 t eml (Some poi) (Some ev) = Ok l /\ lr_passed l = true.
Proof.
  intros Eb Ek Ev Er Hid. unfold agent_signature. rewrite Eb. cbn [mbind result_bind]. rewrite Er. cbn [mbind result_bind].
  rewrite (identity_errors_none _ _ _ _ Hid). cbn [mbind result_bind]. unfold catch_all, try_except. rewrite Ek. cbn [mbind result_bind].
  rewrite Ev. cbn. eauto.
Qed.

Lemma user_signature_complete n t poi ev b k sg h :
  get_pubkey n t (se_pubkey_id (ev_user_envelope ev)) = Ok (Some b) -> portal_load_public_key b = Ok k ->
  b64decode true (se_signature (ev_user_envelope ev)) = Ok sg ->
  hash_payload (JObj (signing_payload (ev_user_envelope ev))) = Ok h -> verify k (ObjBytes sg) (ObjBytes h) = Ok true ->
  exists l, user_signature n t (Some poi) (Some ev) = Ok l /\ lr_passed l = true.
Proof.
  intros Eb Ek Es Eh Ev. unfold user_signature, try_except. rewrite Eb. cbn [mbind result_bind]. rewrite Es. cbn [mbind result_bind].
  rewrite Ek. cbn [mbind result_bind]. rewrite Eh. cbn [mbind result_bind]. rewrite Ev. cbn. eauto.
Qed.

Lemma merkle_root_match_complete ledger poi ev entries t r l :
  build_merkle_tree entries = Ok t -> root t = Ok r -> hex r = poi_context_root poi -> chain_ok ledger ->
  exists pv m, merkle_root_match ledger (Some poi) (Some ev) (mkRecomputation (Some r) entries (Some t) l) = Ok (pv, m) /\
    lr_passed m = true.
Proof.
  intros Et Er Ex Hc. unfold merkle_root_match. cbn [rc_root rc_entries rc_tree].
  destruct entries as [|first rest]; [by apply build_merkle_tree_inv in Et as (? & _)|].
  destruct (proof_of_entry _ _ first Et) as (r' & proof & Er' & Ep & _ & Hv); [by left|].
  assert (r' = r) as -> by congruence. cbn [mbind result_bind]. rewrite Ep. cbn [mbind result_bind]. rewrite Er. cbn [mbind result_bind].
  apply first_invalid_none in Hc. unfold first_invalid_entry_id. rewrite Hc, Hv. cbv zeta. rewrite !(bool_decide_eq_true_2 _ Ex). cbn. eauto.
Qed.

Lemma merkle_tree_view_ok tree entries signed id pv r : root tree = Ok r -> is_ok (merkle_tree_view tree entries signed id pv) = true.
Proof. unfold merkle_tree_view. by intros ->. Qed.

(** The timestamp link passes for the root the proof signs. *)
Definition stamp_passes (env : PipelineEnv) (poi : ProofOfIntent) (ev : ActionEvidence) : Prop :=
  forall r, hex r = poi_context_root poi -> exists l,
    timestamp_anchor (pe_tsa_config env) (pe_tsa_download env) (pe_anchor_store env) (Some poi) (Some ev) (Some r) = Ok l /\
    lr_passed l = true.

(** The steps after the extraction. *)
Lemma verify_extracted_complete env ledgers eml x poi ev :
  xt_poi x = Some poi -> xt_evidence x = Some ev -> lr_passed (xt_link x) = true ->
  claims_hold env (ledger_at ledgers (ev_ledger ev)) eml (xt_parsed x) poi ev ->
  stamp_passes env poi ev ->
  exists tr, verify_extracted env ledgers eml x = Ok tr /\ vt_overall_valid tr = true /\ vt_action_id tr = xt_action_id x.
Proof.
  intros Ep Eev Hx [Hp Hs (j & Ej & Eh) (entries & t & r & Ee & Et & Er & Ex) Hc (b & k & Eb & Ek & Ev) (kr & Ekr & Hid)
    (ub & uk & sg & h & Eub & Euk & Esg & Euh & Euv)] Hstamp.
  unfold verify_extracted, verify_extracted_with. rewrite Ep, Eev. erewrite hash_recomputation_complete by done. cbn [mbind result_bind rc_root rc_tree rc_entries].
  destruct (agent_signature_complete _ _ _ _ _ _ _ _ _ Eb Ek Ev Ekr Hid) as (la & -> & Ha). cbn [mbind result_bind].
  destruct (user_signature_complete _ _ poi _ _ _ _ _ Eub Euk Esg Euh Euv) as (lu & -> & Hu). cbn [mbind result_bind].
  match goal with |- context [merkle_root_match ?l ?p ?e (mkRecomputation ?r' ?es ?t' ?lk)] =>
    destruct (merkle_root_match_complete l poi ev es t r lk Et Er Ex Hc) as (pv & lm & -> & Hm) end. cbn [mbind result_bind].
  destruct (Hstamp _ Ex) as (ls & Els & Hl). unfold timestamp_anchor in Els. rewrite Els. cbn [mbind result_bind].
  destruct entries as [|first rest]; [by apply build_merkle_tree_inv in Et as (? & _)|].
  pose proof (merkle_tree_view_ok t (first :: rest) (poi_context_root <$> Some poi) (Some (entry_id first)) pv r Er) as Hv.
  destruct (merkle_tree_view _ _ _ _ _) as [v|]; [|done]. cbn [mbind result_bind]. eexists. split_and!; [done| |done].
  cbn [vt_overall_valid forallb rc_link]. by rewrite Hx, Ha, Hu, Hm, Hl.
Qed.

(** Nothing that was recorded at the time of an entry changes what it hashes to. *)
Lemma recompute_chain prev l : chain_from prev l -> recompute_from prev l = Ok l.
Proof.
  revert prev. induction l as [|e l IH]; intros prev; cbn [chain_from recompute_from]; [done|].
  intros [[<- ->] Hl]. cbn [mbind result_bind]. rewrite (IH _ Hl). by destruct e.
Qed.

Lemma chain_take n l : chain_ok l -> chain_ok (take n l).
Proof. unfold chain_ok. rewrite <- (take_drop n l) at 1. by intros [? _]%chain_from_app. Qed.

End Links.

(** ** Runs *)

Section Runs.
Context `{Hashlib, Rfc8785, Cryptography, EmailLib, EnvelopeModel, PoiModel, Rfc3161}.
Context {P : Type} `{!EvidencePersistence P}.

(** A proof is only extracted with a passed link. *)
Lemma find_poi_link_passed eml ev parsed link parsed' poi l :
  find_poi eml ev parsed link = Ok (parsed', Some poi, l) -> lr_passed l = true.
Proof.
  unfold find_poi. destruct link; [done|].
  assert (forall header, catch_all (poi ← decode_poi_header header;
      Ok (parsed, Some poi, link_passed "poi_extraction" "signed PoI decoded from email header"))
    (fun e => Ok (parsed, None, link_failed "poi_extraction" ("malformed PoI header: " +:+ exn_msg e))) = Ok (parsed', Some poi, l) ->
    lr_passed l = true) as Hd.
  { intros header. unfold catch_all, try_except. destruct (decode_poi_header header) as [p|e]; cbn [mbind result_bind]; [by intros [= _ _ <-]|].
    by destruct (catches _ e). }
  destruct eml as [b|]; [|destruct (ev ≫= ev_poi); [by intros [= _ _ <-]|]];
    (destruct (parsed_str _ parsed) as [h|]; [|done]; destruct (truthy_str h); [apply Hd|done]).
Qed.

Lemma extract_link_passed s eml id s' x poi : extract s eml id = (s', Ok x) -> xt_poi x = Some poi -> lr_passed (xt_link x) = true.
Proof.
  unfold extract. destruct (lookup_evidence s id None) as [s1 [ev|e]]; cbn [mbind result_bind]; [|by intros [= <-]].
  destruct (parse_upload eml) as [[parsed link]|e]; cbn [mbind result_bind]; [|by intros [= <-]].
  destruct (lookup_evidence s1 _ ev) as [s2 [ev2|e]]; cbn [mbind result_bind]; [|by intros [= <-]].
  destruct (parse_stored eml ev2 parsed link) as [[parsed2 link2]|e]; cbn [mbind result_bind]; [|by intros [= <-]].
  destruct (find_poi eml ev2 parsed2 link2) as [[[parsed3 poi'] l]|e] eqn:Ef; cbn [mbind result_bind]; [|by intros [= <-]].
  intros [= <- <-]. cbn. intros ->. by eapply find_poi_link_passed.
Qed.

(** The extraction of a cached record that carries its proof, by its identifier. *)
Lemma extract_cached s id ev poi d :
  truthy_str id = true -> dict_get id (es_evidence s) = Some ev -> ev_poi ev = Some poi -> ev_action_payload ev = Some d ->
  (forall b, ev_eml_bytes ev = Some b -> is_ok (parse_eml b) = true) ->
  exists x, extract s None (Some id) = (s, Ok x) /\ xt_poi x = Some poi /\ xt_evidence x = Some ev /\ xt_action_id x = Some id.
Proof.
  intros Hid Hev Hp Hd Hb. unfold extract, lookup_evidence. rewrite Hid. unfold evidence_get. rewrite Hev. cbn -[lr_passed].
  rewrite Hid, Hid, Hev. cbn [mbind result_bind]. unfold parse_stored, find_poi.
  destruct (ev_eml_bytes ev) as [b|].
  - specialize (Hb b eq_refl). unfold catch_all, try_except. destruct (parse_eml b) as [parsed|]; [|done]. cbn [mbind result_bind option_bind].
    rewrite Hp, Hd. cbn. eauto 10.
  - cbn [mbind result_bind option_bind]. rewrite Hp, Hd. cbn. eauto 10.
Qed.

(** A root without a token is pending, which passes. *)
Lemma stamp_pending config download store poi ev r :
  ev_timestamp_token ev = None ->
  (forall anchors r', store = Some anchors -> fromhex (poi_context_root poi) = Ok r' -> latest_anchored anchors r' = None) ->
  (exists r', fromhex (poi_context_root poi) = Ok r') ->
  exists l, timestamp_anchor config download store (Some poi) (Some ev) (Some r) = Ok l /\ lr_passed l = true.
Proof.
  intros Ht Ha [r' Hr]. unfold timestamp_anchor, timestamp_anchor_with. rewrite Ht. destruct store as [anchors|]; cbn [mbind result_bind].
  - rewrite Hr. cbn [mbind result_bind]. rewrite (Ha _ _ eq_refl Hr). cbn. eauto.
  - cbn. eauto.
Qed.

End Runs.

(** ** Theorem *)

Section Theorems.
Context `{Hashlib, Rfc8785, Cryptography, EmailLib, EnvelopeModel, PoiModel, Rfc3161}.
Context {P : Type} `{!EvidencePersistence P}.

(** C5. The verdict is exact.  Once a proof and its captured evidence are extracted and the timestamp
    link passes for the signed root, the run answers a valid trace if and only if the claims
    hold: the prompts, the payload and the recomputed ledger are those the proof commits to, the
    hash chain is intact, the agent's and the user's active keys verify the two signatures, and
    the identity and the decision are the ones allowed. *)
Theorem verdict_exact (env : PipelineEnv) (s s' : EvidenceState P) (eml_bytes : option bytes) (action_id : option string)
    (x : Extraction) (poi : ProofOfIntent) (ev : ActionEvidence) :
  extract s eml_bytes action_id = (s', Ok x) -> xt_poi x = Some poi -> xt_evidence x = Some ev ->
  stamp_passes env poi ev ->
  (exists tr, run_verification env s eml_bytes action_id = (s', Ok tr) /\ vt_overall_valid tr = true) <->
  claims_hold env (ledger_at (es_ledgers s') (ev_ledger ev)) eml_bytes (xt_parsed x) poi ev.
Proof.
  intros Ex Ep Ee Hstamp. rewrite run_verification_eq, Ex. cbn [mbind result_bind]. split.
  - intros (tr & [= E] & Hv). destruct (verify_extracted_sound _ _ _ _ _ E Hv) as (poi' & ev' & Ep' & Ee' & Hc).
    assert (poi' = poi) as -> by congruence. assert (ev' = ev) as -> by congruence. done.
  - intros Hc. destruct (verify_extracted_complete _ _ _ _ _ _ Ep Ee (extract_link_passed _ _ _ _ _ _ Ex Ep) Hc Hstamp) as (tr & -> & Hv & _).
    by exists tr.
Qed.
End Theorems.

(** ** Witness *)

Section Witnesses.
#[local] Existing Instance demo_hashlib.
#[local] Existing Instance demo_rfc8785.
#[local] Existing Instance demo_cryptography.
#[local] Existing Instance demo_sqlite.
#[local] Existing Instance demo_poi_model.
#[local] Existing Instance demo_envelope_model.
#[local] Existing Instance demo_persistence.
#[local] Existing Instance demo_rfc3161.
#[local] Existing Instance demo_email_lib.

Lemma demo_stamp_passes : exists l,
  timestamp_anchor (pe_tsa_config demo_portal_env) (pe_tsa_download demo_portal_env) (pe_anchor_store demo_portal_env)
    (Some demo_poi) (Some demo_stamped) (Some demo_anchor_root) = Ok l /\ lr_passed l = true.
Proof. eexists. split; vm_compute; reflexivity. Qed.

Lemma demo_signed_root r : hex r = poi_context_root demo_poi -> r = demo_anchor_root.
Proof. intros E. apply hex_inj. rewrite E. vm_compute. reflexivity. Qed.

(** The stamped action of the demonstration: the run and its claims, both ways. *)
Lemma verdict_exact_witness :
  claims_hold demo_portal_env demo_grown None [("action_payload", JObj demo_payload)] demo_poi demo_stamped /\
  exists tr, run_verification demo_portal_env (demo_portal_state demo_grown) None (Some "a1")
    = (demo_portal_state demo_grown, Ok tr) /\ vt_overall_valid tr = true.
Proof.
  assert (extract (demo_portal_state demo_grown) None (Some "a1") = (demo_portal_state demo_grown, Ok demo_extraction)) as Ex by reflexivity.
  pose proof (verdict_exact demo_portal_env _ _ None (Some "a1") demo_extraction demo_poi demo_stamped Ex eq_refl eq_refl) as Hv.
  destruct Hv as [Hclaims Hrun].
  - intros r ->%demo_signed_root. exact demo_stamp_passes.
  - assert (claims_hold demo_portal_env demo_grown None [("action_payload", JObj demo_payload)] demo_poi demo_stamped) as Hc.
    { apply Hclaims. destruct (demo_run_valid demo_grown) as [s' E]; [vm_compute; reflexivity|].
      assert (s' = demo_portal_state demo_grown) as -> by exact (run_verification_state _ _ _ _ _ _ _ _ Ex E).
      eexists. split; [exact E|]. vm_compute. reflexivity. }
    split; [exact Hc|]. apply Hrun. exact Hc.
Defined.
End Witnesses.
