(* ===== verification/Attribution.v ===== *)
(** * Which links fail

    [Completeness.v] says when a verdict is valid; this file says which links an invalid one
    blames.  Each link fails if and only if its own claim is false, the claims being stated
    without the code of the links, and the attacks the repository demonstrates break exactly the links they should: a revoked agent key only the
    agent's signature, a forged timestamp only the timestamp, a changed message only the hashes,
    a changed ledger entry the hashes and the Merkle root. *)

From S2P Require Import Prelude PyStr Base64 Json JsonText PyTime Crypto Instances Ledger Merkle Sql Verifier.
From S2P Require Import Registry Poi AgentBase Executor Tsa Evidence Portal Completeness.

#[local] Open Scope Z_scope.

(** The names of the links that did not pass, in order. *)
Definition broken_links (tr : VerificationTrace) : list string :=
  lr_link_name <$> filter (fun l => lr_passed l = false) (vt_links tr).

Lemma broken_link_exact (links : list LinkResult) (l : LinkResult) :
  NoDup (lr_link_name <$> links) -> l ∈ links ->
  lr_link_name l ∉ lr_link_name <$> filter (fun l => lr_passed l = false) links <-> lr_passed l = true.
Proof.
  intros Hnd Hl. rewrite list_elem_of_fmap. split.
  - intros Hn. destruct (lr_passed l) eqn:E; [done|]. destruct Hn. exists l. by rewrite list_elem_of_filter.
  - intros Hp (k & Hk & [Hf Hin]%list_elem_of_filter). assert (k = l) as ->; [|congruence].
    apply list_elem_of_lookup in Hl as [i Hi], Hin as [j Hj].
    assert (i = j) as ->; [|congruence]. eapply (NoDup_lookup _ i j (lr_link_name l) Hnd); rewrite list_lookup_fmap.
    + by rewrite Hi.
    + by rewrite Hj, Hk.
Qed.

Section Links.
Context `{Hashlib, Rfc8785, Cryptography, EmailLib, EnvelopeModel, PoiModel, Rfc3161}.

(** ** The claims, link by link *)

(** The recomputed ledger has the root the proof signs. *)
Definition context_committed (ledger : Ledger) (poi : ProofOfIntent) (ev : ActionEvidence) : Prop :=
  exists entries t r, recomputed_entries (slice_to (ev_ledger_entry_count ev) ledger) = Ok entries /\
    build_merkle_tree entries = Ok t /\ root t = Ok r /\ hex r = poi_context_root poi.

Definition hashes_committed (ledger : Ledger) (eml : option bytes) (parsed : dict) (poi : ProofOfIntent) (ev : ActionEvidence) : Prop :=
  hash_hex (JObj [("prompt", JStr (se_prompt (ev_user_envelope ev)))]) = Ok (poi_user_prompt_hash poi) /\
  hash_hex (JObj [("system_prompt", JStr (ev_system_prompt ev))]) = Ok (poi_system_prompt_hash poi) /\
  (exists j, artifact_payload eml parsed ev = Some j /\ hash_hex j = Ok (poi_action_payload_hash poi)) /\
  context_committed ledger poi ev.

Definition agent_signed (env : PipelineEnv) (eml : option bytes) (poi : ProofOfIntent) (ev : ActionEvidence) : Prop :=
  (exists b k, get_pubkey (pe_now_agent env) (pe_registry env) (or_str (poi_agent_pubkey_id poi) "") = Ok (Some b) /\
    portal_load_public_key b = Ok k /\ verify_poi_signature poi k = Ok true) /\
  exists r, get_key_record (pe_now_record env) (pe_registry env) (or_str (poi_agent_pubkey_id poi) "") = Ok r /\
    identity_bound eml poi ev r.

Definition user_signed (env : PipelineEnv) (ev : ActionEvidence) : Prop :=
  exists b k sg h, get_pubkey (pe_now_user env) (pe_registry env) (se_pubkey_id (ev_user_envelope ev)) = Ok (Some b) /\
    portal_load_public_key b = Ok k /\ b64decode true (se_signature (ev_user_envelope ev)) = Ok sg /\
    hash_payload (JObj (signing_payload (ev_user_envelope ev))) = Ok h /\ verify k (ObjBytes sg) (ObjBytes h) = Ok true.

(** A record of the anchor store says that [root] was anchored. *)
Definition anchors_root (root : bytes) (record : AnchorRecord) : Prop := an_ledger_root record = root /\ an_status record = Anchored.

(** The token an action is held to: the one recorded with its evidence; without one, that of the
    last record that anchors the root the proof signs; without such a record, none. *)
Inductive checked_token (anchors : option AnchorStore) (poi : ProofOfIntent) (ev : ActionEvidence) : option bytes -> Prop :=
| token_recorded token : ev_timestamp_token ev = Some token -> checked_token anchors poi ev (Some token)
| token_anchored before record after signed_root :
    ev_timestamp_token ev = None -> anchors = Some (before ++ record :: after) -> fromhex (poi_context_root poi) = Ok signed_root ->
    anchors_root signed_root record -> Forall (fun r => ~ anchors_root signed_root r) after ->
    checked_token anchors poi ev (an_token_bytes record)
| token_absent :
    ev_timestamp_token ev = None ->
    (forall store signed_root, anchors = Some store -> fromhex (poi_context_root poi) = Ok signed_root ->
       Forall (fun r => ~ anchors_root signed_root r) store) ->
    checked_token anchors poi ev None.

(** The token is an RFC 3161 response for [root], signed under the certificate that the
    configuration pins by its digest. *)
Definition token_valid (env : PipelineEnv) (token root : bytes) : Prop :=
  length root = 32%nat /\
  exists config certificate_bytes certificate response, pe_tsa_config env = Ok config /\
    pe_tsa_download env config = Ok certificate_bytes /\ hex (sha256 certificate_bytes) = tc_root_ca_sha256 config /\
    load_certificate_bytes certificate_bytes = Ok certificate /\
    decode_timestamp_response token = Ok response /\ verify_message certificate response root = Ok tt.

(** The recomputed root awaits its token, or its token is valid for it. *)
Definition timestamped (env : PipelineEnv) (ledger : Ledger) (poi : ProofOfIntent) (ev : ActionEvidence) : Prop :=
  exists entries t r token, recomputed_entries (slice_to (ev_ledger_entry_count ev) ledger) = Ok entries /\
    build_merkle_tree entries = Ok t /\ root t = Ok r /\ checked_token (pe_anchor_store env) poi ev token /\
    forall b, token = Some b -> token_valid env b r.

(** The proof the artifact carries: without an upload, that of the structured record, whose
    stored message, if there is one, parses; otherwise the one in the header of the message,
    uploaded or stored. *)
Inductive carries (eml : option bytes) (evidence : option ActionEvidence) (poi : ProofOfIntent) : Prop :=
| carries_record ev :
    eml = None -> evidence = Some ev -> ev_poi ev = Some poi ->
    (forall b, ev_eml_bytes ev = Some b -> exists parsed, parse_eml b = Ok parsed) -> carries eml evidence poi
| carries_header b parsed header :
    eml = Some b \/ eml = None /\ (exists ev, evidence = Some ev /\ ev_poi ev = None /\ ev_eml_bytes ev = Some b) ->
    parse_eml b = Ok parsed -> dict_get "poi_header" parsed = Some (JStr header) -> header ≠ "" ->
    decode_poi_header header = Ok poi -> carries eml evidence poi.

(** ** The recomputation behind the links *)

Lemma hash_recomputation_rc ledger eml parsed poi ev rc :
  hash_recomputation ledger eml parsed (Some poi) (Some ev) = Ok rc ->
  exists m4, recompute_ledger (slice_to (ev_ledger_entry_count ev) ledger) poi = Ok (rc_root rc, rc_entries rc, rc_tree rc, m4).
Proof.
  unfold hash_recomputation, all_entries.
  destruct (mismatch _ _ "user_prompt_hash"); cbn [mbind result_bind]; [|done].
  destruct (mismatch _ _ "system_prompt_hash"); cbn [mbind result_bind]; [|done].
  destruct (payload_mismatch _ _ _ _); cbn [mbind result_bind]; [|done].
  destruct (recompute_ledger _ _) as [[[[r es] t] m4]|]; cbn [mbind result_bind]; [|done]. intros [= <-]. by exists m4.
Qed.

Lemma recompute_ledger_root live poi r es t m :
  recompute_ledger live poi = Ok (Some r, es, t, m) ->
  exists t', recomputed_entries live = Ok es /\ build_merkle_tree es = Ok t' /\ t = Some t' /\ root t' = Ok r.
Proof.
  unfold recompute_ledger. destruct (recomputed_entries live) as [es'|e]; [|by destruct (catches _ e)].
  destruct (build_merkle_tree es') as [t'|e] eqn:Et; [|by destruct (catches _ e)].
  destruct (root t') as [r'|e] eqn:Er; [|by destruct (catches _ e)]. intros [= <- <- <- _]. by exists t'.
Qed.

Lemma merkle_root_match_root ledger poi ev rc pv l :
  merkle_root_match ledger (Some poi) (Some ev) rc = Ok (pv, l) -> lr_passed l = true ->
  exists r, rc_root rc = Some r /\ hex r = poi_context_root poi.
Proof.
  unfold merkle_root_match. destruct (rc_root rc) as [r|]; [|by intros [= <- <-]].
  destruct (rc_entries rc) as [|first rest]; [by intros [= <- <-]|].
  destruct (match rc_tree rc with Some t => Ok t | None => build_merkle_tree (first :: rest) end ≫= _) as [v|e].
  - destruct (first_invalid_entry_id ledger) as [c|e]; [|by destruct (catches _ e); [intros [= <- <-]|]].
    intros [= <- <-]. cbn [lr_passed link_of]. intros [_ Hr]%andb_prop. apply bool_decide_eq_true in Hr. by exists r.
  - by destruct (catches _ e); [intros [= <- <-]|].
Qed.

Lemma timestamp_with_name verify store poi ev r l :
  timestamp_anchor_with verify store poi ev r = Ok l -> lr_link_name l = "timestamp_anchor".
Proof.
  unfold timestamp_anchor_with. destruct ev as [ev|]; [|by intros [= <-]]. destruct r as [r|]; [|by intros [= <-]].
  destruct (match ev_timestamp_token ev with Some _ => _ | None => _ end) as [tok|]; [|done].
  cbn [mbind result_bind]. destruct (verify tok r); [|done]. by intros [= <-].
Qed.

(** ** The token and its verification *)

#[export] Instance anchors_root_dec root record : Decision (anchors_root root record).
Proof. unfold anchors_root. apply _. Defined.

Lemma latest_anchored_snoc store record root :
  latest_anchored (store ++ [record]) root = if decide (anchors_root root record) then Some record else latest_anchored store root.
Proof.
  unfold latest_anchored, for_root, anchors_root. rewrite filter_app, filter_cons, filter_nil.
  destruct (decide (an_ledger_root record = root)) as [Er|Er].
  2: { rewrite app_nil_r. destruct (decide _) as [[? _]|]; done. }
  rewrite reverse_snoc, filter_cons. destruct (decide (an_status record = Anchored)) as [Es|Es]; destruct (decide (_ /\ _)) as [[??]|Hn];
    try done. by destruct Hn.
Qed.

Lemma latest_anchored_exact store root :
  match latest_anchored store root with
  | Some record => exists before after, store = before ++ record :: after /\ anchors_root root record /\ Forall (fun r => ~ anchors_root root r) after
  | None => Forall (fun r => ~ anchors_root root r) store
  end.
Proof.
  induction store as [|record store IH] using rev_ind; [constructor|]. rewrite latest_anchored_snoc. destruct (decide _) as [Ha|Ha].
  - by exists store, [].
  - destruct (latest_anchored store root) as [r|].
    + destruct IH as (before & after & -> & Hr & Hf). exists before, (after ++ [record]). rewrite <- app_assoc. split_and!; [done|done|].
      apply Forall_app. split; [done|by repeat constructor].
    + apply Forall_app. split; [done|by repeat constructor].
Qed.

(** The last anchoring record is one record. *)
Lemma last_anchor_unique root (before before' after after' : AnchorStore) record record' :
  before ++ record :: after = before' ++ record' :: after' -> anchors_root root record -> anchors_root root record' ->
  Forall (fun r => ~ anchors_root root r) after -> Forall (fun r => ~ anchors_root root r) after' -> record = record'.
Proof.
  intros E Hr Hr' Ha Ha'. rewrite Forall_forall in Ha, Ha'. apply app_eq_app in E as [l [[-> E]|[-> E]]]; destruct l as [|x l].
  - by injection E.
  - injection E as <- ->. destruct (Ha' record); [set_solver|done].
  - by injection E.
  - injection E as <- ->. destruct (Ha record'); [set_solver|done].
Qed.

(** The step checks the token of the specification. *)
Lemma checked_token_exact verify anchors poi ev r l :
  timestamp_anchor_with verify anchors (Some poi) (Some ev) (Some r) = Ok l ->
  exists token a, checked_token anchors poi ev token /\ (forall token', checked_token anchors poi ev token' -> token' = token) /\
    verify token r = Ok a /\ lr_passed l = ta_pending a || ta_verified a.
Proof.
  unfold timestamp_anchor_with. intros E.
  destruct (match ev_timestamp_token ev with Some _ => _ | None => _ end) as [token|] eqn:Et; [|done]. cbn [mbind result_bind] in E.
  destruct (verify token r) as [a|] eqn:Ev; [|done]. injection E as <-. exists token, a. split; [|split; [|done]]; cbn [lr_passed].
  - destruct (ev_timestamp_token ev) as [tok|] eqn:Ee; [injection Et as <-; by apply token_recorded|].
    destruct anchors as [store|]; [|injection Et as <-; by apply token_absent].
    destruct (fromhex _) as [sr|e] eqn:Eh; cbn [mbind result_bind try_except] in Et.
    2: { destruct (catches _ e); [injection Et as <-|done]. apply token_absent; [done|]. intros ? ? _. congruence. }
    injection Et as <-. pose proof (latest_anchored_exact store sr) as Hl. destruct (latest_anchored store sr) as [record|]; cbn.
    + destruct Hl as (before & after & -> & Hr & Hf). by eapply token_anchored.
    + apply token_absent; [done|]. intros ? ? [= <-] E. by injection (eq_trans (eq_sym Eh) E) as <-.
  - intros token' Hc. inversion Hc as [tok Ee|before record after sr Ee Ea Eh Hr Hf|Ee Hf]; subst; rewrite Ee in Et; [by injection Et|..].
    + rewrite Eh in Et. cbn [mbind result_bind try_except] in Et. injection Et as <-.
      pose proof (latest_anchored_exact (before ++ record :: after) sr) as Hl. destruct (latest_anchored _ sr) as [record'|]; cbn.
      * destruct Hl as (before' & after' & E & Hr' & Hf'). by rewrite (last_anchor_unique sr _ _ _ _ _ _ E Hr Hr' Hf Hf').
      * rewrite Forall_forall in Hl. destruct (Hl record); [set_solver|done].
    + destruct anchors as [store|]; [|by injection Et].
      destruct (fromhex _) as [sr|e] eqn:Eh; cbn [mbind result_bind try_except] in Et; [|destruct (catches _ e); [by injection Et|done]].
      injection Et as <-. pose proof (latest_anchored_exact store sr) as Hl. destruct (latest_anchored store sr) as [record|]; [|done].
      destruct Hl as (before & after & -> & Hr & _). specialize (Hf _ _ eq_refl eq_refl). rewrite Forall_forall in Hf.
      destruct (Hf record); [set_solver|done].
Qed.

(** The portal accepts a token exactly when it is valid, and always says so or not. *)
Lemma portal_token_exact env token root a :
  portal_verify_timestamp_token (pe_tsa_config env) (pe_tsa_download env) token root = Ok a ->
  ta_pending a || ta_verified a = true <-> forall b, token = Some b -> token_valid env b root.
Proof.
  unfold portal_verify_timestamp_token. destruct token as [token|]; [|by intros [= <-]]. intros E.
  trans (token_valid env token root); [|naive_solver]. unfold token_valid.
  destruct (pe_tsa_config env) as [config|e]; cbn [mbind result_bind] in E.
  2: { destruct (catches _ e); [|done]. injection E as <-. cbn. split; [done|by intros (_ & ? & ? & ? & ? & ? & _)]. }
  unfold fetch_pinned_root_certificate in E. destruct (pe_tsa_download env config) as [cb|e] eqn:Ed; cbn [mbind result_bind] in E.
  2: { destruct (catches _ e); [|done]. injection E as <-. cbn. split; [done|]. intros (_ & ? & ? & ? & ? & [= <-] & ? & _). congruence. }
  destruct (decide (hex (sha256 cb) = tc_root_ca_sha256 config)) as [Hp|Hp].
  2: { rewrite (bool_decide_eq_false_2 _ Hp) in E. cbn in E. injection E as <-. cbn. split; [done|].
       intros (_ & ? & ? & ? & ? & [= <-] & ? & ? & _). congruence. }
  rewrite (bool_decide_eq_true_2 _ Hp) in E. cbn [negb] in E.
  destruct (load_certificate_bytes cb) as [c|e] eqn:Ec; cbn [mbind result_bind] in E.
  2: { destruct (catches _ e); [|done]. injection E as <-. cbn. split; [done|].
       intros (_ & ? & ? & ? & ? & [= <-] & ? & ? & ? & _). congruence. }
  destruct (verify_timestamp_token token root (CertObject c)) as [v|e] eqn:Ev.
  2: { destruct (catches _ e) eqn:Ex; [|done]. injection E as <-. cbn. split; [done|].
       intros (Hl & config' & cb' & c' & response & [= <-] & Ed' & _ & Ec' & Er & Em). assert (c' = c) as -> by congruence.
       unfold verify_timestamp_token in Ev. rewrite Hl in Ev. cbn in Ev. rewrite Er in Ev. cbn [mbind result_bind] in Ev. by rewrite Em in Ev. }
  apply timestamp_verified_iff in Ev as [Hv _]. assert (tv_verified v = true <-> ta_pending a || ta_verified a = true) as <-.
  { destruct (tv_verified v); cbn [negb] in E; [|injection E as <-; done]. destruct (tv_gen_time v); [|done]. by injection E as <-. }
  rewrite Hv. split.
  - intros (c' & response & Hl & [= <-] & Er & Em). split; [done|]. by exists config, cb, c, response.
  - intros (Hl & config' & cb' & c' & response & [= <-] & Ed' & _ & Ec' & Er & Em). assert (c' = c) as -> by congruence. by exists c, response.
Qed.

(** Each of the inner links passes exactly on its claim. *)
Lemma links_exact verify env ledgers eml x tr poi ev :
  verify_extracted_with verify env ledgers eml x = Ok tr -> xt_poi x = Some poi -> xt_evidence x = Some ev ->
  exists rc agent user merkle stamp, vt_links tr = [xt_link x; rc_link rc; agent; user; merkle; stamp] /\
    (lr_passed (rc_link rc) = true <-> hashes_committed (ledger_at ledgers (ev_ledger ev)) eml (xt_parsed x) poi ev) /\
    (lr_passed agent = true <-> agent_signed env eml poi ev) /\
    (lr_passed user = true <-> user_signed env ev) /\
    (lr_passed merkle = true <-> context_committed (ledger_at ledgers (ev_ledger ev)) poi ev /\ chain_ok (ledger_at ledgers (ev_ledger ev))) /\
    timestamp_anchor_with verify (pe_anchor_store env) (Some poi) (Some ev) (rc_root rc) = Ok stamp /\
    lr_link_name (rc_link rc) = "hash_recomputation" /\ lr_link_name agent = "agent_signature" /\
    lr_link_name user = "user_signature" /\ lr_link_name merkle = "merkle_root_match" /\ lr_link_name stamp = "timestamp_anchor".
Proof.
  intros (rc & agent & user & pv & merkle & stamp & Erc & Ea & Eu & Em & Est & Hl & _)%verify_extracted_with_inv Ep Ee.
  rewrite Ep, Ee in *. exists rc, agent, user, merkle, stamp. split; [done|].
  split; [|split; [|split; [|split]]].
  - split.
    + intros Hp. destruct (hash_recomputation_passed _ _ _ _ _ _ Erc Hp) as (p & e & [= <-] & [= <-] & Hpr & Hs & Hpl & es & t & r & Hes & Ht & Hr & Hx & _).
      split_and!; [exact Hpr|exact Hs|exact Hpl|]. by exists es, t, r.
    + intros (Hpr & Hs & (j & Ej & Eh) & es & t & r & Ees & Et & Er & Ex).
      pose proof (hash_recomputation_complete _ _ _ _ _ _ _ _ _ Hpr Hs Ej Eh Ees Et Er Ex) as E. by rewrite E in Erc; injection Erc as <-.
  - split; [intros Hp; by eapply agent_signature_passed|]. intros [(b & k & Eb & Ek & Ev) (r & Er & Hid)].
    destruct (agent_signature_complete _ _ _ _ _ _ _ _ _ Eb Ek Ev Er Hid) as (l & E & Hp). congruence.
  - split; [intros Hp; by eapply user_signature_passed|]. intros (b & k & sg & h & Eb & Ek & Es & Eh & Ev).
    destruct (user_signature_complete _ _ poi _ _ _ _ _ Eb Ek Es Eh Ev) as (l & E & Hp). congruence.
  - apply hash_recomputation_rc in Erc as [m4 Erc]. split.
    + intros Hp. split; [|by eapply merkle_root_match_passed]. destruct (merkle_root_match_root _ _ _ _ _ _ Em Hp) as (r & Er & Hx).
      rewrite Er in Erc. apply recompute_ledger_root in Erc as (t & ? & ? & _ & ?). by exists (rc_entries rc), t, r.
    + intros [(es & t & r & Ees & Et & Er & Ex) Hc].
      unfold recompute_ledger in Erc. rewrite Ees, Et, Er in Erc. injection Erc as E1 E2 E3 _.
      destruct rc as [rr re rt rl]. cbn in E1, E2, E3. subst rr re rt.
      destruct (merkle_root_match_complete (ledger_at ledgers (ev_ledger ev)) poi ev es t r rl Et Er Ex Hc) as (pv' & m & E & Hp). congruence.
  - split_and!; [done|by eapply hash_recomputation_name|by eapply agent_signature_name|by eapply user_signature_name|by eapply merkle_root_match_name|by eapply timestamp_with_name].
Qed.

(** The sixth link, with the verifier of the portal. *)
Lemma stamp_exact env ledger eml parsed poi ev rc stamp :
  hash_recomputation ledger eml parsed (Some poi) (Some ev) = Ok rc ->
  timestamp_anchor_with (portal_verify_timestamp_token (pe_tsa_config env) (pe_tsa_download env)) (pe_anchor_store env) (Some poi) (Some ev)
    (rc_root rc) = Ok stamp ->
  lr_passed stamp = true <-> timestamped env ledger poi ev.
Proof.
  intros [m4 Erc]%hash_recomputation_rc Est. unfold timestamped. split.
  - intros Hp. destruct (rc_root rc) as [r|] eqn:Er; [|by injection Est as <-].
    apply recompute_ledger_root in Erc as (t & ? & ? & _ & ?).
    apply checked_token_exact in Est as (token & a & Hc & _ & Ev & Hl). exists (rc_entries rc), t, r, token. split_and!; [done..|].
    eapply portal_token_exact; [exact Ev|congruence].
  - intros (es & t & r & token & Ees & Et & Er & Hc & Hv). unfold recompute_ledger in Erc. rewrite Ees, Et, Er in Erc.
    injection Erc as E1 _ _ _. rewrite <- E1 in Est. apply checked_token_exact in Est as (token' & a & _ & Hu & Ev & ->).
    rewrite <- (Hu _ Hc) in Ev. by eapply portal_token_exact.
Qed.

(** ** From the steps to the blame *)

(** The rebuilt tree has a root, so that the view of it cannot fail. *)
Definition rebuilt (rc : Recomputation) : Prop :=
  exists t r, rc_tree rc = Some t /\ root t = Ok r /\ rc_root rc = Some r.

(** A run whose steps all answer blames exactly the links that did not pass. *)
Lemma run_blames verify env ledgers eml x poi ev rc agent user pv merkle stamp :
  let ledger := ledger_at ledgers (ev_ledger ev) in
  xt_poi x = Some poi -> xt_evidence x = Some ev -> lr_passed (xt_link x) = true ->
  hash_recomputation ledger eml (xt_parsed x) (Some poi) (Some ev) = Ok rc -> rebuilt rc ->
  agent_signature (pe_now_agent env) (pe_now_record env) (pe_registry env) eml (Some poi) (Some ev) = Ok agent ->
  user_signature (pe_now_user env) (pe_registry env) (Some poi) (Some ev) = Ok user ->
  merkle_root_match ledger (Some poi) (Some ev) rc = Ok (pv, merkle) ->
  timestamp_anchor_with verify (pe_anchor_store env) (Some poi) (Some ev) (rc_root rc) = Ok stamp ->
  exists tr, verify_extracted_with verify env ledgers eml x = Ok tr /\
    vt_overall_valid tr = bool_decide (broken_links tr = []) /\
    broken_links tr = (if lr_passed (rc_link rc) then [] else ["hash_recomputation"]) ++
      (if lr_passed agent then [] else ["agent_signature"]) ++ (if lr_passed user then [] else ["user_signature"]) ++
      (if lr_passed merkle then [] else ["merkle_root_match"]) ++ (if lr_passed stamp then [] else ["timestamp_anchor"]).
Proof.
  intros ledger Ep Ee Hx Erc (t & r & Et & Er & Hr) Ea Eu Em Est. unfold verify_extracted_with. rewrite Ep, Ee. fold ledger.
  rewrite Erc. cbn [mbind result_bind]. rewrite Ea. cbn [mbind result_bind]. rewrite Eu. cbn [mbind result_bind].
  rewrite Em. cbn [mbind result_bind]. rewrite Est. cbn [mbind result_bind]. rewrite Et.
  assert (exists v, match rc_entries rc with
    | [] => Ok None
    | first :: _ => v ← merkle_tree_view t (rc_entries rc) (poi_context_root <$> Some poi) (Some (entry_id first)) pv; Ok (Some v)
    end = Ok v) as [v ->].
  { destruct (rc_entries rc) as [|first rest]; [eauto|]. unfold merkle_tree_view. rewrite Er. cbn. eauto. }
  cbn [mbind result_bind]. eexists. split; [reflexivity|].
  apply hash_recomputation_name in Erc. apply agent_signature_name in Ea. apply user_signature_name in Eu.
  apply merkle_root_match_name in Em. apply timestamp_with_name in Est.
  unfold broken_links. cbn [vt_links vt_overall_valid forallb]. rewrite !filter_cons, filter_nil.
  destruct (xt_link x) as [? [] ? ?], rc as [? ? ? [? [] ? ?]], agent as [? [] ? ?], user as [? [] ? ?], merkle as [? [] ? ?], stamp as [? [] ? ?];
    cbn in *; try done; subst; done.
Qed.

(** *** The steps of a run on evidence whose other claims hold *)

Lemma hash_recomputation_rebuilt ledger eml parsed poi ev es t r m3 :
  hash_hex (JObj [("prompt", JStr (se_prompt (ev_user_envelope ev)))]) = Ok (poi_user_prompt_hash poi) ->
  hash_hex (JObj [("system_prompt", JStr (ev_system_prompt ev))]) = Ok (poi_system_prompt_hash poi) ->
  payload_mismatch eml parsed poi ev = Ok m3 ->
  recomputed_entries (slice_to (ev_ledger_entry_count ev) ledger) = Ok es -> build_merkle_tree es = Ok t -> root t = Ok r ->
  exists l, hash_recomputation ledger eml parsed (Some poi) (Some ev) = Ok (mkRecomputation (Some r) es (Some t) l) /\
    lr_passed l = bool_decide (m3 = [] /\ hex r = poi_context_root poi).
Proof.
  intros Hp Hs Hm Ee Et Er. unfold hash_recomputation, all_entries. rewrite (mismatch_none _ _ _ Hp). cbn [mbind result_bind].
  rewrite (mismatch_none _ _ _ Hs). cbn [mbind result_bind]. rewrite Hm. cbn [mbind result_bind].
  unfold recompute_ledger. rewrite Ee, Et, Er. cbn [mbind result_bind]. eexists. split; [reflexivity|].
  destruct m3 as [|m m3]; cbn [app rc_link lr_passed]; [|by rewrite (bool_decide_eq_false_2 (_ /\ _)) by by intros [? _]].
  destruct (bool_decide (hex r = poi_context_root poi)) eqn:Ex; cbn [app lr_passed].
  - by rewrite bool_decide_eq_true_2 by by apply bool_decide_eq_true in Ex.
  - apply bool_decide_eq_false in Ex. rewrite bool_decide_eq_false_2; [done|by intros [_ ?]].
Qed.

Lemma merkle_root_match_wrong ledger poi ev es t r l :
  build_merkle_tree es = Ok t -> root t = Ok r -> hex r ≠ poi_context_root poi -> is_ok (first_invalid_entry_id ledger) = true ->
  exists pv m, merkle_root_match ledger (Some poi) (Some ev) (mkRecomputation (Some r) es (Some t) l) = Ok (pv, m) /\ lr_passed m = false.
Proof.
  intros Et Er Hx Hc. unfold merkle_root_match. cbn [rc_root rc_entries rc_tree].
  destruct es as [|first rest]; [by apply build_merkle_tree_inv in Et as (? & _)|].
  destruct (proof_of_entry _ _ first Et) as (r' & proof & Er' & Ep & _ & Hv); [by left|].
  assert (r' = r) as -> by congruence. cbn [mbind result_bind]. rewrite Ep. cbn [mbind result_bind]. rewrite Er. cbn [mbind result_bind].
  destruct (first_invalid_entry_id ledger) as [c|e]; [|done]. eexists _, _. split; [reflexivity|].
  cbn [lr_passed link_of]. by rewrite (bool_decide_eq_false_2 _ Hx), andb_false_r.
Qed.

Lemma recompute_ids prev l es : recompute_from prev l = Ok es -> entry_id <$> es = entry_id <$> l.
Proof.
  revert prev es. induction l as [|e l IH]; intros prev es; cbn [recompute_from]; [by intros [= <-]|].
  destruct (compute_leaf_hash _ _) as [h|]; cbn [mbind result_bind]; [|done].
  destruct (recompute_from h l) as [es'|] eqn:E; cbn [mbind result_bind]; [|done]. intros [= <-].
  rewrite !fmap_cons. cbn [entry_id]. by rewrite (IH _ _ E).
Qed.

Lemma recompute_digests prev l es : recompute_from prev l = Ok es -> digests (leaf_hash <$> es).
Proof.
  intros [Hc _]%recompute_from_chain. revert prev Hc. unfold digests. induction es as [|e es IH]; intros prev; [constructor|].
  cbn [chain_from]. intros [[_ Hl] Hc]. rewrite fmap_cons. constructor; [by eapply hash_payload_length|by eapply IH].
Qed.

Lemma slice_to_insert {A} n (l : list A) i x :
  (i < length (slice_to n l))%nat -> slice_to n (<[i := x]> l) = <[i := x]> (slice_to n l).
Proof.
  unfold slice_to. rewrite length_insert. destruct (0 <=? n); intros Hi; apply take_insert_lt; rewrite length_take in Hi; lia.
Qed.

Lemma slice_to_prefix {A} n (l : list A) : slice_to n l `prefix_of` l.
Proof. unfold slice_to. destruct (0 <=? n); eexists; symmetry; apply take_drop. Qed.

Lemma chain_slice n l : chain_ok l -> chain_ok (slice_to n l).
Proof. destruct (slice_to_prefix n l) as [k Hk]. unfold chain_ok. rewrite Hk at 1. by intros [? _]%chain_from_app. Qed.

(** A changed content that still serializes leaves the check of the chain able to answer. *)
Lemma first_invalid_tampered prev l i e c :
  chain_from prev l -> l !! i = Some e -> is_ok (compute_leaf_hash c (prev_hash e)) = true ->
  is_ok (first_invalid_from prev (<[i := Ledger.set_content c e]> l)) = true.
Proof.
  revert prev i. induction l as [|e0 l IH]; intros prev i; [done|]. cbn [chain_from]. intros [[Hp Hl] Hc]. destruct i as [|i]; cbn.
  - intros [= ->] Hk. rewrite <- Hp. destruct (compute_leaf_hash c (prev_hash e)) as [h|]; [|done]. cbn [mbind result_bind].
    destruct (negb _ || negb _); [done|]. by rewrite (proj2 (first_invalid_none _ _) Hc).
  - intros Hi Hk. rewrite Hl. cbn [mbind result_bind]. rewrite !bool_decide_eq_true_2 by done. cbn [negb orb]. by apply IH.
Qed.

Lemma insert_not_equiv l i e c :
  l !! i = Some e -> Forall2 json_equiv (content <$> l) (content <$> <[i := Ledger.set_content c e]> l) -> json_equiv (content e) c.
Proof.
  intros Hi Hf. pose proof (lookup_lt_Some _ _ _ Hi) as Hlt.
  eapply (Forall2_lookup_lr _ _ _ i); [exact Hf|by rewrite list_lookup_fmap, Hi|]. by rewrite list_lookup_fmap, list_lookup_insert_eq.
Qed.

(** The root of a tampered ledger is not the one the proof signs. *)
Lemma tampered_root `{!Rfc8785Laws} l i e c es t r t' r' es' :
  l !! i = Some e -> ¬ json_equiv (content e) c -> Forall (fun e => json_wf (content e)) l -> json_wf c ->
  recomputed_entries l = Ok es -> build_merkle_tree es = Ok t -> root t = Ok r ->
  recomputed_entries (<[i := Ledger.set_content c e]> l) = Ok es' -> build_merkle_tree es' = Ok t' -> root t' = Ok r' ->
  collision_free (tree_preimages (length es) (leaf_hash <$> es) ++ tree_preimages (length es') (leaf_hash <$> es')) ->
  collision_free (leaf_preimages es ++ leaf_preimages es') -> r' ≠ r.
Proof.
  intros Hi Hne Hw Hwc Ees Et Er Ees' Et' Er' Hcf1 Hcf2 ->. apply Hne.
  eapply insert_not_equiv; [exact Hi|]. eapply (recomputed_root_binds l (<[i := Ledger.set_content c e]> l) es es' t t' r); try done.
  - by rewrite length_insert.
  - by apply Forall_insert.
Qed.

Lemma rebuild_tampered l i e c es t es' :
  recomputed_entries l = Ok es -> build_merkle_tree es = Ok t -> l !! i = Some e ->
  recomputed_entries (<[i := Ledger.set_content c e]> l) = Ok es' -> exists t' r', build_merkle_tree es' = Ok t' /\ root t' = Ok r'.
Proof.
  intros Ees (Hne & Hnd & _ & _)%build_merkle_tree_inv Hi Ees'.
  pose proof (recompute_ids _ _ _ Ees) as Hid. pose proof (recompute_ids _ _ _ Ees') as Hid'.
  assert (entry_id <$> <[i := Ledger.set_content c e]> l = entry_id <$> l) as Eid.
  { rewrite list_fmap_insert. apply list_insert_id. by rewrite list_lookup_fmap, Hi. }
  destruct (build_merkle_tree_ok es') as (t' & Et' & _).
  - intros ->. rewrite Eid, <- Hid in Hid'. by destruct es.
  - by rewrite Hid', Eid, <- Hid.
  - by eapply recompute_digests.
  - destruct (build_root _ _ Et') as (r' & _ & Er'). by exists t', r'.
Qed.

(** The steps of a run over true claims. *)
Lemma honest_steps env ledger eml parsed poi ev :
  claims_hold env ledger eml parsed poi ev ->
  exists rc r pv m, hash_recomputation ledger eml parsed (Some poi) (Some ev) = Ok rc /\ lr_passed (rc_link rc) = true /\ rebuilt rc /\
    rc_root rc = Some r /\ hex r = poi_context_root poi /\ merkle_root_match ledger (Some poi) (Some ev) rc = Ok (pv, m) /\ lr_passed m = true.
Proof.
  intros [Hp Hs (j & Ej & Eh) (es & t & r & Ees & Et & Er & Ex) Hc _ _ _].
  pose proof (hash_recomputation_complete _ _ _ _ _ _ _ _ _ Hp Hs Ej Eh Ees Et Er Ex) as E.
  match type of E with _ = Ok (mkRecomputation _ _ _ ?lk) => destruct (merkle_root_match_complete ledger poi ev es t r lk Et Er Ex Hc) as (pv & m & Em & Hm) end.
  eexists _, r, pv, m. split_and!; [exact E|done| |done|exact Ex|exact Em|exact Hm]. by exists t, r.
Qed.

Lemma honest_signatures env ledger eml parsed poi ev :
  claims_hold env ledger eml parsed poi ev ->
  exists a u, agent_signature (pe_now_agent env) (pe_now_record env) (pe_registry env) eml (Some poi) (Some ev) = Ok a /\ lr_passed a = true /\
    user_signature (pe_now_user env) (pe_registry env) (Some poi) (Some ev) = Ok u /\ lr_passed u = true.
Proof.
  intros [_ _ _ _ _ (b & k & Eb & Ek & Ev) (kr & Ekr & Hid) (ub & uk & sg & h & Eub & Euk & Esg & Euh & Euv)].
  destruct (agent_signature_complete _ _ _ _ _ _ _ _ _ Eb Ek Ev Ekr Hid) as (a & Ea & Ha).
  destruct (user_signature_complete _ _ poi _ _ _ _ _ Eub Euk Esg Euh Euv) as (u & Eu & Hu). by exists a, u.
Qed.

(** Which message was uploaded does not matter to the agent's link. *)
Lemma agent_signature_upload n1 n2 t raw raw' poi ev :
  agent_signature n1 n2 t (Some raw) poi ev = agent_signature n1 n2 t (Some raw') poi ev.
Proof.
  assert (forall p k, identity_errors (Some raw) p ev k = identity_errors (Some raw') p ev k) as He.
  { intros p k. unfold identity_errors. do 4 f_equal. }
  unfold agent_signature. destruct poi as [p|]; [|done]. destruct (get_pubkey _ _ _) as [[b|]|]; [|done..].
  cbn [mbind result_bind]. destruct (get_key_record _ _ _); [|done]. cbn [mbind result_bind]. by rewrite He.
Qed.

End Links.

(** ** Runs *)

Section Runs.
Context `{Hashlib, Rfc8785, Cryptography, EmailLib, EnvelopeModel, PoiModel, Rfc3161}.
Context {P : Type} `{!EvidencePersistence P}.

(** Whatever the root, the timestamp link passes: there is no token to check, or the check accepts it. *)
Definition stamp_open (verify : option bytes -> bytes -> result TimestampAnchorResult) (env : PipelineEnv) (poi : ProofOfIntent)
    (ev : ActionEvidence) : Prop :=
  forall r, exists l, timestamp_anchor_with verify (pe_anchor_store env) (Some poi) (Some ev) (Some r) = Ok l /\ lr_passed l = true.

(** It passes for the root the proof signs. *)
Definition stamp_signed (verify : option bytes -> bytes -> result TimestampAnchorResult) (env : PipelineEnv) (poi : ProofOfIntent)
    (ev : ActionEvidence) : Prop :=
  forall r, hex r = poi_context_root poi ->
    exists l, timestamp_anchor_with verify (pe_anchor_store env) (Some poi) (Some ev) (Some r) = Ok l /\ lr_passed l = true.

(** [env] after [registry.revoke_key(id)]. *)
Definition with_revoked (env : PipelineEnv) (id : string) : PipelineEnv :=
  mkPipelineEnv (revoke_key (pe_registry env) id).1 (pe_now_agent env) (pe_now_record env) (pe_now_user env) (pe_anchor_store env)
    (pe_tsa_config env) (pe_tsa_download env).

Lemma run_with_ok verify env (s s' : EvidenceState P) eml id x tr :
  extract s eml id = (s', Ok x) -> verify_extracted_with verify env (es_ledgers s') eml x = Ok tr ->
  run_verification_with verify env s eml id = (s', Ok tr).
Proof. unfold run_verification_with. intros -> E. cbn [mbind result_bind]. by rewrite E. Qed.

Lemma run_with_inv verify env (s s' : EvidenceState P) eml id x tr :
  extract s eml id = (s', Ok x) -> run_verification_with verify env s eml id = (s', Ok tr) ->
  verify_extracted_with verify env (es_ledgers s') eml x = Ok tr.
Proof. unfold run_verification_with. intros ->. cbn [mbind result_bind]. by intros [= E]. Qed.

(** A key that is revoked is not found again; the others are. *)
Lemma revoked_key_gone t id now : table_ok t -> get_pubkey now (revoke_key t id).1 id = Ok None.
Proof.
  intros Ht. unfold get_pubkey. rewrite get_after_revoke by done. destruct (get_key_by_id_total t id Ht) as [->|[r Er]]; [done|].
  pose proof Er as (_ & _ & Hid)%get_key_by_id_some; [|done]. rewrite Er. cbn [mbind result_bind option_map].
  unfold revoked_by. rewrite bool_decide_eq_true_2 by done. done.
Qed.

Lemma other_key_kept t id id' now : table_ok t -> id' ≠ id -> get_pubkey now (revoke_key t id).1 id' = get_pubkey now t id'.
Proof.
  intros Ht Hne. unfold get_pubkey. rewrite get_after_revoke by done. destruct (get_key_by_id_total t id' Ht) as [->|[r Er]]; [done|].
  pose proof Er as (_ & _ & Hid)%get_key_by_id_some; [|done]. rewrite Er. cbn [mbind result_bind option_map].
  unfold revoked_by. rewrite bool_decide_eq_false_2 by congruence. done.
Qed.

Lemma register_agent_steps n1 n2 n3 t agent_id k t' key_id :
  register_agent_public_key n1 n2 n3 t agent_id k = Ok (t', key_id) -> rtc registry_step t t'.
Proof.
  unfold register_agent_public_key. destruct (agent_pubkey_id k); cbn [mbind result_bind]; [|done].
  destruct (serialize_public_key_raw _); cbn [mbind result_bind]; [|done]. destruct (get_pubkey _ _ _); cbn [mbind result_bind]; [|done].
  case_bool_decide; [by intros [= <- _]|]. destruct (register_key _ _ _ _ _ _ _ _ _) as [[t1 r]|e] eqn:E.
  - intros [= <- _]. by eapply rtc_once, step_register_key.
  - destruct (_ && _); [by intros [= <- _]|done].
Qed.

Lemma agent_signature_unknown n1 n2 t eml poi ev :
  get_pubkey n1 t (or_str (poi_agent_pubkey_id poi) "") = Ok None ->
  exists l, agent_signature n1 n2 t eml (Some poi) ev = Ok l /\ lr_passed l = false.
Proof. unfold agent_signature. intros ->. cbn. eauto. Qed.

(** *** The extraction *)

Lemma find_poi_header eml ev parsed parsed' poi l :
  eml ≠ None \/ ev ≫= ev_poi = None -> find_poi eml ev parsed None = Ok (parsed', poi, l) ->
  (lr_passed l = true <-> is_Some poi) /\
  forall p, poi = Some p <-> exists header, dict_get "poi_header" parsed = Some (JStr header) /\ header ≠ "" /\ decode_poi_header header = Ok p.
Proof.
  intros Hc E. assert (match parsed_str "poi_header" parsed with
    | Some header => if truthy_str header then
        catch_all (poi ← decode_poi_header header; Ok (parsed, Some poi, link_passed "poi_extraction" "signed PoI decoded from email header"))
          (fun e => Ok (parsed, None, link_failed "poi_extraction" ("malformed PoI header: " +:+ exn_msg e)))
        else Ok (parsed, None, link_failed "poi_extraction" "X-AoR-Proof-of-Intent header is missing")
    | None => Ok (parsed, None, link_failed "poi_extraction" "X-AoR-Proof-of-Intent header is missing")
    end = Ok (parsed', poi, l)) as E'.
  { unfold find_poi in E. destruct eml; [done|]. destruct Hc as [?|Hc]; [done|]. by rewrite Hc in E. }
  clear E Hc. unfold parsed_str in E'.
  destruct (dict_get "poi_header" parsed) as [[| | |header| |]|] eqn:Eh;
    try (injection E' as <- <- <-; split; [by split; [|intros [? ?]]|intros p; by split; [|intros (? & ? & _)]]).
  destruct header as [|c h]; cbn [truthy_str] in E'.
  { injection E' as <- <- <-. split; [by split; [|intros [? ?]]|]. intros p. split; [done|]. by intros (header & [= <-] & ? & _). }
  unfold catch_all, try_except in E'. destruct (decode_poi_header _) as [q|e] eqn:Ed; cbn [mbind result_bind] in E'.
  - injection E' as <- <- <-. split; [by split; [eauto|]|]. intros p. split; [intros [= <-]; eauto|]. intros (header & [= <-] & _ & Hd). congruence.
  - destruct (catches _ e); [|done]. injection E' as <- <- <-. split; [by split; [|intros [? ?]]|]. intros p. split; [done|].
    intros (header & [= <-] & _ & Hd). congruence.
Qed.

Lemma parse_ok_cases {A : Type} b (f : dict -> A) (g : exn -> A) x :
  catch_all (parsed ← parse_eml b; Ok (f parsed)) (fun e => Ok (g e)) = Ok x ->
  (exists parsed, parse_eml b = Ok parsed /\ x = f parsed) \/ (forall parsed, parse_eml b ≠ Ok parsed) /\ exists e, x = g e.
Proof.
  unfold catch_all, try_except. destruct (parse_eml b) as [parsed|e]; cbn [mbind result_bind].
  - intros [= <-]. left. eauto.
  - destruct (catches _ e); [|done]. intros [= <-]. right. eauto.
Qed.

(** The extracted proof is the one the artifact carries, and the link says whether there is one. *)
Definition extraction_exact (eml : option bytes) (ev : option ActionEvidence) (poi : option ProofOfIntent) (l : LinkResult) : Prop :=
  (lr_passed l = true <-> is_Some poi) /\ forall p, poi = Some p <-> carries eml ev p.

Lemma message_exact eml ev b m poi l :
  eml = Some b \/ eml = None /\ (exists e, ev = Some e /\ ev_poi e = None /\ ev_eml_bytes e = Some b) -> parse_eml b = Ok m ->
  ((lr_passed l = true <-> is_Some poi) /\ forall p, poi = Some p <-> exists header, dict_get "poi_header" m = Some (JStr header) /\ header ≠ "" /\
    decode_poi_header header = Ok p) -> extraction_exact eml ev poi l.
Proof.
  intros Hb Em [Hl Hp]. split; [done|]. intros p. rewrite Hp. split.
  - intros (header & Hh & Hne & Hd). by eapply carries_header.
  - intros [e He Hev Hpoi _|b' m' header Hb' Em' Hh Hne Hd].
    + destruct Hb as [?|(_ & e' & ? & ? & _)]; congruence.
    + assert (b' = b) as -> by (destruct Hb as [?|(? & e & ? & _ & ?)], Hb' as [?|(? & e' & ? & _ & ?)]; congruence).
      assert (m' = m) as -> by congruence. eauto.
Qed.

Lemma nothing_exact eml ev l : (forall p, ~ carries eml ev p) -> lr_passed l = false -> extraction_exact eml ev None l.
Proof. intros Hno Hl. split; [rewrite Hl; by split; [|intros [? ?]]|]. intros p. split; [done|]. intros Hc. by destruct (Hno p). Qed.

Lemma record_exact ev q l :
  ev_poi ev = Some q -> (forall b, ev_eml_bytes ev = Some b -> exists m, parse_eml b = Ok m) -> lr_passed l = true ->
  extraction_exact None (Some ev) (Some q) l.
Proof.
  intros Eq Hb Hl. split; [by split; [eauto|]|]. intros p. split; [intros [= <-]; by eapply carries_record|].
  intros [e' _ [= <-] Hp _|b' m' header [?|(_ & e' & [= <-] & ? & _)] _ _ _ _]; congruence.
Qed.

Lemma upload_exact b ev parsed link parsed' poi l :
  parse_upload (Some b) = Ok (parsed, link) -> find_poi (Some b) ev parsed link = Ok (parsed', poi, l) -> extraction_exact (Some b) ev poi l.
Proof.
  intros Ep Ef. apply (parse_ok_cases b (fun m => (m, None))) in Ep as [(m & Em & [= -> ->])|[Hno (e & [= -> ->])]].
  - apply (message_exact _ _ b m); [by left|done|]. eapply find_poi_header; [|exact Ef]; by left.
  - injection Ef as <- <- <-. apply nothing_exact; [|done].
    intros p [e' ? _ _ _|b' m header [[= ->]|[? _]] Em _ _ _]; [done| |done]. by apply Hno in Em.
Qed.

Lemma stored_exact ev parsed link parsed' poi l :
  parse_stored None ev [] None = Ok (parsed, link) -> find_poi None ev parsed link = Ok (parsed', poi, l) -> extraction_exact None ev poi l.
Proof.
  destruct ev as [e|]; cbn [parse_stored].
  2: { intros [= <- <-] [= <- <- <-]. apply nothing_exact; [|done]. intros p [e' _ ? _ _|b m header [?|(_ & e' & ? & _)] _ _ _ _]; done. }
  destruct (ev_eml_bytes e) as [b|] eqn:Eb; intros Est Ef.
  - apply (parse_ok_cases b (fun m => (m, None))) in Est as [(m & Em & [= -> ->])|[Hno (ex & [= -> ->])]].
    + destruct (ev_poi e) as [q|] eqn:Eq.
      * cbn in Ef. rewrite Eq in Ef. injection Ef as _ <- <-. apply record_exact; [done| |done]. intros b' E. exists m. congruence.
      * apply (message_exact _ _ b m); [right; eauto 10|done|]. eapply find_poi_header; [|exact Ef]; by right.
    + injection Ef as _ <- <-. apply nothing_exact; [|done].
      intros p [e' _ [= <-] _ Hb|b' m' header [?|(_ & e' & [= <-] & _ & Hb)] Em _ _ _]; [|done|].
      * destruct (Hb b Eb) as [m Em]. by apply Hno in Em.
      * assert (b' = b) as -> by congruence. by apply Hno in Em.
  - injection Est as <- <-. destruct (ev_poi e) as [q|] eqn:Eq; cbn in Ef; rewrite Eq in Ef; injection Ef as _ <- <-.
    + apply record_exact; [done|congruence|done].
    + apply nothing_exact; [|done]. intros p [e' _ [= <-] Hp _|b' m' header [?|(_ & e' & [= <-] & _ & ?)] _ _ _ _]; congruence.
Qed.

Lemma extract_exact (s s' : EvidenceState P) eml id x :
  extract s eml id = (s', Ok x) -> extraction_exact eml (xt_evidence x) (xt_poi x) (xt_link x).
Proof.
  unfold extract. destruct (lookup_evidence s id None) as [s1 [ev1|]]; cbn [mbind result_bind]; [|done].
  destruct (parse_upload eml) as [[parsed link]|] eqn:Ep; cbn [mbind result_bind]; [|done].
  destruct (lookup_evidence s1 _ ev1) as [s2 [ev|]]; cbn [mbind result_bind]; [|done].
  destruct (parse_stored eml ev parsed link) as [[parsed1 link1]|] eqn:Est; cbn [mbind result_bind]; [|done].
  destruct (find_poi eml ev parsed1 link1) as [[[parsed2 poi] l]|] eqn:Ef; cbn [mbind result_bind]; [|done].
  intros [= <- <-]. cbn [xt_link xt_poi xt_evidence]. destruct eml as [b|].
  - injection Est as <- <-. by eapply upload_exact.
  - injection Ep as <- <-. by eapply stored_exact.
Qed.

End Runs.

(** ** Which links fail *)

Section Blame.
Context `{Hashlib, Rfc8785, Cryptography, EmailLib, EnvelopeModel, PoiModel, Rfc3161}.
Context {P : Type} `{!EvidencePersistence P}.

(** C6. The blame is exact.  In any run, the extraction fails if and only if the artifact carries no
    proof; and of an artifact with a proof and evidence each other link fails if and only if
    its own claim is false: that of the hashes, of the agent's signature, of the user's
    signature, of the committed and unbroken ledger, and of the timestamp, which is that the
    recomputed root has no token yet or one that is valid for it. *)
Theorem blame_exact (env : PipelineEnv) (s s' : EvidenceState P) eml id x tr :
  extract s eml id = (s', Ok x) -> run_verification env s eml id = (s', Ok tr) ->
  lr_link_name <$> vt_links tr = link_names /\
  ("poi_extraction" ∉ broken_links tr <-> exists poi, carries eml (xt_evidence x) poi) /\
  forall poi ev, carries eml (xt_evidence x) poi -> xt_evidence x = Some ev ->
    let ledger := ledger_at (es_ledgers s') (ev_ledger ev) in
    ("hash_recomputation" ∉ broken_links tr <-> hashes_committed ledger eml (xt_parsed x) poi ev) /\
    ("agent_signature" ∉ broken_links tr <-> agent_signed env eml poi ev) /\
    ("user_signature" ∉ broken_links tr <-> user_signed env ev) /\
    ("merkle_root_match" ∉ broken_links tr <-> context_committed ledger poi ev /\ chain_ok ledger) /\
    ("timestamp_anchor" ∉ broken_links tr <-> timestamped env ledger poi ev).
Proof.
  intros Hextract Hrun%(run_with_inv _ _ _ _ _ _ _ _ Hextract). pose proof (extract_exact _ _ _ _ _ Hextract) as [Hlink Hcarries].
  pose proof Hrun as (rc & agent & user & pv & merkle & stamp & Erc & Ea & Eu & Em & Est & Hl & _)%verify_extracted_with_inv.
  pose proof (extract_name _ _ _ _ _ Hextract) as Ex.
  assert (lr_link_name <$> vt_links tr = link_names) as Hnames.
  { rewrite Hl. cbn. apply hash_recomputation_name in Erc. apply agent_signature_name in Ea. apply user_signature_name in Eu.
    apply merkle_root_match_name in Em. apply timestamp_with_name in Est. by rewrite Ex, Erc, Ea, Eu, Em, Est. }
  assert (forall l, l ∈ vt_links tr -> lr_link_name l ∉ broken_links tr <-> lr_passed l = true) as Hf.
  { intros l. apply broken_link_exact. rewrite Hnames. by apply (bool_decide_eq_true_1 (NoDup link_names)). }
  split_and!; [done| |].
  - rewrite <- Ex, Hf by (rewrite Hl; by left). rewrite Hlink. split; [intros [poi Hp]; exists poi; by apply Hcarries|].
    intros [poi Hp%Hcarries]. eauto.
  - intros poi ev Hpoi%Hcarries Hevidence ledger. subst ledger.
    destruct (links_exact _ _ _ _ _ _ _ _ Hrun Hpoi Hevidence) as
      (rc' & agent' & user' & merkle' & stamp' & Hl' & Hh & Hag & Hus & Hmk & Hts & Eh & Eag & Eus & Emk & Estn).
    rewrite Hl in Hl'. injection Hl' as Hrc <- <- <- <-. rewrite Hpoi, Hevidence in Erc.
    rewrite Hpoi, Hevidence in Est. rewrite <- Hrc in Hh, Eh.
    pose proof (stamp_exact _ _ _ _ _ _ _ _ Erc Est) as Hst. rewrite Hl in Hf. split_and!.
    + rewrite <- Hh, <- Eh. apply Hf. by repeat constructor.
    + rewrite <- Hag, <- Eag. apply Hf. by repeat constructor.
    + rewrite <- Hus, <- Eus. apply Hf. by repeat constructor.
    + rewrite <- Hmk, <- Emk. apply Hf. by repeat constructor.
    + rewrite <- Hst, <- Estn. apply Hf. by repeat constructor.
Qed.

End Blame.

(** ** Theorems *)

Section Theorems.
Context `{Hashlib, Rfc8785, Cryptography, EmailLib, EnvelopeModel, PoiModel, Rfc3161}.
Context {P : Type} `{!EvidencePersistence P}.
Variables (verify : option bytes -> bytes -> result TimestampAnchorResult) (env : PipelineEnv).
Variables (s s' : EvidenceState P) (eml : option bytes) (id : option string) (x : Extraction) (poi : ProofOfIntent) (ev : ActionEvidence).
Hypothesis Hextract : extract s eml id = (s', Ok x).
Hypotheses (Hpoi : xt_poi x = Some poi) (Hevidence : xt_evidence x = Some ev).

#[local] Abbreviation ledger := (ledger_at (es_ledgers s') (ev_ledger ev)).

(** A revoked agent key is blamed on the agent's signature alone: once the agent's key is
    revoked, the run over otherwise true claims is invalid, and only that link fails. *)
Lemma revoked_agent_blamed :
  claims_hold env ledger eml (xt_parsed x) poi ev -> stamp_signed verify env poi ev ->
  let agent_id := or_str (poi_agent_pubkey_id poi) "" in
  table_ok (pe_registry env) -> se_pubkey_id (ev_user_envelope ev) ≠ agent_id ->
  exists tr, run_verification_with verify (with_revoked env agent_id) s eml id = (s', Ok tr) /\
    vt_overall_valid tr = false /\ broken_links tr = ["agent_signature"].
Proof.
  intros Hc Hst agent_id Ht Hne. destruct (honest_steps env ledger eml (xt_parsed x) poi ev Hc) as (rc & r & pv & m & Erc & Hrc & Hrb & Er & Hx & Em & Hm).
  destruct (ch_user _ _ _ _ _ _ Hc) as (b & k & sg & h & Eb & Ek & Es & Eh & Ev).
  destruct (user_signature_complete (pe_now_user env) (revoke_key (pe_registry env) agent_id).1 poi ev b k sg h) as (u & Eu & Hu); try done.
  { by rewrite other_key_kept. }
  destruct (agent_signature_unknown (pe_now_agent env) (pe_now_record env) (revoke_key (pe_registry env) agent_id).1 eml poi (Some ev))
    as (a & Ea & Ha); [by apply revoked_key_gone|].
  destruct (Hst r Hx) as (l & El & Hl). rewrite <- Er in El.
  destruct (run_blames verify (with_revoked env agent_id) (es_ledgers s') eml x poi ev rc a u pv m l) as (tr & E & Hv & Hf); try done.
  { by eapply extract_link_passed. }
  exists tr. rewrite Hf, Hrc, Ha, Hu, Hm, Hl in Hv. rewrite Hf, Hrc, Ha, Hu, Hm, Hl. split; [by eapply run_with_ok|done].
Qed.

(** A recorded token is checked for the root the proof signs, and decides the timestamp link
    alone: over otherwise true claims the run answers what the check answers, and its only
    broken link can be the timestamp. *)
Lemma recorded_token_blamed token r :
  claims_hold env ledger eml (xt_parsed x) poi ev -> ev_timestamp_token ev = Some token -> hex r = poi_context_root poi ->
  match verify (Some token) r with
  | Ok a => exists tr, run_verification_with verify env s eml id = (s', Ok tr) /\
      vt_overall_valid tr = ta_pending a || ta_verified a /\
      broken_links tr = if ta_pending a || ta_verified a then [] else ["timestamp_anchor"]
  | Raise e => run_verification_with verify env s eml id = (s', Raise e)
  end.
Proof.
  intros Hc Ht Hr. destruct (honest_steps env ledger eml (xt_parsed x) poi ev Hc) as (rc & r' & pv & m & Erc & Hrc & Hrb & Er & Hx & Em & Hm).
  destruct (honest_signatures env ledger eml (xt_parsed x) poi ev Hc) as (a & u & Ea & Ha & Eu & Hu).
  assert (r' = r) as -> by (apply hex_inj; congruence).
  assert (timestamp_anchor_with verify (pe_anchor_store env) (Some poi) (Some ev) (rc_root rc)
    = (t ← verify (Some token) r; Ok (mkLinkResult "timestamp_anchor" (ta_pending t || ta_verified t)
        (if ta_pending t then "pending" else if ta_verified t then "passed" else "failed") (ta_detail t)))) as El.
  { rewrite Er. unfold timestamp_anchor_with. by rewrite Ht. }
  destruct (verify (Some token) r) as [w|e].
  - destruct (run_blames verify env (es_ledgers s') eml x poi ev rc a u pv m _ Hpoi Hevidence
      ltac:(by eapply extract_link_passed) Erc Hrb Ea Eu Em El) as (tr & E & Hv & Hf).
    rewrite Hrc, Ha, Hu, Hm in Hf. cbn [lr_passed app] in Hf. rewrite Hf in Hv.
    exists tr. split; [by eapply run_with_ok|]. rewrite Hv, Hf. by destruct (_ || _).
  - unfold run_verification_with. rewrite Hextract. cbn [mbind result_bind]. unfold verify_extracted_with. rewrite Hpoi, Hevidence, Erc.
    cbn [mbind result_bind]. rewrite Ea. cbn [mbind result_bind]. rewrite Eu. cbn [mbind result_bind]. rewrite Em. cbn [mbind result_bind].
    by rewrite El.
Qed.

(** A forged timestamp is blamed on the timestamp alone: when the check of the recorded token
    answers that it is neither pending nor verified, the run over otherwise true claims is
    invalid, and only that link fails. *)
Lemma forged_timestamp_blamed token :
  claims_hold env ledger eml (xt_parsed x) poi ev -> ev_timestamp_token ev = Some token ->
  (forall r, exists a, verify (Some token) r = Ok a /\ ta_pending a = false /\ ta_verified a = false) ->
  exists tr, run_verification_with verify env s eml id = (s', Ok tr) /\
    vt_overall_valid tr = false /\ broken_links tr = ["timestamp_anchor"].
Proof.
  intros Hc Ht Hforged. destruct (ch_context _ _ _ _ _ _ Hc) as (es & t & r & _ & _ & _ & Hr).
  pose proof (recorded_token_blamed token r Hc Ht Hr) as Hrun. destruct (Hforged r) as (w & Ew & Hp & Hw).
  rewrite Ew, Hp, Hw in Hrun. exact Hrun.
Qed.

(** A changed entry of the context is blamed on the hashes and on the Merkle root: when the
    content of an entry the proof commits to is replaced in the live ledger, in place, by one
    that is not equal to it up to the order of keys, those two links fail and no other, unless
    two of the hashed materials collide. *)
Lemma tampered_context_blamed `{!Rfc8785Laws} l i e c es' :
  let n := ev_ledger_entry_count ev in
  claims_hold env l eml (xt_parsed x) poi ev -> stamp_open verify env poi ev ->
  ledger = <[i := Ledger.set_content c e]> l -> l !! i = Some e -> (i < length (slice_to n l))%nat ->
  ¬ json_equiv (content e) c -> Forall (fun e => json_wf (content e)) l -> json_wf c ->
  is_ok (compute_leaf_hash c (prev_hash e)) = true -> recomputed_entries (slice_to n ledger) = Ok es' ->
  collision_free (tree_preimages (length (slice_to n l)) (leaf_hash <$> slice_to n l) ++ tree_preimages (length es') (leaf_hash <$> es')) ->
  collision_free (leaf_preimages (slice_to n l) ++ leaf_preimages es') ->
  exists tr, run_verification_with verify env s eml id = (s', Ok tr) /\
    vt_overall_valid tr = false /\ broken_links tr = ["hash_recomputation"; "merkle_root_match"].
Proof.
  intros n Hc Hst El Hi Hlt Hne Hw Hwc Hok Ees' Hcf1 Hcf2.
  destruct (honest_signatures env l eml (xt_parsed x) poi ev Hc) as (a & u & Ea & Ha & Eu & Hu).
  destruct Hc as [Hp Hs (j & Ej & Eh) (es & t & r & Ees & Et & Er & Ex) Hch _ _ _]. fold n in Ees.
  assert (es = slice_to n l) as -> by (pose proof (recompute_chain _ _ (chain_slice n _ Hch)) as E; unfold recomputed_entries in Ees; congruence).
  assert (slice_to n l !! i = Some e) as Hi'.
  { destruct (slice_to_prefix n l) as [k Hk]. rewrite Hk in Hi. by rewrite lookup_app_l in Hi. }
  assert (Forall (fun e => json_wf (content e)) (slice_to n l)) as Hw'.
  { apply Forall_forall. intros e' He'. rewrite Forall_forall in Hw. apply Hw. by eapply slice_to_subset. }
  rewrite El, slice_to_insert in Ees' by done.
  destruct (rebuild_tampered _ _ _ _ _ _ _ Ees Et Hi' Ees') as (t' & r' & Et' & Er').
  assert (hex r' ≠ poi_context_root poi) as Hx.
  { intros E. rewrite <- Ex in E. apply hex_inj in E. by eapply (tampered_root (slice_to n l) i e c). }
  pose proof (payload_mismatch_none _ _ _ _ _ Ej Eh) as Hm3.
  destruct (hash_recomputation_rebuilt ledger eml (xt_parsed x) poi ev es' t' r' []) as (lh & Erc & Hlh); try done.
  { fold n. by rewrite El, slice_to_insert. }
  rewrite bool_decide_eq_false_2 in Hlh by by intros [_ ?].
  destruct (merkle_root_match_wrong ledger poi ev es' t' r' lh Et' Er' Hx) as (pv & m & Em & Hm).
  { rewrite El. by eapply first_invalid_tampered. }
  destruct (Hst r') as (st & Est & Hst').
  destruct (run_blames verify env (es_ledgers s') eml x poi ev (mkRecomputation (Some r') es' (Some t') lh) a u pv m st) as (tr & E & Hv & Hf); try done.
  { by eapply extract_link_passed. }
  { by exists t', r'. }
  exists tr. cbn [rc_link] in Hf. rewrite Hf, Hlh, Ha, Hu, Hm, Hst' in Hv. rewrite Hf, Hlh, Ha, Hu, Hm, Hst'. split; [by eapply run_with_ok|done].
Qed.

(** A changed message is blamed on the hashes alone: an upload whose payload is not the one
    the proof commits to, under the proof and over the evidence of an honest message, fails
    that link and no other, unless the two canonical forms collide. *)
Lemma changed_message_blamed raw raw' parsed d d' b b' :
  claims_hold env ledger (Some raw) parsed poi ev -> stamp_signed verify env poi ev -> eml = Some raw' ->
  dict_get "action_payload" parsed = Some (JObj d) -> dict_get "action_payload" (xt_parsed x) = Some (JObj d') ->
  rfc8785_dumps (JObj d) = Ok b -> rfc8785_dumps (JObj d') = Ok b' -> b ≠ b' -> collision_free [b; b'] ->
  exists tr, run_verification_with verify env s eml id = (s', Ok tr) /\
    vt_overall_valid tr = false /\ broken_links tr = ["hash_recomputation"].
Proof.
  intros Hc Hst Heml Ed Ed' Eb Eb' Hne Hcf.
  destruct (honest_signatures env ledger (Some raw) parsed poi ev Hc) as (a & u & Ea & Ha & Eu & Hu).
  rewrite (agent_signature_upload _ _ _ _ raw') in Ea. rewrite <- Heml in Ea.
  destruct Hc as [Hp Hs (j & Ej & Eh) (es & t & r & Ees & Et & Er & Ex) Hch _ _ _].
  cbn [artifact_payload] in Ej. rewrite Ed in Ej. injection Ej as <-.
  rewrite (hash_hex_obj _ _ Eb) in Eh. injection Eh as Eh.
  assert (payload_mismatch eml (xt_parsed x) poi ev = Ok ["action_payload_hash"]) as Hm3.
  { unfold payload_mismatch, mismatch. rewrite Heml, Ed', (hash_hex_obj _ _ Eb'). cbn [mbind result_bind].
    rewrite bool_decide_eq_false_2; [done|]. rewrite <- Eh. intros E%hex_inj. apply Hne, Hcf; [set_solver..|done]. }
  destruct (hash_recomputation_rebuilt ledger eml (xt_parsed x) poi ev es t r _ Hp Hs Hm3 Ees Et Er) as (lh & Erc & Hlh).
  rewrite bool_decide_eq_false_2 in Hlh by by intros [? _].
  destruct (merkle_root_match_complete ledger poi ev es t r lh Et Er Ex Hch) as (pv & m & Em & Hm).
  destruct (Hst r Ex) as (st & Est & Hst').
  destruct (run_blames verify env (es_ledgers s') eml x poi ev (mkRecomputation (Some r) es (Some t) lh) a u pv m st) as (tr & E & Hv & Hf); try done.
  { by eapply extract_link_passed. }
  { by exists t, r. }
  exists tr. cbn [rc_link] in Hf. rewrite Hf, Hlh, Ha, Hu, Hm, Hst' in Hv. rewrite Hf, Hlh, Ha, Hu, Hm, Hst'. split; [by eapply run_with_ok|done].
Qed.

End Theorems.

(** ** Witnesses *)

Section Witnesses.
#[local] Existing Instance demo_hashlib.
#[local] Existing Instance demo_rfc8785.
#[local] Existing Instance demo_rfc8785_laws.
#[local] Existing Instance demo_cryptography.
#[local] Existing Instance demo_sqlite.
#[local] Existing Instance demo_poi_model.
#[local] Existing Instance demo_envelope_model.
#[local] Existing Instance demo_persistence.
#[local] Existing Instance demo_rfc3161.
#[local] Existing Instance demo_email_lib.

(** The demonstration's action with and without a token. *)
Definition demo_record (token : option bytes) : ActionEvidence :=
  mkActionEvidence "a1" demo_signed "be safe" 0 2 None (Some demo_poi) (Some "email") (Some demo_payload) None token.

Definition demo_record_state (token : option bytes) (l : Ledger) : EvidenceState (gmap string string) :=
  mkEvidenceState (dict_set "a1" (demo_record token) []) (Some ∅) {[ 0%nat := l ]}.

Definition demo_record_extraction (token : option bytes) : Extraction :=
  mkExtraction (Some (demo_record token)) (Some "a1") [("action_payload", JObj demo_payload)]
    (Some demo_poi) (link_passed "poi_extraction" "signed PoI loaded from structured action evidence").

Definition demo_verify : option bytes -> bytes -> result TimestampAnchorResult :=
  portal_verify_timestamp_token (pe_tsa_config demo_portal_env) (pe_tsa_download demo_portal_env).

Definition demo_forged (_ : option bytes) (_ : bytes) : result TimestampAnchorResult :=
  Ok (mkTimestampAnchorResult false false "RFC 3161 verification failed: forged token").

(** The altered entry of the demonstration's ledger. *)
Definition demo_altered : Ledger :=
  match demo_grown !! 1%nat with
  | Some e => <[1%nat := Ledger.set_content (JObj [("text", JStr "send all")]) e]> demo_grown
  | None => [] end.

Definition demo_record_trace (verify : option bytes -> bytes -> result TimestampAnchorResult) (token : option bytes) (l : Ledger) :=
  (run_verification_with verify demo_portal_env (demo_record_state token l) None (Some "a1")).2.

Lemma demo_record_claims token :
  claims_hold demo_portal_env demo_grown None [("action_payload", JObj demo_payload)] demo_poi (demo_record token).
Proof.
  assert (vt_overall_valid (trace_of (demo_record_trace demo_verify None demo_grown)) = true) as Hv by (vm_compute; reflexivity).
  unfold demo_record_trace, run_verification_with in Hv.
  destruct (verify_extracted_with demo_verify demo_portal_env {[ 0%nat := demo_grown ]} None (demo_record_extraction None)) as [tr|] eqn:E;
    [|vm_compute in E; discriminate E].
  destruct (verify_extracted_sound demo_portal_env _ _ (demo_record_extraction None) tr E) as (poi & ev & [= <-] & [= <-] & Hc).
  { revert Hv. assert (extract (demo_record_state None demo_grown) None (Some "a1") = (demo_record_state None demo_grown, Ok (demo_record_extraction None))) as -> by reflexivity.
    cbn [mbind result_bind snd es_ledgers demo_record_state]. by rewrite E. }
  destruct Hc as [? ? ? ? ? ? ? ?]. by split.
Qed.
Lemma demo_portal_table_ok : table_ok demo_portal_table.
Proof.
  apply (registry_steps_ok []); [exact table_ok_nil|]. unfold demo_portal_table.
  destruct (register_agent_public_key _ _ _ [] _ _) as [[t1 r1]|] eqn:E1; cbn [mbind result_bind]; [|constructor].
  destruct (register_key _ _ _ _ _ _ _ _ _) as [[t2 r2]|] eqn:E2; [|constructor].
  eapply rtc_r; [by eapply register_agent_steps|by eapply step_register_key].
Qed.

Lemma demo_record_extract token l :
  extract (demo_record_state token l) None (Some "a1") = (demo_record_state token l, Ok (demo_record_extraction token)).
Proof. reflexivity. Qed.

Lemma demo_stamp_open : stamp_open demo_verify demo_portal_env demo_poi (demo_record None).
Proof. intros r. eexists. split; reflexivity. Qed.

(** Each of the five runs, on the action of the demonstration; a token of one byte is refused. *)
Lemma blame_exact_witness :
  ~ timestamped demo_portal_env demo_grown demo_poi (demo_record (Some [x00])) /\
  timestamped demo_portal_env demo_grown demo_poi (demo_record None) /\
  hashes_committed demo_grown None [("action_payload", JObj demo_payload)] demo_poi (demo_record None).
Proof.
  assert (forall token, is_ok (demo_record_trace demo_verify token demo_grown) = true ->
    run_verification demo_portal_env (demo_record_state token demo_grown) None (Some "a1")
      = (demo_record_state token demo_grown, Ok (trace_of (demo_record_trace demo_verify token demo_grown)))) as Hrun.
  { intros token. unfold demo_record_trace, run_verification, run_verification_with. rewrite demo_record_extract. cbn [snd].
    change (portal_verify_timestamp_token (pe_tsa_config demo_portal_env) (pe_tsa_download demo_portal_env)) with demo_verify.
    destruct (_ ≫= _); done. }
  assert (forall token, carries None (Some (demo_record token)) demo_poi) as Hc.
  { intros token. by apply (carries_record _ _ _ (demo_record token)). }
  destruct (blame_exact demo_portal_env _ _ None (Some "a1") _ _ (demo_record_extract (Some [x00]) demo_grown)
    (Hrun (Some [x00]) ltac:(vm_compute; reflexivity))) as (_ & _ & Hforged).
  destruct (blame_exact demo_portal_env _ _ None (Some "a1") _ _ (demo_record_extract None demo_grown)
    (Hrun None ltac:(vm_compute; reflexivity))) as (_ & _ & Hopen).
  destruct (Hforged demo_poi _ (Hc _) eq_refl) as (_ & _ & _ & _ & Hf). destruct (Hopen demo_poi _ (Hc _) eq_refl) as (Hh & _ & _ & _ & Ho).
  split; [|split].
  - intros Ht%Hf. apply Ht. apply (bool_decide_unpack _). vm_compute. exact I.
  - apply Ho. apply (bool_decide_unpack _). vm_compute. exact I.
  - apply Hh. apply (bool_decide_unpack _). vm_compute. exact I.
Defined.

Lemma revoked_agent_blamed_witness : exists tr,
  run_verification_with demo_verify (with_revoked demo_portal_env (or_str (poi_agent_pubkey_id demo_poi) "")) (demo_record_state None demo_grown)
    None (Some "a1") = (demo_record_state None demo_grown, Ok tr) /\ broken_links tr = ["agent_signature"].
Proof.
  destruct (revoked_agent_blamed demo_verify demo_portal_env _ _ None (Some "a1") (demo_record_extraction None) demo_poi (demo_record None)
    (demo_record_extract None demo_grown) eq_refl eq_refl) as (tr & E & _ & Hf).
  - exact (demo_record_claims None).
  - intros r _. exact (demo_stamp_open r).
  - exact demo_portal_table_ok.
  - vm_compute. discriminate.
  - exists tr. split; [exact E|exact Hf].
Defined.

Lemma forged_timestamp_blamed_witness : exists tr,
  run_verification_with demo_forged demo_portal_env (demo_record_state (Some [x00]) demo_grown) None (Some "a1")
    = (demo_record_state (Some [x00]) demo_grown, Ok tr) /\ broken_links tr = ["timestamp_anchor"].
Proof.
  destruct (forged_timestamp_blamed demo_forged demo_portal_env _ _ None (Some "a1") (demo_record_extraction (Some [x00])) demo_poi
    (demo_record (Some [x00])) (demo_record_extract _ demo_grown) eq_refl eq_refl [x00]) as (tr & E & _ & Hf).
  - exact (demo_record_claims _).
  - reflexivity.
  - intros r. eexists. split; [reflexivity|]. by split.
  - exists tr. split; [exact E|exact Hf].
Defined.

Lemma demo_grown_wf : Forall (fun e => json_wf (content e)) demo_grown.
Proof. vm_compute. repeat constructor; set_solver. Qed.

Lemma demo_altered_wf : json_wf (JObj [("text", JStr "send all")]).
Proof. vm_compute. repeat constructor; set_solver. Qed.

Definition demo_rebuilt : list LedgerEntry := match recomputed_entries (slice_to 2 demo_altered) with Ok es => es | Raise _ => [] end.

Lemma tampered_context_blamed_witness : exists tr,
  run_verification_with demo_verify demo_portal_env (demo_record_state None demo_altered) None (Some "a1")
    = (demo_record_state None demo_altered, Ok tr) /\ broken_links tr = ["hash_recomputation"; "merkle_root_match"].
Proof.
  destruct (demo_grown !! 1%nat) as [e|] eqn:Ee; [|vm_compute in Ee; discriminate Ee].
  destruct (tampered_context_blamed demo_verify demo_portal_env _ _ None (Some "a1") (demo_record_extraction None) demo_poi
    (demo_record None) (demo_record_extract None demo_altered) eq_refl eq_refl demo_grown 1 e (JObj [("text", JStr "send all")]) demo_rebuilt)
    as (tr & E & _ & Hf).
  - exact (demo_record_claims None).
  - exact demo_stamp_open.
  - unfold demo_altered. by rewrite Ee.
  - exact Ee.
  - vm_compute. lia.
  - assert (e = match demo_grown !! 1%nat with Some e => e | None => e end) as -> by (by rewrite Ee). clear Ee. vm_compute. discriminate.
  - exact demo_grown_wf.
  - exact demo_altered_wf.
  - assert (e = match demo_grown !! 1%nat with Some e => e | None => e end) as -> by (by rewrite Ee). clear Ee. vm_compute. reflexivity.
  - vm_compute. reflexivity.
  - apply (bool_decide_unpack _). vm_compute. exact I.
  - apply (bool_decide_unpack _). vm_compute. exact I.
  - exists tr. split; [exact E|exact Hf].
Defined.

End Witnesses.
