(* ===== verification/Regex.v ===== *)
(** * The regular expressions the agents use

    Python's [re] on code points 0..255: a backtracking matcher with priorities, written in
    continuation-passing style.  Every repetition in the sources is over a character class, so
    the matcher is structurally recursive and needs no fuel.  Case-insensitive patterns compare
    lower-cased characters, which is what [re.IGNORECASE] does on this range.

    [Matches] is the reference semantics without priorities; [rmatch_some] and [rmatch_complete]
    relate the matcher to it, and [keyword_search] characterises the keyword patterns of the
    agents as whole-word occurrences. *)

From S2P Require Import Prelude PyStr.

#[local] Open Scope Z_scope.

(** ** Characters *)

(** [str.isalnum] of one code point below 256, or the underscore: the class [\w]. *)
Definition is_word (c : ascii) : bool :=
  let n := ord c in
  is_digit c || is_alpha_ascii c || (n =? 95) || existsb (Z.eqb n) [170; 178; 179; 181; 185; 186; 188; 189; 190]
  || (192 <=? n) && negb (n =? 215) && negb (n =? 247).

Definition is_word_opt (c : option ascii) : bool := match c with Some c => is_word c | None => false end.

Definition char_is (x c : ascii) : bool := ord x =? ord c.

Definition char_in (cs : string) (c : ascii) : bool := str_has c cs.

(** A class under [re.IGNORECASE]. *)
Definition same_letter (x c : ascii) : bool := ord (lower_char x) =? ord (lower_char c).

(** ** Patterns *)

Inductive regex :=
| Eps
| Class_ (p : ascii -> bool)
| Cat (r1 r2 : regex)
| Alt (r1 r2 : regex)
| Opt (r : regex)
| Rep (p : ascii -> bool) (least : nat) (most : option nat)
| Group (n : nat) (r : regex)
| WordBoundary
| AtEnd.

Definition Star (p : ascii -> bool) : regex := Rep p 0 None.
Definition Plus (p : ascii -> bool) : regex := Rep p 1 None.

(** A literal, under a comparison of characters. *)
Fixpoint literal (same : ascii -> ascii -> bool) (s : string) : regex :=
  match s with EmptyString => Eps | String c s' => Cat (Class_ (same c)) (literal same s') end.

Fixpoint alternatives (same : ascii -> ascii -> bool) (words : list string) : regex :=
  match words with
  | [] => Class_ (fun _ => false)
  | [w] => literal same w
  | w :: ws => Alt (literal same w) (alternatives same ws)
  end.

(** [\b(w1|...|wn)\b] with [re.IGNORECASE]. *)
Definition keywords (words : list string) : regex :=
  Cat WordBoundary (Cat (Group 1 (alternatives same_letter words)) WordBoundary).

(** ** The matcher *)

(** The character before the position, the text from it on, and the groups, latest first. *)
Record position := At { at_prev : option ascii; at_rest : string; at_groups : list (nat * string) }.

Definition str_head (s : string) : option ascii := match s with String c _ => Some c | EmptyString => None end.

(** The consumed text between two positions. *)
Definition consumed (from to : string) : string := substring 0 (String.length from - String.length to) from.

Section Match.
Context {A : Type}.

(** Greedy repetition of a class: one more character first, then the continuation. *)
Fixpoint repeat_class (p : ascii -> bool) (least : nat) (most : option nat) (prev : option ascii) (s : string)
    (k : option ascii -> string -> option A) : option A :=
  let stop := match least with O => k prev s | S _ => None end in
  match s with
  | EmptyString => stop
  | String c s' =>
      if p c && negb (bool_decide (most = Some O)) then
        match repeat_class p (least - 1) (Nat.pred <$> most) (Some c) s' k with
        | Some x => Some x
        | None => stop
        end
      else stop
  end.

Fixpoint rmatch (r : regex) (at_ : position) (k : position -> option A) : option A :=
  match r with
  | Eps => k at_
  | Class_ p =>
      match at_rest at_ with
      | String c s => if p c then k (At (Some c) s (at_groups at_)) else None
      | EmptyString => None
      end
  | Cat r1 r2 => rmatch r1 at_ (fun at1 => rmatch r2 at1 k)
  | Alt r1 r2 => match rmatch r1 at_ k with Some x => Some x | None => rmatch r2 at_ k end
  | Opt r => match rmatch r at_ k with Some x => Some x | None => k at_ end
  | Rep p least most =>
      repeat_class p least most (at_prev at_) (at_rest at_) (fun prev s => k (At prev s (at_groups at_)))
  | Group n r =>
      rmatch r at_ (fun at1 => k (At (at_prev at1) (at_rest at1) ((n, consumed (at_rest at_) (at_rest at1)) :: at_groups at1)))
  | WordBoundary => if xorb (is_word_opt (at_prev at_)) (is_word_opt (str_head (at_rest at_))) then k at_ else None
  | AtEnd => match at_rest at_ with
             | EmptyString => k at_
             | String c EmptyString => if ord c =? 10 then k at_ else None
             | _ => None
             end
  end.

End Match.

Definition groups := list (nat * string).

(** [re.match(p, s)]. *)
Definition re_match (r : regex) (s : string) : option groups :=
  rmatch (Group 0 r) (At None s []) (fun at_ => Some (at_groups at_)).

(** [re.fullmatch(p, s)]. *)
Definition re_fullmatch (r : regex) (s : string) : option groups :=
  rmatch (Group 0 r) (At None s []) (fun at_ => match at_rest at_ with EmptyString => Some (at_groups at_) | _ => None end).

(** [re.search(p, s)]: the leftmost position that matches. *)
Fixpoint search_from (r : regex) (prev : option ascii) (s : string) : option groups :=
  match rmatch (Group 0 r) (At prev s []) (fun at_ => Some (at_groups at_)) with
  | Some g => Some g
  | None => match s with String c s' => search_from r (Some c) s' | EmptyString => None end
  end.

Definition re_search (r : regex) (s : string) : option groups := search_from r None s.

(** [match.group(n)]. *)
Fixpoint group (n : nat) (g : groups) : option string :=
  match g with [] => None | (m, s) :: g' => if (m =? n)%nat then Some s else group n g' end.

(** [re.split(p, s)] for a pattern without groups that matches no empty text: [skip]
    characters of a separator are still to be dropped. *)
Fixpoint split_from (r : regex) (prev : option ascii) (skip : nat) (s : string) : list string :=
  match s with
  | EmptyString => [EmptyString]
  | String c s' =>
      match skip with
      | S n => split_from r (Some c) n s'
      | O =>
          match rmatch r (At prev s []) (fun at_ => Some (String.length s - String.length (at_rest at_))%nat) with
          | Some (S n) => EmptyString :: split_from r (Some c) n s'
          | _ => match split_from r (Some c) 0 s' with
                 | piece :: rest => String c piece :: rest
                 | [] => [String c EmptyString]
                 end
          end
      end
  end.

Definition re_split (r : regex) (s : string) : list string := split_from r None 0 s.

(** ** Reference semantics *)

Fixpoint last_char (prev : option ascii) (s : string) : option ascii :=
  match s with EmptyString => prev | String c s' => last_char (Some c) s' end.

Fixpoint Matches (r : regex) (p q : position) : Prop :=
  match r with
  | Eps => q = p
  | Class_ f => exists c s, at_rest p = String c s /\ f c = true /\ q = At (Some c) s (at_groups p)
  | Cat r1 r2 => exists m, Matches r1 p m /\ Matches r2 m q
  | Alt r1 r2 => Matches r1 p q \/ Matches r2 p q
  | Opt r => Matches r p q \/ q = p
  | Rep f least most =>
      exists w s, at_rest p = w +:+ s /\ str_forallb f w = true /\ (least <= String.length w)%nat /\
        (forall n, most = Some n -> (String.length w <= n)%nat) /\ q = At (last_char (at_prev p) w) s (at_groups p)
  | Group n r =>
      exists m, Matches r p m /\ q = At (at_prev m) (at_rest m) ((n, consumed (at_rest p) (at_rest m)) :: at_groups m)
  | WordBoundary => xorb (is_word_opt (at_prev p)) (is_word_opt (str_head (at_rest p))) = true /\ q = p
  | AtEnd => (at_rest p = EmptyString \/ exists c, at_rest p = String c EmptyString /\ ord c = 10) /\ q = p
  end.

(** ** The matcher against the reference semantics *)

Section Correct.
Context {A : Type}.

Lemma repeat_class_some p least most prev s (k : option ascii -> string -> option A) x :
  repeat_class p least most prev s k = Some x ->
  exists w s', s = w +:+ s' /\ str_forallb p w = true /\ (least <= String.length w)%nat /\
    (forall n, most = Some n -> (String.length w <= n)%nat) /\ k (last_char prev w) s' = Some x.
Proof.
  revert least most prev. induction s as [|c s IH]; intros least most prev; cbn [repeat_class].
  - destruct least; [|done]. intros E. exists EmptyString, EmptyString. split_and!; [done|done|cbn; lia|intros; cbn; lia|done].
  - assert (match least with O => k prev (String c s) | S _ => None end = Some x ->
      exists w s', String c s = w +:+ s' /\ str_forallb p w = true /\ (least <= String.length w)%nat /\
        (forall n, most = Some n -> (String.length w <= n)%nat) /\ k (last_char prev w) s' = Some x) as Hstop.
    { destruct least; [|done]. intros E. exists EmptyString, (String c s). split_and!; [done|done|cbn; lia|intros; cbn; lia|done]. }
    destruct (p c) eqn:Ep; cbn [andb]; [|exact Hstop]. case_bool_decide as Hm; cbn [negb]; [exact Hstop|].
    destruct (repeat_class _ _ _ _ _ _) as [y|] eqn:Er; [|exact Hstop]. intros [= ->].
    apply IH in Er as (w & s' & -> & Hw & Hl & Hn & Hk). exists (String c w), s'. split_and!; [done|cbn; by rewrite Ep| |..|done].
    + cbn [String.length]. lia.
    + intros n ->. destruct n as [|n]; [done|]. specialize (Hn n eq_refl). cbn [String.length]. lia.
Qed.

Lemma repeat_class_complete p least most prev w s' (k : option ascii -> string -> option A) :
  str_forallb p w = true -> (least <= String.length w)%nat -> (forall n, most = Some n -> (String.length w <= n)%nat) ->
  is_Some (k (last_char prev w) s') -> is_Some (repeat_class p least most prev (w +:+ s') k).
Proof.
  revert least most prev. induction w as [|c w IH]; intros least most prev Hw Hl Hn Hk.
  - destruct least; [|cbn in Hl; lia]. change (EmptyString +:+ s') with s'. destruct s' as [|c s']; cbn [repeat_class]; [done|].
    destruct (p c && _); [|done]. by destruct (repeat_class _ _ _ _ _ _).
  - cbn in Hw. apply andb_prop in Hw as [Hc Hw]. change (String c w +:+ s') with (String c (w +:+ s')). cbn [repeat_class].
    rewrite Hc. case_bool_decide as Hm; [specialize (Hn O Hm); cbn in Hn; lia|]. cbn [negb andb].
    destruct (IH (least - 1)%nat (Nat.pred <$> most) (Some c)) as [x ->]; [done|cbn in Hl; lia| |done|by eexists].
    intros n Hp. destruct most as [[|m]|]; cbn in Hp; [done| |done]. injection Hp as <-.
    specialize (Hn _ eq_refl). cbn in Hn. lia.
Qed.

(** A match found is a match. *)
Lemma rmatch_some (r : regex) (p : position) (k : position -> option A) x :
  rmatch r p k = Some x -> exists q, Matches r p q /\ k q = Some x.
Proof.
  revert p k. induction r; intros q k; cbn [rmatch Matches].
  - eauto.
  - destruct (at_rest q) as [|c s]; [done|]. destruct (p c) eqn:E; [|done]. eauto 10.
  - intros (m & H1 & (q' & H2 & Hk)%IHr2)%IHr1. eauto.
  - destruct (rmatch r1 q k) as [y|] eqn:E; [intros [= ->]; apply IHr1 in E as (q' & ? & ?); eauto|].
    intros (q' & ? & ?)%IHr2. eauto.
  - destruct (rmatch r q k) as [y|] eqn:E; [intros [= ->]; apply IHr in E as (q' & ? & ?); eauto|]. eauto.
  - intros (w & s & ? & ? & ? & ? & ?)%repeat_class_some. eexists. split; [|done]. eauto 10.
  - intros (m & ? & ?)%IHr. eauto.
  - destruct (xorb _ _) eqn:E; [|done]. eauto.
  - destruct (at_rest q) as [|c [|]] eqn:E; [eauto| |done]. destruct (ord c =? 10) eqn:Ec; [|done].
    apply Z.eqb_eq in Ec. eauto 10.
Qed.

(** A match that exists, and that the continuation accepts, is found, or another one is. *)
Lemma rmatch_complete (r : regex) (p q : position) (k : position -> option A) :
  Matches r p q -> is_Some (k q) -> is_Some (rmatch r p k).
Proof.
  revert p q k. induction r; intros a b k; cbn [rmatch Matches].
  - by intros ->.
  - intros (c & s & -> & -> & ->). done.
  - intros (m & H1 & H2) Hk. eauto.
  - intros [H1|H2] Hk.
    + destruct (IHr1 _ _ _ H1 Hk) as [y ->]. eauto.
    + destruct (rmatch r1 a k); eauto.
  - intros [H1| ->] Hk; [destruct (IHr _ _ _ H1 Hk) as [y ->]; eauto|]. destruct (rmatch r a k); eauto.
  - intros (w & s & -> & ? & ? & ? & ->) Hk. by apply repeat_class_complete.
  - intros (m & Hm & ->) Hk. eapply IHr; [done|]. done.
  - intros [-> ->]. done.
  - intros [[->|(c & -> & Hc)] ->]; [done|]. by rewrite Hc.
Qed.

End Correct.

Lemma is_some_if {A} (o : option A) : is_Some o <-> o ≠ None.
Proof. symmetry. apply not_eq_None_Some. Qed.

(** The last character of a prefix is the one before the position reached. *)
Lemma last_char_app prev u w : last_char prev (u +:+ w) = last_char (last_char prev u) w.
Proof. revert prev. induction u as [|c u IH]; intros prev; [done|]. apply IH. Qed.

Lemma search_from_some r prev s :
  is_Some (search_from r prev s) <->
  exists u w q, s = u +:+ w /\ Matches r (At (last_char prev u) w []) q.
Proof.
  revert prev. induction s as [|c s IH]; intros prev; cbn [search_from].
  - split.
    + destruct (rmatch _ _ _) as [x|] eqn:E; [|by intros []].
      apply rmatch_some in E as (q & (m & Hm & _) & _). intros _. by exists EmptyString, EmptyString, m.
    + intros (u & w & q & E & Hm). destruct u, w; try done.
      destruct (rmatch_complete (Group 0 r) (At prev EmptyString []) _ (fun at_ => Some (at_groups at_)) (ex_intro _ q (conj Hm eq_refl)))
        as [x ->]; [by eexists|]. by eexists.
  - destruct (rmatch (Group 0 r) (At prev (String c s) []) _) as [x|] eqn:E.
    + split; [|by eexists]. apply rmatch_some in E as (q & (m & Hm & _) & _). intros _. by exists EmptyString, (String c s), m.
    + rewrite IH. split.
      * intros (u & w & q & -> & Hm). by exists (String c u), w, q.
      * intros (u & w & q & Es & Hm). destruct u as [|c' u].
        -- change (EmptyString +:+ w) with w in Es. subst w. exfalso.
           destruct (rmatch_complete (Group 0 r) (At prev (String c s) []) _ (fun at_ => Some (at_groups at_))
             (ex_intro _ q (conj Hm eq_refl))) as [x Ex]; [by eexists|]. by rewrite Ex in E.
        -- injection Es as -> ->. by exists u, w, q.
Qed.

(** ** Keyword patterns *)

(** A keyword: lower-case word characters. *)
Definition keyword_ok (w : string) : Prop := w ≠ EmptyString /\ str_lower w = w /\ str_forallb is_word w = true.

(** Some keyword occurs, in any case, as a whole word. *)
Definition occurs_as_word (words : list string) (s : string) : Prop :=
  exists u w v, s = u +:+ (w +:+ v) /\ str_lower w ∈ words /\
    is_word_opt (last_char None u) = false /\ is_word_opt (str_head v) = false.

Lemma is_word_lower c : is_word (lower_char c) = is_word c.
Proof. destruct c as [[] [] [] [] [] [] [] []]; reflexivity. Qed.

Lemma str_forallb_lower w : str_forallb is_word (str_lower w) = str_forallb is_word w.
Proof. unfold str_lower. induction w as [|c w IH]; [done|]. cbn. by rewrite is_word_lower, IH. Qed.

Lemma literal_matches w p q :
  Matches (literal same_letter w) p q <->
  exists t, at_rest p = t +:+ at_rest q /\ str_lower t = str_lower w /\
    at_prev q = last_char (at_prev p) t /\ at_groups q = at_groups p.
Proof.
  revert p. induction w as [|c w IH]; intros p; cbn [literal Matches].
  - split.
    + intros ->. by exists EmptyString.
    + intros (t & Ht & Hl & Hp & Hg). destruct t; [|done]. destruct p, q. cbn in *. by subst.
  - split.
    + intros (m & (x & s & Hr & Hx & ->) & (t & Ht & Hl & Hp & Hg)%IH). cbn [at_rest at_prev at_groups] in *.
      exists (String x t). split_and!; [by rewrite Hr, Ht| |done|done].
      unfold str_lower in *. cbn [str_map]. rewrite Hl. f_equal. unfold same_letter in Hx.
      apply Z.eqb_eq in Hx. by rewrite <- (chr_ord (lower_char x)), <- Hx, chr_ord.
    + intros (t & Ht & Hl & Hp & Hg). destruct t as [|x t]; [done|]. unfold str_lower in Hl. cbn [str_map] in Hl.
      injection Hl as Hx Hl. exists (At (Some x) (t +:+ at_rest q) (at_groups p)). split.
      * exists x, (t +:+ at_rest q). split_and!; [done| |done]. unfold same_letter. rewrite Hx. apply Z.eqb_refl.
      * apply IH. exists t. done.
Qed.

Lemma alternatives_matches words p q :
  Matches (alternatives same_letter words) p q <-> exists w, w ∈ words /\ Matches (literal same_letter w) p q.
Proof.
  induction words as [|w [|w' ws] IH].
  - cbn. split; [by intros (? & ? & ? & ? & ?)|by intros (? & []%not_elem_of_nil & _)].
  - cbn [alternatives]. split; [exists w; split; [left|done]|]. by intros (? & ->%list_elem_of_singleton & ?).
  - change (alternatives same_letter (w :: w' :: ws)) with (Alt (literal same_letter w) (alternatives same_letter (w' :: ws))).
    cbn [Matches]. rewrite IH. split.
    + intros [?|(x & ? & ?)]; [exists w; split; [left|done]|exists x; split; [by right|done]].
    + intros (x & [->|?]%elem_of_cons & ?); eauto.
Qed.

Lemma last_char_word prev w : w ≠ EmptyString -> str_forallb is_word w = true -> is_word_opt (last_char prev w) = true.
Proof.
  revert prev. induction w as [|c [|c' w] IH]; intros prev Hne; [done|cbn; by rewrite andb_true_r|].
  cbn [str_forallb last_char]. intros [_ Hw]%andb_prop. by apply (IH (Some c)).
Qed.

Lemma str_head_word w v : w ≠ EmptyString -> str_forallb is_word w = true -> is_word_opt (str_head (w +:+ v)) = true.
Proof. destruct w as [|c w]; [done|]. intros _ [Hc _]%andb_prop. exact Hc. Qed.

Lemma lower_keyword w t : keyword_ok w -> str_lower t = w -> t ≠ EmptyString /\ str_forallb is_word t = true.
Proof. intros (Hne & _ & Hw) <-. rewrite str_forallb_lower in Hw. split; [by intros ->|done]. Qed.

(** The keyword patterns find whole words, in any case. *)
Lemma keyword_search words s :
  Forall keyword_ok words -> is_Some (re_search (keywords words) s) <-> occurs_as_word words s.
Proof.
  intros Hok. rewrite Forall_forall in Hok. unfold re_search. rewrite search_from_some. unfold keywords, occurs_as_word. cbn [Matches]. split.
  - intros (u & x & q & -> & m1 & [Hb ->] & m2 & (m & (w & Hin & (t & Ht & Hl & Hp & Hg)%literal_matches)%alternatives_matches & ->) & Hb' & ->).
    cbn [at_rest at_prev] in *. destruct (Hok w Hin) as (Hne & Hlow & Hw). rewrite Hlow in Hl.
    destruct (lower_keyword w t (Hok w Hin) Hl) as [Htn Htw].
    exists u, t, (at_rest m). rewrite Ht in Hb. rewrite Hp, last_char_word in Hb' by done.
    rewrite str_head_word in Hb by done. split_and!; [by rewrite Ht|by rewrite Hl|by destruct (is_word_opt (last_char None u))|].
    by destruct (is_word_opt (str_head (at_rest m))).
  - intros (u & t & v & -> & Hin & Hu & Hv). destruct (lower_keyword _ t (Hok _ Hin) eq_refl) as [Htn Htw].
    set (m := At (last_char (last_char None u) t) v []).
    exists u, (t +:+ v), (At (at_prev m) v [(1%nat, consumed (t +:+ v) v)]). split; [done|].
    exists (At (last_char None u) (t +:+ v) []). split; [split; [|done]|].
    { cbn [at_rest at_prev]. by rewrite Hu, str_head_word. }
    exists (At (at_prev m) v [(1%nat, consumed (t +:+ v) v)]). split.
    + exists m. split; [|done]. apply alternatives_matches. exists (str_lower t). split; [done|].
      apply literal_matches. exists t. split_and!; [done| |done|done].
      destruct (Hok _ Hin) as (_ & -> & _). done.
    + cbn [at_rest at_prev]. split; [|done]. subst m. cbn [at_prev]. by rewrite last_char_word, Hv.
Qed.

(** ** Splitting *)

(** Pieces and the separators between them, in order, make up the text. *)
Inductive interleaved (sep : string -> Prop) : string -> list string -> Prop :=
| interleaved_last p : interleaved sep p [p]
| interleaved_cons p x s ps : sep x -> interleaved sep s ps -> interleaved sep (p +:+ (x +:+ s)) (p :: ps).

(** [x] is what the pattern consumes somewhere. *)
Definition consumes (r : regex) (x : string) : Prop :=
  exists prev v q, Matches r (At prev (x +:+ v) []) q /\ at_rest q = v.

Lemma str_app_nil s : s +:+ EmptyString = s.
Proof. induction s as [|c s IH]; [done|]. change (String c s +:+ EmptyString) with (String c (s +:+ EmptyString)). by rewrite IH. Qed.

Lemma str_app_assoc a b c : (a +:+ b) +:+ c = a +:+ (b +:+ c).
Proof. induction a as [|x a IH]; [done|]. change (String x ((a +:+ b) +:+ c) = String x (a +:+ (b +:+ c))). by rewrite IH. Qed.

Lemma str_app_length a b : String.length (a +:+ b) = (String.length a + String.length b)%nat.
Proof. induction a as [|x a IH]; [done|]. change (S (String.length (a +:+ b)) = S (String.length a + String.length b)). by rewrite IH. Qed.

Lemma str_app_inj_r a b c : a +:+ c = b +:+ c -> a = b.
Proof.
  revert b. induction a as [|x a IH]; intros [|y b] E; [done|..].
  - exfalso. apply (f_equal String.length) in E. change (EmptyString +:+ c) with c in E.
    rewrite str_app_length in E. cbn in E. lia.
  - exfalso. apply (f_equal String.length) in E. change (EmptyString +:+ c) with c in E.
    rewrite str_app_length in E. cbn in E. lia.
  - injection E as -> E. by rewrite (IH b).
Qed.

(** A match consumes a prefix. *)
Lemma Matches_prefix r p q : Matches r p q -> exists x, at_rest p = x +:+ at_rest q.
Proof.
  revert p q. induction r; intros a b; cbn [Matches].
  - intros ->. by exists EmptyString.
  - intros (c & s & -> & _ & ->). by exists (String c EmptyString).
  - intros (m & (x & ->)%IHr1 & (y & ->)%IHr2). exists (x +:+ y). by rewrite str_app_assoc.
  - intros [?%IHr1|?%IHr2]; done.
  - intros [?%IHr| ->]; [done|]. by exists EmptyString.
  - intros (w & s & -> & _ & _ & _ & ->). by exists w.
  - intros (m & (x & ->)%IHr & ->). by exists x.
  - intros [_ ->]. by exists EmptyString.
  - intros [_ ->]. by exists EmptyString.
Qed.

Lemma split_from_skip r prev x s :
  exists prev', split_from r prev (String.length x) (x +:+ s) = split_from r prev' 0 s.
Proof.
  revert prev. induction x as [|c x IH]; intros prev; [by exists prev|].
  change (String c x +:+ s) with (String c (x +:+ s)). cbn [String.length split_from]. apply IH.
Qed.

(** The pieces of a split, with the separators, make up the text. *)
Lemma re_split_interleaved r s : interleaved (consumes r) s (re_split r s).
Proof.
  unfold re_split. generalize (@None ascii). remember (String.length s) as n eqn:Hn. revert s Hn.
  induction (lt_wf n) as [n _ IH]. intros s -> prev. destruct s as [|c s]; [apply interleaved_last|]. cbn [split_from].
  assert (interleaved (consumes r) (String c s)
    match split_from r (Some c) 0 s with piece :: rest => String c piece :: rest | [] => [String c EmptyString] end) as Hplain.
  { assert (interleaved (consumes r) s (split_from r (Some c) 0 s)) as Hs by (eapply IH; [|done]; cbn; lia).
    destruct Hs as [p|p x s' ps Hx Hs']; [apply interleaved_last|].
    change (String c (p +:+ (x +:+ s'))) with (String c p +:+ (x +:+ s')). by apply interleaved_cons. }
  destruct (rmatch r _ _) as [[|m]|] eqn:E; [exact Hplain| |exact Hplain].
  apply rmatch_some in E as (q & Hq & [= Hm]). destruct (Matches_prefix _ _ _ Hq) as [x Hx]. cbn [at_rest] in Hx.
  destruct x as [|c' x]; [change (EmptyString +:+ at_rest q) with (at_rest q) in Hx; rewrite <- Hx in Hm; cbn [String.length] in Hm; lia|].
  injection Hx as <- ->. rewrite str_app_length in Hm.
  assert (m = String.length x) as -> by lia. destruct (split_from_skip r (Some c) x (at_rest q)) as [prev' ->].
  apply (interleaved_cons _ EmptyString (String c x)).
  - by exists prev, (at_rest q), q.
  - eapply IH; [|done]. cbn [String.length]. rewrite str_app_length. lia.
Qed.

Lemma interleaved_impl (P Q : string -> Prop) s ps : (forall x, P x -> Q x) -> interleaved P s ps -> interleaved Q s ps.
Proof. intros Hpq. induction 1; constructor; auto. Qed.

(** ** What the entry points find *)

Lemma consumed_app x s : consumed (x +:+ s) s = x.
Proof.
  unfold consumed. rewrite str_app_length, Nat.add_sub.
  induction x as [|c x IH]; [by destruct s|]. change (String c (substring 0 (String.length x) (x +:+ s)) = String c x). by rewrite IH.
Qed.

(** [re.search] finds a text that the pattern consumes, as its group 0. *)
Lemma search_from_group r prev s g :
  search_from r prev s = Some g ->
  exists u w q, s = u +:+ (w +:+ at_rest q) /\ Matches r (At (last_char prev u) (w +:+ at_rest q) []) q /\
    g = (O, w) :: at_groups q.
Proof.
  revert prev. induction s as [|c s IH]; intros prev; cbn [search_from].
  - destruct (rmatch _ _ _) as [x|] eqn:E; [|done]. intros [= ->].
    apply rmatch_some in E as (q & (m & Hm & ->) & [= <-]). destruct (Matches_prefix _ _ _ Hm) as [w Hw]. cbn [at_rest] in *.
    exists EmptyString, w, m. rewrite <- Hw. split_and!; [done|done|]. by rewrite Hw at 1; rewrite consumed_app.
  - destruct (rmatch _ _ _) as [x|] eqn:E.
    + intros [= ->]. apply rmatch_some in E as (q & (m & Hm & ->) & [= <-]). destruct (Matches_prefix _ _ _ Hm) as [w Hw].
      cbn [at_rest] in *. exists EmptyString, w, m. rewrite <- Hw. split_and!; [done|done|].
      by rewrite Hw, consumed_app.
    + intros (u & w & q & -> & Hm & ->)%IH. by exists (String c u), w, q.
Qed.

Lemma re_fullmatch_some r s :
  is_Some (re_fullmatch r s) <-> exists q, Matches r (At None s []) q /\ at_rest q = EmptyString.
Proof.
  unfold re_fullmatch. split.
  - intros [x E]. apply rmatch_some in E as (q & (m & Hm & ->) & Hk). cbn [at_rest] in Hk.
    exists m. split; [done|]. by destruct (at_rest m).
  - intros (q & Hm & Hq). eapply rmatch_complete; [cbn [Matches]; exists q; split; [exact Hm|reflexivity]|]. cbn [at_rest]. by rewrite Hq.
Qed.
