(* ===== verification/Router.v ===== *)
(** * aor/agents/router.py: deterministic routing

    A request is split at the word "then"; each segment goes to the first rule whose keyword
    pattern matches and whose registered agent accepts it.  Routing and planning have no effect.

    The theorems: the agent chosen for a segment, stated over whole-word occurrences of the
    keywords; that routing numbers the segments, loses no text, is handled exactly when every
    segment found an agent, and that planning asks exactly the chosen agents, in order. *)

From S2P Require Import Prelude PyStr Json Verifier Registry AgentBase Regex.

#[local] Open Scope Z_scope.

Record RouteStep := mkRouteStep {
  rs_sequence : Z;
  rs_request : string;
  rs_agent_type : option string;
  rs_agent_id : option string;
  rs_reason : option string;
}.

Record RouteResult := mkRouteResult {
  rr_request : string;
  rr_handled : bool;
  rr_steps : list RouteStep;
  rr_reason : option string;
}.

(** [_RULES]: the keywords of each pattern. *)
Definition RULES : list (string * list string) :=
  [("audit", ["audit"; "verify"; "tamper"; "replay"; "proof"; "ledger"]);
   ("database", ["database"; "sqlite"; "query"; "records"; "table"; "sql"]);
   ("file", ["file"; "folder"; "directory"; "read"; "create"; "write"; "edit"; "update"; "rename"; "delete"]);
   ("email", ["send"; "email"; "mail"; "reply"; "forward"])].

Definition file_words : list string := ["file"; "folder"; "directory"].

Definition matches_words (words : list string) (request : string) : bool :=
  bool_decide (is_Some (re_search (keywords words) request)).

(** The loop of [_agent_for] over the rules. *)
Fixpoint agent_by_rules (rules : list (string * list string)) (registry : AgentRegistry) (request : string) : option Agent :=
  match rules with
  | [] => None
  | (agent_type, words) :: rest =>
      if matches_words words request
         && negb (bool_decide (agent_type = "database") && matches_words file_words request) then
        match agent_get registry agent_type with
        | Ok agent => if ag_can_handle agent request then Some agent else agent_by_rules rest registry request
        | Raise _ => agent_by_rules rest registry request
        end
      else agent_by_rules rest registry request
  end.

Definition agent_for (registry : AgentRegistry) (request : string) : option Agent := agent_by_rules RULES registry request.

(** [\s+then\s+] with [re.IGNORECASE]. *)
Definition then_pattern : regex := Cat (Plus is_space) (Cat (literal same_letter "then") (Plus is_space)).

Definition segments_of (request : string) : list string :=
  filter (fun s => truthy_str s = true) (str_strip <$> re_split then_pattern request).

(** One round of the loop: the segment at position [sequence], from 1. *)
Definition route_step (registry : AgentRegistry) (sequence : Z) (segment : string) : RouteStep :=
  match agent_for registry segment with
  | None => mkRouteStep sequence segment None None (Some "no_agent_can_handle_request")
  | Some agent => mkRouteStep sequence segment (Some (ag_agent_type agent)) (Some (ag_agent_id agent)) None
  end.

Definition route (registry : AgentRegistry) (request : string) : RouteResult :=
  if negb (truthy_str request) || negb (truthy_str (str_strip request))
  then mkRouteResult request false [] (Some "request_empty")
  else
    let segments := segments_of request in
    let steps := imap (fun i segment => route_step registry (Z.of_nat i + 1) segment) segments in
    let handled := negb (bool_decide (steps = [])) && forallb (fun s => bool_decide (is_Some (rs_agent_type s))) steps in
    mkRouteResult request handled steps (if handled then None else Some "no_agent_can_handle_request").

Definition router_plan (registry : AgentRegistry) (request : string) (context : option dict) : result (list ActionPlan) :=
  let result := route registry request in
  if negb (rr_handled result) then raise ValueError (or_str (rr_reason result) "no_agent_can_handle_request")
  else mapM_result (fun step => agent ← agent_get registry (or_str (rs_agent_type step) EmptyString);
                                ag_plan agent (rs_request step) context) (rr_steps result).

(** ** Specification *)

(** A rule applies to a segment: a keyword occurs as a word, and the database rule yields to
    requests that name a file. *)
Definition rule_applies (rule : string * list string) (segment : string) : Prop :=
  occurs_as_word rule.2 segment /\ ~ (rule.1 = "database" /\ occurs_as_word file_words segment).

(** [agent] is the registered agent of the rule's type and accepts the segment. *)
Definition rule_agent (registry : AgentRegistry) (rule : string * list string) (segment : string) (agent : Agent) : Prop :=
  rule_applies rule segment /\ agent_get registry rule.1 = Ok agent /\ ag_can_handle agent segment = true.

(** ** Lemmas *)

#[local] Instance RouteStep_eq_dec : EqDecision RouteStep.
Proof. solve_decision. Defined.

Lemma rules_ok : Forall (fun rule => Forall keyword_ok rule.2) RULES /\ Forall keyword_ok file_words.
Proof. split; repeat constructor; done. Qed.

Lemma matches_words_spec words s : Forall keyword_ok words -> matches_words words s = true <-> occurs_as_word words s.
Proof. intros Hok. unfold matches_words. rewrite bool_decide_eq_true. by apply keyword_search. Qed.

Lemma rule_applies_spec rule s :
  Forall keyword_ok rule.2 ->
  matches_words rule.2 s && negb (bool_decide (rule.1 = "database") && matches_words file_words s) = true <->
  rule_applies rule s.
Proof.
  intros Hok. unfold rule_applies. rewrite andb_true_iff, (matches_words_spec _ _ Hok), negb_true_iff, <- not_true_iff_false,
    andb_true_iff, bool_decide_eq_true, (matches_words_spec file_words) by apply rules_ok. done.
Qed.

(** The loop picks the first rule with an agent. *)
Lemma agent_by_rules_spec rules registry s :
  Forall (fun rule => Forall keyword_ok rule.2) rules ->
  match agent_by_rules rules registry s with
  | Some agent => exists i rule, rules !! i = Some rule /\ rule_agent registry rule s agent /\
      forall j rule' agent', (j < i)%nat -> rules !! j = Some rule' -> ~ rule_agent registry rule' s agent'
  | None => forall rule agent, rule ∈ rules -> ~ rule_agent registry rule s agent
  end.
Proof.
  induction 1 as [|[ty words] rules Hok _ IH]; cbn [agent_by_rules]; [by intros rule agent Hr%elem_of_nil|].
  assert (forall a, agent_by_rules rules registry s = a ->
    (forall agent, ~ rule_agent registry (ty, words) s agent) ->
    match a with
    | Some agent => exists i rule, ((ty, words) :: rules) !! i = Some rule /\ rule_agent registry rule s agent /\
        forall j rule' agent', (j < i)%nat -> ((ty, words) :: rules) !! j = Some rule' -> ~ rule_agent registry rule' s agent'
    | None => forall rule agent, rule ∈ (ty, words) :: rules -> ~ rule_agent registry rule s agent
    end) as Hskip.
  { intros a E Hno. rewrite E in IH. destruct a as [agent|].
    - destruct IH as (i & rule & Hi & Hr & Hfirst). exists (S i), rule. split_and!; [done|done|].
      intros [|j] rule' agent' Hj Hl; [injection Hl as <-; apply Hno|]. apply (Hfirst j); [lia|done].
    - intros rule agent [->|Hin]%elem_of_cons; [apply Hno|by apply IH]. }
  destruct (_ && _) eqn:Ea.
  - apply (rule_applies_spec (ty, words) s Hok) in Ea. destruct (agent_get registry ty) as [agent|e] eqn:Eg.
    + destruct (ag_can_handle agent s) eqn:Ec.
      * exists O, (ty, words). split_and!; [done|done|]. intros j rule' agent' Hj. lia.
      * apply Hskip; [done|]. intros a (_ & Ha & Hc). cbn in Ha. congruence.
    + apply Hskip; [done|]. intros a (_ & Ha & _). cbn in Ha. congruence.
  - apply Hskip; [done|]. intros a (Ha & _). apply (rule_applies_spec (ty, words) s Hok) in Ha. cbn in Ha. congruence.
Qed.

(** What the separator pattern consumes: the word "then" between spaces. *)
Definition then_separator (x : string) : Prop :=
  exists a t b, x = a +:+ (t +:+ b) /\ str_lower t = "then" /\ a ≠ EmptyString /\ b ≠ EmptyString /\
    str_forallb is_space a = true /\ str_forallb is_space b = true.

Lemma then_consumes x : consumes then_pattern x -> then_separator x.
Proof.
  intros (prev & v & q & Hm & <-). unfold then_pattern in Hm. cbn [Matches Plus] in Hm.
  destruct Hm as (m1 & (a & s1 & Hr & Ha & Hla & _ & ->) & m2 & (t & Ht & Hlow & _)%literal_matches & (b & s2 & Hr2 & Hb & Hlb & _ & ->)).
  cbn [at_rest] in *. subst s1. rewrite Hr2 in Hr.
  exists a, t, b. rewrite <- (str_app_assoc t b s2), <- (str_app_assoc a) in Hr. apply str_app_inj_r in Hr.
  split_and!; [done|done|by intros ->; cbn in Hla; lia|by intros ->; cbn in Hlb; lia|done|done].
Qed.

Lemma is_some_type agent : is_Some (Some (ag_agent_type agent)).
Proof. by eexists. Qed.

Lemma route_step_fields registry n s :
  rs_sequence (route_step registry n s) = n /\ rs_request (route_step registry n s) = s /\
  rs_agent_type (route_step registry n s) = ag_agent_type <$> agent_for registry s /\
  rs_agent_id (route_step registry n s) = ag_agent_id <$> agent_for registry s.
Proof. unfold route_step. by destruct (agent_for registry s). Qed.

Lemma route_empty registry request :
  str_strip request = EmptyString -> route registry request = mkRouteResult request false [] (Some "request_empty").
Proof. intros E. unfold route. rewrite E. by destruct request. Qed.

Lemma route_segments registry request :
  str_strip request ≠ EmptyString ->
  route registry request =
    (let steps := imap (fun i s => route_step registry (Z.of_nat i + 1) s) (segments_of request) in
     let handled := negb (bool_decide (steps = [])) && forallb (fun s => bool_decide (is_Some (rs_agent_type s))) steps in
     mkRouteResult request handled steps (if handled then None else Some "no_agent_can_handle_request")).
Proof.
  intros E. unfold route. destruct request as [|c s]; [done|]. by destruct (str_strip (String c s)).
Qed.

Lemma steps_handled registry segments :
  (negb (bool_decide (imap (fun i s => route_step registry (Z.of_nat i + 1) s) segments = []))
   && forallb (fun s => bool_decide (is_Some (rs_agent_type s))) (imap (fun i s => route_step registry (Z.of_nat i + 1) s) segments)) = true
  <-> segments ≠ [] /\ Forall (fun s => is_Some (agent_for registry s)) segments.
Proof.
  rewrite andb_true_iff, negb_true_iff, bool_decide_eq_false, <- Is_true_true, forallb_True. f_equiv.
  - by destruct segments.
  - rewrite !Forall_lookup. split.
    + intros Hall i s Hs. specialize (Hall i (route_step registry (Z.of_nat i + 1) s)). rewrite list_lookup_imap, Hs in Hall.
      specialize (Hall eq_refl). apply bool_decide_unpack in Hall. destruct (route_step_fields registry (Z.of_nat i + 1) s) as (_ & _ & Et & _).
      rewrite Et in Hall. by apply fmap_is_Some in Hall.
    + intros Hall i st Hst. rewrite list_lookup_imap in Hst. destruct (segments !! i) as [s|] eqn:Hs; [|done]. injection Hst as <-.
      apply bool_decide_pack. destruct (route_step_fields registry (Z.of_nat i + 1) s) as (_ & _ & -> & _). apply fmap_is_Some. by apply (Hall i).
Qed.

(** Planning over steps that found an agent. *)
Lemma plan_steps registry context segments k plans :
  mapM_result (fun step => agent ← agent_get registry (or_str (rs_agent_type step) EmptyString);
                           ag_plan agent (rs_request step) context)
    (imap (fun i s => route_step registry (Z.of_nat (k + i) + 1) s) segments) = Ok plans ->
  Forall (fun s => is_Some (agent_for registry s)) segments ->
  (forall s agent, agent_for registry s = Some agent -> agent_get registry (or_str (Some (ag_agent_type agent)) EmptyString) = Ok agent) ->
  Forall2 (fun s plan => exists agent, agent_for registry s = Some agent /\ ag_plan agent s context = Ok plan) segments plans.
Proof.
  intros Hm Hall Hget. revert k plans Hm. induction Hall as [|s segments [agent Ha] _ IH]; intros k plans; cbn [imap mapM_result].
  - intros [= <-]. constructor.
  - destruct (route_step_fields registry (Z.of_nat (k + 0) + 1) s) as (_ & -> & -> & _). rewrite Ha. cbn [fmap option_fmap option_map].
    rewrite (Hget _ _ Ha). cbn [mbind result_bind].
    destruct (ag_plan agent s context) as [p|] eqn:Ep; cbn [mbind result_bind]; [|done].
    destruct (mapM_result _ _) as [ps|] eqn:Em; cbn [mbind result_bind]; [|done]. intros [= <-]. constructor; [eauto|].
    apply (IH (S k)). rewrite <- Em. f_equal. apply imap_ext. intros i x _. cbn. do 2 f_equal. lia.
Qed.

(** ** Theorems *)

(** C28. The agent chosen for a segment: it is the registered, accepting agent of the first rule
    that applies, where a rule applies when one of its keywords occurs as a whole word in any
    case, and the database rule does not apply to a segment that names a file, folder or
    directory; no agent is chosen exactly when no rule provides one. *)
Theorem route_selects_agent (registry : AgentRegistry) (segment : string) :
  (forall agent, agent_for registry segment = Some agent <->
     exists i rule, RULES !! i = Some rule /\ rule_agent registry rule segment agent /\
       forall j rule' agent', (j < i)%nat -> RULES !! j = Some rule' -> ~ rule_agent registry rule' segment agent') /\
  (agent_for registry segment = None <-> forall rule agent, rule ∈ RULES -> ~ rule_agent registry rule segment agent).
Proof.
  pose proof (agent_by_rules_spec RULES registry segment (proj1 rules_ok)) as Hs. unfold agent_for.
  destruct (agent_by_rules RULES registry segment) as [a|].
  - destruct Hs as (i & rule & Hi & Hr & Hfirst). split.
    + intros agent. split; [intros [= <-]; eauto 10|]. intros (i' & rule' & Hi' & Hr' & Hfirst').
      destruct (Nat.lt_trichotomy i i') as [Hlt|[->|Hlt]].
      * by destruct (Hfirst' _ _ _ Hlt Hi Hr).
      * assert (rule' = rule) as -> by congruence. destruct Hr as (_ & H1 & _), Hr' as (_ & H2 & _). congruence.
      * by destruct (Hfirst _ _ _ Hlt Hi' Hr').
    + split; [done|]. intros Hno. destruct (Hno rule a); [apply list_elem_of_lookup; eauto|done].
  - split; [|done]. intros agent. split; [done|]. intros (i & rule & Hi & Hr & _).
    destruct (Hs rule agent); [apply list_elem_of_lookup; eauto|done].
Qed.

(** Routing: an empty request is not handled; otherwise the request is exactly its segments
    with the word "then" between spaces separating them, the steps are the non-empty segments,
    stripped, numbered from one, each with its chosen agent, and the request is handled if and
    only if there is a step and every step has an agent.  Planning raises when the request is
    not handled, and otherwise returns one plan per segment, made by that segment's agent. *)
Theorem route_then_plan (registry : AgentRegistry) (request : string) (context : option dict) :
  let r := route registry request in
  (str_strip request = EmptyString -> rr_handled r = false /\ rr_steps r = [] /\ rr_reason r = Some "request_empty") /\
  (str_strip request ≠ EmptyString ->
     exists pieces, interleaved then_separator request pieces /\
       rs_request <$> rr_steps r = filter (fun s => truthy_str s = true) (str_strip <$> pieces) /\
       (forall i st, rr_steps r !! i = Some st -> rs_sequence st = Z.of_nat i + 1 /\
          rs_agent_type st = ag_agent_type <$> agent_for registry (rs_request st)) /\
       (rr_handled r = true <-> rr_steps r ≠ [] /\ Forall (fun st => is_Some (agent_for registry (rs_request st))) (rr_steps r))) /\
  (rr_handled r = false -> exists m, router_plan registry request context = raise ValueError m) /\
  (forall plans, router_plan registry request context = Ok plans ->
     Forall2 (fun s plan => exists agent, agent_for registry s = Some agent /\ ag_plan agent s context = Ok plan)
       (rs_request <$> rr_steps r) plans).
Proof.
  intros r. unfold router_plan. fold r.
  assert (forall segments, rs_request <$> imap (fun i s => route_step registry (Z.of_nat i + 1) s) segments = segments) as Hreq.
  { intros segments. apply list_eq. intros i. rewrite list_lookup_fmap, list_lookup_imap. destruct (segments !! i) as [s|]; [|done].
    cbn. f_equal. apply route_step_fields. }
  destruct (decide (str_strip request = EmptyString)) as [E|E].
  - subst r. rewrite (route_empty registry _ E). split_and!; [done|done| |done]. intros _. by eexists.
  - subst r. rewrite (route_segments registry _ E). cbn [rr_handled rr_steps rr_reason rr_request].
    pose proof (steps_handled registry (segments_of request)) as Hh. split_and!; [done| | |].
    + intros _. exists (re_split then_pattern request).
      split_and!; [eapply interleaved_impl; [apply then_consumes|apply re_split_interleaved]|by rewrite Hreq| |].
      * intros i st Hst. rewrite list_lookup_imap in Hst. destruct (segments_of request !! i) as [s|]; [|done]. injection Hst as <-.
        destruct (route_step_fields registry (Z.of_nat i + 1) s) as (-> & -> & -> & _). done.
      * rewrite Hh, <- (Forall_fmap rs_request (fun s => is_Some (agent_for registry s))), Hreq. f_equiv.
        by destruct (segments_of request).
    + intros ->. by eexists.
    + intros plans. destruct (negb _ && _) eqn:Ev; [|done]. cbn [negb]. rewrite Hreq. intros Hm.
      apply (plan_steps registry context (segments_of request) 0); [exact Hm|by apply Hh|].
      intros s agent Ha. pose proof (agent_by_rules_spec RULES registry s (proj1 rules_ok)) as Hs.
      unfold agent_for in Ha. rewrite Ha in Hs. destruct Hs as (i & rule & Hi & (_ & Hg & _) & _).
      unfold agent_get in Hg |- *. destruct (find_agent registry rule.1) as [a'|] eqn:Ef; [|done]. injection Hg as ->.
      apply find_agent_type in Ef as Ht. destruct Ht as [Ht _]. rewrite <- Ht in Ef.
      enough (or_str (Some (ag_agent_type agent)) EmptyString = ag_agent_type agent) as -> by (by rewrite Ef).
      unfold or_str. rewrite Ht. by repeat (destruct i as [|i]; [injection Hi as <-|]).
Qed.

(** ** Witnesses *)

Definition demo_planner (ty : string) : Agent :=
  mkAgent ty (ty +:+ "-agent") default_can_handle
    (fun request _ => ActionPlan_init (mkActionPlan ty (Some (ty +:+ "-agent")) ty [("request", JStr request)] false false "allow")).

Definition demo_registry : AgentRegistry := [demo_planner "audit"; demo_planner "file"; demo_planner "email"].

(** The word "database" in a file name does not make a database request. *)
Lemma route_selects_agent_witness :
  agent_for demo_registry "Write the database FILE" = Some (demo_planner "file") /\
  agent_for demo_registry "translate this" = None /\
  exists i rule, RULES !! i = Some rule /\ rule_agent demo_registry rule "Write the database FILE" (demo_planner "file").
Proof.
  split; [vm_compute; reflexivity|]. split; [vm_compute; reflexivity|].
  destruct (route_selects_agent demo_registry "Write the database FILE") as [H _].
  destruct (proj1 (H (demo_planner "file"))) as (i & rule & Hi & Hr & _); [vm_compute; reflexivity|]. eauto.
Defined.

Lemma route_then_plan_witness :
  (rs_agent_type <$> rr_steps (route demo_registry "audit the action THEN write report.md")) = [Some "audit"; Some "file"] /\
  exists m, router_plan demo_registry "translate this" None = raise ValueError m.
Proof.
  split; [vm_compute; reflexivity|].
  destruct (route_then_plan demo_registry "translate this" None) as (_ & _ & H & _). apply H. vm_compute; reflexivity.
Defined.
