(* ===== verification/Diff.v ===== *)
(** * aor/agents/file.py: applying a unified diff

    [_apply_unified_diff] with Python's slices and negative indices written out.

    The theorems: on a unified diff with consistent ranges, the function succeeds exactly when
    the reference semantics [unified] does, with the same text, and raises an error otherwise;
    standard headers parse, and only the start of their old range is read; and inputs outside
    those conditions that the source accepts. *)

From S2P Require Import Prelude PyStr Json JsonText Regex.

#[local] Open Scope Z_scope.

(** ** Python lists *)

(** A slice bound, clamped to the list. *)
Definition clamp (n i : Z) : Z := if i <? 0 then Z.max 0 (i + n) else Z.min i n.

(** [l[a:b]]. *)
Definition py_slice {A} (l : list A) (a b : Z) : list A :=
  let n := Z.of_nat (length l) in
  take (Z.to_nat (clamp n b - clamp n a)) (drop (Z.to_nat (clamp n a)) l).

(** [l[i]]. *)
Definition py_index {A} (l : list A) (i : Z) : option A :=
  let i := if i <? 0 then i + Z.of_nat (length l) else i in
  if i <? 0 then None else l !! Z.to_nat i.

(** [int(s)] of decimal digits; CPython refuses more than 4300 of them. *)
Definition int_of_digits (s : string) : result Z :=
  if (4300 <? String.length s)%nat
  then raise ValueError "Exceeds the limit (4300 digits) for integer string conversion"
  else Ok ((fix go (acc : Z) (s : string) : Z :=
              match s with EmptyString => acc | String c s' => go (acc * 10 + (ord c - 48)) s' end) 0 s).

(** ** The function *)

(** [@@ -(\d+)(?:,(\d+))? \+(\d+)(?:,(\d+))? @@]. *)
Definition header_pattern : regex :=
  Cat (literal char_is "@@ -")
  (Cat (Group 1 (Plus is_digit)) (Cat (Opt (Cat (literal char_is ",") (Group 2 (Plus is_digit))))
  (Cat (literal char_is " +")
  (Cat (Group 3 (Plus is_digit)) (Cat (Opt (Cat (literal char_is ",") (Group 4 (Plus is_digit))))
  (literal char_is " @@")))))).

(** The indices of the hunk headers. *)
Definition is_header (line : string) : bool := str_startswith "@@ " line.

Fixpoint hunk_starts (index : nat) (patch_lines : list string) : list nat :=
  match patch_lines with
  | [] => []
  | line :: rest => if is_header line then index :: hunk_starts (S index) rest else hunk_starts (S index) rest
  end.

Definition mismatch_error {A} (msg : string) : result A := raise FileAgentError msg.

(** [source_index >= len(original_lines) or original_lines[source_index] != content], negated. *)
Definition line_matches (original_lines : list string) (source_index : Z) (content : string) : result bool :=
  if Z.of_nat (length original_lines) <=? source_index then Ok false
  else l ← of_option (py_index original_lines source_index) IndexError "list index out of range";
       Ok (bool_decide (l = content)).

(** The loop over the lines of one hunk: the output and the source index. *)
Fixpoint apply_lines (original_lines lines : list string) (output : list string) (source_index : Z)
    : result (list string * Z) :=
  match lines with
  | [] => Ok (output, source_index)
  | EmptyString :: _ => mismatch_error "invalid_unified_diff_line"
  | String marker content :: rest =>
      if char_is " " marker then
        m ← line_matches original_lines source_index content;
        if m : bool then apply_lines original_lines rest (output ++ [content]) (source_index + 1)
        else mismatch_error "patch_context_mismatch"
      else if char_is "-" marker then
        m ← line_matches original_lines source_index content;
        if m : bool then apply_lines original_lines rest output (source_index + 1)
        else mismatch_error "patch_delete_mismatch"
      else if char_is "+" marker then apply_lines original_lines rest (output ++ [content]) source_index
      else if char_is bslash marker then apply_lines original_lines rest output source_index
      else mismatch_error "invalid_unified_diff_line"
  end.

(** [int(match.group(1)) - 1]. *)
Definition header_old_start (header : string) : result Z :=
  match re_match header_pattern header with
  | None => mismatch_error "invalid_unified_diff_header"
  | Some g => n ← int_of_digits (default EmptyString (group 1 g)); Ok (n - 1)
  end.

(** The loop over the hunks. *)
Fixpoint apply_hunks (original_lines patch_lines : list string) (hunks : list nat) (output : list string)
    (source_index : Z) : result (list string * Z) :=
  match hunks with
  | [] => Ok (output, source_index)
  | start :: rest =>
      old_start ← header_old_start (default EmptyString (patch_lines !! start));
      let output := output ++ py_slice original_lines source_index old_start in
      let end_ := match rest with next :: _ => next | [] => length patch_lines end in
      '(output, source_index) ←
        apply_lines original_lines (py_slice patch_lines (Z.of_nat start + 1) (Z.of_nat end_)) output old_start;
      apply_hunks original_lines patch_lines rest output source_index
  end.

Definition apply_unified_diff (original patch : string) : result string :=
  let original_lines := splitlines_keep original in
  let patch_lines := splitlines_keep patch in
  let hunks := hunk_starts 0 patch_lines in
  match hunks with
  | [] => mismatch_error "invalid_unified_diff"
  | _ =>
      '(output, source_index) ← apply_hunks original_lines patch_lines hunks [] 0;
      Ok (str_join EmptyString (output ++ py_slice original_lines source_index (Z.of_nat (length original_lines))))
  end.

(** ** Reference semantics *)

Definition digits (s : string) : Prop := s ≠ EmptyString /\ str_forallb is_digit s = true.

(** The optional count of a range: nothing, or a comma and digits. *)
Definition count_text (o : option string) : string := match o with Some s => String "," s | None => EmptyString end.

Definition count_ok (o : option string) : Prop := forall s, o = Some s -> digits s.

(** A header of the unified format. *)
Definition header_text (start : string) (count : option string) (start' : string) (count' : option string) (trailer : string) : string :=
  "@@ -" +:+ (start +:+ (count_text count +:+ (" +" +:+ (start' +:+ (count_text count' +:+ (" @@" +:+ trailer)))))).

(** The range the text of a header gives: a start, and a count that is 1 when it is left out. *)
Definition range_text (start : string) (count : option string) (s c : Z) : Prop :=
  digits start /\ count_ok count /\ int_of_digits start = Ok s /\
  match count with None => c = 1 | Some d => int_of_digits d = Ok c end.

Inductive diff_line := Keep (l : string) | Delete (l : string) | Insert (l : string) | Note (l : string).

Definition render_line (d : diff_line) : string :=
  match d with
  | Keep l => String " " l | Delete l => String "-" l | Insert l => String "+" l | Note l => String bslash l
  end.

(** A hunk: the text of its header, the ranges it gives in the old and the new file, its lines. *)
Record hunk := mkHunk {
  h_header : string; h_start : Z; h_count : Z; h_new_start : Z; h_new_count : Z; h_body : list diff_line }.

Definition old_lines (h : hunk) : list string := omap (fun d => match d with Keep l | Delete l => Some l | _ => None end) (h_body h).
Definition new_lines (h : hunk) : list string := omap (fun d => match d with Keep l | Insert l => Some l | _ => None end) (h_body h).

Definition hunk_text (h : hunk) : list string := h_header h :: (render_line <$> h_body h).

(** The header of a hunk is that of the format, for its ranges. *)
Definition header_ok (h : hunk) : Prop :=
  exists start count start' count' trailer, h_header h = header_text start count start' count' trailer /\
    range_text start count (h_start h) (h_count h) /\ range_text start' count' (h_new_start h) (h_new_count h).

(** The number of lines before a range.  Lines are numbered from 1, and a range of no lines has
    the number of the line it comes after. *)
Definition range_at (start count : Z) : Z := if count =? 0 then start else start - 1.

(** [unified old new lines hunks out]: the unified diff turns [lines], what follows the first
    [old] lines of the old file, into [out], what follows the first [new] lines of the new one.
    Each hunk has the numbers of lines its header gives, and replaces its old lines by its new
    ones where its header says, in the old file and in the new one. *)
Inductive unified : Z -> Z -> list string -> list hunk -> list string -> Prop :=
| unified_end old new lines : unified old new lines [] lines
| unified_hunk old new before h rest hs out :
    range_at (h_start h) (h_count h) = old + Z.of_nat (length before) ->
    range_at (h_new_start h) (h_new_count h) = new + Z.of_nat (length before) ->
    h_count h = Z.of_nat (length (old_lines h)) -> h_new_count h = Z.of_nat (length (new_lines h)) ->
    unified (range_at (h_start h) (h_count h) + h_count h) (range_at (h_new_start h) (h_new_count h) + h_new_count h) rest hs out ->
    unified old new (before ++ old_lines h ++ rest) (h :: hs) (before ++ new_lines h ++ out).

(** What the function does not check: each hunk has as many lines as its header says, some of
    them old ones; it starts at or after the end of the hunk before; and as far after it in the
    new file as in the old one. *)
Fixpoint ranges_ok (old new : Z) (hs : list hunk) : Prop :=
  match hs with
  | [] => True
  | h :: hs' =>
      h_count h = Z.of_nat (length (old_lines h)) /\ h_new_count h = Z.of_nat (length (new_lines h)) /\ 0 < h_count h /\
      old <= h_start h - 1 /\ range_at (h_new_start h) (h_new_count h) - new = h_start h - 1 - old /\
      ranges_ok (h_start h - 1 + h_count h) (range_at (h_new_start h) (h_new_count h) + h_new_count h) hs'
  end.

(** *** Placement by the old start alone, which is what the function looks at *)

Inductive patches : Z -> list string -> list hunk -> list string -> Prop :=
| patches_nil pos lines : patches pos lines [] lines
| patches_hunk pos before h rest hs out :
    h_start h = pos + Z.of_nat (length before) + 1 ->
    patches (h_start h - 1 + Z.of_nat (length (old_lines h))) rest hs out ->
    patches pos (before ++ old_lines h ++ rest) (h :: hs) (before ++ new_lines h ++ out).

Fixpoint in_order (pos : Z) (hs : list hunk) : Prop :=
  match hs with
  | [] => True
  | h :: hs' => pos <= h_start h - 1 /\ old_lines h ≠ [] /\ in_order (h_start h - 1 + Z.of_nat (length (old_lines h))) hs'
  end.

(** What the function reads of a header. *)
Definition start_ok (h : hunk) : Prop := is_header (h_header h) = true /\ header_old_start (h_header h) = Ok (h_start h - 1).

(** ** Lemmas: slices *)

Lemma clamp_in n i : 0 <= i <= n -> clamp n i = i.
Proof. unfold clamp. intros Hi. destruct (Z.ltb_spec i 0); lia. Qed.

Lemma py_slice_split {A} (l : list A) a b :
  0 <= a <= b -> b <= Z.of_nat (length l) ->
  drop (Z.to_nat a) l = py_slice l a b ++ drop (Z.to_nat b) l.
Proof.
  intros Hab Hb. unfold py_slice. rewrite !clamp_in by lia.
  rewrite <- (take_drop (Z.to_nat (b - a)) (drop (Z.to_nat a) l)) at 1. rewrite drop_drop. do 2 f_equal. lia.
Qed.

Lemma py_slice_length {A} (l : list A) a b :
  0 <= a <= b -> b <= Z.of_nat (length l) -> length (py_slice l a b) = Z.to_nat (b - a).
Proof. intros Hab Hb. unfold py_slice. rewrite !clamp_in by lia. rewrite length_take, length_drop. lia. Qed.

Lemma py_slice_end {A} (l : list A) a :
  0 <= a <= Z.of_nat (length l) -> py_slice l a (Z.of_nat (length l)) = drop (Z.to_nat a) l.
Proof. intros Ha. unfold py_slice. rewrite !clamp_in by lia. apply take_ge. rewrite length_drop. lia. Qed.

Lemma line_matches_nat orig i content :
  0 <= i -> exists b, line_matches orig i content = Ok b /\ (b = true <-> orig !! Z.to_nat i = Some content).
Proof.
  intros Hi. unfold line_matches. destruct (Z.leb_spec (Z.of_nat (length orig)) i) as [Hl|Hl].
  - exists false. split; [done|]. rewrite (lookup_ge_None_2 orig) by lia. done.
  - unfold py_index. destruct (Z.ltb_spec i 0); [lia|]. destruct (Z.ltb_spec i 0); [lia|].
    destruct (lookup_lt_is_Some_2 orig (Z.to_nat i)) as [x Hx]; [lia|]. rewrite Hx. cbn [of_option mbind result_bind].
    eexists. split; [done|]. rewrite bool_decide_eq_true. naive_solver.
Qed.

(** ** Lemmas: one hunk *)

(** Applying a rendered hunk consumes its old lines and produces its new ones, or fails with a
    mismatch. *)
Lemma apply_lines_render orig body output i :
  0 <= i ->
  let old := omap (fun d => match d with Keep l | Delete l => Some l | _ => None end) body in
  let new := omap (fun d => match d with Keep l | Insert l => Some l | _ => None end) body in
  (exists rest, drop (Z.to_nat i) orig = old ++ rest /\
     apply_lines orig (render_line <$> body) output i = Ok (output ++ new, i + Z.of_nat (length old))) \/
  ((~ exists rest, drop (Z.to_nat i) orig = old ++ rest) /\
   exists m, apply_lines orig (render_line <$> body) output i = mismatch_error m).
Proof.
  revert output i. induction body as [|d body IH]; intros output i Hi old new.
  { left. exists (drop (Z.to_nat i) orig). split; [done|]. cbn. by rewrite app_nil_r, Z.add_0_r. }
  assert (forall l, orig !! Z.to_nat i = Some l -> drop (Z.to_nat i) orig = l :: drop (Z.to_nat (i + 1)) orig) as Hd.
  { intros l Hl. rewrite (drop_S _ _ _ Hl). do 2 f_equal. lia. }
  destruct d as [l|l|l|l]; subst old new; cbn [omap list_omap fmap list_fmap render_line apply_lines].
  - change (char_is " " " ") with true. cbn match. destruct (line_matches_nat orig i l Hi) as (b & -> & Hb). cbn [mbind result_bind].
    destruct b.
    + pose proof (Hd l (proj1 Hb eq_refl)) as Hdl.
      destruct (IH (output ++ [l]) (i + 1)) as [(rest & Er & ->)|[Hno He]]; [lia|left|right].
      * exists rest. rewrite Hdl, Er. split; [done|]. rewrite <- app_assoc. cbn [length app]. do 2 f_equal. lia.
      * split; [|done]. intros (rest & Er). apply Hno. exists rest. rewrite Hdl in Er. by injection Er.
    + right. split; [|by eexists]. intros (rest & Er). assert (orig !! Z.to_nat i = Some l) as Hl.
      { rewrite <- (Nat.add_0_r (Z.to_nat i)), <- lookup_drop, Er. done. }
      by apply Hb in Hl.
  - change (char_is " " "-") with false. change (char_is "-" "-") with true. cbn match.
    destruct (line_matches_nat orig i l Hi) as (b & -> & Hb). cbn [mbind result_bind]. destruct b.
    + pose proof (Hd l (proj1 Hb eq_refl)) as Hdl.
      destruct (IH output (i + 1)) as [(rest & Er & ->)|[Hno He]]; [lia|left|right].
      * exists rest. rewrite Hdl, Er. split; [done|]. cbn [length app]. do 2 f_equal. lia.
      * split; [|done]. intros (rest & Er). apply Hno. exists rest. rewrite Hdl in Er. by injection Er.
    + right. split; [|by eexists]. intros (rest & Er). assert (orig !! Z.to_nat i = Some l) as Hl.
      { rewrite <- (Nat.add_0_r (Z.to_nat i)), <- lookup_drop, Er. done. }
      by apply Hb in Hl.
  - change (char_is " " "+") with false. change (char_is "-" "+") with false. change (char_is "+" "+") with true. cbn match.
    destruct (IH (output ++ [l]) i Hi) as [(rest & Er & ->)|[Hno He]]; [left|by right].
    exists rest. split; [done|]. by rewrite <- app_assoc.
  - change (char_is " " bslash) with false. change (char_is "-" bslash) with false. change (char_is "+" bslash) with false.
    change (char_is bslash bslash) with true. cbn match. apply IH; done.
Qed.

(** ** Lemmas: the whole patch *)

Lemma render_no_header d : is_header (render_line d) = false.
Proof. by destruct d. Qed.

Lemma hunk_starts_app i l1 l2 : hunk_starts i (l1 ++ l2) = hunk_starts i l1 ++ hunk_starts (i + length l1) l2.
Proof.
  revert i. induction l1 as [|x l1 IH]; intros i; cbn [hunk_starts app length]; [by rewrite Nat.add_0_r|].
  rewrite IH. replace (S i + length l1)%nat with (i + S (length l1))%nat by lia. by destruct (is_header x).
Qed.

Lemma hunk_starts_none i l : Forall (fun x => is_header x = false) l -> hunk_starts i l = [].
Proof. intros Hl. revert i. induction Hl as [|x l Hx _ IH]; intros i; cbn [hunk_starts]; [done|]. by rewrite Hx. Qed.

Lemma hunk_starts_text i h rest :
  start_ok h -> hunk_starts i (hunk_text h ++ rest) = i :: hunk_starts (i + S (length (h_body h))) rest.
Proof.
  intros [Hh _]. rewrite hunk_starts_app. unfold hunk_text. cbn [hunk_starts length]. rewrite Hh.
  rewrite hunk_starts_none, length_fmap; [done|]. apply Forall_fmap, Forall_forall. intros d _. apply render_no_header.
Qed.

(** The first hunk ends where the next one starts, or with the patch. *)
Lemma next_start i hs (pl : list string) n :
  Forall start_ok hs -> length pl = (n + length (concat (hunk_text <$> hs)))%nat -> i = n ->
  match hunk_starts i (concat (hunk_text <$> hs)) with next :: _ => next | [] => length pl end = n.
Proof.
  intros Hok Hl ->. destruct Hok as [|h hs Hh _]; [cbn in *; lia|].
  rewrite fmap_cons. cbn [concat]. by rewrite hunk_starts_text.
Qed.

Lemma patches_inv pos lines h hs out :
  patches pos lines (h :: hs) out ->
  exists before rest out', lines = before ++ old_lines h ++ rest /\ out = before ++ new_lines h ++ out' /\
    h_start h = pos + Z.of_nat (length before) + 1 /\ patches (h_start h - 1 + Z.of_nat (length (old_lines h))) rest hs out'.
Proof. inversion 1; subst. eauto 10. Qed.

(** A hunk with old lines cannot start beyond the end of the file. *)
Lemma beyond_mismatch orig h output i :
  old_lines h ≠ [] -> Z.of_nat (length orig) < i -> exists m, apply_lines orig (render_line <$> h_body h) output i = mismatch_error m.
Proof.
  intros Hsome Hi. destruct (apply_lines_render orig (h_body h) output i ltac:(lia)) as [(rest & Hd & _)|[_ Hm]]; [|done].
  rewrite drop_ge in Hd by lia. by destruct (old_lines h) eqn:E; unfold old_lines in E; rewrite E in Hd.
Qed.

Lemma apply_hunks_text orig before hs output pos :
  Forall start_ok hs -> 0 <= pos <= Z.of_nat (length orig) -> in_order pos hs ->
  let pl := before ++ concat (hunk_text <$> hs) in
  let run := apply_hunks orig pl (hunk_starts (length before) (concat (hunk_text <$> hs))) output pos in
  (exists out0 i, patches pos (drop (Z.to_nat pos) orig) hs (out0 ++ drop (Z.to_nat i) orig) /\
     0 <= i <= Z.of_nat (length orig) /\ run = Ok (output ++ out0, i)) \/
  ((~ exists out, patches pos (drop (Z.to_nat pos) orig) hs out) /\ exists m, run = mismatch_error m).
Proof.
  intros Hok. revert before output pos. induction Hok as [|h hs Hh Hok IH]; intros before output pos Hpos Hord pl run.
  { left. exists [], pos. split_and!; [apply patches_nil|lia|lia|]. subst run. cbn. by rewrite app_nil_r. }
  destruct Hord as (Hs & Hsome & Hord). pose proof Hh as [_ Hstart]. set (s := h_start h - 1) in *.
  assert (length pl = (length before + S (length (h_body h)) + length (concat (hunk_text <$> hs)))%nat) as Hlen.
  { subst pl. rewrite fmap_cons. cbn [concat]. unfold hunk_text at 1. rewrite !length_app. cbn [length]. rewrite length_fmap. lia. }
  assert (run = (let output := output ++ py_slice orig pos s in
    '(output, i) ← apply_lines orig (render_line <$> h_body h) output s;
    apply_hunks orig pl (hunk_starts (length before + S (length (h_body h))) (concat (hunk_text <$> hs))) output i)) as Hrun.
  { subst run. rewrite fmap_cons. cbn [concat]. rewrite hunk_starts_text by done. cbn [apply_hunks].
    assert (pl !! length before = Some (h_header h)) as ->.
    { subst pl. rewrite fmap_cons. cbn [concat]. by apply list_lookup_middle. }
    cbn [default from_option]. unfold id. rewrite Hstart. cbn [mbind result_bind].
    rewrite (next_start _ hs pl (length before + S (length (h_body h)))); [|done|lia|done].
    replace (py_slice pl (Z.of_nat (length before) + 1) (Z.of_nat (length before + S (length (h_body h)))))
      with (render_line <$> h_body h); [done|].
    unfold py_slice. rewrite !clamp_in by lia. subst pl. rewrite fmap_cons. cbn [concat]. unfold hunk_text at 1.
    change (before ++ (h_header h :: (render_line <$> h_body h)) ++ concat (hunk_text <$> hs))
      with (before ++ [h_header h] ++ (render_line <$> h_body h) ++ concat (hunk_text <$> hs)).
    rewrite (app_assoc before). rewrite drop_app_length' by (rewrite length_app; cbn [length]; lia).
    rewrite take_app_length'; [done|]. rewrite length_fmap. lia. }
  clearbody run. rewrite Hrun. clear Hrun run. cbn zeta.
  destruct (Z.le_gt_cases s (Z.of_nat (length orig))) as [Hle|Hgt].
  2: { right. destruct (beyond_mismatch orig h (output ++ py_slice orig pos s) s Hsome ltac:(lia)) as [m ->]. split; [|by eexists].
       intros (out & (b & r & out' & El & _ & Eb & _)%patches_inv). apply (f_equal length) in El. rewrite length_drop, !length_app in El. lia. }
  pose proof (py_slice_split orig pos s ltac:(lia) ltac:(lia)) as Hsplit.
  pose proof (py_slice_length orig pos s ltac:(lia) ltac:(lia)) as Hpl.
  destruct (apply_lines_render orig (h_body h) (output ++ py_slice orig pos s) s ltac:(lia)) as [(rest & Hd & ->)|[Hno [m ->]]].
  - cbn [mbind result_bind]. fold (old_lines h) (new_lines h) in *. set (p' := s + Z.of_nat (length (old_lines h))) in *.
    assert (rest = drop (Z.to_nat p') orig) as ->.
    { subst p'. rewrite Z2Nat.inj_add, Nat2Z.id, <- drop_drop, Hd, drop_app_length by lia. done. }
    assert (p' <= Z.of_nat (length orig)) as Hp'.
    { apply (f_equal length) in Hd. rewrite length_drop, length_app in Hd. lia. }
    assert (pl = (before ++ hunk_text h) ++ concat (hunk_text <$> hs)) as -> by (subst pl; rewrite <- app_assoc; done).
    replace (length before + S (length (h_body h)))%nat with (length (before ++ hunk_text h))
      by (rewrite length_app; unfold hunk_text; cbn [length]; rewrite length_fmap; lia).
    destruct (IH (before ++ hunk_text h) ((output ++ py_slice orig pos s) ++ new_lines h) p') as [(out0 & i & Hp & Hi & Er)|[Hno [m Er]]];
      [lia|done|rewrite Er; clear Er..].
    + left. exists (py_slice orig pos s ++ new_lines h ++ out0), i. split_and!; [|lia|lia|by rewrite <- !app_assoc].
      rewrite Hsplit, Hd, <- !app_assoc. apply patches_hunk; [rewrite Hpl; lia|done].
    + right. split; [|by eexists]. intros (out & (b & r & out' & El & _ & Eb & Hp)%patches_inv). apply Hno. exists out'.
      assert (length b = length (py_slice orig pos s)) as Lb by (rewrite Hpl; lia).
      rewrite Hsplit, Hd in El. apply app_inj_1 in El as [_ El]; [|done]. by apply app_inv_head in El as ->.
  - right. cbn [mbind result_bind]. split; [|by eexists]. fold (old_lines h) in Hno.
    intros (out & (b & r & out' & El & _ & Eb & _)%patches_inv). apply Hno. exists r.
    assert (length b = length (py_slice orig pos s)) as Lb by (rewrite Hpl; lia).
    rewrite Hsplit in El. by apply app_inj_1 in El as [_ El].
Qed.

Lemma patches_det pos lines hs out1 out2 : patches pos lines hs out1 -> patches pos lines hs out2 -> out1 = out2.
Proof.
  intros H1. revert out2. induction H1 as [pos lines|pos before h rest hs out Hs _ IH]; intros out2 H2.
  - by inversion H2.
  - apply patches_inv in H2 as (b & r & o & El & -> & Hs' & Hp). apply app_inj_1 in El as [-> El]; [|lia].
    apply app_inv_head in El as ->. by rewrite (IH _ Hp).
Qed.

Lemma str_join_concat l : str_join EmptyString l = String.concat EmptyString l.
Proof. done. Qed.

(** ** Lemmas: headers *)

Lemma literal_exact w p q :
  Matches (literal char_is w) p q <->
  at_rest p = w +:+ at_rest q /\ at_prev q = last_char (at_prev p) w /\ at_groups q = at_groups p.
Proof.
  revert p. induction w as [|c w IH]; intros p; cbn [literal Matches].
  - split; [by intros ->|]. intros (Hr & Hp & Hg). destruct p, q. cbn in *. by subst.
  - split.
    + intros (m & (x & s & Hr & Hx & ->) & (Ht & Hp & Hg)%IH). cbn [at_rest at_prev at_groups] in *.
      apply Z.eqb_eq in Hx. assert (c = x) as -> by by rewrite <- (chr_ord c), Hx, chr_ord.
      by rewrite Hr, Ht.
    + intros (Hr & Hp & Hg). exists (At (Some c) (w +:+ at_rest q) (at_groups p)). split; [|by apply IH].
      exists c, (w +:+ at_rest q). split_and!; [done| |done]. apply Z.eqb_refl.
Qed.

(** Text after which no further digit follows. *)
Definition no_digit (s : string) : Prop := forall c s', s = String c s' -> is_digit c = false.

Lemma digits_unique a b s t :
  str_forallb is_digit a = true -> str_forallb is_digit b = true -> no_digit s -> no_digit t ->
  a +:+ s = b +:+ t -> a = b.
Proof.
  revert b. induction a as [|c a IH]; intros [|d b] Ha Hb Hs Ht E; [done|..].
  - cbn in Hb. apply andb_prop in Hb as [Hd _]. change (EmptyString +:+ s) with s in E. subst s.
    by rewrite (Hs d (b +:+ t) eq_refl) in Hd.
  - cbn in Ha. apply andb_prop in Ha as [Hc _]. change (EmptyString +:+ t) with t in E. subst t.
    by rewrite (Ht c (a +:+ s) eq_refl) in Hc.
  - injection E as -> E. cbn in Ha, Hb. apply andb_prop in Ha as [_ Ha], Hb as [_ Hb]. by rewrite (IH b Ha Hb Hs Ht E).
Qed.

Lemma count_matches n p q :
  Matches (Opt (Cat (literal char_is ",") (Group n (Plus is_digit)))) p q ->
  (exists s, at_rest p = String "," s) \/ q = p.
Proof.
  cbn [Matches Plus]. intros [(m & (Hr & _)%literal_exact & _)| ->]; [left|by right]. eexists. exact Hr.
Qed.

Lemma count_matched n o p s :
  count_ok o -> at_rest p = count_text o +:+ s ->
  exists q, Matches (Opt (Cat (literal char_is ",") (Group n (Plus is_digit)))) p q /\ at_rest q = s.
Proof.
  intros Ho Hr. destruct o as [d|]; cbn [count_text] in Hr.
  - destruct (Ho d eq_refl) as [Hne Hd]. set (m := At (Some ","%char) (d +:+ s) (at_groups p)).
    exists (At (last_char (Some ","%char) d) s ((n, consumed (d +:+ s) s) :: at_groups p)). split; [|done].
    cbn [Matches Plus]. left. exists m. split; [by apply literal_exact|].
    exists (At (last_char (Some ","%char) d) s (at_groups p)). split; [|reflexivity].
    exists d, s. split_and!; [done|done| |done|done]. destruct d; [done|cbn; lia].
  - exists p. split; [by right|done].
Qed.

Lemma plus_matched n d p s :
  digits d -> at_rest p = d +:+ s ->
  exists q, Matches (Group n (Plus is_digit)) p q /\ at_rest q = s.
Proof.
  intros [Hne Hd] Hr. exists (At (last_char (at_prev p) d) s ((n, consumed (at_rest p) s) :: at_groups p)). split; [|done].
  cbn [Matches Plus]. exists (At (last_char (at_prev p) d) s (at_groups p)). split; [|reflexivity]. exists d, s. split_and!; [done|done| |done|done]. destruct d; [done|cbn; lia].
Qed.

Lemma literal_matched w p s : at_rest p = w +:+ s -> exists q, Matches (literal char_is w) p q /\ at_rest q = s.
Proof. intros Hr. exists (At (last_char (at_prev p) w) s (at_groups p)). split; [by apply literal_exact|done]. Qed.

(** The number of the first group is the start of the old range. *)
Lemma header_pattern_group s g :
  re_match header_pattern s = Some g ->
  exists d rest, s = "@@ -" +:+ (d +:+ rest) /\ str_forallb is_digit d = true /\ no_digit rest /\ group 1 g = Some d.
Proof.
  unfold re_match, header_pattern. intros (q & (m & Hm & ->) & [= <-])%rmatch_some. cbn [at_groups at_rest].
  destruct Hm as (p1 & (Hr1 & _ & Hg1)%literal_exact & p2 & (p2' & (d & r & Hr2 & Hd & _ & _ & ->) & ->) & p3 & H3 & p4 & (Hr4 & _ & Hg4)%literal_exact & H5).
  cbn [at_rest at_prev at_groups] in *. exists d, r. rewrite <- Hr2. split_and!; [done|done| |].
  - intros c s' ->. apply count_matches in H3 as [[x Hx]| ->]; [cbn [at_rest] in Hx; by injection Hx as -> _|].
    cbn [at_rest] in Hr4. by injection Hr4 as -> _.
  - assert (group 1 (at_groups p3) = Some d) as H3g.
    { cbn [Matches] in H3. destruct H3 as [(x & (_ & _ & Hx)%literal_exact & (y & (w & s' & _ & _ & _ & _ & ->) & ->))| ->];
        cbn [at_groups at_rest group Nat.eqb] in *; rewrite ?Hx; cbn [group Nat.eqb]; by rewrite Hr2, consumed_app. }
    destruct H5 as (p5 & (p5' & (d' & r' & _ & _ & _ & _ & ->) & ->) & p6 & H6 & (_ & _ & Hg7)%literal_exact).
    cbn [at_groups at_rest] in *. cbn [group Nat.eqb]. rewrite Hg7. cbn [Matches] in H6.
    destruct H6 as [(x & (_ & _ & Hx)%literal_exact & (y & (w & s' & _ & _ & _ & _ & ->) & ->))| ->];
      cbn [at_groups at_rest group Nat.eqb] in *; rewrite ?Hx; cbn [group Nat.eqb]; by rewrite Hg4.
Qed.

Lemma header_text_matches start count start' count' trailer :
  digits start -> count_ok count -> digits start' -> count_ok count' ->
  is_Some (re_match header_pattern (header_text start count start' count' trailer)).
Proof.
  intros Hs Hc Hs' Hc'. unfold re_match, header_pattern, header_text.
  destruct (literal_matched "@@ -" (At None (header_text start count start' count' trailer) []) _ eq_refl) as (p1 & M1 & R1).
  destruct (plus_matched 1 start p1 _ Hs R1) as (p2 & M2 & R2).
  destruct (count_matched 2 count p2 _ Hc R2) as (p3 & M3 & R3).
  destruct (literal_matched " +" p3 _ R3) as (p4 & M4 & R4).
  destruct (plus_matched 3 start' p4 _ Hs' R4) as (p5 & M5 & R5).
  destruct (count_matched 4 count' p5 _ Hc' R5) as (p6 & M6 & R6).
  destruct (literal_matched " @@" p6 _ R6) as (p7 & M7 & R7).
  eapply rmatch_complete; [|by eexists]. exists p7. split; [|reflexivity]. cbn [Matches] in *. eauto 20.
Qed.

Lemma header_text_start start count start' count' trailer :
  digits start -> count_ok count -> digits start' -> count_ok count' ->
  header_old_start (header_text start count start' count' trailer) = n ← int_of_digits start; Ok (n - 1).
Proof.
  intros Hs Hc Hs' Hc'. unfold header_old_start.
  destruct (header_text_matches start count start' count' trailer) as [g Eg]; [done..|]. rewrite Eg.
  apply header_pattern_group in Eg as (d & rest & E & Hd & Hr & ->). cbn [default from_option]. unfold id.
  replace d with start; [done|]. unfold header_text in E. injection E as E.
  eapply digits_unique; [apply Hs|exact Hd| |exact Hr|exact E].
  intros c s'. destruct count; cbn; by intros [= <- _].
Qed.

(** A header of the format is found as one, and read. *)
Lemma header_start_ok h : header_ok h -> start_ok h.
Proof.
  intros (start & count & start' & count' & trailer & E & (Hs & Hc & Es & _) & (Hs' & Hc' & _)). split; rewrite E; [reflexivity|].
  rewrite header_text_start by done. by rewrite Es.
Qed.

(** *** The reference and the placement by the old start *)

Lemma unified_inv old new lines h hs out :
  unified old new lines (h :: hs) out ->
  exists before rest out', lines = before ++ old_lines h ++ rest /\ out = before ++ new_lines h ++ out' /\
    range_at (h_start h) (h_count h) = old + Z.of_nat (length before) /\
    unified (range_at (h_start h) (h_count h) + h_count h) (range_at (h_new_start h) (h_new_count h) + h_new_count h) rest hs out'.
Proof. inversion 1; subst. eauto 10. Qed.

Lemma ranges_in_order old new hs : ranges_ok old new hs -> in_order old hs.
Proof.
  revert old new. induction hs as [|h hs IH]; intros old new; [done|]. intros (Hc & _ & Hp & Ho & _ & Hr). cbn. split_and!; [done| |].
  - intros E. rewrite E in Hc. cbn in Hc. lia.
  - rewrite <- Hc. by eapply IH.
Qed.

Lemma unified_patches old new lines hs out : ranges_ok old new hs -> unified old new lines hs out <-> patches old lines hs out.
Proof.
  revert old new lines out. induction hs as [|h hs IH]; intros old new lines out.
  { intros _. split; inversion 1; constructor. }
  intros (Hc & Hn & Hp & Ho & Hd & Hr). assert (range_at (h_start h) (h_count h) = h_start h - 1) as Ha.
  { unfold range_at. by rewrite (proj2 (Z.eqb_neq _ _)) by lia. }
  split.
  - intros (before & rest & out' & -> & -> & Hb & Hu)%unified_inv. rewrite Ha in *. apply patches_hunk; [lia|]. rewrite <- Hc. by eapply IH.
  - intros (before & rest & out' & -> & -> & Hb & Hu)%patches_inv. apply unified_hunk; [lia..|done|done|]. rewrite Ha.
    rewrite <- Hc in Hu. by apply IH.
Qed.

(** ** Theorems *)


(** Headers of the unified format parse, and only the start of the old range is used: neither
    count, and nothing of the new range, changes the result of the function. *)
Theorem hunk_header_spec (start start' trailer : string) (count count' : option string) :
  digits start -> digits start' -> count_ok count -> count_ok count' ->
  header_old_start (header_text start count start' count' trailer) = n ← int_of_digits start; Ok (n - 1).
Proof. intros. by apply header_text_start. Qed.

(** Inputs outside those conditions are accepted, with a text the diff does not give.  An
    insertion before the first line (a start of zero) lands before the last line; a range of no
    lines is put before the line its header names and not after it; a second hunk that goes back
    repeats the lines in between; and counts and a new range that say something else than the
    lines of the hunk change nothing. *)
Theorem out_of_range_hunks_accepted :
  let nl := String (chr 10) "" in
  let file := "a" +:+ (nl +:+ ("b" +:+ nl)) in
  apply_unified_diff file ("@@ -0,0 +1 @@" +:+ (nl +:+ ("+x" +:+ nl))) = Ok ("a" +:+ (nl +:+ ("x" +:+ (nl +:+ ("b" +:+ nl))))) /\
  apply_unified_diff file ("@@ -1,0 +2 @@" +:+ (nl +:+ ("+x" +:+ nl))) = Ok ("x" +:+ (nl +:+ ("a" +:+ (nl +:+ ("b" +:+ nl))))) /\
  apply_unified_diff file ("@@ -2 +2 @@" +:+ (nl +:+ (" b" +:+ (nl +:+ ("@@ -1 +1 @@" +:+ (nl +:+ (" a" +:+ nl)))))))
    = Ok ("a" +:+ (nl +:+ ("b" +:+ (nl +:+ ("a" +:+ (nl +:+ ("b" +:+ nl))))))) /\
  apply_unified_diff file ("@@ -1,7 +5,0 @@" +:+ (nl +:+ (" a" +:+ nl))) = Ok file.
Proof. split_and!; vm_compute; reflexivity. Qed.

(** ** Witnesses *)

Definition nl : string := String (chr 10) EmptyString.

Definition demo_hunks : list hunk :=
  [mkHunk ("@@ -1,2 +1,3 @@" +:+ nl) 1 2 1 3 [Keep ("a" +:+ nl); Delete ("b" +:+ nl); Insert ("B" +:+ nl); Insert ("C" +:+ nl)];
   mkHunk ("@@ -4 +5,2 @@ d" +:+ nl) 4 1 5 2 [Insert ("x" +:+ nl); Keep ("d" +:+ nl)]].

Definition demo_original : string := "a" +:+ nl +:+ "b" +:+ nl +:+ "c" +:+ nl +:+ "d" +:+ nl.
Definition demo_patched : string := "a" +:+ nl +:+ "B" +:+ nl +:+ "C" +:+ nl +:+ "c" +:+ nl +:+ "x" +:+ nl +:+ "d" +:+ nl.
Definition demo_patch : string := String.concat "" (("--- f" +:+ nl) :: concat (hunk_text <$> demo_hunks)).

Lemma demo_digits s : negb (bool_decide (s = EmptyString)) && str_forallb is_digit s = true -> digits s.
Proof. intros [Hn Hd]%andb_prop. split; [|done]. by apply negb_true_iff, bool_decide_eq_false in Hn. Qed.

Lemma demo_headers_ok : Forall header_ok demo_hunks.
Proof.
  assert (forall start c s n, digits start -> digits c -> int_of_digits start = Ok s -> int_of_digits c = Ok n -> range_text start (Some c) s n) as Hr.
  { intros start c s n ? ? ? ?. split_and!; [done| |done|done]. by intros ? [= <-]. }
  constructor; [|constructor; [|constructor]].
  - exists "1", (Some "2"), "1", (Some "3"), nl. split_and!; [reflexivity| |]; apply Hr; try (by apply demo_digits); reflexivity.
  - exists "4", None, "5", (Some "2"), (" d" +:+ nl). split_and!; [reflexivity| |].
    + split_and!; [by apply demo_digits|done|reflexivity|reflexivity].
    + apply Hr; try (by apply demo_digits); reflexivity.
Qed.


Lemma hunk_header_spec_witness : header_old_start "@@ -12,3 +13 @@ def f" = Ok 11.
Proof.
  assert (header_old_start "@@ -12,3 +13 @@ def f" = n ← int_of_digits "12"; Ok (n - 1)) as E.
  { apply (hunk_header_spec "12" "13" " def f" (Some "3") None).
    - split; [discriminate|reflexivity].
    - split; [discriminate|reflexivity].
    - intros s [= <-]. split; [discriminate|reflexivity].
    - discriminate. }
  rewrite E. vm_compute; reflexivity.
Defined.
