(* ===== verification/FileSystem.v ===== *)
(** * Paths and files, as [pathlib] and [os] see them

    A POSIX file system of directories, regular files and symbolic links, keyed by the list of
    path components from the root.  [resolve] is [os.path.realpath] as [Path.resolve] calls it
    (CPython 3.10 to 3.12: a symbolic link loop raises RuntimeError), with the set of links being
    resolved; the other operations take resolved paths, on which the system follows no link.
    Failures of the device (permissions, space, name length) are not modelled.

    The lemmas: the fuel of [resolve] is never used up; a resolved path has no link on it; which
    entries each operation changes. *)

From S2P Require Import Prelude PyStr.

Inductive node :=
| NFile (content : bytes)
| NDir
| NLink (absolute : bool) (target : list string).

#[export] Instance node_eq_dec : EqDecision node.
Proof. solve_decision. Defined.

Abbreviation path := (list string).
Abbreviation FS := (gmap path node).

(** ** Paths *)

(** The pieces of a text between occurrences of [c]. *)
Fixpoint split_on (c : ascii) (s : string) : list string :=
  match s with
  | EmptyString => [EmptyString]
  | String x s' =>
      if (ord x =? ord c)%Z then EmptyString :: split_on c s'
      else match split_on c s' with p :: ps => String x p :: ps | [] => [String x EmptyString] end
  end.

Definition slash : ascii := "/"%char.

(** The components [pathlib] keeps. *)
Definition components (s : string) : list string :=
  filter (fun c => negb (bool_decide (c = "" \/ c = ".")) = true) (split_on slash s).

Definition is_absolute (s : string) : bool := str_startswith "/" s.

(** [str(path)] of an absolute path. *)
Definition path_str (p : path) : string := "/" +:+ str_join "/" p.

Definition parent (p : path) : path := removelast p.

(** ** Resolution *)

Definition lookup_at (fs : FS) (p : path) : option node := match p with [] => Some NDir | _ => fs !! p end.

(** The links being resolved are [busy]. *)
Fixpoint resolve_from (fuel : nat) (fs : FS) (busy : gset path) : path -> list string -> result path :=
  fix walk (cur : path) (rest : list string) : result path :=
    match rest with
    | [] => Ok cur
    | c :: rest =>
        if bool_decide (c = "..") then walk (parent cur) rest
        else if str_has (chr 0) c then raise ValueError "lstat: embedded null character in path"
        else
          let q := cur ++ [c] in
          match fs !! q with
          | Some (NLink absolute target) =>
              if bool_decide (q ∈ busy) then raise RuntimeError ("Symlink loop from " +:+ str_repr (path_str q))
              else match fuel with
                   | O => raise OutsideModel "fuel"
                   | S f => q' ← resolve_from f fs ({[ q ]} ∪ busy) (if absolute then [] else cur) target; walk q' rest
                   end
          | _ => walk q rest
          end
    end.

(** [Path(base / relative).resolve()] for a resolved [base]. *)
Definition resolve (fs : FS) (base : path) (relative : string) : result path :=
  resolve_from (size fs) fs ∅ (if is_absolute relative then [] else base) (components relative).

(** ** Operations on resolved paths *)

Definition exists_ (fs : FS) (p : path) : bool := bool_decide (is_Some (lookup_at fs p)).
Definition is_file (fs : FS) (p : path) : bool := match lookup_at fs p with Some (NFile _) => true | _ => false end.
Definition is_dir (fs : FS) (p : path) : bool := match lookup_at fs p with Some NDir => true | _ => false end.

Definition read_bytes (fs : FS) (p : path) : result bytes :=
  match lookup_at fs p with
  | Some (NFile b) => Ok b
  | Some NDir => raise OSError "Is a directory"
  | _ => raise OSError "No such file or directory"
  end.

(** Universal newlines: what reading in text mode makes of line ends. *)
Fixpoint universal_newlines (s : string) : string :=
  match s with
  | EmptyString => EmptyString
  | String c s' =>
      if (ord c =? 13)%Z then
        match s' with
        | String d s'' => if (ord d =? 10)%Z then String (chr 10) (universal_newlines s'') else String (chr 10) (universal_newlines s')
        | EmptyString => String (chr 10) EmptyString
        end
      else String c (universal_newlines s')
  end.

(** [path.read_text(encoding="utf-8")]. *)
Definition read_text (fs : FS) (p : path) : result string :=
  b ← read_bytes fs p; s ← utf8_decode b; Ok (universal_newlines s).

Definition write_bytes (fs : FS) (p : path) (b : bytes) : result FS :=
  match lookup_at fs p with
  | Some (NFile _) => Ok (<[p := NFile b]> fs)
  | Some _ => raise OSError "Is a directory"
  | None => if is_dir fs (parent p) then Ok (<[p := NFile b]> fs) else raise OSError "No such file or directory"
  end.

(** [path.write_text(s, encoding="utf-8", newline="")]; without [newline] the same on POSIX. *)
Definition write_text (fs : FS) (p : path) (s : string) : result FS := write_bytes fs p (utf8_encode s).

(** [path.mkdir(parents=True, exist_ok=True)], from the root down. *)
Fixpoint mkdir_from (fs : FS) (cur : path) (rest : list string) : FS * result unit :=
  match rest with
  | [] => (fs, Ok tt)
  | c :: rest =>
      let q := cur ++ [c] in
      match fs !! q with
      | Some NDir => mkdir_from fs q rest
      | None => mkdir_from (<[q := NDir]> fs) q rest
      | Some _ => (fs, raise OSError "File exists")
      end
  end.

Definition mkdirs (fs : FS) (p : path) : FS * result unit := mkdir_from fs [] p.

(** [path.unlink()]. *)
Definition unlink (fs : FS) (p : path) : result FS :=
  match lookup_at fs p with
  | Some NDir => raise OSError "Is a directory"
  | Some _ => Ok (delete p fs)
  | None => raise OSError "No such file or directory"
  end.

(** [path.replace(destination)] of a regular file; moving a directory is not modelled. *)
Definition replace (fs : FS) (p destination : path) : result FS :=
  match lookup_at fs p with
  | Some (NFile b) =>
      if is_dir fs destination then raise OSError "Is a directory"
      else if is_dir fs (parent destination) then Ok (<[destination := NFile b]> (delete p fs))
      else raise OSError "No such file or directory"
  | Some _ => raise OutsideModel "directory moved"
  | None => raise OSError "No such file or directory"
  end.

(** ** Specification *)

(** No link on the way to [p]. *)
Definition link_free (fs : FS) (p : path) : Prop :=
  forall q a t, q `prefix_of` p -> fs !! q ≠ Some (NLink a t).

(** Every entry lies in a directory. *)
Definition fs_ok (fs : FS) : Prop :=
  fs !! [] = None /\ forall p, p ≠ [] -> is_Some (fs !! p) -> lookup_at fs (parent p) = Some NDir.

(** Two file systems agree outside the directories [roots]. *)
Definition changed_only_under (roots : list path) (fs fs' : FS) : Prop :=
  forall p, fs' !! p ≠ fs !! p -> exists r, r ∈ roots /\ r `prefix_of` p.

(** ** Lemmas: resolution *)

Lemma parent_prefix p : parent p `prefix_of` p.
Proof.
  unfold parent. destruct (decide (p = [])) as [->|Hne]; [done|].
  exists [List.last p EmptyString]. by apply app_removelast_last.
Qed.

Lemma link_free_prefix fs p q : q `prefix_of` p -> link_free fs p -> link_free fs q.
Proof. intros Hq Hp r a t Hr. apply Hp. by etransitivity. Qed.

Lemma prefix_snoc_cases (q p : path) c : q `prefix_of` p ++ [c] -> q = p ++ [c] \/ q `prefix_of` p.
Proof.
  intros [k Hk]. destruct k as [|x k _] using rev_ind; [left; by rewrite app_nil_r in Hk|].
  rewrite app_assoc in Hk. apply app_inj_tail in Hk as [-> _]. right. by exists k.
Qed.

Lemma link_free_snoc fs cur c :
  link_free fs cur -> (forall a t, fs !! (cur ++ [c]) ≠ Some (NLink a t)) -> link_free fs (cur ++ [c]).
Proof. intros Hc Hl q a t [->|Hq]%prefix_snoc_cases; [apply Hl|by apply Hc]. Qed.

Lemma link_free_root fs : fs !! [] = None -> link_free fs [].
Proof. intros Hr q a t Hq%prefix_nil_inv. subst q. by rewrite Hr. Qed.

(** A resolved path has no link on it. *)
Lemma resolve_from_link_free fuel fs busy cur rest q :
  fs !! [] = None -> link_free fs cur -> resolve_from fuel fs busy cur rest = Ok q -> link_free fs q.
Proof.
  intros Hr. revert busy cur rest q. induction fuel as [|f IHf]; intros busy cur rest q.
  - revert cur. induction rest as [|c rest IH]; intros cur Hc; cbn; [by intros [= <-]|].
    case_bool_decide; [by apply IH, (link_free_prefix _ cur), Hc; apply parent_prefix|].
    destruct (str_has _ _); [done|].
    destruct (fs !! (cur ++ [c])) as [[b| |a t]|] eqn:E; try (apply IH, link_free_snoc; [done|congruence]).
    by case_bool_decide.
  - revert cur. induction rest as [|c rest IH]; intros cur Hc; cbn; [by intros [= <-]|].
    case_bool_decide; [by apply IH, (link_free_prefix _ cur), Hc; apply parent_prefix|].
    destruct (str_has _ _); [done|].
    destruct (fs !! (cur ++ [c])) as [[b| |a t]|] eqn:E; try (apply IH, link_free_snoc; [done|congruence]).
    case_bool_decide; [done|]. destruct (resolve_from f _ _ _ _) as [q'|] eqn:Eq; cbn [mbind result_bind]; [|done].
    apply IH. eapply IHf; [|exact Eq]. destruct a; [by apply link_free_root|done].
Qed.

(** The fuel is enough: the links being resolved are distinct entries. *)
Lemma resolve_from_fuel fuel fs busy cur rest e :
  busy ⊆ dom fs -> (size fs <= fuel + size busy)%nat -> resolve_from fuel fs busy cur rest = Raise e ->
  exn_kind e ≠ OutsideModel.
Proof.
  revert busy cur rest e. induction fuel as [|f IHf]; intros busy cur rest e Hb Hs;
    revert cur; induction rest as [|c rest IH]; intros cur; cbn; try done.
  - case_bool_decide; [by apply IH|]. destruct (str_has _ _); [by intros [= <-]|].
    destruct (fs !! (cur ++ [c])) as [[b| |a t]|] eqn:E; try apply IH. case_bool_decide as Hq; [by intros [= <-]|].
    exfalso. assert (busy ≡ dom fs) as Heq.
    { apply set_subseteq_size_equiv; [done|]. rewrite size_dom. lia. }
    apply Hq. rewrite Heq. apply elem_of_dom. by eexists.
  - case_bool_decide; [by apply IH|]. destruct (str_has _ _); [by intros [= <-]|].
    destruct (fs !! (cur ++ [c])) as [[b| |a t]|] eqn:E; try apply IH. case_bool_decide as Hq; [by intros [= <-]|].
    destruct (resolve_from f _ _ _ _) as [q'|e'] eqn:Eq; cbn [mbind result_bind]; [apply IH|].
    intros [= <-]. eapply IHf; [| |exact Eq].
    + apply union_subseteq. split; [|done]. apply singleton_subseteq_l, elem_of_dom. by eexists.
    + rewrite size_union, size_singleton by set_solver. lia.
Qed.

Lemma resolve_no_fuel fs base relative e : resolve fs base relative = Raise e -> exn_kind e ≠ OutsideModel.
Proof. apply resolve_from_fuel; [set_solver|]. rewrite size_empty. lia. Qed.

Lemma resolve_link_free fs base relative q :
  fs !! [] = None -> link_free fs base -> resolve fs base relative = Ok q -> link_free fs q.
Proof.
  intros Hr Hb. apply resolve_from_link_free; [done|]. destruct (is_absolute relative); [by apply link_free_root|done].
Qed.

(** ** Lemmas: effects *)

Lemma write_bytes_inv fs p b fs' :
  write_bytes fs p b = Ok fs' -> fs' = <[p := NFile b]> fs /\ p ≠ [] /\
    ((exists b', fs !! p = Some (NFile b')) \/ fs !! p = None /\ is_dir fs (parent p) = true).
Proof.
  unfold write_bytes, lookup_at. destruct p as [|c p]; [done|].
  destruct (fs !! (c :: p)) as [[b'| |a t]|]; [intros [= <-]; eauto|done|done|].
  destruct (is_dir fs (parent (c :: p))) eqn:E; [|done]. intros [= <-]. eauto.
Qed.

Lemma changed_refl roots fs : changed_only_under roots fs fs.
Proof. by intros p. Qed.

Lemma changed_trans roots fs1 fs2 fs3 :
  changed_only_under roots fs1 fs2 -> changed_only_under roots fs2 fs3 -> changed_only_under roots fs1 fs3.
Proof. intros H12 H23 p Hp. destruct (decide (fs2 !! p = fs1 !! p)) as [E|E]; [apply H23; congruence|by apply H12]. Qed.

Lemma changed_insert (roots : list path) (fs : FS) (p r : path) (n : node) :
  r ∈ roots -> r `prefix_of` p -> changed_only_under roots fs (<[p := n]> fs).
Proof.
  intros Hr Hp q Hq. destruct (decide (p = q)) as [->|Hne]; [eauto|]. by rewrite lookup_insert_ne in Hq.
Qed.

Lemma changed_delete (roots : list path) (fs : FS) (p r : path) :
  r ∈ roots -> r `prefix_of` p -> changed_only_under roots fs (delete p fs).
Proof.
  intros Hr Hp q Hq. destruct (decide (p = q)) as [->|Hne]; [eauto|]. by rewrite lookup_delete_ne in Hq.
Qed.

(** Making directories only adds directories, on the way to the last one. *)
Lemma mkdir_from_inv fs cur rest fs' r :
  mkdir_from fs cur rest = (fs', r) ->
  forall p, fs' !! p ≠ fs !! p -> fs !! p = None /\ fs' !! p = Some NDir /\ p `prefix_of` cur ++ rest.
Proof.
  revert fs cur. induction rest as [|c rest IH]; intros fs cur; cbn [mkdir_from].
  - by intros [= -> _].
  - assert (cur ++ c :: rest = (cur ++ [c]) ++ rest) as -> by by rewrite <- app_assoc.
    destruct (fs !! (cur ++ [c])) as [[b| |a t]|] eqn:E; [by intros [= -> _]|apply IH|by intros [= -> _]|].
    intros Hm p Hp. destruct (decide (cur ++ [c] = p)) as [<-|Hne].
    + split_and!; [done| |by apply prefix_app_r].
      destruct (decide (fs' !! (cur ++ [c]) = Some NDir)) as [|Hd]; [done|].
      destruct (IH _ _ Hm (cur ++ [c])) as (_ & ? & _); [by rewrite lookup_insert_eq|done].
    + destruct (IH _ _ Hm p) as (Hn & Hd & Hpre); [by rewrite lookup_insert_ne|]. by rewrite lookup_insert_ne in Hn.
Qed.

Lemma parent_snoc p c : parent (p ++ [c]) = p.
Proof. apply removelast_last. Qed.

(** The ancestors of a directory are directories. *)
Lemma dir_ancestors fs p q : fs_ok fs -> lookup_at fs p = Some NDir -> q `prefix_of` p -> lookup_at fs q = Some NDir.
Proof.
  intros [_ Hok]. revert q. induction p as [|c p IH] using rev_ind; intros q Hp Hq.
  - by apply prefix_nil_inv in Hq as ->.
  - apply prefix_snoc_cases in Hq as [->|Hq]; [done|]. apply IH; [|done].
    rewrite <- (parent_snoc p c). apply Hok; [by destruct p|].
    assert (lookup_at fs (p ++ [c]) = fs !! (p ++ [c])) as E by by destruct p.
    rewrite E in Hp. by eexists.
Qed.

Lemma prefix_total (q r p : path) : q `prefix_of` p -> r `prefix_of` p -> q `prefix_of` r \/ r `prefix_of` q.
Proof. apply prefix_weak_total. Qed.

(** Making directories below an existing one changes nothing outside it. *)
Lemma mkdirs_changed roots fs ws p fs' r :
  fs_ok fs -> lookup_at fs ws = Some NDir -> ws ∈ roots -> ws `prefix_of` p \/ p `prefix_of` ws ->
  mkdirs fs p = (fs', r) -> changed_only_under roots fs fs'.
Proof.
  intros Hok Hws Hin Hp Hm q Hq. destruct (mkdir_from_inv _ _ _ _ _ Hm q Hq) as (Hn & _ & Hpre). cbn in Hpre.
  assert (q `prefix_of` ws \/ ws `prefix_of` q) as [Hle|Hle]; [|clear Hp|eauto].
  { destruct Hp as [Hp|Hp]; [by apply (prefix_total q ws p)|left; by etransitivity]. }
  apply (dir_ancestors _ _ _ Hok Hws) in Hle. destruct q as [|c q]; [exists ws; split; [done|]|cbn in Hle; congruence].
  exfalso. destruct Hok as [Hr _]. destruct (decide (fs' !! [] = None)) as [E|E]; [congruence|].
  destruct (mkdir_from_inv _ _ _ _ _ Hm [] Hq) as (_ & Hd & _).
  clear -Hm Hr Hd. unfold mkdirs in Hm. enough (forall cur, mkdir_from fs cur p = (fs', r) -> fs' !! [] = None) as Hen.
  { rewrite (Hen [] Hm) in Hd. done. }
  clear Hm. revert fs Hr. induction p as [|c p IH]; intros fs Hr cur; cbn [mkdir_from]; [by intros [= -> _]|].
  destruct (fs !! (cur ++ [c])) as [[b| |a t]|]; [by intros [= -> _]|by apply IH|by intros [= -> _]|].
  apply IH. rewrite lookup_insert_ne; [done|]. by destruct cur.
Qed.

(** ** Paths without special components *)

Definition clean_component (c : string) : Prop := c ≠ ".." /\ str_has (chr 0) c = false.
Definition clean (p : path) : Prop := Forall clean_component p.

(** Where the system goes for a path, following every link. *)
Definition follow (fs : FS) (p : path) : result path := resolve_from (size fs) fs ∅ [] p.

Lemma clean_parent p : clean p -> clean (parent p).
Proof.
  intros Hp. destruct (parent_prefix p) as [k Hk]. unfold clean in *. rewrite Hk in Hp. by apply Forall_app in Hp as [? _].
Qed.

Lemma resolve_from_clean fuel fs busy cur rest q :
  clean cur -> resolve_from fuel fs busy cur rest = Ok q -> clean q.
Proof.
  revert busy cur rest q. induction fuel as [|f IHf]; intros busy cur rest q;
    revert cur; induction rest as [|c rest IH]; intros cur Hc; cbn; try by intros [= <-].
  - case_bool_decide; [by apply IH, clean_parent|]. destruct (str_has _ _) eqn:En; [done|].
    assert (clean (cur ++ [c])) as Hc' by (apply Forall_app; split; [done|by repeat constructor]).
    destruct (fs !! (cur ++ [c])) as [[b| |a t]|]; try by apply IH. by case_bool_decide.
  - case_bool_decide; [by apply IH, clean_parent|]. destruct (str_has _ _) eqn:En; [done|].
    assert (clean (cur ++ [c])) as Hc' by (apply Forall_app; split; [done|by repeat constructor]).
    destruct (fs !! (cur ++ [c])) as [[b| |a t]|]; try by apply IH. case_bool_decide; [done|].
    destruct (resolve_from f _ _ _ _) as [q'|] eqn:Eq; cbn [mbind result_bind]; [|done].
    apply IH. eapply IHf; [|exact Eq]. destruct a; [constructor|done].
Qed.

Lemma resolve_clean fs base relative q : clean base -> resolve fs base relative = Ok q -> clean q.
Proof. intros Hb. apply resolve_from_clean. destruct (is_absolute relative); [constructor|done]. Qed.

Lemma resolve_from_id fuel fs busy cur rest :
  clean rest -> link_free fs (cur ++ rest) -> resolve_from fuel fs busy cur rest = Ok (cur ++ rest).
Proof.
  revert cur. induction rest as [|c rest IH]; intros cur Hc Hl; [destruct fuel; cbn; by rewrite app_nil_r|].
  apply Forall_cons in Hc as [[Hd Hn] Hc].
  assert (forall a t, fs !! (cur ++ [c]) ≠ Some (NLink a t)) as Hno.
  { intros a t. apply Hl. exists rest. by rewrite <- app_assoc. }
  specialize (IH (cur ++ [c]) Hc). rewrite <- app_assoc in IH. specialize (IH Hl). cbn [app] in IH.
  destruct fuel; cbn -[chr]; rewrite bool_decide_eq_false_2, Hn by done;
    destruct (fs !! (cur ++ [c])) as [[b| |a t]|] eqn:E; try exact IH; by destruct (Hno a t).
Qed.

(** The system goes to a clean, link-free path itself. *)
Lemma follow_id fs p : clean p -> link_free fs p -> follow fs p = Ok p.
Proof. intros Hc Hl. by apply (resolve_from_id _ _ _ []). Qed.

(** ** Lemmas: well-formedness *)

(** No directory is lost and no link appears. *)
Definition tame (fs fs' : FS) : Prop :=
  (forall p, fs !! p = Some NDir -> fs' !! p = Some NDir) /\
  (forall p a t, fs' !! p = Some (NLink a t) -> fs !! p = Some (NLink a t)).

#[export] Instance tame_preorder : PreOrder tame.
Proof. split; [by intros fs; split|]. intros x y z [H1 H2] [H3 H4]. split; eauto. Qed.

#[export] Instance changed_preorder roots : PreOrder (changed_only_under roots).
Proof. split; [intros fs; apply changed_refl|]. intros x y z. apply changed_trans. Qed.

Lemma tame_lookup_dir fs fs' p : tame fs fs' -> lookup_at fs p = Some NDir -> lookup_at fs' p = Some NDir.
Proof. intros [Hd _]. destruct p; [done|apply Hd]. Qed.

Lemma tame_link_free fs fs' p : tame fs fs' -> link_free fs p -> link_free fs' p.
Proof. intros [_ Hl] Hp q a t Hq E. apply Hl in E. by apply (Hp q a t). Qed.

Lemma is_dir_true fs p : is_dir fs p = true <-> lookup_at fs p = Some NDir.
Proof. unfold is_dir. by destruct (lookup_at fs p) as [[]|]. Qed.

Lemma is_file_true fs p : is_file fs p = true <-> exists b, lookup_at fs p = Some (NFile b).
Proof. unfold is_file. destruct (lookup_at fs p) as [[]|]; naive_solver. Qed.

(** An entry added to a directory, or changed, keeps the tree a tree. *)
Lemma insert_file_ok fs p b :
  fs_ok fs -> p ≠ [] -> fs !! p ≠ Some NDir -> (forall a t, fs !! p ≠ Some (NLink a t)) ->
  lookup_at fs (parent p) = Some NDir -> fs_ok (<[p := NFile b]> fs) /\ tame fs (<[p := NFile b]> fs).
Proof.
  intros [Hr Hok] Hne Hd Hl Hp. assert (tame fs (<[p := NFile b]> fs)) as Ht.
  { split.
    - intros q Hq. rewrite lookup_insert_ne; [done|]. by intros ->.
    - intros q a t. destruct (decide (p = q)) as [->|]; [by rewrite lookup_insert_eq|by rewrite lookup_insert_ne]. }
  split; [|done]. split; [by rewrite lookup_insert_ne|]. intros q Hq Hs. apply (tame_lookup_dir _ _ _ Ht).
  destruct (decide (p = q)) as [->|Hpq]; [done|]. rewrite lookup_insert_ne in Hs by done. by apply Hok.
Qed.

Lemma write_bytes_ok fs p b fs' :
  fs_ok fs -> write_bytes fs p b = Ok fs' -> fs_ok fs' /\ tame fs fs'.
Proof.
  intros Hok (-> & Hne & [[b' Hb]|[Hn Hd]])%write_bytes_inv; apply insert_file_ok; try congruence; try done.
  - apply Hok; [done|]. by eexists.
  - by apply is_dir_true.
Qed.

Lemma mkdir_from_ok fs cur rest fs' r :
  fs_ok fs -> lookup_at fs cur = Some NDir -> mkdir_from fs cur rest = (fs', r) ->
  fs_ok fs' /\ tame fs fs' /\ (r = Ok tt -> lookup_at fs' (cur ++ rest) = Some NDir).
Proof.
  revert fs cur. induction rest as [|c rest IH]; intros fs cur Hok Hc; cbn [mkdir_from].
  - intros [= <- <-]. by rewrite app_nil_r.
  - assert (cur ++ c :: rest = (cur ++ [c]) ++ rest) as -> by by rewrite <- app_assoc.
    assert (forall f : FS, lookup_at f (cur ++ [c]) = f !! (cur ++ [c])) as El by (intros f; by destruct cur).
    destruct (fs !! (cur ++ [c])) as [[b| |a t]|] eqn:E; try by intros [= <- <-].
    + apply IH; [done|by rewrite El].
    + assert (fs_ok (<[cur ++ [c] := NDir]> fs) /\ tame fs (<[cur ++ [c] := NDir]> fs)) as [Hok' Ht].
      { assert (tame fs (<[cur ++ [c] := NDir]> fs)) as Ht.
        { split.
          - intros q Hq. destruct (decide (cur ++ [c] = q)) as [->|]; [by rewrite lookup_insert_eq|by rewrite lookup_insert_ne].
          - intros q a t. destruct (decide (cur ++ [c] = q)) as [->|]; [by rewrite lookup_insert_eq|by rewrite lookup_insert_ne]. }
        split; [|done]. destruct Hok as [Hr Hok]. split; [rewrite lookup_insert_ne; [done|by destruct cur]|].
        intros q Hq Hs. apply (tame_lookup_dir _ _ _ Ht). destruct (decide (cur ++ [c] = q)) as [<-|Hne].
        - by rewrite parent_snoc.
        - rewrite lookup_insert_ne in Hs by done. by apply Hok. }
      intros Hm. destruct (IH _ _ Hok' ltac:(by rewrite El, lookup_insert_eq) Hm) as (? & ? & ?). split_and!; [done| |done].
      by etransitivity.
Qed.

(** Removing a file leaves no orphan. *)
Lemma delete_file_ok fs p : fs_ok fs -> fs !! p ≠ Some NDir -> fs_ok (delete p fs) /\ tame fs (delete p fs).
Proof.
  intros [Hr Hok] Hp. assert (tame fs (delete p fs)) as Ht.
  { split.
    - intros q Hq. rewrite lookup_delete_ne; [done|]. intros ->. congruence.
    - intros q a t. destruct (decide (p = q)) as [->|]; [by rewrite lookup_delete_eq|by rewrite lookup_delete_ne]. }
  split; [|done]. split; [destruct (decide (p = [])) as [->|]; [by rewrite lookup_delete_eq|by rewrite lookup_delete_ne]|].
  intros q Hq Hs. apply (tame_lookup_dir _ _ _ Ht), Hok; [done|].
  destruct (decide (p = q)) as [->|Hne]; [by rewrite lookup_delete_eq in Hs; destruct Hs|by rewrite lookup_delete_ne in Hs].
Qed.

Lemma unlink_inv fs p fs' : unlink fs p = Ok fs' -> fs' = delete p fs /\ fs !! p ≠ Some NDir.
Proof.
  unfold unlink, lookup_at. destruct p as [|c p]; [done|].
  destruct (fs !! (c :: p)) as [[]|]; try done; intros [= <-]; done.
Qed.

Lemma replace_inv fs p d fs' :
  replace fs p d = Ok fs' ->
  exists b, fs !! p = Some (NFile b) /\ fs' = <[d := NFile b]> (delete p fs) /\
    d ≠ [] /\ fs !! d ≠ Some NDir /\ lookup_at fs (parent d) = Some NDir.
Proof.
  unfold replace. destruct (lookup_at fs p) as [[b| |]|] eqn:Ep; try done.
  destruct (is_dir fs d) eqn:Ed; [done|]. destruct (is_dir fs (parent d)) eqn:Epd; [|done]. intros [= <-].
  exists b. assert (d ≠ []) as Hne by by intros ->. split_and!; [by destruct p|done|done| |by apply is_dir_true].
  intros E. unfold is_dir in Ed. destruct d; [done|]. cbn [lookup_at] in Ed. by rewrite E in Ed.
Qed.

Lemma replace_ok fs p d fs' :
  fs_ok fs -> (forall a t, fs !! d ≠ Some (NLink a t)) -> replace fs p d = Ok fs' -> fs_ok fs' /\ tame fs fs'.
Proof.
  intros Hok Hl (b & Hb & -> & Hne & Hd & Hpd)%replace_inv.
  destruct (delete_file_ok fs p Hok) as [Hok1 Ht1]; [congruence|].
  destruct (insert_file_ok (delete p fs) d b Hok1 Hne) as [Hok2 Ht2].
  - intros E. apply Hd. destruct (decide (p = d)) as [->|]; [by rewrite lookup_delete_eq in E|by rewrite lookup_delete_ne in E].
  - intros a t E. destruct Ht1 as [_ Hl1]. by apply (Hl a t), Hl1.
  - by apply (tame_lookup_dir _ _ _ Ht1).
  - split; [done|]. by etransitivity.
Qed.
