(* ===== verification/StateMonad.v ===== *)
(** * Computations on a state

    A state and error monad, and a logic for it: in a [triple] every run, failed or not,
    satisfies a relation between the states before and after, and a run that returns establishes
    a postcondition on its value.  The relation is transitive and reflexive, so that it composes
    along a sequence; [triple_bind] is the rule the agents' proofs use.  [FM] is the instance at
    the file system of [FileSystem.v], which the file agent runs in. *)

From S2P Require Import Prelude PyStr FileSystem.

(** A computation that may change the state, then returns a value or raises. *)
Definition SM (S A : Type) : Type := S -> S * result A.

Abbreviation FM := (SM FS).

#[export] Instance SM_ret {S : Type} : MRet (SM S) := fun A a s => (s, Ok a).
#[export] Instance SM_bind {S : Type} : MBind (SM S) := fun A B f m s =>
  match m s with (s', Ok a) => f a s' | (s', Raise e) => (s', Raise e) end.

Definition lift {S A : Type} (r : result A) : SM S A := fun s => (s, r).

(** A computation that only reads. *)
Definition reads {S A : Type} (f : S -> result A) : SM S A := fun s => (s, f s).

(** A change that may fail. *)
Definition changes {S : Type} (f : S -> result S) : SM S unit := fun s =>
  match f s with Ok s' => (s', Ok tt) | Raise e => (s, Raise e) end.

Definition raiseM {S A : Type} (c : exn_class) (msg : string) : SM S A := lift (raise c msg).

Definition file_error {S A : Type} (msg : string) : SM S A := raiseM FileAgentError msg.

(** [if not ok: raise FileAgentError(msg)]. *)
Definition guard_file {S : Type} (ok : bool) (msg : string) : SM S unit :=
  if ok then mret (M := SM S) tt else file_error msg.

(** [try: m except cs as exc: h exc]. *)
Definition catch_errors {S A : Type} (cs : list exn_class) (h : exn -> A) (m : SM S A) : SM S A := fun s =>
  match m s with
  | (s', Raise e) => if catches cs e then (s', Ok (h e)) else (s', Raise e)
  | done => done
  end.

Definition catch_file_error {A : Type} (h : exn -> A) (m : FM A) : FM A := catch_errors [FileAgentError] h m.

(** ** Computations that change nothing *)

Definition pure {S A : Type} (m : SM S A) : Prop := forall s s' r, m s = (s', r) -> s' = s.

Lemma pure_reads {S A : Type} (f : S -> result A) : pure (reads f).
Proof. intros s s' r E. by apply pair_equal_spec in E as [-> _]. Qed.

Lemma pure_lift {S A : Type} (x : result A) : pure (S := S) (lift x).
Proof. intros s s' r E. by apply pair_equal_spec in E as [-> _]. Qed.

Lemma pure_ret {S A : Type} (a : A) : pure (mret (M := SM S) a).
Proof. intros s s' r E. by apply pair_equal_spec in E as [-> _]. Qed.

(** Such a step raises and stops, or gives a value to the next one in the same state. *)
Lemma bind_pure {S A B : Type} (m : SM S A) (f : A -> SM S B) s s' r :
  pure m -> (m ≫= f) s = (s', r) ->
  (s' = s /\ exists e, r = Raise e) \/ exists a, m s = (s, Ok a) /\ f a s = (s', r).
Proof.
  intros Hm. unfold mbind, SM_bind. destruct (m s) as [s1 [a|e]] eqn:E; pose proof (Hm _ _ _ E) as ->; [eauto|].
  intros [= <- <-]. eauto.
Qed.

(** ** A logic for them *)

Section Triples.
Context {S : Type} (I : S -> Prop) (R : S -> S -> Prop) `{!PreOrder R}.

(** From a state with [I] and [P], every run keeps [I] and is related by [R]; a value comes
    with [Q]. *)
Definition triple {A : Type} (P : S -> Prop) (m : SM S A) (Q : A -> S -> Prop) : Prop :=
  forall fs fs' r, I fs -> P fs -> m fs = (fs', r) -> R fs fs' /\ I fs' /\ forall a, r = Ok a -> Q a fs'.

Lemma triple_bind {A B : Type} P (m : SM S A) Q (f : A -> SM S B) T :
  triple P m Q -> (forall a, triple (Q a) (f a) T) -> triple P (m ≫= f) T.
Proof.
  intros Hm Hf fs fs' r HI HP. unfold mbind, SM_bind. destruct (m fs) as [fs1 [a|e]] eqn:Em.
  - destruct (Hm _ _ _ HI HP Em) as (H1 & HI1 & HQ). intros Er.
    destruct (Hf a _ _ _ HI1 (HQ a eq_refl) Er) as (H2 & HI2 & HS). split_and!; [by etransitivity|done|done].
  - intros [= <- <-]. destruct (Hm _ _ _ HI HP Em) as (H1 & HI1 & _). by split_and!.
Qed.

Lemma triple_ret {A : Type} (P : S -> Prop) (a : A) (Q : A -> S -> Prop) :
  (forall fs, P fs -> Q a fs) -> triple P (mret (M := SM S) a) Q.
Proof. intros Hq fs fs' r HI HP [= <- <-]. split_and!; [done|done|]. intros x [= <-]. auto. Qed.

Lemma triple_lift {A : Type} (P : S -> Prop) (x : result A) (Q : A -> S -> Prop) :
  (forall fs a, P fs -> x = Ok a -> Q a fs) -> triple P (lift x) Q.
Proof. intros Hq fs fs' r HI HP [= <- <-]. split_and!; [done|done|]. intros a. by apply Hq. Qed.

Lemma triple_reads {A : Type} (P : S -> Prop) (f : S -> result A) (Q : A -> S -> Prop) :
  (forall fs a, I fs -> P fs -> f fs = Ok a -> Q a fs) -> triple P (reads f) Q.
Proof. intros Hq fs fs' r HI HP [= <- <-]. split_and!; [done|done|]. intros a. by apply Hq. Qed.

Lemma triple_changes (P : S -> Prop) (f : S -> result S) (Q : unit -> S -> Prop) :
  (forall fs fs', I fs -> P fs -> f fs = Ok fs' -> R fs fs' /\ I fs' /\ Q tt fs') -> triple P (changes f) Q.
Proof.
  intros Hq fs fs' r HI HP. unfold changes. destruct (f fs) as [fs1|e] eqn:E; intros [= <- <-].
  - destruct (Hq _ _ HI HP E) as (H1 & H2 & H3). split_and!; [done|done|]. by intros [] _.
  - by split_and!.
Qed.

Lemma triple_error {A : Type} (P : S -> Prop) (msg : string) (Q : A -> S -> Prop) : triple P (file_error msg) Q.
Proof. intros fs fs' r HI HP [= <- <-]. by split_and!. Qed.

Lemma triple_guard (P : S -> Prop) (b : bool) (msg : string) (Q : unit -> S -> Prop) :
  (forall fs, P fs -> b = true -> Q tt fs) -> triple P (guard_file b msg) Q.
Proof. intros Hq. destruct b; [apply triple_ret; auto|apply triple_error]. Qed.

Lemma triple_catch {A : Type} (P : S -> Prop) (cs : list exn_class) (h : exn -> A) (m : SM S A) (Q : A -> S -> Prop) :
  triple P m Q -> triple P (catch_errors cs h m) (fun _ _ => True).
Proof.
  intros Hm fs fs' r HI HP. unfold catch_errors. destruct (m fs) as [fs1 [a|e]] eqn:E.
  - intros [= <- <-]. destruct (Hm _ _ _ HI HP E) as (? & ? & _). by split_and!.
  - destruct (Hm _ _ _ HI HP E) as (? & ? & _). destruct (catches _ e); intros [= <- <-]; by split_and!.
Qed.

(** The precondition can be strengthened and the postcondition weakened. *)
Lemma triple_weaken {A : Type} (P P' : S -> Prop) (m : SM S A) (Q Q' : A -> S -> Prop) :
  (forall fs, P' fs -> P fs) -> (forall a fs, Q a fs -> Q' a fs) -> triple P m Q -> triple P' m Q'.
Proof. intros HP HQ Hm fs fs' r HI H' Er. destruct (Hm _ _ _ HI (HP _ H') Er) as (? & ? & ?). split_and!; auto. Qed.

(** What [R] keeps is kept by every run. *)
Lemma triple_frame {A : Type} (K P : S -> Prop) (m : SM S A) (Q : A -> S -> Prop) :
  (forall fs fs', R fs fs' -> K fs -> K fs') -> triple P m Q ->
  triple (fun fs => K fs /\ P fs) m (fun a fs => K fs /\ Q a fs).
Proof. intros HK Hm fs fs' r HI [Hk HP] Er. destruct (Hm _ _ _ HI HP Er) as (? & ? & ?). split_and!; eauto. Qed.

End Triples.

(** ** Runs that return *)

Lemma bind_ok {S A B : Type} (m : SM S A) (f : A -> SM S B) fs fs' b :
  (m ≫= f) fs = (fs', Ok b) -> exists a fs1, m fs = (fs1, Ok a) /\ f a fs1 = (fs', Ok b).
Proof. unfold mbind, SM_bind. destruct (m fs) as [fs1 [a|e]]; [eauto|done]. Qed.

Lemma changes_ok {S : Type} (f : S -> result S) fs fs' u : changes f fs = (fs', Ok u) -> f fs = Ok fs'.
Proof. unfold changes. destruct (f fs); by intros [= <-]. Qed.

Lemma guard_ok {S : Type} (b : bool) (msg : string) (fs fs' : S) u : guard_file b msg fs = (fs', Ok u) -> b = true /\ fs' = fs.
Proof. destruct b; by intros [= <-]. Qed.

(** Takes a run that returned apart, step by step. *)
Ltac run_inv :=
  repeat (cbn beta zeta in *; match goal with
  | E : mbind _ _ _ = (_, Ok _) |- _ =>
      let a := fresh "a" in let s := fresh "fs" in let E1 := fresh "E" in apply bind_ok in E as (a & s & E1 & E)
  | E : reads _ _ = (_, Ok _) |- _ => unfold reads in E; apply pair_equal_spec in E as [<- E]
  | E : lift _ _ = (_, Ok _) |- _ => unfold lift in E; apply pair_equal_spec in E as [<- E]
  | E : changes _ _ = (_, Ok _) |- _ => apply changes_ok in E
  | E : guard_file _ _ _ = (_, Ok _) |- _ => let G := fresh "G" in apply guard_ok in E as [G ->]
  | E : mret _ _ = (_, Ok _) |- _ => injection E as <- <-
  | E : Ok _ = Ok _ |- _ => injection E as <-
  end).
