(* ===== verification/FileAgent.v ===== *)
(** * aor/agents/file.py: the file agent

    Planning reads a request with the regular expressions of the source; executing runs in a
    small state and error monad over the file system of [FileSystem.v].  [difflib]'s rendering
    of a diff, which only goes into the change record, is an interface.

    The theorems are in [FileEffects.v]: whatever the plan, nothing changes outside the workspace and the backup
    directory, and no link is followed out of them; a change or a success needs a plan whose
    payload the proof commits, and a confirmation where the plan destroys a file; an update
    writes exactly the patched text, and a rejected update changes nothing; creating and reading
    a file; and which requests plan. *)

From S2P Require Import Prelude PyStr Json JsonText Crypto Instances Ledger Verifier Registry Poi AgentBase Regex.
From S2P Require Import Diff FileSystem StateMonad.


(** [difflib.unified_diff(a, b, fromfile, tofile)]. *)
Class Difflib := { unified_diff : list string -> list string -> string -> string -> list string }.

(** ** The agent *)

Record FileAgent := mkFileAgent { fg_agent_id : string; fg_workspace : path; fg_backup : path }.

Definition capabilities : list string := ["file.read"; "file.create"; "file.update"; "file.rename"; "file.delete"].

(** [path.mkdir(parents=True, exist_ok=True)] where the last component may be a link. *)
Definition mkdirs_link (fs : FS) (p : path) : FS * result unit :=
  match fs !! p with
  | Some (NLink _ _) =>
      (fs, match follow fs p with
           | Ok q => if is_dir fs q then Ok tt else raise OSError "File exists"
           | Raise _ => raise OSError "File exists"
           end)
  | _ => mkdirs fs p
  end.

(** [cwd] is the process's directory. *)
Definition FileAgent_init (cwd : path) (workspace_dir : string) (backup_dir : option string) (agent_id : string)
    : FM FileAgent :=
  _ ← lift (Agent_init agent_id "file");
  workspace ← reads (fun fs => resolve fs cwd workspace_dir);
  _ ← (fun fs => mkdirs fs workspace);
  backup ← match backup_dir with
           | Some b => if truthy_str b then reads (fun fs => resolve fs cwd b)
                       else mret (M := FM) (workspace ++ [".aor_file_backups"])
           | None => mret (M := FM) (workspace ++ [".aor_file_backups"])
           end;
  _ ← (fun fs => mkdirs_link fs backup);
  mret (M := FM) (mkFileAgent agent_id workspace backup).

Definition file_agent_words : list string :=
  ["file"; "folder"; "directory"; "read"; "create"; "write"; "edit"; "update"; "rename"; "delete"].

Definition file_can_handle (request : string) : bool :=
  if negb (truthy_str request) || negb (truthy_str (str_strip request)) then false
  else bool_decide (is_Some (re_search (keywords file_agent_words) request)).

(** ** Planning *)

Definition quote_char (c : ascii) : bool := char_in "`'" c || char_is (chr 34) c.
Definition unquoted (c : ascii) : bool := negb (quote_char c) && negb (is_space c).
Definition any_char (c : ascii) : bool := true.

(** [\bverb\b]. *)
Definition verb_pattern (verb : string) : regex := Cat WordBoundary (Cat (literal char_is verb) WordBoundary).

Definition action_verbs : list (string * string) :=
  [("read", "file.read"); ("create", "file.create"); ("write", "file.create"); ("update", "file.update");
   ("edit", "file.update"); ("rename", "file.rename"); ("delete", "file.delete")].

Definition action_type_from_request (request : string) : option string :=
  let lowered := str_lower request in
  snd <$> (snd <$> list_find (fun va => is_Some (re_search (verb_pattern va.1) lowered)) action_verbs).

(** The word file or path, spaces, one of [=:] or none, spaces, a quote or none, then group 1: the
    characters up to a quote or a space; ignoring case. *)
Definition path_pattern : regex :=
  Cat (alternatives same_letter ["file"; "path"]) (Cat (Star is_space) (Cat (Rep (char_in "=:") 0 (Some 1%nat))
    (Cat (Star is_space) (Cat (Rep quote_char 0 (Some 1%nat)) (Group 1 (Plus unquoted)))))).

(** A verb at a word boundary, spaces, a quote or none, and group 1 as above. *)
Definition fallback_pattern : regex :=
  Cat WordBoundary (Cat (alternatives same_letter ["write"; "create"; "edit"; "update"; "rename"; "delete"])
    (Cat (Plus is_space) (Cat (Rep quote_char 0 (Some 1%nat)) (Group 1 (Plus unquoted))))).

Definition extract_path (request : string) : option string :=
  match re_search path_pattern request with
  | Some g => group 1 g
  | None => re_search fallback_pattern request ≫= group 1
  end.

(** The marker at a word boundary, spaces, a colon or an equals sign, spaces, and group 1: any
    characters to the end; ignoring case. *)
Definition marker_pattern (marker : string) : regex :=
  Cat WordBoundary (Cat (literal same_letter marker) (Cat (Star is_space) (Cat (Class_ (char_in ":="))
    (Cat (Star is_space) (Cat (Group 1 (Star any_char)) AtEnd))))).

Definition content_after_marker (request marker : string) : string :=
  match re_search (marker_pattern marker) request with
  | Some g => str_strip (default "" (group 1 g)) | None => "" end.

(** The word to at a word boundary, spaces, a quote or none, and group 1 as above. *)
Definition destination_pattern : regex :=
  Cat WordBoundary (Cat (literal same_letter "to") (Cat (Plus is_space) (Cat (Rep quote_char 0 (Some 1%nat)) (Group 1 (Plus unquoted))))).

Definition rename_destination (request : string) : option string := re_search destination_pattern request ≫= group 1.

(** A string value that is not blank. *)
Definition nonblank (j : json) : option string :=
  match j with JStr s => if truthy_str (str_strip s) then Some s else None | _ => None end.

Section Agent.
Context `{Hashlib, Rfc8785, Difflib}.
Variable self : FileAgent.

Definition resolve_path (relative_path : string) : FM path :=
  candidate ← reads (fun fs => resolve fs (fg_workspace self) relative_path);
  if bool_decide (fg_workspace self `prefix_of` candidate) then mret (M := FM) candidate
  else file_error "path_outside_workspace".

Definition file_plan (request : string) (context : option dict) : FM ActionPlan :=
  if negb (truthy_str request) || negb (truthy_str (str_strip request)) then file_error "file_request_empty"
  else
    let values := default [] context in
    match get_or "action_type" values (opt_str (action_type_from_request request)) with
    | JStr action_type =>
        if negb (bool_decide (action_type ∈ capabilities)) then file_error "file_action_type_required"
        else
          match nonblank (get_or "path" values (opt_str (extract_path request))) with
          | None => file_error "file_path_required"
          | Some path_ =>
              payload ←
                (if bool_decide (action_type = "file.create") then
                   mret (M := FM) [("path", JStr path_);
                     ("content", JStr (match dict_get "content" values with
                                       | Some v => py_str v | None => content_after_marker request "content" end))]
                 else if bool_decide (action_type = "file.update") then
                   let patch := get_or "patch" values (JStr (content_after_marker request "patch")) in
                   if negb (json_truthy patch) then file_error "file_update_patch_required"
                   else mret (M := FM) [("path", JStr path_); ("patch", JStr (py_str patch))]
                 else if bool_decide (action_type = "file.rename") then
                   match nonblank (get_or "destination" values (opt_str (rename_destination request))) with
                   | None => file_error "file_destination_required"
                   | Some destination => mret (M := FM) [("path", JStr path_); ("destination", JStr destination)]
                   end
                 else mret (M := FM) [("path", JStr path_)]);
              requires_confirmation ←
                (if bool_decide (action_type = "file.rename") then
                   match dict_get "destination" payload with
                   | Some (JStr destination) =>
                       destination ← resolve_path destination; reads (fun fs => Ok (exists_ fs destination))
                   | _ => mret (M := FM) false
                   end
                 else mret (M := FM) (bool_decide (action_type = "file.delete")));
              lift (ActionPlan_init (mkActionPlan "file" (Some (fg_agent_id self)) action_type payload
                                       requires_confirmation false "allow"))
          end
    | _ => file_error "file_action_type_required"
    end.

(** ** Executing *)

Definition digest (value : bytes) : string := hex (sha3_256 value).

Definition required_string (payload : dict) (key : string) : FM string :=
  match dict_get key payload with
  | Some (JStr s) => if truthy_str s then mret (M := FM) s else file_error (key +:+ "_required")
  | _ => file_error (key +:+ "_required")
  end.

Definition repr_text (o : option string) : string := match o with Some s => str_repr s | None => "None" end.

Definition write_change_record (plan : ActionPlan) (p : path) (before after : option string) : FM string :=
  let shown := "(" +:+ (repr_text before +:+ (", " +:+ (repr_text after +:+ ")"))) in
  let material := ap_action_type plan +:+ (":" +:+ (path_str p +:+ (":" +:+ hex (sha256 (utf8_encode shown))))) in
  let record_path := fg_backup self ++ [hex (sha256 (utf8_encode material)) +:+ ".diff"] in
  let record :=
    match before, after with
    | Some b, Some a => str_join "" (unified_diff (splitlines_keep b) (splitlines_keep a) (path_str p) (path_str p))
    | _, _ => "action=" +:+ (ap_action_type plan +:+ (nl +:+ ("path=" +:+ (path_str p +:+ (nl +:+
                ("before=" +:+ (repr_text before +:+ (nl +:+ ("after=" +:+ (repr_text after +:+ nl))))))))))
    end in
  q ← reads (fun fs => follow fs record_path);
  _ ← changes (fun fs => write_text fs q record);
  mret (M := FM) (path_str record_path).

Definition change_result (p : path) (before_hash after_hash : option string) (backup_ref : string) : ActionResult :=
  mkActionResult true (Some (path_str p)) [("path", JStr (path_str p))]
    [("path", JStr (path_str p)); ("before_hash", opt_str before_hash); ("after_hash", opt_str after_hash);
     ("backup_ref", JStr backup_ref)].

Definition execute_read (p : path) : FM ActionResult :=
  is_f ← reads (fun fs => Ok (is_file fs p));
  _ ← guard_file is_f "file_not_found";
  content ← reads (fun fs => read_text fs p);
  let h := digest (utf8_encode content) in
  mret (M := FM) (mkActionResult true (Some (path_str p)) [("path", JStr (path_str p)); ("content", JStr content)]
    [("path", JStr (path_str p)); ("before_hash", JStr h); ("after_hash", JStr h)]).

Definition execute_create (plan : ActionPlan) (p : path) : FM ActionResult :=
  there ← reads (fun fs => Ok (exists_ fs p));
  _ ← guard_file (negb there) "file_already_exists";
  content ← required_string (ap_payload plan) "content";
  _ ← (fun fs => mkdirs fs (parent p));
  _ ← changes (fun fs => write_text fs p content);
  backup_ref ← write_change_record plan p None (Some content);
  mret (M := FM) (change_result p None (Some (digest (utf8_encode content))) backup_ref).

Definition execute_update (plan : ActionPlan) (p : path) : FM ActionResult :=
  is_f ← reads (fun fs => Ok (is_file fs p));
  _ ← guard_file is_f "file_not_found";
  before ← reads (fun fs => read_text fs p);
  patch ← required_string (ap_payload plan) "patch";
  after ← lift (apply_unified_diff before patch);
  backup_ref ← write_change_record plan p (Some before) (Some after);
  _ ← changes (fun fs => write_text fs p after);
  mret (M := FM) (change_result p (Some (digest (utf8_encode before))) (Some (digest (utf8_encode after))) backup_ref).

Definition execute_delete (plan : ActionPlan) (p : path) : FM ActionResult :=
  _ ← guard_file (ap_confirmed plan) "confirmation_required";
  is_f ← reads (fun fs => Ok (is_file fs p));
  _ ← guard_file is_f "file_not_found";
  before ← reads (fun fs => read_text fs p);
  backup_ref ← write_change_record plan p (Some before) None;
  _ ← changes (fun fs => unlink fs p);
  mret (M := FM) (change_result p (Some (digest (utf8_encode before))) None backup_ref).

Definition execute_rename (plan : ActionPlan) (p : path) : FM ActionResult :=
  d ← required_string (ap_payload plan) "destination";
  destination ← resolve_path d;
  there ← reads (fun fs => Ok (exists_ fs destination));
  _ ← guard_file (negb (there && negb (ap_confirmed plan))) "confirmation_required";
  is_f ← reads (fun fs => Ok (is_file fs p));
  _ ← guard_file is_f "file_not_found";
  is_d ← reads (fun fs => Ok (is_dir fs destination));
  _ ← guard_file (negb (there && is_d)) "destination_is_directory";
  before ← reads (fun fs => read_bytes fs p);
  _ ← (fun fs => mkdirs fs (parent destination));
  backup_ref ← write_change_record plan p (Some (path_str p)) (Some (path_str destination));
  _ ← changes (fun fs => replace fs p destination);
  after ← reads (fun fs => read_bytes fs destination);
  mret (M := FM) (mkActionResult true (Some (path_str destination))
    [("path", JStr (path_str p)); ("destination", JStr (path_str destination))]
    [("path", JStr (path_str p)); ("destination", JStr (path_str destination)); ("before_hash", JStr (digest before));
     ("after_hash", JStr (digest after)); ("backup_ref", JStr backup_ref)]).

Definition execute_checked (plan : ActionPlan) : FM ActionResult :=
  let action_type := ap_action_type plan in
  s ← required_string (ap_payload plan) "path";
  p ← resolve_path s;
  if bool_decide (action_type = "file.read") then execute_read p
  else if bool_decide (action_type = "file.create") then execute_create plan p
  else if bool_decide (action_type = "file.update") then execute_update plan p
  else if bool_decide (action_type = "file.delete") then execute_delete plan p
  else if bool_decide (action_type = "file.rename") then execute_rename plan p
  else file_error "unsupported_action_type".

Definition file_execute (plan : ActionPlan) (poi : ProofOfIntent) : FM ActionResult :=
  if negb (bool_decide (ap_agent_type plan = "file")) then mret (M := FM) (failure "agent_type_mismatch")
  else if negb (bool_decide (ap_agent_id plan = None \/ ap_agent_id plan = Some (fg_agent_id self)))
  then mret (M := FM) (failure "agent_id_mismatch")
  else if negb (bool_decide (ap_action_type plan ∈ capabilities)) then mret (M := FM) (failure "unsupported_action_type")
  else if negb (bool_decide (ap_policy_decision plan = "allow")) then mret (M := FM) (failure "policy_decision_rejected")
  else
    h ← lift (hash_hex (JObj (ap_payload plan)));
    if negb (bool_decide (h = poi_action_payload_hash poi)) then mret (M := FM) (failure "action_payload_hash_mismatch")
    else if negb (bool_decide (poi_action_type poi = None \/ poi_action_type poi = Some (ap_action_type plan)))
    then mret (M := FM) (failure "action_type_mismatch")
    else catch_file_error (fun exc => failure (exn_msg exc)) (execute_checked plan).

End Agent.

(** The pattern is not anchored at a word: a path is found inside a file name. *)
Lemma path_inside_word : extract_path "create profile.txt content: x" = Some ".txt".
Proof. vm_compute; reflexivity. Qed.
