(* ===== verification/FileEffects.v ===== *)
(** * What the file agent does to the file system

    The theorems on [FileAgent.v]: the sandbox (whatever the plan, a run changes nothing outside
    the workspace and the backup directory, and follows no link out of them), the guards of an
    execution, the effect of each kind of action, and a created file's content read back. *)

From S2P Require Import Prelude PyStr Json JsonText Crypto Instances Ledger Verifier Registry Poi AgentBase Regex.
From S2P Require Import Diff FileSystem StateMonad FileAgent.

(** The name of a change record is one plain component. *)
Lemma record_name_clean (b : bytes) : clean_component (hex b +:+ ".diff").
Proof.
  split.
  - intros E. apply (f_equal String.length) in E. rewrite str_app_length in E. cbn in E. lia.
  - assert (forall n, 0 <= n < 16 -> (ord (hex_digit n) =? ord (chr 0)) = false)%Z as Hd.
    { intros n Hn. small_cases n 16%nat. }
    induction b as [|x b IH]; [done|]. pose proof (byte_to_Z_range x). cbn [hex].
    rewrite !str_append_cons. cbn -[chr hex_digit Z.eqb Z.modulo Z.div]. rewrite !Hd by dlia. exact IH.
Qed.

Section Sandbox.
Context `{Hashlib, Rfc8785, Difflib}.
Variable self : FileAgent.

(** ** Specification *)

Definition roots : list path := [fg_workspace self; fg_backup self].

(** The workspace is a directory no link leads to or from above, and the backup directory holds
    no link. *)
Definition agent_ok (fs : FS) : Prop :=
  fs_ok fs /\ lookup_at fs (fg_workspace self) = Some NDir /\ link_free fs (fg_workspace self) /\
  clean (fg_workspace self) /\ link_free fs (fg_backup self) /\ clean (fg_backup self) /\
  (forall p a t, fg_backup self `prefix_of` p -> fs !! p ≠ Some (NLink a t)).

(** What a run may do: only entries under the two directories change, no directory is lost and
    no link appears. *)
Definition sandboxed (fs fs' : FS) : Prop := changed_only_under roots fs fs' /\ tame fs fs'.

#[local] Instance sandboxed_preorder : PreOrder sandboxed.
Proof.
  split; [by intros fs; split|]. intros x y z [G1 G2] [G3 G4]. split; by etransitivity.
Qed.

(** A path the agent may use: below the workspace, with no link on it. *)
Definition inside (p : path) (fs : FS) : Prop := fg_workspace self `prefix_of` p /\ link_free fs p /\ clean p.

Lemma inside_stable p fs fs' : sandboxed fs fs' -> inside p fs -> inside p fs'.
Proof. intros [_ Ht] (G1 & G2 & G3). split_and!; [done|by apply (tame_link_free _ _ _ Ht)|done]. Qed.

Lemma agent_ok_tame fs fs' : agent_ok fs -> fs_ok fs' -> tame fs fs' -> agent_ok fs'.
Proof.
  intros (Hok & Hws & Hl & Hc & Hlb & Hcb & Hb) Hok' Ht. unfold agent_ok. split_and!; try done.
  - by apply (tame_lookup_dir _ _ _ Ht).
  - by apply (tame_link_free _ _ _ Ht).
  - by apply (tame_link_free _ _ _ Ht).
  - intros p a t Hp E. apply (Hb p a t Hp). by apply Ht.
Qed.

(** ** Steps *)

(** A change that keeps the tree a tree, below one of the roots, keeps the invariant. *)
Lemma sandbox_step fs fs' :
  agent_ok fs -> fs_ok fs' /\ tame fs fs' -> changed_only_under roots fs fs' -> sandboxed fs fs' /\ agent_ok fs'.
Proof. intros Ha [Hok Ht] Hc. split; [by split|]. by apply (agent_ok_tame fs). Qed.

Lemma write_sandboxed fs p b fs' r :
  agent_ok fs -> r ∈ roots -> r `prefix_of` p -> write_bytes fs p b = Ok fs' -> sandboxed fs fs' /\ agent_ok fs'.
Proof.
  intros Ha Hr Hp Hw. apply sandbox_step; [done| |].
  - apply (write_bytes_ok _ p b); [apply Ha|done].
  - apply write_bytes_inv in Hw as [-> _]. by apply (changed_insert _ _ _ r).
Qed.

Lemma resolve_inside fs s p : agent_ok fs -> resolve fs (fg_workspace self) s = Ok p ->
  fg_workspace self `prefix_of` p -> inside p fs.
Proof.
  intros (Hok & Hws & Hl & Hc & _) Hr Hp. split_and!; [done| |].
  - apply (resolve_link_free fs (fg_workspace self) s); [apply Hok|done|done].
  - by apply (resolve_clean fs (fg_workspace self) s).
Qed.

Abbreviation ftriple := (triple agent_ok sandboxed).

Lemma resolve_path_triple (K : FS -> Prop) s :
  ftriple K (resolve_path self s) (fun p fs => K fs /\ inside p fs).
Proof.
  eapply triple_bind; [apply _|apply (triple_reads _ _ _ _ (fun p fs => K fs /\ (fg_workspace self `prefix_of` p -> inside p fs)))|].
  - intros fs p Ha HK Hr. split; [done|]. intros Hp. by apply (resolve_inside fs s).
  - intros p. cbn beta. case_bool_decide as Hp; [|apply triple_error]; [|apply _].
    apply triple_ret; [apply _|]. intros fs [HK Hi]. auto.
Qed.

Lemma required_string_triple (K : FS -> Prop) d k : ftriple K (required_string d k) (fun _ fs => K fs).
Proof.
  unfold required_string. destruct (dict_get k d) as [[| | |s| |]|]; try (apply triple_error, _).
  destruct (truthy_str s); [by apply triple_ret; [apply _|]|apply triple_error, _].
Qed.

Lemma keep_reads {A : Type} (K : FS -> Prop) (f : FS -> result A) : ftriple K (reads f) (fun _ fs => K fs).
Proof. by apply triple_reads; [apply _|]. Qed.

Lemma keep_guard (K : FS -> Prop) (b : bool) (msg : string) : ftriple K (guard_file b msg) (fun _ fs => K fs).
Proof. by apply triple_guard; [apply _|]. Qed.

Lemma keep_lift {A : Type} (K : FS -> Prop) (x : result A) : ftriple K (lift x) (fun _ fs => K fs).
Proof. by apply triple_lift; [apply _|]. Qed.

(** A run keeps what the agent already knows of a path. *)
Lemma frame_inside {A : Type} (p : path) (K : FS -> Prop) (m : FM A) (Q : A -> FS -> Prop) :
  ftriple K m Q -> ftriple (fun fs => inside p fs /\ K fs) m (fun a fs => inside p fs /\ Q a fs).
Proof. apply triple_frame. intros fs fs'. apply inside_stable. Qed.

Lemma write_inside p s : ftriple (inside p) (changes (fun fs => write_text fs p s)) (fun _ => inside p).
Proof.
  apply triple_changes; [apply _|]. intros fs fs' Ha Hi Hw.
  destruct (write_sandboxed fs p (utf8_encode s) fs' (fg_workspace self)) as [G1 G2]; [done|by left|apply Hi|done|].
  split_and!; [done|done|]. by apply (inside_stable _ fs).
Qed.

Lemma mkdirs_parent_triple p : ftriple (inside p) (fun fs => mkdirs fs (parent p)) (fun _ => inside p).
Proof.
  intros fs fs' r Ha Hi Hm. destruct (mkdir_from_ok _ [] _ _ _ (proj1 Ha) eq_refl Hm) as (Hok & Ht & _).
  destruct (sandbox_step fs fs') as [G1 G2]; [done|done| |split_and!; [done|done|intros; by apply (inside_stable _ fs)]].
  destruct Hi as ([k ->] & _). destruct Ha as (? & ? & _).
  apply (mkdirs_changed _ fs (fg_workspace self) (parent (fg_workspace self ++ k)) _ r); [done|done|by left| |done].
  destruct k as [|c k _] using rev_ind; [right; rewrite app_nil_r; apply parent_prefix|left].
  rewrite app_assoc, parent_snoc. by apply prefix_app_r.
Qed.

(** Opening a change record follows no link. *)
Lemma record_follow fs b :
  agent_ok fs -> follow fs (fg_backup self ++ [hex b +:+ ".diff"]) = Ok (fg_backup self ++ [hex b +:+ ".diff"]).
Proof.
  intros (Hok & _ & _ & _ & Hlb & Hcb & Hb). apply follow_id.
  - apply Forall_app. split; [done|]. constructor; [|constructor]. apply record_name_clean.
  - apply link_free_snoc; [done|]. intros a t. apply Hb. by apply prefix_app_r.
Qed.

(** A change record is a file directly below the backup directory. *)
Lemma record_triple plan p q before after :
  ftriple (inside q) (write_change_record self plan p before after) (fun _ => inside q).
Proof.
  unfold write_change_record. set (rec := fg_backup self ++ _).
  eapply triple_bind; [apply _|apply (triple_reads _ _ _ _ (fun r fs => inside q fs /\ fg_backup self `prefix_of` r))|].
  - intros fs r Ha Hi Hf. split; [done|].
    assert (follow fs rec = Ok rec) as E by by apply record_follow.
    rewrite E in Hf. assert (r = rec) as -> by congruence. by apply prefix_app_r.
  - intros r. eapply triple_bind; [apply _|apply (triple_changes _ _ _ _ (fun _ => inside q))|].
    + intros fs fs' Ha [Hi Hp] Hw.
      destruct (write_sandboxed fs r _ fs' (fg_backup self) Ha ltac:(right; by left) Hp Hw) as [G1 G2].
      split_and!; [done|done|]. by apply (inside_stable _ fs).
    + intros []. by apply triple_ret; [apply _|].
Qed.

(** ** Actions *)

(** The steps of an action, one after the other. *)
Ltac steps :=
  repeat match goal with
  | |- triple _ _ _ (mbind _ (resolve_path _ _)) _ => eapply triple_bind; [apply _|apply resolve_path_triple|intros ?]
  | |- triple _ _ _ (mbind _ (required_string _ _)) _ => eapply triple_bind; [apply _|apply required_string_triple|intros ?]
  | |- triple _ _ _ (mbind _ (reads _)) _ => eapply triple_bind; [apply _|apply keep_reads|intros ?]
  | |- triple _ _ _ (mbind _ (guard_file _ _)) _ => eapply triple_bind; [apply _|apply keep_guard|intros []]
  | |- triple _ _ _ (mbind _ (lift _)) _ => eapply triple_bind; [apply _|apply keep_lift|intros ?]
  | |- triple _ _ _ (mret _) _ => by apply triple_ret; [apply _|]
  end.

Abbreviation anything := (fun _ => True).

Lemma read_triple p : ftriple (inside p) (execute_read p) (fun _ => anything).
Proof. unfold execute_read. steps. Qed.

Lemma create_triple plan p : ftriple (inside p) (execute_create self plan p) (fun _ => anything).
Proof.
  unfold execute_create. steps. eapply triple_bind; [apply _|apply mkdirs_parent_triple|intros []].
  eapply triple_bind; [apply _|apply write_inside|intros []].
  eapply triple_bind; [apply _|apply record_triple|intros ?]. steps.
Qed.

Lemma update_triple plan p : ftriple (inside p) (execute_update self plan p) (fun _ => anything).
Proof.
  unfold execute_update. steps. eapply triple_bind; [apply _|apply record_triple|intros ?].
  eapply triple_bind; [apply _|apply write_inside|intros []]. steps.
Qed.

Lemma delete_triple plan p : ftriple (inside p) (execute_delete self plan p) (fun _ => anything).
Proof.
  unfold execute_delete. steps. eapply triple_bind; [apply _|apply record_triple|intros ?].
  eapply triple_bind; [apply _|apply (triple_changes _ _ _ _ (fun _ => anything))|intros []; steps].
  intros fs fs' Ha Hi Hu. apply unlink_inv in Hu as [-> Hd].
  destruct (sandbox_step fs (delete p fs)); [done|by apply delete_file_ok; [apply Ha|]| |done].
  apply (changed_delete _ _ _ (fg_workspace self)); [by left|apply Hi].
Qed.

Lemma rename_triple plan p : ftriple (inside p) (execute_rename self plan p) (fun _ => anything).
Proof.
  unfold execute_rename. steps. rename a0 into d.
  eapply triple_bind; [apply _|apply frame_inside, mkdirs_parent_triple|intros []].
  eapply triple_bind; [apply _|apply frame_inside, record_triple|intros ?].
  eapply triple_bind; [apply _|apply (triple_changes _ _ _ _ (fun _ => anything))|intros []; steps].
  intros fs fs' Ha [Hp Hd] Hr. destruct (sandbox_step fs fs'); [done| | |done].
  - apply (replace_ok _ p d); [apply Ha| |done]. intros q t. by apply Hd.
  - apply replace_inv in Hr as (b & _ & -> & _). etransitivity.
    + apply (changed_delete _ _ p (fg_workspace self)); [by left|apply Hp].
    + apply (changed_insert _ _ _ (fg_workspace self)); [by left|apply Hd].
Qed.

Lemma execute_checked_triple plan : ftriple anything (execute_checked self plan) (fun _ => anything).
Proof.
  unfold execute_checked. steps. rename a0 into p.
  assert (forall m : FM ActionResult, ftriple (inside p) m (fun _ => anything) ->
    ftriple (fun fs => True /\ inside p fs) m (fun _ => anything)) as Hw.
  { intros m. apply triple_weaken; [by intros ? []|done]. }
  repeat case_bool_decide; [apply Hw, read_triple|apply Hw, create_triple|apply Hw, update_triple
    |apply Hw, delete_triple|apply Hw, rename_triple|apply triple_error, _].
Qed.

Lemma file_execute_triple plan poi : ftriple anything (file_execute self plan poi) (fun _ => anything).
Proof.
  assert (forall f, ftriple anything (mret (M := FM) (failure f)) (fun _ => anything)) as Hf.
  { intros f. by apply triple_ret; [apply _|]. }
  unfold file_execute. do 4 (case_match; [apply Hf|]). steps.
  do 2 (case_match; [apply Hf|]). eapply triple_catch, execute_checked_triple.
Qed.

(** ** What a run did *)

(** A plan the agent may execute under a proof. *)
Definition authorised (plan : ActionPlan) (poi : ProofOfIntent) : Prop :=
  ap_agent_type plan = "file" /\ (ap_agent_id plan = None \/ ap_agent_id plan = Some (fg_agent_id self)) /\
  ap_action_type plan ∈ capabilities /\ ap_policy_decision plan = "allow" /\
  hash_hex (JObj (ap_payload plan)) = Ok (poi_action_payload_hash poi) /\
  (poi_action_type poi = None \/ poi_action_type poi = Some (ap_action_type plan)).

Definition succeeded (r : result ActionResult) : Prop := exists res, r = Ok res /\ ar_success res = true.

(** A run that changes something or succeeds has an authorised plan, and is the run of the
    action. *)
Lemma file_execute_inv plan poi fs fs' r :
  file_execute self plan poi fs = (fs', r) -> fs' ≠ fs \/ succeeded r ->
  authorised plan poi /\ exists r', execute_checked self plan fs = (fs', r') /\ (succeeded r -> r' = r).
Proof.
  assert (forall f, (fs, Ok (failure f)) = (fs', r) -> fs' ≠ fs \/ succeeded r -> False) as Hf.
  { intros f [= <- <-] [Hne|(res & [= <-] & Hs)]; done. }
  unfold file_execute. intros E Hd.
  do 4 (case_bool_decide; cbn [negb] in E; [|by destruct (Hf _ E Hd)]).
  unfold mbind, SM_bind, lift in E. destruct (hash_hex _) as [h|e] eqn:Eh; cbn in E.
  2: { injection E as <- <-. destruct Hd as [Hne|(res & ? & _)]; done. }
  do 2 (case_bool_decide; cbn [negb] in E; [|by destruct (Hf _ E Hd)]). subst h. split; [by split_and!|].
  unfold catch_file_error, catch_errors in E. destruct (execute_checked self plan fs) as [fs1 [res|e]].
  - injection E as <- <-. eauto.
  - destruct (catches _ e); injection E as <- <-; eexists; (split; [done|]).
    + by intros (res & [= <-] & ?).
    + done.
Qed.

Lemma success_run plan poi fs fs' res :
  file_execute self plan poi fs = (fs', Ok res) -> ar_success res = true ->
  authorised plan poi /\ execute_checked self plan fs = (fs', Ok res).
Proof.
  intros E Hs. assert (succeeded (Ok res)) as Hd by by exists res.
  destruct (file_execute_inv _ _ _ _ _ E (or_intror Hd)) as (Hauth & r' & Ex & Hr). by rewrite <- (Hr Hd).
Qed.

End Sandbox.

(** ** Reading a path again *)

(** The same links, and no entry lost. *)
Definition same_links (fs fs' : FS) : Prop :=
  (forall p a t, fs' !! p = Some (NLink a t) <-> fs !! p = Some (NLink a t)) /\ dom fs ⊆ dom fs'.

#[export] Instance same_links_preorder : PreOrder same_links.
Proof.
  split; [by intros fs; split|]. intros x y z [Hl Hd] [Hl' Hd']. split; [|set_solver].
  intros p a t. by rewrite Hl', Hl.
Qed.

Lemma insert_same_links (fs : FS) (p : path) (n : node) :
  (forall a t, fs !! p ≠ Some (NLink a t)) -> (forall a t, n ≠ NLink a t) -> same_links fs (<[p := n]> fs).
Proof.
  intros Hp Hn. split; [|rewrite dom_insert; set_solver]. intros q a t. destruct (decide (p = q)) as [<-|].
  - rewrite lookup_insert_eq. split; [intros [= ->]; by destruct (Hn a t)|by intros ?%Hp].
  - by rewrite lookup_insert_ne.
Qed.

Lemma mkdir_from_same_links fs cur rest fs' r : mkdir_from fs cur rest = (fs', r) -> same_links fs fs'.
Proof.
  revert fs cur. induction rest as [|c rest IH]; intros fs cur; cbn [mkdir_from]; [by intros [= <- _]|].
  destruct (fs !! (cur ++ [c])) as [[b| |a t]|] eqn:E; [by intros [= <- _]|apply IH|by intros [= <- _]|].
  intros Hm. etransitivity; [apply (insert_same_links fs (cur ++ [c]) NDir)|by apply (IH _ _ Hm)]; [by rewrite E|done].
Qed.

(** Resolving depends on the links alone. *)
Lemma resolve_from_same_links fuel fuel' fs fs' busy cur rest q :
  same_links fs fs' -> (fuel <= fuel')%nat -> resolve_from fuel fs busy cur rest = Ok q ->
  resolve_from fuel' fs' busy cur rest = Ok q.
Proof.
  intros [Hl _]. revert fuel' busy cur rest q. induction fuel as [|f IHf]; intros fuel' busy cur rest q Hf;
    revert cur; induction rest as [|c rest IH]; intros cur; destruct fuel' as [|f']; try lia; cbn; try done;
    (case_bool_decide; [by apply IH|]); (destruct (str_has _ _); [done|]);
    pose proof (Hl (cur ++ [c])) as Hlc;
    (destruct (fs !! (cur ++ [c])) as [[b| |a t]|] eqn:E;
     [destruct (fs' !! (cur ++ [c])) as [[]|] eqn:E'; try (by apply IH); discriminate (proj1 (Hlc _ _) eq_refl)
     |destruct (fs' !! (cur ++ [c])) as [[]|] eqn:E'; try (by apply IH); discriminate (proj1 (Hlc _ _) eq_refl)
     |rewrite (proj2 (Hlc a t) eq_refl)
     |destruct (fs' !! (cur ++ [c])) as [[]|] eqn:E'; try (by apply IH); discriminate (proj1 (Hlc _ _) eq_refl)]);
    (case_bool_decide; [done|]); try done.
  destruct (resolve_from f _ _ _ _) as [q'|] eqn:Eq; cbn [mbind result_bind]; [|done].
  rewrite (IHf f' _ _ _ _ ltac:(lia) Eq). cbn [mbind result_bind]. apply IH.
Qed.

Lemma resolve_same_links fs fs' base s q : same_links fs fs' -> resolve fs base s = Ok q -> resolve fs' base s = Ok q.
Proof.
  intros Hs. apply resolve_from_same_links; [done|]. rewrite <- !size_dom. by apply subseteq_size, Hs.
Qed.

Lemma universal_newlines_id s : str_has (chr 13) s = false -> universal_newlines s = s.
Proof.
  induction s as [|c s IH]; [done|]. cbn -[chr]. intros [Hc Hs]%orb_false_iff. change (ord (chr 13)) with 13%Z in Hc.
  by rewrite Hc, IH.
Qed.

(** ** The effect of an action *)

Section Effects.
Context `{Hashlib, Rfc8785, Difflib}.
Variable self : FileAgent.

Definition text_digest (s : string) : string := digest (utf8_encode s).

(** The file system with a change record, a file directly in the backup directory. *)
Definition with_record (name : string) (record : bytes) (fs : FS) : FS :=
  <[fg_backup self ++ [name] := NFile record]> fs.

(** What each action does to the files and reports, [p] being the path it resolved. *)
Inductive effect (plan : ActionPlan) (p : path) (fs : FS) : FS -> ActionResult -> Prop :=
| effect_read text :
    ap_action_type plan = "file.read" -> read_text fs p = Ok text ->
    effect plan p fs fs
      (mkActionResult true (Some (path_str p)) [("path", JStr (path_str p)); ("content", JStr text)]
        [("path", JStr (path_str p)); ("before_hash", JStr (text_digest text)); ("after_hash", JStr (text_digest text))])
| effect_create content fs1 name record :
    ap_action_type plan = "file.create" -> exists_ fs p = false ->
    dict_get "content" (ap_payload plan) = Some (JStr content) -> mkdirs fs (parent p) = (fs1, Ok tt) ->
    effect plan p fs (with_record name record (<[p := NFile (utf8_encode content)]> fs1))
      (change_result p None (Some (text_digest content)) (path_str (fg_backup self ++ [name])))
| effect_update before patch after name :
    ap_action_type plan = "file.update" -> read_text fs p = Ok before ->
    dict_get "patch" (ap_payload plan) = Some (JStr patch) -> apply_unified_diff before patch = Ok after ->
    effect plan p fs
      (<[p := NFile (utf8_encode after)]>
         (with_record name (utf8_encode (str_join "" (unified_diff (splitlines_keep before) (splitlines_keep after)
            (path_str p) (path_str p)))) fs))
      (change_result p (Some (text_digest before)) (Some (text_digest after)) (path_str (fg_backup self ++ [name])))
| effect_delete before name record :
    ap_action_type plan = "file.delete" -> ap_confirmed plan = true -> read_text fs p = Ok before ->
    effect plan p fs (delete p (with_record name record fs))
      (change_result p (Some (text_digest before)) None (path_str (fg_backup self ++ [name])))
| effect_rename d destination content fs1 fs2 name record after :
    ap_action_type plan = "file.rename" -> dict_get "destination" (ap_payload plan) = Some (JStr d) ->
    resolve fs (fg_workspace self) d = Ok destination -> fg_workspace self `prefix_of` destination ->
    (exists_ fs destination = true -> ap_confirmed plan = true /\ is_dir fs destination = false) ->
    read_bytes fs p = Ok content -> mkdirs fs (parent destination) = (fs1, Ok tt) ->
    replace (with_record name record fs1) p destination = Ok fs2 -> read_bytes fs2 destination = Ok after ->
    effect plan p fs fs2
      (mkActionResult true (Some (path_str destination))
        [("path", JStr (path_str p)); ("destination", JStr (path_str destination))]
        [("path", JStr (path_str p)); ("destination", JStr (path_str destination)); ("before_hash", JStr (digest content));
         ("after_hash", JStr (digest after)); ("backup_ref", JStr (path_str (fg_backup self ++ [name])))]).

Lemma required_string_ok d k fs fs' s :
  required_string d k fs = (fs', Ok s) -> fs' = fs /\ dict_get k d = Some (JStr s) /\ truthy_str s = true.
Proof.
  unfold required_string. destruct (dict_get k d) as [[| | |x| |]|]; try done.
  destruct (truthy_str x) eqn:E; [|done]. by intros [= <- <-].
Qed.

Lemma resolve_path_ok s fs fs' p :
  resolve_path self s fs = (fs', Ok p) -> fs' = fs /\ resolve fs (fg_workspace self) s = Ok p /\ fg_workspace self `prefix_of` p.
Proof. unfold resolve_path. intros E. run_inv. case_bool_decide; [run_inv|]; done. Qed.

(** A change record is written in the backup directory. *)
Lemma record_ok plan p before after fs fs' ref :
  agent_ok self fs -> write_change_record self plan p before after fs = (fs', Ok ref) ->
  exists name record, fs' = with_record name record fs /\ ref = path_str (fg_backup self ++ [name]) /\
    forall b a, before = Some b -> after = Some a ->
      record = utf8_encode (str_join "" (unified_diff (splitlines_keep b) (splitlines_keep a) (path_str p) (path_str p))).
Proof.
  intros Ha E. unfold write_change_record in E. run_inv. rewrite (record_follow self) in E0 by done. run_inv.
  apply write_bytes_inv in E1 as [-> _]. do 2 eexists. split_and!; [done|done|]. by intros b a -> ->.
Qed.

Lemma triple_run {A : Type} (P : FS -> Prop) (m : FM A) Q fs fs' r :
  triple (agent_ok self) (sandboxed self) P m Q -> agent_ok self fs -> P fs -> m fs = (fs', r) ->
  sandboxed self fs fs' /\ agent_ok self fs' /\ forall a, r = Ok a -> Q a fs'.
Proof. intros Ht Ha Hp. by apply Ht. Qed.

Ltac action_inv := repeat (progress (run_inv; try match goal with
  | E : required_string _ _ _ = (_, Ok _) |- _ =>
      let Hs := fresh "Hs" in let Ht := fresh "Htr" in apply required_string_ok in E as (-> & Hs & Ht)
  | E : resolve_path _ _ _ = (_, Ok _) |- _ =>
      let Hr := fresh "Hr" in let Hp := fresh "Hp" in apply resolve_path_ok in E as (-> & Hr & Hp)
  | E : mkdirs _ _ = (_, Ok ?u) |- _ => is_var u; destruct u
  end)).

Lemma create_effect plan p fs fs' res :
  agent_ok self fs -> inside self p fs -> ap_action_type plan = "file.create" ->
  execute_create self plan p fs = (fs', Ok res) -> effect plan p fs fs' res.
Proof.
  intros Ha Hi Ht E. unfold execute_create in E. action_inv.
  match goal with Em : mkdirs _ _ = _, Ew : write_text ?f _ ?c = Ok _, Er : write_change_record _ _ _ _ _ _ = _ |- _ =>
    destruct (triple_run _ _ _ _ _ _ (mkdirs_parent_triple self p) Ha Hi Em) as (_ & Ha2 & Hi2);
    destruct (triple_run _ _ _ _ _ _ (write_inside self p c) Ha2 (Hi2 () eq_refl)
      ltac:(unfold changes; by rewrite Ew)) as (_ & Ha3 & _);
    apply (record_ok _ _ _ _ _ _ _ Ha3) in Er as (name & record & -> & -> & _);
    apply write_bytes_inv in Ew as (-> & _) end.
  apply effect_create; try done. by apply negb_true_iff.
Qed.

Lemma update_effect plan p fs fs' res :
  agent_ok self fs -> ap_action_type plan = "file.update" ->
  execute_update self plan p fs = (fs', Ok res) -> effect plan p fs fs' res.
Proof.
  intros Ha Ht E. unfold execute_update in E. action_inv.
  match goal with Ew : write_text _ _ _ = Ok _, Er : write_change_record _ _ _ _ _ _ = _ |- _ =>
    apply (record_ok _ _ _ _ _ _ _ Ha) in Er as (name & record & -> & -> & Hrec);
    apply write_bytes_inv in Ew as (-> & _) end.
  rewrite (Hrec _ _ eq_refl eq_refl). by eapply effect_update.
Qed.

Lemma delete_effect plan p fs fs' res :
  agent_ok self fs -> ap_action_type plan = "file.delete" ->
  execute_delete self plan p fs = (fs', Ok res) -> effect plan p fs fs' res.
Proof.
  intros Ha Ht E. unfold execute_delete in E. action_inv.
  match goal with Eu : unlink _ _ = Ok _, Er : write_change_record _ _ _ _ _ _ = _ |- _ =>
    apply (record_ok _ _ _ _ _ _ _ Ha) in Er as (name & record & -> & -> & _);
    apply unlink_inv in Eu as (-> & _) end.
  by eapply effect_delete.
Qed.

Lemma rename_effect plan p fs fs' res :
  agent_ok self fs -> ap_action_type plan = "file.rename" ->
  execute_rename self plan p fs = (fs', Ok res) -> effect plan p fs fs' res.
Proof.
  intros Ha Ht E. unfold execute_rename in E. action_inv.
  match goal with Em : mkdirs _ (parent ?d) = _, Er : write_change_record _ _ _ _ _ _ = _, Hr : resolve _ _ _ = _ |- _ =>
    destruct (triple_run _ _ _ _ _ _ (mkdirs_parent_triple self d) Ha (resolve_inside self _ _ _ Ha Hr ltac:(done)) Em)
      as (_ & Ha2 & _);
    apply (record_ok _ _ _ _ _ _ _ Ha2) in Er as (name & record & -> & -> & _) end.
  eapply effect_rename; try done. intros Hex.
  repeat match goal with G : negb (_ && _) = true |- _ => rewrite Hex in G; cbn in G end.
  split; [by rewrite negb_involutive in *|by apply negb_true_iff].
Qed.

(** An action that returns had the effect. *)
Lemma execute_effect plan fs fs' res :
  agent_ok self fs -> execute_checked self plan fs = (fs', Ok res) ->
  exists s p, dict_get "path" (ap_payload plan) = Some (JStr s) /\ truthy_str s = true /\
    resolve fs (fg_workspace self) s = Ok p /\ inside self p fs /\ effect plan p fs fs' res.
Proof.
  intros Ha E. unfold execute_checked in E. action_inv.
  match goal with Hr : resolve _ _ ?s = Ok ?p, Hp : _ `prefix_of` ?p |- _ =>
    exists s, p; pose proof (resolve_inside self _ _ _ Ha Hr Hp) as Hi end.
  split_and!; [done..|]. repeat case_bool_decide; [|by apply create_effect|by apply update_effect
    |by apply delete_effect|by apply rename_effect|done].
  unfold execute_read in E. action_inv. by eapply effect_read.
Qed.

Lemma effect_success plan p fs fs' res : effect plan p fs fs' res -> ar_success res = true.
Proof. by destruct 1. Qed.

(** The run of an authorised plan is the run of its action. *)
Lemma authorised_run plan poi fs :
  authorised self plan poi ->
  file_execute self plan poi fs = catch_file_error (fun exc => failure (exn_msg exc)) (execute_checked self plan) fs.
Proof.
  intros (G1 & G2 & G3 & G4 & G5 & G6). unfold file_execute. rewrite !bool_decide_eq_true_2 by done.
  unfold mbind, SM_bind, lift. rewrite G5. cbn [negb]. by rewrite !bool_decide_eq_true_2 by done.
Qed.

(** After a creation, the path resolves as before and holds the content. *)
Lemma created_again plan s p fs fs' res :
  agent_ok self fs -> inside self p fs -> resolve fs (fg_workspace self) s = Ok p ->
  ap_action_type plan = "file.create" -> ~ fg_backup self `prefix_of` p -> effect plan p fs fs' res ->
  resolve fs' (fg_workspace self) s = Ok p /\
  exists content, dict_get "content" (ap_payload plan) = Some (JStr content) /\
    fs' !! p = Some (NFile (utf8_encode content)).
Proof.
  intros (_ & _ & _ & _ & _ & _ & Hb) Hi Hr Ht Hp Hx. destruct Hx as [|content fs1 name record _ _ Hc Hm| | |]; try congruence.
  pose proof (mkdir_from_same_links _ _ _ _ _ Hm) as Hs1. split.
  - apply (resolve_same_links fs); [|done]. etransitivity; [exact Hs1|]. unfold with_record.
    assert (forall a t, fs1 !! p ≠ Some (NLink a t)) as Hpl by by (intros a t E%Hs1; apply Hi in E).
    etransitivity; [by apply (insert_same_links fs1 p (NFile (utf8_encode content)))|].
    apply insert_same_links; [|done]. intros a t. rewrite lookup_insert_ne.
    + intros E%Hs1. apply Hb in E; [done|by apply prefix_app_r].
    + intros ->. apply Hp. by apply prefix_app_r.
  - exists content. split; [done|]. unfold with_record. rewrite lookup_insert_ne, lookup_insert_eq; [done|].
    intros <-. apply Hp. by apply prefix_app_r.
Qed.

(** ** Planning *)

Lemma nonblank_spec j s : nonblank j = Some s -> truthy_str (str_strip s) = true.
Proof. unfold nonblank. repeat case_match; naive_solver. Qed.

(** What a planned request looks like. *)
Definition planned (fs : FS) (plan : ActionPlan) : Prop :=
  ap_agent_type plan = "file" /\ ap_agent_id plan = Some (fg_agent_id self) /\ ap_action_type plan ∈ capabilities /\
  ap_policy_decision plan = "allow" /\ ap_confirmed plan = false /\
  (exists s, dict_get "path" (ap_payload plan) = Some (JStr s) /\ truthy_str (str_strip s) = true) /\
  (ap_action_type plan = "file.create" -> exists s, dict_get "content" (ap_payload plan) = Some (JStr s)) /\
  (ap_action_type plan = "file.update" -> exists s, dict_get "patch" (ap_payload plan) = Some (JStr s)) /\
  (ap_action_type plan = "file.rename" -> exists d destination,
     dict_get "destination" (ap_payload plan) = Some (JStr d) /\ truthy_str (str_strip d) = true /\
     resolve fs (fg_workspace self) d = Ok destination /\ fg_workspace self `prefix_of` destination /\
     ap_requires_confirmation plan = exists_ fs destination) /\
  (ap_action_type plan = "file.delete" -> ap_requires_confirmation plan = true) /\
  (ap_action_type plan ∈ ["file.read"; "file.create"; "file.update"] -> ap_requires_confirmation plan = false).

Lemma planned_init (action : string) payload confirmation plan :
  ActionPlan_init (mkActionPlan "file" (Some (fg_agent_id self)) action payload confirmation false "allow") = Ok plan ->
  plan = mkActionPlan "file" (Some (fg_agent_id self)) action payload confirmation false "allow".
Proof.
  unfold ActionPlan_init. cbn [ap_policy_decision ap_agent_type ap_agent_id ap_action_type ap_payload ap_requires_confirmation ap_confirmed].
  change (str_strip "allow") with "allow". case_match; [by intros [= <-]|done].
Qed.

Lemma only_renames_and_deletions (action : string) :
  action = "file.rename" \/ action = "file.delete" -> action ∉ ["file.read"; "file.create"; "file.update"].
Proof. by intros [-> | ->]; apply (bool_decide_unpack _). Qed.

Lemma file_plan_planned request context fs fs' plan :
  file_plan self request context fs = (fs', Ok plan) -> fs' = fs /\ planned fs plan.
Proof.
  unfold file_plan. case_match; [done|]. cbv zeta. case_match; try done. rename s into action. case_match; [done|].
  match goal with E : negb (bool_decide _) = false |- _ =>
    apply negb_false_iff, bool_decide_eq_true in E; rename E into Hcap end.
  destruct (nonblank (get_or "path" _ _)) as [s|] eqn:Es; [|done]. apply nonblank_spec in Es. clear H2 H3.
  pose proof Hcap as Hin. unfold capabilities in Hcap. rewrite !elem_of_cons in Hcap.
  destruct Hcap as [->|[->|[->|[->|[->|Hcap]]]]]; [..|by apply not_elem_of_nil in Hcap];
    repeat first [rewrite bool_decide_eq_true_2 by done|rewrite bool_decide_eq_false_2 by discriminate]; intros E;
    action_inv; (apply planned_init in E as ->).
  4: { destruct (nonblank _) as [d|] eqn:Ed; [|done]. apply nonblank_spec in Ed. run_inv.
       change (dict_get "destination" _) with (Some (JStr d)) in E1. cbv iota in E1. action_inv.
       split; [done|]. unfold planned. cbn. split_and!; try done; [by eauto|by intros _; exists d; eauto 10|].
       by intros ?%only_renames_and_deletions; auto. }
  all: try case_match; try done; run_inv.
  all: split; [done|]; unfold planned; cbn; split_and!; try done; try by eauto.
  by intros ?%only_renames_and_deletions; auto.
Qed.

End Effects.

(** ** Failures *)

(** A computation whose errors the agent does not catch. *)
Definition uncaught {A : Type} (m : FM A) : Prop :=
  forall fs fs' e, m fs = (fs', Raise e) -> catches [FileAgentError] e = false.

(** An error the agent catches has changed nothing. *)
Definition undisturbed {A : Type} (m : FM A) : Prop :=
  forall fs fs' e, m fs = (fs', Raise e) -> catches [FileAgentError] e = true -> fs' = fs.

Lemma pure_undisturbed {A : Type} (m : FM A) : pure m -> undisturbed m.
Proof. intros Hp fs fs' e E _. by apply Hp in E. Qed.

Lemma uncaught_undisturbed {A : Type} (m : FM A) : uncaught m -> undisturbed m.
Proof. intros Hu fs fs' e E. by rewrite (Hu _ _ _ E). Qed.

Lemma undisturbed_bind {A B : Type} (m : FM A) (f : A -> FM B) :
  pure m -> (forall a, undisturbed (f a)) -> undisturbed (m ≫= f).
Proof.
  intros Hm Hf fs fs' e. unfold mbind, SM_bind. destruct (m fs) as [fs1 [a|e1]] eqn:E; apply Hm in E as ->.
  - apply Hf.
  - by intros [= <- <-].
Qed.

Lemma uncaught_bind {A B : Type} (m : FM A) (f : A -> FM B) :
  uncaught m -> (forall a, uncaught (f a)) -> uncaught (m ≫= f).
Proof.
  intros Hm Hf fs fs' e. unfold mbind, SM_bind. destruct (m fs) as [fs1 [a|e1]] eqn:E; [apply Hf|].
  intros [= <- <-]. by apply Hm in E.
Qed.

Lemma uncaught_ret {A : Type} (a : A) : uncaught (mret (M := FM) a).
Proof. by intros fs fs' e. Qed.

Lemma uncaught_reads {A : Type} (f : FS -> result A) :
  (forall fs e, f fs = Raise e -> catches [FileAgentError] e = false) -> uncaught (reads f).
Proof. intros Hf fs fs' e [= <- E]. by apply (Hf fs). Qed.

Lemma uncaught_changes (f : FS -> result FS) :
  (forall fs e, f fs = Raise e -> catches [FileAgentError] e = false) -> uncaught (changes f).
Proof. intros Hf fs fs' e. unfold changes. destruct (f fs) eqn:E; [done|]. intros [= <- <-]. by apply (Hf fs). Qed.

Lemma resolve_from_uncaught fuel fs busy cur rest e :
  resolve_from fuel fs busy cur rest = Raise e -> catches [FileAgentError] e = false.
Proof.
  revert busy cur rest e. induction fuel as [|f IHf]; intros busy cur rest e;
    revert cur; induction rest as [|c rest IH]; intros cur; cbn -[chr str_repr]; try done;
    (case_bool_decide; [by apply IH|]); (destruct (str_has _ _); [by intros [= <-]|]);
    (destruct (fs !! (cur ++ [c])) as [[b| |a t]|]; try apply IH); (case_bool_decide; [by intros [= <-]|]).
  - by intros [= <-].
  - destruct (resolve_from f _ _ _ _) eqn:Eq; cbn [mbind result_bind]; [apply IH|]. intros [= <-]. by apply IHf in Eq.
Qed.

Lemma read_bytes_uncaught fs p e : read_bytes fs p = Raise e -> catches [FileAgentError] e = false.
Proof. unfold read_bytes. destruct (lookup_at fs p) as [[]|]; by intros [= <-]. Qed.

Lemma write_uncaught fs p b e : write_bytes fs p b = Raise e -> catches [FileAgentError] e = false.
Proof. unfold write_bytes. repeat case_match; by intros [= <-]. Qed.

Lemma unlink_uncaught fs p e : unlink fs p = Raise e -> catches [FileAgentError] e = false.
Proof. unfold unlink. repeat case_match; by intros [= <-]. Qed.

Lemma replace_uncaught fs p d e : replace fs p d = Raise e -> catches [FileAgentError] e = false.
Proof. unfold replace. repeat case_match; by intros [= <-]. Qed.

Lemma mkdirs_uncaught p : uncaught (fun fs => mkdirs fs p).
Proof.
  unfold uncaught, mkdirs. generalize (@nil string). induction p as [|c p IH]; intros cur fs fs' e; cbn [mkdir_from]; [done|].
  repeat case_match; by (apply IH || intros [= _ <-]).
Qed.

Section Failures.
Context `{Hashlib, Rfc8785, Difflib}.
Variable self : FileAgent.

Lemma record_uncaught plan p before after : uncaught (write_change_record self plan p before after).
Proof.
  unfold write_change_record. apply uncaught_bind; [apply uncaught_reads; intros; by eapply resolve_from_uncaught|intros q].
  apply uncaught_bind; [apply uncaught_changes; intros ??; apply write_uncaught|done].
Qed.

Lemma resolve_path_pure s : pure (resolve_path self s).
Proof.
  intros fs fs' r. unfold resolve_path, mbind, SM_bind, reads.
  destruct (resolve fs _ s); [case_bool_decide|]; by intros [= <- _].
Qed.

Lemma required_string_pure d k : pure (required_string d k).
Proof. intros fs fs' r. unfold required_string. repeat case_match; by intros [= <- _]. Qed.

Lemma guard_pure (b : bool) msg : pure (S := FS) (guard_file b msg).
Proof. intros fs fs' r. destruct b; by intros [= <- _]. Qed.

Ltac failure_steps := repeat
  (apply undisturbed_bind;
      [by (apply pure_reads || apply pure_lift || apply guard_pure || apply required_string_pure || apply resolve_path_pure)|intros ?]).

Ltac uncaught_steps := repeat first
  [ apply uncaught_bind;
      [first [apply mkdirs_uncaught | apply record_uncaught
        | apply uncaught_changes; intros ??; first [apply write_uncaught|apply unlink_uncaught|apply replace_uncaught]
        | apply uncaught_reads; intros ??; apply read_bytes_uncaught]|intros ?]
  | apply uncaught_ret ].

(** An action that fails in a way the agent reports has changed nothing. *)
Lemma execute_undisturbed plan : undisturbed (execute_checked self plan).
Proof.
  unfold execute_checked. failure_steps. repeat case_bool_decide.
  - unfold execute_read. failure_steps. apply uncaught_undisturbed. uncaught_steps.
  - unfold execute_create. failure_steps. apply uncaught_undisturbed. uncaught_steps.
  - unfold execute_update. failure_steps. apply uncaught_undisturbed. uncaught_steps.
  - unfold execute_delete. failure_steps. apply uncaught_undisturbed. uncaught_steps.
  - unfold execute_rename. failure_steps. apply uncaught_undisturbed. uncaught_steps.
  - apply pure_undisturbed, pure_lift.
Qed.

End Failures.

(** ** Theorems *)

Section Theorems.
Context `{Hashlib, Rfc8785, Difflib}.
Variable self : FileAgent.

(** C15. The sandbox: whatever the plan and the proof, executing changes no entry outside the
    workspace and the backup directory, removes no directory and makes no link, and leaves the
    agent's directories as the next execution needs them. *)
Theorem file_agent_sandbox (plan : ActionPlan) (poi : ProofOfIntent) (fs fs' : FS) (r : result ActionResult) :
  agent_ok self fs -> file_execute self plan poi fs = (fs', r) ->
  changed_only_under [fg_workspace self; fg_backup self] fs fs' /\ tame fs fs' /\ agent_ok self fs'.
Proof. intros Ha E. by destruct (file_execute_triple self plan poi fs fs' r Ha I E) as ([Hc Ht] & Ha' & _). Qed.

(** C16. An execution that reports success had a plan for this agent, allowed, whose payload the
    proof of intent commits, resolved its path inside the workspace without following a link
    out of it, and did to the files exactly what the action says. *)
Theorem file_agent_effects (plan : ActionPlan) (poi : ProofOfIntent) (fs fs' : FS) (res : ActionResult) :
  agent_ok self fs -> file_execute self plan poi fs = (fs', Ok res) -> ar_success res = true ->
  authorised self plan poi /\
  exists s p, dict_get "path" (ap_payload plan) = Some (JStr s) /\ truthy_str s = true /\
    resolve fs (fg_workspace self) s = Ok p /\ inside self p fs /\ effect self plan p fs fs' res.
Proof.
  intros Ha E Hs. destruct (success_run self _ _ _ _ _ E Hs) as [Hauth Ex]. split; [done|]. by apply execute_effect.
Qed.

(** C35. An execution that reports a failure, or whose plan the agent may not execute, has changed
    nothing. *)
Theorem file_agent_failure_unchanged (plan : ActionPlan) (poi : ProofOfIntent) (fs fs' : FS) (r : result ActionResult) :
  agent_ok self fs -> file_execute self plan poi fs = (fs', r) ->
  ~ authorised self plan poi \/ (exists res, r = Ok res /\ ar_success res = false) -> fs' = fs.
Proof.
  intros Ha E Hf. destruct (decide (fs' = fs)) as [|Hne]; [done|]. exfalso.
  destruct (file_execute_inv self _ _ _ _ _ E (or_introl Hne)) as (Hauth & _).
  destruct Hf as [Hf|(res & -> & Hf)]; [done|]. rewrite authorised_run in E by done. unfold catch_file_error, catch_errors in E.
  destruct (execute_checked self plan fs) as [fs1 [res1|e]] eqn:Ex.
  - injection E as <- <-. apply execute_effect in Ex as (s & p & _ & _ & _ & _ & Hx); [|done].
    by rewrite (effect_success _ _ _ _ _ _ Hx) in Hf.
  - destruct (catches [FileAgentError] e) eqn:Ec; [|done]. injection E as <- _. apply Hne. by eapply execute_undisturbed.
Qed.

(** C34. A created file is read back: a read of the same path, allowed, returns the content with its
    line ends normalised, which is the content itself when it has no carriage return, and
    changes nothing. *)
Theorem created_file_reads_back (plan rplan : ActionPlan) (poi rpoi : ProofOfIntent) (fs fs1 fs2 : FS)
    (res : ActionResult) (r : result ActionResult) (s p content : _) :
  agent_ok self fs -> file_execute self plan poi fs = (fs1, Ok res) -> ar_success res = true ->
  ap_action_type plan = "file.create" -> dict_get "path" (ap_payload plan) = Some (JStr s) ->
  dict_get "content" (ap_payload plan) = Some (JStr content) ->
  resolve fs (fg_workspace self) s = Ok p -> ~ fg_backup self `prefix_of` p ->
  authorised self rplan rpoi -> ap_action_type rplan = "file.read" -> dict_get "path" (ap_payload rplan) = Some (JStr s) ->
  file_execute self rplan rpoi fs1 = (fs2, r) ->
  fs2 = fs1 /\ exists res', r = Ok res' /\ ar_success res' = true /\
    dict_get "content" (ar_details res') = Some (JStr (universal_newlines content)) /\
    (str_has (chr 13) content = false -> dict_get "content" (ar_details res') = Some (JStr content)).
Proof.
  intros Ha E Hs Ht Hps Hpc Hr Hnb Hauth Hrt Hrp Er.
  destruct (success_run self _ _ _ _ _ E Hs) as [_ Ex].
  apply execute_effect in Ex as (s' & p' & Hps' & Htr & Hr2 & Hi & Hx); [|done].
  assert (s' = s) as -> by congruence. assert (p' = p) as -> by congruence.
  destruct (created_again self plan s p fs fs1 res) as (Hr1 & c & Hc & Hf); [done..|].
  assert (c = content) as -> by congruence. rewrite authorised_run in Er by done.
  assert (p ≠ []) as Hne.
  { intros ->. destruct (file_execute_triple self plan poi _ _ _ Ha I E) as (_ & ((Hr0 & _) & _) & _). congruence. }
  assert (lookup_at fs1 p = Some (NFile (utf8_encode content))) as Hl by by destruct p.
  unfold catch_file_error, catch_errors, execute_checked, required_string, resolve_path in Er. rewrite Hrp, Htr in Er.
  unfold mbind, SM_bind, mret, SM_ret, reads in Er. rewrite Hr1 in Er.
  rewrite bool_decide_eq_true_2 in Er by apply Hi. cbn beta iota in Er. rewrite Hrt, bool_decide_eq_true_2 in Er by done.
  unfold execute_read, mbind, SM_bind, mret, SM_ret, reads, is_file, read_text, read_bytes in Er. rewrite Hl in Er.
  cbn [guard_file] in Er. unfold mret, SM_ret in Er. cbn beta iota in Er. rewrite Hl in Er. cbn [mbind result_bind] in Er.
  rewrite utf8_decode_encode in Er. cbn [mbind result_bind] in Er. injection Er as <- <-.
  split; [done|]. eexists. split_and!; [done|done|done|]. intros Hcr. by rewrite universal_newlines_id.
Qed.

(** What planning answers: it changes nothing, and a plan is for this agent, allowed, not yet
    confirmed, names a file and what its action needs, and requires a confirmation for a
    deletion and for a rename onto something that exists.  Executed as planned, without the
    confirmation, the plan never deletes and never renames onto something. *)
Theorem file_plan_spec (request : string) (context : option dict) (fs fs1 : FS) (plan : ActionPlan) :
  file_plan self request context fs = (fs1, Ok plan) ->
  fs1 = fs /\ planned self fs plan /\
  forall poi fs' res, agent_ok self fs -> file_execute self plan poi fs = (fs', Ok res) -> ar_success res = true ->
    ap_requires_confirmation plan = false /\ ap_action_type plan ≠ "file.delete".
Proof.
  intros [-> Hp]%file_plan_planned. split; [done|]. split; [done|]. intros poi fs' res Ha E Hs.
  destruct (success_run self _ _ _ _ _ E Hs) as [_ Ex].
  apply execute_effect in Ex as (s & p & _ & _ & _ & _ & Hx); [|done].
  destruct Hp as (_ & _ & _ & _ & Hconf & _ & _ & _ & Hren & _ & Hno).
  destruct Hx as [text Ht|content fs2 name record Ht|b pa af name Ht|b name record Ht Hc
    |d destination c fs2 fs3 name record af Ht Hd Hr Hp Hex]; rewrite Ht in *; [..|congruence|].
  1-3: split; [apply Hno|done]; by repeat (left || right).
  split; [|done]. destruct (Hren eq_refl) as (d' & dest' & Hd' & _ & Hr' & _ & ->).
  assert (dest' = destination) as -> by congruence. destruct (exists_ fs destination); [|done].
  destruct (Hex eq_refl) as [Hc _]. congruence.
Qed.

(** A successful update applies the patch to the file's text with its line ends normalised,
    leaves exactly the patched text in the file, and reports the digests of those two texts: for
    a file with carriage returns, the digest before is not that of the file's bytes, and the
    lines the patch does not touch are rewritten too. *)
Theorem update_writes_patched_text (plan : ActionPlan) (poi : ProofOfIntent) (fs fs' : FS) (res : ActionResult)
    (s patch text : string) (p : path) (b : bytes) :
  agent_ok self fs -> file_execute self plan poi fs = (fs', Ok res) -> ar_success res = true ->
  ap_action_type plan = "file.update" -> dict_get "path" (ap_payload plan) = Some (JStr s) ->
  dict_get "patch" (ap_payload plan) = Some (JStr patch) -> resolve fs (fg_workspace self) s = Ok p ->
  fs !! p = Some (NFile b) -> utf8_decode b = Ok text ->
  exists after, apply_unified_diff (universal_newlines text) patch = Ok after /\
    fs' !! p = Some (NFile (utf8_encode after)) /\
    dict_get "before_hash" (ar_observed_effect res) = Some (JStr (text_digest (universal_newlines text))) /\
    dict_get "after_hash" (ar_observed_effect res) = Some (JStr (text_digest after)).
Proof.
  intros Ha E Hs Ht Hps Hpa Hr Hf Hb.
  destruct (success_run self _ _ _ _ _ E Hs) as [_ Ex].
  apply execute_effect in Ex as (s' & p' & Hps' & _ & Hr' & _ & Hx); [|done].
  assert (s' = s) as -> by congruence. assert (p' = p) as -> by congruence.
  destruct Hx as [| |before pa after name _ Hrd Hpa' Hap| |]; try congruence.
  assert (pa = patch) as -> by congruence. exists after.
  assert (before = universal_newlines text) as ->.
  { unfold read_text, read_bytes in Hrd. destruct p as [|c p]; [by rewrite (proj1 (proj1 Ha)) in Hf|].
    cbn [lookup_at] in Hrd. rewrite Hf in Hrd. cbn [mbind result_bind] in Hrd. rewrite Hb in Hrd. by injection Hrd. }
  split_and!; [done|by rewrite lookup_insert_eq|done|done].
Qed.

End Theorems.

(** ** The constructor *)

Lemma mkdirs_ok fs p fs' r :
  fs_ok fs -> mkdirs fs p = (fs', r) ->
  fs_ok fs' /\ tame fs fs' /\ (r = Ok tt -> lookup_at fs' p = Some NDir) /\
  (forall q n, fs !! q = Some n -> fs' !! q = Some n).
Proof.
  intros Hok Hm. destruct (mkdir_from_ok fs [] p fs' r Hok eq_refl Hm) as (G1 & G2 & G3). split_and!; [done..|].
  intros q n Hq. destruct (decide (fs' !! q = fs !! q)) as [->|Hne]; [done|].
  destruct (mkdir_from_inv _ _ _ _ _ Hm q Hne) as (Hn & _). congruence.
Qed.

(** Making the backup directory, where no link is in its place. *)
Lemma mkdirs_link_ok fs p fs' u :
  fs_ok fs -> mkdirs_link fs p = (fs', Ok u) -> (forall a t, fs' !! p ≠ Some (NLink a t)) ->
  fs_ok fs' /\ tame fs fs' /\ lookup_at fs' p = Some NDir /\ (forall q n, fs !! q = Some n -> fs' !! q = Some n).
Proof.
  intros Hok Hm Hno. unfold mkdirs_link in Hm. destruct u.
  assert (forall r, mkdirs fs p = (fs', r) -> r = Ok tt -> fs_ok fs' /\ tame fs fs' /\ lookup_at fs' p = Some NDir /\
    (forall q n, fs !! q = Some n -> fs' !! q = Some n)) as Hd.
  { intros r Hr ->. destruct (mkdirs_ok _ _ _ _ Hok Hr) as (? & ? & ? & ?). split_and!; auto. }
  destruct (fs !! p) as [[b| |a t]|] eqn:E; try (by apply (Hd _ Hm)). injection Hm as <- _. by destruct (Hno a t).
Qed.

(** The constructor: from a well-formed file system it makes the workspace and the backup
    directory, changes no entry that was there, and establishes the invariant of the agent when
    no link is in the backup directory. *)
Theorem FileAgent_init_ok (cwd : path) (workspace_dir : string) (backup_dir : option string) (agent_id : string)
    (fs fs' : FS) (self : FileAgent) :
  fs_ok fs -> clean cwd -> link_free fs cwd ->
  FileAgent_init cwd workspace_dir backup_dir agent_id fs = (fs', Ok self) ->
  (forall p a t, fg_backup self `prefix_of` p -> fs' !! p ≠ Some (NLink a t)) ->
  agent_ok self fs' /\ lookup_at fs' (fg_backup self) = Some NDir /\ truthy_str (str_strip (fg_agent_id self)) = true /\
  (forall p n, fs !! p = Some n -> fs' !! p = Some n).
Proof.
  intros Hok Hcwd Hl E Hb. unfold FileAgent_init in E. run_inv.
  match goal with Em : mkdirs _ ?w = (?f, _), Ew : resolve _ _ _ = Ok ?w |- _ =>
    rename Em into Hmk, Ew into Hres, w into ws, f into fs1 end.
  match goal with Em : mkdirs_link ?f ?b = (?g, _), Eb : _ = (?f, Ok ?b) |- _ =>
    rename Em into Hmb, Eb into Hbk, b into backup, g into fs2, f into fs1' end.
  match goal with Ei : Agent_init _ _ = _ |- _ => rename Ei into Hid end.
  cbn [fg_backup fg_workspace fg_agent_id] in *.
  match type of Hmk with _ = (_, Ok ?u) => destruct u end.
  destruct (mkdirs_ok _ _ _ _ Hok Hmk) as (Hok1 & Ht1 & Hws & Hk1).
  pose proof (resolve_link_free _ _ _ _ (proj1 Hok) Hl Hres) as Hwl. pose proof (resolve_clean _ _ _ _ Hcwd Hres) as Hwc.
  assert (fs1' = fs1 /\ clean backup /\ (link_free fs1 backup \/ backup = ws ++ [".aor_file_backups"])) as (-> & Hbc & Hbl).
  { assert (clean (ws ++ [".aor_file_backups"])) as Hdc by (apply Forall_app; split; [done|by repeat constructor]).
    destruct backup_dir as [b|]; [destruct (truthy_str b)|]; run_inv; split_and!; try done; auto; [by apply (resolve_clean fs1 cwd b)|].
    left. apply (resolve_link_free fs1 cwd b); [apply Hok1|by apply (tame_link_free _ _ _ Ht1)|done]. }
  destruct (mkdirs_link_ok _ _ _ _ Hok1 Hmb) as (Hok2 & Ht2 & Hbd & Hk2); [intros x t; by apply Hb|].
  split_and!; [|done| |auto].
  - split_and!; [done| | |done| |done|done]; cbn [fg_backup fg_workspace].
    + apply (tame_lookup_dir _ _ _ Ht2). auto.
    + apply (tame_link_free _ _ _ Ht2), (tame_link_free _ _ _ Ht1). done.
    + destruct Hbl as [Hbl| ->]; [by apply (tame_link_free _ _ _ Ht2)|]. apply link_free_snoc; [|intros x t; by apply Hb].
      apply (tame_link_free _ _ _ Ht2), (tame_link_free _ _ _ Ht1). done.
  - unfold Agent_init in Hid. destruct (truthy_str (str_strip agent_id)); [done|]. discriminate Hid.
Qed.

(** ** Witnesses *)

Definition is_link (n : node) : bool := match n with NLink _ _ => true | _ => false end.

Lemma agent_ok_intro (self : FileAgent) (fs : FS) :
  fs !! [] = None -> map_Forall (fun p _ => lookup_at fs (parent p) = Some NDir) fs ->
  map_Forall (fun p n => fg_backup self `prefix_of` p \/ p `prefix_of` fg_workspace self \/ p `prefix_of` fg_backup self ->
    is_link n = false) fs ->
  lookup_at fs (fg_workspace self) = Some NDir -> Forall (fun c => c ≠ ".." /\ str_has (chr 0) c = false) (fg_workspace self) ->
  Forall (fun c => c ≠ ".." /\ str_has (chr 0) c = false) (fg_backup self) -> agent_ok self fs.
Proof.
  intros Hr Hp Hl Hd Hw Hb.
  assert (forall p a t, fg_backup self `prefix_of` p \/ p `prefix_of` fg_workspace self \/ p `prefix_of` fg_backup self ->
    fs !! p ≠ Some (NLink a t)) as Hno by (intros p a t Hpre E; by specialize (Hl p _ E Hpre)).
  split_and!; try done.
  - split; [done|]. intros p _ [n Hn]. by apply (Hp p n).
  - intros q a t Hq. apply Hno. auto.
  - intros q a t Hq. apply Hno. auto.
  - intros p a t Hq. apply Hno. auto.
Qed.

Lemma run_ok {A : Type} (d : A) (x : FS * result A) :
  is_ok x.2 = true -> x = (x.1, Ok (match x.2 with Ok a => a | Raise _ => d end)).
Proof. by destruct x as [fs []]. Qed.

Definition demo_difflib : Difflib := {| unified_diff a b f t := ["--- " +:+ f; "+++ " +:+ t] |}.

#[local] Existing Instance demo_hashlib.
#[local] Existing Instance demo_rfc8785.
#[local] Existing Instance demo_difflib.

Definition demo_file_agent : FileAgent := mkFileAgent "file-agent" ["ws"] ["ws"; ".aor_file_backups"].

(** A workspace with a file and a link to a directory outside it. *)
Definition demo_fs : FS :=
  list_to_map [(["ws"], NDir); (["ws"; ".aor_file_backups"], NDir); (["ws"; "a.txt"], NFile (utf8_encode "one"));
               (["ws"; "out"], NLink true ["etc"]); (["etc"], NDir); (["etc"; "passwd"], NFile (utf8_encode "root"))].

Lemma demo_file_agent_ok : agent_ok demo_file_agent demo_fs.
Proof. apply agent_ok_intro; apply (bool_decide_unpack _); vm_compute; exact I. Qed.

Definition demo_file_plan (action : string) (payload : dict) : ActionPlan :=
  mkActionPlan "file" (Some "file-agent") action payload false true "allow".

Definition demo_file_poi (plan : ActionPlan) : ProofOfIntent :=
  mkProofOfIntent "" "" "" (demo_payload_hash (ap_payload plan)) "" "" "" None None (Some (ap_action_type plan)) None None None.

Definition demo_create : ActionPlan := demo_file_plan "file.create" [("path", JStr "notes/b.txt"); ("content", JStr "two")].
Definition demo_read : ActionPlan := demo_file_plan "file.read" [("path", JStr "notes/b.txt")].
Definition demo_escape : ActionPlan := demo_file_plan "file.delete" [("path", JStr "out/passwd")].

Abbreviation demo_file_run plan fs := (@file_execute demo_hashlib demo_rfc8785 demo_difflib demo_file_agent plan (demo_file_poi plan) fs).

Lemma file_agent_sandbox_witness : agent_ok demo_file_agent (demo_file_run demo_create demo_fs).1.
Proof.
  apply (@file_agent_sandbox demo_hashlib demo_rfc8785 demo_difflib demo_file_agent demo_create (demo_file_poi demo_create) demo_fs
    (demo_file_run demo_create demo_fs).1 (demo_file_run demo_create demo_fs).2).
  - exact demo_file_agent_ok.
  - apply surjective_pairing.
Defined.

(** The response of a run. *)
Abbreviation demo_response plan fs := (match (demo_file_run plan fs).2 with Ok a => a | Raise _ => failure "" end).

Lemma demo_create_run :
  demo_file_run demo_create demo_fs = ((demo_file_run demo_create demo_fs).1, Ok (demo_response demo_create demo_fs)).
Proof. apply (run_ok (failure "") (demo_file_run demo_create demo_fs)). vm_compute; reflexivity. Qed.
Lemma demo_create_success : ar_success (demo_response demo_create demo_fs) = true.
Proof. vm_compute; reflexivity. Qed.
Lemma demo_escape_run :
  demo_file_run demo_escape demo_fs = ((demo_file_run demo_escape demo_fs).1, Ok (demo_response demo_escape demo_fs)).
Proof. apply (run_ok (failure "") (demo_file_run demo_escape demo_fs)). vm_compute; reflexivity. Qed.
Lemma demo_escape_fails : ar_success (demo_response demo_escape demo_fs) = false.
Proof. vm_compute; reflexivity. Qed.

Lemma file_agent_effects_witness : authorised demo_file_agent demo_create (demo_file_poi demo_create).
Proof.
  destruct (@file_agent_effects demo_hashlib demo_rfc8785 demo_difflib demo_file_agent demo_create
    (demo_file_poi demo_create) demo_fs (demo_file_run demo_create demo_fs).1 (demo_response demo_create demo_fs)
    demo_file_agent_ok demo_create_run demo_create_success) as [Ha _]. exact Ha.
Defined.

Lemma file_agent_failure_unchanged_witness : (demo_file_run demo_escape demo_fs).1 = demo_fs.
Proof.
  apply (@file_agent_failure_unchanged demo_hashlib demo_rfc8785 demo_difflib demo_file_agent demo_escape (demo_file_poi demo_escape) demo_fs
    (demo_file_run demo_escape demo_fs).1 (Ok (demo_response demo_escape demo_fs)) demo_file_agent_ok
    demo_escape_run).
  right. exists (demo_response demo_escape demo_fs). split; [reflexivity|exact demo_escape_fails].
Defined.

Lemma created_file_reads_back_witness :
  (demo_file_run demo_read (demo_file_run demo_create demo_fs).1).1 = (demo_file_run demo_create demo_fs).1.
Proof.
  apply (@created_file_reads_back demo_hashlib demo_rfc8785 demo_difflib demo_file_agent demo_create demo_read (demo_file_poi demo_create) (demo_file_poi demo_read)
    demo_fs (demo_file_run demo_create demo_fs).1 (demo_file_run demo_read (demo_file_run demo_create demo_fs).1).1
    (demo_response demo_create demo_fs) (demo_file_run demo_read (demo_file_run demo_create demo_fs).1).2
    "notes/b.txt" ["ws"; "notes"; "b.txt"] "two" demo_file_agent_ok demo_create_run demo_create_success).
  - reflexivity.
  - reflexivity.
  - reflexivity.
  - vm_compute; reflexivity.
  - apply (bool_decide_unpack _). vm_compute. exact I.
  - unfold authorised. split_and!; try (vm_compute; reflexivity); [by right|apply (bool_decide_unpack _); vm_compute; exact I|by right].
  - reflexivity.
  - reflexivity.
  - apply surjective_pairing.
Defined.

Definition demo_rename_request : string := "please rename file a.txt to out.txt".

Abbreviation demo_rename_run := (file_plan demo_file_agent demo_rename_request None demo_fs).
Abbreviation demo_rename := (match demo_rename_run.2 with Ok p => p | Raise _ => demo_read end).

Lemma demo_rename_ok : demo_rename_run = (demo_rename_run.1, Ok demo_rename).
Proof. apply (run_ok demo_read demo_rename_run). vm_compute; reflexivity. Qed.

Lemma file_plan_spec_witness : planned demo_file_agent demo_fs demo_rename.
Proof.
  destruct (@file_plan_spec demo_hashlib demo_rfc8785 demo_difflib demo_file_agent demo_rename_request None demo_fs
    demo_rename_run.1 demo_rename demo_rename_ok) as (_ & Hp & _). exact Hp.
Defined.

Lemma FileAgent_init_ok_witness :
  agent_ok (mkFileAgent "file-agent" ["home"; "ws"] ["home"; "ws"; ".aor_file_backups"])
    (FileAgent_init ["home"] "ws" None "file-agent" ∅).1.
Proof.
  apply (FileAgent_init_ok ["home"] "ws" None "file-agent" ∅).
  - split; [reflexivity|]. intros p _ [n Hn]. discriminate Hn.
  - constructor; [split; [discriminate|vm_compute; reflexivity]|constructor].
  - intros q a t _ Hq. discriminate Hq.
  - vm_compute; reflexivity.
  - assert (map_Forall (fun _ n => is_link n = false)
      (FileAgent_init ["home"] "ws" None "file-agent" ∅).1) as Hno by (apply (bool_decide_unpack _); vm_compute; exact I).
    intros p a t _ Hp. discriminate (Hno _ _ Hp).
Defined.

(** A file with carriage returns, and a patch of its first line. *)
Definition crlf : string := String (chr 13) nl.
Definition demo_crlf_fs : FS := <[["ws"; "c.txt"] := NFile (utf8_encode ("one" +:+ (crlf +:+ ("two" +:+ crlf))))]> demo_fs.
Definition demo_crlf_update : ActionPlan :=
  demo_file_plan "file.update" [("path", JStr "c.txt");
    ("patch", JStr ("@@ -1 +1 @@" +:+ (nl +:+ ("-one" +:+ (nl +:+ ("+ONE" +:+ nl))))))].

Lemma demo_crlf_run :
  demo_file_run demo_crlf_update demo_crlf_fs = ((demo_file_run demo_crlf_update demo_crlf_fs).1, Ok (demo_response demo_crlf_update demo_crlf_fs)).
Proof. apply (run_ok (failure "") (demo_file_run demo_crlf_update demo_crlf_fs)). vm_compute; reflexivity. Qed.

Lemma update_writes_patched_text_witness :
  (demo_file_run demo_crlf_update demo_crlf_fs).1 !! ["ws"; "c.txt"] =
    Some (NFile (utf8_encode ("ONE" +:+ (nl +:+ ("two" +:+ nl))))).
Proof.
  assert (agent_ok demo_file_agent demo_crlf_fs) as Hok
    by (apply agent_ok_intro; apply (bool_decide_unpack _); vm_compute; exact I).
  destruct (@update_writes_patched_text demo_hashlib demo_rfc8785 demo_difflib demo_file_agent demo_crlf_update (demo_file_poi demo_crlf_update) demo_crlf_fs
    (demo_file_run demo_crlf_update demo_crlf_fs).1 (demo_response demo_crlf_update demo_crlf_fs)
    "c.txt" ("@@ -1 +1 @@" +:+ (nl +:+ ("-one" +:+ (nl +:+ ("+ONE" +:+ nl)))))
    ("one" +:+ (crlf +:+ ("two" +:+ crlf))) ["ws"; "c.txt"] (utf8_encode ("one" +:+ (crlf +:+ ("two" +:+ crlf)))) Hok
    demo_crlf_run)
    as (after & Eap & Ef & _).
  - vm_compute; reflexivity.
  - reflexivity.
  - reflexivity.
  - reflexivity.
  - vm_compute; reflexivity.
  - reflexivity.
  - vm_compute; reflexivity.
  - rewrite Ef. vm_compute in Eap. injection Eap as <-. vm_compute; reflexivity.
Defined.
