(* ===== verification/DatabaseAgent.v ===== *)
(** * aor/agents/database.py: the database agent

    SQLite is an interface: it answers a request (opening a connection, executing a statement,
    leaving the [with] block) as a function of the file system and of the requests before, and
    may change the file system.  The requests of an execution are logged, so that what the agent
    sends can be stated.

    The theorems, in [DatabaseSafety.v]: the agent only ever sends an approved template on a read-only connection, or
    creates a table whose statement is built from checked identifiers; registering keeps the
    templates single read-only queries; a database is created only as a new file directly in the
    workspace; a planned creation passes the checks of its execution. *)

From S2P Require Import Prelude PyStr Json JsonText Crypto Instances Ledger Verifier Registry Poi AgentBase Executor Regex.
From S2P Require Import FileSystem StateMonad.

(** ** Requests to SQLite *)

Inductive Request :=
| Connect (target : string) (uri : bool)
| Execute (sql : string) (params : json)
| Leave (failed : bool).

(** The answer to a request after others: the rows of a statement, as dictionaries. *)
Class SqliteConnection := { sqlite_answer : FS -> list Request -> Request -> FS * result (list dict) }.

(** ** The agent *)

Record DatabaseAgent := mkDatabaseAgent {
  db_agent_id : string;
  db_databases : list (string * path);
  db_workspace_dir : option path;
  db_templates : list (string * string);
}.

Definition db_capabilities : list string := ["db.query"; "db.create"; "db.create_table"].

Definition DEFAULT_TEMPLATES : list (string * string) :=
  [("list_tables", "SELECT name FROM sqlite_master WHERE type = 'table' ORDER BY name");
   ("prompt_history", "SELECT id, user_id, prompt, action_id, created_at FROM prompt_records WHERE user_id = ? ORDER BY created_at DESC LIMIT ?")].

Definition DatabaseAgent_init (cwd : path) (fs : FS) (databases : list (string * string)) (workspace_dir : option string)
    (agent_id : string) : result DatabaseAgent :=
  _ ← Agent_init agent_id "database";
  dbs ← mapM_result (fun np => p ← resolve fs cwd np.2; Ok (np.1, p)) databases;
  ws ← match workspace_dir with Some w => p ← resolve fs cwd w; Ok (Some p) | None => Ok None end;
  Ok (mkDatabaseAgent agent_id dbs ws DEFAULT_TEMPLATES).

Definition set_databases (self : DatabaseAgent) (d : list (string * path)) : DatabaseAgent :=
  mkDatabaseAgent (db_agent_id self) d (db_workspace_dir self) (db_templates self).

Definition register_database (cwd : path) (fs : FS) (self : DatabaseAgent) (name p : string) : result DatabaseAgent :=
  _ ← raise_if (negb (truthy_str name) || negb (truthy_str (str_strip name))) DatabaseAgentError "database_name_required";
  resolved ← resolve fs cwd p;
  _ ← raise_if (negb (is_file fs resolved)) DatabaseAgentError "registered_database_not_found";
  Ok (set_databases self (dict_set name resolved (db_databases self))).

(** A letter, then at most [n] letters, digits and characters of [more]. *)
Definition identifier (more : string) (n : nat) : regex :=
  Cat (Class_ is_alpha_ascii) (Rep (fun c => is_alpha_ascii c || is_digit c || char_in more c) 0 (Some n)).

Definition register_template (self : DatabaseAgent) (name sql : string) : result DatabaseAgent :=
  _ ← raise_if (negb (truthy_str name) || negb (bool_decide (is_Some (re_fullmatch (identifier "_" 63) name))))
        DatabaseAgentError "invalid_template_name";
  let normalized := str_lower (str_strip sql) in
  _ ← raise_if (str_contains ";" sql || negb (str_startswith "select " normalized || str_startswith "with " normalized))
        DatabaseAgentError "only_single_read_only_select_templates_are_allowed";
  Ok (mkDatabaseAgent (db_agent_id self) (db_databases self) (db_workspace_dir self)
        (dict_set name (str_strip sql) (db_templates self))).

Definition database_words : list string := ["database"; "sqlite"; "query"; "records"; "table"; "sql"].

Definition db_can_handle (request : string) : bool :=
  truthy_str request && bool_decide (is_Some (re_search (keywords database_words) request)).

(** ** Reading a request *)

(** [request.rsplit("]", 1)[-1]]. *)
Fixpoint after_last (c : ascii) (s : string) : string :=
  match s with
  | EmptyString => EmptyString
  | String x s' => if str_has c s then if str_has c s' then after_last c s' else s' else s
  end.

Definition active_request (request : string) : string :=
  if str_has "]"%char request then str_strip (after_last "]"%char request) else str_strip request.

(** [create], spaces, an optional article, and the word. *)
Definition create_words (what : string) (rest : regex) : regex :=
  Cat WordBoundary (Cat (literal same_letter "create") (Cat (Plus is_space)
    (Cat (Opt (Cat (literal same_letter "a") (Plus is_space))) (Cat (literal same_letter what) rest)))).

Definition db_action_type_from_request (request : string) : string :=
  if bool_decide (is_Some (re_search (create_words "table" WordBoundary) request)) then "db.create_table"
  else if bool_decide (is_Some (re_search (create_words "database" WordBoundary) request)) then "db.create" else "db.query".

Definition quote_mark (c : ascii) : bool := char_in "`'" c || char_is (chr 34) c.

(** Spaces, a quote or none, and group 1: a database name. *)
Definition spaced_name : regex :=
  Cat (Plus is_space) (Cat (Rep quote_mark 0 (Some 1%nat)) (Group 1 (identifier "_-" 62))).

Definition named_pattern : regex :=
  Cat WordBoundary (Cat (literal same_letter "database") (Cat (Plus is_space)
    (Cat (alternatives same_letter ["named"; "called"]) spaced_name))).

Definition in_pattern : regex := Cat WordBoundary (Cat (literal same_letter "in") spaced_name).

Definition database_name_from_request (request : string) : option string :=
  match re_search named_pattern request with
  | Some g => group 1 g
  | None => match re_search (create_words "database" spaced_name) request with
            | Some g => group 1 g
            | None => re_search in_pattern request ≫= group 1
            end
  end.

Definition table_pattern : regex :=
  Cat WordBoundary (Cat (literal same_letter "table") (Cat (Plus is_space)
    (Group 1 (Cat (Class_ is_alpha_ascii) (Star (fun c => is_alpha_ascii c || is_digit c || char_in "_" c)))))).

Definition table_name_from_request (request : string) : option string := re_search table_pattern request ≫= group 1.

Definition template_from_request (request : string) : string :=
  let lowered := str_lower request in
  if str_contains "table" lowered then "list_tables"
  else if str_contains "history" lowered || str_contains "prompt" lowered || str_contains "record" lowered
  then "prompt_history" else "list_tables".

Definition valid_identifier (value : string) : bool := bool_decide (is_Some (re_fullmatch (identifier "_" 62) value)).

(** [str.upper] of one code point below 256, but for the sharp s, the micro sign and the y with
    diaeresis, whose upper case is not one code point below 256; none has an ASCII one but the
    first, two capital S. *)
Definition upper_char (c : ascii) : string :=
  let n := ord c in
  if ((97 <=? n) && (n <=? 122) || (224 <=? n) && (n <=? 254) && negb (n =? 247))%Z then String (chr (n - 32)) EmptyString
  else if (n =? 223)%Z then "SS" else String c EmptyString.

Fixpoint str_upper (s : string) : string :=
  match s with EmptyString => EmptyString | String c s' => upper_char c +:+ str_upper s' end.

Definition column_types : list string := ["INTEGER"; "REAL"; "TEXT"; "BLOB"; "NUMERIC"].

(** [str(column.get(k, ""))]. *)
Definition column_str (k : string) (column : dict) : string :=
  match dict_get k column with Some v => py_str v | None => "" end.

Definition validate_column (column : json) : result unit :=
  match column with
  | JObj c =>
      _ ← raise_if (negb (valid_identifier (column_str "name" c))) DatabaseAgentError "invalid_column_name";
      raise_if (negb (bool_decide (str_upper (column_str "type" c) ∈ column_types))) DatabaseAgentError "invalid_column_type"
  | _ => raise DatabaseAgentError "invalid_column_name"
  end.

(** The columns, when the check passes. *)
Definition validate_columns (columns : json) : result (list json) :=
  match columns with
  | JList ((_ :: _) as l) => _ ← mapM_result validate_column l; Ok l
  | _ => raise DatabaseAgentError "columns_required"
  end.

Definition dq : string := String (chr 34) EmptyString.

Definition column_sql (column : json) : result string :=
  match column with
  | JObj c =>
      name ← dict_item "name" c; ty ← dict_item "type" c;
      Ok (dq +:+ (py_str name +:+ (dq +:+ (" " +:+ (str_upper (py_str ty) +:+
            match dict_get "primary_key" c with Some v => if json_truthy v then " PRIMARY KEY" else "" | None => "" end)))))
  | _ => raise TypeError "column"
  end.

Definition create_table_sql (table : string) (definitions : list string) : string :=
  "CREATE TABLE " +:+ (dq +:+ (table +:+ (dq +:+ (" (" +:+ (str_join ", " definitions +:+ ")"))))).

Definition EXISTS_SQL : string := "SELECT 1 FROM sqlite_master WHERE type = 'table' AND name = ?".

(** ** Planning *)

(** [key in d], for a key that came from a context. *)
Definition key_in {V : Type} (key : json) (d : list (string * V)) : result bool :=
  match key with
  | JStr k => Ok (bool_decide (is_Some (dict_get k d)))
  | JList _ => raise TypeError "unhashable type: 'list'"
  | JObj _ => raise TypeError "unhashable type: 'dict'"
  | _ => Ok false
  end.

Definition database_from_request (self : DatabaseAgent) (request : string) : option string :=
  match list_find (fun np => is_Some (re_search (Cat WordBoundary (Cat (literal char_is np.1) WordBoundary)) request))
          (db_databases self) with
  | Some (_, np) => Some np.1
  | None => fst <$> head (db_databases self)
  end.

Definition default_columns : json := JList [JObj [("name", JStr "id"); ("type", JStr "INTEGER"); ("primary_key", JBool true)]].

Definition db_make_plan (self : DatabaseAgent) (action_type : string) (payload : dict) : result ActionPlan :=
  ActionPlan_init (mkActionPlan "database" (Some (db_agent_id self)) action_type payload false false "allow").

Definition plan_create (fs : FS) (self : DatabaseAgent) (values : dict) (request : string) : result ActionPlan :=
  match get_or "name" values (opt_str (database_name_from_request request)) with
  | JStr name =>
      _ ← raise_if (negb (bool_decide (is_Some (re_fullmatch (identifier "_-" 62) name)))) DatabaseAgentError "database_name_required";
      match db_workspace_dir self with
      | None => raise DatabaseAgentError "database_workspace_not_configured"
      | Some ws =>
          p ← resolve fs ws (name +:+ ".sqlite3");
          _ ← raise_if (negb (bool_decide (parent p = ws))) DatabaseAgentError "database_path_outside_workspace";
          db_make_plan self "db.create" [("database", JStr name); ("path", JStr (path_str p))]
      end
  | _ => raise DatabaseAgentError "database_name_required"
  end.

Definition plan_create_table (self : DatabaseAgent) (values : dict) (request : string) : result ActionPlan :=
  match get_or "table" values (opt_str (table_name_from_request request)) with
  | JStr table =>
      _ ← raise_if (negb (valid_identifier table)) DatabaseAgentError "table_name_required";
      match get_or "database" values (opt_str (database_name_from_request request)) with
      | JStr database =>
          _ ← raise_if (negb (bool_decide (is_Some (dict_get database (db_databases self))))) DatabaseAgentError "database_not_registered";
          let columns := get_or "columns" values default_columns in
          _ ← validate_columns columns;
          db_make_plan self "db.create_table" [("database", JStr database); ("table", JStr table); ("columns", columns)]
      | _ => raise DatabaseAgentError "database_not_registered"
      end
  | _ => raise DatabaseAgentError "table_name_required"
  end.

Definition plan_query (self : DatabaseAgent) (values : dict) (request : string) : result ActionPlan :=
  let database := get_or "database" values (opt_str (database_from_request self request)) in
  let template := get_or "template" values (JStr (template_from_request request)) in
  let params := match dict_get "params" values with Some v => v | None => JList [] end in
  known ← key_in database (db_databases self);
  _ ← raise_if (negb known) DatabaseAgentError "database_not_registered";
  approved ← key_in template (db_templates self);
  _ ← raise_if (negb approved) DatabaseAgentError "query_template_not_approved";
  match params with
  | JList _ => db_make_plan self "db.query" [("database", database); ("template", template); ("params", params)]
  | _ => raise DatabaseAgentError "query_params_must_be_a_list"
  end.

Definition db_agent_plan (fs : FS) (self : DatabaseAgent) (request : string) (context : option dict) : result ActionPlan :=
  _ ← raise_if (negb (truthy_str request) || negb (truthy_str (str_strip request))) DatabaseAgentError "database_request_empty";
  let active := active_request request in
  let values := default [] context in
  match get_or "action_type" values (JStr (db_action_type_from_request active)) with
  | JStr action_type =>
      if bool_decide (action_type = "db.create") then plan_create fs self values active
      else if bool_decide (action_type = "db.create_table") then plan_create_table self values active
      else plan_query self values active
  | _ => plan_query self values active
  end.

(** ** Executing *)

(** The agent, the file system, and the requests sent to SQLite so far. *)
Record DbState := mkDbState { ds_agent : DatabaseAgent; ds_fs : FS; ds_log : list Request }.

Abbreviation DM := (SM DbState).

Definition db_error {A : Type} (msg : string) : DM A := raiseM DatabaseAgentError msg.

(** The last component's suffix, as [pathlib] has it. *)
Fixpoint last_dot (s : string) : option (string * string) :=
  match s with
  | EmptyString => None
  | String c s' =>
      match last_dot s' with
      | Some (before, after) => Some (String c before, after)
      | None => if char_is "."%char c then Some (EmptyString, s') else None
      end
  end.

Definition path_suffix (p : path) : string :=
  match last_dot (default "" (last p)) with
  | Some (before, after) => if truthy_str before && truthy_str after then "." +:+ after else ""
  | None => ""
  end.

(** A path below [SQLite]'s URI form, opened for reading only. *)
Definition read_only_uri (p : path) : string := "file:" +:+ (path_str p +:+ "?mode=ro").

Section Executing.
Context `{Hashlib, Rfc8785, SqliteConnection}.

Definition request (r : Request) : DM (list dict) := fun s =>
  let '(fs', a) := sqlite_answer (ds_fs s) (ds_log s) r in
  (mkDbState (ds_agent s) fs' (ds_log s ++ [r]), a).

(** Leaving the [with] block, committed or rolled back. *)
Definition leaving {A : Type} (body : DM A) : DM A := fun s =>
  match body s with
  | (s', Ok a) => (_ ← request (Leave false); mret (M := DM) a) s'
  | (s', Raise e) => (_ ← request (Leave true); lift (Raise e)) s'
  end.

(** [with sqlite3.connect(target, uri=uri) as connection: body]. *)
Definition with_connection {A : Type} (target : string) (uri : bool) (body : DM A) : DM A :=
  _ ← request (Connect target uri); leaving body.

Definition db_required_string (payload : dict) (key : string) : DM string :=
  match dict_get key payload with
  | Some (JStr s) => if truthy_str s then mret (M := DM) s else db_error (key +:+ "_required")
  | _ => db_error (key +:+ "_required")
  end.

Definition safe_create_path (cwd : path) (p : string) : DM path := fun s =>
  (s, match db_workspace_dir (ds_agent s) with
      | None => raise DatabaseAgentError "database_workspace_not_configured"
      | Some ws =>
          resolved ← resolve (ds_fs s) cwd p;
          if bool_decide (parent resolved = ws) && bool_decide (path_suffix resolved = ".sqlite3") then Ok resolved
          else raise DatabaseAgentError "database_path_outside_workspace"
      end).

Definition db_mkdirs (p : path) : DM unit := fun s =>
  let '(fs', r) := mkdirs (ds_fs s) p in (mkDbState (ds_agent s) fs' (ds_log s), r).

(** [self._databases[name] = p]. *)
Definition add_database (name : string) (p : path) : DM unit := fun s =>
  (mkDbState (set_databases (ds_agent s) (dict_set name p (db_databases (ds_agent s)))) (ds_fs s) (ds_log s), Ok tt).

Definition lookup_database (name : string) : DM path :=
  reads (fun s => of_option (dict_get name (db_databases (ds_agent s))) KeyError (str_repr name)).

Definition execute_db_create (cwd : path) (payload : dict) : DM ActionResult :=
  name ← db_required_string payload "database";
  text ← db_required_string payload "path";
  p ← safe_create_path cwd text;
  there ← reads (fun s => Ok (exists_ (ds_fs s) p));
  if there : bool then mret (M := DM) (failure "database_already_exists")
  else
    _ ← db_mkdirs (parent p);
    _ ← with_connection (path_str p) false (mret (M := DM) tt);
    _ ← add_database name p;
    let seen := [("database", JStr name); ("path", JStr (path_str p)); ("created", JBool true)] in
    mret (M := DM) (mkActionResult true (Some name) seen seen).

Definition execute_create_table (payload : dict) : DM ActionResult :=
  database ← db_required_string payload "database";
  table ← db_required_string payload "table";
  p ← lookup_database database;
  let columns := default JNull (dict_get "columns" payload) in
  cs ← lift (validate_columns columns);
  _ ← lift (raise_if (negb (valid_identifier table)) DatabaseAgentError "invalid_table_name");
  definitions ← lift (mapM_result column_sql cs);
  refusal ← with_connection (path_str p) false
    (rows ← request (Execute EXISTS_SQL (JList [JStr table]));
     match rows with
     | _ :: _ => mret (M := DM) (Some (failure "table_already_exists"))
     | [] => _ ← request (Execute (create_table_sql table definitions) (JList [])); mret (M := DM) None
     end);
  match refusal with
  | Some f => mret (M := DM) f
  | None => mret (M := DM) (mkActionResult true (Some (database +:+ (":" +:+ table)))
      [("database", JStr database); ("table", JStr table); ("columns", columns); ("created", JBool true)]
      [("database", JStr database); ("table", JStr table); ("created", JBool true)])
  end.

Definition execute_query (payload : dict) : DM ActionResult :=
  database ← db_required_string payload "database";
  template ← db_required_string payload "template";
  let params := match dict_get "params" payload with Some v => v | None => JList [] end in
  p ← lookup_database database;
  sql ← reads (fun s => of_option (dict_get template (db_templates (ds_agent s))) KeyError (str_repr template));
  rows ← with_connection (read_only_uri p) true (request (Execute sql params));
  query_hash ← lift (hash_hex (JObj [("template", JStr template); ("params", params)]));
  mret (M := DM) (mkActionResult true (Some database)
    [("database", JStr database); ("template", JStr template); ("rows", JList (JObj <$> rows))]
    [("row_count", JInt (Z.of_nat (length rows))); ("query_hash", JStr query_hash)]).

Definition database_errors : list exn_class := [KeyError; OSError; SqliteError; DatabaseAgentError; TypeError; ValueError].

Definition db_agent_execute (cwd : path) (plan : ActionPlan) (poi : ProofOfIntent) : DM ActionResult := fun s =>
  (let self := ds_agent s in
   let action_type := ap_action_type plan in
   if negb (bool_decide (ap_agent_type plan = "database")) then mret (M := DM) (failure "agent_type_mismatch")
   else if negb (bool_decide (ap_agent_id plan = None \/ ap_agent_id plan = Some (db_agent_id self)))
   then mret (M := DM) (failure "agent_id_mismatch")
   else if negb (bool_decide (action_type ∈ db_capabilities)) then mret (M := DM) (failure "unsupported_action_type")
   else if negb (bool_decide (ap_policy_decision plan = "allow")) then mret (M := DM) (failure "policy_decision_rejected")
   else
     h ← lift (hash_hex (JObj (ap_payload plan)));
     if negb (bool_decide (h = poi_action_payload_hash poi)) then mret (M := DM) (failure "action_payload_hash_mismatch")
     else
       let allowed := if bool_decide (action_type = "db.create") then [None; Some "db.create"]
                      else [None; Some "db"; Some "db.query"; Some "db.create_table"] in
       if negb (bool_decide (poi_action_type poi ∈ allowed)) then mret (M := DM) (failure "action_type_mismatch")
       else catch_errors database_errors (fun exc => failure (exn_msg exc))
              (if bool_decide (action_type = "db.create") then execute_db_create cwd (ap_payload plan)
               else if bool_decide (action_type = "db.create_table") then execute_create_table (ap_payload plan)
               else execute_query (ap_payload plan))) s.

End Executing.

(** The agent as the executor calls it. *)
Definition database_ops `{Hashlib, Rfc8785, SqliteConnection} (cwd : path) : DatabaseOps DbState :=
  {| db_plan s request context := db_agent_plan (ds_fs s) (ds_agent s) request (Some context);
     db_execute s plan poi := db_agent_execute cwd plan poi s |}.
