(* ===== verification/DatabaseSafety.v ===== *)
(** * What the database agent sends to SQLite

    The theorems on [DatabaseAgent.v]: the requests of an execution are one of three
    conversations; the text of a table's creation; the templates stay single read-only queries;
    a planned creation is accepted and registers its database. *)

From S2P Require Import Prelude PyStr Json JsonText Crypto Instances Ledger Verifier Registry Poi AgentBase Regex.
From S2P Require Import Executor FileSystem StateMonad DatabaseAgent.

#[local] Open Scope Z_scope.

(** ** Identifiers *)

Definition identifier_char (more : string) (c : ascii) : bool := is_alpha_ascii c || is_digit c || char_in more c.

Lemma identifier_spec more n s :
  is_Some (re_fullmatch (identifier more n) s) <->
  exists c w, s = String c w /\ is_alpha_ascii c = true /\ str_forallb (identifier_char more) w = true /\ (String.length w <= n)%nat.
Proof.
  rewrite re_fullmatch_some. cbn [Matches identifier at_rest at_prev at_groups]. split.
  - intros (q & (m & (c & s' & -> & Hc & ->) & (w & s2 & Hs & Hw & _ & Hn & ->)) & Hq). cbn [at_rest] in *. subst s2.
    rewrite str_app_nil in Hs. subst s'. exists c, w. eauto.
  - intros (c & w & -> & Hc & Hw & Hn). eexists. split.
    + eexists. split; [eauto|]. exists w, EmptyString. cbn [at_rest]. rewrite str_app_nil.
      split_and!; [done|exact Hw|lia|by intros k [= <-]|reflexivity].
    + reflexivity.
Qed.

Lemma str_has_app c a b : str_has c (a +:+ b) = str_has c a || str_has c b.
Proof. induction a as [|x a IH]; [done|]. rewrite str_append_cons. cbn. by rewrite IH, orb_assoc. Qed.

Lemma str_has_forallb p c s : str_forallb p s = true -> p c = false -> str_has c s = false.
Proof.
  intros Hs Hc. induction s as [|x s IH]; [done|]. cbn in *. apply andb_prop in Hs as [Hx Hs]. rewrite IH by done.
  destruct (ord x =? ord c) eqn:E; [|done]. apply Z.eqb_eq in E.
  assert (x = c) as -> by by rewrite <- (chr_ord x), E, chr_ord. congruence.
Qed.

(** A character no identifier has is not in one. *)
Lemma identifier_has more n s c :
  is_Some (re_fullmatch (identifier more n) s) -> identifier_char more c = false -> str_has c s = false.
Proof.
  intros (x & w & -> & Hx & Hw & _)%identifier_spec Hc. apply (str_has_forallb (identifier_char more)); [|done].
  cbn. rewrite Hw. unfold identifier_char. by rewrite Hx.
Qed.

(** ** The text of a table's creation *)

(** A column as its definition writes it. *)
Definition column_text (name ty : string) (primary : bool) : string :=
  dq +:+ (name +:+ (dq +:+ (" " +:+ (ty +:+ (if primary then " PRIMARY KEY" else ""))))).

Definition column_ok (c : string * string * bool) : Prop := valid_identifier c.1.1 = true /\ c.1.2 ∈ column_types.

Lemma validated_column j d :
  validate_column j = Ok tt -> column_sql j = Ok d -> exists c, column_ok c /\ d = column_text c.1.1 c.1.2 c.2.
Proof.
  destruct j as [| | | | |c]; try done. unfold validate_column, column_sql, column_str, dict_item.
  destruct (dict_get "name" c) as [n|]; [|done]. destruct (dict_get "type" c) as [t|]; [|done].
  cbn [of_option mbind result_bind]. destruct (valid_identifier (py_str n)) eqn:En; [|done].
  case_bool_decide as Et; [|done]. intros _ [= <-].
  exists (py_str n, str_upper (py_str t), match dict_get "primary_key" c with Some v => json_truthy v | None => false end).
  split; [done|]. unfold column_text. cbn. by destruct (dict_get "primary_key" c) as [v|]; [destruct (json_truthy v)|].
Qed.

Lemma validated_columns l us defs :
  mapM_result validate_column l = Ok us -> mapM_result column_sql l = Ok defs ->
  exists cs, Forall column_ok cs /\ defs = (fun c => column_text c.1.1 c.1.2 c.2) <$> cs.
Proof.
  revert us defs. induction l as [|j l IH]; intros us defs; cbn; [intros _ [= <-]; by exists []|].
  destruct (validate_column j) as [[]|] eqn:Ej; [|done]. cbn [mbind result_bind].
  destruct (mapM_result validate_column l) as [us'|] eqn:El; [|done]. cbn [mbind result_bind]. intros [= Hus].
  destruct (column_sql j) as [d|] eqn:Ed; [|done]. cbn [mbind result_bind].
  destruct (mapM_result column_sql l) as [ds|] eqn:Eds; [|done]. cbn [mbind result_bind]. intros [= <-].
  destruct (validated_column j d Ej Ed) as (c & Hc & ->).
  destruct (IH us' ds eq_refl eq_refl) as (cs & Hcs & ->). exists (c :: cs). split; [by constructor|done].
Qed.

Lemma validate_columns_ok j cs :
  validate_columns j = Ok cs -> exists us, j = JList cs /\ cs ≠ [] /\ mapM_result validate_column cs = Ok us.
Proof.
  unfold validate_columns. destruct j as [| | | |[|x l]|]; try done.
  destruct (mapM_result validate_column (x :: l)) as [us|] eqn:Eu; intros E; [|done]. injection E as <-. by exists us.
Qed.

(** No semicolon in the text. *)
Lemma column_text_plain c : column_ok c -> str_has ";"%char (column_text c.1.1 c.1.2 c.2) = false.
Proof.
  destruct c as [[n t] b]. intros [Hn Ht]. cbn [fst snd] in *. unfold column_text. rewrite !str_has_app.
  assert (str_has ";"%char n = false) as ->.
  { apply (identifier_has "_" 62); [by apply bool_decide_eq_true in Hn|done]. }
  assert (str_has ";"%char t = false) as ->.
  { revert t Ht. apply (Forall_forall (fun t => str_has ";"%char t = false) column_types). by repeat constructor. }
  by destruct b.
Qed.

Lemma str_join_has c sep l :
  str_has c sep = false -> Forall (fun s => str_has c s = false) l -> str_has c (str_join sep l) = false.
Proof.
  intros Hsep. induction l as [|x [|y l] IH]; intros Hl; [done|by apply Forall_inv in Hl|].
  apply Forall_cons in Hl as [Hx Hl]. change (str_join sep (x :: y :: l)) with (x +:+ (sep +:+ str_join sep (y :: l))).
  rewrite !str_has_app, Hx, Hsep. by apply IH.
Qed.

(** The statement is one statement, and is built of identifiers and types the check allows. *)
Lemma create_table_text table l us defs :
  valid_identifier table = true -> mapM_result validate_column l = Ok us -> mapM_result column_sql l = Ok defs ->
  str_has ";"%char (create_table_sql table defs) = false /\
  exists cs, Forall column_ok cs /\ length cs = length l /\
    create_table_sql table defs =
      "CREATE TABLE " +:+ (dq +:+ (table +:+ (dq +:+ (" (" +:+
        (str_join ", " ((fun c => column_text c.1.1 c.1.2 c.2) <$> cs) +:+ ")"))))).
Proof.
  intros Ht Hu Hd. assert (length defs = length l) as Hlen.
  { clear -Hd. revert defs Hd. induction l as [|j l IH]; intros defs; cbn; [by intros [= <-]|].
    destruct (column_sql j); [|done]. cbn [mbind result_bind]. destruct (mapM_result column_sql l) as [ds|]; [|done].
    intros [= <-]. cbn. by rewrite (IH ds). }
  destruct (validated_columns l us defs Hu Hd) as (cs & Hcs & ->). split.
  - unfold create_table_sql. rewrite !str_has_app.
    assert (str_has ";"%char table = false) as ->.
    { apply (identifier_has "_" 62); [by apply bool_decide_eq_true in Ht|done]. }
    rewrite str_join_has; [done|done|]. apply Forall_fmap. eapply Forall_impl; [exact Hcs|]. intros c. apply column_text_plain.
  - exists cs. split_and!; [done| |done]. by rewrite length_fmap in Hlen.
Qed.

(** ** The templates *)

Definition read_only_template (sql : string) : Prop :=
  str_has ";"%char sql = false /\ exists w rest, w ∈ ["select "; "with "] /\ str_lower sql = w +:+ rest.

Definition templates_ok (self : DatabaseAgent) : Prop := Forall (fun nt => read_only_template nt.2) (db_templates self).

Lemma str_lstrip_has c s : str_has c (str_lstrip s) = true -> str_has c s = true.
Proof.
  induction s as [|x s IH]; [done|]. cbn [str_lstrip]. destruct (is_space x); [|done]. intros Hs.
  cbn. by rewrite IH, orb_true_r.
Qed.

Lemma str_rstrip_has c s : str_has c (str_rstrip s) = true -> str_has c s = true.
Proof.
  induction s as [|x s IH]; [done|]. cbn [str_rstrip str_has]. destruct (str_rstrip s) as [|y r].
  - destruct (is_space x); [done|]. cbn. rewrite orb_false_r. by intros ->.
  - intros [Hx|Hs]%orb_prop; [by rewrite Hx|]. change ((fix go s := match s with EmptyString => false
      | String x s' => (ord x =? ord c) || go s' end) (String y r)) with (str_has c (String y r)) in Hs.
    apply IH in Hs. cbn in Hs. by rewrite Hs, orb_true_r.
Qed.

Lemma str_strip_has c s : str_has c s = false -> str_has c (str_strip s) = false.
Proof.
  intros Hs. destruct (str_has c (str_strip s)) eqn:E; [|done]. unfold str_strip in E.
  apply str_rstrip_has, str_lstrip_has in E. congruence.
Qed.

Lemma str_prefix_split p s : String.prefix p s = true -> exists rest, s = p +:+ rest.
Proof.
  revert s. induction p as [|x p IH]; intros s; [by exists s|]. destruct s as [|y s]; [done|]. cbn.
  destruct (Ascii.ascii_dec x y) as [->|]; [|done]. intros (rest & ->)%IH. by exists rest.
Qed.

Lemma str_contains_char c s : str_contains (String c EmptyString) s = str_has c s.
Proof.
  induction s as [|x s IH]; [done|]. cbn [str_contains]. rewrite IH. cbn [String.prefix str_has].
  destruct (Ascii.ascii_dec c x) as [->|Hne].
  - rewrite Z.eqb_refl. by destruct s.
  - destruct (ord x =? ord c) eqn:E; [|done]. apply Z.eqb_eq in E. destruct Hne. by rewrite <- (chr_ord c), <- E, chr_ord.
Qed.

Lemma dict_set_forall {V : Type} (P : string * V -> Prop) k v d :
  Forall P d -> P (k, v) -> Forall P (dict_set k v d).
Proof.
  intros Hd Hv. induction Hd as [|[k' v'] d Hx Hd IH]; cbn; [by constructor|].
  case_decide as E; [subst|]; by constructor.
Qed.

(** ** What is sent *)

Section Sending.
Context `{Hashlib, Rfc8785, SqliteConnection}.

(** Every run leaves the agent as it was and sends requests of [P] after those before. *)
Definition sends {A : Type} (m : DM A) (P : list Request -> Prop) : Prop :=
  forall s s' r, m s = (s', r) -> ds_agent s' = ds_agent s /\ exists sent, ds_log s' = ds_log s ++ sent /\ P sent.

Lemma sends_request r : sends (request r) (eq [r]).
Proof. intros s s' a. unfold request. destruct (sqlite_answer _ _ _) as [fs' x]. intros [= <- _]. eauto. Qed.

Lemma sends_pure {A : Type} (m : DM A) : pure m -> sends m (eq []).
Proof. intros Hm s s' r ->%Hm. split; [done|]. exists []. by rewrite app_nil_r. Qed.

Lemma sends_bind {A B : Type} (m : DM A) (f : A -> DM B) P Q :
  sends m P -> (forall a, sends (f a) Q) ->
  sends (m ≫= f) (fun l => exists l1 l2, l = l1 ++ l2 /\ P l1 /\ (l2 = [] \/ Q l2)).
Proof.
  intros Hm Hf s s' r. unfold mbind, SM_bind. destruct (m s) as [s1 [a|e]] eqn:E.
  - destruct (Hm _ _ _ E) as (Ha1 & l1 & Hl1 & HP). intros Er. destruct (Hf a _ _ _ Er) as (Ha2 & l2 & Hl2 & HQ).
    split; [congruence|]. exists (l1 ++ l2). rewrite Hl2, Hl1, app_assoc. split; [done|]. exists l1, l2. auto.
  - intros [= <- <-]. destruct (Hm _ _ _ E) as (Ha1 & l1 & Hl1 & HP). split; [done|]. exists l1. split; [done|].
    exists l1, []. rewrite app_nil_r. auto.
Qed.

(** A connection: the opening alone when it fails, or the opening, the body's statements and the
    end of the block. *)
Definition dialogue (target : string) (uri : bool) (body : list Request -> Prop) (sent : list Request) : Prop :=
  sent = [Connect target uri] \/ exists mid failed, sent = Connect target uri :: mid ++ [Leave failed] /\ body mid.

Lemma sends_leaving {A : Type} (body : DM A) P :
  sends body P -> sends (leaving body) (fun l => exists mid failed, l = mid ++ [Leave failed] /\ P mid).
Proof.
  intros Hb s s' r. unfold leaving. destruct (body s) as [s1 [a|e]] eqn:E; intros Er;
    destruct (Hb _ _ _ E) as (Ha & mid & Hl & HP); unfold mbind, SM_bind in Er;
    [destruct (request (Leave false) s1) as [s2 [x|e']] eqn:E2|destruct (request (Leave true) s1) as [s2 [x|e']] eqn:E2];
    apply sends_request in E2 as (Ha2 & l2 & Hl2 & <-); injection Er as <- <-;
    (split; [congruence|]); eexists; (split; [rewrite Hl2, Hl, <- app_assoc; done|]); eauto.
Qed.

Lemma sends_connection {A : Type} target uri (body : DM A) P :
  sends body P -> sends (with_connection target uri body) (dialogue target uri P).
Proof.
  intros Hb s s' r Er.
  destruct (sends_bind _ _ _ _ (sends_request (Connect target uri)) (fun _ => sends_leaving body P Hb) s s' r Er)
    as (Ha & sent & Hl & l1 & l2 & -> & <- & Hl2).
  split; [done|]. eexists. split; [exact Hl|]. destruct Hl2 as [-> |(mid & failed & -> & HP)]; [by left|right; eauto].
Qed.

(** ** The conversations *)

(** A column list of the payload that the check accepts, and its definitions. *)
Definition column_definitions (payload : dict) (defs : list string) : Prop :=
  exists cs us, dict_get "columns" payload = Some (JList cs) /\ cs ≠ [] /\
    mapM_result validate_column cs = Ok us /\ mapM_result column_sql cs = Ok defs.

(** What the agent may send for a plan. *)
Inductive conversation (self : DatabaseAgent) (fs : FS) (plan : ActionPlan) : list Request -> Prop :=
| silent : conversation self fs plan []
| creating ws p sent :
    ap_action_type plan = "db.create" -> db_workspace_dir self = Some ws -> parent p = ws ->
    path_suffix p = ".sqlite3" -> exists_ fs p = false -> dialogue (path_str p) false (eq []) sent ->
    conversation self fs plan sent
| making_table database p table defs sent :
    ap_action_type plan = "db.create_table" -> dict_get database (db_databases self) = Some p ->
    valid_identifier table = true -> column_definitions (ap_payload plan) defs ->
    dialogue (path_str p) false (fun mid => mid = [Execute EXISTS_SQL (JList [JStr table])] \/
      mid = [Execute EXISTS_SQL (JList [JStr table]); Execute (create_table_sql table defs) (JList [])]) sent ->
    conversation self fs plan sent
| querying database p template sql params sent :
    ap_action_type plan = "db.query" -> dict_get database (db_databases self) = Some p ->
    dict_get template (db_templates self) = Some sql ->
    dialogue (read_only_uri p) true (eq [Execute sql params]) sent ->
    conversation self fs plan sent.

(** A plan the agent may execute under a proof. *)
Definition db_authorised (self : DatabaseAgent) (plan : ActionPlan) (poi : ProofOfIntent) : Prop :=
  ap_agent_type plan = "database" /\ (ap_agent_id plan = None \/ ap_agent_id plan = Some (db_agent_id self)) /\
  ap_action_type plan ∈ db_capabilities /\ ap_policy_decision plan = "allow" /\
  hash_hex (JObj (ap_payload plan)) = Ok (poi_action_payload_hash poi) /\
  (ap_action_type plan = "db.create" -> poi_action_type poi ∈ [None; Some "db.create"]) /\
  (ap_action_type plan ≠ "db.create" -> poi_action_type poi ∈ [None; Some "db"; Some "db.query"; Some "db.create_table"]).

Lemma db_required_pure payload key : pure (db_required_string payload key).
Proof. intros s s' r. unfold db_required_string. repeat case_match; intros E; by injection E as <- _. Qed.

Lemma safe_create_pure cwd p : pure (safe_create_path cwd p).
Proof. intros s s' r E. by apply pair_equal_spec in E as [-> _]. Qed.

(** What one execution leaves: the agent, but for a database that a creation adds, and the
    requests it sent. *)
Definition outcome (plan : ActionPlan) (s s' : DbState) : Prop :=
  exists sent, ds_log s' = ds_log s ++ sent /\ conversation (ds_agent s) (ds_fs s) plan sent /\
    (ds_agent s' = ds_agent s \/ exists name p, ap_action_type plan = "db.create" /\ sent ≠ [] /\
       exists_ (ds_fs s) p = false /\ ds_agent s' = set_databases (ds_agent s) (dict_set name p (db_databases (ds_agent s)))).

Lemma outcome_silent plan s : outcome plan s s.
Proof. exists []. rewrite app_nil_r. split_and!; [done|constructor|by left]. Qed.

Lemma lookup_database_ok name s s' p :
  lookup_database name s = (s', Ok p) -> dict_get name (db_databases (ds_agent s)) = Some p.
Proof. unfold lookup_database, reads. destruct (dict_get _ _); cbn; by intros [= _ <-]. Qed.

Lemma query_outcome plan s s' r :
  ap_action_type plan = "db.query" -> execute_query (ap_payload plan) s = (s', r) -> outcome plan s s'.
Proof.
  intros Ht E. unfold execute_query in E. cbv zeta in E. pose proof (outcome_silent plan s) as Hs.
  apply bind_pure in E as [(-> & _)|(database & _ & E)]; [done| |apply db_required_pure].
  apply bind_pure in E as [(-> & _)|(template & _ & E)]; [done| |apply db_required_pure].
  apply bind_pure in E as [(-> & _)|(p & Ep & E)]; [done| |apply pure_reads]. apply lookup_database_ok in Ep.
  apply bind_pure in E as [(-> & _)|(sql & Es & E)]; [done| |apply pure_reads].
  assert (dict_get template (db_templates (ds_agent s)) = Some sql) as Hsql.
  { apply pair_equal_spec in Es as [_ Es]. destruct (dict_get template _); cbn in Es; [by injection Es as <-|done]. }
  match type of E with mbind _ (with_connection _ _ (request (Execute _ ?ps))) _ = _ =>
    apply (sends_bind _ _ (dialogue (read_only_uri p) true (eq [Execute sql ps])) (eq [])) in E
      as (Ha & sent & Hl & l1 & l2 & -> & Hd & Hl2) end.
  - assert (l2 = []) as -> by by destruct Hl2. rewrite app_nil_r in Hl. exists l1. split_and!; [done| |by left].
    by eapply (querying _ _ _ database p template sql).
  - apply sends_connection, sends_request.
  - intros rows. apply sends_pure. intros s1 s2 r1. unfold mbind, SM_bind, lift.
    destruct (hash_hex _); by intros [= <- _].
Qed.

Lemma create_table_outcome plan s s' r :
  ap_action_type plan = "db.create_table" -> execute_create_table (ap_payload plan) s = (s', r) -> outcome plan s s'.
Proof.
  intros Ht E. unfold execute_create_table in E. cbv zeta in E. pose proof (outcome_silent plan s) as Hs.
  apply bind_pure in E as [(-> & _)|(database & _ & E)]; [done| |apply db_required_pure].
  apply bind_pure in E as [(-> & _)|(table & _ & E)]; [done| |apply db_required_pure].
  apply bind_pure in E as [(-> & _)|(p & Ep & E)]; [done| |apply pure_reads]. apply lookup_database_ok in Ep.
  apply bind_pure in E as [(-> & _)|(cs & Ec & E)]; [done| |apply pure_lift].
  apply bind_pure in E as [(-> & _)|([] & Et & E)]; [done| |apply pure_lift].
  apply bind_pure in E as [(-> & _)|(defs & Ed & E)]; [done| |apply pure_lift].
  apply pair_equal_spec in Ec as [_ Ec]. apply pair_equal_spec in Et as [_ Et]. apply pair_equal_spec in Ed as [_ Ed].
  assert (column_definitions (ap_payload plan) defs) as Hdefs.
  { apply validate_columns_ok in Ec as (us & Ej & Hne & Eu). exists cs, us. split_and!; [|done..].
    destruct (dict_get "columns" (ap_payload plan)) as [x|]; cbn in Ej; [by rewrite Ej|done]. }
  assert (valid_identifier table = true) as Htab by by destruct (valid_identifier table).
  apply (sends_bind _ _ (dialogue (path_str p) false (fun mid => mid = [Execute EXISTS_SQL (JList [JStr table])] \/
      mid = [Execute EXISTS_SQL (JList [JStr table]); Execute (create_table_sql table defs) (JList [])])) (eq [])) in E
    as (Ha & sent & Hl & l1 & l2 & -> & Hd & Hl2).
  - assert (l2 = []) as -> by by destruct Hl2. rewrite app_nil_r in Hl. exists l1. split_and!; [done| |by left].
    by apply (making_table _ _ _ database p table defs l1).
  - apply sends_connection. intros s1 s2 r1 E1.
    apply (sends_bind _ _ (eq [Execute EXISTS_SQL (JList [JStr table])])
      (fun l => l = [] \/ l = [Execute (create_table_sql table defs) (JList [])]))
      in E1 as (Ha1 & l & Hl1 & l3 & l4 & -> & <- & Hl4); [|apply sends_request|].
    + split; [done|]. eexists. split; [done|]. destruct Hl4 as [-> |[-> | ->]]; auto.
    + intros [|row rows]; [|intros s3 s4 r3 E3; apply (sends_pure _ (pure_ret _)) in E3 as (? & ? & ? & <-); eauto].
      intros s3 s4 r3 E3. apply (sends_bind _ _ (eq [Execute (create_table_sql table defs) (JList [])]) (eq [])) in E3 as (Ha3 & l5 & Hl5 & l6 & l7 & -> & <- & Hl7);
        [|apply sends_request|intros ?; apply sends_pure, pure_ret].
      split; [done|]. eexists. split; [done|]. right. by destruct Hl7 as [-> | <-].
  - intros [f|]; apply sends_pure, pure_ret.
Qed.

Lemma create_outcome cwd plan s s' r :
  ap_action_type plan = "db.create" -> execute_db_create cwd (ap_payload plan) s = (s', r) -> outcome plan s s'.
Proof.
  intros Ht E. unfold execute_db_create in E. cbv zeta in E. pose proof (outcome_silent plan s) as Hs.
  apply bind_pure in E as [(-> & _)|(name & _ & E)]; [done| |apply db_required_pure].
  apply bind_pure in E as [(-> & _)|(text & _ & E)]; [done| |apply db_required_pure].
  apply bind_pure in E as [(-> & _)|(p & Ep & E)]; [done| |apply safe_create_pure].
  apply bind_pure in E as [(-> & _)|(there & Eth & E)]; [done| |apply pure_reads].
  apply pair_equal_spec in Eth as [_ [= Eth]]. destruct there; [by injection E as <- _|].
  assert (exists ws, db_workspace_dir (ds_agent s) = Some ws /\ parent p = ws /\ path_suffix p = ".sqlite3") as (ws & Hws & Hp & Hsuf).
  { apply pair_equal_spec in Ep as [_ Ep]. destruct (db_workspace_dir (ds_agent s)) as [ws|]; [|done].
    destruct (resolve _ _ _) as [q|]; [|done]. cbn [mbind result_bind] in Ep.
    case_bool_decide; [|done]. case_bool_decide; [|done]. injection Ep as ->. by exists ws. }
  unfold mbind at 1, SM_bind at 1 in E. destruct (db_mkdirs (parent p) s) as [s1 r1] eqn:Em.
  assert (ds_agent s1 = ds_agent s /\ ds_log s1 = ds_log s) as [Ha1 Hl1].
  { unfold db_mkdirs in Em. destruct (mkdirs _ _). by injection Em as <- _. }
  destruct r1 as [u|e]; [|injection E as <- _; exists []; rewrite Hl1, app_nil_r; split_and!; [done|constructor|by left]].
  unfold mbind at 1, SM_bind at 1 in E.
  destruct (with_connection (path_str p) false (mret tt) s1) as [s2 r2] eqn:Ew.
  destruct (sends_connection (path_str p) false _ _ (sends_pure _ (pure_ret ())) _ _ _ Ew) as (Ha2 & sent & Hl2 & Hd).
  rewrite Ha1 in Ha2. rewrite Hl1 in Hl2.
  assert (conversation (ds_agent s) (ds_fs s) plan sent) as Hc by by apply (creating _ _ _ ws p sent).
  destruct r2 as [u2|e]; [|injection E as <- _; exists sent; split_and!; [done|done|by left]].
  injection E as <- _. exists sent. cbn [ds_log ds_agent]. split_and!; [done|done|]. right. exists name, p.
  split_and!; [done| |done|by rewrite Ha2]. by destruct Hd as [-> |(mid & f & -> & _)].
Qed.

Lemma authorised_execute cwd plan poi s :
  db_authorised (ds_agent s) plan poi ->
  db_agent_execute cwd plan poi s =
    catch_errors database_errors (fun exc => failure (exn_msg exc))
      (if bool_decide (ap_action_type plan = "db.create") then execute_db_create cwd (ap_payload plan)
       else if bool_decide (ap_action_type plan = "db.create_table") then execute_create_table (ap_payload plan)
       else execute_query (ap_payload plan)) s.
Proof.
  intros (G1 & G2 & G3 & G4 & G5 & G6 & G7). unfold db_agent_execute. rewrite !bool_decide_eq_true_2 by done.
  unfold mbind, SM_bind, lift. rewrite G5. cbn [negb]. rewrite bool_decide_eq_true_2 by done. cbn [negb].
  rewrite (bool_decide_eq_true_2 (poi_action_type poi ∈ _)); [done|]. case_bool_decide; auto.
Qed.

(** Without authorisation, an execution changes nothing. *)
Lemma db_execute_inv cwd plan poi s s' r :
  db_agent_execute cwd plan poi s = (s', r) -> s' = s \/ db_authorised (ds_agent s) plan poi.
Proof.
  assert (forall f, (s, Ok (failure f)) = (s', r) -> s' = s) as Hf by by intros f [= <- _].
  unfold db_agent_execute. intros E. do 4 (case_bool_decide; cbn [negb] in E; [|left; by apply (Hf _ E)]).
  unfold mbind, SM_bind, lift in E. destruct (hash_hex _) as [h|e] eqn:Eh; [|left; by injection E].
  case_bool_decide as Hh; cbn [negb] in E; [|left; by apply (Hf _ E)].
  case_bool_decide as Hp; cbn [negb] in E; [|left; by apply (Hf _ E)]. right. subst h.
  split_and!; [done..| |].
  - intros Ht. by rewrite bool_decide_eq_true_2 in Hp.
  - intros Ht. by rewrite bool_decide_eq_false_2 in Hp.
Qed.

Lemma db_execute_outcome cwd plan poi s s' r :
  db_agent_execute cwd plan poi s = (s', r) -> s' = s \/ db_authorised (ds_agent s) plan poi /\ outcome plan s s'.
Proof.
  intros E. destruct (db_execute_inv _ _ _ _ _ _ E) as [->|Hauth]; [by left|]. right. split; [done|].
  rewrite authorised_execute in E by done. unfold catch_errors in E.
  assert (forall x, (if bool_decide (ap_action_type plan = "db.create") then execute_db_create cwd (ap_payload plan)
       else if bool_decide (ap_action_type plan = "db.create_table") then execute_create_table (ap_payload plan)
       else execute_query (ap_payload plan)) s = (s', x) -> outcome plan s s') as Ho.
  { intros x Ex. case_bool_decide; [by eapply create_outcome|]. case_bool_decide; [by eapply create_table_outcome|].
    eapply query_outcome; [|done]. destruct Hauth as (_ & _ & Hcap & _). unfold db_capabilities in Hcap.
    rewrite !elem_of_cons in Hcap. destruct Hcap as [?|[?|[?|Hn]]]; [done..|]. by apply not_elem_of_nil in Hn. }
  destruct (_ s) as [s1 [a|e]] eqn:Ex; [injection E as <- _; by apply (Ho _ eq_refl)|].
  destruct (catches _ e); injection E as <- _; by apply (Ho _ eq_refl).
Qed.

End Sending.

(** ** Paths as [pathlib] writes them *)

Definition plain (c : string) : Prop := c ≠ "" /\ c ≠ "." /\ str_has slash c = false.

Lemma split_on_none c s : str_has c s = false -> split_on c s = [s].
Proof.
  induction s as [|x s IH]; [done|]. cbn. intros [Hx Hs]%orb_false_iff. rewrite Hx. by rewrite IH.
Qed.

Lemma split_on_app c a b : str_has c a = false -> split_on c (a +:+ String c b) = a :: split_on c b.
Proof.
  induction a as [|x a IH].
  { intros _. change (EmptyString +:+ String c b) with (String c b). cbn [split_on]. by rewrite Z.eqb_refl. }
  rewrite str_append_cons. cbn. intros [Hx Ha]%orb_false_iff. rewrite Hx. by rewrite IH.
Qed.

Lemma split_on_join p : p ≠ [] -> Forall plain p -> split_on slash (str_join "/" p) = p.
Proof.
  induction p as [|x [|y p] IH]; [done| |]; intros _ Hp; apply Forall_cons in Hp as [(Hne & Hd & Hs) Hp].
  - by apply split_on_none.
  - change (str_join "/" (x :: y :: p)) with (x +:+ String slash (str_join "/" (y :: p))).
    rewrite split_on_app by done. by rewrite IH.
Qed.

Lemma components_path_str p : Forall plain p -> components (path_str p) = p.
Proof.
  intros Hp. unfold components, path_str. change ("/" +:+ str_join "/" p) with (String slash (str_join "/" p)).
  change (split_on slash (String slash (str_join "/" p))) with ("" :: split_on slash (str_join "/" p)).
  rewrite filter_cons_False by done.
  destruct p as [|x p]; [done|]. rewrite split_on_join by done.
  clear -Hp. induction Hp as [|y l (Hne & Hd & _) Hl IH]; [done|]. rewrite filter_cons_True; [by f_equal|].
  rewrite bool_decide_eq_false_2; [done|]. by intros [?|?].
Qed.

(** A written path resolves to itself. *)
Lemma resolve_path_str fs cwd p :
  Forall plain p -> clean p -> link_free fs p -> resolve fs cwd (path_str p) = Ok p.
Proof.
  intros Hp Hc Hl. unfold resolve. rewrite components_path_str by done.
  assert (is_absolute (path_str p) = true) as ->.
  { unfold is_absolute, path_str. change ("/" +:+ str_join "/" p) with (String slash (str_join "/" p)). cbn. by destruct (str_join "/" p). }
  by apply (resolve_from_id _ _ _ []).
Qed.

Lemma last_dot_none s : str_has "."%char s = false -> last_dot s = None.
Proof.
  induction s as [|x s IH]; [done|]. cbn [str_has last_dot]. intros [Hx Hs]%orb_false_iff. rewrite IH by done.
  unfold char_is. rewrite Z.eqb_sym in Hx. by rewrite Hx.
Qed.

Lemma last_dot_app a b : last_dot b = None -> last_dot (a +:+ String "."%char b) = Some (a, b).
Proof. intros Hb. induction a as [|x a IH].
  { change (EmptyString +:+ String "."%char b) with (String "."%char b). cbn. by rewrite Hb. }
  rewrite str_append_cons. cbn. by rewrite IH. Qed.

(** A database's file name. *)
Lemma sqlite_name_plain name :
  is_Some (re_fullmatch (identifier "_-" 62) name) ->
  plain (name +:+ ".sqlite3") /\ clean_component (name +:+ ".sqlite3") /\
  components (name +:+ ".sqlite3") = [name +:+ ".sqlite3"] /\ is_absolute (name +:+ ".sqlite3") = false /\
  (forall ws, path_suffix (ws ++ [name +:+ ".sqlite3"]) = ".sqlite3").
Proof.
  intros Hn. assert (forall c, identifier_char "_-" c = false -> str_has c name = false) as Hno
    by (intros c; by apply (identifier_has "_-" 62)).
  assert (exists c w, name = String c w /\ is_alpha_ascii c = true) as (c & w & Hcw & Hal).
  { apply identifier_spec in Hn as (c & w & -> & Hal & _). eauto. }
  assert (str_has slash (name +:+ ".sqlite3") = false) as Hs by by rewrite str_has_app, Hno.
  assert ((1 < String.length (name +:+ ".sqlite3"))%nat) as Hlen by (rewrite str_app_length; cbn; lia).
  assert ((2 < String.length (name +:+ ".sqlite3"))%nat) as Hlen2 by (rewrite str_app_length; cbn; lia).
  split_and!.
  - split_and!; [| |done]; intros E; rewrite E in Hlen; cbn in Hlen; lia.
  - split; [intros E; rewrite E in Hlen2; cbn in Hlen2; lia|]. by rewrite str_has_app, Hno.
  - unfold components. rewrite split_on_none by done. rewrite filter_cons_True; [done|].
    rewrite bool_decide_eq_false_2; [done|]. intros [E|E]; rewrite E in Hlen; cbn in Hlen; lia.
  - unfold is_absolute, str_startswith. destruct (String.prefix "/" _) eqn:E; [|done].
    apply str_prefix_split in E as [r Er]. rewrite Hcw, str_append_cons in Er.
    change ("/" +:+ r) with (String slash r) in Er. by injection Er as -> _.
  - intros ws. unfold path_suffix. rewrite last_snoc. cbn [default]. change (id (name +:+ ".sqlite3")) with (name +:+ ".sqlite3").
    change ".sqlite3" with (String "."%char "sqlite3"). rewrite last_dot_app by done. by rewrite Hcw.
Qed.

Lemma mkdir_from_dirs fs cur rest :
  (forall q, q `prefix_of` cur ++ rest -> q ≠ [] -> fs !! q = Some NDir) -> mkdir_from fs cur rest = (fs, Ok tt).
Proof.
  revert cur. induction rest as [|c rest IH]; intros cur Hq; [done|]. cbn [mkdir_from].
  rewrite (Hq (cur ++ [c])); [|exists rest; by rewrite <- app_assoc|by destruct cur].
  apply IH. by rewrite <- app_assoc.
Qed.

Lemma mkdirs_existing fs p : fs_ok fs -> lookup_at fs p = Some NDir -> mkdirs fs p = (fs, Ok tt).
Proof.
  intros Hok Hp. apply mkdir_from_dirs. intros q Hq Hne. apply (dir_ancestors _ _ _ Hok Hp) in Hq. by destruct q.
Qed.

(** ** Reachable agents *)

(** The agents a program can have: built, then registered with and executed on. *)
Inductive db_reachable `{Hashlib, Rfc8785, SqliteConnection} : DatabaseAgent -> Prop :=
| reach_init cwd fs databases workspace_dir agent_id a :
    DatabaseAgent_init cwd fs databases workspace_dir agent_id = Ok a -> db_reachable a
| reach_database cwd fs self name p a :
    db_reachable self -> register_database cwd fs self name p = Ok a -> db_reachable a
| reach_template self name sql a :
    db_reachable self -> register_template self name sql = Ok a -> db_reachable a
| reach_execute cwd plan poi s s' r :
    db_reachable (ds_agent s) -> db_agent_execute cwd plan poi s = (s', r) -> db_reachable (ds_agent s').

Lemma default_templates_ok : Forall (fun nt => read_only_template nt.2) DEFAULT_TEMPLATES.
Proof.
  repeat constructor; (eexists "select ", _; split; [by left|vm_compute; reflexivity]).
Qed.

Lemma register_template_ok self name sql a :
  register_template self name sql = Ok a -> templates_ok self ->
  templates_ok a /\ dict_get name (db_templates a) = Some (str_strip sql).
Proof.
  unfold register_template. cbv zeta. rewrite str_contains_char. intros E Hok.
  destruct (negb (truthy_str name) || _); [done|]. cbn [raise_if mbind result_bind] in E.
  destruct (str_has ";"%char sql) eqn:Es; [done|]. cbn [orb] in E.
  destruct (str_startswith "select " _ || str_startswith "with " _) eqn:Ep; [|done].
  cbn [negb raise_if mbind result_bind] in E. injection E as <-.
  unfold templates_ok. cbn [db_templates]. split; [|by rewrite dict_get_set_eq].
  apply dict_set_forall; [done|]. cbn. split; [by apply str_strip_has|].
  apply orb_prop in Ep as [E|E]; apply str_prefix_split in E as [rest E]; eexists _, rest; (split; [|exact E]);
    [by left|by right; left].
Qed.

(** A statement of a connection is one of its body's. *)
Lemma dialogue_execute target uri body sent sql params :
  dialogue target uri body sent -> Execute sql params ∈ sent -> exists mid, body mid /\ Execute sql params ∈ mid.
Proof.
  intros [->|(mid & failed & -> & Hm)].
  - by intros [?|?%not_elem_of_nil]%elem_of_cons.
  - intros [?|[?|[?|?%not_elem_of_nil]%elem_of_cons]%elem_of_app]%elem_of_cons; try done. eauto.
Qed.

Lemma dict_get_in {V : Type} k (v : V) d : dict_get k d = Some v -> (k, v) ∈ d.
Proof.
  induction d as [|[k' v'] d IH]; [done|]. cbn. case_decide as E; [intros [= ->]; subst; by left|]. intros ?%IH. by right.
Qed.

(** ** A planned creation *)

Lemma db_make_plan_ok self action payload plan :
  db_make_plan self action payload = Ok plan ->
  plan = mkActionPlan "database" (Some (db_agent_id self)) action payload false false "allow".
Proof.
  unfold db_make_plan, ActionPlan_init.
  cbn [ap_policy_decision ap_agent_type ap_agent_id ap_action_type ap_payload ap_requires_confirmation ap_confirmed].
  change (str_strip "allow") with "allow". case_match; [by intros [= <-]|done].
Qed.

Lemma plan_create_ok fs self values request plan :
  plan_create fs self values request = Ok plan ->
  exists name ws p, is_Some (re_fullmatch (identifier "_-" 62) name) /\ db_workspace_dir self = Some ws /\
    resolve fs ws (name +:+ ".sqlite3") = Ok p /\ parent p = ws /\
    plan = mkActionPlan "database" (Some (db_agent_id self)) "db.create"
             [("database", JStr name); ("path", JStr (path_str p))] false false "allow".
Proof.
  unfold plan_create. destruct (get_or _ _ _) as [| | |name| |]; try done.
  case_bool_decide as Hn; [|done]. cbn [negb raise_if mbind result_bind].
  destruct (db_workspace_dir self) as [ws|]; [|done].
  destruct (resolve fs ws _) as [p|] eqn:Er; [|done]. cbn [mbind result_bind].
  case_bool_decide as Hp; [|done]. cbn [negb raise_if mbind result_bind]. intros ->%db_make_plan_ok. by exists name, ws, p.
Qed.

Lemma plan_action fs self request context plan :
  db_agent_plan fs self request context = Ok plan -> ap_action_type plan = "db.create" ->
  exists values active, plan_create fs self values active = Ok plan.
Proof.
  unfold db_agent_plan. destruct (negb _ || _); [done|]. cbn [raise_if mbind result_bind]. cbv zeta.
  assert (forall values active, plan_query self values active = Ok plan -> ap_action_type plan = "db.create" -> False) as Hq.
  { intros values active. unfold plan_query. cbv zeta. destruct (key_in _ (db_databases self)) as [[]|]; try done.
    cbn [mbind result_bind negb raise_if]. destruct (key_in _ (db_templates self)) as [[]|]; try done.
    cbn [mbind result_bind negb raise_if]. case_match; try done. by intros ->%db_make_plan_ok. }
  assert (forall values active, plan_create_table self values active = Ok plan -> ap_action_type plan = "db.create" -> False) as Ht.
  { intros values active. unfold plan_create_table. cbv zeta. destruct (get_or "table" _ _); try done.
    destruct (negb (valid_identifier s)); [done|]. cbn [mbind result_bind negb raise_if].
    destruct (get_or "database" _ _); try done. destruct (negb (bool_decide _)); [done|].
    cbn [mbind result_bind negb raise_if]. destruct (validate_columns _); [|done]. by intros ->%db_make_plan_ok. }
  destruct (get_or "action_type" _ _); try (by intros E Ha; destruct (Hq _ _ E Ha)).
  case_bool_decide; [eauto|]. case_bool_decide; intros E Ha; [by destruct (Ht _ _ E Ha)|by destruct (Hq _ _ E Ha)].
Qed.

(** The workspace as the agent is given it. *)
Definition workspace_ok (fs : FS) (ws : path) : Prop :=
  fs_ok fs /\ lookup_at fs ws = Some NDir /\ link_free fs ws /\ clean ws /\ Forall plain ws.

(** A new name in it: the file resolves, is written and read back as one path. *)
Lemma new_file_resolves fs cwd ws name p :
  workspace_ok fs ws -> is_Some (re_fullmatch (identifier "_-" 62) name) -> fs !! (ws ++ [name +:+ ".sqlite3"]) = None ->
  resolve fs ws (name +:+ ".sqlite3") = Ok p ->
  p = ws ++ [name +:+ ".sqlite3"] /\ resolve fs cwd (path_str p) = Ok p /\ path_suffix p = ".sqlite3" /\ exists_ fs p = false.
Proof.
  intros (Hok & Hd & Hl & Hc & Hpl) (Hn1 & Hn2 & Hn3 & Hn4 & Hn5)%sqlite_name_plain Hno Hr.
  assert (link_free fs (ws ++ [name +:+ ".sqlite3"])) as Hlp by by (apply link_free_snoc; [done|intros a t; rewrite Hno]).
  assert (p = ws ++ [name +:+ ".sqlite3"]) as ->.
  { unfold resolve in Hr. rewrite Hn3, Hn4, resolve_from_id in Hr; [by injection Hr| |done]. exact (Forall_cons_2 _ _ _ Hn2 (Forall_nil_2 _)). }
  split_and!; [done| |apply Hn5|].
  - apply resolve_path_str; [| |done]; apply Forall_app; split; [done| |done|];
      [exact (Forall_cons_2 _ _ _ Hn1 (Forall_nil_2 _))|exact (Forall_cons_2 _ _ _ Hn2 (Forall_nil_2 _))].
  - unfold exists_, lookup_at. rewrite Hno. by destruct ws.
Qed.

(** ** The agent as the executor calls it *)

(** A request without an action type and without a creation in its text plans a query. *)
Lemma plan_is_query fs self request context plan :
  dict_get "action_type" context = None -> db_action_type_from_request (active_request request) = "db.query" ->
  db_agent_plan fs self request (Some context) = Ok plan -> ap_action_type plan = "db.query".
Proof.
  intros Hno Hq. unfold db_agent_plan. change (default [] (Some context)) with context. cbv zeta. unfold get_or at 1.
  rewrite Hno. destruct (negb _ || _); [done|]. cbn [raise_if mbind result_bind]. rewrite Hq, !bool_decide_eq_false_2 by done.
  unfold plan_query. cbv zeta. destruct (key_in _ (db_databases self)) as [[]|]; try done.
  cbn [mbind result_bind negb raise_if]. destruct (key_in _ (db_templates self)) as [[]|]; try done.
  cbn [mbind result_bind negb raise_if]. case_match; try done. by intros ->%db_make_plan_ok.
Qed.

(** ** Theorems *)

Section Theorems.
Context `{Hashlib, Rfc8785, SqliteConnection}.

(** C17. Whatever the plan and the proof, what an execution sends to SQLite is one of three
    conversations: nothing; the opening of a new file directly in the workspace; the check and
    the creation of a table in a registered database, by a statement made of checked columns;
    one approved template on a read-only connection to a registered database.  Anything is sent
    only for a plan the agent is authorised for, the templates are unchanged, and the agent's
    databases change only by a creation that sent its opening. *)
Theorem db_agent_conversation (cwd : path) (plan : ActionPlan) (poi : ProofOfIntent) (s s' : DbState)
    (r : result ActionResult) :
  db_agent_execute cwd plan poi s = (s', r) ->
  exists sent, ds_log s' = ds_log s ++ sent /\ conversation (ds_agent s) (ds_fs s) plan sent /\
    (sent ≠ [] -> db_authorised (ds_agent s) plan poi) /\
    db_templates (ds_agent s') = db_templates (ds_agent s) /\
    (db_databases (ds_agent s') ≠ db_databases (ds_agent s) -> ap_action_type plan = "db.create" /\ sent ≠ []).
Proof.
  intros [->|[Hauth (sent & Hl & Hc & Ha)]]%db_execute_outcome.
  - exists []. rewrite app_nil_r. split_and!; try done. constructor.
  - exists sent. split_and!; [done|done|done|..].
    + by destruct Ha as [->|(name & p & _ & _ & _ & ->)].
    + destruct Ha as [->|(name & p & Ht & Hs & _ & ->)]; [done|]. by intros _.
Qed.

(** Every agent a program can reach has only read-only templates: single statements that start
    with a select or a with; so every statement it ever executes is one statement: such a
    template, the check for a table, or the creation of one. *)
Theorem db_statements_single (self : DatabaseAgent) :
  db_reachable self ->
  templates_ok self /\
  forall cwd plan poi s s' r sent sql params, ds_agent s = self -> db_agent_execute cwd plan poi s = (s', r) ->
    ds_log s' = ds_log s ++ sent -> Execute sql params ∈ sent -> str_has ";"%char sql = false.
Proof.
  intros Hreach. assert (templates_ok self) as Hok.
  { induction Hreach as [cwd fs dbs ws id a E|cwd fs self name p a _ IH E|self name sql a _ IH E|cwd plan poi s s' r _ IH E].
    - unfold DatabaseAgent_init in E. repeat (inv_result). apply default_templates_ok.
    - unfold register_database in E. destruct (_ || _) in E; [done|]. cbn [raise_if mbind result_bind] in E.
      destruct (resolve fs cwd p) as [q|]; [|done]. cbn [mbind result_bind] in E.
      destruct (negb (is_file fs q)); [done|]. by injection E as <-.
    - by apply register_template_ok in E as [? _].
    - apply db_execute_outcome in E as [->|[_ (sent & _ & _ & Ha)]]; [done|].
      by destruct Ha as [->|(name & p & _ & _ & _ & ->)]. }
  split; [done|]. intros cwd plan poi s s' r sent sql params <- E Hl Hin.
  apply db_execute_outcome in E as [->|[_ (sent' & Hl' & Hc & _)]].
  { rewrite <- (app_nil_r (ds_log s)) in Hl at 1. apply app_inv_head in Hl as <-. by apply not_elem_of_nil in Hin. }
  rewrite Hl in Hl'. apply app_inv_head in Hl' as <-.
  destruct Hc as [|ws p sent _ _ _ _ _ Hd|db p table defs sent _ _ Ht (cs & us & _ & _ & Hu & Hdf) Hd
    |db p template q ps sent _ _ Hq Hd].
  - by apply not_elem_of_nil in Hin.
  - by destruct (dialogue_execute _ _ _ _ _ _ Hd Hin) as (mid & <- & ?%not_elem_of_nil).
  - destruct (dialogue_execute _ _ _ _ _ _ Hd Hin) as (mid & Hmid & Hin').
    assert (sql = EXISTS_SQL \/ sql = create_table_sql table defs) as [-> | ->]; [|done|by eapply create_table_text].
    destruct Hmid as [-> | ->].
    + apply elem_of_cons in Hin' as [[= -> _]|?%not_elem_of_nil]; [by left|done].
    + apply elem_of_cons in Hin' as [[= -> _]|[[= -> _]|?%not_elem_of_nil]%elem_of_cons]; [by left|by right|done].
  - destruct (dialogue_execute _ _ _ _ _ _ Hd Hin) as (mid & <- & [[= -> _]|?%not_elem_of_nil]%elem_of_cons); [|done].
    apply dict_get_in in Hq. unfold templates_ok in Hok. rewrite Forall_forall in Hok. by apply (Hok _ Hq).
Qed.

(** A planned creation succeeds: in a workspace that is a plain directory, planning a database
    whose file does not exist gives a plan that, under a proof that commits it and while SQLite
    opens files, executes to a success; the agent then knows the database under its name, at the
    file directly in the workspace, and has sent the opening and nothing else. *)
Theorem planned_database_created (cwd : path) (prompt : string) (context : option dict) (plan : ActionPlan)
    (poi : ProofOfIntent) (self : DatabaseAgent) (fs : FS) (log : list Request) (ws : path) (name : string) :
  db_workspace_dir self = Some ws -> workspace_ok fs ws ->
  db_agent_plan fs self prompt context = Ok plan -> ap_action_type plan = "db.create" ->
  dict_get "database" (ap_payload plan) = Some (JStr name) -> fs !! (ws ++ [name +:+ ".sqlite3"]) = None ->
  hash_hex (JObj (ap_payload plan)) = Ok (poi_action_payload_hash poi) ->
  poi_action_type poi ∈ [None; Some "db.create"] ->
  (forall fs log r, r = Connect (path_str (ws ++ [name +:+ ".sqlite3"])) false \/ r = Leave false ->
     is_ok (sqlite_answer fs log r).2 = true) ->
  exists s' res, db_agent_execute cwd plan poi (mkDbState self fs log) = (s', Ok res) /\ ar_success res = true /\
    dict_get name (db_databases (ds_agent s')) = Some (ws ++ [name +:+ ".sqlite3"]) /\
    ds_log s' = log ++ [Connect (path_str (ws ++ [name +:+ ".sqlite3"])) false; Leave false].
Proof.
  intros Hws Hw Hplan Ht Hn Hno Hh Hpoi Hsql.
  destruct (plan_action _ _ _ _ _ Hplan Ht) as (values & active & (n & ws' & p & Hid & Hws' & Hr & Hp & ->)%plan_create_ok).
  assert (ws' = ws) as -> by congruence. cbn [ap_payload dict_get] in Hn. rewrite decide_True in Hn by done. injection Hn as ->.
  destruct (new_file_resolves fs cwd ws name p Hw Hid Hno Hr) as (-> & Hr2 & Hsuf & Hex). set (p := ws ++ [name +:+ ".sqlite3"]) in *.
  rewrite authorised_execute.
  2: { unfold db_authorised. cbn. split_and!; [done|by right| |done|done|done|done]. by right; left. }
  unfold catch_errors. cbn [ap_action_type ap_payload]. rewrite bool_decide_eq_true_2 by done.
  assert (truthy_str name = true) as Hname by by (apply identifier_spec in Hid as (c & w & -> & _)).
  set (payload := [("database", JStr name); ("path", JStr (path_str p))]).
  assert (dict_get "database" payload = Some (JStr name)) as E1 by reflexivity.
  assert (dict_get "path" payload = Some (JStr (path_str p))) as E2 by reflexivity.
  unfold execute_db_create, db_required_string. rewrite E1, E2, Hname. change (truthy_str (path_str p)) with true. cbv iota.
  unfold mbind, SM_bind, mret, SM_ret, safe_create_path. cbn [ds_agent ds_fs ds_log]. rewrite Hws, Hr2. cbn [mbind result_bind].
  rewrite !bool_decide_eq_true_2 by done. cbn [andb]. unfold reads. cbn [ds_fs]. rewrite Hex. cbv iota.
  unfold db_mkdirs. cbn [ds_agent ds_fs ds_log]. rewrite Hp, (mkdirs_existing fs ws) by apply Hw.
  unfold with_connection, request, leaving, mbind, SM_bind, mret, SM_ret. cbn [ds_agent ds_fs ds_log].
  pose proof (Hsql fs log _ (or_introl eq_refl)) as Hopen.
  destruct (sqlite_answer fs log (Connect (path_str p) false)) as [fs1 [rows1|e1]]; [|done]. unfold request. cbn [ds_agent ds_fs ds_log].
  pose proof (Hsql fs1 (log ++ [Connect (path_str p) false]) _ (or_intror eq_refl)) as Hleave.
  destruct (sqlite_answer fs1 _ (Leave false)) as [fs2 [rows2|e2]]; [|done].
  do 2 eexists. split; [reflexivity|]. cbn [ds_agent ds_fs ds_log ar_success]. rewrite <- app_assoc. split_and!; [done| |done].
  apply dict_get_set_eq.
Qed.

(** The executor's database action only reads: whatever its payload and the proof, executing it
    sends nothing, or one approved template on a read-only connection to a registered database,
    and leaves the agent as it was. *)
Theorem jwt_action_reads_only (cwd : path) (action_type : string) (payload : dict) (poi : ProofOfIntent)
    (s : DbState) (agent : option DbState) (r : result ActionResult) :
  @execute_jwt_action DbState (database_ops cwd) action_type payload poi (Some s) = (agent, r) ->
  exists s' sent, agent = Some s' /\ ds_agent s' = ds_agent s /\ ds_log s' = ds_log s ++ sent /\
    (sent = [] \/ exists database template p sql params, dict_get database (db_databases (ds_agent s)) = Some p /\
       dict_get template (db_templates (ds_agent s)) = Some sql /\ dialogue (read_only_uri p) true (eq [Execute sql params]) sent).
Proof.
  assert (exists s' sent, Some s = Some s' /\ ds_agent s' = ds_agent s /\ ds_log s' = ds_log s ++ sent /\
    (sent = [] \/ exists database template p sql params, dict_get database (db_databases (ds_agent s)) = Some p /\
       dict_get template (db_templates (ds_agent s)) = Some sql /\ dialogue (read_only_uri p) true (eq [Execute sql params]) sent)) as Hsame.
  { exists s, []. rewrite app_nil_r. auto. }
  unfold execute_jwt_action. case_bool_decide; cbn [negb]; [|by intros [= <- _]]. cbn [db_plan db_execute database_ops].
  destruct (db_agent_plan _ _ _ _) as [plan|e] eqn:Ep; [|by intros [= <- _]].
  apply plan_is_query in Ep; [|reflexivity|vm_compute; reflexivity].
  destruct (db_agent_execute cwd plan poi s) as [s' r'] eqn:E. intros [= <- _].
  apply db_execute_outcome in E as [->|[_ (sent & Hl & Hc & Ha)]]; [done|]. exists s', sent. split_and!; [done| |done|].
  - destruct Ha as [->|(name & p & Ht & _)]; [done|]. congruence.
  - destruct Hc as [|ws p sent Ht|db p table defs sent Ht|db p template q ps sent Ht Hp Hq Hd]; [by left|congruence|congruence|].
    right. by exists db, template, p, q, ps.
Qed.

End Theorems.

(** ** Witnesses *)

Definition demo_connection : SqliteConnection := {| sqlite_answer fs log r := (fs, Ok []) |}.

Definition demo_db_agent : DatabaseAgent := mkDatabaseAgent "database-agent" [("main", ["main.sqlite3"])] (Some ["ws"]) DEFAULT_TEMPLATES.
Definition demo_db_fs : FS := <[["ws"] := NDir]> ∅.
Definition demo_db_state : DbState := mkDbState demo_db_agent demo_db_fs [].

Definition demo_db_plan (action : string) (payload : dict) : ActionPlan :=
  mkActionPlan "database" (Some "database-agent") action payload false false "allow".

Definition demo_db_poi (plan : ActionPlan) : ProofOfIntent :=
  mkProofOfIntent "" "" "" (demo_payload_hash (ap_payload plan)) "" "" "" None None None None None None.

Definition demo_query : ActionPlan :=
  demo_db_plan "db.query" [("database", JStr "main"); ("template", JStr "list_tables"); ("params", JList [])].

Abbreviation demo_db_run plan :=
  (@db_agent_execute demo_hashlib demo_rfc8785 demo_connection [] plan (demo_db_poi plan) demo_db_state).

Lemma db_agent_conversation_witness :
  exists sent, ds_log (demo_db_run demo_query).1 = sent /\ conversation demo_db_agent demo_db_fs demo_query sent.
Proof.
  destruct (@db_agent_conversation demo_hashlib demo_rfc8785 demo_connection [] demo_query (demo_db_poi demo_query) demo_db_state
    (demo_db_run demo_query).1 (demo_db_run demo_query).2) as (sent & Hl & Hc & _); [apply surjective_pairing|].
  exists sent. split; [exact Hl|exact Hc].
Defined.

Lemma db_statements_single_witness : templates_ok (mkDatabaseAgent "database-agent" [("main", ["main.sqlite3"])] (Some ["ws"]) DEFAULT_TEMPLATES).
Proof.
  destruct (@db_statements_single demo_hashlib demo_rfc8785 demo_connection
    (mkDatabaseAgent "database-agent" [("main", ["main.sqlite3"])] (Some ["ws"]) DEFAULT_TEMPLATES)) as [Hok _].
  - apply (@reach_init demo_hashlib demo_rfc8785 demo_connection [] ∅ [("main", "main.sqlite3")] (Some "ws") "database-agent").
    vm_compute; reflexivity.
  - exact Hok.
Defined.

Lemma jwt_action_reads_only_witness :
  exists s' sent, (@execute_jwt_action DbState (@database_ops demo_hashlib demo_rfc8785 demo_connection []) "db"
    [("database", JStr "main"); ("template", JStr "list_tables")] (demo_db_poi demo_query) (Some demo_db_state)).1 = Some s' /\
    ds_log s' = sent.
Proof.
  destruct (@jwt_action_reads_only demo_hashlib demo_rfc8785 demo_connection [] "db"
    [("database", JStr "main"); ("template", JStr "list_tables")] (demo_db_poi demo_query) demo_db_state _ _
    (surjective_pairing _)) as (s' & sent & E & _ & Hl & _).
  exists s', sent. split; [exact E|exact Hl].
Defined.

Definition demo_creation : ActionPlan :=
  demo_db_plan "db.create" [("database", JStr "notes"); ("path", JStr "/ws/notes.sqlite3")].

Lemma demo_workspace_ok : workspace_ok demo_db_fs ["ws"].
Proof.
  unfold workspace_ok, fs_ok, demo_db_fs. split; [split|split; [|split; [|split]]].
  - reflexivity.
  - intros p Hp [n Hn]. apply lookup_insert_Some in Hn as [[<- _]|[_ Hn]]; [reflexivity|discriminate Hn].
  - reflexivity.
  - intros q a t _ Hq. apply lookup_insert_Some in Hq as [[_ Hq]|[_ Hq]]; discriminate Hq.
  - constructor; [split; [discriminate|vm_compute; reflexivity]|constructor].
  - constructor; [split; [discriminate|split; [discriminate|vm_compute; reflexivity]]|constructor].
Qed.

Lemma planned_database_created_witness :
  exists s' res, demo_db_run demo_creation = (s', Ok res) /\
    ds_log s' = [Connect "/ws/notes.sqlite3" false; Leave false].
Proof.
  destruct (@planned_database_created demo_hashlib demo_rfc8785 demo_connection [] "create a database called notes" None
    demo_creation (demo_db_poi demo_creation) demo_db_agent demo_db_fs [] ["ws"] "notes") as (s' & res & E & _ & _ & Hl).
  - reflexivity.
  - exact demo_workspace_ok.
  - vm_compute; reflexivity.
  - reflexivity.
  - reflexivity.
  - vm_compute; reflexivity.
  - vm_compute; reflexivity.
  - left.
  - reflexivity.
  - exists s', res. split; [exact E|exact Hl].
Defined.
