(* ===== verification/AuditAgent.v ===== *)
(** * aor/agents/audit.py: the audit agent

    It runs the portal's pipeline over stored evidence and reports.  The reports hold a dash
    outside the characters this development's strings have; any text may stand for it.  The
    environment of the pipeline (the clocks, the key registry and the anchors it reads) is given
    for each run in order.

    The theorems: an execution changes no ledger, no stored record and no evidence already
    loaded; a tamper report lists exactly the actions with a failed link; replayed nonces are
    exactly those that occur twice; a comparison succeeds exactly on effects that agree on every
    key. *)

From S2P Require Import Prelude PyStr Base64 Json JsonText Crypto Instances Ledger Merkle Sql Verifier Registry Poi AgentBase Executor Tsa Evidence Portal Regex.

Record AuditAgent := mkAuditAgent { au_agent_id : string; au_has_store : bool }.

Definition audit_capabilities : list string :=
  ["audit.verify_action"; "audit.verify_eml"; "audit.explain_failure"; "audit.list_tampered"; "audit.detect_replay";
   "audit.generate_report"; "audit.compare_effect"].

Definition audit_words : list string := ["audit"; "verify"; "tamper"; "replay"; "ledger"; "proof"; "report"].

Definition audit_can_handle (request : string) : bool :=
  if negb (truthy_str request) || negb (truthy_str (str_strip request)) then false
  else bool_decide (is_Some (re_search (keywords audit_words) request)).

(** ** Planning *)

Definition id_words (same : ascii -> ascii -> bool) : regex :=
  Alt (Cat (literal same "action") (Cat (Rep (char_in "_ -") 0 (Some 1%nat)) (literal same "id"))) (literal same "id").

Definition mentions_id (lowered : string) : bool :=
  bool_decide (is_Some (re_search (Cat WordBoundary (Cat (Group 1 (id_words char_is)) WordBoundary)) lowered)).

Definition audit_action_type_from_request (request : string) : string :=
  let lowered := str_lower request in
  let has w := str_contains w lowered in
  if has "replay" || has "nonce" then "audit.detect_replay"
  else if has "tamper" || has "changed" then "audit.list_tampered"
  else if has "report" && mentions_id lowered then "audit.generate_report"
  else if has "explain" || has "failed" then "audit.explain_failure"
  else if mentions_id lowered then "audit.verify_action"
  else if has "eml" || has "email" then "audit.verify_eml"
  else if has "audit" then "audit.list_tampered"
  else "audit.verify_action".

Definition action_id_pattern : regex :=
  Cat (id_words same_letter) (Cat (Star is_space) (Cat (Rep (char_in ":=") 0 (Some 1%nat)) (Cat (Star is_space)
    (Group 1 (Plus (fun c => is_word c || char_in "@.<>:/-" c)))))).

Definition extract_action_id (request : string) : option string := re_search action_id_pattern request ≫= group 1.

(** [dict(values.get("payload") or {})]. *)
Definition payload_dict (j : option json) : result dict :=
  match j with
  | None => Ok []
  | Some v =>
      if negb (json_truthy v) then Ok []
      else match v with
           | JObj d => Ok d
           | JStr _ => raise ValueError "dictionary update sequence element #0 has length 1; 2 is required"
           | JList _ => raise OutsideModel "a dictionary from a list"
           | JBool _ => raise TypeError "'bool' object is not iterable"
           | _ => raise TypeError "'int' object is not iterable"
           end
  end.

Definition id_actions : list string :=
  ["audit.verify_action"; "audit.explain_failure"; "audit.generate_report"; "audit.compare_effect"].

Definition audit_plan (self : AuditAgent) (request : string) (context : option dict) : result ActionPlan :=
  _ ← raise_if (negb (truthy_str request) || negb (truthy_str (str_strip request))) AuditAgentError "audit_request_empty";
  let values := default [] context in
  match get_or "action_type" values (JStr (audit_action_type_from_request request)) with
  | JStr action_type =>
      _ ← raise_if (negb (bool_decide (action_type ∈ audit_capabilities))) AuditAgentError "audit_action_type_required";
      payload ← payload_dict (dict_get "payload" values);
      let action_id := get_or "action_id" values (opt_str (extract_action_id request)) in
      payload ← (if bool_decide (action_type ∈ id_actions) then
                   _ ← raise_if (negb (json_truthy action_id)) AuditAgentError "audit_action_id_required";
                   Ok (dict_set "action_id" action_id payload)
                 else Ok payload);
      _ ← raise_if (bool_decide (action_type = "audit.verify_eml") && negb (bool_decide (is_Some (dict_get "eml_bytes_b64" payload))))
            AuditAgentError "audit_eml_required";
      ActionPlan_init (mkActionPlan "audit" (Some (au_agent_id self)) action_type payload false false "allow")
  | _ => raise AuditAgentError "audit_action_type_required"
  end.

(** ** Comparing *)

(** [==] of two values: a boolean is the number it stands for, and dictionaries are compared by
    key. *)
Fixpoint py_eq (a b : json) : bool :=
  match a, b with
  | JNull, JNull => true
  | JBool x, JBool y => Bool.eqb x y
  | JBool x, JInt y => Z.b2z x =? y
  | JInt x, JBool y => x =? Z.b2z y
  | JInt x, JInt y => x =? y
  | JStr x, JStr y => bool_decide (x = y)
  | JList l, JList k =>
      (fix all (l k : list json) := match l, k with
         | [], [] => true | x :: l, y :: k => py_eq x y && all l k | _, _ => false end) l k
  | JObj d, JObj e =>
      (length d =? length e)%nat
      && (fix all (d : dict) := match d with
           | [] => true
           | (k, v) :: d => match dict_get k e with Some w => py_eq v w | None => false end && all d
           end) d
  | _, _ => false
  end%Z.

Definition sorted_strings (l : list string) : list string := (sort_keys ((fun s => (s, JNull)) <$> l)).*1.

(** [d.get(key)]. *)
Definition get_value (key : string) (d : dict) : json := default JNull (dict_get key d).

Definition effect_mismatches (observed expected : dict) : list string :=
  sorted_strings (filter (fun key => py_eq (get_value key observed) (get_value key expected) = false)
    (remove_dups (observed.*1 ++ expected.*1))).

(** [Counter(nonces)]: the values that occur more than once, sorted. *)
Definition replayed (nonces : list string) : list string :=
  sorted_strings (filter (fun n => (1 < length (filter (fun m => m = n) nonces))%nat) (remove_dups nonces)).

(** ** Results *)

Definition link_json (l : LinkResult) : json :=
  JObj [("link_name", JStr (lr_link_name l)); ("passed", JBool (lr_passed l)); ("detail", JStr (lr_detail l));
        ("status", JStr (lr_status l))].

Definition opt_int (o : option Z) : json := match o with Some z => JInt z | None => JNull end.
Definition opt_bool (o : option bool) : json := match o with Some b => JBool b | None => JNull end.

Definition merkle_json (v : MerkleTreeView) : json :=
  let node n := JObj [("hash", JStr (mn_hash n)); ("entry_id", opt_int (mn_entry_id n)); ("duplicated", JBool (mn_duplicated n))] in
  let level l := JObj [("level", JInt (Z.of_nat (ml_level l))); ("label", JStr (ml_label l)); ("nodes", JList (node <$> ml_nodes l))] in
  JObj [("root", JStr (mv_root v)); ("signed_root", opt_str (mv_signed_root v));
        ("root_matches_signed", opt_bool (mv_root_matches_signed v)); ("leaf_count", JInt (Z.of_nat (mv_leaf_count v)));
        ("proof_entry_id", opt_int (mv_proof_entry_id v)); ("proof_valid", opt_bool (mv_proof_valid v));
        ("levels", JList (level <$> mv_levels v))].

(** [trace.model_dump(mode="json")]. *)
Definition trace_json (t : VerificationTrace) : json :=
  JObj [("action_id", opt_str (vt_action_id t)); ("agent_type", opt_str (vt_agent_type t)); ("agent_id", opt_str (vt_agent_id t));
        ("action_type", opt_str (vt_action_type t)); ("policy_decision", opt_str (vt_policy_decision t));
        ("overall_valid", JBool (vt_overall_valid t)); ("links", JList (link_json <$> vt_links t));
        ("timestamp_verified", JBool (vt_timestamp_verified t));
        ("merkle_tree", match vt_merkle_tree t with Some v => merkle_json v | None => JNull end)].

Definition lf : string := String (chr 10) EmptyString.

(** [dash] is the text of the dash, a code point above 255. *)
Definition markdown_report (dash : string) (t : VerificationTrace) : string :=
  str_join lf
    (["# Agent-of-Record Audit Report"; ""; "- Action ID: `" +:+ (or_str (vt_action_id t) "unknown" +:+ "`");
      "- Overall valid: `" +:+ ((if vt_overall_valid t then "True" else "False") +:+ "`"); ""; "## Verification checks"; ""]
     ++ ((fun l => "- **" +:+ (lr_link_name l +:+ ("** " +:+ (dash +:+ (" `" +:+ (lr_status l +:+ ("` " +:+ (dash +:+
            (" " +:+ lr_detail l))))))))) <$> vt_links t)) +:+ lf.

(** [[link.link_name for link in trace.links if not link.passed and link.status == "failed"]]. *)
Definition failed_links (t : VerificationTrace) : list string :=
  lr_link_name <$> filter (fun l => lr_passed l = false /\ lr_status l = "failed") (vt_links t).

Definition tamper_report (tampered : list (string * list string)) : string :=
  "# Agent-of-Record Tamper Report" +:+ (lf +:+ (lf +:+
    match tampered with
    | [] => "No tampered actions detected." +:+ lf
    | _ => str_join "" ((fun item => "- `" +:+ (item.1 +:+ ("` failed: " +:+ (str_join ", " item.2 +:+ lf)))) <$> tampered)
    end)).

(** ** Executing *)

Section Executing.
Context `{Hashlib, Rfc8785, Cryptography, Sqlite, EmailLib, EnvelopeModel, PoiModel, Rfc3161}.
Context {P : Type} `{!EvidencePersistence P}.
Variable dash : string.

Abbreviation Run := (EvidenceState P * result ActionResult)%type.

Definition audit_required_string (payload : dict) (key : string) : result string :=
  match dict_get key payload with
  | Some (JStr s) => if truthy_str s then Ok s else raise AuditAgentError (key +:+ "_required")
  | _ => raise AuditAgentError (key +:+ "_required")
  end.

(** The trace of one run, used by [f]. *)
Definition with_trace (r : EvidenceState P * result VerificationTrace) (f : VerificationTrace -> ActionResult) : Run :=
  (r.1, t ← r.2; Ok (f t)).

Definition trace_result (explain : bool) (t : VerificationTrace) : ActionResult :=
  mkActionResult (vt_overall_valid t) (vt_action_id t)
    (if explain
     then [("action_id", opt_str (vt_action_id t));
           ("failed_checks", JList (link_json <$> filter (fun l => lr_passed l = false) (vt_links t)))]
     else [("trace", trace_json t); ("report_markdown", JStr (markdown_report dash t))])
    [("overall_valid", JBool (vt_overall_valid t))].

(** The loop of a tamper report: the actions with a failed link. *)
Fixpoint scan_tampered (envs : nat -> PipelineEnv) (i : nat) (s : EvidenceState P) (evidence : list ActionEvidence)
    : EvidenceState P * result (list (string * list string)) :=
  match evidence with
  | [] => (s, Ok [])
  | ev :: rest =>
      match run_verification (envs i) s None (Some (ev_action_id ev)) with
      | (s, Raise e) => (s, Raise e)
      | (s, Ok t) =>
          let '(s, rest) := scan_tampered envs (S i) s rest in
          (s, l ← rest; Ok (match failed_links t with [] => l | f => (ev_action_id ev, f) :: l end))
      end
  end.

Definition tampered_json (item : string * list string) : json :=
  JObj [("action_id", JStr item.1); ("failed_checks", JList (JStr <$> item.2))].

Definition list_tampered (envs : nat -> PipelineEnv) (s : EvidenceState P) (evidence : list ActionEvidence) : Run :=
  let '(s, l) := scan_tampered envs 0 s evidence in
  (s, l ← l; Ok (mkActionResult true None
        [("actions", JList (tampered_json <$> l)); ("report_markdown", JStr (tamper_report l))]
        [("count", JInt (Z.of_nat (length l)))])).

Definition detect_replay (evidence : list ActionEvidence) : ActionResult :=
  let duplicates := replayed (se_nonce ∘ ev_user_envelope <$> evidence) in
  mkActionResult true None [("replayed_nonces", JList (JStr <$> duplicates))] [("count", JInt (Z.of_nat (length duplicates)))].

Definition compare_effect (payload : dict) : result ActionResult :=
  match dict_get "observed_effect" payload, dict_get "expected_effect" payload with
  | Some (JObj observed), Some (JObj expected) =>
      let mismatches := effect_mismatches observed expected in
      Ok (mkActionResult (bool_decide (mismatches = [])) None [("mismatches", JList (JStr <$> mismatches))] [("compared", JBool true)])
  | _, _ => raise AuditAgentError "observed_and_expected_effect_required"
  end.

Definition all_evidence (self : AuditAgent) (s : EvidenceState P) : result (list ActionEvidence) :=
  if au_has_store self then Ok (evidence_all s) else raise AuditAgentError "evidence_store_required".

Definition trace_actions : list string := ["audit.verify_action"; "audit.explain_failure"; "audit.generate_report"].

(** The body of the [try]. *)
Definition audit_checked (self : AuditAgent) (envs : nat -> PipelineEnv) (s : EvidenceState P) (plan : ActionPlan) : Run :=
  let action_type := ap_action_type plan in
  if bool_decide (action_type ∈ trace_actions) then
    match audit_required_string (ap_payload plan) "action_id" with
    | Raise e => (s, Raise e)
    | Ok id => with_trace (run_verification (envs 0%nat) s None (Some id))
                 (trace_result (bool_decide (action_type = "audit.explain_failure")))
    end
  else if bool_decide (action_type = "audit.verify_eml") then
    match (t ← audit_required_string (ap_payload plan) "eml_bytes_b64"; b64decode true t) with
    | Raise e => (s, Raise e)
    | Ok raw => with_trace (run_verification (envs 0%nat) s (Some raw) None) (trace_result false)
    end
  else if bool_decide (action_type = "audit.list_tampered") then
    match all_evidence self s with
    | Raise e => (s, Raise e)
    | Ok evidence => list_tampered envs s evidence
    end
  else if bool_decide (action_type = "audit.detect_replay") then
    (s, evidence ← all_evidence self s; Ok (detect_replay evidence))
  else if bool_decide (action_type = "audit.compare_effect") then (s, compare_effect (ap_payload plan))
  else (s, Ok (failure "unsupported_action_type")).

Definition audit_execute (self : AuditAgent) (envs : nat -> PipelineEnv) (s : EvidenceState P) (plan : ActionPlan)
    (poi : option ProofOfIntent) : Run :=
  if negb (bool_decide (ap_agent_type plan = "audit")) then (s, Ok (failure "agent_type_mismatch"))
  else if negb (bool_decide (ap_agent_id plan = None \/ ap_agent_id plan = Some (au_agent_id self)))
  then (s, Ok (failure "agent_id_mismatch"))
  else if negb (bool_decide (ap_action_type plan ∈ audit_capabilities)) then (s, Ok (failure "unsupported_action_type"))
  else if negb (bool_decide (ap_policy_decision plan = "allow")) then (s, Ok (failure "policy_decision_rejected"))
  else
    match (match poi with
           | None => Ok true
           | Some poi => h ← hash_hex (JObj (ap_payload plan)); Ok (bool_decide (h = poi_action_payload_hash poi))
           end) with
    | Raise e => (s, Raise e)
    | Ok false => (s, Ok (failure "action_payload_hash_mismatch"))
    | Ok true =>
        let '(s, r) := audit_checked self envs s plan in
        (s, try_except r [AuditAgentError; ValueError; TypeError] (fun exc => Ok (failure (exn_msg exc))))
    end.

End Executing.

(** ** Lemmas *)

Section Reading.
Context `{Hashlib, Rfc8785, Cryptography, Sqlite, EmailLib, EnvelopeModel, PoiModel, Rfc3161}.
Context {P : Type} `{!EvidencePersistence P}.

(** What reading may do to the store: load records under new names, with ledgers of their own. *)
Definition loads_only (s s' : EvidenceState P) : Prop :=
  es_ledgers s ⊆ es_ledgers s' /\ es_persistence s' = es_persistence s /\
  forall id ev, dict_get id (es_evidence s) = Some ev -> dict_get id (es_evidence s') = Some ev.

#[export] Instance loads_only_preorder : PreOrder loads_only.
Proof. split; [by intros s; split_and!|]. intros x y z (? & ? & ?) (? & ? & ?). split_and!; [by etransitivity|congruence|auto]. Qed.

Lemma evidence_get_loads (s : EvidenceState P) id : loads_only s (evidence_get s id).1.
Proof.
  unfold evidence_get. destruct (dict_get id (es_evidence s)) as [ev|] eqn:E; [done|].
  destruct (es_persistence s) as [p|] eqn:Ep; [|done]. destruct (get_action_evidence p id) as [[payload|]|]; [|done..].
  destruct (deserialize _ id payload) as [[ev l]|]; [|done]. split_and!; cbn [es_ledgers es_persistence es_evidence fst].
  - apply insert_subseteq, fresh_loc_fresh.
  - congruence.
  - intros id' ev' Hid. destruct (decide (id' = id)) as [->|]; [congruence|]. by rewrite dict_get_set_ne.
Qed.

Lemma lookup_evidence_loads (s : EvidenceState P) id ev : loads_only s (lookup_evidence s id ev).1.
Proof. destruct id as [id|]; [|done]. cbn. destruct (truthy_str id); [apply evidence_get_loads|done]. Qed.

Lemma extract_loads (s : EvidenceState P) eml id : loads_only s (extract s eml id).1.
Proof.
  unfold extract. pose proof (lookup_evidence_loads s id None) as G1. destruct (lookup_evidence s id None) as [s1 x1].
  cbn [fst] in G1. destruct (_ ← x1; _) as [[[ev parsed] link]|e]; [|done].
  match goal with |- context [lookup_evidence s1 ?i ev] =>
    pose proof (lookup_evidence_loads s1 i ev) as G2; destruct (lookup_evidence s1 i ev) as [s2 x2] end.
  cbn [fst] in *. by etransitivity.
Qed.

Lemma run_loads env (s : EvidenceState P) eml id : loads_only s (run_verification env s eml id).1.
Proof. rewrite run_verification_eq. pose proof (extract_loads s eml id) as Hx. by destruct (extract s eml id). Qed.

(** A run on an action already loaded changes nothing. *)
Lemma run_loaded env (s : EvidenceState P) id ev :
  dict_get id (es_evidence s) = Some ev -> (run_verification env s None (Some id)).1 = s.
Proof.
  intros Hid. assert (forall x, (lookup_evidence s (Some id) x).1 = s) as Hl.
  { intros x. cbn. destruct (truthy_str id); [|done]. unfold evidence_get. by rewrite Hid. }
  rewrite run_verification_eq. unfold extract. pose proof (Hl None) as G1. destruct (lookup_evidence s (Some id) None) as [s1 x1].
  cbn [fst] in G1. subst s1. destruct (_ ← x1; _) as [[[x parsed] link]|e]; [|done].
  assert ((if truthy_opt (Some id) then Some id else Some id) = Some id) as Eid by by destruct (truthy_opt _).
  rewrite Eid. pose proof (Hl x) as G2. destruct (lookup_evidence s (Some id) x) as [s2 x2]. cbn [fst] in G2. by subst s2.
Qed.

End Reading.

(** ** Sorted lists of names *)

Definition ascending (a b : string) : Prop := String.leb a b = true.

Lemma sorted_strings_perm l : sorted_strings l ≡ₚ l.
Proof.
  unfold sorted_strings. rewrite sort_keys_perm. rewrite <- list_fmap_compose. by rewrite list_fmap_id.
Qed.

Lemma insert_key_sorted kv d :
  Sorted (fun a b => ascending a.1 b.1) d -> Sorted (fun a b => ascending a.1 b.1) (Json.insert_key kv d).
Proof.
  induction 1 as [|x d Hd IH Hx]; cbn [Json.insert_key]; [by repeat constructor|].
  destruct (String.leb kv.1 x.1) eqn:E; [by repeat constructor|]. constructor; [done|].
  assert (ascending x.1 kv.1) as Hxk by by destruct (String.leb_total kv.1 x.1) as [Hl|Hl]; [congruence|].
  destruct d as [|y d]; cbn [Json.insert_key]; [by constructor|]. destruct (String.leb kv.1 y.1); constructor; [done|].
  by inversion Hx.
Qed.

Lemma sorted_strings_sorted l : Sorted ascending (sorted_strings l).
Proof.
  unfold sorted_strings. assert (Sorted (fun a b => ascending a.1 b.1) (sort_keys ((fun s => (s, JNull)) <$> l))) as Hs.
  { induction ((fun s : string => (s, JNull)) <$> l) as [|kv d IH]; cbn; [constructor|by apply insert_key_sorted]. }
  induction Hs as [|x d Hd IH Hx]; cbn; [constructor|]. constructor; [done|]. destruct Hx; by constructor.
Qed.

Lemma effect_mismatches_in observed expected key :
  key ∈ effect_mismatches observed expected <-> py_eq (get_value key observed) (get_value key expected) = false.
Proof.
  unfold effect_mismatches. rewrite sorted_strings_perm, list_elem_of_filter, elem_of_remove_dups.
  split; [by intros [? _]|]. intros Hne. split; [done|]. rewrite elem_of_app.
  assert (forall d, key ∉ d.*1 -> get_value key d = JNull) as Hno.
  { intros d Hd. unfold get_value. induction d as [|[k v] d IH]; [done|]. cbn in *. apply not_elem_of_cons in Hd as [Hk Hd].
    rewrite decide_False by done. by apply IH. }
  destruct (decide (key ∈ observed.*1)); [by left|]. destruct (decide (key ∈ expected.*1)); [by right|].
  by rewrite !Hno in Hne.
Qed.

(** A value occurs more than once when it is at two positions. *)
Lemma twice_positions (l : list string) n :
  (1 < length (filter (fun m => m = n) l))%nat <-> exists i j, i ≠ j /\ l !! i = Some n /\ l !! j = Some n.
Proof.
  assert (forall l : list string, n ∈ l <-> (0 < length (filter (fun m => m = n) l))%nat) as Hone.
  { intros k. split.
    - intros Hin. destruct (filter (fun m => m = n) k) eqn:E; [|cbn; lia].
      assert (n ∈ filter (fun m => m = n) k) as Hn by by apply list_elem_of_filter. rewrite E in Hn. by apply not_elem_of_nil in Hn.
    - intros Hlen. destruct (filter (fun m => m = n) k) as [|x f] eqn:E; [cbn in Hlen; lia|].
      assert (x ∈ filter (fun m => m = n) k) as Hx by (rewrite E; by left). by apply list_elem_of_filter in Hx as [-> ?]. }
  induction l as [|x l IH]; [split; [cbn; lia|by intros (i & j & _ & ? & _)]|].
  destruct (decide (x = n)) as [->|Hx].
  - rewrite filter_cons_True by done. cbn [length]. rewrite <- Nat.succ_lt_mono, <- Hone, list_elem_of_lookup. split.
    + intros [i Hi]. by exists 0%nat, (S i).
    + intros ([|i] & [|j] & Hij & Hi & Hj); [done|by exists j|by exists i|by exists i].
  - rewrite filter_cons_False, IH by done. split.
    + intros (i & j & Hij & Hi & Hj). exists (S i), (S j). split_and!; [congruence|done|done].
    + intros ([|i] & [|j] & Hij & Hi & Hj); cbn in Hi, Hj; try congruence. exists i, j. split_and!; [congruence|done|done].
Qed.

Lemma replayed_in nonces n :
  n ∈ replayed nonces <-> exists i j, i ≠ j /\ nonces !! i = Some n /\ nonces !! j = Some n.
Proof.
  unfold replayed. rewrite sorted_strings_perm, list_elem_of_filter, elem_of_remove_dups, twice_positions.
  split; [by intros [? _]|]. intros (i & j & Hij & Hi & Hj). split; [eauto 10|]. by apply (list_elem_of_lookup_2 _ i).
Qed.

Lemma replayed_nodup nonces : NoDup (replayed nonces).
Proof. unfold replayed. rewrite sorted_strings_perm. apply NoDup_filter, NoDup_remove_dups. Qed.

(** ** Scans *)

Section Scans.
Context `{Hashlib, Rfc8785, Cryptography, Sqlite, EmailLib, EnvelopeModel, PoiModel, Rfc3161}.
Context {P : Type} `{!EvidencePersistence P}.
Variable dash : string.

(** Every record is stored under its own action. *)
Definition store_keyed (s : EvidenceState P) : Prop :=
  NoDup (es_evidence s).*1 /\ Forall (fun kv => ev_action_id kv.2 = kv.1) (es_evidence s).

Lemma store_keyed_get s ev : store_keyed s -> ev ∈ evidence_all s -> dict_get (ev_action_id ev) (es_evidence s) = Some ev.
Proof.
  intros [Hnd Hk] ([k e] & -> & Hin)%list_elem_of_fmap. apply dict_get_elem; [done|].
  rewrite Forall_forall in Hk. specialize (Hk _ Hin). cbn in *. by rewrite Hk.
Qed.

Lemma scan_loads envs i (s : EvidenceState P) evidence :
  loads_only s (scan_tampered envs i s evidence).1.
Proof.
  revert i s. induction evidence as [|ev rest IH]; intros i s; cbn [scan_tampered]; [done|].
  pose proof (run_loads (envs i) s None (Some (ev_action_id ev))) as Hr.
  destruct (run_verification (envs i) s None _) as [s1 [t|e]]; cbn [fst] in *; [|done].
  specialize (IH (S i) s1). destruct (scan_tampered envs (S i) s1 rest) as [s2 r]. cbn [fst] in *.
  by etransitivity.
Qed.

(** Over records that are loaded, a scan lists exactly those with a failed link. *)
Lemma scan_exact envs i (s : EvidenceState P) evidence s' l :
  (forall ev, ev ∈ evidence -> dict_get (ev_action_id ev) (es_evidence s) = Some ev) ->
  scan_tampered envs i s evidence = (s', Ok l) ->
  s' = s /\ forall id checks, (id, checks) ∈ l <-> exists k ev t, evidence !! k = Some ev /\ ev_action_id ev = id /\
    run_verification (envs (i + k)%nat) s None (Some id) = (s, Ok t) /\ failed_links t = checks /\ checks ≠ [].
Proof.
  revert i s' l. induction evidence as [|ev rest IH]; intros i s' l Hload; cbn [scan_tampered].
  - intros [= <- <-]. split; [done|]. intros id checks. split; [by intros ?%not_elem_of_nil|by intros (k & ? & ? & ? & _)].
  - pose proof (run_loaded (envs i) s _ ev (Hload ev (list_elem_of_here _ _))) as Hs.
    destruct (run_verification (envs i) s None _) as [s1 [t|e]] eqn:Er; cbn [fst] in Hs; subst s1; [|done].
    destruct (scan_tampered envs (S i) s rest) as [s2 [l2|e]] eqn:Es; [|done]. intros [= <- Hl].
    destruct (IH (S i) s2 l2) as [-> Hin]; [intros x Hx; apply Hload; by right|done|]. split; [done|]. intros id checks.
    assert ((id, checks) ∈ l <-> (ev_action_id ev = id /\ failed_links t = checks /\ checks ≠ []) \/ (id, checks) ∈ l2) as ->.
    { destruct (failed_links t) as [|x f] eqn:Ef; subst l.
      - split; [auto|]. by intros [(_ & <- & ?)|?].
      - rewrite elem_of_cons. split; [intros [[= -> ->]|?]; auto|]. intros [(<- & <- & _)|?]; auto. }
    rewrite Hin. split.
    + intros [(<- & <- & Hne)|(k & ev' & t' & Hk & Hid & Hrun & Hf & Hne)].
      * exists 0%nat, ev, t. rewrite Nat.add_0_r. split_and!; done.
      * exists (S k), ev', t'. rewrite Nat.add_succ_r. split_and!; done.
    + intros ([|k] & ev' & t' & Hk & Hid & Hrun & Hf & Hne).
      * left. injection Hk as <-. rewrite Nat.add_0_r in Hrun. subst id. rewrite Er in Hrun. injection Hrun as <-. done.
      * right. exists k, ev', t'. rewrite Nat.add_succ_r in Hrun. split_and!; done.
Qed.

Lemma checked_loads self envs (s : EvidenceState P) plan : loads_only s (audit_checked dash self envs s plan).1.
Proof.
  assert (forall (x : result ActionResult), loads_only s ((s, x) : EvidenceState P * result ActionResult).1) as Hsame
    by (intros x; apply loads_only_preorder).
  unfold audit_checked, with_trace. case_bool_decide.
  - destruct (audit_required_string _ _); [apply run_loads|apply Hsame].
  - case_bool_decide; [destruct (_ ← _; _); [apply run_loads|apply Hsame]|].
    case_bool_decide; [|case_bool_decide; [apply Hsame|case_bool_decide; apply Hsame]].
    destruct (all_evidence self s) as [evidence|]; [|apply Hsame]. unfold list_tampered.
    pose proof (scan_loads envs 0 s evidence) as Hl. by destruct (scan_tampered envs 0 s evidence).
Qed.

(** An execution that reports success ran the body to its result. *)
Lemma audit_success self envs (s s' : EvidenceState P) plan poi res :
  audit_execute dash self envs s plan poi = (s', Ok res) -> ar_success res = true ->
  audit_checked dash self envs s plan = (s', Ok res).
Proof.
  assert (forall f, (s, Ok (failure f)) = (s', Ok res) -> ar_success res = true -> False) as Hf by by intros f [= _ <-].
  unfold audit_execute. intros E Hs. do 4 (case_bool_decide; cbn [negb] in E; [|by destruct (Hf _ E Hs)]).
  destruct (match poi with None => Ok true | Some _ => _ end) as [[]|]; [|by destruct (Hf _ E Hs)|done].
  destruct (audit_checked dash self envs s plan) as [s1 r]. injection E as -> Er. f_equal.
  unfold try_except in Er. destruct r as [x|e]; [done|]. destruct (catches _ e); [|done]. injection Er as <-. done.
Qed.

End Scans.

(** ** Theorems *)

Section Theorems.
Context `{Hashlib, Rfc8785, Cryptography, Sqlite, EmailLib, EnvelopeModel, PoiModel, Rfc3161}.
Context {P : Type} `{!EvidencePersistence P}.
Variable dash : string.

Lemma execute_loads (self : AuditAgent) (envs : nat -> PipelineEnv) (s s' : EvidenceState P) (plan : ActionPlan)
    (poi : option ProofOfIntent) (r : result ActionResult) :
  audit_execute dash self envs s plan poi = (s', r) -> loads_only s s'.
Proof.
  assert (forall x, (s, x) = (s', r) -> loads_only s s') as Hsame by (intros x [= <- _]; apply loads_only_preorder).
  unfold audit_execute.
  do 4 (case_bool_decide; cbn [negb]; [|by apply Hsame]).
  destruct (match poi with None => Ok true | Some _ => _ end) as [[]|]; [|by apply Hsame..].
  pose proof (checked_loads dash self envs s plan) as Hl. destruct (audit_checked dash self envs s plan) as [s1 x].
  by intros [= <- _].
Qed.

(** Auditing is read-only: whatever the plan and the proof, the ledgers that were there, the
    persistent store and the records already loaded are unchanged; an execution can only load
    further records, with ledgers of their own. *)
Theorem audit_read_only (self : AuditAgent) (envs : nat -> PipelineEnv) (s s' : EvidenceState P) (plan : ActionPlan)
    (poi : option ProofOfIntent) (r : result ActionResult) :
  audit_execute dash self envs s plan poi = (s', r) ->
  es_ledgers s ⊆ es_ledgers s' /\ es_persistence s' = es_persistence s /\
  forall id ev, dict_get id (es_evidence s) = Some ev -> dict_get id (es_evidence s') = Some ev.
Proof. apply execute_loads. Qed.

(** C33. A tamper report over a store that keeps each record under its action: it changes nothing,
    and lists an action, with the names of its failed links, exactly when a record of it is
    stored and the run of the pipeline on it has a failed link. *)
Theorem tamper_report_exact (self : AuditAgent) (envs : nat -> PipelineEnv) (s s' : EvidenceState P) (plan : ActionPlan)
    (poi : option ProofOfIntent) (res : ActionResult) :
  store_keyed s -> ap_action_type plan = "audit.list_tampered" ->
  audit_execute dash self envs s plan poi = (s', Ok res) -> ar_success res = true ->
  s' = s /\ exists l, dict_get "actions" (ar_details res) = Some (JList (tampered_json <$> l)) /\
    dict_get "count" (ar_observed_effect res) = Some (JInt (Z.of_nat (length l))) /\
    forall id checks, (id, checks) ∈ l <-> exists k ev t, evidence_all s !! k = Some ev /\ ev_action_id ev = id /\
      run_verification (envs k) s None (Some id) = (s, Ok t) /\ failed_links t = checks /\ checks ≠ [].
Proof.
  intros Hk Ht E Hs. apply audit_success in E; [|done]. unfold audit_checked in E. rewrite Ht in E.
  rewrite !bool_decide_eq_false_2 in E by (done || by apply (bool_decide_unpack _)).
  rewrite bool_decide_eq_true_2 in E by done. unfold all_evidence in E. destruct (au_has_store self); [|done].
  unfold list_tampered in E. destruct (scan_tampered envs 0 s (evidence_all s)) as [s1 [l|e]] eqn:Esc; [|done].
  injection E as -> <-. apply scan_exact in Esc as [-> Hl]; [|intros ev Hev; by apply store_keyed_get].
  split; [done|]. exists l. split_and!; [done..|]. exact Hl.
Qed.

(** Replay detection: the reported nonces are exactly those that two different records of the
    store carry, each once, in ascending order. *)
Theorem replay_report_exact (self : AuditAgent) (envs : nat -> PipelineEnv) (s s' : EvidenceState P) (plan : ActionPlan)
    (poi : option ProofOfIntent) (res : ActionResult) :
  ap_action_type plan = "audit.detect_replay" ->
  audit_execute dash self envs s plan poi = (s', Ok res) -> ar_success res = true ->
  s' = s /\ exists l, dict_get "replayed_nonces" (ar_details res) = Some (JList (JStr <$> l)) /\
    NoDup l /\ Sorted ascending l /\
    forall n, n ∈ l <-> exists i j e1 e2, i ≠ j /\ evidence_all s !! i = Some e1 /\ evidence_all s !! j = Some e2 /\
      se_nonce (ev_user_envelope e1) = n /\ se_nonce (ev_user_envelope e2) = n.
Proof.
  intros Ht E Hs. apply audit_success in E; [|done]. unfold audit_checked in E. rewrite Ht in E.
  rewrite !bool_decide_eq_false_2 in E by (done || by apply (bool_decide_unpack _)).
  rewrite bool_decide_eq_true_2 in E by done. unfold all_evidence in E. destruct (au_has_store self); [|done].
  cbn [mbind result_bind] in E. injection E as <- <-. split; [done|]. eexists. split; [reflexivity|].
  split; [apply replayed_nodup|]. split; [apply sorted_strings_sorted|]. intros n. rewrite replayed_in. split.
  - intros (i & j & Hij & Hi & Hj). rewrite list_lookup_fmap in Hi, Hj.
    apply fmap_Some in Hi as (e1 & Hi & ->), Hj as (e2 & Hj & En). exists i, j, e1, e2. split_and!; done.
  - intros (i & j & e1 & e2 & Hij & Hi & Hj & G1 & G2). exists i, j. rewrite !list_lookup_fmap, Hi, Hj. cbn.
    split_and!; [done|by rewrite G1|by rewrite G2].
Qed.

(** Comparing effects: an execution succeeds exactly when the observed and the expected effect
    agree on every key, a missing key counting as none; and the mismatches it reports are
    exactly the keys on which they differ. *)
Theorem compare_effect_exact (observed expected payload : dict) :
  dict_get "observed_effect" payload = Some (JObj observed) -> dict_get "expected_effect" payload = Some (JObj expected) ->
  exists res, compare_effect payload = Ok res /\
    (ar_success res = true <-> forall key, py_eq (get_value key observed) (get_value key expected) = true) /\
    exists l, dict_get "mismatches" (ar_details res) = Some (JList (JStr <$> l)) /\ Sorted ascending l /\
      forall key, key ∈ l <-> py_eq (get_value key observed) (get_value key expected) = false.
Proof.
  intros Ho He. unfold compare_effect. rewrite Ho, He. eexists. split; [reflexivity|]. cbn [ar_success ar_details]. split.
  - rewrite bool_decide_eq_true. split.
    + intros Hnil key. destruct (py_eq _ _) eqn:E; [done|]. apply effect_mismatches_in in E. rewrite Hnil in E. by apply not_elem_of_nil in E.
    + intros Hall. destruct (effect_mismatches observed expected) as [|k l] eqn:E; [done|].
      assert (k ∈ effect_mismatches observed expected) as Hk by (rewrite E; by left).
      apply effect_mismatches_in in Hk. by rewrite Hall in Hk.
  - eexists. split; [reflexivity|]. split; [apply sorted_strings_sorted|]. intros key. apply effect_mismatches_in.
Qed.

End Theorems.

(** The pattern of an action identifier is not anchored at a word: it is found inside another. *)
Lemma action_id_inside_word :
  extract_action_id "verify the evidence for action_id a1" = Some "ence".
Proof. vm_compute; reflexivity. Qed.

(** ** Witnesses *)

Section Witnesses.
#[local] Existing Instance demo_hashlib.
#[local] Existing Instance demo_rfc8785.
#[local] Existing Instance demo_cryptography.
#[local] Existing Instance demo_sqlite.
#[local] Existing Instance demo_poi_model.
#[local] Existing Instance demo_envelope_model.
#[local] Existing Instance demo_persistence.
#[local] Existing Instance demo_rfc3161.
#[local] Existing Instance demo_email_lib.

Definition demo_audit : AuditAgent := mkAuditAgent "audit-agent" true.

Definition demo_audit_plan (action : string) : ActionPlan := mkActionPlan "audit" None action [] false false "allow".

(** The store of the demonstration, over a ledger that was emptied. *)
Definition demo_audit_state : EvidenceState (gmap string string) := demo_portal_state [].

Definition demo_audit_run (action : string) : EvidenceState (gmap string string) * result ActionResult :=
  audit_execute "-" demo_audit (fun _ => demo_portal_env) demo_audit_state (demo_audit_plan action) None.

Definition demo_audit_response (action : string) : ActionResult :=
  match (demo_audit_run action).2 with Ok r => r | Raise _ => failure "" end.

Lemma demo_audit_ok action :
  is_ok (demo_audit_run action).2 = true ->
  demo_audit_run action = ((demo_audit_run action).1, Ok (demo_audit_response action)).
Proof. unfold demo_audit_response. by destruct (demo_audit_run action) as [s []]. Qed.

Lemma demo_store_keyed : store_keyed demo_audit_state.
Proof. split; apply (bool_decide_unpack _); vm_compute; exact I. Qed.

Lemma audit_read_only_witness : es_persistence (demo_audit_run "audit.list_tampered").1 = Some ∅.
Proof.
  destruct (audit_read_only "-" demo_audit (fun _ => demo_portal_env) demo_audit_state _ (demo_audit_plan "audit.list_tampered") None _
    (surjective_pairing (demo_audit_run "audit.list_tampered"))) as (_ & E & _). exact E.
Defined.

Lemma tamper_report_exact_witness :
  exists l, dict_get "actions" (ar_details (demo_audit_response "audit.list_tampered")) = Some (JList (tampered_json <$> l)) /\
    length l = 1%nat.
Proof.
  destruct (tamper_report_exact "-" demo_audit (fun _ => demo_portal_env) demo_audit_state _ (demo_audit_plan "audit.list_tampered") None
    _ demo_store_keyed eq_refl (demo_audit_ok "audit.list_tampered" ltac:(vm_compute; reflexivity)) ltac:(vm_compute; reflexivity))
    as (_ & l & Hl & Hc & _).
  exists l. split; [exact Hl|].
  assert (dict_get "count" (ar_observed_effect (demo_audit_response "audit.list_tampered")) = Some (JInt 1)) as H1 by (vm_compute; reflexivity).
  rewrite Hc in H1. injection H1 as H1. lia.
Defined.

Lemma replay_report_exact_witness : (demo_audit_run "audit.detect_replay").1 = demo_audit_state.
Proof.
  apply (replay_report_exact "-" demo_audit (fun _ => demo_portal_env) demo_audit_state _ (demo_audit_plan "audit.detect_replay") None
    _ eq_refl (demo_audit_ok "audit.detect_replay" ltac:(vm_compute; reflexivity)) ltac:(vm_compute; reflexivity)).
Defined.

Definition demo_effects : dict :=
  [("observed_effect", JObj [("sent", JBool true); ("to", JStr "a")]); ("expected_effect", JObj [("to", JStr "a"); ("sent", JInt 1)])].

Lemma compare_effect_exact_witness :
  exists res, compare_effect demo_effects = Ok res /\ ar_success res = true.
Proof.
  destruct (compare_effect_exact [("sent", JBool true); ("to", JStr "a")] [("to", JStr "a"); ("sent", JInt 1)] demo_effects eq_refl eq_refl)
    as (res & E & _). exists res. split; [exact E|]. vm_compute in E. injection E as <-. reflexivity.
Defined.
End Witnesses.
