(* ===== verification/Accounts.v ===== *)
(** * verifier_service/database.py: accounts, sessions, prompts and evidence

    The SQLite database of the service as its four tables.  Each operation is one statement in a
    transaction, so it is atomic: it either makes its change or raises and makes none.  The
    constraints of the schema are checked where a statement can break them.  PBKDF2 is an
    interface; the random values and the clock are arguments.

    The theorems: every reachable database satisfies the schema; a password authenticates its own
    account only; a session token answers its user until it expires or is revoked, and not
    after; the action evidence discharges the interface [EvidencePersistence] that the evidence
    store is proved against; the listing of prompts. *)

From S2P Require Import Prelude PyStr Json JsonText PyTime Crypto Instances Ledger Merkle Sql Verifier Registry Poi AgentBase Executor Evidence.

#[local] Open Scope Z_scope.

(** [hashlib.pbkdf2_hmac("sha256", password, salt, iterations)]. *)
Class Pbkdf2 := { pbkdf2_hmac : bytes -> bytes -> Z -> bytes }.

(** ** Tables *)

Record UserRow := mkUserRow {
  us_id : string; us_name : string; us_email : string; us_salt : bytes; us_hash : bytes; us_role : string; us_created_at : string;
}.

Record SessionRow := mkSessionRow { ss_token_hash : string; ss_user_id : string; ss_created_at : string; ss_expires_at : string }.

(** [envelope_json], which no query reads back, is the envelope itself. *)
Record PromptRow := mkPromptRow {
  pr_id : Z; pr_user_id : string; pr_session_id : string; pr_prompt : string; pr_envelope : SignedEnvelope;
  pr_action_id : option string; pr_eml_path : option string; pr_verification_json : option string; pr_created_at : string;
}.

(** The tables, and the largest prompt identifier ever given. *)
Record Database := mkDatabase {
  db_users : list UserRow;
  db_sessions : list SessionRow;
  db_prompts : list PromptRow;
  db_prompt_sequence : Z;
  db_action_evidence : list (string * string);
}.

Definition Database_empty : Database := mkDatabase [] [] [] 0 [].

Definition set_users (d : Database) (l : list UserRow) : Database :=
  mkDatabase l (db_sessions d) (db_prompts d) (db_prompt_sequence d) (db_action_evidence d).
Definition set_sessions (d : Database) (l : list SessionRow) : Database :=
  mkDatabase (db_users d) l (db_prompts d) (db_prompt_sequence d) (db_action_evidence d).
Definition set_prompts (d : Database) (l : list PromptRow) (n : Z) : Database :=
  mkDatabase (db_users d) (db_sessions d) l n (db_action_evidence d).
Definition set_evidence (d : Database) (l : list (string * string)) : Database :=
  mkDatabase (db_users d) (db_sessions d) (db_prompts d) (db_prompt_sequence d) l.

(** ** Users *)

(** Equality under [COLLATE NOCASE]: the twenty-six letters fold. *)
Definition ascii_fold (c : ascii) : ascii := let n := ord c in if (65 <=? n) && (n <=? 90) then chr (n + 32) else c.
Definition nocase (s : string) : string := str_map ascii_fold s.

Definition normalize_email (email : string) : string := str_lower (str_strip email).

Section Database.
Context `{Hashlib, Pbkdf2}.

Definition password_digest (password : string) (salt : bytes) : bytes := pbkdf2_hmac (utf8_encode password) salt 310000.

Definition public_user (row : UserRow) : dict :=
  [("id", JStr (us_id row)); ("name", JStr (us_name row)); ("email", JStr (us_email row)); ("role", JStr (us_role row));
   ("createdAt", JStr (us_created_at row))].

Definition user_row_by_id (d : Database) (user_id : string) : option UserRow :=
  lookup_row us_id user_id (db_users d).

Definition user_row_by_email (d : Database) (email : string) : option UserRow :=
  lookup_row (fun u => nocase (us_email u)) (nocase email) (db_users d).

(** [random] is [secrets.token_urlsafe(10)], [salt] is [os.urandom(16)]. *)
Definition create_user (random : string) (salt : bytes) (now : Z) (d : Database) (name email password : string)
    : Database * result dict :=
  let normalized := normalize_email email in
  if negb (truthy_str (str_strip name)) || negb (str_has "@"%char normalized)
  then (d, raise ValueError "Name and a valid email address are required.")
  else if (String.length password <? 6)%nat then (d, raise ValueError "Password must be at least 6 characters long.")
  else
    let row := mkUserRow ("usr_" +:+ random) (str_strip name) normalized salt (password_digest password salt) "Member" (isoformat_utc now) in
    match user_row_by_id d (us_id row), user_row_by_email d normalized with
    | None, None => (set_users d (db_users d ++ [row]), Ok (public_user row))
    | _, _ => (d, raise ValueError "An account with this email already exists.")
    end.

Definition authenticate (d : Database) (email password : string) : option dict :=
  match user_row_by_email d (normalize_email email) with
  | Some row => if bool_decide (password_digest password (us_salt row) = us_hash row) then Some (public_user row) else None
  | None => None
  end.

Definition user_by_id (d : Database) (user_id : string) : option dict := public_user <$> user_row_by_id d user_id.

(** The accounts of the landing page, in an empty table; two random names and salts. *)
Definition seed_demo_accounts (r1 r2 : string) (salt1 salt2 : bytes) (now1 now2 : Z) (d : Database) : Database * result unit :=
  match db_users d with
  | _ :: _ => (d, Ok tt)
  | [] =>
      match create_user r1 salt1 now1 d "Alex Morgan" "alex@example.com" "Password123!" with
      | (d, Raise e) => (d, Raise e)
      | (d, Ok _) => let '(d, u) := create_user r2 salt2 now2 d "Jane Doe" "user@example.com" "password123" in (d, _ ← u; Ok tt)
      end
  end.

(** ** Sessions *)

Definition token_hash (token : string) : string := hex (sha256 (utf8_encode token)).

Definition session_row (d : Database) (h : string) : option SessionRow :=
  lookup_row ss_token_hash h (db_sessions d).

Definition day_us : Z := 86400000000.

(** [token] is [secrets.token_urlsafe(32)]. *)
Definition create_session (token : string) (now : Z) (d : Database) (user_id : string) (ttl_days : Z) : Database * result string :=
  let expires := now + ttl_days * day_us in
  if negb (valid_usb expires) then (d, raise OverflowError "date value out of range")
  else
    match session_row d (token_hash token), user_row_by_id d user_id with
    | None, Some _ =>
        (set_sessions d (db_sessions d ++ [mkSessionRow (token_hash token) user_id (isoformat_utc now) (isoformat_utc expires)]), Ok token)
    | Some _, _ => (d, raise IntegrityError "UNIQUE constraint failed: sessions.token_hash")
    | None, None => (d, raise IntegrityError "FOREIGN KEY constraint failed")
    end.

(** [datetime.fromisoformat(s) <= now]. *)
Definition expired (s : string) (now : Z) : result bool :=
  t ← fromisoformat s;
  match dt_offset t with
  | Some off => Ok (dt_local t - off <=? now)
  | None => raise TypeError "can't compare offset-naive and offset-aware datetimes"
  end.

Definition user_from_token (now : Z) (d : Database) (token : option string) : result (option dict) :=
  match token with
  | None => Ok None
  | Some token =>
      if negb (truthy_str token) then Ok None
      else
        match session_row d (token_hash token) with
        | None => Ok None
        | Some s =>
            match user_row_by_id d (ss_user_id s) with
            | None => Ok None
            | Some row => over ← expired (ss_expires_at s) now; Ok (if over : bool then None else Some (public_user row))
            end
        end
  end.

Definition revoke_session (d : Database) (token : option string) : Database :=
  match token with
  | Some token =>
      if truthy_str token then set_sessions d (filter (fun s => ss_token_hash s ≠ token_hash token) (db_sessions d)) else d
  | None => d
  end.

(** ** Prompts *)

Definition dumped (verification : option dict) : option string := (fun v => json_dumps (JObj v)) <$> verification.

Definition action_used (d : Database) (action_id : option string) : bool :=
  existsb (fun p => bool_decide (action_id ≠ None /\ pr_action_id p = action_id)) (db_prompts d).

Definition save_prompt (now : Z) (d : Database) (envelope : SignedEnvelope) (user_id : string)
    (action_id eml_path : option string) (verification : option dict) : Database * result Z :=
  if action_used d action_id then (d, raise IntegrityError "UNIQUE constraint failed: prompt_records.action_id")
  else
    let id := db_prompt_sequence d + 1 in
    let row := mkPromptRow id user_id (se_session_id envelope) (se_prompt envelope) envelope action_id eml_path
                 (dumped verification) (isoformat_utc now) in
    (set_prompts d (db_prompts d ++ [row]) id, Ok id).

(** [UPDATE prompt_records ... WHERE action_id = ?]. *)
Definition update_where (d : Database) (action_id : string) (f : PromptRow -> PromptRow) : Database :=
  set_prompts d ((fun p => if bool_decide (pr_action_id p = Some action_id) then f p else p) <$> db_prompts d) (db_prompt_sequence d).

Definition with_verification (p : PromptRow) (eml_path verification : option string) : PromptRow :=
  mkPromptRow (pr_id p) (pr_user_id p) (pr_session_id p) (pr_prompt p) (pr_envelope p) (pr_action_id p) eml_path
    verification (pr_created_at p).

Definition update_prompt_action (d : Database) (action_id eml_path : string) (verification : option dict) : Database :=
  update_where d action_id (fun p => with_verification p (Some eml_path)
    (match dumped verification with Some v => Some v | None => pr_verification_json p end)).

Definition update_verification (d : Database) (action_id : string) (verification : dict) : Database :=
  update_where d action_id (fun p => with_verification p (pr_eml_path p) (dumped (Some verification))).

Definition prompt_json (p : PromptRow) : result json :=
  v ← match pr_verification_json p with
      | Some s => if truthy_str s then json_loads s else Ok JNull
      | None => Ok JNull
      end;
  Ok (JObj [("id", JInt (pr_id p)); ("prompt", JStr (pr_prompt p)); ("session_id", JStr (pr_session_id p));
            ("action_id", opt_str (pr_action_id p)); ("eml_path", opt_str (pr_eml_path p)); ("verification", v);
            ("created_at", JStr (pr_created_at p))]).

(** The rows of [LIMIT n]: all for a negative one. *)
Definition limit_rows {A : Type} (n : Z) (l : list A) : list A := if n <? 0 then l else take (Z.to_nat n) l.

Definition prompt_rows `{Sqlite} (d : Database) (user_id : string) (limit : Z) : list PromptRow :=
  limit_rows limit (order_by_desc pr_created_at (filter (fun p => pr_user_id p = user_id) (db_prompts d))).

Definition list_prompts `{Sqlite} (d : Database) (user_id : string) (limit : Z) : result (list json) :=
  mapM_result prompt_json (prompt_rows d user_id limit).

(** ** Action evidence *)

Definition db_save_action_evidence (d : Database) (action_id evidence_json : string) : result Database :=
  Ok (set_evidence d (dict_set action_id evidence_json (db_action_evidence d))).

Definition db_get_action_evidence (d : Database) (action_id : string) : result (option string) :=
  Ok (dict_get action_id (db_action_evidence d)).

End Database.

(** The database is the persistence of the evidence store. *)
#[export] Instance database_persistence : EvidencePersistence Database :=
  {| save_action_evidence := db_save_action_evidence; get_action_evidence := db_get_action_evidence |}.

#[export] Instance database_persistence_laws : EvidencePersistenceLaws Database.
Proof.
  split.
  - intros p id s p' [= <-]. cbn. unfold db_get_action_evidence. cbn. by rewrite dict_get_set_eq.
  - intros p id id' s p' Hne [= <-]. cbn. unfold db_get_action_evidence. cbn. by rewrite dict_get_set_ne.
Qed.

(** ** What the service does to the database *)

(** The methods that change it, with the random values, the clock and the arguments of each. *)
Inductive db_op :=
| CreateUser (random : string) (salt : bytes) (now : Z) (name email password : string)
| CreateSession (token : string) (now : Z) (user_id : string) (ttl_days : Z)
| RevokeSession (token : option string)
| SavePrompt (now : Z) (envelope : SignedEnvelope) (user_id : string) (action_id eml_path : option string) (verification : option dict)
| UpdatePromptAction (action_id eml_path : string) (verification : option dict)
| UpdateVerification (action_id : string) (verification : dict)
| SaveActionEvidence (action_id evidence_json : string).

(** A Python dictionary has distinct keys. *)
Definition op_wf (o : db_op) : Prop :=
  match o with
  | SavePrompt _ _ _ _ _ (Some v) | UpdatePromptAction _ _ (Some v) | UpdateVerification _ v => json_wf (JObj v)
  | _ => True
  end.

Section Reachable.
Context `{Hashlib, Pbkdf2}.

Definition db_run (d : Database) (o : db_op) : Database :=
  match o with
  | CreateUser random salt now name email password => (create_user random salt now d name email password).1
  | CreateSession token now user_id ttl_days => (create_session token now d user_id ttl_days).1
  | RevokeSession token => revoke_session d token
  | SavePrompt now envelope user_id action_id eml_path verification =>
      (save_prompt now d envelope user_id action_id eml_path verification).1
  | UpdatePromptAction action_id eml_path verification => update_prompt_action d action_id eml_path verification
  | UpdateVerification action_id verification => update_verification d action_id verification
  | SaveActionEvidence action_id evidence_json => set_evidence d (dict_set action_id evidence_json (db_action_evidence d))
  end.

Definition db_runs (ops : list db_op) (d : Database) : Database := fold_left db_run ops d.

(** ** The schema, and what the columns hold *)

Definition session_ok (d : Database) (s : SessionRow) : Prop :=
  (exists u, user_row_by_id d (ss_user_id s) = Some u) /\ exists t, valid_us t /\ ss_expires_at s = isoformat_utc t.

Definition stored_json_ok (o : option string) : Prop := forall s, o = Some s -> exists v, json_wf v /\ s = json_dumps v.

Record schema_ok (d : Database) : Prop := {
  user_ids_unique : NoDup (us_id <$> db_users d);
  emails_unique : NoDup ((fun u => nocase (us_email u)) <$> db_users d);
  emails_valid : Forall (fun u => str_has "@"%char (us_email u) = true /\ us_name u ≠ "") (db_users d);
  token_hashes_unique : NoDup (ss_token_hash <$> db_sessions d);
  sessions_ok : Forall (session_ok d) (db_sessions d);
  prompt_ids_increase : StronglySorted Z.lt (pr_id <$> db_prompts d);
  prompt_ids_bounded : Forall (fun p => 0 < pr_id p <= db_prompt_sequence d) (db_prompts d);
  prompt_sequence_positive : 0 <= db_prompt_sequence d;
  action_ids_unique : NoDup (omap pr_action_id (db_prompts d));
  prompts_json_ok : Forall (fun p => stored_json_ok (pr_verification_json p)) (db_prompts d);
  evidence_ids_unique : NoDup ((db_action_evidence d).*1);
}.

Lemma schema_empty : schema_ok Database_empty.
Proof. split; cbn; try constructor; lia. Qed.

Lemma dumped_ok v : (forall d, v = Some d -> json_wf (JObj d)) -> stored_json_ok (dumped v).
Proof. intros Hv s. destruct v as [d|]; [|done]. intros [= <-]. eauto. Qed.

(** *** Users *)

(** A successful registration adds one row, whose identifier and address are new. *)
Lemma create_user_inv random salt now d name email password d' u :
  create_user random salt now d name email password = (d', Ok u) ->
  exists row, d' = set_users d (db_users d ++ [row]) /\ u = public_user row /\
    row = mkUserRow ("usr_" +:+ random) (str_strip name) (normalize_email email) salt (password_digest password salt) "Member" (isoformat_utc now) /\
    user_row_by_id d (us_id row) = None /\ user_row_by_email d (us_email row) = None /\
    us_name row ≠ "" /\ str_has "@"%char (us_email row) = true /\ (6 <= String.length password)%nat.
Proof.
  unfold create_user.
  destruct (negb _ || negb _) eqn:E1; [done|]. apply orb_false_iff in E1 as [En Ee].
  destruct (_ <? 6)%nat eqn:E2; [done|]. apply Nat.ltb_ge in E2.
  destruct (user_row_by_id d _) eqn:E3; [done|]. destruct (user_row_by_email d _) eqn:E4; [done|].
  intros [= <- <-]. eexists. split_and!; try done.
  - cbn. intros E. by rewrite E in En.
  - cbn. by apply negb_false_iff.
Qed.

Lemma create_user_failed random salt now d name email password d' e :
  create_user random salt now d name email password = (d', Raise e) -> d' = d.
Proof. unfold create_user. repeat case_match; intros [= <- _]; done. Qed.

Lemma user_row_by_id_snoc d row id u :
  user_row_by_id d id = Some u -> user_row_by_id (set_users d (db_users d ++ [row])) id = Some u.
Proof. unfold user_row_by_id. cbn. rewrite lookup_row_snoc. by intros ->. Qed.

Lemma create_user_schema random salt now d name email password :
  schema_ok d -> schema_ok (create_user random salt now d name email password).1.
Proof.
  intros G. destruct (create_user _ _ _ _ _ _ _) as [d' [u|e]] eqn:E; [|by apply create_user_failed in E as ->].
  apply create_user_inv in E as (row & -> & _ & _ & Hid & Hem & Hn & Ha & _). destruct G. split; try done.
  - by apply column_snoc.
  - apply (column_snoc (fun u => nocase (us_email u))); done.
  - apply Forall_app. split; [done|]. by apply Forall_singleton.
  - eapply Forall_impl; [exact sessions_ok0|]. intros s [[u' Hu] Ht]. split; [|done]. exists u'. by apply user_row_by_id_snoc.
Qed.

(** *** Sessions *)

Lemma create_session_inv token now d user_id ttl_days d' t :
  create_session token now d user_id ttl_days = (d', Ok t) ->
  t = token /\ valid_us (now + ttl_days * day_us) /\ session_row d (token_hash token) = None /\
  (exists u, user_row_by_id d user_id = Some u) /\
  d' = set_sessions d (db_sessions d ++
    [mkSessionRow (token_hash token) user_id (isoformat_utc now) (isoformat_utc (now + ttl_days * day_us))]).
Proof.
  unfold create_session. destruct (negb _) eqn:Ev; [done|]. destruct (session_row d _) eqn:E1; [done|].
  destruct (user_row_by_id d user_id) eqn:E2; [|done]. intros [= <- <-]. split_and!; try done; [|eauto].
  unfold valid_usb in Ev. unfold valid_us. lia.
Qed.

Lemma create_session_failed token now d user_id ttl_days d' e :
  create_session token now d user_id ttl_days = (d', Raise e) -> d' = d.
Proof. unfold create_session. repeat case_match; intros [= <- _]; done. Qed.

Lemma create_session_schema token now d user_id ttl_days :
  schema_ok d -> schema_ok (create_session token now d user_id ttl_days).1.
Proof.
  intros G. destruct (create_session _ _ _ _ _) as [d' [t|e]] eqn:E; [|by apply create_session_failed in E as ->].
  apply create_session_inv in E as (_ & Hv & Hs & Hu & ->). destruct G. split; try done.
  - by apply column_snoc.
  - apply Forall_app. split; [done|]. apply Forall_singleton. split; [done|]. by eexists.
Qed.

Lemma revoke_schema d token : schema_ok d -> schema_ok (revoke_session d token).
Proof.
  intros G. unfold revoke_session. destruct token as [token|]; [|done]. destruct (truthy_str token); [|done].
  destruct G. split; try done.
  - by apply column_filter.
  - apply Forall_forall. intros s [_ Hs]%list_elem_of_filter. by apply (proj1 (Forall_forall _ _) sessions_ok0).
Qed.

(** *** Prompts *)

Lemma action_used_spec d a : action_used d (Some a) = false -> a ∉ omap pr_action_id (db_prompts d).
Proof.
  unfold action_used. intros E (p & Hp & Ha)%list_elem_of_omap. apply not_true_iff_false in E. apply E, existsb_exists.
  exists p. split; [by apply list_elem_of_In|]. by rewrite bool_decide_true.
Qed.

Lemma save_prompt_schema now d envelope user_id action_id eml_path verification :
  (forall v, verification = Some v -> json_wf (JObj v)) ->
  schema_ok d -> schema_ok (save_prompt now d envelope user_id action_id eml_path verification).1.
Proof.
  intros Hv G. unfold save_prompt. destruct (action_used d action_id) eqn:Ea; [done|]. destruct G. cbn [fst]. split; try done; cbn.
  - rewrite fmap_app. cbn. apply StronglySorted_app. split_and!; [|done|repeat constructor].
    intros x y (p & -> & Hp)%list_elem_of_fmap ->%list_elem_of_singleton.
    pose proof (proj1 (Forall_forall _ _) prompt_ids_bounded0 p Hp). cbn in *. lia.
  - apply Forall_app. split; [|apply Forall_singleton; cbn; lia].
    eapply Forall_impl; [exact prompt_ids_bounded0|]. cbn. lia.
  - lia.
  - rewrite omap_app. cbn. destruct action_id as [a|]; cbn; [|by rewrite app_nil_r].
    apply NoDup_app. split_and!; [done| |apply NoDup_singleton]. intros x Hx ->%list_elem_of_singleton.
    by apply action_used_spec in Ea.
  - apply Forall_app. split; [done|]. apply Forall_singleton. by apply dumped_ok.
Qed.

(** An update that keeps the identifiers of a row. *)
Lemma update_schema d action_id f :
  (forall p, pr_id (f p) = pr_id p /\ pr_action_id (f p) = pr_action_id p /\
             (stored_json_ok (pr_verification_json p) -> stored_json_ok (pr_verification_json (f p)))) ->
  schema_ok d -> schema_ok (update_where d action_id f).
Proof.
  intros Hf G. destruct G. set (g := fun p => if bool_decide (pr_action_id p = Some action_id) then f p else p).
  assert (forall p, pr_id (g p) = pr_id p /\ pr_action_id (g p) = pr_action_id p /\
    (stored_json_ok (pr_verification_json p) -> stored_json_ok (pr_verification_json (g p)))) as Hg.
  { intros p. unfold g. by case_match. }
  split; try done; cbn; fold g.
  - rewrite <- list_fmap_compose. erewrite list_fmap_ext; [exact prompt_ids_increase0|]. intros _ p _. apply Hg.
  - apply Forall_fmap. eapply Forall_impl; [exact prompt_ids_bounded0|]. intros p. cbn. by rewrite (proj1 (Hg p)).
  - erewrite (list_omap_ext _ pr_action_id); [exact action_ids_unique0|].
    apply Forall2_fmap_l, Forall_Forall2_diag, Forall_forall. intros p _. apply Hg.
  - apply Forall_fmap. eapply Forall_impl; [exact prompts_json_ok0|]. intros p. apply Hg.
Qed.

Lemma db_run_schema d o : op_wf o -> schema_ok d -> schema_ok (db_run d o).
Proof.
  intros Ho G. destruct o as [| | |? ? ? ? ? v|? ? v|? v|]; cbn [db_run].
  - by apply create_user_schema.
  - by apply create_session_schema.
  - by apply revoke_schema.
  - apply save_prompt_schema; [|done]. by intros v' ->.
  - apply update_schema; [|done]. intros p. split_and!; [done..|]. cbn. intros Hp.
    destruct v as [v|]; cbn; [|done]. apply (dumped_ok (Some v)). by intros v' [= ->].
  - apply update_schema; [|done]. intros p. split_and!; [done..|]. cbn. intros _. apply (dumped_ok (Some v)). by intros v' [= ->].
  - destruct G. split; try done. cbn.
    destruct (decide (action_id ∈ (db_action_evidence d).*1)) as [Hin|Hin].
    + by rewrite dict_set_keys.
    + rewrite dict_set_fresh, fmap_app by done. apply NoDup_app. split_and!; [done| |apply NoDup_singleton].
      intros x Hx ->%list_elem_of_singleton. done.
Qed.

Lemma db_runs_schema ops d : Forall op_wf ops -> schema_ok d -> schema_ok (db_runs ops d).
Proof. intros Ho. revert d. induction Ho; intros d G; [done|]. cbn. by apply IHHo, db_run_schema. Qed.

(** C38. Whatever the service does, the tables satisfy the constraints of the schema: identifiers,
    addresses (up to letter case), token hashes and action identifiers are unique, sessions belong
    to users and expire at a readable time, prompt identifiers increase and are never reused, and
    the stored verifications are JSON.  The seeded accounts are part of it. *)
Theorem schema_invariant ops : Forall op_wf ops -> schema_ok (db_runs ops Database_empty).
Proof. intros Ho. apply db_runs_schema; [done|]. apply schema_empty. Qed.

(** ** Logging in *)

(** No operation changes or removes an account. *)
Lemma users_grow d o : exists new, db_users (db_run d o) = db_users d ++ new.
Proof.
  destruct o as [random salt now name email password|token now user_id ttl|token| | | |]; cbn [db_run]; try by exists []; rewrite app_nil_r.
  - destruct (create_user _ _ _ _ _ _ _) as [d' [u|e]] eqn:E.
    + apply create_user_inv in E as (row & -> & _). by exists [row].
    + apply create_user_failed in E as ->. exists []. by rewrite app_nil_r.
  - destruct (create_session _ _ _ _ _) as [d' [t|e]] eqn:E.
    + apply create_session_inv in E as (_ & _ & _ & _ & ->). exists []. by rewrite app_nil_r.
    + apply create_session_failed in E as ->. exists []. by rewrite app_nil_r.
  - exists []. rewrite app_nil_r. unfold revoke_session. destruct token as [token|]; [|done]. by destruct (truthy_str token).
  - exists []. rewrite app_nil_r. unfold save_prompt. by destruct (action_used d action_id).
Qed.

Lemma runs_users_grow ops d : exists new, db_users (db_runs ops d) = db_users d ++ new.
Proof.
  revert d. induction ops as [|o ops IH]; intros d; [exists []; by rewrite app_nil_r|].
  change (db_runs (o :: ops) d) with (db_runs ops (db_run d o)).
  destruct (IH (db_run d o)) as [n2 ->]. destruct (users_grow d o) as [n1 ->]. exists (n1 ++ n2). by rewrite app_assoc.
Qed.

Lemma ascii_fold_lower c : ascii_fold (lower_char c) = lower_char c.
Proof. by destruct c as [[] [] [] [] [] [] [] []]. Qed.

Lemma nocase_normalized email : nocase (normalize_email email) = normalize_email email.
Proof.
  unfold nocase, normalize_email, str_lower. generalize (str_strip email). intros s.
  induction s as [|c s IH]; [done|]. cbn. by rewrite ascii_fold_lower, IH.
Qed.

Lemma user_row_by_email_normalized d email :
  user_row_by_email d (normalize_email email) = lookup_row (fun u => nocase (us_email u)) (normalize_email email) (db_users d).
Proof. unfold user_row_by_email. by rewrite nocase_normalized. Qed.

(** After a registration the address, however spaced and capitalised, logs in with exactly the
    passwords of the registered digest, for as long as the service runs, and cannot be registered
    again; every other address logs in as before. *)
Theorem account_permanent random salt now d name email password d' u ops :
  schema_ok d -> create_user random salt now d name email password = (d', Ok u) ->
  (forall email' password', normalize_email email' = normalize_email email ->
     authenticate (db_runs ops d') email' password' =
       if bool_decide (password_digest password' salt = password_digest password salt) then Some u else None) /\
  (forall email' password', normalize_email email' ≠ normalize_email email ->
     authenticate d' email' password' = authenticate d email' password') /\
  (forall random' salt' now' name' email' password', normalize_email email' = normalize_email email ->
     exists msg, create_user random' salt' now' (db_runs ops d') name' email' password' = (db_runs ops d', raise ValueError msg)).
Proof.
  intros G E. apply create_user_inv in E as (row & -> & -> & Erow & _ & Hem & _ & _ & _).
  assert (us_email row = normalize_email email /\ us_salt row = salt /\ us_hash row = password_digest password salt)
    as (Re & Rs & Rh) by by subst row. clear Erow.
  unfold user_row_by_email in Hem. rewrite Re, nocase_normalized in Hem.
  assert (forall email', normalize_email email' = normalize_email email ->
    user_row_by_email (db_runs ops (set_users d (db_users d ++ [row]))) (normalize_email email') = Some row) as Hrow.
  { intros email' ->. rewrite user_row_by_email_normalized. destruct (runs_users_grow ops (set_users d (db_users d ++ [row]))) as [new ->].
    apply lookup_row_app. cbn [db_users set_users]. rewrite lookup_row_snoc, Hem, Re, nocase_normalized. by rewrite decide_True. }
  split_and!.
  - intros email' password' He. unfold authenticate. by rewrite (Hrow _ He), Rs, Rh.
  - intros email' password' He. unfold authenticate. rewrite !user_row_by_email_normalized. cbn [db_users set_users].
    rewrite lookup_row_snoc_ne; [done|]. rewrite Re, nocase_normalized. congruence.
  - intros random' salt' now' name' email' password' He. unfold create_user. rewrite (Hrow _ He).
    destruct (negb _ || negb _); [eauto|]. destruct (_ <? 6)%nat; [eauto|]. destruct (user_row_by_id _ _); eauto.
Qed.

(** ** Sessions *)

(** The operation deletes the session of this token; or opens one under its hash. *)
Definition revokes (h : string) (o : db_op) : Prop :=
  match o with RevokeSession (Some token) => token ≠ "" /\ token_hash token = h | _ => False end.
Definition opens (h : string) (o : db_op) : Prop :=
  match o with CreateSession token _ _ _ => token_hash token = h | _ => False end.

Lemma session_kept d o h s : ~ revokes h o -> session_row d h = Some s -> session_row (db_run d o) h = Some s.
Proof.
  destruct o as [random salt now name email password|token now user_id ttl|token| | | |]; intros Hr Hs; cbn [db_run]; try exact Hs.
  - destruct (create_user _ _ _ _ _ _ _) as [d' [u|e]] eqn:E; [|by apply create_user_failed in E as ->].
    by apply create_user_inv in E as (row & -> & _).
  - destruct (create_session _ _ _ _ _) as [d' [t|e]] eqn:E; [|by apply create_session_failed in E as ->].
    apply create_session_inv in E as (_ & _ & _ & _ & ->). by apply lookup_row_app.
  - unfold revoke_session. destruct token as [token|]; [|done]. destruct (truthy_str token) eqn:Et; [|done].
    unfold session_row. cbn [db_sessions set_sessions]. rewrite lookup_row_filter; [done|].
    intros x <- E. apply Hr. cbn. split; [by intros ->|done].
  - unfold save_prompt. by destruct (action_used d action_id).
Qed.

Lemma session_absent d o h : ~ opens h o -> session_row d h = None -> session_row (db_run d o) h = None.
Proof.
  destruct o as [random salt now name email password|token now user_id ttl|token| | | |]; intros Hr Hs; cbn [db_run]; try exact Hs.
  - destruct (create_user _ _ _ _ _ _ _) as [d' [u|e]] eqn:E; [|by apply create_user_failed in E as ->].
    by apply create_user_inv in E as (row & -> & _).
  - destruct (create_session _ _ _ _ _) as [d' [t|e]] eqn:E; [|by apply create_session_failed in E as ->].
    apply create_session_inv in E as (_ & _ & _ & _ & ->). unfold session_row in *. cbn [fst db_sessions set_sessions].
    by rewrite lookup_row_snoc_ne.
  - unfold revoke_session. destruct token as [token|]; [|done]. destruct (truthy_str token); [|done].
    unfold session_row in *. cbn [db_sessions set_sessions]. apply lookup_row_none in Hs. apply lookup_row_none.
    intros (x & -> & [_ Hx]%list_elem_of_filter)%list_elem_of_fmap. apply Hs. by apply list_elem_of_fmap_2.
  - unfold save_prompt. by destruct (action_used d action_id).
Qed.

Lemma sessions_kept ops d h s :
  Forall (fun o => ~ revokes h o) ops -> session_row d h = Some s -> session_row (db_runs ops d) h = Some s.
Proof. intros Ho. revert d. induction Ho as [|o ops]; intros d Hs; [done|]. by apply IHHo, session_kept. Qed.

Lemma sessions_absent ops d h :
  Forall (fun o => ~ opens h o) ops -> session_row d h = None -> session_row (db_runs ops d) h = None.
Proof. intros Ho. revert d. induction Ho as [|o ops]; intros d Hs; [done|]. by apply IHHo, session_absent. Qed.

Lemma user_kept ops d id u : user_row_by_id d id = Some u -> user_row_by_id (db_runs ops d) id = Some u.
Proof. unfold user_row_by_id. destruct (runs_users_grow ops d) as [new ->]. apply lookup_row_app. Qed.

Lemma no_session d token now : session_row d (token_hash token) = None -> user_from_token now d (Some token) = Ok None.
Proof. intros Hs. unfold user_from_token. rewrite Hs. by destruct (negb _). Qed.

Lemma session_revoked d token : token ≠ "" -> session_row (revoke_session d (Some token)) (token_hash token) = None.
Proof.
  intros Ht. unfold revoke_session. destruct token as [|c token]; [done|]. cbn [truthy_str].
  apply lookup_row_none. cbn [db_sessions set_sessions].
  intros (x & E & [Hx _]%list_elem_of_filter)%list_elem_of_fmap. done.
Qed.

(** C32. The token of a new session answers its own user, at any moment before the expiry and at none
    after, whatever else the service does meanwhile; once it is revoked it answers nobody, until a
    session is opened under the same hash. *)
Theorem session_lifetime token now d user_id ttl_days d' t u ops ops' later :
  token ≠ "" -> user_row_by_id d user_id = Some u ->
  create_session token now d user_id ttl_days = (d', Ok t) ->
  Forall (fun o => ~ revokes (token_hash token) o) ops -> Forall (fun o => ~ opens (token_hash token) o) ops' ->
  user_from_token later (db_runs ops d') (Some t)
    = Ok (if later <? now + ttl_days * day_us then Some (public_user u) else None) /\
  user_from_token later (db_runs ops' (revoke_session (db_runs ops d') (Some t))) (Some t) = Ok None.
Proof.
  intros Ht Hu E Ho Ho'. apply create_session_inv in E as (-> & Hv & Hs & _ & ->). split.
  - unfold user_from_token. erewrite sessions_kept; [|done|]; [|unfold session_row in *; cbn [db_sessions set_sessions]; rewrite lookup_row_snoc, Hs; by rewrite decide_True].
    cbn [ss_user_id ss_expires_at]. erewrite user_kept; [|exact Hu]. unfold expired. rewrite fromisoformat_isoformat by done.
    destruct token; [done|]. cbn. f_equal. rewrite Z.sub_0_r.
    destruct (Z.leb_spec (now + ttl_days * day_us) later), (Z.ltb_spec later (now + ttl_days * day_us)); (done || lia).
  - apply no_session, sessions_absent; [done|]. by apply session_revoked.
Qed.

(** ** Listing *)

(** What the client sees of a prompt: its stored verification, parsed. *)
Definition lists (p : PromptRow) (j : json) : Prop :=
  exists v, (pr_verification_json p = None /\ v = JNull \/ pr_verification_json p = Some (json_dumps v)) /\
  j = JObj [("id", JInt (pr_id p)); ("prompt", JStr (pr_prompt p)); ("session_id", JStr (pr_session_id p));
            ("action_id", opt_str (pr_action_id p)); ("eml_path", opt_str (pr_eml_path p)); ("verification", v);
            ("created_at", JStr (pr_created_at p))].

Lemma dumps_truthy v : json_dumps v ≠ "".
Proof. destruct (dumps_first v) as (c & s & -> & _). done. Qed.

Lemma prompt_json_lists p : stored_json_ok (pr_verification_json p) -> exists j, prompt_json p = Ok j /\ lists p j.
Proof.
  intros Hp. unfold prompt_json, lists. destruct (pr_verification_json p) as [s|] eqn:E.
  - destruct (Hp s eq_refl) as (v & Hv & ->). pose proof (dumps_truthy v) as Hd.
    destruct (json_dumps v) as [|c s] eqn:Ed; [done|]. rewrite <- Ed. cbn [truthy_str].
    assert (truthy_str (json_dumps v) = true) as -> by by rewrite Ed.
    rewrite json_loads_dumps by done. cbn. eexists. split; [done|]. exists v. split; [by right|done].
  - cbn. eexists. split; [done|]. exists JNull. split; [by left|done].
Qed.

Lemma list_json_lists l :
  Forall (fun p => stored_json_ok (pr_verification_json p)) l ->
  exists js, mapM_result prompt_json l = Ok js /\ Forall2 lists l js.
Proof.
  induction 1 as [|p l Hp _ (js & E & Hl)]; [exists []; by split|].
  destruct (prompt_json_lists p Hp) as (j & Ej & Hj). cbn. rewrite Ej. cbn. rewrite E. cbn. eauto.
Qed.

(** Listing never fails: it shows the user's own prompts and nobody else's, the most recent
    first, every one of them up to the limit, each with the verification stored for it. *)
Theorem list_prompts_spec `{Sqlite} ops user_id limit :
  Forall op_wf ops -> 0 <= limit ->
  let d := db_runs ops Database_empty in
  let mine := filter (fun p => pr_user_id p = user_id) (db_prompts d) in
  exists shown older js,
    list_prompts d user_id limit = Ok js /\ Forall2 lists shown js /\
    shown ++ older ≡ₚ mine /\ Sorted desc (pr_created_at <$> (shown ++ older)) /\
    length shown = Nat.min (Z.to_nat limit) (length mine).
Proof.
  intros Ho Hlim d mine. pose proof (db_runs_schema ops _ Ho schema_empty) as G. fold d in G.
  set (sorted := order_by_desc pr_created_at mine).
  assert (sorted ≡ₚ mine) as Hp by apply order_by_desc_perm.
  exists (take (Z.to_nat limit) sorted), (drop (Z.to_nat limit) sorted). rewrite take_drop.
  assert (Forall (fun p => stored_json_ok (pr_verification_json p)) (take (Z.to_nat limit) sorted)) as Hj.
  { apply Forall_take. rewrite Hp. apply Forall_forall. intros p [_ Hin]%list_elem_of_filter.
    by apply (proj1 (Forall_forall _ _) (prompts_json_ok _ G)). }
  destruct (list_json_lists _ Hj) as (js & E & Hl). exists js. split_and!; [|done|done| |].
  - unfold list_prompts, prompt_rows, limit_rows. by rewrite (proj2 (Z.ltb_ge _ _) Hlim).
  - eapply (Sorted_fmap _ _ desc); [|apply order_by_desc_sorted]. done.
  - by rewrite length_take, Hp.
Qed.

End Reachable.

(** ** A service at work *)

Section Witnesses.
#[local] Existing Instance demo_hashlib.
#[local] Existing Instance demo_sqlite.

Definition demo_pbkdf2 : Pbkdf2 := {| pbkdf2_hmac p salt n := demo_digest n (p ++ salt) |}.
#[local] Existing Instance demo_pbkdf2.

(** 2026-07-11T00:00:00Z. *)
Definition demo_day : Z := 63919324800000000.

(** The seeded accounts, then a session and two prompts, one with a verification. *)
Definition demo_ops : list db_op :=
  [CreateUser "r1" [x01] demo_day "Alex Morgan" "alex@example.com" "Password123!";
   CreateUser "r2" [x02] demo_day "Jane Doe" "user@example.com" "password123";
   CreateSession "token" demo_day "usr_r1" 7;
   SavePrompt demo_day demo_signed "usr_r1" (Some "a1") None None;
   SavePrompt (demo_day + 5000000) demo_signed "usr_r1" None None (Some [("overall_valid", JBool true)]);
   SavePrompt demo_day demo_signed "usr_r2" (Some "a1") None None;
   UpdateVerification "a1" [("overall_valid", JBool false)];
   SaveActionEvidence "a1" "{}"].

Definition demo_database : Database := db_runs demo_ops Database_empty.

Lemma demo_ops_wf : Forall op_wf demo_ops.
Proof. repeat constructor; set_solver. Qed.

Lemma schema_invariant_witness : schema_ok demo_database /\ length (db_prompts demo_database) = 2%nat.
Proof. split; [apply (schema_invariant demo_ops demo_ops_wf)|vm_compute; reflexivity]. Defined.

Definition demo_registered : Database * result dict :=
  create_user "r3" [x03] demo_day demo_database "Sam" " Sam@Example.com" "secret!".

Lemma demo_registered_run : exists d u, demo_registered = (d, Ok u).
Proof. eexists _, _. vm_compute. reflexivity. Qed.

Lemma account_permanent_witness :
  exists u, forall password', authenticate demo_registered.1 "SAM@example.com" password' =
    if bool_decide (password_digest password' [x03] = password_digest "secret!" [x03]) then Some u else None.
Proof.
  destruct demo_registered_run as (d & u & E). exists u. intros password'. rewrite E.
  destruct (account_permanent "r3" [x03] demo_day demo_database "Sam" " Sam@Example.com" "secret!" d u []) as (Hin & _).
  - apply db_runs_schema; [apply demo_ops_wf|apply schema_empty].
  - exact E.
  - apply Hin. vm_compute. reflexivity.
Defined.

Definition demo_opened : Database * result string := create_session "other" demo_day demo_database "usr_r2" 7.

Lemma demo_opened_run : exists d, demo_opened = (d, Ok "other").
Proof. eexists. vm_compute. reflexivity. Qed.

Lemma demo_jane : exists u, user_row_by_id demo_database "usr_r2" = Some u /\ us_name u = "Jane Doe".
Proof. eexists. split; vm_compute; reflexivity. Qed.

Lemma session_lifetime_witness :
  exists u, us_name u = "Jane Doe" /\
  user_from_token (demo_day + day_us) demo_opened.1 (Some "other") = Ok (Some (public_user u)) /\
  user_from_token (demo_day + 7 * day_us) demo_opened.1 (Some "other") = Ok None.
Proof.
  destruct demo_opened_run as (d & E). destruct demo_jane as (u & Hu & Hn). exists u. rewrite E.
  assert (forall later, user_from_token later d (Some "other")
    = Ok (if later <? demo_day + 7 * day_us then Some (public_user u) else None)) as Hl.
  { intros later. destruct (session_lifetime "other" demo_day demo_database "usr_r2" 7 d "other" u [] [] later) as [Hl _];
      [done|exact Hu|exact E|constructor|constructor|exact Hl]. }
  split_and!; [exact Hn|rewrite Hl; reflexivity|rewrite Hl; reflexivity].
Defined.

Lemma list_prompts_spec_witness :
  exists shown js, list_prompts demo_database "usr_r1" 1 = Ok js /\ Forall2 lists shown js /\ length shown = 1%nat.
Proof.
  destruct (list_prompts_spec demo_ops "usr_r1" 1 demo_ops_wf) as (shown & older & js & E & Hl & _ & _ & Hn); [done|].
  exists shown, js. split_and!; [exact E|exact Hl|]. rewrite Hn. vm_compute. reflexivity.
Defined.
End Witnesses.
