(* ===== verification/Service.v ===== *)
(** * verifier_service/main.py: the HTTP service

    The state of the application object and its request handlers, up to the two that run agents
    ([AgentService.v]).  A handler is a computation in a monad of its own: it may change the
    state, and ends with a reply, with an [HTTPException], or with another exception, which the
    framework answers with status 500.  What it changed before stays.

    The evidence store persists through the service's own database, and its records share the
    service's ledger: both are one field here, seen through [evidence_view].  A request reads the
    clock several times; the readings are arguments.  The parsing and validation the framework
    does before a handler runs is its own; the validators of the request models are in
    [PubkeyRegistration_init] and [RegisterKeyRequest_init].

    The theorems about the handlers are in [ServiceSafety.v] and [Execution.v]. *)

From S2P Require Import Prelude PyStr Base64 Json JsonText PyTime Crypto Instances Ledger Merkle Sql Verifier Registry.
From S2P Require Import Poi AgentBase Executor Tsa Evidence Portal AuditAgent Accounts.

#[local] Open Scope Z_scope.

(** ** State *)

Section Types.
Context `{Cryptography}.

(** [pubkey_store]: a registry, the default, or an injected store of the earlier kind. *)
Inductive KeyStore := Registered (t : KeyTable) | Legacy (s : PubkeyStore).

(** [app.state]; [W] is what only the agents use.  [sv_ledgers] at [service_ledger] is
    [app.state.ledger]. *)
Record ServiceState (W : Type) := mkServiceState {
  sv_database : Database;
  sv_keys : KeyStore;
  sv_nonces : NonceStore;
  sv_operations : list dict;
  sv_ledgers : gmap nat Ledger;
  sv_verified_envelopes : list SignedEnvelope;
  sv_evidence : list (string * ActionEvidence);
  sv_anchors : AnchorStore;
  sv_world : W;
}.

End Types.

#[global] Arguments mkServiceState {_ W}.
#[global] Arguments sv_database {_ W}.
#[global] Arguments sv_keys {_ W}.
#[global] Arguments sv_nonces {_ W}.
#[global] Arguments sv_operations {_ W}.
#[global] Arguments sv_ledgers {_ W}.
#[global] Arguments sv_verified_envelopes {_ W}.
#[global] Arguments sv_evidence {_ W}.
#[global] Arguments sv_anchors {_ W}.
#[global] Arguments sv_world {_ W}.

Definition service_ledger : nat := 0.

(** ** Handlers *)

Inductive outcome (A : Type) :=
| Done (a : A)
| HTTPException (status : Z) (detail : json)
| Escaped (e : exn).
#[global] Arguments Done {A}.
#[global] Arguments HTTPException {A}.
#[global] Arguments Escaped {A}.

(** A computation of a handler in a state [S]. *)
Definition HM (S A : Type) : Type := S -> S * outcome A.

#[export] Instance HM_ret {S : Type} : MRet (HM S) := fun A a s => (s, Done a).
#[export] Instance HM_bind {S : Type} : MBind (HM S) := fun A B f m s =>
  match m s with
  | (s', Done a) => f a s'
  | (s', HTTPException status detail) => (s', HTTPException status detail)
  | (s', Escaped e) => (s', Escaped e)
  end.

Definition http {S A : Type} (status : Z) (detail : json) : HM S A := fun s => (s, HTTPException status detail).

Definition answer {A : Type} (r : result A) : outcome A := match r with Ok a => Done a | Raise e => Escaped e end.

(** Reads, and calls that may raise, of a part of the state. *)
Definition asks {S A : Type} (f : S -> A) : HM S A := fun s => (s, Done (f s)).
Definition calls {S A : Type} (r : S -> result A) : HM S A := fun s => (s, answer (r s)).
Definition modify {S : Type} (f : S -> S) : HM S unit := fun s => (f s, Done tt).
Definition runs {S A : Type} (f : S -> S * result A) : HM S A := fun s => let '(s', r) := f s in (s', answer r).

(** [try: m except cs as exc: raise HTTPException(status, detail=str(exc))]. *)
Definition or_http {S A : Type} (cs : list exn_class) (status : Z) (m : HM S A) : HM S A := fun s =>
  match m s with
  | (s', Escaped e) => (s', if catches cs e then HTTPException status (JStr (exn_msg e)) else Escaped e)
  | done => done
  end.

(** ** Request models *)

(** Times are in UTC: the validators convert them. *)
Record RegisterKeyRequest := mkRegisterKeyRequest {
  rq_agent_id : string; rq_pubkey_id : string; rq_algorithm : string; rq_public_key_b64 : option string;
  rq_public_key_jwk : option dict; rq_valid_from : option Z; rq_valid_until : option Z;
}.

Record PubkeyRegistration := mkPubkeyRegistration {
  pg_pubkey_id : string; pg_public_key_b64 : option string; pg_public_key_jwk : option dict;
}.

Definition one_of {A B : Type} (a : option A) (b : option B) : bool :=
  match a, b with Some _, None | None, Some _ => true | _, _ => false end.

Definition RegisterKeyRequest_init (agent_id pubkey_id algorithm : string) (b64 : option string) (jwk : option dict)
    (valid_from valid_until : option datetime) : result RegisterKeyRequest :=
  from ← validated_opt as_utc valid_from;
  until ← validated_opt as_utc valid_until;
  match from, until with
  | Some from, Some until =>
      if truthy_str agent_id && truthy_str pubkey_id && truthy_str algorithm && one_of b64 jwk
         && match from, until with Some f, Some u => f <=? u | _, _ => true end
      then Ok (mkRegisterKeyRequest agent_id pubkey_id algorithm b64 jwk from until)
      else validation_error
  | _, _ => validation_error
  end.

Definition PubkeyRegistration_init (pubkey_id : string) (b64 : option string) (jwk : option dict) : result PubkeyRegistration :=
  if negb (truthy_str pubkey_id) then validation_error
  else if negb (one_of b64 jwk) then validation_error
  else Ok (mkPubkeyRegistration pubkey_id b64 jwk).

Section Service.
Context `{Hashlib, Rfc8785, Cryptography, Sqlite, EmailLib, EnvelopeModel, PoiModel, Rfc3161, Pbkdf2}.
Context {W : Type}.

Abbreviation State := (ServiceState W).
Abbreviation Handler := (HM State).

(** ** Parts of the state *)

Definition with_database (s : State) (d : Database) : State :=
  mkServiceState d (sv_keys s) (sv_nonces s) (sv_operations s) (sv_ledgers s) (sv_verified_envelopes s) (sv_evidence s)
    (sv_anchors s) (sv_world s).
Definition with_keys (s : State) (k : KeyStore) : State :=
  mkServiceState (sv_database s) k (sv_nonces s) (sv_operations s) (sv_ledgers s) (sv_verified_envelopes s) (sv_evidence s)
    (sv_anchors s) (sv_world s).
Definition with_nonces (s : State) (n : NonceStore) : State :=
  mkServiceState (sv_database s) (sv_keys s) n (sv_operations s) (sv_ledgers s) (sv_verified_envelopes s) (sv_evidence s)
    (sv_anchors s) (sv_world s).
Definition with_operations (s : State) (l : list dict) : State :=
  mkServiceState (sv_database s) (sv_keys s) (sv_nonces s) l (sv_ledgers s) (sv_verified_envelopes s) (sv_evidence s)
    (sv_anchors s) (sv_world s).
Definition with_verified (s : State) (l : list SignedEnvelope) : State :=
  mkServiceState (sv_database s) (sv_keys s) (sv_nonces s) (sv_operations s) (sv_ledgers s) l (sv_evidence s)
    (sv_anchors s) (sv_world s).
Definition with_anchors (s : State) (a : AnchorStore) : State :=
  mkServiceState (sv_database s) (sv_keys s) (sv_nonces s) (sv_operations s) (sv_ledgers s) (sv_verified_envelopes s)
    (sv_evidence s) a (sv_world s).
Definition with_ledger (s : State) (l : Ledger) : State :=
  mkServiceState (sv_database s) (sv_keys s) (sv_nonces s) (sv_operations s) (<[service_ledger := l]> (sv_ledgers s))
    (sv_verified_envelopes s) (sv_evidence s) (sv_anchors s) (sv_world s).
Definition with_world (s : State) (w : W) : State :=
  mkServiceState (sv_database s) (sv_keys s) (sv_nonces s) (sv_operations s) (sv_ledgers s) (sv_verified_envelopes s)
    (sv_evidence s) (sv_anchors s) w.

(** [artifact_store], whose persistence is [database]. *)
Definition evidence_view (s : State) : EvidenceState Database :=
  mkEvidenceState (sv_evidence s) (Some (sv_database s)) (sv_ledgers s).

Definition with_evidence (s : State) (e : EvidenceState Database) : State :=
  mkServiceState (default (sv_database s) (es_persistence e)) (sv_keys s) (sv_nonces s) (sv_operations s) (es_ledgers e)
    (sv_verified_envelopes s) (es_evidence e) (sv_anchors s) (sv_world s).

Definition on_database {A : Type} (f : Database -> Database * result A) : Handler A :=
  runs (fun s => let '(d, r) := f (sv_database s) in (with_database s d, r)).

Definition on_evidence {A : Type} (f : EvidenceState Database -> EvidenceState Database * result A) : Handler A :=
  runs (fun s => let '(e, r) := f (evidence_view s) in (with_evidence s e, r)).

(** [app.state.key_registry]. *)
Definition key_registry (s : State) : option KeyTable := match sv_keys s with Registered t => Some t | Legacy _ => None end.

#[export] Instance KeyStore_lookup : PublicKeyLookup (Z * KeyStore) :=
  {| lookup_pubkey k id := match k.2 with Registered t => lookup_pubkey (k.1, t) id | Legacy p => lookup_pubkey p id end |}.

(** The application of [create_app] over a new database, with the demonstration accounts. *)
Definition Service_init (r1 r2 : string) (salt1 salt2 : bytes) (now1 now2 : Z) (keys : KeyStore) (nonces : NonceStore)
    (world : W) : result State :=
  let '(d, seeded) := seed_demo_accounts r1 r2 salt1 salt2 now1 now2 Database_empty in
  _ ← seeded; Ok (mkServiceState d keys nonces [] {[ service_ledger := Ledger_init ]} [] [] [] world).

(** ** Helpers *)

Definition operation_entry (now : Z) (operation status detail : string) (pubkey_id : option string) : dict :=
  [("timestamp", JStr (isoformat_z now)); ("operation", JStr operation); ("status", JStr status); ("detail", JStr detail)]
  ++ match pubkey_id with Some id => if truthy_str id then [("pubkey_id", JStr id)] else [] | None => [] end.

(** [operations.insert(0, entry)], then [operations = operations[:50]]. *)
Definition record_operation (now : Z) (operation status detail : string) (pubkey_id : option string) : Handler unit :=
  modify (fun s => with_operations s (take 50 (operation_entry now operation status detail pubkey_id :: sv_operations s))).

Definition bearer_token (authorization : string) : option string :=
  let '(scheme, token) := match split_at " "%char authorization with Some p => p | None => (authorization, "") end in
  if bool_decide (str_lower scheme = "bearer") && truthy_str (str_strip token) then Some (str_strip token) else None.

Definition request_user (now : Z) (authorization : string) (required : bool) : Handler (option dict) :=
  user ← calls (fun s => user_from_token now (sv_database s) (bearer_token authorization));
  if required && negb (bool_decide (is_Some user)) then http 401 (JStr "authentication_required")
  else mret (M := Handler) user.

(** [user["id"]] of a public user. *)
Definition user_id_of (user : dict) : string := match dict_get "id" user with Some (JStr id) => id | _ => "" end.

Definition registration_key_bytes (b64 : option string) (jwk : option dict) (message : string) : result bytes :=
  match jwk with
  | Some jwk => import_jwk jwk
  | None => try_except (b64decode true (or_str b64 "")) [ValueError; BinasciiError] (fun _ => raise ValueError message)
  end.

Definition get_str (k : string) (payload : list (string * string)) : string := default "" (dict_get k payload).

(** ** Accounts *)

Definition auth_signup (random token : string) (salt : bytes) (now now' : Z) (payload : list (string * string)) : Handler json :=
  '(user, token) ← or_http [KeyError; TypeError; ValueError] 400
    (user ← on_database (fun d => create_user random salt now d (get_str "name" payload) (get_str "email" payload) (get_str "password" payload));
     token ← on_database (fun d => create_session token now' d (user_id_of user) 7);
     mret (M := Handler) (user, token));
  mret (M := Handler) (JObj [("user", JObj user); ("token", JStr token)]).

Definition auth_login (token : string) (now : Z) (payload : list (string * string)) : Handler json :=
  user ← asks (fun s => authenticate (sv_database s) (get_str "email" payload) (get_str "password" payload));
  match user with
  | None => http 401 (JStr "Invalid email or password.")
  | Some user =>
      token ← on_database (fun d => create_session token now d (user_id_of user) 7);
      mret (M := Handler) (JObj [("user", JObj user); ("token", JStr token)])
  end.

Definition auth_me (now : Z) (authorization : string) : Handler json :=
  user ← request_user now authorization true;
  mret (M := Handler) (JObj [("user", match user with Some u => JObj u | None => JNull end)]).

Definition auth_logout (authorization : string) : Handler json :=
  _ ← modify (fun s => with_database s (revoke_session (sv_database s) (bearer_token authorization)));
  mret (M := Handler) (JObj [("status", JStr "signed_out")]).

Definition auth_reset_password (payload : list (string * string)) : Handler json := mret (M := Handler) (JObj [("status", JStr "accepted")]).

Definition list_prompt_records (now : Z) (authorization : string) : Handler json :=
  user ← request_user now authorization true;
  match user with
  | None => http 401 (JStr "authentication_required")
  | Some user =>
      prompts ← calls (fun s => list_prompts (sv_database s) (user_id_of user) 50);
      mret (M := Handler) (JObj [("prompts", JList prompts)])
  end.

(** ** Keys *)

Definition register_pubkey_handler (now now' now_op : Z) (registration : PubkeyRegistration) : Handler json :=
  let id := pg_pubkey_id registration in
  _ ← or_http [TypeError; ValueError] 422
    (key ← calls (fun _ => registration_key_bytes (pg_public_key_b64 registration) (pg_public_key_jwk registration)
                             "public_key_b64 must be valid base64 DER");
     runs (fun s =>
       match (match sv_keys s with
              | Registered t => t ← register_pubkey now now' t id key; Ok (Registered t)
              | Legacy p => p ← PubkeyStore_register_pubkey p (JStr id) (ObjBytes key); Ok (Legacy p)
              end) with
       | Ok keys => (with_keys s keys, Ok tt)
       | Raise e => (s, Raise e)
       end));
  _ ← record_operation now_op "register_pubkey" "registered" ("registered " +:+ id) (Some id);
  mret (M := Handler) (JObj [("status", JStr "registered"); ("pubkey_id", JStr id)]).

(** [if registry is None: raise HTTPException(500, detail)]. *)
Definition require_registry (detail : string) : Handler unit :=
  registry ← asks key_registry;
  match registry with Some _ => mret (M := Handler) tt | None => http 500 (JStr detail) end.

(** A call of the registry, which there is. *)
Definition on_registry {A : Type} (f : KeyTable -> KeyTable * result A) : Handler A :=
  runs (fun s => match sv_keys s with
                 | Registered t => let '(t, r) := f t in (with_keys s (Registered t), r)
                 | Legacy _ => (s, raise AttributeError "'NoneType' object has no attribute")
                 end).

Definition register_key_handler (now_from now now_op : Z) (registration : RegisterKeyRequest) : Handler json :=
  _ ← require_registry "key_registry_not_configured";
  record ← or_http [TypeError; ValueError] 422
    (key ← calls (fun _ => registration_key_bytes (rq_public_key_b64 registration) (rq_public_key_jwk registration)
                             "public_key_b64 must be valid base64 key material");
     on_registry (fun t =>
       match register_key now t (rq_agent_id registration) (rq_pubkey_id registration) key (rq_algorithm registration)
               (utc (default now_from (rq_valid_from registration))) (utc <$> rq_valid_until registration) None with
       | Ok (t, record) => (t, Ok record)
       | Raise e => (t, Raise e)
       end));
  _ ← record_operation now_op "register_key" "registered" ("registered " +:+ kr_pubkey_id record) (Some (kr_pubkey_id record));
  mret (M := Handler) (JObj [("status", JStr "registered"); ("agent_id", JStr (kr_agent_id record)); ("pubkey_id", JStr (kr_pubkey_id record))]).

Definition get_jwks (now : Z) : Handler json :=
  _ ← require_registry "key_registry_not_configured";
  keys ← on_registry (fun t => (t, registry_export_jwks now t));
  mret (M := Handler) (JObj [("keys", JList (JObj <$> keys))]).

Definition revoke_key_handler (now_op : Z) (pubkey_id : string) : Handler json :=
  _ ← require_registry "key_registry_not_configured";
  found ← on_registry (fun t => let '(t, found) := revoke_key t pubkey_id in (t, Ok found));
  if negb found then http 404 (JStr "key_not_found")
  else
    _ ← record_operation now_op "revoke_key" "revoked" ("revoked " +:+ pubkey_id) (Some pubkey_id);
    mret (M := Handler) (JObj [("status", JStr "revoked"); ("pubkey_id", JStr pubkey_id)]).

Definition list_operations : Handler json :=
  asks (fun s => JObj [("count", JInt (Z.of_nat (length (sv_operations s)))); ("operations", JList (JObj <$> sv_operations s))]).

(** ** Anchors *)

Definition anchor_status (a : AnchorStatus) : string := match a with Anchored => "anchored" | Pending => "pending" | Failed => "failed" end.

Definition anchor_json (r : AnchorRecord) : json :=
  JObj [("status", JStr (anchor_status (an_status r))); ("ledger_root", JStr (hex (an_ledger_root r)));
        ("gen_time", opt_str (isoformat_utc <$> an_gen_time r)); ("anchored_at", JStr (isoformat_utc (an_anchored_at r)));
        ("detail", JStr (an_detail r))].

Definition anchor_ledger (config : TSAConfig) (post : nat -> bytes -> result bytes) (now : Z) : Handler json :=
  record ← runs (fun s =>
    let '(store, _, r) := anchor_current_root config post now (ledger_at (sv_ledgers s) service_ledger) (sv_anchors s) in
    (with_anchors s store, r));
  mret (M := Handler) (anchor_json record).

Definition list_anchors : Handler json :=
  asks (fun s => JObj [("count", JInt (Z.of_nat (length (all_records (sv_anchors s))))); ("anchors", JList (anchor_json <$> all_records (sv_anchors s)))]).

(** ** Verification *)

(** [VerificationPipeline(key_registry or pubkey_store, artifact_store, anchor_store)], run; [env]
    gives the clock readings and the timestamp authority.  What the pipeline's calls on a store of
    the earlier kind raise is not modelled. *)
Definition service_verification (env : PipelineEnv) (eml_bytes : option bytes) (action_id : option string)
    : Handler VerificationTrace := fun s =>
  match key_registry s with
  | None => (s, Escaped (Exn OutsideModel "pipeline over a legacy key store"))
  | Some t =>
      on_evidence (fun e =>
        run_verification (mkPipelineEnv t (pe_now_agent env) (pe_now_record env) (pe_now_user env) (Some (sv_anchors s))
                            (pe_tsa_config env) (pe_tsa_download env)) e eml_bytes action_id) s
  end.

Definition trace_dict (t : VerificationTrace) : dict := match trace_json t with JObj d => d | _ => [] end.

Definition store_verification (action_id : string) (t : VerificationTrace) : Handler unit :=
  modify (fun s => with_database s (update_verification (sv_database s) action_id (trace_dict t))).

(** [uploaded] is the form's file, [body] what [request.json()] answers. *)
Definition verify_artifact (env : PipelineEnv) (content_type : string) (uploaded : option bytes) (body : result json)
    : Handler json :=
  if str_startswith "multipart/form-data" content_type then
    match uploaded with
    | None => http 422 (JStr "provide an .eml file")
    | Some raw =>
        trace ← service_verification env (Some raw) None;
        _ ← (if opt_truthy (vt_action_id trace) then store_verification (or_str (vt_action_id trace) "") trace
             else mret (M := Handler) tt);
        mret (M := Handler) (trace_json trace)
    end
  else
    match (b ← body; match b with JObj d => v ← dict_item "action_id" d; Ok (py_str v)
                             | _ => raise TypeError "indices must be integers" end) with
    | Raise e => if catches [KeyError; TypeError; ValueError] e
                 then http 422 (JStr "provide JSON {action_id: ...} or an .eml upload") else calls (fun _ => Raise e)
    | Ok action_id =>
        trace ← service_verification env None (Some action_id);
        _ ← store_verification action_id trace;
        mret (M := Handler) (trace_json trace)
    end.

Definition verify_by_action_id (env : PipelineEnv) (action_id : string) : Handler json :=
  trace ← service_verification env None (Some action_id);
  _ ← store_verification action_id trace;
  mret (M := Handler) (trace_json trace).

(** ** Prompts *)

(** The default of [SignatureVerifier]. *)
Definition freshness_seconds : Z := 60.

(** [SignatureVerifier.verify_envelope] with the service's stores; [now_key] is the registry's
    clock. *)
Definition service_verify (c : clocks) (now_key : Z) (envelope : SignedEnvelope) : Handler VerificationResult :=
  runs (fun s => let '(n, r) := verify_envelope freshness_seconds c (now_key, sv_keys s) (sv_nonces s) envelope in (with_nonces s n, r)).

(** The session's user, if any, is the envelope's. *)
Definition envelope_user (now : Z) (authorization : string) (envelope : SignedEnvelope) : Handler (option dict) :=
  user ← request_user now authorization false;
  match user with
  | Some u => if bool_decide (se_user_id envelope = user_id_of u) then mret (M := Handler) user
              else http 403 (JStr "prompt_user_mismatch")
  | None => mret (M := Handler) None
  end.

Definition default_verified_handler (_ : SignedEnvelope) : result dict :=
  Ok [("next", JStr "would proceed to PoI Generator in Stage 6")].

(** [{**base, **more}]. *)
Definition merge_dict (base more : dict) : dict := fold_left (fun acc kv => dict_set kv.1 kv.2 acc) more base.

(** The clock readings of one request. *)
Record PromptClock := mkPromptClock { pk_session : Z; pk_verify : clocks; pk_key : Z; pk_operation : Z }.

Definition verify_prompt (on_verified : SignedEnvelope -> result dict) (k : PromptClock) (authorization : string)
    (envelope : SignedEnvelope) : Handler json :=
  _ ← envelope_user (pk_session k) authorization envelope;
  result ← service_verify (pk_verify k) (pk_key k) envelope;
  if negb (vr_valid result) then
    _ ← record_operation (pk_operation k) "verify_prompt" "rejected" (or_str (vr_reason result) "verification_failed")
          (Some (se_pubkey_id envelope));
    http 401 (JStr "verification_failed")
  else
    downstream ← calls (fun _ => on_verified envelope);
    _ ← modify (fun s => with_verified s (take 50 (envelope :: sv_verified_envelopes s)));
    _ ← record_operation (pk_operation k) "verify_prompt" "verified" ("accepted " +:+ se_pubkey_id envelope)
          (Some (se_pubkey_id envelope));
    mret (M := Handler) (JObj (merge_dict [("status", JStr "verified")] downstream)).

End Service.
