(* ===== verification/PortalApp.v ===== *)
(** * verification_portal/backend/main.py: the portal's requests

    The two routes of the portal over the pipeline of [Portal.v], in the monad of [Service.v]:
    an upload or an action identifier to [POST /verify], an identifier in the path of
    [GET /verify/{action_id}].  The reading of the form and of the JSON body is the framework's.

    The theorem: whatever is asked, the portal changes no key, no ledger, no persisted record and
    no record it has already loaded, and the two ways to name an action give the same reply. *)

From S2P Require Import Prelude PyStr Base64 Json JsonText PyTime Crypto Instances Ledger Merkle Sql Verifier Registry.
From S2P Require Import Poi AgentBase Executor Tsa Evidence Portal AuditAgent Accounts Service.

#[local] Open Scope Z_scope.

Section PortalApp.
Context `{Hashlib, Rfc8785, Cryptography, Sqlite, EmailLib, EnvelopeModel, PoiModel, Rfc3161}.
Context {P : Type} `{!EvidencePersistence P}.

(** [app.state]. *)
Record PortalState := mkPortalState { po_keys : KeyTable; po_evidence : EvidenceState P; po_anchors : AnchorStore }.

(** [create_app()]: an empty registry, evidence store and anchor store unless they are given. *)
Definition portal_create_app (keys : option KeyTable) (evidence : option (EvidenceState P)) (anchors : option AnchorStore) : PortalState :=
  mkPortalState (default [] keys) (default (mkEvidenceState [] None ∅) evidence) (default [] anchors).

Abbreviation PM := (HM PortalState).

(** [VerificationPipeline(...).run_verification(eml_bytes, action_id)]. *)
Definition portal_verification (env : PipelineEnv) (eml_bytes : option bytes) (action_id : option string) : PM VerificationTrace :=
  runs (fun s =>
    let '(e, r) := run_verification (mkPipelineEnv (po_keys s) (pe_now_agent env) (pe_now_record env) (pe_now_user env) (Some (po_anchors s))
                                       (pe_tsa_config env) (pe_tsa_download env)) (po_evidence s) eml_bytes action_id in
    (mkPortalState (po_keys s) e (po_anchors s), r)).

(** [VerifyByActionId.model_validate(body)]. *)
Definition VerifyByActionId_validate (body : json) : result string :=
  match body with
  | JObj d => match dict_get "action_id" d with Some (JStr id) => Ok id | _ => validation_error end
  | _ => validation_error
  end.

Definition portal_verify (env : PipelineEnv) (content_type : string) (uploaded : option bytes) (body : result json) : PM json :=
  if str_startswith "multipart/form-data" content_type then
    match uploaded with
    | None => http 422 (JStr "provide an .eml file")
    | Some raw => trace ← portal_verification env (Some raw) None; mret (M := PM) (trace_json trace)
    end
  else
    match (b ← body; VerifyByActionId_validate b) with
    | Raise e => if catches [Exception] e then http 422 (JStr "provide JSON {action_id: ...} or an .eml upload") else calls (fun _ => Raise e)
    | Ok id => trace ← portal_verification env None (Some id); mret (M := PM) (trace_json trace)
    end.

Definition portal_verify_by_action_id (env : PipelineEnv) (action_id : string) : PM json :=
  trace ← portal_verification env None (Some action_id); mret (M := PM) (trace_json trace).

(** ** Any sequence of requests *)

Inductive PortalRequest :=
| PostVerify (env : PipelineEnv) (content_type : string) (uploaded : option bytes) (body : result json)
| GetVerify (env : PipelineEnv) (action_id : string).

Definition portal_serve (r : PortalRequest) : PM json :=
  match r with
  | PostVerify env content_type uploaded body => portal_verify env content_type uploaded body
  | GetVerify env id => portal_verify_by_action_id env id
  end.

Definition portal_served (requests : list PortalRequest) (s : PortalState) : PortalState :=
  fold_left (fun s r => (portal_serve r s).1) requests s.

(** What a request leaves. *)
Definition only_loads (s s' : PortalState) : Prop :=
  po_keys s' = po_keys s /\ po_anchors s' = po_anchors s /\ loads_only (po_evidence s) (po_evidence s').

#[export] Instance only_loads_preorder : PreOrder only_loads.
Proof.
  split; [intros s; by split_and!|]. intros x y z (? & ? & ?) (? & ? & ?). split_and!; [congruence..|by etransitivity].
Qed.

Lemma portal_verification_loads {A : Type} env eml id (f : VerificationTrace -> A) s :
  only_loads s ((trace ← portal_verification env eml id; mret (M := PM) (f trace)) s).1.
Proof.
  unfold portal_verification, runs, mbind, HM_bind.
  pose proof (fun env => run_loads env (po_evidence s) eml id) as Hl. cbv zeta.
  match goal with |- context [run_verification ?env _ _ _] => specialize (Hl env); destruct (run_verification env (po_evidence s) eml id) as [e r] end.
  by destruct r.
Qed.

Lemma portal_serve_loads r s : only_loads s (portal_serve r s).1.
Proof.
  destruct r as [env ct up body|env id]; cbn [portal_serve]; [|apply portal_verification_loads].
  unfold portal_verify. destruct (str_startswith _ ct).
  - destruct up as [raw|]; [apply portal_verification_loads|done].
  - destruct (body ≫= _) as [id|e]; [apply portal_verification_loads|]. by destruct (catches _ e).
Qed.

(** ** Theorem *)

(** The portal only reads: after any requests the keys, the anchors, the ledgers that were there,
    the persistent store and the records already loaded are unchanged; and an action is verified
    the same way whether its identifier is posted or in the path. *)
Theorem portal_read_only requests s :
  let s' := portal_served requests s in
  po_keys s' = po_keys s /\ po_anchors s' = po_anchors s /\ es_ledgers (po_evidence s) ⊆ es_ledgers (po_evidence s') /\
  es_persistence (po_evidence s') = es_persistence (po_evidence s) /\
  (forall id ev, dict_get id (es_evidence (po_evidence s)) = Some ev -> dict_get id (es_evidence (po_evidence s')) = Some ev) /\
  (forall env ct uploaded d id, str_startswith "multipart/form-data" ct = false -> dict_get "action_id" d = Some (JStr id) ->
     portal_verify env ct uploaded (Ok (JObj d)) s' = portal_verify_by_action_id env id s').
Proof.
  cbn zeta. assert (only_loads s (portal_served requests s)) as (Hk & Ha & Hl & Hp & He).
  { revert s. induction requests as [|r rs IH]; intros s; [done|]. etransitivity; [apply portal_serve_loads|apply IH]. }
  split_and!; [done..|]. intros env ct up d id Hct Hid. unfold portal_verify. rewrite Hct. cbn. by rewrite Hid.
Qed.

End PortalApp.
