(* ===== verification/AgentService.v ===== *)
(** * verifier_service/main.py: running agents for a signed prompt

    The two handlers that run agents, [generate_artifact] and [execute_routed_agent], over the
    state of [Service.v], composed from the verifier, the router, the agents, the ledger, the
    proofs of intent, the evidence store and the database.  The agents share a file system and an
    outbox; a plan runs in the agent of its type.  The clock readings and random values of a
    step, the outcomes of its outside effects, and the serialisation of a message are arguments.

    [AgentRuntime], the facade over the email agent of [agent_runtime.py], is a record of its
    agent.  The theorems about the handlers are in [ServiceSafety.v] and [Execution.v]. *)

From S2P Require Import Prelude PyStr Base64 Json JsonText PyTime Crypto Instances Ledger Merkle Sql Verifier Registry.
From S2P Require Import Poi AgentBase Executor Tsa Evidence Portal Regex Router EmailAgent FileSystem StateMonad FileAgent.
From S2P Require Import DatabaseAgent AuditAgent Accounts Service.

#[local] Open Scope Z_scope.

(** ** The agents' part of the state *)

(** A file of the outbox: its path, bytes and modification time; in directory order. *)
Record EmlFile := mkEmlFile { ef_path : string; ef_bytes : bytes; ef_mtime : Z }.

Record World := mkWorld {
  wd_fs : FS;
  wd_outbox : list EmlFile;
  wd_database_agent : DatabaseAgent;
  wd_sql_log : list Request;
  wd_key_files : gmap string bytes;
}.

(** [path.write_bytes(data)] in the outbox. *)
Definition write_eml (p : string) (data : bytes) (mtime : Z) (outbox : list EmlFile) : list EmlFile :=
  if bool_decide (p ∈ ef_path <$> outbox)
  then (fun f => if bool_decide (ef_path f = p) then mkEmlFile p data mtime else f) <$> outbox
  else outbox ++ [mkEmlFile p data mtime].

(** [max(files, key=mtime)]: the first of the greatest. *)
Definition newest (files : list EmlFile) : option EmlFile :=
  fold_left (fun best f => match best with
                           | Some b => if ef_mtime b <? ef_mtime f then Some f else best
                           | None => Some f
                           end) files None.

Definition file_name (p : string) : string := default "" (last (components p)).

Section AgentService.
Context `{Hashlib, Rfc8785, Cryptography, Sqlite, EmailLib, EnvelopeModel, PoiModel, Rfc3161, Pbkdf2, Difflib, SqliteConnection}.

(** The agents of [create_app] other than the database agent, which keeps a state of its own. *)
Record Agents := mkAgents {
  as_email : EmailAgent;
  as_file : FileAgent;
  as_audit : AuditAgent;
  as_cwd : path;
  as_outbox_dir : string;
  as_email_key : Ed25519PrivateKey;
}.

(** [message.as_bytes()], and the dash of the audit report. *)
Variable as_bytes : EmailMessage -> bytes.
Variable dash : string.
Variable agents : Agents.

(** The email agent's executor has no database agent. *)
#[local] Instance ops : DatabaseOps DbState := database_ops (as_cwd agents).

Abbreviation State := (ServiceState World).
Abbreviation Handler := (HM State).

(** What one step draws and reads: the timestamps of its three entries, the proof's time and
    identifier, the agent's key if it must be generated and its file if another worker wrote it,
    the clocks of the key registration, the effects of the delivery, the message's modification
    time, the clocks of an audit, the action's identifier, the prompt's time and the log's. *)
Record StepEnv := mkStepEnv {
  st_entry_1 : Z; st_entry_2 : Z; st_entry_3 : Z;
  st_poi_now : Z; st_poi_uuid : string;
  st_generated : Ed25519PrivateKey; st_other_files : gmap string bytes -> gmap string bytes;
  st_key_now : Z; st_key_from : Z; st_key_created : Z;
  st_smtp : Effect -> result unit; st_draws : Draws; st_mtime : Z;
  st_audit : nat -> PipelineEnv;
  st_uuid4 : string; st_prompt_now : Z; st_operation_now : Z;
}.

(** ** The registered agents *)

(** [agent_registry]: planning reads the file system and the database agent's tables. *)
Definition service_agents (s : State) : AgentRegistry :=
  let w := sv_world s in
  [mkAgent "email" (eg_agent_id (as_email agents)) email_can_handle (email_plan (as_email agents));
   mkAgent "file" (fg_agent_id (as_file agents)) file_can_handle
     (fun request context => (file_plan (as_file agents) request context (wd_fs w)).2);
   mkAgent "audit" (au_agent_id (as_audit agents)) audit_can_handle (audit_plan (as_audit agents));
   mkAgent "database" (db_agent_id (wd_database_agent w)) db_can_handle (db_agent_plan (wd_fs w) (wd_database_agent w))].

(** The email agent's deliveries write to the outbox. *)
Definition delivered (env : StepEnv) (effects : list Effect) (outbox : list EmlFile) : list EmlFile :=
  fold_left (fun o x => match x with
                        | WriteEml p m => if is_ok (st_smtp env x) then write_eml p (as_bytes m) (st_mtime env) o else o
                        | _ => o
                        end) effects outbox.

Definition with_outbox (w : World) (o : list EmlFile) : World :=
  mkWorld (wd_fs w) o (wd_database_agent w) (wd_sql_log w) (wd_key_files w).
Definition with_fs (w : World) (fs : FS) : World :=
  mkWorld fs (wd_outbox w) (wd_database_agent w) (wd_sql_log w) (wd_key_files w).
Definition with_key_files (w : World) (files : gmap string bytes) : World :=
  mkWorld (wd_fs w) (wd_outbox w) (wd_database_agent w) (wd_sql_log w) files.
Definition with_db_state (w : World) (d : DbState) : World :=
  mkWorld (ds_fs d) (wd_outbox w) (ds_agent d) (ds_log d) (wd_key_files w).

(** [agent.execute(plan, poi)], of the agent registered for the plan's type. *)
Definition agent_execute (env : StepEnv) (agent_type : string) (plan : ActionPlan) (poi : ProofOfIntent) : Handler ActionResult :=
  if bool_decide (agent_type = "email") then
    runs (fun s =>
      let '(effects, r) := email_execute (st_smtp env) (st_draws env) (as_email agents) plan poi in
      (with_world s (with_outbox (sv_world s) (delivered env effects (wd_outbox (sv_world s)))), r))
  else if bool_decide (agent_type = "file") then
    runs (fun s => let '(fs, r) := file_execute (as_file agents) plan poi (wd_fs (sv_world s)) in
                   (with_world s (with_fs (sv_world s) fs), r))
  else if bool_decide (agent_type = "audit") then fun s =>
    match key_registry s with
    | None => (s, Escaped (Exn OutsideModel "pipeline over a legacy key store"))
    | Some t =>
        let envs i := let e := st_audit env i in
          mkPipelineEnv t (pe_now_agent e) (pe_now_record e) (pe_now_user e) (Some (sv_anchors s)) (pe_tsa_config e) (pe_tsa_download e) in
        on_evidence (fun e => audit_execute dash (as_audit agents) envs e plan (Some poi)) s
    end
  else if bool_decide (agent_type = "database") then
    runs (fun s =>
      let w := sv_world s in
      let '(d, r) := db_agent_execute (as_cwd agents) plan poi (mkDbState (wd_database_agent w) (wd_fs w) (wd_sql_log w)) in
      (with_world s (with_db_state w d), r))
  else calls (fun _ => raise KeyError ("unknown agent_type: " +:+ agent_type)).

(** ** The steps the handlers share *)

Definition append_entry (now : Z) (entry_type : string) (content : dict) : Handler unit :=
  runs (fun s => match append now (ledger_at (sv_ledgers s) service_ledger) (JStr entry_type) (JObj content) with
                 | Ok (l, _) => (with_ledger s l, Ok tt)
                 | Raise e => (s, Raise e)
                 end).

Definition the_ledger : Handler Ledger := asks (fun s => ledger_at (sv_ledgers s) service_ledger).

(** [register_agent_public_key(agent_id, key_registry or pubkey_store, key)]; a store of the
    earlier kind has no [register_key]. *)
Definition register_agent (env : StepEnv) (agent_id : string) (key : Ed25519PrivateKey) : Handler unit :=
  runs (fun s => match sv_keys s with
                 | Registered t =>
                     match register_agent_public_key (st_key_now env) (st_key_from env) (st_key_created env) t agent_id key with
                     | Ok (t, _) => (with_keys s (Registered t), Ok tt)
                     | Raise e => (s, Raise e)
                     end
                 | Legacy _ => (s, raise AttributeError "'PubkeyStore' object has no attribute 'register_key'")
                 end).

Definition signed_poi (env : StepEnv) (prompt system_prompt : string) (payload : dict) (model_id : string)
    (identity : PoiIdentity) (key : Ed25519PrivateKey) : Handler ProofOfIntent :=
  ledger ← the_ledger;
  poi ← calls (fun _ => build_poi (st_poi_now env) (st_poi_uuid env) prompt system_prompt ledger (JObj payload) model_id identity);
  calls (fun _ => sign_poi poi key).

(** The envelope was accepted by an earlier request, or is accepted now. *)
Definition verified_before (s : State) (envelope : SignedEnvelope) : bool :=
  existsb (fun item => bool_decide (item = envelope)) (sv_verified_envelopes s).

Definition save_record (env : StepEnv) (envelope : SignedEnvelope) (user : option dict) (action_id : string)
    (eml_path : option string) : Handler Z :=
  on_database (fun d => save_prompt (st_prompt_now env) d envelope
    (match user with Some u => user_id_of u | None => se_user_id envelope end) (Some action_id) eml_path None).

Definition register_evidence (ev : ActionEvidence) : Handler unit := on_evidence (fun e => evidence_register e ev).

Definition outbox : Handler (list EmlFile) := asks (fun s => wd_outbox (sv_world s)).

(** ** POST /api/generate-artifact *)

(** The verification of both handlers: [rejected] is what is logged before status 401. *)
Definition require_verified (k : PromptClock) (envelope : SignedEnvelope) (rejected : VerificationResult -> Handler unit) : Handler unit :=
  before ← asks (fun s => verified_before s envelope);
  if before : bool then mret (M := Handler) tt
  else
    result ← service_verify (pk_verify k) (pk_key k) envelope;
    if negb (vr_valid result) then _ ← rejected result; http 401 (JStr "verification_failed")
    else mret (M := Handler) tt.

Definition draft_json (a : EmailAction) : json :=
  JObj [("action_type", JStr "email"); ("to", JStr (ea_to a)); ("subject", JStr (ea_subject a)); ("body", JStr (ea_body a))].

(** [EmailAction(action_type="email", **payload)]; another key, or a value that is not a string,
    is refused. *)
Definition email_action_of (payload : dict) : result EmailAction :=
  match dict_get "to" payload, dict_get "subject" payload, dict_get "body" payload, bool_decide (length payload = 3%nat) with
  | Some (JStr to), Some (JStr subject), Some (JStr body), true => EmailAction_init to subject body
  | _, _, _, _ => validation_error
  end.

(** [details.get("detail") or details.get("error")], or the default. *)
Definition failure_detail (r : ActionResult) : json :=
  get_or "detail" (ar_details r) (get_or "error" (ar_details r) (JStr "artifact_generation_failed")).

Definition email_system_prompt : string := "Only send approved project updates.".

(** agent_runtime.py: [AgentRuntime(email_agent)], and its calls. *)
Record AgentRuntime := mkAgentRuntime { rt_email_agent : EmailAgent }.

Definition runtime_mode : string := "mock".

Definition runtime_plan_email (self : AgentRuntime) (prompt : string) : result EmailAction := plan_email prompt.

Definition runtime_plan_action (self : AgentRuntime) (prompt : string) (context : option dict) : result ActionPlan :=
  email_plan (rt_email_agent self) prompt context.

(** The plan and its action; an [AgentRuntimeError] is logged and answered with status 502. *)
Definition plan_artifact (k : PromptClock) (envelope : SignedEnvelope) : Handler (ActionPlan * EmailAction) :=
  match (plan ← runtime_plan_action (mkAgentRuntime (as_email agents)) (se_prompt envelope) None; a ← email_action_of (ap_payload plan); Ok (plan, a)) with
  | Ok r => mret (M := Handler) r
  | Raise e =>
      if catches [AgentRuntimeError] e then
        _ ← record_operation (pk_operation k) "agent_plan" "failed" (exn_msg e) (Some (se_pubkey_id envelope));
        http 502 (JStr (exn_msg e))
      else calls (fun _ => Raise e)
  end.

Definition generate_artifact (k : PromptClock) (env : StepEnv) (authorization : string) (envelope : SignedEnvelope) : Handler json :=
  user ← envelope_user (pk_session k) authorization envelope;
  _ ← require_verified k envelope (fun result =>
        record_operation (pk_operation k) "generate_artifact" "rejected" (or_str (vr_reason result) "verification_failed")
          (Some (se_pubkey_id envelope)));
  '(plan, action) ← plan_artifact k envelope;
  _ ← append_entry (st_entry_1 env) "system_prompt" [("text", JStr email_system_prompt)];
  _ ← append_entry (st_entry_2 env) "user_prompt" [("text", JStr (se_prompt envelope))];
  _ ← append_entry (st_entry_3 env) "agent_action" (email_payload action);
  _ ← record_operation (pk_operation k) "agent_plan" "planned" ("planned email to " +:+ ea_to action) (Some (se_pubkey_id envelope));
  _ ← register_agent env "email-agent" (as_email_key agents);
  poi ← signed_poi env (se_prompt envelope) email_system_prompt (ap_payload plan) "demo-model"
          (mkPoiIdentity (Some (ap_agent_type plan)) (ap_agent_id plan) (Some (ap_action_type plan)) (Some (ap_policy_decision plan)))
          (as_email_key agents);
  result ← agent_execute env "email" plan poi;
  match ar_success result, ar_artifact_ref result with
  | true, Some id =>
      if negb (truthy_str id) then http 500 (failure_detail result)
      else
        files ← outbox;
        file ← calls (fun _ => of_option (newest files) ValueError "max() arg is an empty sequence");
        ledger ← the_ledger;
        _ ← register_evidence (mkActionEvidence id envelope email_system_prompt service_ledger (Z.of_nat (length ledger))
              (Some (ef_bytes file)) (Some poi) (Some (ap_action_type plan)) (Some (ap_payload plan)) (Some (ar_observed_effect result)) None);
        _ ← save_record env envelope user id (Some (ef_path file));
        _ ← record_operation (st_operation_now env) "generate_artifact" "artifact_generated" ("generated " +:+ file_name (ef_path file))
              (Some (se_pubkey_id envelope));
        mret (M := Handler) (JObj [("status", JStr "artifact_generated"); ("agent_mode", JStr runtime_mode); ("agent_draft", draft_json action);
          ("action_id", JStr id); ("eml_path", JStr (ef_path file)); ("message_id", JStr id)])
  | _, _ => http 500 (failure_detail result)
  end.

(** ** POST /api/agent/execute *)

Definition plan_json (p : ActionPlan) : json :=
  JObj [("agent_type", JStr (ap_agent_type p)); ("agent_id", opt_str (ap_agent_id p)); ("action_type", JStr (ap_action_type p));
        ("payload", JObj (ap_payload p)); ("requires_confirmation", JBool (ap_requires_confirmation p));
        ("confirmed", JBool (ap_confirmed p)); ("policy_decision", JStr (ap_policy_decision p))].

Definition step_json (s : RouteStep) : json :=
  JObj [("sequence", JInt (rs_sequence s)); ("request", JStr (rs_request s)); ("agent_type", opt_str (rs_agent_type s));
        ("agent_id", opt_str (rs_agent_id s)); ("reason", opt_str (rs_reason s))].

Definition route_json (r : RouteResult) : json :=
  JObj [("request", JStr (rr_request r)); ("handled", JBool (rr_handled r)); ("steps", JList (step_json <$> rr_steps r));
        ("reason", opt_str (rr_reason r))].

Definition with_payload (p : ActionPlan) (payload : dict) : ActionPlan :=
  mkActionPlan (ap_agent_type p) (ap_agent_id p) (ap_action_type p) payload (ap_requires_confirmation p) (ap_confirmed p) (ap_policy_decision p).

Definition falsy_item (k : string) (d : dict) : bool := negb (json_truthy (default JNull (dict_get k d))).

(** A report of the previous step becomes the content of a file, and its action the subject of
    an audit, where the plan leaves them open. *)
Definition chained_payload (plan : ActionPlan) (previous : option ActionResult) : dict :=
  let payload := ap_payload plan in
  let payload :=
    match previous with
    | Some r =>
        if bool_decide (ap_action_type plan = "file.create") && falsy_item "content" payload
           && negb (falsy_item "report_markdown" (ar_details r))
        then dict_set "content" (default JNull (dict_get "report_markdown" (ar_details r))) payload else payload
    | None => payload
    end in
  match previous with
  | Some r =>
      if bool_decide (ap_agent_type plan = "audit") && bool_decide (ap_action_type plan ∈ trace_actions)
         && falsy_item "action_id" payload && opt_truthy (ar_artifact_ref r)
      then dict_set "action_id" (opt_str (ar_artifact_ref r)) payload else payload
  | None => payload
  end.

Definition routed_system_prompt : string := "Route the signed request to one approved deterministic specialist.".

(** One executed step: the plan as run, its agent, its action, the agent's key, its proof, the
    file it sent, its result. *)
Record StepRecord := mkStepRecord {
  sr_plan : ActionPlan; sr_agent_id : string; sr_action_id : string; sr_key : Ed25519PrivateKey; sr_poi : ProofOfIntent; sr_file : option EmlFile; sr_result : ActionResult;
}.

Definition record_json (r : StepRecord) : json :=
  JObj [("action_id", JStr (sr_action_id r)); ("agent_type", JStr (ap_agent_type (sr_plan r)));
        ("agent_id", JStr (or_str (ap_agent_id (sr_plan r)) (sr_agent_id r))); ("action_type", JStr (ap_action_type (sr_plan r)));
        ("success", JBool (ar_success (sr_result r))); ("details", JObj (ar_details (sr_result r)));
        ("observed_effect", JObj (ar_observed_effect (sr_result r)))].

(** [load_agent_keypair(agent_id)], in the default directory. *)
Definition agent_keypair (env : StepEnv) (agent_id : string) : Handler Ed25519PrivateKey :=
  runs (fun s =>
    let files := wd_key_files (sv_world s) in
    match load_agent_keypair files (st_other_files env files) (st_generated env) agent_id ".aor_agent_keys" with
    | Ok (files, key) => (with_world s (with_key_files (sv_world s) files), Ok key)
    | Raise e => (s, Raise e)
    end).

(** The files that were not there before. *)
Definition new_files (before after : list EmlFile) : list EmlFile := filter (fun f => ef_path f ∉ ef_path <$> before) after.

(** What is written before an agent runs: the entries, its key, the proof. *)
Definition prepare_step (env : StepEnv) (envelope : SignedEnvelope) (plan : ActionPlan) : Handler (Agent * Ed25519PrivateKey * ProofOfIntent) :=
  _ ← append_entry (st_entry_1 env) "system_prompt" [("text", JStr routed_system_prompt)];
  _ ← append_entry (st_entry_2 env) "user_prompt" [("text", JStr (se_prompt envelope))];
  _ ← append_entry (st_entry_3 env) "agent_action"
        [("agent_type", JStr (ap_agent_type plan)); ("agent_id", opt_str (ap_agent_id plan));
         ("action_type", JStr (ap_action_type plan)); ("payload", JObj (ap_payload plan))];
  agent ← calls (fun s => agent_get (service_agents s) (ap_agent_type plan));
  key ← agent_keypair env (or_str (ap_agent_id plan) (ap_agent_type plan +:+ "-agent"));
  _ ← register_agent env (ag_agent_id agent) key;
  poi ← signed_poi env (se_prompt envelope) routed_system_prompt (ap_payload plan) "deterministic-agent-router"
          (mkPoiIdentity (Some (ap_agent_type plan)) (Some (or_str (ap_agent_id plan) (ag_agent_id agent)))
             (Some (ap_action_type plan)) (Some (ap_policy_decision plan))) key;
  mret (M := Handler) (agent, key, poi).

(** What is written after it ran. *)
Definition record_step (env : StepEnv) (envelope : SignedEnvelope) (user : option dict) (r : StepRecord) : Handler unit :=
  ledger ← the_ledger;
  _ ← register_evidence (mkActionEvidence (sr_action_id r) envelope routed_system_prompt service_ledger (Z.of_nat (length ledger))
        (ef_bytes <$> sr_file r) (Some (sr_poi r)) (Some (ap_action_type (sr_plan r))) (Some (ap_payload (sr_plan r)))
        (Some (ar_observed_effect (sr_result r))) None);
  _ ← save_record env envelope user (sr_action_id r) (ef_path <$> sr_file r);
  record_operation (st_operation_now env) "agent_execute" (if ar_success (sr_result r) then "completed" else "failed")
    (ap_agent_type (sr_plan r) +:+ (":" +:+ ap_action_type (sr_plan r))) (Some (se_pubkey_id envelope)).

(** The body of the loop for one plan. *)
Definition execute_step (env : StepEnv) (envelope : SignedEnvelope) (user : option dict) (previous : option ActionResult)
    (plan : ActionPlan) : Handler StepRecord :=
  if ap_requires_confirmation plan && negb (ap_confirmed plan)
  then http 409 (JObj [("reason", JStr "confirmation_required"); ("plan", plan_json plan)])
  else
    let plan := with_payload plan (chained_payload plan previous) in
    '(agent, key, poi) ← prepare_step env envelope plan;
    existing ← outbox;
    result ← agent_execute env (ag_agent_type agent) plan poi;
    let email := bool_decide (ap_agent_type plan = "email") in
    let action_id := if email && opt_truthy (ar_artifact_ref result) then default "" (ar_artifact_ref result)
                     else ap_agent_type plan +:+ ("-" +:+ st_uuid4 env) in
    files ← outbox;
    let r := mkStepRecord plan (ag_agent_id agent) action_id key poi (if email then newest (new_files existing files) else None) result in
    _ ← record_step env envelope user r;
    mret (M := Handler) r.

(** The loop, up to the first failure. *)
Fixpoint run_plans (envs : nat -> StepEnv) (i : nat) (envelope : SignedEnvelope) (user : option dict)
    (previous : option ActionResult) (plans : list ActionPlan) : Handler (list StepRecord) :=
  match plans with
  | [] => mret (M := Handler) []
  | plan :: rest =>
      r ← execute_step (envs i) envelope user previous plan;
      if ar_success (sr_result r)
      then records ← run_plans envs (S i) envelope user (Some (sr_result r)) rest; mret (M := Handler) (r :: records)
      else mret (M := Handler) [r]
  end.

Definition execution_response (route : RouteResult) (plans : list ActionPlan) (records : list StepRecord) : json :=
  let completed := negb (bool_decide (records = [])) && forallb (fun r => ar_success (sr_result r)) records in
  let last_id := opt_str (sr_action_id <$> last records) in
  JObj [("status", JStr (if completed then "agent_action_completed" else "agent_action_failed"));
        ("agent_mode", JStr "deterministic"); ("route", route_json route);
        ("agent_draft", match plans with
                        | first :: _ =>
                            JObj (merge_dict [("agent_type", JStr (ap_agent_type first)); ("agent_id", opt_str (ap_agent_id first));
                                              ("action_type", JStr (ap_action_type first))] (ap_payload first))
                        | [] => JNull
                        end);
        ("agent_results", JList (record_json <$> records)); ("action_id", last_id);
        ("eml_path", opt_str (ef_path <$> last (omap sr_file records))); ("message_id", last_id)].

Definition execute_routed_agent (k : PromptClock) (envs : nat -> StepEnv) (authorization : string) (envelope : SignedEnvelope)
    : Handler json :=
  user ← envelope_user (pk_session k) authorization envelope;
  _ ← require_verified k envelope (fun _ => mret (M := Handler) tt);
  route ← asks (fun s => route (service_agents s) (se_prompt envelope));
  if negb (rr_handled route) then http 422 (JObj [("reason", opt_str (rr_reason route)); ("route", route_json route)])
  else
    plans ← or_http [KeyError; TypeError; ValueError] 422 (calls (fun s => router_plan (service_agents s) (se_prompt envelope) None));
    _ ← require_registry "key_registry_not_configured_for_agents";
    records ← run_plans envs 0 envelope user None plans;
    mret (M := Handler) (execution_response route plans records).

End AgentService.
