(* ===== verification/Cli.v ===== *)
(** * aor/cli.py: the command line

    [run_request] routes a request, asks the user to confirm what needs it, and for every plan
    signs an envelope with a key of its own, has it verified, runs the agent over a signed proof,
    registers the evidence and verifies it.  Its state is the file system, in which the outbox,
    the agents' keys and the workspace live, the stores it creates, and what it prints; the
    answers of the user, the clock readings and the random values of a step are arguments.

    The theorems are in [CliSafety.v]: what the exit code says of every step, and that nothing
    that needs a confirmation runs without one. *)

From S2P Require Import Prelude PyStr Base64 Json JsonText PyTime Crypto Instances Ledger Merkle Sql Verifier Registry Client.
From S2P Require Import Poi AgentBase Executor Tsa Evidence Portal Regex Router EmailAgent FileSystem StateMonad FileAgent.
From S2P Require Import DatabaseAgent AuditAgent Accounts Service AgentService.

#[local] Open Scope Z_scope.

(** A printed line: text, or a value as indented JSON. *)
Inductive output := Text (s : string) | Dump (j : json).

Section Cli.
Context `{Hashlib, Rfc8785, Cryptography, !EcSigning, Sqlite, EmailLib, EnvelopeModel, PoiModel, Rfc3161, Difflib, SqliteConnection}.
Context {P : Type} `{!EvidencePersistence P}.
Variable as_bytes : EmailMessage -> bytes.
Variable dash : string.
Variable cwd : path.

#[local] Instance cli_ops : DatabaseOps DbState := database_ops cwd.

Record CliState := mkCliState {
  cs_fs : FS;
  cs_keys : KeyTable;
  cs_nonces : NonceStore;
  cs_evidence : EvidenceState P;
  cs_output : list output;
}.

Abbreviation CM := (SM CliState).

Definition on_fs {A : Type} (m : FM A) : CM A := fun s =>
  let '(fs, r) := m (cs_fs s) in (mkCliState fs (cs_keys s) (cs_nonces s) (cs_evidence s) (cs_output s), r).

Definition on_keys {A : Type} (f : KeyTable -> result (KeyTable * A)) : CM A := fun s =>
  match f (cs_keys s) with
  | Ok (t, a) => (mkCliState (cs_fs s) t (cs_nonces s) (cs_evidence s) (cs_output s), Ok a)
  | Raise e => (s, Raise e)
  end.

Definition on_store {A : Type} (f : EvidenceState P -> EvidenceState P * result A) : CM A := fun s =>
  let '(e, r) := f (cs_evidence s) in (mkCliState (cs_fs s) (cs_keys s) (cs_nonces s) e (cs_output s), r).

Definition print (o : output) : CM unit := fun s =>
  (mkCliState (cs_fs s) (cs_keys s) (cs_nonces s) (cs_evidence s) (cs_output s ++ [o]), Ok tt).

Record CliAgents := mkCliAgents { ca_email : EmailAgent; ca_file : FileAgent; ca_audit : AuditAgent; ca_workspace : path }.

(** What a step reads and draws: the user's answer to a question, the time and nonce of the
    envelope and the randomness of its signature, the clocks of its verification, the times of
    the entries, the agent's key if it must be generated, the clocks of its registration, the
    proof's time and identifier, the effects of a delivery, the clocks of an audit, the
    identifier of the action, and the clocks of its verification. *)
Record CliEnv := mkCliEnv {
  ce_answer : string -> result string;
  ce_now : Z; ce_nonce : string; ce_random : bytes; ce_verify : clocks; ce_key_now : Z;
  ce_entry_1 : Z; ce_entry_2 : Z; ce_entry_3 : Z;
  ce_generated : Ed25519PrivateKey; ce_reg_now : Z; ce_reg_from : Z; ce_reg_created : Z;
  ce_poi_now : Z; ce_poi_uuid : string; ce_draws : Draws; ce_audit : nat -> PipelineEnv;
  ce_uuid4 : string; ce_pipeline : PipelineEnv;
}.

(** ** The agents *)

(** [AgentRegistry([email_agent, file_agent, audit_agent])]. *)
Definition cli_agents (a : CliAgents) (fs : FS) : AgentRegistry :=
  [mkAgent "email" (eg_agent_id (ca_email a)) email_can_handle (email_plan (ca_email a));
   mkAgent "file" (fg_agent_id (ca_file a)) file_can_handle (fun request context => (file_plan (ca_file a) request context fs).2);
   mkAgent "audit" (au_agent_id (ca_audit a)) audit_can_handle (audit_plan (ca_audit a))].

(** A delivery on disk: the directory and the message. *)
Definition eml_effect (x : Effect) : FM unit :=
  match x with
  | Mkdir d => fun fs => mkdirs_link fs (components d)
  | WriteEml p m => q ← reads (fun fs => follow fs (components p)); changes (fun fs => write_bytes fs q (as_bytes m))
  | _ => mret (M := FM) tt
  end.

(** What each effect of a delivery into [dir] raises, when it is performed on [fs]. *)
Definition eml_outcome (dir : string) (fs : FS) (x : Effect) : result unit :=
  match x with
  | WriteEml _ _ => (eml_effect x (eml_effect (Mkdir dir) fs).1).2
  | _ => (eml_effect x fs).2
  end.

(** The pipeline of [run_request]: the registry, and an anchor store that stays empty. *)
Definition cli_pipeline_env (t : KeyTable) (e : PipelineEnv) : PipelineEnv :=
  mkPipelineEnv t (pe_now_agent e) (pe_now_record e) (pe_now_user e) (Some []) (pe_tsa_config e) (pe_tsa_download e).

(** [agent_registry.get(plan.agent_type).execute(plan, poi)]. *)
Definition cli_execute (a : CliAgents) (env : CliEnv) (plan : ActionPlan) (poi : ProofOfIntent) : CM ActionResult :=
  let ty := ap_agent_type plan in
  if bool_decide (ty = "email") then on_fs (fun fs =>
    let '(effects, r) := email_execute (eml_outcome (sc_output_dir (eg_smtp_config (ca_email a))) fs) (ce_draws env) (ca_email a) plan poi in
    (fold_left (fun fs x => (eml_effect x fs).1) effects fs, r))
  else if bool_decide (ty = "file") then on_fs (file_execute (ca_file a) plan poi)
  else if bool_decide (ty = "audit") then fun s =>
    on_store (fun e => audit_execute dash (ca_audit a) (fun i => cli_pipeline_env (cs_keys s) (ce_audit env i)) e plan (Some poi)) s
  else raiseM KeyError ("unknown agent_type: " +:+ ty).

(** [load_agent_keypair(agent_id, key_directory=workspace / ".aor_agent_keys")], on disk. *)
Definition cli_keypair (a : CliAgents) (env : CliEnv) (agent_id : string) : CM Ed25519PrivateKey :=
  let dir := ca_workspace a ++ [".aor_agent_keys"] in
  file ← lift (key_file agent_id (path_str dir));
  on_fs
    (before ← reads (fun fs => Ok (match (q ← follow fs (components file); read_bytes fs q) with
                                   | Ok pem => {[ file := pem ]} | Raise _ => (∅ : gmap string bytes) end));
     '(after, key) ← lift (load_agent_keypair before before (ce_generated env) agent_id (path_str dir));
     _ ← (match before !! file, after !! file with
          | None, Some pem =>
              _ ← (fun fs => mkdirs_link fs dir);
              q ← reads (fun fs => follow fs (components file));
              changes (fun fs => write_bytes fs q pem)
          | _, _ => mret (M := FM) tt
          end);
     mret (M := FM) key).

(** ** One plan *)

Definition cli_system_prompt : string := "Only execute the exact typed action plan selected by the router.".

Definition confirm_question (plan : ActionPlan) : string :=
  "Confirm " +:+ (ap_action_type plan +:+ (" on " +:+ (py_str (default (JStr "") (dict_get "path" (ap_payload plan))) +:+ "? [y/N] "))).

Definition confirmed_plan (p : ActionPlan) : ActionPlan :=
  mkActionPlan (ap_agent_type p) (ap_agent_id p) (ap_action_type p) (ap_payload p) (ap_requires_confirmation p) true (ap_policy_decision p).

(** [assume_yes or input(question).lower() in {"y", "yes"}]. *)
Definition approval (assume_yes : bool) (env : CliEnv) (plan : ActionPlan) : result bool :=
  if assume_yes then Ok true
  else answer ← ce_answer env (confirm_question plan); Ok (bool_decide (str_lower answer = "y") || bool_decide (str_lower answer = "yes")).

(** The report of the previous step becomes the content of a file. *)
Definition with_report (previous : option ActionResult) (plan : ActionPlan) : ActionPlan :=
  match previous with
  | Some r =>
      if bool_decide (ap_action_type plan = "file.create") && falsy_item "content" (ap_payload plan) then
        match dict_get "report_markdown" (ar_details r) with
        | Some (JStr report) => with_payload plan (dict_set "content" (JStr report) (ap_payload plan))
        | _ => plan
        end
      else plan
  | None => plan
  end.

Definition result_json (r : ActionResult) : json :=
  JObj [("success", JBool (ar_success r)); ("artifact_ref", opt_str (ar_artifact_ref r)); ("details", JObj (ar_details r));
        ("observed_effect", JObj (ar_observed_effect r))].

(** The ledger of a step. *)
Definition cli_ledger (env : CliEnv) (request : string) (plan : ActionPlan) : result Ledger :=
  '(l, _) ← append (ce_entry_1 env) Ledger_init (JStr "system_prompt") (JObj [("text", JStr cli_system_prompt)]);
  '(l, _) ← append (ce_entry_2 env) l (JStr "user_prompt") (JObj [("text", JStr request)]);
  '(l, _) ← append (ce_entry_3 env) l (JStr "agent_action") (JObj (ap_payload plan));
  Ok l.

(** [evidence_store.register(ActionEvidence(...))], over a ledger object of its own. *)
Definition cli_register (l : Ledger) (ev : nat -> ActionEvidence) : CM unit :=
  on_store (fun e =>
    let loc := fresh_loc e in
    evidence_register (mkEvidenceState (es_evidence e) (es_persistence e) (<[loc := l]> (es_ledgers e))) (ev loc)).

(** What an accepted and executed step leaves: the plan as run, its proof, result and trace. *)
Record CliStep := mkCliStep { st_plan : ActionPlan; st_envelope : SignedEnvelope; st_poi : ProofOfIntent; st_result : ActionResult;
  st_trace : VerificationTrace }.

(** From the signed envelope to the verdict; [None] for a rejected envelope. *)
Definition cli_act (a : CliAgents) (env : CliEnv) (key : EcPrivateKey) (request : string) (plan : ActionPlan) : CM (option CliStep) :=
  envelope ← lift (sign_envelope (ce_random env) key request "cli-user" "cli-session" (isoformat_z (ce_now env)) (ce_nonce env) "cli-user-key");
  verified ← (fun s => let '(n, r) := verify_envelope freshness_seconds (ce_verify env) (ce_key_now env, cs_keys s) (cs_nonces s) envelope in
                       (mkCliState (cs_fs s) (cs_keys s) n (cs_evidence s) (cs_output s), r));
  if negb (vr_valid verified) then
    _ ← print (Dump (JObj [("status", JStr "rejected"); ("reason", opt_str (vr_reason verified))]));
    mret (M := CM) None
  else
    ledger ← lift (cli_ledger env request plan);
    let agent_id := or_str (ap_agent_id plan) (ap_agent_type plan +:+ "-agent") in
    agent_key ← cli_keypair a env agent_id;
    _ ← on_keys (fun t => register_agent_public_key (ce_reg_now env) (ce_reg_from env) (ce_reg_created env) t agent_id agent_key);
    poi ← lift (poi ← build_poi (ce_poi_now env) (ce_poi_uuid env) request cli_system_prompt ledger (JObj (ap_payload plan)) "cli-demo-model"
                  (mkPoiIdentity (Some (ap_agent_type plan)) (ap_agent_id plan) (Some (ap_action_type plan)) (Some (ap_policy_decision plan)));
                sign_poi poi agent_key);
    result ← cli_execute a env plan poi;
    let action_id := or_str (ar_artifact_ref result) ("cli-" +:+ ce_uuid4 env) in
    _ ← cli_register ledger (fun loc => mkActionEvidence action_id envelope cli_system_prompt loc (Z.of_nat (length ledger)) None (Some poi)
          (Some (ap_action_type plan)) (Some (ap_payload plan)) (Some (ar_observed_effect result)) None);
    trace ← (fun s => on_store (fun e => run_verification (cli_pipeline_env (cs_keys s) (ce_pipeline env)) e None (Some action_id)) s);
    _ ← print (Dump (JObj [("action_result", result_json result); ("verification", trace_json trace)]));
    mret (M := CM) (Some (mkCliStep plan envelope poi result trace)).

(** The loop over the plans: the exit code. *)
Fixpoint cli_plans (a : CliAgents) (envs : nat -> CliEnv) (i : nat) (key : EcPrivateKey) (request : string) (assume_yes : bool)
    (previous : option ActionResult) (plans : list ActionPlan) : CM Z :=
  match plans with
  | [] => mret (M := CM) 0
  | plan :: rest =>
      approved ← (if ap_requires_confirmation plan then lift (approval assume_yes (envs i) plan) else mret (M := CM) true);
      if negb approved then
        _ ← print (Dump (JObj [("status", JStr "cancelled"); ("reason", JStr "confirmation_denied")]));
        mret (M := CM) 1
      else
        let plan := with_report previous (if ap_requires_confirmation plan then confirmed_plan plan else plan) in
        step ← cli_act a (envs i) key request plan;
        match step with
        | None => mret (M := CM) 1
        | Some step =>
            if negb (ar_success (st_result step)) || negb (vt_overall_valid (st_trace step)) then mret (M := CM) 1
            else cli_plans a envs (S i) key request assume_yes (Some (st_result step)) rest
        end
  end.

(** ** The command *)

(** [run_request]; the user's key is generated, and registered at two readings of the clock. *)
Definition run_request (envs : nat -> CliEnv) (key : EcPrivateKey) (now_from now : Z) (request workspace : string) (assume_yes : bool)
    : CM Z :=
  workspace ← on_fs (reads (fun fs => resolve fs cwd workspace));
  file_agent ← on_fs (FileAgent_init cwd (path_str workspace) None "file-agent");
  let email_agent := mkEmailAgent "email-agent" (mkSMTPConfig "aor@example.test" None 587 None None true false true
                       (path_str (workspace ++ [".aor_outbox"]))) None in
  let a := mkCliAgents email_agent file_agent (mkAuditAgent "audit-agent" true) workspace in
  route ← reads (fun s => Ok (route (cli_agents a (cs_fs s)) request));
  _ ← print (Dump (route_json route));
  if negb (rr_handled route) then mret (M := CM) 2
  else
    plans ← reads (fun s => router_plan (cli_agents a (cs_fs s)) request None);
    _ ← print (Text "Action plans:");
    _ ← (fun s => (mkCliState (cs_fs s) (cs_keys s) (cs_nonces s) (cs_evidence s) (cs_output s ++ ((fun p => Dump (plan_json p)) <$> plans)), Ok tt));
    _ ← on_keys (fun t => register_key now t "cli-user" "cli-user-key" (ec_public_der (ec_private_public key)) "ECDSA-P256-SHA256"
                            (utc now_from) None None);
    cli_plans a envs 0 key request assume_yes None plans.

(** [main(argv)], the arguments parsed. *)
Definition cli_main (envs : nat -> CliEnv) (key : EcPrivateKey) (now_from now : Z) (words : list string) (workspace : string) (yes : bool)
    : CM Z :=
  run_request envs key now_from now (str_join " " words) workspace yes.

(** The stores [run_request] creates, over a file system. *)
Definition cli_start (fs : FS) : CliState := mkCliState fs [] (mkNonceStore 300 ∅) (mkEvidenceState [] None ∅) [].

End Cli.
