(* ===== verification/FullPipeline.v ===== *)
(** * e2e_tests/pipeline.py: the pipeline end to end

    [FullPipeline], the orchestration the demonstrations and the end-to-end checks share: two
    users and two agents with keys of their own, one ledger, and a submission that goes through
    the verifier, the ledger, the proof, the executor and the portal in this order.  The ledger
    object is [pipeline_ledger] in the evidence store's heap; the outbox is a list of files; the
    generated keys, the clock readings and the random values are arguments.  The theorems are in
    [PipelineSafety.v]. *)

From S2P Require Import Prelude PyStr Base64 Json JsonText PyTime Crypto Instances Ledger Merkle Sql Verifier Registry Client.
From S2P Require Import Poi AgentBase Executor Tsa Evidence Portal Completeness Regex Router EmailAgent FileSystem StateMonad.
From S2P Require Import AuditAgent Accounts Service AgentService.

#[local] Open Scope Z_scope.

Definition E2E_SYSTEM_PROMPT : string := "Only send the exact email that the authenticated user requested.".

Definition pipeline_ledger : nat := 0.

Section FullPipeline.
Context `{Hashlib, Rfc8785, Cryptography, !EcSigning, Sqlite, EmailLib, EnvelopeModel, PoiModel, Rfc3161}.
Context {P : Type} `{!EvidencePersistence P}.
Context `{DatabaseOps DB}.
Variable as_bytes : EmailMessage -> bytes.

Record SubmittedAction := mkSubmittedAction {
  sa_stage4 : VerificationResult;
  sa_trace : option VerificationTrace;
  sa_envelope : SignedEnvelope;
  sa_poi_agent_key_id : option string;
  sa_action_id : option string;
  sa_eml_bytes : option bytes;
  sa_context_entry_ids : list Z;
}.

(** [user_keys], [agent_keys] and [agent_key_ids] are dictionaries; the ledger is in the heap of
    [evidence_store]. *)
Record PipelineState := mkPipelineState {
  fp_registry : KeyTable;
  fp_evidence : EvidenceState P;
  fp_anchors : AnchorStore;
  fp_nonces : NonceStore;
  fp_outbox : list EmlFile;
  fp_output_dir : string;
  fp_user_keys : list (string * EcPrivateKey);
  fp_agent_keys : list (string * Ed25519PrivateKey);
  fp_agent_key_ids : list (string * string);
}.

(** ** Construction *)

(** One turn of [_register_users]. *)
Definition register_user (now_from now : Z) (user_id : string) (private_key : EcPrivateKey) (s : PipelineState) : result PipelineState :=
  '(t, _) ← register_key now (fp_registry s) user_id (user_id +:+ "-p256") (ec_public_der (ec_private_public private_key)) "ECDSA-P256-SHA256"
              (utc now_from) None None;
  Ok (mkPipelineState t (fp_evidence s) (fp_anchors s) (fp_nonces s) (fp_outbox s) (fp_output_dir s)
        (dict_set user_id private_key (fp_user_keys s)) (fp_agent_keys s) (fp_agent_key_ids s)).

(** One turn of [_register_agents]. *)
Definition register_pipeline_agent (now_from now : Z) (agent_name : string) (private_key : Ed25519PrivateKey) (s : PipelineState)
    : result PipelineState :=
  key_id ← agent_pubkey_id private_key;
  raw ← serialize_public_key_raw (ObjEdPublic (ed_public_key private_key));
  '(t, _) ← register_key now (fp_registry s) ("agent-" +:+ agent_name) key_id raw "Ed25519" (utc now_from) None None;
  Ok (mkPipelineState t (fp_evidence s) (fp_anchors s) (fp_nonces s) (fp_outbox s) (fp_output_dir s)
        (fp_user_keys s) (dict_set agent_name private_key (fp_agent_keys s)) (dict_set agent_name key_id (fp_agent_key_ids s))).

(** [FullPipeline(work_dir)], over a new directory. *)
Definition FullPipeline_init (now : Z) (u123 u456 : EcPrivateKey) (primary secondary : Ed25519PrivateKey) (work_dir : string)
    : result PipelineState :=
  let s := mkPipelineState [] (mkEvidenceState [] None {[ pipeline_ledger := Ledger_init ]}) [] (mkNonceStore 300 ∅) []
             (work_dir +:+ "/outbox") [] [] [] in
  s ← register_user now now "u123" u123 s;
  s ← register_user now now "u456" u456 s;
  s ← register_pipeline_agent now now "primary" primary s;
  register_pipeline_agent now now "secondary" secondary s.

(** ** Envelopes *)

(** [make_envelope]; [timestamp], [nonce], [private_key] and [pubkey_id] default to the clock, a new
    UUID and the user's own key. *)
Definition make_envelope (s : PipelineState) (now : Z) (uuid : string) (random : bytes) (prompt user_id : string) (timestamp : option Z)
    (nonce : option string) (private_key : option EcPrivateKey) (pubkey_id : option string) : result SignedEnvelope :=
  signing_key ← match private_key with
                | Some k => Ok k
                | None => of_option (dict_get user_id (fp_user_keys s)) KeyError (str_repr user_id)
                end;
  sign_envelope random signing_key prompt user_id ("session-" +:+ user_id) (isoformat_z (default now timestamp))
    (or_str nonce uuid) (or_str pubkey_id (user_id +:+ "-p256")).

(** [stale_envelope]: signed 61 seconds ago. *)
Definition stale_envelope (s : PipelineState) (now : Z) (uuid : string) (random : bytes) (prompt user_id : string) : result SignedEnvelope :=
  make_envelope s now uuid random prompt user_id (Some (now - 61000000)) None None None.

(** ** Submission *)

Abbreviation PlM := (SM PipelineState).

(** The clocks and random values of a submission. *)
Record SubmitEnv := mkSubmitEnv {
  sm_verify : clocks; sm_key_now : Z; sm_entry_now : nat -> Z; sm_poi_now : Z; sm_poi_uuid : string;
  sm_smtp : Effect -> result unit; sm_draws : Draws; sm_mtime : Z; sm_pipeline : PipelineEnv;
}.

Definition with_pipeline_evidence (s : PipelineState) (e : EvidenceState P) : PipelineState :=
  mkPipelineState (fp_registry s) e (fp_anchors s) (fp_nonces s) (fp_outbox s) (fp_output_dir s) (fp_user_keys s) (fp_agent_keys s)
    (fp_agent_key_ids s).

Definition with_pipeline_nonces (s : PipelineState) (n : NonceStore) : PipelineState :=
  mkPipelineState (fp_registry s) (fp_evidence s) (fp_anchors s) n (fp_outbox s) (fp_output_dir s) (fp_user_keys s) (fp_agent_keys s)
    (fp_agent_key_ids s).

Definition with_pipeline_outbox (s : PipelineState) (o : list EmlFile) : PipelineState :=
  mkPipelineState (fp_registry s) (fp_evidence s) (fp_anchors s) (fp_nonces s) o (fp_output_dir s) (fp_user_keys s) (fp_agent_keys s)
    (fp_agent_key_ids s).

Definition fp_ledger (s : PipelineState) : Ledger := ledger_at (es_ledgers (fp_evidence s)) pipeline_ledger.

Definition with_pipeline_ledger (s : PipelineState) (l : Ledger) : PipelineState :=
  let e := fp_evidence s in
  with_pipeline_evidence s (mkEvidenceState (es_evidence e) (es_persistence e) (<[pipeline_ledger := l]> (es_ledgers e))).

(** [self.ledger.append(entry_type, content).entry_id]. *)
Definition pipeline_append (now : Z) (entry_type : string) (content : dict) : PlM Z := fun s =>
  match append now (fp_ledger s) (JStr entry_type) (JObj content) with
  | Ok (l, e) => (with_pipeline_ledger s l, Ok (entry_id e))
  | Raise e => (s, Raise e)
  end.

(** The loop over [context_before_action]; [i] counts the entries. *)
Fixpoint append_context (env : SubmitEnv) (i : nat) (context : list (string * dict)) : PlM (list Z) :=
  match context with
  | [] => mret (M := PlM) []
  | (entry_type, content) :: rest =>
      id ← pipeline_append (sm_entry_now env i) entry_type content;
      ids ← append_context env (S i) rest;
      mret (M := PlM) (id :: ids)
  end.

(** [self.executor.execute_action("email", tool_call, poi)], with its messages in the outbox. *)
Definition pipeline_execute (env : SubmitEnv) (tool_call : dict) (poi : ProofOfIntent) : PlM ExecutorResult := fun s =>
  let smtp := mkSMTPConfig "aor@example.test" None 587 None None true false true (fp_output_dir s) in
  let '(effects, _, r) := execute_action (DB := DB) (sm_smtp env) (sm_draws env) (mkActionExecutor smtp None None) "email" tool_call poi in
  (with_pipeline_outbox s
     (fold_left (fun o x => match x with
                            | WriteEml p m => if is_ok (sm_smtp env x) then write_eml p (as_bytes m) (sm_mtime env) o else o
                            | _ => o
                            end) effects (fp_outbox s)), r).

(** The entries of a submission, and its signed proof over the ledger with them. *)
Definition pipeline_proof (env : SubmitEnv) (envelope : SignedEnvelope) (tool_call : dict) (agent_name : string)
    (context_before_action : list (string * dict)) : PlM (ProofOfIntent * nat * list Z) :=
  id1 ← pipeline_append (sm_entry_now env 0) "system_prompt" [("text", JStr E2E_SYSTEM_PROMPT)];
  id2 ← pipeline_append (sm_entry_now env 1) "user_prompt" [("text", JStr (se_prompt envelope))];
  ids ← append_context env 2 context_before_action;
  ledger ← reads (fun s => Ok (fp_ledger s));
  agent_key ← reads (fun s => of_option (dict_get agent_name (fp_agent_keys s)) KeyError (str_repr agent_name));
  poi ← lift (poi ← build_poi (sm_poi_now env) (sm_poi_uuid env) (se_prompt envelope) E2E_SYSTEM_PROMPT ledger (JObj tool_call) "e2e-demo-model"
                (mkPoiIdentity None None None None);
              sign_poi poi agent_key);
  mret (M := PlM) (poi, length ledger, id1 :: id2 :: ids).

(** The newest message, which must be the action's. *)
Definition pipeline_artifact (action_id : string) : PlM bytes :=
  eml_path ← reads (fun s => of_option (newest (fp_outbox s)) ValueError "max() arg is an empty sequence");
  parsed ← lift (parse_eml (ef_bytes eml_path));
  _ ← lift (raise_if (negb (bool_decide (parsed_str "action_id" parsed = Some action_id))) AssertionError "");
  mret (M := PlM) (ef_bytes eml_path).

(** The captured evidence; the proof and the payload are only in the message. *)
Definition pipeline_register (action_id : string) (envelope : SignedEnvelope) (count : nat) (eml_bytes : bytes) : PlM unit := fun s =>
  let '(e, r) := evidence_register (fp_evidence s)
    (mkActionEvidence action_id envelope E2E_SYSTEM_PROMPT pipeline_ledger (Z.of_nat count) (Some eml_bytes) None None None None None) in
  (with_pipeline_evidence s e, r).

(** [self.portal.run_verification(eml_bytes)]. *)
Definition pipeline_verify (env : PipelineEnv) (eml_bytes : bytes) : PlM VerificationTrace := fun s =>
  let '(e, r) := run_verification
    (mkPipelineEnv (fp_registry s) (pe_now_agent env) (pe_now_record env) (pe_now_user env) (Some (fp_anchors s)) (pe_tsa_config env)
       (pe_tsa_download env)) (fp_evidence s) (Some eml_bytes) None in
  (with_pipeline_evidence s e, r).

(** [submit_envelope]. *)
Definition submit_envelope (env : SubmitEnv) (envelope : SignedEnvelope) (tool_call : dict) (agent_name : string)
    (context_before_action : list (string * dict)) : PlM SubmittedAction :=
  stage4_result ← (fun s => let '(n, r) := verify_envelope freshness_seconds (sm_verify env) (sm_key_now env, fp_registry s) (fp_nonces s) envelope in
                            (with_pipeline_nonces s n, r));
  if negb (vr_valid stage4_result) then mret (M := PlM) (mkSubmittedAction stage4_result None envelope None None None [])
  else
    '(poi, count, ids) ← pipeline_proof env envelope tool_call agent_name context_before_action;
    execution ← pipeline_execute env tool_call poi;
    match ex_success execution, ex_action_id execution with
    | true, Some action_id =>
        if negb (truthy_str action_id) then raiseM AssertionError "valid PoI was not executed"
        else
          eml_bytes ← pipeline_artifact action_id;
          _ ← pipeline_register action_id envelope count eml_bytes;
          trace ← pipeline_verify (sm_pipeline env) eml_bytes;
          mret (M := PlM) (mkSubmittedAction stage4_result (Some trace) envelope (poi_agent_pubkey_id poi) (Some action_id) (Some eml_bytes) ids)
    | _, _ => raiseM AssertionError "valid PoI was not executed"
    end.

(** [submit_and_verify]. *)
Definition submit_and_verify (env : SubmitEnv) (now : Z) (uuid : string) (random : bytes) (prompt user_key : string) (tool_call : dict)
    : PlM VerificationTrace :=
  envelope ← reads (fun s => make_envelope s now uuid random prompt user_key None None None None);
  submitted ← submit_envelope env envelope tool_call "primary" [];
  match sa_trace submitted with
  | None => raiseM AssertionError ("Stage 4 rejected the envelope: " +:+ repr_opt (vr_reason (sa_stage4 submitted)))
  | Some trace => mret (M := PlM) trace
  end.

End FullPipeline.
