(* ===== verification/ServiceSafety.v ===== *)
(** * The service's guarantees

    A logic for the handlers of [Service.v] and [AgentService.v]: a handler [steps] along a
    relation when every run, however it ends, relates the states before and after.  With it, the
    theorems over any sequence of requests: the state stays well-formed and its logs bounded; an
    agent runs, and the ledger, the evidence and the prompts grow, only for an envelope that the
    verifier accepted. *)

From S2P Require Import Prelude PyStr Base64 Json JsonText PyTime Crypto Instances Ledger Merkle Sql Verifier Registry.
From S2P Require Import Poi AgentBase Executor Tsa Evidence Portal Regex Router EmailAgent FileSystem StateMonad FileAgent.
From S2P Require Import DatabaseAgent AuditAgent Accounts Service AgentService.

#[local] Open Scope Z_scope.

(** ** The logic *)

Section Steps.
Context {S : Type} (R : S -> S -> Prop) `{!PreOrder R}.

Definition steps {A : Type} (m : HM S A) : Prop := forall s, R s (m s).1.

Lemma steps_bind {A B : Type} (m : HM S A) (f : A -> HM S B) : steps m -> (forall a, steps (f a)) -> steps (m ≫= f).
Proof.
  intros Hm Hf s. unfold mbind, HM_bind. pose proof (Hm s) as H1. destruct (m s) as [s1 [a| |]]; cbn in *; [|done..].
  etransitivity; [exact H1|apply Hf].
Qed.

Lemma steps_same {A : Type} (m : HM S A) : (forall s, (m s).1 = s) -> steps m.
Proof. intros Hm s. by rewrite Hm. Qed.

Lemma steps_ret {A : Type} (a : A) : steps (mret (M := HM S) a).
Proof. by apply steps_same. Qed.
Lemma steps_http {A : Type} status detail : steps (http (S := S) (A := A) status detail).
Proof. by apply steps_same. Qed.
Lemma steps_asks {A : Type} (f : S -> A) : steps (asks f).
Proof. by apply steps_same. Qed.
Lemma steps_calls {A : Type} (f : S -> result A) : steps (calls f).
Proof. by apply steps_same. Qed.

Lemma steps_modify (f : S -> S) : (forall s, R s (f s)) -> steps (modify f).
Proof. intros Hf s. apply Hf. Qed.

Lemma steps_runs {A : Type} (f : S -> S * result A) : (forall s, R s (f s).1) -> steps (runs f).
Proof. intros Hf s. unfold runs. pose proof (Hf s). by destruct (f s). Qed.

Lemma steps_or_http {A : Type} cs status (m : HM S A) : steps m -> steps (or_http cs status m).
Proof. intros Hm s. unfold or_http. pose proof (Hm s) as H1. by destruct (m s) as [s1 []]. Qed.

Lemma steps_if {A : Type} (b : bool) (m n : HM S A) : steps m -> steps n -> steps (if b then m else n).
Proof. by destruct b. Qed.

(** What [R] makes of a run. *)
Lemma steps_run {A : Type} (m : HM S A) s s' r : steps m -> m s = (s', r) -> R s s'.
Proof. intros Hm E. pose proof (Hm s) as H1. by rewrite E in H1. Qed.
End Steps.

#[export] Hint Resolve steps_ret steps_http steps_asks steps_calls : steps.

(** Takes a handler apart, leaving its changes of the state. *)
Ltac walk :=
  repeat match goal with
  | |- steps _ (mbind _ _) => apply steps_bind; [typeclasses eauto| |intros ?]
  | |- steps _ (mret _) => apply steps_ret; typeclasses eauto
  | |- steps _ (http _ _) => apply steps_http; typeclasses eauto
  | |- steps _ (asks _) => apply steps_asks; typeclasses eauto
  | |- steps _ (calls _) => apply steps_calls; typeclasses eauto
  | |- steps _ (or_http _ _ _) => apply steps_or_http
  | |- steps _ (if ?b then _ else _) => destruct b
  | |- steps _ (match ?x with _ => _ end) => destruct x
  | |- steps _ _ => solve [auto with steps]
  end.

Section Service.
Context `{Hashlib, Rfc8785, Cryptography, Sqlite, EmailLib, EnvelopeModel, PoiModel, Rfc3161, Pbkdf2}.
Context {W : Type}.

Abbreviation State := (ServiceState W).

(** ** A well-formed state *)

Record service_ok (s : State) : Prop := {
  so_database : schema_ok (sv_database s);
  so_ledger : exists l, sv_ledgers s !! service_ledger = Some l /\ ledger_wf l;
  so_keys : forall t, sv_keys s = Registered t -> table_ok t;
  so_operations : (length (sv_operations s) <= 50)%nat;
  so_verified : (length (sv_verified_envelopes s) <= 50)%nat;
}.

(** What every handler but the prompt's does: it keeps the state well-formed, and the accepted
    envelopes as they are. *)
Definition quiet (s s' : State) : Prop :=
  sv_verified_envelopes s' = sv_verified_envelopes s /\ (service_ok s -> service_ok s').

#[export] Instance quiet_preorder : PreOrder quiet.
Proof. split; [by intros s|]. intros x y z [H1' H2'] [H3' H4']. split; [congruence|auto]. Qed.

Lemma quiet_database s d : (schema_ok (sv_database s) -> schema_ok d) -> quiet s (with_database s d).
Proof. intros Hd. split; [done|]. intros []. split; auto. Qed.

Lemma quiet_keys s k : (forall t, k = Registered t -> service_ok s -> table_ok t) -> quiet s (with_keys s k).
Proof. intros Hk. split; [done|]. intros G. destruct (G). split; eauto. Qed.

Lemma quiet_operations s l : (length l <= 50)%nat -> quiet s (with_operations s l).
Proof. intros Hl. split; [done|]. intros []. by split. Qed.

Lemma quiet_record now op status detail id : steps quiet (record_operation (W := W) now op status detail id).
Proof. apply steps_modify. intros s. apply quiet_operations. rewrite length_take. lia. Qed.

Lemma quiet_on_database {A : Type} (f : Database -> Database * result A) :
  (forall d, schema_ok d -> schema_ok (f d).1) -> steps quiet (on_database (W := W) f).
Proof.
  intros Hf. apply steps_runs. intros s. pose proof (Hf (sv_database s)) as H1'.
  destruct (f (sv_database s)) as [d r]. by apply quiet_database.
Qed.

Lemma quiet_on_registry {A : Type} (f : KeyTable -> KeyTable * result A) :
  (forall t, table_ok t -> table_ok (f t).1) -> steps quiet (on_registry (W := W) f).
Proof.
  intros Hf. apply steps_runs. intros s. destruct (sv_keys s) as [t|p] eqn:E; [|done].
  pose proof (Hf t) as H1'. destruct (f t) as [t' r]. apply quiet_keys. intros ? [= <-] G. by apply H1', (so_keys s).
Qed.

(** A change of the evidence store that keeps the ledgers and the schema of its persistence. *)
Lemma quiet_on_evidence {A : Type} (f : EvidenceState Database -> EvidenceState Database * result A) :
  (forall e, es_ledgers e ⊆ es_ledgers (f e).1 /\
     forall d, es_persistence e = Some d -> schema_ok d -> schema_ok (default d (es_persistence (f e).1))) ->
  steps quiet (on_evidence (W := W) f).
Proof.
  intros Hf. apply steps_runs. intros s. destruct (Hf (evidence_view s)) as [Hl Hd]. destruct (f (evidence_view s)) as [e r].
  split; [done|]. intros []. split; cbn in *; auto. destruct so_ledger0 as (l & El & Hw). exists l. split; [|done].
  by eapply lookup_weaken.
Qed.

Lemma quiet_loads {A : Type} (f : EvidenceState Database -> EvidenceState Database * result A) :
  (forall e, loads_only e (f e).1) -> steps quiet (on_evidence (W := W) f).
Proof.
  intros Hf. apply quiet_on_evidence. intros e. destruct (Hf e) as (Hl & Hp & _). split; [done|]. intros d Ed. by rewrite Hp, Ed.
Qed.

(** ** The plain handlers *)

Lemma quiet_request_user now authorization required : steps quiet (request_user (W := W) now authorization required).
Proof. unfold request_user. walk. Qed.

Lemma quiet_envelope_user now authorization e : steps quiet (envelope_user (W := W) now authorization e).
Proof. unfold envelope_user. apply steps_bind; [typeclasses eauto|apply quiet_request_user|]. intros u. walk. Qed.

Lemma quiet_require_registry detail : steps quiet (require_registry (W := W) detail).
Proof. unfold require_registry. walk. Qed.

Lemma quiet_create_session token now ttl id : steps quiet (on_database (W := W) (fun d => create_session token now d id ttl)).
Proof. apply quiet_on_database. intros d. apply create_session_schema. Qed.

Lemma quiet_create_user random salt now name email password :
  steps quiet (on_database (W := W) (fun d => create_user random salt now d name email password)).
Proof. apply quiet_on_database. intros d. apply create_user_schema. Qed.

Hint Resolve quiet_record quiet_request_user quiet_envelope_user quiet_require_registry quiet_create_session quiet_create_user : steps.

Lemma quiet_signup random token salt now now' payload : steps quiet (auth_signup (W := W) random token salt now now' payload).
Proof. unfold auth_signup. walk. Qed.

Lemma quiet_login token now payload : steps quiet (auth_login (W := W) token now payload).
Proof. unfold auth_login. walk. Qed.

Lemma quiet_logout authorization : steps quiet (auth_logout (W := W) authorization).
Proof. unfold auth_logout. walk. apply steps_modify. intros s. apply quiet_database, revoke_schema. Qed.

Lemma quiet_register_pubkey now now' now_op rg : steps quiet (register_pubkey_handler (W := W) now now' now_op rg).
Proof.
  unfold register_pubkey_handler. walk. apply steps_runs. intros s. destruct (sv_keys s) as [t|p] eqn:E.
  - destruct (register_pubkey _ _ t _ _) as [t'|] eqn:Er; [|done]. apply quiet_keys. intros ? [= <-] G.
    eapply registry_step_ok; [by apply (so_keys s)|]. by eapply step_register_pubkey.
  - destruct (PubkeyStore_register_pubkey _ _ _); [|done]. by apply quiet_keys.
Qed.

Lemma quiet_register_key now_from now now_op rg : steps quiet (register_key_handler (W := W) now_from now now_op rg).
Proof.
  unfold register_key_handler. walk. apply quiet_on_registry. intros t G.
  destruct (register_key _ _ _ _ _ _ _ _ _) as [[t' r]|] eqn:Er; [|done]. eapply registry_step_ok; [done|]. by eapply step_register_key.
Qed.

Lemma quiet_jwks now : steps quiet (get_jwks (W := W) now).
Proof. unfold get_jwks. walk. by apply quiet_on_registry. Qed.

Lemma quiet_revoke now_op id : steps quiet (revoke_key_handler (W := W) now_op id).
Proof.
  unfold revoke_key_handler. walk. apply quiet_on_registry. intros t G. pose proof (revoke_table_ok t id G) as Hr.
  by destruct (revoke_key t id).
Qed.

Lemma quiet_anchor config post now : steps quiet (anchor_ledger (W := W) config post now).
Proof.
  unfold anchor_ledger. walk. apply steps_runs. intros s. destruct (anchor_current_root _ _ _ _ _) as [[store n] r].
  split; [done|]. intros []. by split.
Qed.

Hint Resolve quiet_signup quiet_login quiet_logout quiet_register_pubkey quiet_register_key quiet_jwks quiet_revoke quiet_anchor : steps.

(** *** Verification *)

Lemma opt_str_wf o : json_wf (opt_str o).
Proof. by destruct o. Qed.
Lemma opt_int_wf o : json_wf (opt_int o).
Proof. by destruct o. Qed.
Lemma opt_bool_wf o : json_wf (opt_bool o).
Proof. by destruct o. Qed.

Lemma list_wf {A : Type} (f : A -> json) l : (forall x, json_wf (f x)) -> json_wf (JList (f <$> l)).
Proof. intros Hf. apply json_wf_list. apply Forall_fmap, Forall_forall. intros x _. apply Hf. Qed.

(** A dictionary display with distinct keys. *)
Lemma display_wf (d : dict) : bool_decide (NoDup (d.*1)) = true -> Forall (fun kv => json_wf kv.2) d -> json_wf (JObj d).
Proof. intros Hd Hv. apply json_wf_obj. split; [by apply bool_decide_eq_true in Hd|done]. Qed.

Hint Resolve opt_str_wf opt_int_wf opt_bool_wf list_wf : steps.

Ltac display := apply display_wf; [reflexivity|repeat (apply Forall_cons; split; cbn [fst snd]); try apply Forall_nil; auto with steps; try done].

Lemma link_json_wf l : json_wf (link_json l).
Proof. display. Qed.

Lemma merkle_json_wf v : json_wf (merkle_json v).
Proof.
  unfold merkle_json. display. apply list_wf. intros l. display. apply list_wf. intros n. display.
Qed.

Lemma trace_dict_wf t : json_wf (JObj (trace_dict t)).
Proof.
  unfold trace_dict, trace_json. display; [apply list_wf, link_json_wf|].
  destruct (vt_merkle_tree t); [apply merkle_json_wf|done].
Qed.

Lemma quiet_update_verification (s : State) id t : quiet s (with_database s (update_verification (sv_database s) id (trace_dict t))).
Proof. apply quiet_database. intros G. apply (db_run_schema _ (UpdateVerification id (trace_dict t))); [apply trace_dict_wf|done]. Qed.

Lemma quiet_store_verification id t : steps quiet (store_verification (W := W) id t).
Proof. apply steps_modify. intros s. apply quiet_update_verification. Qed.

Lemma quiet_verification env eml id : steps quiet (service_verification (W := W) env eml id).
Proof.
  intros s. unfold service_verification. destruct (key_registry s) as [t|]; [|done].
  by apply (quiet_loads (fun e => run_verification _ e eml id)); intros e; apply run_loads.
Qed.

Hint Resolve quiet_store_verification quiet_verification : steps.

Lemma quiet_verify_artifact env content_type uploaded body : steps quiet (verify_artifact (W := W) env content_type uploaded body).
Proof. unfold verify_artifact. walk. Qed.

Lemma quiet_verify_id env id : steps quiet (verify_by_action_id (W := W) env id).
Proof. unfold verify_by_action_id. walk. Qed.

(** *** Prompts *)

Lemma quiet_service_verify c now e : steps quiet (service_verify (W := W) c now e).
Proof.
  apply steps_runs. intros s. destruct (verify_envelope _ _ _ _ _) as [n r]. split; [done|]. intros []. by split.
Qed.

Hint Resolve quiet_verify_artifact quiet_verify_id quiet_service_verify : steps.

(** The state stays well-formed; the accepted envelopes may change. *)
Definition keeps_ok (s s' : State) : Prop := service_ok s -> service_ok s'.

#[export] Instance keeps_ok_preorder : PreOrder keeps_ok.
Proof. split; [by intros s ?|]. intros x y z H1' H2'. unfold keeps_ok in *. auto. Qed.

Lemma quiet_keeps {A : Type} (m : HM State A) : steps quiet m -> steps keeps_ok m.
Proof. intros Hm s. exact (proj2 (Hm s)). Qed.

Lemma verify_prompt_keeps on_verified k authorization e : steps keeps_ok (verify_prompt (W := W) on_verified k authorization e).
Proof.
  unfold verify_prompt. walk; try (apply quiet_keeps; solve [auto with steps]).
  apply steps_modify. intros s []. split; try done. cbn [sv_verified_envelopes with_verified]. rewrite length_take. lia.
Qed.

End Service.

#[export] Hint Resolve quiet_record quiet_request_user quiet_envelope_user quiet_require_registry quiet_signup quiet_login
  quiet_logout quiet_register_pubkey quiet_register_key quiet_jwks quiet_revoke quiet_anchor quiet_verify_artifact
  quiet_verify_id quiet_service_verify : steps.

Section Agents.
Context `{Hashlib, Rfc8785, Cryptography, Sqlite, EmailLib, EnvelopeModel, PoiModel, Rfc3161, Pbkdf2, Difflib, SqliteConnection}.
Variable as_bytes : EmailMessage -> bytes.
Variable dash : string.
Variable agents : Agents.

Abbreviation State := (ServiceState World).

(** ** The agents' handlers *)

Lemma ledger_at_some (s : State) l : sv_ledgers s !! service_ledger = Some l -> ledger_at (sv_ledgers s) service_ledger = l.
Proof. unfold ledger_at. by intros ->. Qed.

Lemma quiet_append now ty c : steps quiet (append_entry now ty c).
Proof.
  apply steps_runs. intros s. destruct (append _ _ _ _) as [[l e]|] eqn:E; [|done]. split; [done|]. intros [].
  split; cbn; try done. destruct so_ledger0 as (l0 & El & Hw). rewrite (ledger_at_some _ _ El) in E.
  exists l. split; [apply lookup_insert_eq|]. by eapply ledger_wf_append.
Qed.

Lemma register_agent_table_ok now from created t id key t' i :
  table_ok t -> register_agent_public_key now from created t id key = Ok (t', i) -> table_ok t'.
Proof.
  intros Ht. unfold register_agent_public_key. destruct (agent_pubkey_id key) as [pid|]; [|done]. cbn [mbind result_bind].
  destruct (serialize_public_key_raw _) as [raw|]; [|done]. cbn [mbind result_bind].
  destruct (get_pubkey _ _ _) as [cur|]; [|done]. cbn [mbind result_bind]. case_bool_decide; [by intros [= <- _]|].
  destruct (register_key _ _ _ _ _ _ _ _ _) as [[t1 r]|e] eqn:E.
  - intros [= <- _]. eapply registry_step_ok; [done|]. by eapply step_register_key.
  - case_match; by intros [= <- _].
Qed.

Lemma quiet_register_agent env id key : steps quiet (register_agent env id key).
Proof.
  apply steps_runs. intros s. destruct (sv_keys s) as [t|p] eqn:Ek; [|done].
  destruct (register_agent_public_key _ _ _ _ _ _) as [[t' i]|] eqn:E; [|done].
  apply quiet_keys. intros ? [= <-] G. eapply register_agent_table_ok; [by apply (so_keys s)|done].
Qed.

Lemma quiet_world (s : State) w : quiet s (with_world s w).
Proof. split; [done|]. intros []. by split. Qed.

Lemma quiet_agent_execute env ty plan poi : steps quiet (agent_execute as_bytes dash agents env ty plan poi).
Proof.
  unfold agent_execute. repeat case_bool_decide.
  - apply steps_runs. intros s. destruct (email_execute _ _ _ _ _). apply quiet_world.
  - apply steps_runs. intros s. destruct (file_execute _ _ _ _). apply quiet_world.
  - intros s. destruct (key_registry s) as [t|]; [|done].
    apply (quiet_loads (fun e => audit_execute dash (as_audit agents) _ e plan (Some poi))). intros e.
    destruct (audit_execute _ _ _ _ _ _) as [e' r] eqn:E. by eapply execute_loads.
  - apply steps_runs. intros s. destruct (db_agent_execute _ _ _ _). apply quiet_world.
  - walk.
Qed.

Lemma quiet_keypair env id : steps quiet (agent_keypair env id).
Proof.
  apply steps_runs. intros s. cbv zeta. case_match; [case_match|]; (apply quiet_world || done).
Qed.

Lemma quiet_register_evidence ev : steps quiet (register_evidence ev).
Proof.
  apply quiet_on_evidence. intros e. unfold evidence_register. destruct (es_persistence e) as [d|] eqn:Ep; [|by split].
  cbn [save_action_evidence database_persistence db_save_action_evidence]. split; [done|]. intros ? [= <-] G.
  apply (db_run_schema _ (SaveActionEvidence (ev_action_id ev) _)); [done|exact G].
Qed.

Lemma quiet_save_record env e user id p : steps quiet (save_record env e user id p).
Proof.
  apply quiet_on_database. intros d G. by apply save_prompt_schema.
Qed.

Hint Resolve quiet_append quiet_register_agent quiet_agent_execute quiet_keypair quiet_register_evidence quiet_save_record : steps.

Lemma quiet_signed_poi env p sp payload m id key : steps quiet (signed_poi env p sp payload m id key).
Proof. unfold signed_poi, the_ledger. walk. Qed.

Lemma quiet_require_verified k e rejected : (forall r, steps quiet (rejected r)) -> steps quiet (require_verified k e rejected).
Proof. intros Hr. unfold require_verified. walk. Qed.

Hint Resolve quiet_signed_poi : steps.

Lemma quiet_plan_artifact k e : steps quiet (plan_artifact agents k e).
Proof. unfold plan_artifact. walk. Qed.

Hint Resolve quiet_plan_artifact : steps.

Lemma quiet_generate k env authorization e : steps quiet (generate_artifact as_bytes dash agents k env authorization e).
Proof.
  unfold generate_artifact, the_ledger, outbox. walk. apply quiet_require_verified. intros r. walk.
Qed.

Lemma quiet_prepare env e plan : steps quiet (prepare_step agents env e plan).
Proof. unfold prepare_step. walk. Qed.

Lemma quiet_record_step env e user r : steps quiet (record_step env e user r).
Proof. unfold record_step, the_ledger. walk. Qed.

Hint Resolve quiet_prepare quiet_record_step : steps.

Lemma quiet_execute_step env e user previous plan : steps quiet (execute_step as_bytes dash agents env e user previous plan).
Proof. unfold execute_step, outbox. walk. Qed.

Lemma quiet_run_plans envs i e user previous plans : steps quiet (run_plans as_bytes dash agents envs i e user previous plans).
Proof.
  revert i previous. induction plans as [|plan plans IH]; intros i previous; cbn [run_plans]; [walk|].
  apply steps_bind; [typeclasses eauto|apply quiet_execute_step|]. intros r. walk.
Qed.

Lemma quiet_execute k envs authorization e : steps quiet (execute_routed_agent as_bytes dash agents k envs authorization e).
Proof.
  unfold execute_routed_agent. walk; [|apply quiet_run_plans]. apply quiet_require_verified. intros r. walk.
Qed.

(** ** Requests *)

(** The routes that have an effect or read private data, with the draws and the body of each. *)
Inductive ServiceRequest :=
| Signup (random token : string) (salt : bytes) (now now' : Z) (payload : list (string * string))
| Login (token : string) (now : Z) (payload : list (string * string))
| Me (now : Z) (authorization : string)
| Logout (authorization : string)
| Prompts (now : Z) (authorization : string)
| RegisterPubkey (now now' now_op : Z) (registration : PubkeyRegistration)
| RegisterKey (now_from now now_op : Z) (registration : RegisterKeyRequest)
| Jwks (now : Z)
| RevokeKey (now_op : Z) (pubkey_id : string)
| AnchorLedger (config : TSAConfig) (post : nat -> bytes -> result bytes) (now : Z)
| VerifyArtifact (env : PipelineEnv) (content_type : string) (uploaded : option bytes) (body : result json)
| VerifyId (env : PipelineEnv) (action_id : string)
| Prompt (on_verified : SignedEnvelope -> result dict) (k : PromptClock) (authorization : string) (envelope : SignedEnvelope)
| Generate (k : PromptClock) (env : StepEnv) (authorization : string) (envelope : SignedEnvelope)
| Execute (k : PromptClock) (envs : nat -> StepEnv) (authorization : string) (envelope : SignedEnvelope).

Definition serve (r : ServiceRequest) : HM State json :=
  match r with
  | Signup random token salt now now' payload => auth_signup random token salt now now' payload
  | Login token now payload => auth_login token now payload
  | Me now authorization => auth_me now authorization
  | Logout authorization => auth_logout authorization
  | Prompts now authorization => list_prompt_records now authorization
  | RegisterPubkey now now' now_op registration => register_pubkey_handler now now' now_op registration
  | RegisterKey now_from now now_op registration => register_key_handler now_from now now_op registration
  | Jwks now => get_jwks now
  | RevokeKey now_op id => revoke_key_handler now_op id
  | AnchorLedger config post now => anchor_ledger config post now
  | VerifyArtifact env content_type uploaded body => verify_artifact env content_type uploaded body
  | VerifyId env id => verify_by_action_id env id
  | Prompt on_verified k authorization e => verify_prompt on_verified k authorization e
  | Generate k env authorization e => generate_artifact as_bytes dash agents k env authorization e
  | Execute k envs authorization e => execute_routed_agent as_bytes dash agents k envs authorization e
  end.

(** The state after a sequence of requests. *)
Definition served (requests : list ServiceRequest) (s : State) : State := fold_left (fun s r => (serve r s).1) requests s.

Definition is_prompt (r : ServiceRequest) : Prop := match r with Prompt _ _ _ _ => True | _ => False end.

Lemma serve_quiet r : ~ is_prompt r -> steps quiet (serve r).
Proof.
  destruct r; intros Hp; cbn [serve]; try (by destruct Hp); auto with steps.
  - unfold auth_me. walk.
  - unfold list_prompt_records. walk.
  - apply quiet_generate.
  - apply quiet_execute.
Qed.

Lemma serve_same r s : ~ is_prompt r -> sv_verified_envelopes (serve r s).1 = sv_verified_envelopes s.
Proof. intros Hr. exact (proj1 (serve_quiet r Hr s)). Qed.

Lemma serve_keeps r : steps keeps_ok (serve r).
Proof.
  destruct r; try apply verify_prompt_keeps; apply quiet_keeps, serve_quiet; by intros [].
Qed.

Lemma served_ok requests s : service_ok s -> service_ok (served requests s).
Proof. revert s. induction requests as [|r requests IH]; intros s G; [done|]. apply IH. by apply (serve_keeps r s). Qed.

(** *** The accepted envelopes *)

(** The verifier accepts [e] in this state, at these clock readings. *)
Definition accepted_at (s : State) (k : PromptClock) (e : SignedEnvelope) : Prop :=
  exists v, (verify_envelope freshness_seconds (pk_verify k) (pk_key k, sv_keys s) (sv_nonces s) e).2 = Ok v /\ vr_valid v = true.

(** What [m ≫= f] did. *)
Lemma hm_bind {S A B : Type} (m : HM S A) (f : A -> HM S B) s s' r :
  (m ≫= f) s = (s', r) ->
  exists s1 o, m s = (s1, o) /\
    match o with
    | Done a => f a s1 = (s', r)
    | HTTPException status detail => s' = s1 /\ r = HTTPException status detail
    | Escaped x => s' = s1 /\ r = Escaped x
    end.
Proof.
  unfold mbind, HM_bind. destruct (m s) as [s1 [a|st d|x]]; intros E; exists s1; eexists; (split; [done|]); [exact E|by injection E as <- <-..].
Qed.

Lemma request_user_state now authorization required (s s' : State) u :
  request_user now authorization required s = (s', u) -> s' = s.
Proof.
  unfold request_user. intros (s1 & o & [= <- <-] & E)%hm_bind.
  destruct (answer _) as [v| |]; [|by destruct E as [-> _]..]. by destruct (_ && _); injection E as <- _.
Qed.

Lemma envelope_user_state now authorization e (s s' : State) u :
  envelope_user now authorization e s = (s', u) ->
  s' = s /\ (u = Done None \/ (exists v, u = Done (Some v) /\ user_from_token now (sv_database s) (bearer_token authorization) = Ok (Some v)
                                          /\ se_user_id e = user_id_of v) \/ forall a, u ≠ Done a).
Proof.
  unfold envelope_user. intros (s1 & o & Er & E)%hm_bind. pose proof Er as Es. apply request_user_state in Es as ->.
  destruct o as [[v|]| |]; [|by injection E as <- <-; auto|by destruct E as [-> ->]; split; [|right; right]..].
  case_bool_decide; injection E as <- <-; (split; [done|]); [|by right; right]. right. left. exists v. split_and!; [done| |done].
  unfold request_user in Er. apply hm_bind in Er as (s2 & o & [= <- <-] & Er).
  destruct (user_from_token _ _ _) as [w|]; cbn in Er; [|by destruct Er as [_ ?]]. by injection Er as ->.
Qed.

Lemma verified_before_spec (s : State) e : verified_before s e = true <-> e ∈ sv_verified_envelopes s.
Proof.
  unfold verified_before. rewrite existsb_exists. split.
  - intros (x & Hx & ->%bool_decide_eq_true). by apply list_elem_of_In.
  - intros He. exists e. split; [by apply list_elem_of_In|by apply bool_decide_eq_true].
Qed.

(** Everything but the nonces and the log is as it was. *)
Definition untouched (s s' : State) : Prop :=
  sv_database s' = sv_database s /\ sv_keys s' = sv_keys s /\ sv_ledgers s' = sv_ledgers s /\
  sv_verified_envelopes s' = sv_verified_envelopes s /\ sv_evidence s' = sv_evidence s /\
  sv_anchors s' = sv_anchors s /\ sv_world s' = sv_world s.

#[export] Instance untouched_preorder : PreOrder untouched.
Proof. split; [by intros s|]. intros x y z (?&?&?&?&?&?&?) (?&?&?&?&?&?&?). split_and!; congruence. Qed.

Lemma untouched_verify c now e : steps untouched (service_verify c now e).
Proof. apply steps_runs. intros s. by destruct (verify_envelope _ _ _ _ _). Qed.

Lemma untouched_record now op status detail id : steps untouched (record_operation now op status detail id).
Proof. by apply steps_modify. Qed.

Hint Resolve untouched_verify untouched_record : steps.

(** A request passes the check with an envelope accepted before or now; either way only nonces
    and the log have changed, and a failing check has no reply of its own. *)
Lemma require_verified_inv k e rejected (s s' : State) o :
  (forall v, steps untouched (rejected v)) -> require_verified k e rejected s = (s', o) ->
  untouched s s' /\ (o = Done tt -> e ∈ sv_verified_envelopes s \/ accepted_at s k e).
Proof.
  intros Hr E. split.
  { eapply (steps_run _ (require_verified k e rejected)); [|exact E]. unfold require_verified. walk. }
  intros ->. revert E. unfold require_verified. intros (s1 & b & [= <- <-] & E)%hm_bind.
  destruct (verified_before s e) eqn:Ev; [left; by apply verified_before_spec|]. right.
  apply hm_bind in E as (s2 & o & Ec & E). destruct o as [v| |]; [|by destruct E as [_ ?]..].
  destruct (vr_valid v) eqn:Evv; cbn [negb] in E.
  - exists v. split; [|done]. unfold service_verify, runs in Ec.
    destruct (verify_envelope _ _ _ _ _) as [n [x|x]]; [|done]. by injection Ec as _ ->.
  - apply hm_bind in E as (s3 & o & _ & E). destruct o; [done|by destruct E as [_ ?]..].
Qed.

(** A prompt is added to the accepted envelopes only when the verifier accepts it. *)
Lemma verify_prompt_adds on_verified k authorization e (s s' : State) r x :
  verify_prompt on_verified k authorization e s = (s', r) -> x ∈ sv_verified_envelopes s' ->
  x ∈ sv_verified_envelopes s \/ x = e /\ accepted_at s k e.
Proof.
  unfold verify_prompt. intros (s1 & o & Eu & E)%hm_bind Hx.
  apply envelope_user_state in Eu as [-> _]. destruct o; [|by destruct E as [-> _]; left..].
  apply hm_bind in E as (s2 & o & Ec & E). pose proof (steps_run _ _ _ _ _ (untouched_verify _ _ _) Ec) as (_ & _ & _ & Hv & _).
  destruct o as [v| |]; [|by destruct E as [-> _]; left; rewrite <- Hv..].
  destruct (vr_valid v) eqn:Evv; cbn [negb] in E.
  - assert (accepted_at s k e) as Hacc.
    { exists v. split; [|done]. unfold service_verify, runs in Ec.
      destruct (verify_envelope _ _ _ _ _) as [n [w|w]]; [|done]. by injection Ec as _ ->. }
    apply hm_bind in E as (s3 & o & [= <- <-] & E). destruct (on_verified e) as [d|]; [|by destruct E as [-> _]; left; rewrite <- Hv].
    cbn [answer] in E. injection E as <- _. cbn in Hx.
    apply elem_of_cons in Hx as [->|Hx%subseteq_take]; [by right|]. left. by rewrite <- Hv.
  - apply hm_bind in E as (s3 & o & [= <- <-] & [= <- _]). left. by rewrite <- Hv.
Qed.

(** An accepted envelope was accepted by the verifier, when it was submitted. *)
Definition accepted_in (requests : list ServiceRequest) (s : State) (e : SignedEnvelope) : Prop :=
  exists before after on_verified k authorization,
    requests = before ++ Prompt on_verified k authorization e :: after /\ accepted_at (served before s) k e.

Lemma verified_accepted requests s e :
  sv_verified_envelopes s = [] -> e ∈ sv_verified_envelopes (served requests s) -> accepted_in requests s e.
Proof.
  intros Hnone. induction requests as [|r requests IH] using rev_ind; [cbn; rewrite Hnone; set_solver|].
  unfold served. rewrite fold_left_app. cbn [fold_left]. fold (served requests s). intros He.
  assert (accepted_in requests s e -> accepted_in (requests ++ [r]) s e) as Hmore.
  { intros (b & a & ov & k & au & -> & Ha). exists b, (a ++ [r]), ov, k, au. split; [by rewrite <- app_assoc|done]. }
  destruct r as [| | | | | | | | | | | |ov k au e0| |];
    try (rewrite serve_same in He by (by intros []); by apply Hmore, IH).
  destruct (serve (Prompt ov k au e0) (served requests s)) as [s' o] eqn:E.
  apply (verify_prompt_adds _ _ _ _ _ _ _ _ E) in He as [He|[-> Ha]]; [by apply Hmore, IH|].
  by exists requests, [], ov, k, au.
Qed.

(** ** The state, over any sequence of requests *)

Lemma seed_schema r1 r2 salt1 salt2 now1 now2 d :
  schema_ok d -> schema_ok (seed_demo_accounts r1 r2 salt1 salt2 now1 now2 d).1.
Proof.
  intros G. unfold seed_demo_accounts. destruct (db_users d); [|done].
  pose proof (create_user_schema r1 salt1 now1 d "Alex Morgan" "alex@example.com" "Password123!" G) as G1.
  destruct (create_user r1 _ _ _ _ _ _) as [d1 [u|e]]; [|done].
  pose proof (create_user_schema r2 salt2 now2 d1 "Jane Doe" "user@example.com" "password123" G1) as G2.
  by destruct (create_user r2 _ _ _ _ _ _) as [d2 u2].
Qed.

Lemma service_init_ok r1 r2 salt1 salt2 now1 now2 keys nonces (world : World) s0 :
  Service_init r1 r2 salt1 salt2 now1 now2 keys nonces world = Ok s0 -> (forall t, keys = Registered t -> table_ok t) -> service_ok s0.
Proof.
  intros E Hk. unfold Service_init in E.
  pose proof (seed_schema r1 r2 salt1 salt2 now1 now2 _ schema_empty) as G.
  destruct (seed_demo_accounts _ _ _ _ _ _ _) as [d [[]|e]]; [|done]. injection E as <-. split; cbn; [done| |done|lia|lia].
  exists []. split; [done|]. apply reachable_wf, reachable_init.
Qed.

(** C13. From a new application, whatever requests it serves, in any order and with any outcome: the
    tables satisfy the schema, the ledger is numbered, typed and chained, the key table has
    distinct identifiers and readable rows, and the log and the list of accepted envelopes keep
    at most fifty entries. *)
Theorem service_invariant r1 r2 salt1 salt2 now1 now2 keys nonces world s0 requests :
  Service_init r1 r2 salt1 salt2 now1 now2 keys nonces world = Ok s0 ->
  (forall t, keys = Registered t -> table_ok t) ->
  service_ok (served requests s0).
Proof. intros E Hk. by eapply served_ok, service_init_ok. Qed.

(** C12. No agent runs for an envelope the verifier did not accept.  A request to run agents, after
    any requests on a new application, either changes nothing but nonces and the log (no ledger
    entry, no evidence, no prompt, no key, no file), or its envelope is accepted now or was
    accepted when it was submitted; and a session whose user is not the envelope's changes
    nothing at all. *)
Theorem runs_only_accepted requests s0 s s' r reply k authorization e :
  sv_verified_envelopes s0 = [] -> s = served requests s0 ->
  (exists env, r = Generate k env authorization e) \/ (exists envs, r = Execute k envs authorization e) ->
  serve r s = (s', reply) ->
  (untouched s s' \/ accepted_at s k e \/ accepted_in requests s0 e) /\
  (forall u, user_from_token (pk_session k) (sv_database s) (bearer_token authorization) = Ok (Some u) ->
     user_id_of u ≠ se_user_id e -> s' = s).
Proof.
  intros Hnone -> Hr E. set (s := served requests s0) in *.
  assert (exists rejected (rest : option dict -> HM State json),
    (forall v, steps untouched (rejected v)) /\
    serve r s = (user ← envelope_user (pk_session k) authorization e; _ ← require_verified k e rejected; rest user) s) as (rej & rest & Hrej & Es).
  { destruct Hr as [[env ->]|[envs ->]]; cbn [serve]; [unfold generate_artifact|unfold execute_routed_agent];
      eexists _, _; (split; [|reflexivity]); intros v; cbn beta; walk. }
  rewrite Es in E. apply hm_bind in E as (s1 & o & Eu & E). apply envelope_user_state in Eu as Hu. destruct Hu as [-> Hu].
  split.
  - destruct o; [|by destruct E as [-> _]; left..]. apply hm_bind in E as (s2 & o & Ev & E).
    destruct (require_verified_inv _ _ _ _ _ _ Hrej Ev) as [Ht Ha]. destruct o as [[]| |]; [|by destruct E as [-> _]; left..].
    right. destruct (Ha eq_refl) as [Hin|Hacc]; [|by left]. right. by apply verified_accepted.
  - intros u Hut Hne. enough (forall v, o ≠ Done v) as Ho by (destruct o; [by destruct (Ho a)|by destruct E as [-> _]..]).
    intros v ->. revert Eu. unfold envelope_user. intros (s3 & o & Er & Eo)%hm_bind.
    unfold request_user in Er. apply hm_bind in Er as (s4 & o' & [= <- <-] & Er). rewrite Hut in Er. cbn in Er. injection Er as <- <-.
    rewrite bool_decide_eq_false_2 in Eo by congruence. done.
Qed.

End Agents.

(** ** A service at work *)

Section Witnesses.
#[local] Existing Instance demo_hashlib.
#[local] Existing Instance demo_rfc8785.
#[local] Existing Instance demo_cryptography.
#[local] Existing Instance demo_sqlite.
#[local] Existing Instance demo_poi_model.
#[local] Existing Instance demo_envelope_model.
#[local] Existing Instance demo_rfc3161.
#[local] Existing Instance demo_email_lib.
#[local] Existing Instance demo_pbkdf2.

Definition demo_diff : Difflib := {| unified_diff a b f t := ["--- " +:+ f; "+++ " +:+ t] |}.
Definition demo_sqlite3 : SqliteConnection := {| sqlite_answer fs log r := (fs, Ok []) |}.
#[local] Existing Instance demo_diff.
#[local] Existing Instance demo_sqlite3.

(** The agents, and the file system of their workspace. *)
Definition demo_agents : Agents :=
  mkAgents (mkEmailAgent "email-agent" default_smtp_config None) (mkFileAgent "file-agent" ["ws"] ["ws"; ".aor_file_backups"])
    (mkAuditAgent "audit-agent" true) [] "/out" demo_agent_key.

Definition demo_world : World :=
  mkWorld (<[["ws"; ".aor_file_backups"] := NDir]> (<[["ws"] := NDir]> ∅)) [] (mkDatabaseAgent "database-agent" [] (Some ["ws"]) DEFAULT_TEMPLATES) [] ∅.

(** The registry holds the user's key. *)
Definition demo_keys : KeyTable :=
  match register_key demo_wall [] "user" "k1" (demo_der demo_curve_key) "ES256" (utc demo_wall) None None with
  | Ok (t, _) => t | Raise _ => [] end.

Lemma demo_keys_ok : table_ok demo_keys.
Proof.
  unfold demo_keys. destruct (register_key _ _ _ _ _ _ _ _ _) as [[t r]|] eqn:E; [|apply table_ok_nil].
  eapply registry_step_ok; [apply table_ok_nil|]. by eapply step_register_key.
Qed.

(** A signed request for two steps. *)
Definition demo_prompt (signature : string) : SignedEnvelope :=
  mkSignedEnvelope "Create file notes.txt content: hello then send an email to bob@example.com" "usr_r1" "s1"
    "2026-01-01T00:00:00Z" "n7" signature "k1" default_signature_algorithm.

Definition demo_prompt_hash : bytes :=
  match hash_payload (JObj (signing_payload (demo_prompt ""))) with Ok h => h | Raise _ => [] end.
Definition demo_request_envelope : SignedEnvelope := demo_prompt (b64encode (demo_ec_sign demo_curve_key demo_prompt_hash)).
Definition demo_forged_envelope : SignedEnvelope := demo_prompt (b64encode (demo_ec_sign demo_curve_key [])).

Definition demo_prompt_clock : PromptClock := mkPromptClock demo_wall (demo_clocks 0) demo_wall demo_wall.

Definition demo_audit_env : PipelineEnv := mkPipelineEnv [] 0 0 0 None (raise ValueError "") (fun _ => raise ValueError "").

(** Two steps, with identifiers of their own. *)
Definition demo_step_env (i : nat) : StepEnv :=
  mkStepEnv demo_wall (demo_wall + 1) (demo_wall + 2) (demo_wall + 3) "0a" (demo_key (7 + Z.of_nat i)) (fun f => f)
    demo_wall demo_wall demo_wall (fun _ => Ok tt) demo_draws 5 (fun _ => demo_audit_env) (match i with O => "u0" | _ => "u1" end)
    demo_wall demo_wall.

Definition demo_as_bytes (m : EmailMessage) : bytes := utf8_encode (em_body m).

Definition demo_init : result (ServiceState World) :=
  Service_init "r1" "r2" [x01] [x02] demo_wall demo_wall (Registered demo_keys) demo_nonces demo_world.

Definition demo_service : ServiceState World :=
  match demo_init with
  | Ok s => s
  | Raise _ => mkServiceState Database_empty (Legacy ∅) demo_nonces [] ∅ [] [] [] demo_world
  end.

Lemma demo_init_ok : demo_init = Ok demo_service.
Proof.
  assert (is_ok demo_init = true) as E by (vm_compute; reflexivity).
  unfold demo_service. destruct demo_init; [done|discriminate E].
Qed.

Definition demo_execute (e : SignedEnvelope) : ServiceRequest := Execute demo_prompt_clock demo_step_env "" e.

Definition demo_requests : list ServiceRequest :=
  [Signup "r3" "t3" [x03] demo_wall demo_wall [("name", "Sam"); ("email", "sam@example.com"); ("password", "secret!")];
   Prompt default_verified_handler demo_prompt_clock "" demo_request_envelope; demo_execute demo_request_envelope].

Abbreviation demo_serve := (serve demo_as_bytes "-" demo_agents).
Abbreviation demo_served := (served demo_as_bytes "-" demo_agents).

(** The two steps ran: a file, a message, six entries, two rows. *)
Lemma service_invariant_witness :
  service_ok (demo_served demo_requests demo_service) /\
  length (db_prompts (sv_database (demo_served demo_requests demo_service))) = 2%nat /\
  length (wd_outbox (sv_world (demo_served demo_requests demo_service))) = 1%nat.
Proof.
  split; [|vm_compute; done].
  apply (service_invariant demo_as_bytes "-" demo_agents "r1" "r2" [x01] [x02] demo_wall demo_wall (Registered demo_keys) demo_nonces demo_world).
  - exact demo_init_ok.
  - intros t [= <-]. exact demo_keys_ok.
Defined.

(** A forged envelope changes nothing. *)
Lemma runs_only_accepted_witness : untouched demo_service (demo_serve (demo_execute demo_forged_envelope) demo_service).1.
Proof.
  destruct (runs_only_accepted demo_as_bytes "-" demo_agents [] demo_service demo_service (demo_serve (demo_execute demo_forged_envelope) demo_service).1
    (demo_execute demo_forged_envelope) (demo_serve (demo_execute demo_forged_envelope) demo_service).2 demo_prompt_clock "" demo_forged_envelope)
    as [[Hu|[(v & Hv & Hvv)|Hin]] _].
  - reflexivity.
  - reflexivity.
  - right. by exists demo_step_env.
  - apply surjective_pairing.
  - exact Hu.
  - exfalso. vm_compute in Hv. injection Hv as <-. discriminate Hvv.
  - destruct Hin as ([|] & a & ov & k & au & E & _); discriminate E.
Defined.
End Witnesses.
