(* ===== verification/Execution.v ===== *)
(** * What the service records of the agents it runs

    The loop of [execute_routed_agent] in [AgentService.v]: the steps run in the order planned,
    up to the first failure, and each of them leaves a signed proof over exactly the payload it
    ran with, in the ledger, in the evidence, in memory and persisted, and in the prompt table;
    however a request ends, the agents' part of the world changes only by plans that need no
    confirmation, so that no file is ever deleted, and a step that needs one is answered 409. *)

From S2P Require Import Prelude PyStr Base64 Json JsonText PyTime Crypto Instances Ledger Merkle Sql Verifier Registry.
From S2P Require Import Poi AgentBase Executor Tsa Evidence Portal Regex Router EmailAgent FileSystem StateMonad FileAgent.
From S2P Require Import DatabaseAgent AuditAgent Accounts Service AgentService ServiceSafety.

#[local] Open Scope Z_scope.

(** ** Runs that reply *)

Lemma hm_done {S A B : Type} (m : HM S A) (f : A -> HM S B) s s' b :
  (m ≫= f) s = (s', Done b) -> exists s1 a, m s = (s1, Done a) /\ f a s1 = (s', Done b).
Proof. intros (s1 & o & E & Eo)%hm_bind. destruct o; [eauto|by destruct Eo..]. Qed.

Lemma runs_done {S A : Type} (f : S -> S * result A) s s' a : runs f s = (s', Done a) -> f s = (s', Ok a).
Proof. unfold runs. destruct (f s) as [s1 [x|x]]; by intros [= <- <-]. Qed.

Lemma calls_done {S A : Type} (f : S -> result A) s s' a : calls f s = (s', Done a) -> s' = s /\ f s = Ok a.
Proof. unfold calls. destruct (f s); by intros [= <- <-]. Qed.

(** Takes such a run apart. *)
Ltac done_inv :=
  repeat (cbn beta in *; match goal with
  | E : mbind _ _ _ = (_, Done _) |- _ =>
      let s := fresh "s" in let a := fresh "a" in let E1 := fresh "E" in apply hm_done in E as (s & a & E1 & E)
  | E : asks _ _ = (_, Done _) |- _ => injection E as <- <-
  | E : mret _ _ = (_, Done _) |- _ => injection E as <- <-
  | E : calls _ _ = (_, Done _) |- _ => apply calls_done in E as [-> E]
  | E : runs _ _ = (_, Done _) |- _ => apply runs_done in E
  | E : http _ _ _ = (_, Done _) |- _ => discriminate E
  end).

Section Execution.
Context `{Hashlib, Rfc8785, Cryptography, Sqlite, EmailLib, EnvelopeModel, PoiModel, Rfc3161, Pbkdf2, Difflib, SqliteConnection}.
Variable as_bytes : EmailMessage -> bytes.
Variable dash : string.
Variable agents : Agents.

Abbreviation State := (ServiceState World).

Definition recorded_ids (s : State) : list string := omap pr_action_id (db_prompts (sv_database s)).

(** ** What a step leaves *)

(** The entries written before the agent of [plan] runs. *)
Definition step_contents (e : SignedEnvelope) (plan : ActionPlan) : list json :=
  [JObj [("text", JStr routed_system_prompt)]; JObj [("text", JStr (se_prompt e))];
   JObj [("agent_type", JStr (ap_agent_type plan)); ("agent_id", opt_str (ap_agent_id plan));
         ("action_type", JStr (ap_action_type plan)); ("payload", JObj (ap_payload plan))]].

(** The proof is signed by the agent, commits both prompts and the payload, and its context root
    is that of [l], which ends with the entries of the step. *)
Definition proof_ok (l : Ledger) (e : SignedEnvelope) (plan : ActionPlan) (agent_id : string) (key : Ed25519PrivateKey)
    (poi : ProofOfIntent) : Prop :=
  (exists before new, l = before ++ new /\ content <$> new = step_contents e plan) /\
  (exists t r, build_merkle_tree l = Ok t /\ root t = Ok r /\ poi_context_root poi = hex r) /\
  hash_hex (JObj [("prompt", JStr (se_prompt e))]) = Ok (poi_user_prompt_hash poi) /\
  hash_hex (JObj [("system_prompt", JStr routed_system_prompt)]) = Ok (poi_system_prompt_hash poi) /\
  hash_hex (JObj (ap_payload plan)) = Ok (poi_action_payload_hash poi) /\
  poi_agent_type poi = Some (ap_agent_type plan) /\ poi_agent_id poi = Some (or_str (ap_agent_id plan) agent_id) /\
  poi_action_type poi = Some (ap_action_type plan) /\ poi_policy_decision poi = Some (ap_policy_decision plan) /\
  agent_pubkey_id key = Ok (default "" (poi_agent_pubkey_id poi)) /\
  verify_poi_signature poi (ObjEdPublic (ed_public_key key)) = Ok true.

Definition step_evidence (n : nat) (e : SignedEnvelope) (r : StepRecord) : ActionEvidence :=
  mkActionEvidence (sr_action_id r) e routed_system_prompt service_ledger (Z.of_nat n) (ef_bytes <$> sr_file r) (Some (sr_poi r))
    (Some (ap_action_type (sr_plan r))) (Some (ap_payload (sr_plan r))) (Some (ar_observed_effect (sr_result r))) None.

(** The record of an executed step: its proof over a prefix of the ledger, its evidence in the
    store and in the database, its row among the prompts. *)
Definition recorded (s : State) (e : SignedEnvelope) (r : StepRecord) : Prop :=
  exists l n, sv_ledgers s !! service_ledger = Some l /\ (n <= length l)%nat /\
    proof_ok (take n l) e (sr_plan r) (sr_agent_id r) (sr_key r) (sr_poi r) /\ truthy_str (sr_action_id r) = true /\
    dict_get (sr_action_id r) (sv_evidence s) = Some (step_evidence n e r) /\
    dict_get (sr_action_id r) (db_action_evidence (sv_database s)) = Some (serialize l (step_evidence n e r)) /\
    exists row, row ∈ db_prompts (sv_database s) /\ pr_action_id row = Some (sr_action_id r) /\ pr_envelope row = e /\
      pr_user_id row = se_user_id e /\
      pr_eml_path row = ef_path <$> sr_file r.

(** What earlier records are is kept: the ledger and the prompts grow at their ends, and the
    evidence of the recorded actions stays. *)
Record grows (s s' : State) : Prop := {
  gr_ledger : forall l, sv_ledgers s !! service_ledger = Some l -> exists more, sv_ledgers s' !! service_ledger = Some (l ++ more);
  gr_prompts : exists more, db_prompts (sv_database s') = db_prompts (sv_database s) ++ more;
  gr_evidence : forall id ev, id ∈ recorded_ids s -> dict_get id (sv_evidence s) = Some ev -> dict_get id (sv_evidence s') = Some ev;
  gr_stored : forall id, id ∈ recorded_ids s ->
    dict_get id (db_action_evidence (sv_database s')) = dict_get id (db_action_evidence (sv_database s));
}.

Lemma grows_ids s s' id : grows s s' -> id ∈ recorded_ids s -> id ∈ recorded_ids s'.
Proof. intros [_ [more Hp] _ _]. unfold recorded_ids. rewrite Hp, omap_app. set_solver. Qed.

#[export] Instance grows_preorder : PreOrder grows.
Proof.
  split.
  - intros s. split; [intros l ->; exists []; by rewrite app_nil_r|exists []; by rewrite app_nil_r|done|done].
  - intros x y z Hxy Hyz. pose proof (fun id => grows_ids x y id Hxy) as Hids. destruct Hxy as [E1 [p1 P1] V1 S1], Hyz as [E2 [p2 P2] V2 S2]. split.
    + intros l [m1 [m2 El]%E2]%E1. exists (m1 ++ m2). by rewrite app_assoc.
    + exists (p1 ++ p2). by rewrite P2, P1, app_assoc.
    + auto.
    + intros id Hid. rewrite S2, S1; auto.
Qed.

Lemma serialize_prefix (l more : Ledger) n e r :
  (n <= length l)%nat -> serialize (l ++ more) (step_evidence n e r) = serialize l (step_evidence n e r).
Proof.
  intros Hn. unfold serialize, evidence_payload. do 6 f_equal. f_equal. f_equal. unfold slice_to, all_entries. cbn [ev_ledger_entry_count step_evidence].
  rewrite (proj2 (Z.leb_le _ _)) by lia. by rewrite take_app_le by lia.
Qed.

Lemma recorded_grows s s' e r : recorded s e r -> grows s s' -> recorded s' e r.
Proof.
  intros (l & n & Hl & Hn & Hp & Hid0 & Hev & Hst & row & Hrow & Ha & Hrest) G. pose proof G as [El [rows Er] Gv Gs].
  destruct (El _ Hl) as [more Hl'].
  assert (sr_action_id r ∈ recorded_ids s) as Hid by (apply list_elem_of_omap; eauto).
  exists (l ++ more), n. rewrite length_app, take_app_le by lia. split_and!; [done|lia|done|done|by apply Gv| |].
  - rewrite Gs, Hst by done. by rewrite serialize_prefix.
  - exists row. split; [|done]. rewrite Er. set_solver.
Qed.

(** *** The parts of a step *)

Lemma grows_append now ty c : steps grows (append_entry now ty c).
Proof.
  apply steps_runs. intros s. destruct (append _ _ _ _) as [[l e]|] eqn:E; [|done]. cbn [fst].
  split; [|exists []; by rewrite app_nil_r|done|done]. intros l0 El. rewrite (ledger_at_some _ _ El) in E.
  apply append_inv in E as (? & ? & _ & _ & _ & _ & _ & ->). exists [e]. apply lookup_insert_eq.
Qed.

(** What an agent does: it writes no entry, and no record of the service. *)
Definition shares (s s' : State) : Prop :=
  sv_ledgers s ⊆ sv_ledgers s' /\ sv_database s' = sv_database s /\
  forall id ev, dict_get id (sv_evidence s) = Some ev -> dict_get id (sv_evidence s') = Some ev.

#[export] Instance shares_preorder : PreOrder shares.
Proof. split; [by intros s; split_and!|]. intros x y z (? & ? & ?) (? & ? & ?). split_and!; [by etransitivity|congruence|auto]. Qed.

Lemma shares_grows s s' : shares s s' -> grows s s'.
Proof.
  intros (Hl & Hd & Hv). split; rewrite ?Hd; [|by exists []; rewrite app_nil_r|auto|done].
  intros l El. exists []. rewrite app_nil_r. by eapply lookup_weaken.
Qed.

Lemma shares_grows_steps {A : Type} (m : HM State A) : steps shares m -> steps grows m.
Proof. intros Hm s. apply shares_grows, (Hm s). Qed.

Lemma shares_register_agent env id key : steps shares (register_agent env id key).
Proof.
  apply steps_runs. intros s. destruct (sv_keys s); [|done]. by destruct (register_agent_public_key _ _ _ _ _ _) as [[]|].
Qed.

Lemma shares_keypair env id : steps shares (agent_keypair env id).
Proof. apply steps_runs. intros s. cbv zeta. by case_match; [case_match|]. Qed.

Lemma shares_loads {A : Type} (f : EvidenceState Database -> EvidenceState Database * result A) :
  (forall e, loads_only e (f e).1) -> steps shares (on_evidence (W := World) f).
Proof.
  intros Hf. apply steps_runs. intros s. destruct (Hf (evidence_view s)) as (Hl & Hp & Hv).
  destruct (f (evidence_view s)) as [e r]. cbn in *. split_and!; [done| |auto]. cbn. by rewrite Hp.
Qed.

Lemma shares_agent_execute env ty plan poi : steps shares (agent_execute as_bytes dash agents env ty plan poi).
Proof.
  unfold agent_execute. repeat case_bool_decide.
  - apply steps_runs. intros s. by destruct (email_execute _ _ _ _ _).
  - apply steps_runs. intros s. by destruct (file_execute _ _ _ _).
  - intros s. destruct (key_registry s) as [t|]; [|done].
    apply (shares_loads (fun e => audit_execute dash (as_audit agents) _ e plan (Some poi))). intros e.
    destruct (audit_execute _ _ _ _ _ _) as [e' r] eqn:E. by eapply execute_loads.
  - apply steps_runs. intros s. by destruct (db_agent_execute _ _ _ _).
  - walk.
Qed.

Lemma grows_register_agent env id key : steps grows (register_agent env id key).
Proof. apply shares_grows_steps, shares_register_agent. Qed.
Lemma grows_keypair env id : steps grows (agent_keypair env id).
Proof. apply shares_grows_steps, shares_keypair. Qed.
Lemma grows_agent_execute env ty plan poi : steps grows (agent_execute as_bytes dash agents env ty plan poi).
Proof. apply shares_grows_steps, shares_agent_execute. Qed.

Hint Resolve grows_append grows_register_agent grows_keypair grows_agent_execute : steps.

Lemma grows_signed_poi env p sp payload m id key : steps grows (signed_poi env p sp payload m id key).
Proof. unfold signed_poi, the_ledger. walk. Qed.

Hint Resolve grows_signed_poi : steps.

Lemma grows_prepare env e plan : steps grows (prepare_step agents env e plan).
Proof. unfold prepare_step. walk. Qed.

Lemma append_done now ty c (s s' : State) u l :
  append_entry now ty c s = (s', Done u) -> sv_ledgers s !! service_ledger = Some l ->
  exists x, content x = JObj c /\ sv_ledgers s' !! service_ledger = Some (l ++ [x]).
Proof.
  unfold append_entry. intros E El. apply runs_done in E. rewrite (ledger_at_some _ _ El) in E.
  destruct (append _ _ _ _) as [[l' x]|] eqn:Ea; [|done]. injection E as <- _.
  apply append_inv in Ea as (ty' & leaf & _ & _ & _ & _ & -> & ->). eexists. split; [|apply lookup_insert_eq]. done.
Qed.

Lemma signed_poi_done `{!CryptographyLaws} env p sp payload m id key (s s' : State) poi l :
  signed_poi env p sp payload m id key s = (s', Done poi) -> sv_ledgers s !! service_ledger = Some l ->
  s' = s /\ (exists t r, build_merkle_tree l = Ok t /\ root t = Ok r /\ poi_context_root poi = hex r) /\
  hash_hex (JObj [("prompt", JStr p)]) = Ok (poi_user_prompt_hash poi) /\
  hash_hex (JObj [("system_prompt", JStr sp)]) = Ok (poi_system_prompt_hash poi) /\
  hash_hex (JObj payload) = Ok (poi_action_payload_hash poi) /\
  poi_agent_type poi = pi_agent_type id /\ poi_agent_id poi = pi_agent_id id /\
  poi_action_type poi = pi_action_type id /\ poi_policy_decision poi = pi_policy_decision id /\
  agent_pubkey_id key = Ok (default "" (poi_agent_pubkey_id poi)) /\
  verify_poi_signature poi (ObjEdPublic (ed_public_key key)) = Ok true.
Proof.
  unfold signed_poi, the_ledger. intros E El. done_inv. rewrite (ledger_at_some _ _ El) in *.
  match goal with E : build_poi _ _ _ _ _ _ _ _ = _ |- _ =>
    apply build_poi_inv in E as (t & r & Et & Er & Ec & Ep & Esp & Eh & _ & _ & _ & _ & Ety & Eid & Ea & Epd & _) end.
  match goal with E : sign_poi _ _ = _ |- _ =>
    pose proof (sign_verify_poi_lemma _ _ _ E); apply sign_poi_inv in E as (i & h & Ei & _ & ->) end.
  split_and!; try done. exists t, r. done.
Qed.

Lemma prepare_done `{!CryptographyLaws} env e plan (s s' : State) agent key poi l :
  prepare_step agents env e plan s = (s', Done (agent, key, poi)) -> sv_ledgers s !! service_ledger = Some l ->
  ag_agent_type agent = ap_agent_type plan /\
  exists new, content <$> new = step_contents e plan /\ sv_ledgers s' !! service_ledger = Some (l ++ new) /\
    proof_ok (l ++ new) e plan (ag_agent_id agent) key poi.
Proof.
  unfold prepare_step. intros E El. done_inv. subst. split.
  { unfold agent_get in E3. destruct (find_agent _ _) as [x|] eqn:Ef; [|done]. injection E3 as ->. by apply find_agent_type in Ef as [-> _]. }
  eapply append_done in E0 as (x1 & C1 & L1); [|done]. eapply append_done in E1 as (x2 & C2 & L2); [|done].
  eapply append_done in E2 as (x3 & C3 & L3); [|done]. rewrite <- !app_assoc in L3. cbn [app] in L3.
  destruct (steps_run _ _ _ _ _ (shares_keypair _ _) E4) as (Hk & _).
  destruct (steps_run _ _ _ _ _ (shares_register_agent _ _ _) E5) as (Hg & _).
  pose proof (lookup_weaken _ _ _ _ (lookup_weaken _ _ _ _ L3 Hk) Hg) as L5.
  eapply signed_poi_done in E6 as (-> & Hroot & Hp & Hs & Hh & Hty & Haid & Ha & Hd & Hid & Hv); [|done].
  exists [x1; x2; x3]. unfold step_contents. split_and!; [cbn; by rewrite C1, C2, C3|done|].
  split_and!; [exists l, [x1; x2; x3]; split; [done|]; cbn; unfold step_contents; by rewrite C1, C2, C3|done..].
Qed.

(** Recording under an identifier the prompts do not have yet. *)
Lemma record_done env e user r (s s' : State) u l :
  (forall u, user = Some u -> se_user_id e = user_id_of u) ->
  record_step env e user r s = (s', Done u) -> sv_ledgers s !! service_ledger = Some l ->
  proof_ok l e (sr_plan r) (sr_agent_id r) (sr_key r) (sr_poi r) -> truthy_str (sr_action_id r) = true ->
  recorded s' e r /\ grows s s' /\ sv_ledgers s' = sv_ledgers s.
Proof.
  unfold record_step, the_ledger, register_evidence, save_record, on_evidence, on_database, record_operation. intros Hu E El Hp Hid. done_inv.
  injection E as <- _. cbn [evidence_register evidence_view es_persistence] in E1. rewrite (ledger_at_some _ _ El) in E1.
  cbn in E1. injection E1 as <- _. rewrite (ledger_at_some _ _ El) in E2. cbn in E2.
  unfold save_prompt in E2. cbn [fst] in E2.
  match type of E2 with context [action_used ?d ?a] => destruct (action_used d a) eqn:Eu end; [done|].
  injection E2 as <- _. apply action_used_spec in Eu. cbn in Eu. split_and!; [| |done].
  - exists l, (length l). cbn. rewrite firstn_all. split_and!; [done|done|done|done|apply dict_get_set_eq|apply dict_get_set_eq|].
    eexists. split; [apply elem_of_app; right; by apply list_elem_of_singleton|]. cbn. split_and!; [done|done| |done]. destruct user as [v|]; [|done]. by rewrite (Hu v).
  - split; cbn.
    + intros l0 ->. exists []. by rewrite app_nil_r.
    + by eexists.
    + intros id ev Hin Hev. rewrite dict_get_set_ne; [done|]. intros ->. done.
    + intros id Hin. apply dict_get_set_ne. intros ->. done.
Qed.

(** ** One step *)

Lemma step_action_id (b : bool) ref ty uuid :
  truthy_str (if b && opt_truthy ref then default "" ref else ty +:+ ("-" +:+ uuid)) = true.
Proof.
  destruct b; cbn [andb]; [|by destruct ty]. destruct ref as [x|]; [|by destruct ty]. cbn [opt_truthy].
  destruct (truthy_str x) eqn:Ex; [done|by destruct ty].
Qed.

Lemma execute_step_done `{!CryptographyLaws} env e user previous plan (s s' : State) r l :
  (forall u, user = Some u -> se_user_id e = user_id_of u) ->
  execute_step as_bytes dash agents env e user previous plan s = (s', Done r) -> sv_ledgers s !! service_ledger = Some l ->
  (ap_requires_confirmation plan = true -> ap_confirmed plan = true) /\
  sr_plan r = with_payload plan (chained_payload plan previous) /\ recorded s' e r /\ grows s s' /\
  exists new, length new = 3%nat /\ sv_ledgers s' !! service_ledger = Some (l ++ new).
Proof.
  intros Hu. unfold execute_step. destruct (ap_requires_confirmation plan && negb (ap_confirmed plan)) eqn:Ec; [done|].
  intros E El. unfold outbox in E. apply hm_done in E as (s1 & [[agent key] poi] & E1 & E). done_inv.
  pose proof (steps_run _ _ _ _ _ (grows_prepare _ _ _) E1) as G1. eapply prepare_done in E1 as (_ & new & Hn & L1 & Hp); [|done].
  match goal with E : agent_execute _ _ _ _ _ _ _ _ = _ |- _ => pose proof (steps_run _ _ _ _ _ (shares_agent_execute _ _ _ _) E) as Hs end.
  pose proof (lookup_weaken _ _ _ _ L1 (proj1 Hs)) as L2.
  match goal with E : record_step _ _ _ _ _ = _ |- _ => eapply record_done in E as (Hr & G2 & El'); [|done|done|exact Hp|apply step_action_id] end.
  split_and!; [|done|done| |].
  - intros Hc. rewrite Hc in Ec. by apply negb_false_iff in Ec.
  - etransitivity; [exact G1|]. etransitivity; [by apply shares_grows|done].
  - exists new. rewrite El'. split; [|done]. by rewrite <- (length_fmap content), Hn.
Qed.

(** ** The loop *)

(** The plan of a step, as run after [previous]: confirmed where it must be. *)
Definition ran (previous : option ActionResult) (plan : ActionPlan) (r : StepRecord) : Prop :=
  (ap_requires_confirmation plan = true -> ap_confirmed plan = true) /\
  sr_plan r = with_payload plan (chained_payload plan previous).

(** The steps run are those planned, in order, each after the result of the one before, up to
    the first failure. *)
Inductive executed : option ActionResult -> list ActionPlan -> list StepRecord -> Prop :=
| executed_all previous : executed previous [] []
| executed_failed previous plan rest r :
    ran previous plan r -> ar_success (sr_result r) = false -> executed previous (plan :: rest) [r]
| executed_step previous plan rest r records :
    ran previous plan r -> ar_success (sr_result r) = true -> executed (Some (sr_result r)) rest records ->
    executed previous (plan :: rest) (r :: records).

Lemma run_plans_done `{!CryptographyLaws} envs i e user previous plans (s s' : State) records l :
  (forall u, user = Some u -> se_user_id e = user_id_of u) ->
  run_plans as_bytes dash agents envs i e user previous plans s = (s', Done records) -> sv_ledgers s !! service_ledger = Some l ->
  executed previous plans records /\ grows s s' /\ Forall (recorded s' e) records /\
  exists new, length new = (3 * length records)%nat /\ sv_ledgers s' !! service_ledger = Some (l ++ new).
Proof.
  intros Hu. revert i previous s l records. induction plans as [|plan plans IH]; intros i previous s l records; cbn [run_plans]; intros E El.
  - done_inv. split_and!; [constructor|done|done|]. exists []. by rewrite app_nil_r.
  - apply hm_done in E as (s1 & r & E1 & E). eapply execute_step_done in E1 as (Hc & Hp & Hr & G & new & Hn & L1); [|done..].
    destruct (ar_success (sr_result r)) eqn:Es; done_inv.
    + match goal with E : run_plans _ _ _ _ _ _ _ _ _ _ = _ |- _ => apply (IH _ _ _ _ _ E) in L1 as (Hx & G2 & Hall & more & Hm & L2) end.
      split_and!; [by constructor|by etransitivity| |].
      * constructor; [by eapply recorded_grows|done].
      * exists (new ++ more). rewrite app_assoc. split; [|done]. rewrite length_app, Hn, Hm. cbn. lia.
    + split_and!; [by constructor|done|by constructor|]. exists new. by split.
Qed.

(** Without the laws of the signatures, and from any state. *)
Lemma run_plans_ran envs i e user previous plans (s s' : State) records :
  run_plans as_bytes dash agents envs i e user previous plans s = (s', Done records) -> executed previous plans records.
Proof.
  revert i previous s records. induction plans as [|plan plans IH]; intros i previous s records; cbn [run_plans]; intros E.
  - done_inv. constructor.
  - apply hm_done in E as (s1 & r & E1 & E).
    assert (ran previous plan r) as Hr.
    { unfold execute_step in E1. destruct (_ && _) eqn:Ec; [done|]. apply hm_done in E1 as (s2 & [[agent key] poi] & _ & E1). unfold outbox in E1.
      done_inv. split; [|done]. intros Hc. rewrite Hc in Ec. by apply negb_false_iff in Ec. }
    destruct (ar_success (sr_result r)) eqn:Es; done_inv; [|by constructor].
    constructor; [done..|]. by eapply IH.
Qed.

(** ** What needs a confirmation *)

(** A plan of the service's agents is unconfirmed, and one that deletes asks for confirmation. *)
Definition plan_guarded (p : ActionPlan) : Prop :=
  ap_confirmed p = false /\ (ap_action_type p = "file.delete" -> ap_requires_confirmation p = true).

Lemma plan_init_guarded p p' : ActionPlan_init p = Ok p' -> plan_guarded p -> plan_guarded p'.
Proof. unfold ActionPlan_init. case_match; [|done]. by intros [= <-]. Qed.

Lemma email_plan_guarded self request context p : email_plan self request context = Ok p -> plan_guarded p.
Proof.
  unfold email_plan. destruct (plan_email request); [|done]. cbn [mbind result_bind]. intros E.
  eapply plan_init_guarded; [exact E|]. done.
Qed.

Lemma file_plan_guarded self request context fs fs' p : file_plan self request context fs = (fs', Ok p) -> plan_guarded p.
Proof.
  unfold file_plan. destruct (_ || _); [done|]. destruct (get_or "action_type" _ _); try done.
  destruct (negb _); [done|]. destruct (nonblank _) as [pa|]; [|done]. intros E.
  apply bind_ok in E as (payload & fs1 & E1 & E). apply bind_ok in E as (c & fs2 & E2 & E). unfold lift in E. injection E as _ E.
  eapply plan_init_guarded; [exact E|]. split; [done|]. cbn. intros ->. rewrite !bool_decide_eq_false_2 in E2 by done.
  by injection E2 as _ <-.
Qed.

Lemma audit_plan_guarded self request context p : audit_plan self request context = Ok p -> plan_guarded p.
Proof.
  unfold audit_plan. intros E. inv_result. destruct (get_or "action_type" _ _); try done. inv_result.
  match goal with E : negb (bool_decide (_ ∈ audit_capabilities)) = false |- _ => apply negb_false_iff, bool_decide_eq_true in E as Hcap end.
  eapply plan_init_guarded; [exact E|]. split; [done|]. cbn. intros ->. contradict Hcap. by apply (bool_decide_eq_false_1 _).
Qed.

Lemma db_plan_guarded fs self request context p : db_agent_plan fs self request context = Ok p -> plan_guarded p.
Proof.
  assert (forall ty payload, ty ≠ "file.delete" -> db_make_plan self ty payload = Ok p -> plan_guarded p) as Hmake.
  { intros ty payload Hty E. eapply plan_init_guarded; [exact E|]. by split. }
  assert (forall values r, plan_query self values r = Ok p -> plan_guarded p) as Hquery.
  { intros values r E. unfold plan_query in E. inv_result. destruct (match dict_get "params" values with Some v => v | None => _ end); try done. by eapply Hmake; [|exact E]. }
  unfold db_agent_plan. intros E. inv_result. destruct (get_or "action_type" _ _); try by eapply Hquery.
  repeat case_bool_decide; [| |by eapply Hquery].
  - unfold plan_create in E. destruct (get_or "name" _ _); try done. inv_result. destruct (db_workspace_dir self); [|done].
    inv_result. by eapply Hmake; [|exact E].
  - unfold plan_create_table in E. destruct (get_or "table" _ _); try done. inv_result. destruct (get_or "database" _ _); try done.
    inv_result. by eapply Hmake; [|exact E].
Qed.

Lemma router_plans_guarded (registry : AgentRegistry) request context plans :
  (forall a r c p, a ∈ registry -> ag_plan a r c = Ok p -> plan_guarded p) ->
  router_plan registry request context = Ok plans -> Forall plan_guarded plans.
Proof.
  intros Hg. unfold router_plan. destruct (negb _); [done|]. generalize (rr_steps (route registry request)). intros steps.
  revert plans. induction steps as [|st steps IH]; intros plans; cbn [mapM_result]; [by intros [= <-]|].
  destruct (agent_get _ _) as [a|] eqn:Ea; [|done]. cbn [mbind result_bind].
  destruct (ag_plan a _ _) as [p|] eqn:Ep; [|done]. destruct (mapM_result _ steps) as [ps|]; [|done]. cbn [mbind result_bind].
  intros [= <-]. constructor; [|by apply IH].
  unfold agent_get in Ea. destruct (find_agent _ _) as [x|] eqn:Ef; [|done]. injection Ea as ->. apply find_agent_type in Ef as [_ Ha].
  by eapply Hg.
Qed.

Lemma service_plans_guarded (s : State) request context plans :
  router_plan (service_agents agents s) request context = Ok plans -> Forall plan_guarded plans.
Proof.
  apply router_plans_guarded. intros a r c p Ha Ep.
  unfold service_agents in Ha. rewrite !elem_of_cons in Ha. destruct Ha as [->|[->|[->|[->|Ha]]]]; cbn [ag_plan] in Ep.
  - by eapply email_plan_guarded.
  - eapply file_plan_guarded. rewrite <- Ep. apply surjective_pairing.
  - by eapply audit_plan_guarded.
  - by eapply db_plan_guarded.
  - by apply elem_of_nil in Ha.
Qed.

(** ** What runs at all *)

(** The part of the world that the agents act on. *)
Definition agents_work (s : State) : FS * list EmlFile * DatabaseAgent * list Request :=
  let w := sv_world s in (wd_fs w, wd_outbox w, wd_database_agent w, wd_sql_log w).

(** A step of a run: that part stays as it is, or an agent executes a plan with [P]. *)
Inductive work_step (P : ActionPlan -> Prop) : State -> State -> Prop :=
| work_kept s s' : agents_work s' = agents_work s -> work_step P s s'
| work_agent env plan poi s :
    P plan -> work_step P s (agent_execute as_bytes dash agents env (ap_agent_type plan) plan poi s).1.

(** What the request may run: a step the router planned for it, with another payload perhaps,
    that needs no confirmation and deletes no file. *)
Definition may_run (s : State) (e : SignedEnvelope) (p : ActionPlan) : Prop :=
  exists plans planned payload, router_plan (service_agents agents s) (se_prompt e) None = Ok plans /\ planned ∈ plans /\
    p = with_payload planned payload /\ ap_requires_confirmation p = false /\ ap_action_type p ≠ "file.delete".

Definition same_work (s s' : State) : Prop := agents_work s' = agents_work s.

#[export] Instance same_work_preorder : PreOrder same_work.
Proof. split; [by intros s|]. intros x y z. unfold same_work. congruence. Qed.

Lemma same_append now ty c : steps same_work (append_entry now ty c).
Proof. apply steps_runs. intros s. by destruct (append _ _ _ _) as [[]|]. Qed.

Lemma same_register_agent env id key : steps same_work (register_agent env id key).
Proof.
  apply steps_runs. intros s. destruct (sv_keys s); [|done]. by destruct (register_agent_public_key _ _ _ _ _ _) as [[]|].
Qed.

Lemma same_keypair env id : steps same_work (agent_keypair env id).
Proof. apply steps_runs. intros s. cbv zeta. by case_match; [case_match|]. Qed.

Lemma same_evidence {A : Type} (f : EvidenceState Database -> EvidenceState Database * result A) :
  steps same_work (on_evidence (W := World) f).
Proof. apply steps_runs. intros s. by destruct (f (evidence_view s)). Qed.

Lemma same_database {A : Type} (f : Database -> Database * result A) : steps same_work (on_database (W := World) f).
Proof. apply steps_runs. intros s. by destruct (f (sv_database s)). Qed.

Lemma same_record now op status detail id : steps same_work (record_operation (W := World) now op status detail id).
Proof. by apply steps_modify. Qed.

Hint Resolve same_append same_register_agent same_keypair same_evidence same_database same_record : steps.

Lemma same_prepare env e plan : steps same_work (prepare_step agents env e plan).
Proof. unfold prepare_step, signed_poi, the_ledger. walk. Qed.

Lemma same_record_step env e user r : steps same_work (record_step env e user r).
Proof. unfold record_step, the_ledger, register_evidence, save_record. walk. Qed.

Lemma prepare_agent_type env e plan (s s' : State) agent key poi :
  prepare_step agents env e plan s = (s', Done (agent, key, poi)) -> ag_agent_type agent = ap_agent_type plan.
Proof.
  unfold prepare_step. intros E. done_inv. subst.
  match goal with E : agent_get _ _ = _ |- _ => unfold agent_get in E; destruct (find_agent _ _) as [x|] eqn:Ef; [|done]; injection E as -> end.
  by apply find_agent_type in Ef as [-> _].
Qed.

(** A step of the loop, however it ends, executes its own plan, and only if it may. *)
Lemma execute_step_work P env e user previous plan (s s' : State) o :
  (ap_requires_confirmation plan && negb (ap_confirmed plan) = false -> P (with_payload plan (chained_payload plan previous))) ->
  execute_step as_bytes dash agents env e user previous plan s = (s', o) -> rtc (work_step P) s s'.
Proof.
  intros HP. unfold execute_step. destruct (_ && _); [by intros [= <- _]|]. specialize (HP eq_refl).
  set (p := with_payload _ _) in *. intros (s1 & o1 & E1 & E)%hm_bind.
  eapply rtc_l; [apply work_kept, (steps_run _ _ _ _ _ (same_prepare _ _ _) E1)|].
  destruct o1 as [[[agent key] poi]| |]; [|by destruct E as [-> _]..].
  apply prepare_agent_type in E1. cbn beta iota in E. rewrite E1 in E. unfold outbox in E.
  apply hm_bind in E as (s2 & o2 & [= <- <-] & E). apply hm_bind in E as (s3 & o3 & E3 & E).
  eapply rtc_l; [exact (work_agent P env p poi s1 HP)|]. fold p in E3. rewrite E3. cbn [fst].
  destruct o3 as [r| |]; [|by destruct E as [-> _]..].
  apply rtc_once, work_kept. eapply (steps_run same_work); [|exact E].
  cbv zeta. walk; apply same_record_step.
Qed.

Lemma run_plans_work P envs i e user previous plans (s s' : State) o :
  (forall plan payload, plan ∈ plans -> ap_requires_confirmation plan && negb (ap_confirmed plan) = false -> P (with_payload plan payload)) ->
  run_plans as_bytes dash agents envs i e user previous plans s = (s', o) -> rtc (work_step P) s s'.
Proof.
  revert i previous s s' o. induction plans as [|plan plans IH]; intros i previous s s' o HP; cbn [run_plans]; [by intros [= <- _]|].
  intros (s1 & o1 & E1 & E)%hm_bind. apply execute_step_work with (P := P) in E1; [|intros Hc; apply HP; [by left|done]].
  destruct o1 as [r| |]; [|by destruct E as [-> _]..]. destruct (ar_success (sr_result r)); [|by injection E as <- _].
  apply hm_bind in E as (s2 & o2 & E2 & E). apply IH in E2; [|intros p pl Hp; apply HP; by right].
  destruct o2; [injection E as <- _|destruct E as [-> _]..]; by etransitivity.
Qed.

(** A step that must be confirmed is not passed. *)
Lemma executed_stops previous plans records plan :
  executed previous plans records -> plan ∈ plans -> ap_requires_confirmation plan = true -> ap_confirmed plan = false ->
  forallb (fun r => ar_success (sr_result r)) records = false.
Proof.
  intros Hx. induction Hx as [|? ? ? r Hr Hs|? ? ? r records Hr Hs _ IH]; intros Hin Hq Hc; [by apply elem_of_nil in Hin|..]; cbn [forallb]; rewrite Hs.
  - done.
  - apply IH; [|done..]. apply elem_of_cons in Hin as [->|]; [|done]. destruct Hr as [Hr _]. rewrite Hc in Hr. by discriminate (Hr Hq).
Qed.

(** ** Theorems *)

Lemma or_http_done {S A : Type} cs status (m : HM S A) s s' a : or_http cs status m s = (s', Done a) -> m s = (s', Done a).
Proof. unfold or_http. destruct (m s) as [s1 [x|st d|x]]; try done. by destruct (catches cs x). Qed.

Lemma execute_done k envs authorization e (s s' : State) reply :
  execute_routed_agent as_bytes dash agents k envs authorization e s = (s', Done reply) ->
  exists user plans records s1, (forall u, user = Some u -> se_user_id e = user_id_of u) /\
    router_plan (service_agents agents s) (se_prompt e) None = Ok plans /\
    reply = execution_response (route (service_agents agents s) (se_prompt e)) plans records /\
    untouched s s1 /\ run_plans as_bytes dash agents envs 0 e user None plans s1 = (s', Done records).
Proof.
  unfold execute_routed_agent. intros (s1 & user & E1 & E)%hm_done. apply envelope_user_state in E1 as [-> Huser].
  apply hm_done in E as (s2 & [] & E2 & E). apply require_verified_inv in E2 as [Hu _]; [|intros v; cbn beta; walk].
  assert (service_agents agents s2 = service_agents agents s) as Hag.
  { unfold service_agents. by destruct Hu as (_ & _ & _ & _ & _ & _ & ->). }
  done_inv. rewrite Hag in *. destruct (negb _); [done|]. done_inv.
  apply or_http_done, calls_done in E0 as [-> E0]. rewrite Hag in E0.
  assert (s1 = s2) as ->.
  { unfold require_registry in E1. done_inv. by destruct (key_registry s2); [injection E1|]. }
  exists user, a, a1, s2. split_and!; [|done..].
  intros u ->. destruct Huser as [?|[(v & [= ->] & _ & ->)|Hno]]; [done|done|by destruct (Hno (Some u))].
Qed.

(** C2. A request that ran its agents to a reply: the steps run are those planned, in order, each on
    the result of the one before, up to the first failure, and the reply lists them; every one
    of them has left three entries in the ledger, a signed proof that commits the prompt, the
    payload it ran with and the ledger up to its entries, the evidence of it in memory and in the
    database, and a row among its user's prompts. *)
Theorem execution_recorded `{!CryptographyLaws} k envs authorization e (s s' : State) reply l :
  execute_routed_agent as_bytes dash agents k envs authorization e s = (s', Done reply) ->
  sv_ledgers s !! service_ledger = Some l ->
  exists plans records, router_plan (service_agents agents s) (se_prompt e) None = Ok plans /\
    reply = execution_response (route (service_agents agents s) (se_prompt e)) plans records /\
    executed None plans records /\ Forall (recorded s' e) records /\
    exists new, length new = (3 * length records)%nat /\ sv_ledgers s' !! service_ledger = Some (l ++ new).
Proof.
  intros (user & plans & records & s1 & Hu & Ep & Er & Ht & E)%execute_done El.
  assert (sv_ledgers s1 !! service_ledger = Some l) as E1 by by destruct Ht as (_ & _ & -> & _).
  eapply run_plans_done in E as (Hx & _ & Hall & Hnew); [|done..]. by exists plans, records.
Qed.

(** What a whole request does, however it ends. *)
Lemma execute_work k envs authorization e (s s' : State) o :
  execute_routed_agent as_bytes dash agents k envs authorization e s = (s', o) -> rtc (work_step (may_run s e)) s s'.
Proof.
  intros E. unfold execute_routed_agent in E. apply hm_bind in E as (s1 & o1 & E1 & E). apply envelope_user_state in E1 as [-> _].
  destruct o1 as [user| |]; [|by destruct E as [-> _]..].
  apply hm_bind in E as (s2 & o2 & E2 & E). apply require_verified_inv in E2 as [Hu _]; [|intros v; cbn beta; walk].
  assert (sv_world s2 = sv_world s) as Hw by apply Hu.
  eapply rtc_l; [apply work_kept; unfold agents_work; by rewrite Hw|]. destruct o2 as [[]| |]; [|by destruct E as [-> _]..].
  assert (service_agents agents s2 = service_agents agents s) as Hag by (unfold service_agents; by rewrite Hw).
  apply hm_bind in E as (s3 & o3 & [= <- <-] & E). destruct (negb _); [by injection E as <- _|].
  apply hm_bind in E as (s4 & o4 & E4 & E). unfold or_http, calls in E4. rewrite Hag in E4.
  destruct (router_plan _ _ _) as [plans|x] eqn:Ep; [|cbn [answer] in E4; destruct (catches [KeyError; TypeError; ValueError] x); injection E4 as <- <-; by destruct E as [-> _]].
  injection E4 as <- <-. apply hm_bind in E as (s5 & o5 & E5 & E).
  assert (s5 = s2) as ->. { revert E5. unfold require_registry, mbind, HM_bind, asks. by destruct (key_registry s2); intros [= <- _]. }
  destruct o5 as [[]| |]; [|by destruct E as [-> _]..]. apply hm_bind in E as (s6 & o6 & E6 & E).
  apply run_plans_work with (P := may_run s e) in E6.
  { destruct o6; [injection E as <- _|destruct E as [-> _]..]; done. }
  intros p payload Hp Hc. exists plans, p, payload. split_and!; [done..| |]; cbn;
    pose proof (service_plans_guarded _ _ _ _ Ep) as Hg; rewrite Forall_forall in Hg; destruct (Hg _ Hp) as [Hn Hd]; rewrite Hn, andb_true_r in Hc;
    [done|]. intros Hty. by rewrite (Hd Hty) in Hc.
Qed.

(** A request whose first step must be confirmed. *)
Lemma unconfirmed_refused k envs authorization e (s s' s1 : State) o plan rest user :
  execute_routed_agent as_bytes dash agents k envs authorization e s = (s', o) ->
  router_plan (service_agents agents s) (se_prompt e) None = Ok (plan :: rest) -> ap_requires_confirmation plan = true ->
  envelope_user (pk_session k) authorization e s = (s, Done user) ->
  require_verified k e (fun _ => mret tt) s = (s1, Done tt) -> key_registry s1 ≠ None ->
  o = HTTPException 409 (JObj [("reason", JStr "confirmation_required"); ("plan", plan_json plan)]) /\ s' = s1 /\ untouched s s'.
Proof.
  intros E Ep Hq Eu Ev Hk. pose proof (service_plans_guarded _ _ _ _ Ep) as Hg. apply Forall_cons in Hg as [[Hc _] _].
  pose proof Ev as Hu. apply require_verified_inv in Hu as [Hu _]; [|intros v; cbn beta; walk].
  assert (service_agents agents s1 = service_agents agents s) as Hag by (unfold service_agents; by destruct Hu as (_&_&_&_&_&_&->)).
  unfold execute_routed_agent in E. apply hm_bind in E as (s2 & o2 & E2 & E). rewrite Eu in E2. injection E2 as <- <-.
  apply hm_bind in E as (s2 & o2 & E2 & E). rewrite Ev in E2. injection E2 as <- <-.
  apply hm_bind in E as (s2 & o2 & [= <- <-] & E). rewrite Hag in E. pose proof Ep as Er. unfold router_plan in Er. destruct (negb _); [done|].
  apply hm_bind in E as (s2 & o2 & E2 & E). unfold or_http, calls in E2. rewrite Hag, Ep in E2. injection E2 as <- <-.
  apply hm_bind in E as (s2 & o2 & E2 & E). unfold require_registry in E2. apply hm_bind in E2 as (s3 & o3 & [= <- <-] & E2).
  destruct (key_registry s1); [|done]. injection E2 as <- <-. apply hm_bind in E as (s2 & o2 & E2 & E). cbn [run_plans] in E2.
  apply hm_bind in E2 as (s3 & o3 & E3 & E2). unfold execute_step in E3. rewrite Hq, Hc in E3. injection E3 as <- <-.
  destruct E2 as [-> ->], E as [-> ->]. by split_and!.
Qed.

(** C14. Nothing that needs a confirmation runs.  However a request to run agents ends, with a
    reply, a refusal or an escaping exception, the workspace, the outbox and the databases change
    only by the executions of steps the router planned that need no confirmation and delete no
    file.  A request with a step that must be confirmed is never answered as completed; when that
    step is the first, an accepted request is answered 409 [confirmation_required] with that plan,
    and nothing but nonces and the log has changed. *)
Theorem confirmation_enforced k envs authorization e (s s' : State) o :
  execute_routed_agent as_bytes dash agents k envs authorization e s = (s', o) ->
  rtc (work_step (may_run s e)) s s' /\
  forall plans plan, router_plan (service_agents agents s) (se_prompt e) None = Ok plans -> plan ∈ plans -> ap_requires_confirmation plan = true ->
    (forall reply, o = Done reply -> exists fields, reply = JObj (("status", JStr "agent_action_failed") :: fields)) /\
    (forall rest user s1, plans = plan :: rest -> envelope_user (pk_session k) authorization e s = (s, Done user) ->
       require_verified k e (fun _ => mret tt) s = (s1, Done tt) -> key_registry s1 ≠ None ->
       o = HTTPException 409 (JObj [("reason", JStr "confirmation_required"); ("plan", plan_json plan)]) /\ s' = s1 /\ untouched s s').
Proof.
  intros E. split; [by eapply execute_work|]. intros plans plan Ep Hin Hq. split.
  - intros reply ->. apply execute_done in E as (user & plans' & records & s1 & _ & Ep' & -> & _ & E). rewrite Ep in Ep'. injection Ep' as <-.
    pose proof (service_plans_guarded _ _ _ _ Ep) as Hg. rewrite Forall_forall in Hg. destruct (Hg _ Hin) as [Hc _].
    apply run_plans_ran in E. unfold execution_response. rewrite (executed_stops _ _ _ _ E Hin Hq Hc), andb_false_r. eauto.
  - intros rest user s1 -> Eu Ev Hk. by eapply unconfirmed_refused.
Qed.

(** ** Two consequences of the code as it is *)

(** An envelope once accepted runs its agents again whenever it is submitted: its nonce, its
    timestamp and the state of its key are not looked at any more. *)
Lemma accepted_envelope_runs_again k e rejected (s : State) :
  e ∈ sv_verified_envelopes s -> require_verified k e rejected s = (s, Done tt).
Proof. intros He%verified_before_spec. unfold require_verified, mbind, HM_bind, asks. by rewrite He. Qed.

(** The audit agent plans no step of its own without an action identifier, so the handler never
    passes it the action of the step before. *)
Lemma audit_chaining_unreachable self request p previous :
  audit_plan self request None = Ok p -> chained_payload p previous = ap_payload p.
Proof.
  intros E. assert (ap_action_type p ≠ "file.create" /\ (ap_action_type p ∈ trace_actions -> falsy_item "action_id" (ap_payload p) = false)) as [Hn Hf].
  { unfold audit_plan in E. inv_result. set (ty := audit_action_type_from_request request) in *.
    match goal with E : negb (bool_decide (_ ∈ audit_capabilities)) = false |- _ => apply negb_false_iff, bool_decide_eq_true in E as Hcap end.
    unfold ActionPlan_init in E. case_match; [|done]. injection E as <-. cbn. split.
    - intros Hty. rewrite Hty in Hcap. contradict Hcap. by apply (bool_decide_eq_false_1 _).
    - intros Ht. match goal with E : (if bool_decide (ty ∈ id_actions) then _ else _) = Ok _ |- _ =>
        rewrite bool_decide_eq_true_2 in E by (revert Ht; unfold trace_actions, id_actions; set_solver); inv_result end.
      done. }
  unfold chained_payload. destruct previous as [r|]; [|done]. rewrite (bool_decide_eq_false_2 _ Hn). cbn [andb].
  destruct (decide (ap_action_type p ∈ trace_actions)) as [Ht|Ht].
  - rewrite (Hf Ht), !andb_false_r. done.
  - rewrite (bool_decide_eq_false_2 _ Ht), !andb_false_r. done.
Qed.

End Execution.

(** ** The request of [ServiceSafety.v], run *)

Section Witnesses.
#[local] Existing Instance demo_hashlib.
#[local] Existing Instance demo_rfc8785.
#[local] Existing Instance demo_cryptography.
#[local] Existing Instance demo_cryptography_laws.
#[local] Existing Instance demo_sqlite.
#[local] Existing Instance demo_poi_model.
#[local] Existing Instance demo_envelope_model.
#[local] Existing Instance demo_rfc3161.
#[local] Existing Instance demo_email_lib.
#[local] Existing Instance demo_pbkdf2.
#[local] Existing Instance demo_diff.
#[local] Existing Instance demo_sqlite3.

(** The service after the prompt was accepted. *)
Definition demo_accepted : ServiceState World := served demo_as_bytes "-" demo_agents (take 2 demo_requests) demo_service.

Definition demo_run_agents : ServiceState World * outcome json :=
  execute_routed_agent demo_as_bytes "-" demo_agents demo_prompt_clock demo_step_env "" demo_request_envelope demo_accepted.

Definition replied (o : outcome json) : bool := match o with Done _ => true | _ => false end.

Lemma demo_agents_reply : exists s' reply, demo_run_agents = (s', Done reply).
Proof.
  assert (replied demo_run_agents.2 = true) as E by (vm_compute; reflexivity).
  destruct demo_run_agents as [s' [reply| |]]; [eauto|discriminate E..].
Qed.

Lemma demo_accepted_ledger : sv_ledgers demo_accepted !! service_ledger = Some [].
Proof. vm_compute. reflexivity. Qed.

Lemma execution_recorded_witness :
  exists s' plans records new, router_plan (service_agents demo_agents demo_accepted) (se_prompt demo_request_envelope) None = Ok plans /\
    executed None plans records /\ Forall (recorded s' demo_request_envelope) records /\
    sv_ledgers s' !! service_ledger = Some new /\ length new = (3 * length records)%nat.
Proof.
  destruct demo_agents_reply as (s' & reply & E). unfold demo_run_agents in E.
  destruct (execution_recorded demo_as_bytes "-" demo_agents demo_prompt_clock demo_step_env "" demo_request_envelope demo_accepted s' reply []
    E demo_accepted_ledger) as (plans & records & Hp & _ & Hx & Hr & new & Hn & Hl).
  exists s', plans, records, new. split_and!; [exact Hp|exact Hx|exact Hr|exact Hl|exact Hn].
Defined.

(** A service whose workspace holds a file, asked to delete it, and asked to do so after another
    step; both prompts were accepted before. *)
Definition demo_notes : path := ["ws"; "notes.txt"].

Definition demo_delete (prompt : string) : SignedEnvelope :=
  mkSignedEnvelope prompt "usr_r1" "s1" "2026-01-01T00:00:00Z" "n8" "" "k1" default_signature_algorithm.

Definition demo_holding (e : SignedEnvelope) : ServiceState World :=
  let s := demo_service in
  mkServiceState (sv_database s) (sv_keys s) (sv_nonces s) (sv_operations s) (sv_ledgers s) [e] (sv_evidence s) (sv_anchors s)
    (with_fs demo_world (<[demo_notes := NFile (utf8_encode "keep me")]> (wd_fs demo_world))).

Definition demo_run_delete (prompt : string) : ServiceState World * outcome json :=
  execute_routed_agent demo_as_bytes "-" demo_agents demo_prompt_clock demo_step_env "" (demo_delete prompt) (demo_holding (demo_delete prompt)).

Definition demo_delete_plan : ActionPlan :=
  mkActionPlan "file" (Some "file-agent") "file.delete" [("path", JStr "notes.txt")] true false "allow".

Definition demo_two_steps : string := "Create file other.txt content: hello then delete file notes.txt".

Lemma demo_run_delete_runs prompt :
  execute_routed_agent demo_as_bytes "-" demo_agents demo_prompt_clock demo_step_env "" (demo_delete prompt) (demo_holding (demo_delete prompt))
  = ((demo_run_delete prompt).1, (demo_run_delete prompt).2).
Proof. exact (surjective_pairing (demo_run_delete prompt)). Qed.

Lemma demo_holding_accepts prompt :
  envelope_user (W := World) demo_wall "" (demo_delete prompt) (demo_holding (demo_delete prompt)) = (demo_holding (demo_delete prompt), Done None) /\
  require_verified demo_prompt_clock (demo_delete prompt) (fun _ => mret tt) (demo_holding (demo_delete prompt))
    = (demo_holding (demo_delete prompt), Done tt) /\
  key_registry (demo_holding (demo_delete prompt)) ≠ None.
Proof.
  split; [|split].
  - reflexivity.
  - apply accepted_envelope_runs_again. by left.
  - assert (bool_decide (key_registry demo_service = None) = false) as E by (vm_compute; reflexivity).
    exact (bool_decide_eq_false_1 _ E).
Qed.

(** The deletion is answered 409 and the file stays; in the request with two steps the first one
    ran, and the file stays too. *)
Lemma confirmation_enforced_witness :
  (demo_run_delete "Delete file notes.txt").2
    = HTTPException 409 (JObj [("reason", JStr "confirmation_required"); ("plan", plan_json demo_delete_plan)]) /\
  wd_fs (sv_world (demo_run_delete "Delete file notes.txt").1) !! demo_notes = Some (NFile (utf8_encode "keep me")) /\
  let e := demo_delete demo_two_steps in
  rtc (work_step demo_as_bytes "-" demo_agents (may_run demo_agents (demo_holding e) e)) (demo_holding e) (demo_run_delete demo_two_steps).1 /\
  wd_fs (sv_world (demo_run_delete demo_two_steps).1) !! demo_notes = Some (NFile (utf8_encode "keep me")) /\
  wd_fs (sv_world (demo_run_delete demo_two_steps).1) !! ["ws"; "other.txt"] = Some (NFile (utf8_encode "hello")).
Proof.
  pose proof (fun prompt => confirmation_enforced demo_as_bytes "-" demo_agents demo_prompt_clock demo_step_env "" _ _ _ _
    (demo_run_delete_runs prompt)) as Hrun.
  destruct (Hrun "Delete file notes.txt") as [_ Hone].
  destruct (Hone [demo_delete_plan] demo_delete_plan) as [_ Hfirst]; [vm_compute; reflexivity|by left|reflexivity|].
  destruct (demo_holding_accepts "Delete file notes.txt") as (Eu & Ev & Hk).
  destruct (Hfirst [] None (demo_holding (demo_delete "Delete file notes.txt")) eq_refl Eu Ev Hk) as (Ho & _ & Hu).
  destruct (Hrun demo_two_steps) as [Hwork _].
  split; [exact Ho|split].
  - destruct Hu as (_ & _ & _ & _ & _ & _ & Hw). rewrite Hw. vm_compute. reflexivity.
  - intros e. split; [exact Hwork|]. split; vm_compute; reflexivity.
Defined.
End Witnesses.
