(* ===== verification/CliSafety.v ===== *)
(** * What the exit code of the command line says

    The loop of [Cli.v] as a relation between states: each plan is denied, has its envelope
    rejected, runs and fails, or runs to a valid trace and lets the next one start, and what ran
    is what the agent, the portal and the output say; so that the code 0 stands for the success
    of all of them.  A plan that needs a confirmation only runs with one. *)

From S2P Require Import Prelude PyStr Base64 Json JsonText PyTime Crypto Instances Ledger Merkle Sql Verifier Registry Client.
From S2P Require Import Poi AgentBase Executor Tsa Evidence Portal Regex Router EmailAgent FileSystem StateMonad FileAgent.
From S2P Require Import DatabaseAgent AuditAgent Accounts Service AgentService Cli ServiceSafety Execution.

#[local] Open Scope Z_scope.

Section CliSafety.
Context `{Hashlib, Rfc8785, Cryptography, !EcSigning, Sqlite, EmailLib, EnvelopeModel, PoiModel, Rfc3161, Difflib, SqliteConnection}.
Context {P : Type} `{!EvidencePersistence P}.
Variable as_bytes : EmailMessage -> bytes.
Variable dash : string.
Variable cwd : path.

(** ** The runs of the loop *)

(** The plan of a step, as run after [previous]. *)
Definition prepared (previous : option ActionResult) (plan : ActionPlan) : ActionPlan :=
  with_report previous (if ap_requires_confirmation plan then confirmed_plan plan else plan).

Definition approved (yes : bool) (env : CliEnv) (plan : ActionPlan) : Prop :=
  ap_requires_confirmation plan = true -> approval yes env plan = Ok true.

(** The envelope of a step carries the request, and its proof commits the request and the
    payload as run, and names the action and the decision. *)
Definition step_bound (request : string) (st : CliStep) : Prop :=
  se_prompt (st_envelope st) = request /\
  hash_hex (JObj [("prompt", JStr request)]) = Ok (poi_user_prompt_hash (st_poi st)) /\
  hash_hex (JObj (ap_payload (st_plan st))) = Ok (poi_action_payload_hash (st_poi st)) /\
  poi_action_type (st_poi st) = Some (ap_action_type (st_plan st)) /\
  poi_policy_decision (st_poi st) = Some (ap_policy_decision (st_plan st)).

Definition step_good (st : CliStep) : bool := ar_success (st_result st) && vt_overall_valid (st_trace st).

(** What the command prints for a step. *)
Definition step_output (st : CliStep) : output :=
  Dump (JObj [("action_result", result_json (st_result st)); ("verification", trace_json (st_trace st))]).
Definition denial_output : output := Dump (JObj [("status", JStr "cancelled"); ("reason", JStr "confirmation_denied")]).
Definition rejection_output (v : VerificationResult) : output :=
  Dump (JObj [("status", JStr "rejected"); ("reason", opt_str (vr_reason v))]).

Abbreviation State := (CliState (P := P)).

Definition with_output (o : output) (s : State) : State :=
  mkCliState (cs_fs s) (cs_keys s) (cs_nonces s) (cs_evidence s) (cs_output s ++ [o]).

(** The verifier's answer to an envelope, in a state. *)
Definition stage4 (env : CliEnv) (s : State) (e : SignedEnvelope) (n : NonceStore) (v : VerificationResult) : Prop :=
  verify_envelope freshness_seconds (ce_verify env) (ce_key_now env, cs_keys s) (cs_nonces s) e = (n, Ok v).

(** The evidence [ev] of a step, over its own ledger in the store [e]. *)
Definition step_evidence (env : CliEnv) (request id : string) (st : CliStep) (ev : ActionEvidence) (e : EvidenceState P) : Prop :=
  exists loc ledger, cli_ledger env request (st_plan st) = Ok ledger /\ ledger_at (es_ledgers e) loc = ledger /\
    ev = mkActionEvidence id (st_envelope st) cli_system_prompt loc (Z.of_nat (length ledger)) None
      (Some (st_poi st)) (Some (ap_action_type (st_plan st))) (Some (ap_payload (st_plan st))) (Some (ar_observed_effect (st_result st))) None.

(** What a step that ran from [s] to [s'] did: its envelope was accepted, its result is what the
    agent answered to the plan and the proof, its evidence was put into the store the agent left,
    its trace is what the portal answered on that store, result and trace are printed, and
    nothing else is. *)
Record step_ran (a : CliAgents) (env : CliEnv) (request : string) (plan : ActionPlan) (s s' : State) (st : CliStep) : Prop := {
  ss_plan : st_plan st = plan;
  ss_bound : step_bound request st;
  ss_accepted : exists v, stage4 env s (st_envelope st) (cs_nonces s') v /\ vr_valid v = true;
  ss_executed : exists s1 s2 e ev, let id := or_str (ar_artifact_ref (st_result st)) ("cli-" +:+ ce_uuid4 env) in
    cs_evidence s1 = cs_evidence s /\ cli_execute as_bytes dash cwd a env plan (st_poi st) s1 = (s2, Ok (st_result st)) /\
    cs_fs s' = cs_fs s2 /\ step_evidence env request id st ev e /\ es_evidence e = dict_set id ev (es_evidence (cs_evidence s2)) /\
    run_verification (cli_pipeline_env (cs_keys s') (ce_pipeline env)) e None (Some id) = (cs_evidence s', Ok (st_trace st));
  ss_printed : cs_output s' = cs_output s ++ [step_output st];
}.

(** The envelope of a step was rejected: only its nonce and what is printed change. *)
Definition step_rejected (env : CliEnv) (request : string) (s s' : State) : Prop :=
  exists e n v, se_prompt e = request /\ stage4 env s e n v /\ vr_valid v = false /\
    s' = with_output (rejection_output v) (mkCliState (cs_fs s) (cs_keys s) n (cs_evidence s) (cs_output s)).

(** The runs of the loop from a state to a state, with the steps that ran and the exit code. *)
Inductive cli_run (a : CliAgents) (yes : bool) (envs : nat -> CliEnv) (request : string)
    : nat -> option ActionResult -> list ActionPlan -> State -> list CliStep -> State -> Z -> Prop :=
| cli_done i previous s : cli_run a yes envs request i previous [] s [] s 0
| cli_denied i previous plan rest s :
    ap_requires_confirmation plan = true -> approval yes (envs i) plan = Ok false ->
    cli_run a yes envs request i previous (plan :: rest) s [] (with_output denial_output s) 1
| cli_rejected i previous plan rest s s' :
    approved yes (envs i) plan -> step_rejected (envs i) request s s' -> cli_run a yes envs request i previous (plan :: rest) s [] s' 1
| cli_failed i previous plan rest s s' st :
    approved yes (envs i) plan -> step_ran a (envs i) request (prepared previous plan) s s' st -> step_good st = false ->
    cli_run a yes envs request i previous (plan :: rest) s [st] s' 1
| cli_stepped i previous plan rest s s1 s' st steps code :
    approved yes (envs i) plan -> step_ran a (envs i) request (prepared previous plan) s s1 st -> step_good st = true ->
    cli_run a yes envs request (S i) (Some (st_result st)) rest s1 steps s' code ->
    cli_run a yes envs request i previous (plan :: rest) s (st :: steps) s' code.

(** The code 0 is the success of every plan. *)
Lemma cli_run_zero a yes envs request i previous plans s steps s' code :
  cli_run a yes envs request i previous plans s steps s' code ->
  (code = 0 <-> length steps = length plans /\ Forall (fun st => step_good st = true) steps) /\ (code = 0 \/ code = 1).
Proof.
  induction 1 as [| | |? ? ? ? ? ? ? ? ? Hg|? ? ? ? ? ? ? ? ? ? ? ? Hg _ [[IH1 IH2] IHc]].
  - split; [|by left]. split; [|done]. by split; [|constructor].
  - split; [|by right]. by split; [|intros [? _]].
  - split; [|by right]. by split; [|intros [? _]].
  - split; [|by right]. split; [done|]. intros [_ Hf]. apply Forall_cons in Hf as [Hf _]. congruence.
  - split; [|done]. split.
    + intros [Hl Hf]%IH1. split; [cbn; by rewrite Hl|by constructor].
    + intros [Hl Hf]. apply Forall_cons in Hf as [_ Hf]. apply IH2. split; [by injection Hl|done].
Qed.

(** What is printed: the result and the verdict of every step that ran, in order, and then the
    denial or the rejection that stopped the run, if one did. *)
Definition stopped_by (code : Z) (o : option output) : Prop :=
  match o with
  | None => True
  | Some o => code = 1 /\ (o = denial_output \/ exists v, vr_valid v = false /\ o = rejection_output v)
  end.

Lemma cli_run_output a yes envs request i previous plans s steps s' code :
  cli_run a yes envs request i previous plans s steps s' code ->
  exists stop, stopped_by code stop /\ cs_output s' = cs_output s ++ (step_output <$> steps) ++ option_list stop.
Proof.
  induction 1 as [| |? ? ? ? ? ? _ (e & n & v & _ & _ & Hv & ->)|? ? ? ? ? ? ? _ Hr _|? ? ? ? ? ? ? ? ? ? _ Hr _ _ (stop & Hs & IH)].
  - exists None. by rewrite app_nil_r.
  - exists (Some denial_output). split; [|done]. split; [done|by left].
  - exists (Some (rejection_output v)). split; [|done]. split; [done|right; eauto].
  - exists None. by rewrite (ss_printed _ _ _ _ _ _ _ Hr).
  - exists stop. split; [done|]. by rewrite IH, (ss_printed _ _ _ _ _ _ _ Hr), <- app_assoc.
Qed.

(** ** One step *)

Lemma with_report_action previous plan : ap_action_type (with_report previous plan) = ap_action_type plan.
Proof.
  unfold with_report. destruct previous as [r|]; [|done]. destruct (_ && _); [|done].
  by destruct (dict_get "report_markdown" (ar_details r)) as [[]|].
Qed.

Lemma prepared_action previous plan : ap_action_type (prepared previous plan) = ap_action_type plan.
Proof. unfold prepared. rewrite with_report_action. by destruct (ap_requires_confirmation plan). Qed.

Lemma sign_envelope_prompt random key prompt uid sid ts nonce id e :
  sign_envelope random key prompt uid sid ts nonce id = Ok e -> se_prompt e = prompt.
Proof.
  unfold sign_envelope, SignedEnvelope_init. destruct (sign_user_payload _ _ _); cbn [mbind result_bind]; [|done].
  destruct (forallb _ _); [|done]. by intros [= <-].
Qed.

(** Takes a run of the loop that returned apart. *)
Ltac ok_inv :=
  repeat (cbn beta in *; match goal with
  | E : mbind _ _ _ = (_, Ok _) |- _ =>
      let s := fresh "s" in let a := fresh "a" in let E1 := fresh "E" in apply bind_ok in E as (a & s & E1 & E)
  | E : mret _ _ = (_, Ok _) |- _ => injection E as <- <-
  | E : lift _ _ = (_, Ok _) |- _ => injection E as <- E
  | E : reads _ _ = (_, Ok _) |- _ => injection E as <- E
  end).

Lemma on_fs_ok {A : Type} (m : FM A) (s s' : State) a :
  on_fs m s = (s', Ok a) ->
  m (cs_fs s) = (cs_fs s', Ok a) /\ s' = mkCliState (cs_fs s') (cs_keys s) (cs_nonces s) (cs_evidence s) (cs_output s).
Proof. unfold on_fs. destruct (m (cs_fs s)) as [fs r]. by intros [= <- <-]. Qed.

(** The parts of the state a computation leaves. *)
Definition keeps_print (s s' : State) : Prop := cs_output s' = cs_output s /\ cs_nonces s' = cs_nonces s.

Lemma on_fs_keeps {A : Type} (m : FM A) (s s' : State) r : on_fs m s = (s', r) ->
  keeps_print s s' /\ cs_keys s' = cs_keys s /\ cs_evidence s' = cs_evidence s.
Proof. unfold on_fs. destruct (m (cs_fs s)) as [fs x]. by intros [= <- <-]. Qed.

Lemma on_store_keeps {A : Type} (f : EvidenceState P -> EvidenceState P * result A) (s s' : State) r :
  on_store f s = (s', r) -> keeps_print s s' /\ cs_keys s' = cs_keys s /\ cs_fs s' = cs_fs s /\ f (cs_evidence s) = (cs_evidence s', r).
Proof. unfold on_store. destruct (f (cs_evidence s)) as [e x]. by intros [= <- <-]. Qed.

Lemma on_keys_keeps {A : Type} (f : KeyTable -> result (KeyTable * A)) (s s' : State) r : on_keys f s = (s', r) ->
  keeps_print s s' /\ cs_fs s' = cs_fs s /\ cs_evidence s' = cs_evidence s.
Proof. unfold on_keys. destruct (f (cs_keys s)) as [[t x]|]; by intros [= <- <-]. Qed.

Lemma cli_keypair_keeps a env id (s s' : State) r : cli_keypair a env id s = (s', r) ->
  keeps_print s s' /\ cs_evidence s' = cs_evidence s.
Proof.
  unfold cli_keypair. destruct (key_file _ _); [|by intros [= <- _]]. unfold mbind, SM_bind, lift. by intros (? & _ & ?)%on_fs_keeps.
Qed.

Lemma cli_execute_keeps a env plan poi (s s' : State) r :
  cli_execute as_bytes dash cwd a env plan poi s = (s', r) -> keeps_print s s' /\ cs_keys s' = cs_keys s.
Proof.
  unfold cli_execute. case_bool_decide; [by intros (? & ? & _)%on_fs_keeps|]. case_bool_decide; [by intros (? & ? & _)%on_fs_keeps|].
  case_bool_decide; [|by intros [= <- _]]. by intros (? & ? & _)%on_store_keeps.
Qed.

(** The evidence is in the store, over its ledger. *)
Lemma cli_register_done l ev (s s' : State) u :
  (forall loc, ev_ledger (ev loc) = loc) -> cli_register l ev s = (s', Ok u) ->
  keeps_print s s' /\ cs_keys s' = cs_keys s /\ cs_fs s' = cs_fs s /\
  exists loc, ledger_at (es_ledgers (cs_evidence s')) loc = l /\
    es_evidence (cs_evidence s') = dict_set (ev_action_id (ev loc)) (ev loc) (es_evidence (cs_evidence s)).
Proof.
  intros Hev. unfold cli_register. intros (Hk & Hkeys & Hf & E)%on_store_keeps. split_and!; [done..|]. cbv zeta in E.
  exists (fresh_loc (cs_evidence s)). revert E. unfold evidence_register. cbn [es_persistence es_evidence es_ledgers].
  destruct (es_persistence (cs_evidence s)) as [p|]; [destruct (save_action_evidence _ _ _) as [p'|]|]; intros [= <-];
    (split; [unfold ledger_at; cbn [es_ledgers]; by rewrite lookup_insert_eq|done]).
Qed.

(** The envelope and the proof of a step are bound to the request and the plan. *)
Lemma cli_bound now uuid random key request plan ts nonce sys l model aid poi akey e r tr :
  sign_envelope random key request "cli-user" "cli-session" ts nonce "cli-user-key" = Ok e ->
  (poi ← build_poi now uuid request sys l (JObj (ap_payload plan)) model
     (mkPoiIdentity (Some (ap_agent_type plan)) aid (Some (ap_action_type plan)) (Some (ap_policy_decision plan))); sign_poi poi akey) = Ok poi ->
  step_bound request (mkCliStep plan e poi r tr).
Proof.
  intros Ee E. destruct (build_poi _ _ _ _ _ _ _ _) as [poi0|] eqn:Eb; [|done]. cbn [mbind result_bind] in E.
  apply sign_poi_inv in E as (id & h & _ & _ & ->).
  apply build_poi_inv in Eb as (_ & _ & _ & _ & _ & Ep & _ & Eh & _ & _ & _ & _ & _ & _ & Ea & Ed & _).
  split_and!; [by eapply sign_envelope_prompt|done..].
Qed.

(** A step that ran. *)
Lemma cli_act_ran a env key request plan (s s' : State) st :
  cli_act as_bytes dash cwd a env key request plan s = (s', Ok (Some st)) -> step_ran a env request plan s s' st.
Proof.
  unfold cli_act. intros E. apply bind_ok in E as (e & s0 & E0 & E). injection E0 as <- Ee.
  apply bind_ok in E as (v & s1 & E1 & E). destruct (verify_envelope _ _ _ _ _) as [n r] eqn:Ev. injection E1 as <- ->.
  destruct (vr_valid v) eqn:Hv; cbn [negb] in E; [|ok_inv; done].
  apply bind_ok in E as (l & s2 & E2 & E). injection E2 as <- El. apply bind_ok in E as (ak & s3 & [K3 V3]%cli_keypair_keeps & E).
  apply bind_ok in E as (rec & s4 & (K4 & _ & V4)%on_keys_keeps & E). apply bind_ok in E as (poi & s5 & E5 & E). injection E5 as <- Epoi.
  apply bind_ok in E as (result & s6 & E6 & E). pose proof (cli_execute_keeps _ _ _ _ _ _ _ E6) as [K6 _].
  apply bind_ok in E as ([] & s7 & E7 & E). apply cli_register_done in E7 as (K7 & Hk7 & Hf7 & loc & Hl & Hd); [|done].
  apply bind_ok in E as (tr & s8 & E8 & E). apply on_store_keeps in E8 as (K8 & Hk8 & Hf8 & E8).
  apply bind_ok in E as ([] & s9 & E9 & E). injection E9 as <-. injection E as <- <-.
  destruct K3 as [O3 N3], K4 as [O4 N4], K6 as [O6 N6], K7 as [O7 N7], K8 as [O8 N8]. cbn [cs_output cs_nonces] in *.
  split; cbn [cs_fs cs_keys cs_nonces cs_evidence cs_output st_plan st_envelope st_poi st_result st_trace].
  - done.
  - by eapply cli_bound.
  - exists v. split; [|done]. unfold stage4. rewrite Ev. congruence.
  - exists s4, s6, (cs_evidence s7). eexists. split; [by rewrite V4, V3|]. split; [done|]. split; [congruence|].
    split; [exists loc, l; by split_and!|]. split; [exact Hd|]. rewrite Hk8. exact E8.
  - unfold step_output. cbn. congruence.
Qed.

(** A step whose envelope was rejected. *)
Lemma cli_act_rejected a env key request plan (s s' : State) :
  cli_act as_bytes dash cwd a env key request plan s = (s', Ok None) -> step_rejected env request s s'.
Proof.
  unfold cli_act. intros E. apply bind_ok in E as (e & s0 & E0 & E). injection E0 as <- Ee.
  apply bind_ok in E as (v & s1 & E1 & E). destruct (verify_envelope _ _ _ _ _) as [n r] eqn:Ev. injection E1 as <- ->.
  destruct (vr_valid v) eqn:Hv; cbn [negb] in E; [ok_inv; done|].
  apply bind_ok in E as ([] & s9 & E9 & E). injection E9 as <-. injection E as <-.
  exists e, n, v. split_and!; [by eapply sign_envelope_prompt|exact Ev|done|done].
Qed.

(** ** The loop *)

Lemma cli_plans_run a envs i key request yes previous plans (s s' : State) code :
  cli_plans as_bytes dash cwd a envs i key request yes previous plans s = (s', Ok code) ->
  exists steps, cli_run a yes envs request i previous plans s steps s' code.
Proof.
  revert i previous s. induction plans as [|plan rest IH]; intros i previous s; cbn [cli_plans]; intros E.
  - ok_inv. exists []. constructor.
  - apply bind_ok in E as (ap & s1 & E1 & E).
    assert (s1 = s /\ (ap_requires_confirmation plan = true -> approval yes (envs i) plan = Ok ap) /\ (ap = false -> ap_requires_confirmation plan = true))
      as (-> & Hap & Hreq).
    { destruct (ap_requires_confirmation plan); ok_inv; by split_and!. }
    destruct ap; cbn [negb] in E.
    + apply bind_ok in E as (st & s2 & E2 & E). destruct st as [st|]; [|ok_inv; exists []; eapply cli_rejected; [exact Hap|by eapply cli_act_rejected]].
      apply cli_act_ran in E2. destruct (negb _ || negb _) eqn:Eg.
      * ok_inv. exists [st]. eapply cli_failed; [exact Hap|exact E2|]. unfold step_good. by destruct (ar_success _), (vt_overall_valid _).
      * apply IH in E as [steps Hs]. exists (st :: steps). eapply cli_stepped; [exact Hap|exact E2| |exact Hs].
        unfold step_good. apply orb_false_iff in Eg as [->%negb_false_iff ->%negb_false_iff]. done.
    + apply bind_ok in E as ([] & s9 & E9 & E). injection E9 as <-. injection E as <- <-. exists []. apply cli_denied; [by apply Hreq|by apply Hap, Hreq].
Qed.

(** ** The command *)

(** The agents of [run_request], its file system once they are there. *)
Definition cli_ready (fs : FS) (workspace : string) (a : CliAgents) (fs' : FS) : Prop :=
  resolve fs cwd workspace = Ok (ca_workspace a) /\
  FileAgent_init cwd (path_str (ca_workspace a)) None "file-agent" fs = (fs', Ok (ca_file a)) /\
  eg_agent_id (ca_email a) = "email-agent" /\ sc_dry_run (eg_smtp_config (ca_email a)) = true /\ au_agent_id (ca_audit a) = "audit-agent".

(** What is printed before the loop. *)
Definition announced (route : RouteResult) (plans : list ActionPlan) : list output :=
  Dump (route_json route) :: Text "Action plans:" :: ((fun p => Dump (plan_json p)) <$> plans).

Lemma run_request_inv envs key now_from now request workspace yes fs (s' : State) code :
  run_request as_bytes dash cwd envs key now_from now request workspace yes (cli_start fs) = (s', Ok code) ->
  exists a fs', cli_ready fs workspace a fs' /\ let found := route (cli_agents a fs') request in
    ((rr_handled found = false /\ code = 2 /\ cs_fs s' = fs' /\ cs_output s' = [Dump (route_json found)]) \/
     exists plans steps s, rr_handled found = true /\ router_plan (cli_agents a fs') request None = Ok plans /\
       cs_fs s = fs' /\ cs_output s = announced found plans /\ cli_run a yes envs request 0 None plans s steps s' code).
Proof.
  unfold run_request. intros E. apply bind_ok in E as (ws & s0 & [E0 Es0]%on_fs_ok & E). injection E0 as Hs0 Ews.
  apply bind_ok in E as (fa & s1 & [Efa Es1]%on_fs_ok & E). cbn [cs_fs cli_start] in *. rewrite <- Hs0 in Efa.
  assert (cs_output s1 = []) as Ho1 by (rewrite Es1; cbn; by rewrite Es0).
  match type of E with context [cli_agents ?a _] => set (agents := a) in E end.
  apply bind_ok in E as (r & s2 & E2 & E). injection E2 as <- <-. apply bind_ok in E as ([] & s3 & E3 & E). injection E3 as <-.
  exists agents, (cs_fs s1). split; [by split_and!|]. set (found := route (cli_agents agents (cs_fs s1)) request) in *. cbv zeta. destruct (rr_handled found) eqn:Eh; cbn [negb] in E.
  - apply bind_ok in E as (plans & s4 & E4 & E). injection E4 as <- Ep. cbn [cs_fs] in Ep.
    apply bind_ok in E as ([] & s5 & E5 & E). injection E5 as <-. apply bind_ok in E as ([] & s6 & E6 & E). injection E6 as <-.
    apply bind_ok in E as (u & s7 & ([Ho _] & Hf & _)%on_keys_keeps & E). apply cli_plans_run in E as [steps Hr].
    right. exists plans, steps, s7. split_and!; [done|done|done| |exact Hr]. rewrite Ho. cbn. by rewrite Ho1.
  - ok_inv. left. split_and!; [done..|]. cbn. by rewrite Ho1.
Qed.

(** ** Confirmations *)

(** The plans of the command's agents ask for a confirmation before a deletion. *)
Lemma cli_plans_guarded a fs request context plans :
  router_plan (cli_agents a fs) request context = Ok plans -> Forall plan_guarded plans.
Proof.
  apply router_plans_guarded. intros x r c p Hx Ep. unfold cli_agents in Hx. rewrite !elem_of_cons in Hx.
  destruct Hx as [->|[->|[->|Hx]]]; cbn [ag_plan] in Ep.
  - by eapply email_plan_guarded.
  - eapply file_plan_guarded. rewrite <- Ep. apply surjective_pairing.
  - by eapply audit_plan_guarded.
  - by apply elem_of_nil in Hx.
Qed.

(** The user approves nothing. *)
Definition never_approves (envs : nat -> CliEnv) : Prop :=
  forall i question answer, ce_answer (envs i) question = Ok answer -> str_lower answer ≠ "y" /\ str_lower answer ≠ "yes".

Lemma never_approval envs i plan : never_approves envs -> approval false (envs i) plan ≠ Ok true.
Proof.
  intros Hn. unfold approval. destruct (ce_answer _ _) as [x|] eqn:E; cbn [mbind result_bind]; [|done].
  destruct (Hn _ _ _ E) as [Hy Hyes]. by rewrite !bool_decide_eq_false_2.
Qed.

Lemma cli_run_unapproved a envs request i previous plans s steps s' code :
  never_approves envs -> cli_run a false envs request i previous plans s steps s' code -> Forall plan_guarded plans ->
  Forall (fun st => ap_requires_confirmation (st_plan st) = false /\ ap_action_type (st_plan st) ≠ "file.delete") steps.
Proof.
  intros Hn. assert (forall i previous plan s s' st, approved false (envs i) plan -> step_ran a (envs i) request (prepared previous plan) s s' st ->
    plan_guarded plan -> ap_requires_confirmation (st_plan st) = false /\ ap_action_type (st_plan st) ≠ "file.delete") as Hstep.
  { intros j prev plan s0 s1 st Ha [-> _ _ _ _] [_ Hd]. assert (ap_requires_confirmation plan = false) as Hr.
    { destruct (ap_requires_confirmation plan) eqn:Er; [|done]. exfalso. by apply (never_approval _ _ _ Hn (Ha Er)). }
    rewrite prepared_action. split; [|intros E; by rewrite (Hd E) in Hr].
    unfold prepared. rewrite Hr. unfold with_report. destruct prev as [r|]; [|done]. destruct (_ && _); [|done].
    by destruct (dict_get "report_markdown" (ar_details r)) as [[]|]. }
  induction 1 as [| | |? ? ? ? ? ? ? Ha Hp|? ? ? ? ? ? ? ? ? ? Ha Hp ? _ IH]; intros Hg; [constructor..| |]; apply Forall_cons in Hg as [Hg Hgs].
  - constructor; [by eapply Hstep|constructor].
  - constructor; [by eapply Hstep|auto].
Qed.

(** ** Theorems *)

(** C18. What the exit code says.  A run of the command that ends answers 2 when no agent handles the
    request, and has printed the route alone.  Otherwise it goes through the plans in order: each
    is approved where it must be, has its envelope accepted, and is executed as planned but for
    the report of the step before; the result the agent answers and the trace the portal answers
    for the evidence of the step are what is printed of it.  The code is 0 if and only if every
    plan ran, each with a result that is a success and a trace that is valid; it is 1 at the first
    that was denied, rejected, unsuccessful or not verified.  The output is the route, the plans
    and one record for each step that ran, and the denial or the rejection that stopped it. *)
Theorem cli_exit_code envs key now_from now request workspace yes fs (s' : State) code :
  run_request as_bytes dash cwd envs key now_from now request workspace yes (cli_start fs) = (s', Ok code) ->
  exists a fs', cli_ready fs workspace a fs' /\ let found := route (cli_agents a fs') request in
    ((rr_handled found = false /\ code = 2 /\ cs_fs s' = fs' /\ cs_output s' = [Dump (route_json found)]) \/
     exists plans steps s stop, rr_handled found = true /\ router_plan (cli_agents a fs') request None = Ok plans /\
       cs_fs s = fs' /\ cs_output s = announced found plans /\ cli_run a yes envs request 0 None plans s steps s' code /\
       (code = 0 <-> length steps = length plans /\ Forall (fun st => step_good st = true) steps) /\ (code = 0 \/ code = 1) /\
       stopped_by code stop /\ cs_output s' = announced found plans ++ (step_output <$> steps) ++ option_list stop).
Proof.
  intros (a & fs' & Ha & [Hc|(plans & steps & s & Hh & Hp & Hf & Ho & Hr)])%run_request_inv; exists a, fs'; (split; [done|]); [by left|].
  right. pose proof (cli_run_zero _ _ _ _ _ _ _ _ _ _ _ Hr) as [Hz Hc]. destruct (cli_run_output _ _ _ _ _ _ _ _ _ _ _ Hr) as (stop & Hs & Eo).
  rewrite Ho in Eo. by exists plans, steps, s, stop.
Qed.

(** Without the user's approval nothing that needs it runs, and so nothing is deleted: of the
    steps that ran, none needed a confirmation and none was a deletion. *)
Theorem cli_unapproved_deletes_nothing envs key now_from now request workspace fs (s' : State) code :
  never_approves envs ->
  run_request as_bytes dash cwd envs key now_from now request workspace false (cli_start fs) = (s', Ok code) ->
  code = 2 \/ exists a fs' plans s steps, cli_ready fs workspace a fs' /\ router_plan (cli_agents a fs') request None = Ok plans /\
    cli_run a false envs request 0 None plans s steps s' code /\
    Forall (fun st => ap_requires_confirmation (st_plan st) = false /\ ap_action_type (st_plan st) ≠ "file.delete") steps.
Proof.
  intros Hn (a & fs' & Ha & [(_ & Hc & _)|(plans & steps & s & Hh & Hp & _ & _ & Hr)])%run_request_inv; [by left|].
  right. exists a, fs', plans, s, steps. split_and!; [done..|]. eapply cli_run_unapproved; [done|exact Hr|]. by eapply cli_plans_guarded.
Qed.
End CliSafety.

(** ** Witnesses *)

Section Witnesses.
#[local] Existing Instance demo_hashlib.
#[local] Existing Instance demo_rfc8785.
#[local] Existing Instance demo_cryptography.
#[local] Existing Instance demo_cryptography_laws.
#[local] Existing Instance demo_ec_signing.
#[local] Existing Instance demo_sqlite.
#[local] Existing Instance demo_poi_model.
#[local] Existing Instance demo_envelope_model.
#[local] Existing Instance demo_rfc3161.
#[local] Existing Instance demo_email_lib.
#[local] Existing Instance demo_diff.
#[local] Existing Instance demo_sqlite3.
#[local] Existing Instance demo_persistence.

(** Every step answers a question with [answer]. *)
Definition demo_cli_env (answer : string) (i : nat) : CliEnv :=
  let n := demo_wall + Z.of_nat i in
  mkCliEnv (fun _ => Ok answer) n (match i with O => "n0" | _ => "n1" end) [] (Clocks n 0 0 0) n n n n (demo_key 7) n n n n "0a" demo_draws
    (fun _ => demo_audit_env) (match i with O => "u0" | _ => "u1" end) (mkPipelineEnv [] n n n None (Ok demo_config) (fun _ => Ok [])).

Definition demo_cli (answer request : string) : CliState (P := gmap string string) * result Z :=
  run_request demo_as_bytes "-" [] (demo_cli_env answer) demo_private demo_wall demo_wall request "/ws" false (cli_start (<[["ws"] := NDir]> ∅)).

Definition demo_code (r : CliState (P := gmap string string) * result Z) : option Z := match r.2 with Ok c => Some c | Raise _ => None end.

Lemma demo_code_some r c : demo_code r = Some c -> exists s', r = (s', Ok c).
Proof. unfold demo_code. destruct r as [s' [x|]]; cbn; [|done]. intros [= ->]. eauto. Qed.

Definition demo_two : string := "Create file notes.txt content: hello then delete file notes.txt".

(** A file is created and deleted, once the user says yes: the code is 0, and two results are
    printed after the route and the plans. *)
Lemma cli_exit_code_witness :
  exists (plans : list ActionPlan) (steps : list CliStep), demo_code (demo_cli "Yes" demo_two) = Some 0 /\ length plans = 2%nat /\ length steps = 2%nat /\
    Forall (fun st => step_good st = true) steps /\
    drop 4 (cs_output (demo_cli "Yes" demo_two).1) = step_output <$> steps.
Proof.
  assert (demo_code (demo_cli "Yes" demo_two) = Some 0 /\ length (cs_output (demo_cli "Yes" demo_two).1) = 6%nat) as [Hcode Hlen] by (split; vm_compute; reflexivity).
  destruct (demo_code_some _ _ Hcode) as [s' E]. pose proof E as E'. unfold demo_cli in E'.
  destruct (cli_exit_code demo_as_bytes "-" [] (demo_cli_env "Yes") demo_private demo_wall demo_wall demo_two "/ws" false _ s' 0 E')
    as (a & fs' & _ & [(_ & Hc & _)|(plans & steps & s & stop & _ & Hp & _ & _ & _ & [Hz _] & _ & Hs & Ho)]); [discriminate Hc|].
  destruct (Hz eq_refl) as [Hl Hg]. destruct stop as [o|]; [by destruct Hs|]. rewrite E in Hlen |- *. cbn [fst] in *.
  rewrite app_nil_r in Ho. rewrite Ho, length_app, length_fmap in Hlen. cbn [announced length] in Hlen. rewrite length_fmap in Hlen.
  assert (length plans = 2%nat) as Hpl by lia. exists plans, steps. split_and!; [exact Hcode|exact Hpl|lia|exact Hg|].
  rewrite Ho. destruct plans as [|p1 [|p2 [|]]]; try done.
Defined.

(** The same request, denied: it stops before the deletion. *)
Lemma cli_unapproved_deletes_nothing_witness :
  never_approves (demo_cli_env "n") /\
  exists a fs' plans s steps s', router_plan (cli_agents a fs') demo_two None = Ok plans /\
    cli_run demo_as_bytes "-" [] a false (demo_cli_env "n") demo_two 0 None plans s steps s' 1 /\
    Forall (fun st => ap_requires_confirmation (st_plan st) = false /\ ap_action_type (st_plan st) ≠ "file.delete") steps.
Proof.
  assert (never_approves (demo_cli_env "n")) as Hn by (intros i q x [= <-]; split; discriminate). split; [exact Hn|].
  destruct (demo_code_some (demo_cli "n" demo_two) 1) as [s' E]; [vm_compute; reflexivity|].
  unfold demo_cli in E.
  destruct (cli_unapproved_deletes_nothing demo_as_bytes "-" [] (demo_cli_env "n") demo_private demo_wall demo_wall demo_two "/ws" _ s' 1 Hn E)
    as [Hc|(a & fs' & plans & s & steps & _ & Hp & Hr & Hf)]; [discriminate Hc|].
  exists a, fs', plans, s, steps, s'. split; [exact Hp|]. split; [exact Hr|exact Hf].
Defined.

(** ** A consequence of the code as it is *)

(** The content an action printed. *)
Definition shown_content (o : option output) : option json :=
  match o with
  | Some (Dump (JObj d)) =>
      match dict_get "action_result" d with
      | Some (JObj r) => match dict_get "details" r with Some (JObj details) => dict_get "content" details | _ => None end
      | _ => None
      end
  | _ => None
  end.

Definition demo_key_request : string :=
  "Create file notes.txt content: hello then read file " +:+ match key_file "file-agent" ".aor_agent_keys" with Ok f => f | Raise _ => "" end.

(** The agents' keys are kept inside the workspace the file agent serves: an unconfirmed request to
    read the key file prints the private key that signed the step before. *)
Lemma cli_prints_private_key :
  demo_code (demo_cli "n" demo_key_request) = Some 0 /\
  exists pem, utf8_decode (ed_private_pem (demo_key 7)) = Ok pem /\
    shown_content (last (cs_output (demo_cli "n" demo_key_request).1)) = Some (JStr pem).
Proof. split; [vm_compute; reflexivity|]. eexists. split; vm_compute; reflexivity. Qed.
End Witnesses.
