(* ===== verification/EndToEnd.v ===== *)
(** * From a recorded action to its verdict

    What [AgentService.v] records, the pipeline of [Portal.v] accepts: the GET handler of
    [Service.v], asked for the action of any step that [Execution.v] shows recorded, answers a
    valid trace and stores it with the prompt, as long as the two keys are still active and the
    timestamp of the root is pending or verified. *)

From S2P Require Import Prelude PyStr Base64 Json JsonText PyTime Crypto Instances Ledger Merkle Sql Verifier Registry.
From S2P Require Import Poi AgentBase Executor Tsa Evidence Portal Completeness Regex Router EmailAgent FileSystem StateMonad FileAgent.
From S2P Require Import DatabaseAgent AuditAgent Accounts Service AgentService ServiceSafety Execution.

#[local] Open Scope Z_scope.

Section EndToEnd.
Context `{Hashlib, Rfc8785, Cryptography, Sqlite, EmailLib, EnvelopeModel, PoiModel, Rfc3161, Pbkdf2, Difflib, SqliteConnection}.

Abbreviation State := (ServiceState World).

(** An envelope the verifier accepts has the signature the pipeline checks. *)
Lemma verify_signature_accepted now t e v :
  verify_signature (now, Registered t) e = Ok v -> vr_valid v = true ->
  exists b k sg h, get_pubkey now t (se_pubkey_id e) = Ok (Some b) /\ portal_load_public_key b = Ok k /\
    b64decode true (se_signature e) = Ok sg /\ hash_payload (JObj (signing_payload e)) = Ok h /\
    verify k (ObjBytes sg) (ObjBytes h) = Ok true.
Proof.
  unfold verify_signature. cbn [lookup_pubkey KeyStore_lookup KeyRegistry_lookup fst snd].
  destruct (get_pubkey now t _) as [[b|]|]; cbn [mbind result_bind option_map]; [| |done]; [|by intros [= <-]].
  cbn [load_registered_public_key]. unfold portal_load_public_key. destruct (load_key_bytes _ _ b) as [k|ex] eqn:Ek.
  2: { destruct (catches _ ex); [|done]. by intros [= <-]. }
  destruct (negb _); [by intros [= <-]|]. destruct (b64decode true _) as [sg|ex].
  2: { destruct (catches _ ex); [|done]. by intros [= <-]. }
  destruct (hash_payload _) as [h|]; cbn [mbind result_bind]; [|done].
  destruct (verify k _ _) as [[]|] eqn:Ev; cbn [mbind result_bind]; [|by intros [= <-]|done].
  intros _ _. by exists b, k, sg, h.
Qed.

Lemma slice_to_take {A} n (l : list A) : slice_to (Z.of_nat n) l = take n l.
Proof. unfold slice_to. rewrite (proj2 (Z.leb_le _ _)) by lia. by rewrite Nat2Z.id. Qed.

Lemma or_str_default o : or_str o "" = default "" o.
Proof. by destruct o as [[|]|]. Qed.

(** The trust the pipeline takes from the registry for a step: its agent's key is active, and
    is bound to the agent and its type. *)
Definition agent_trusted (env : PipelineEnv) (t : KeyTable) (r : StepRecord) : bool :=
  match agent_pubkey_id (sr_key r) with
  | Ok id =>
      match get_pubkey (pe_now_agent env) t id, get_key_record (pe_now_record env) t id with
      | Ok (Some b), Ok kr =>
          bool_decide (b = ed_public_raw (ed_public_key (sr_key r))) &&
          match kr with
          | Some rec => bool_decide (kr_agent_id rec = or_str (ap_agent_id (sr_plan r)) (sr_agent_id r)) &&
                        bool_decide (kr_agent_type rec = Some (ap_agent_type (sr_plan r)))
          | None => true
          end
      | _, _ => false
      end
  | Raise _ => false
  end.

(** The timestamp of the root the proof signs is pending or verified. *)
Definition stamp_accepted (env : PipelineEnv) (anchors : AnchorStore) (poi : ProofOfIntent) : bool :=
  match fromhex (poi_context_root poi) with
  | Ok root =>
      match portal_verify_timestamp_token (pe_tsa_config env) (pe_tsa_download env) (latest_anchored anchors root ≫= an_token_bytes) root with
      | Ok ta => ta_pending ta || ta_verified ta
      | Raise _ => false
      end
  | Raise _ => false
  end.

Lemma agent_trusted_inv env t r :
  agent_trusted env t r = true ->
  exists id kr, agent_pubkey_id (sr_key r) = Ok id /\
    get_pubkey (pe_now_agent env) t id = Ok (Some (ed_public_raw (ed_public_key (sr_key r)))) /\
    get_key_record (pe_now_record env) t id = Ok kr /\
    (forall rec, kr = Some rec -> kr_agent_id rec = or_str (ap_agent_id (sr_plan r)) (sr_agent_id r) /\
       kr_agent_type rec = Some (ap_agent_type (sr_plan r))).
Proof.
  unfold agent_trusted. destruct (agent_pubkey_id (sr_key r)) as [id|]; [|done]. destruct (get_pubkey _ _ id) as [[b|]|] eqn:Eb; try done.
  destruct (get_key_record _ _ id) as [kr|] eqn:Ekr; [|done]. intros [->%bool_decide_eq_true Hkr]%andb_prop.
  exists id, kr. split_and!; [done..|]. intros rec ->. by apply andb_prop in Hkr as [->%bool_decide_eq_true ->%bool_decide_eq_true].
Qed.

(** The bytes are no DER key, which the loader of [cryptography] refuses with a [ValueError]. *)
Definition not_der (b : bytes) : bool :=
  match load_der_public_key b with Raise e => catches [ValueError] e | Ok _ => false end.

Lemma raw_key_loads `{!CryptographyLaws} k : not_der (ed_public_raw k) = true -> portal_load_public_key (ed_public_raw k) = Ok (ObjEdPublic k).
Proof.
  unfold not_der, portal_load_public_key, load_key_bytes. destruct (load_der_public_key _) as [|e]; [done|]. intros ->.
  by rewrite ed_public_raw_length, ed_public_raw_roundtrip.
Qed.

(** The claims of the trace of a recorded step. *)
Lemma recorded_claims `{!CryptographyLaws} env (s : State) e r l n t parsed v :
  sv_ledgers s !! service_ledger = Some l -> ledger_wf l -> proof_ok (take n l) e (sr_plan r) (sr_agent_id r) (sr_key r) (sr_poi r) ->
  ap_policy_decision (sr_plan r) = "allow" -> pe_registry env = t -> agent_trusted env t r = true ->
  not_der (ed_public_raw (ed_public_key (sr_key r))) = true ->
  verify_signature (pe_now_user env, Registered t) e = Ok v -> vr_valid v = true ->
  claims_hold env (ledger_at (sv_ledgers s) service_ledger) None parsed (sr_poi r) (step_evidence n e r).
Proof.
  intros El (_ & _ & Hc) (_ & (tr & rt & Et & Er & Ex) & Hp & Hs & Hh & Hty & Hid & Hact & Hpol & Hk & Hv) Hallow Hreg
    (id & kr & Eid & Eb & Ekr & Hkr)%agent_trusted_inv Hload%raw_key_loads Hu Hva. rewrite (ledger_at_some _ _ El).
  assert (id = default "" (poi_agent_pubkey_id (sr_poi r))) as -> by congruence.
  split; cbn [ev_user_envelope ev_system_prompt ev_ledger_entry_count step_evidence].
  - done.
  - done.
  - eexists. split; [done|done].
  - exists (take n l), tr, rt. rewrite slice_to_take. split_and!; [|done|done|done]. by apply recompute_chain, chain_take.
  - done.
  - eexists _, _. rewrite or_str_default, Hreg. split_and!; [done|done|done].
  - exists kr. rewrite or_str_default, Hreg. split; [done|]. split_and!.
    + intros rec id' Hrec Hid'. destruct (Hkr rec Hrec) as [-> _]. congruence.
    + intros rec ty Hrec Hty'. destruct (Hkr rec Hrec) as [_ ->]. congruence.
    + intros ty ty' Hty' [= <-]. congruence.
    + by intros ty _ [=].
    + intros d Hd. congruence.
  - rewrite Hreg. by eapply verify_signature_accepted.
Qed.

(** An accepted root passes the timestamp link of evidence that has no token of its own. *)
Lemma stamp_accepted_passes env anchors poi ev :
  ev_timestamp_token ev = None -> pe_anchor_store env = Some anchors -> stamp_accepted env anchors poi = true ->
  stamp_passes env poi ev.
Proof.
  intros Ht Ha Hst r Hr. unfold stamp_accepted in Hst. unfold timestamp_anchor, timestamp_anchor_with. rewrite Ht, Ha. rewrite <- Hr, fromhex_hex in Hst |- *.
  cbn [mbind result_bind try_except]. destruct (portal_verify_timestamp_token _ _ _ _) as [ta|]; [|done]. cbn. eauto.
Qed.

(** ** Theorem *)

(** C1. Every recorded action verifies: asked for it, the service answers a valid trace over all six
    links, and stores it with the prompt; it suffices that the step was allowed, that its agent's
    key, which in its raw form is no DER key, is active and bound to the agent, that the user's key still verifies the envelope, that
    a message that was sent parses, and that the timestamp of the signed root is pending or
    verified. *)
Theorem recorded_action_verifies `{!CryptographyLaws} (env : PipelineEnv) (s : State) e r t v :
  recorded s e r -> (exists l, sv_ledgers s !! service_ledger = Some l /\ ledger_wf l) -> sv_keys s = Registered t ->
  ap_policy_decision (sr_plan r) = "allow" -> agent_trusted env t r = true ->
  not_der (ed_public_raw (ed_public_key (sr_key r))) = true ->
  verify_signature (pe_now_user env, Registered t) e = Ok v -> vr_valid v = true ->
  (forall f, sr_file r = Some f -> is_ok (parse_eml (ef_bytes f)) = true) ->
  stamp_accepted env (sv_anchors s) (sr_poi r) = true ->
  exists tr, vt_overall_valid tr = true /\ vt_action_id tr = Some (sr_action_id r) /\
    verify_by_action_id env (sr_action_id r) s
    = (with_database s (update_verification (sv_database s) (sr_action_id r) (trace_dict tr)), Done (trace_json tr)).
Proof.
  intros (l & n & El & Hn & Hproof & Hid & Hev & _) (l' & El' & Hwf) Hkeys Hallow Htrust Hload Hu Hva Hf Hst.
  assert (l' = l) as -> by congruence.
  set (env' := mkPipelineEnv t (pe_now_agent env) (pe_now_record env) (pe_now_user env) (Some (sv_anchors s)) (pe_tsa_config env) (pe_tsa_download env)).
  destruct (extract_cached (evidence_view s) (sr_action_id r) (step_evidence n e r) (sr_poi r) (ap_payload (sr_plan r)))
    as (x & Ex & Hxp & Hxe & Hxi); [done..| |].
  { intros b Hb. cbn in Hb. destruct (sr_file r) as [f|]; [|done]. injection Hb as <-. by apply Hf. }
  destruct (verify_extracted_complete env' (sv_ledgers s) None x (sr_poi r) (step_evidence n e r)) as (tr & Etr & Hv & Hi); [done..| | | |].
  - by eapply extract_link_passed.
  - eapply recorded_claims; [exact El|exact Hwf|exact Hproof|exact Hallow|reflexivity|exact Htrust|exact Hload|exact Hu|exact Hva].
  - by eapply (stamp_accepted_passes env').
  - exists tr. split_and!; [done| |].
    + by rewrite Hi.
    + unfold verify_by_action_id, service_verification, key_registry. unfold mbind at 1, HM_bind. rewrite Hkeys.
      fold env'. unfold on_evidence, runs. rewrite run_verification_eq, Ex. cbn [es_ledgers evidence_view mbind result_bind].
      rewrite Etr. by destruct s.
Qed.

End EndToEnd.

(** ** The run of [Execution.v], verified *)

Section Witnesses.
#[local] Existing Instance demo_hashlib.
#[local] Existing Instance demo_rfc8785.
#[local] Existing Instance demo_cryptography.
#[local] Existing Instance demo_cryptography_laws.
#[local] Existing Instance demo_sqlite.
#[local] Existing Instance demo_poi_model.
#[local] Existing Instance demo_envelope_model.
#[local] Existing Instance demo_rfc3161.
#[local] Existing Instance demo_email_lib.
#[local] Existing Instance demo_pbkdf2.
#[local] Existing Instance demo_diff.
#[local] Existing Instance demo_sqlite3.

Definition demo_plans : list ActionPlan :=
  match router_plan (service_agents demo_agents demo_accepted) (se_prompt demo_request_envelope) None with Ok plans => plans | Raise _ => [] end.

Definition demo_steps : ServiceState World * outcome (list StepRecord) :=
  run_plans demo_as_bytes "-" demo_agents demo_step_env 0 demo_request_envelope None None demo_plans demo_accepted.

Definition demo_table : KeyTable := match sv_keys demo_steps.1 with Registered t => t | Legacy _ => [] end.

Definition demo_records : list StepRecord := match demo_steps.2 with Done records => records | _ => [] end.

Definition demo_verdict_env : PipelineEnv := mkPipelineEnv [] demo_wall demo_wall demo_wall None (Ok demo_config) (fun _ => Ok []).

(** What the theorem asks of the first step, the creation of a file. *)
Definition demo_conditions (r : StepRecord) : bool :=
  bool_decide (ap_policy_decision (sr_plan r) = "allow") && agent_trusted demo_verdict_env demo_table r &&
  match sr_file r with None => true | Some _ => false end && stamp_accepted demo_verdict_env (sv_anchors demo_steps.1) (sr_poi r) &&
  not_der (ed_public_raw (ed_public_key (sr_key r))).

Lemma demo_steps_done : demo_steps = (demo_steps.1, Done demo_records) /\ (0 < length demo_records)%nat.
Proof.
  assert (match demo_steps.2 with Done (_ :: _) => true | _ => false end = true) as E by (vm_compute; reflexivity).
  unfold demo_records. destruct demo_steps as [s [[|r rs]| |]]; cbn in *; try discriminate E. split; [done|lia].
Qed.

Lemma demo_keys_registered : sv_keys demo_steps.1 = Registered demo_table.
Proof.
  assert (match sv_keys demo_steps.1 with Registered _ => true | Legacy _ => false end = true) as E by (vm_compute; reflexivity).
  unfold demo_table. by destruct (sv_keys demo_steps.1).
Qed.

Lemma demo_first_conditions : match demo_records with r :: _ => demo_conditions r | [] => false end = true.
Proof. vm_compute. reflexivity. Qed.

Lemma demo_envelope_verifies : exists v, verify_signature (demo_wall, Registered demo_table) demo_request_envelope = Ok v /\ vr_valid v = true.
Proof. eexists. split; vm_compute; reflexivity. Qed.

Lemma demo_accepted_ok : service_ok demo_accepted.
Proof.
  apply served_ok. eapply service_init_ok; [exact demo_init_ok|]. intros t [= <-]. exact demo_keys_ok.
Qed.

Lemma demo_steps_ok : service_ok demo_steps.1.
Proof. apply (quiet_run_plans demo_as_bytes "-" demo_agents). exact demo_accepted_ok. Qed.

Lemma demo_recorded : Forall (recorded demo_steps.1 demo_request_envelope) demo_records.
Proof.
  destruct demo_steps_done as [E _].
  by apply (run_plans_done demo_as_bytes "-" demo_agents _ _ _ None _ _ _ _ _ [] (fun u (Hu : None = Some u) => ltac:(discriminate Hu)) E demo_accepted_ledger).
Qed.

(** The file of the demonstration run is verified. *)
Lemma recorded_action_verifies_witness :
  exists r tr, head demo_records = Some r /\ vt_overall_valid tr = true /\ vt_action_id tr = Some (sr_action_id r).
Proof.
  pose proof demo_first_conditions as Hc. pose proof demo_recorded as Hr. destruct demo_records as [|r rs]; [discriminate Hc|].
  apply Forall_cons in Hr as [Hr _]. unfold demo_conditions in Hc.
  apply andb_prop in Hc as [Hc Hd]. apply andb_prop in Hc as [Hc Hs]. apply andb_prop in Hc as [Hc Hf]. apply andb_prop in Hc as [Hp Ht].
  apply bool_decide_eq_true in Hp. destruct demo_envelope_verifies as (v & Hv & Hvv).
  destruct (recorded_action_verifies demo_verdict_env demo_steps.1 demo_request_envelope r demo_table v) as (tr & Htr & Hid & _).
  - exact Hr.
  - destruct demo_steps_ok. assumption.
  - exact demo_keys_registered.
  - exact Hp.
  - exact Ht.
  - exact Hd.
  - exact Hv.
  - exact Hvv.
  - intros f Hsf. rewrite Hsf in Hf. discriminate Hf.
  - exact Hs.
  - exists r, tr. split; [reflexivity|]. split; [exact Htr|exact Hid].
Defined.
End Witnesses.
