(* ===== verification/PipelineSafety.v ===== *)
(** * The pipeline end to end, verified

    What [FullPipeline.v] promises: an honest submission is executed, and its own message, read
    back from the outbox, is verified by the portal over all six links; a refused one changes
    nothing but the nonces.  The keys must be active when the portal looks, and the mail library
    must give back the header and the body it was given, which is [mail_roundtrips]. *)

From S2P Require Import Prelude PyStr Base64 Json JsonText PyTime Crypto Instances Ledger Merkle Sql Verifier Registry Client.
From S2P Require Import Poi AgentBase Executor Tsa Evidence Portal Completeness Regex Router EmailAgent FileSystem StateMonad.
From S2P Require Import AuditAgent Accounts Service AgentService EndToEnd FullPipeline.

#[local] Open Scope Z_scope.

(** ** The outbox *)

Lemma newest_fold files f best :
  Forall (fun g => ef_mtime g < ef_mtime f) files -> (forall b, best = Some b -> ef_mtime b < ef_mtime f) ->
  fold_left (fun best g => match best with Some b => if ef_mtime b <? ef_mtime g then Some g else best | None => Some g end)
    (files ++ [f]) best = Some f.
Proof.
  revert best. induction files as [|g files IH]; intros best Hf Hb; cbn [app fold_left].
  - destruct best as [b|]; [|done]. by rewrite (proj2 (Z.ltb_lt _ _)) by by apply Hb.
  - apply Forall_cons in Hf as [Hg Hf]. apply IH; [done|]. intros b. destruct best as [b'|]; [|by intros [= <-]].
    destruct (_ <? _); intros [= <-]; auto.
Qed.

(** A message written to a new file, later than every other, is the newest. *)
Lemma newest_written p data mtime files :
  p ∉ ef_path <$> files -> Forall (fun g => ef_mtime g < mtime) files ->
  newest (write_eml p data mtime files) = Some (mkEmlFile p data mtime).
Proof.
  intros Hp Hf. unfold write_eml. rewrite bool_decide_eq_false_2 by done. by apply newest_fold.
Qed.

(** ** The body of a message *)

Lemma substring_app_l a b : substring 0 (String.length a) (a +:+ b) = a.
Proof. induction a as [|c a IH]; [by destruct b|]. rewrite str_append_cons. cbn. by rewrite IH. Qed.

Lemma substring_app_r a b : substring (String.length a) (String.length b) (a +:+ b) = b.
Proof.
  induction a as [|c a IH]; [|rewrite str_append_cons; exact IH].
  rewrite str_append_nil_l. rewrite <- (str_append_nil_r b) at 2. apply substring_app_l.
Qed.

(** The one line ending the serializer adds is removed. *)
Lemma strip_added_ending body : str_endswith Portal.crlf (body +:+ Portal.lf) = false -> strip_ending (Some (body +:+ Portal.lf)) = Ok body.
Proof.
  intros Hcr. unfold strip_ending. rewrite Hcr. unfold str_endswith, drop_end. rewrite str_app_length. change (String.length Portal.lf) with 1%nat.
  rewrite (proj2 (Nat.leb_le _ _)) by lia. cbn [andb]. replace (String.length body + 1 - 1)%nat with (String.length body) by lia.
  rewrite bool_decide_eq_true_2 by exact (substring_app_r body Portal.lf). by rewrite substring_app_l.
Qed.

Section Submission.
Context `{Hashlib, Rfc8785, Cryptography, !EcSigning, Sqlite, EmailLib, EnvelopeModel, PoiModel, Rfc3161}.
Context {P : Type} `{!EvidencePersistence P} `{DatabaseOps DB}.
Variable as_bytes : EmailMessage -> bytes.

Abbreviation State := (PipelineState (P := P)).

(** ** The state *)

(** The ledger object is there and well-formed; the evidence is only in memory. *)
Definition pipeline_ok (s : State) : Prop :=
  (exists l, es_ledgers (fp_evidence s) !! pipeline_ledger = Some l /\ ledger_wf l) /\ es_persistence (fp_evidence s) = None.

Lemma fp_ledger_with (s : State) l : fp_ledger (with_pipeline_ledger s l) = l.
Proof. unfold fp_ledger, ledger_at. cbn. by rewrite lookup_insert_eq. Qed.

Lemma with_ledger_twice (s : State) l l' : with_pipeline_ledger (with_pipeline_ledger s l) l' = with_pipeline_ledger s l'.
Proof. unfold with_pipeline_ledger. cbn. by rewrite insert_insert_eq. Qed.

Lemma with_ledger_same (s : State) : pipeline_ok s -> with_pipeline_ledger s (fp_ledger s) = s.
Proof.
  intros [(l & El & _) _]. unfold with_pipeline_ledger, fp_ledger, ledger_at. rewrite El. cbn. rewrite insert_id by done.
  destruct s as [? [] ? ? ? ? ? ? ?]. done.
Qed.

Lemma pipeline_ok_wf s : pipeline_ok s -> ledger_wf (fp_ledger s).
Proof. intros [(l & El & Hl) _]. unfold fp_ledger, ledger_at. by rewrite El. Qed.

(** Entries of these contents were appended, and nothing else changed. *)
Definition appended (contents : list json) (s s' : State) : Prop :=
  pipeline_ok s' /\ exists new, content <$> new = contents /\ s' = with_pipeline_ledger s (fp_ledger s ++ new).

Lemma appended_nil s : pipeline_ok s -> appended [] s s.
Proof. intros Hs. split; [done|]. exists []. by rewrite app_nil_r, with_ledger_same. Qed.

Lemma appended_trans c1 c2 s1 s2 s3 : appended c1 s1 s2 -> appended c2 s2 s3 -> appended (c1 ++ c2) s1 s3.
Proof.
  intros [_ (n1 & <- & ->)] [A3 (n2 & <- & ->)]. split; [done|]. exists (n1 ++ n2).
  by rewrite fmap_app, fp_ledger_with, with_ledger_twice, app_assoc.
Qed.

Lemma pipeline_append_done now ty c s s' id :
  pipeline_append now ty c s = (s', Ok id) -> pipeline_ok s -> appended [JObj c] s s'.
Proof.
  intros E Hs. pose proof (pipeline_ok_wf _ Hs) as Hw. unfold pipeline_append in E. destruct (append _ _ _ _) as [[l x]|] eqn:Ea; [|done].
  injection E as <- _. pose proof (ledger_wf_append _ _ _ _ _ _ Hw Ea) as Hl.
  apply append_inv in Ea as (ty' & leaf & _ & _ & _ & _ & -> & ->). split; [|eexists [_]; split; [|reflexivity]; reflexivity].
  split; [|by destruct Hs]. eexists. split; [apply lookup_insert_eq|done].
Qed.

Lemma append_context_done env i ctx s s' ids :
  append_context env i ctx s = (s', Ok ids) -> pipeline_ok s -> appended ((fun x => JObj x.2) <$> ctx) s s'.
Proof.
  revert i s ids. induction ctx as [|[ty c] ctx IH]; intros i s ids E Hs; cbn [append_context] in E.
  - injection E as <- _. by apply appended_nil.
  - run_inv. apply pipeline_append_done in E0 as A0; [|done]. apply IH in E1; [|by destruct A0].
    by eapply (appended_trans [JObj c]).
Qed.

(** ** The proof of a submission *)

(** What a submission records before it acts. *)
Definition submitted_contents (e : SignedEnvelope) (ctx : list (string * dict)) : list json :=
  [JObj [("text", JStr E2E_SYSTEM_PROMPT)]; JObj [("text", JStr (se_prompt e))]] ++ ((fun x => JObj x.2) <$> ctx).

(** The proof commits the prompts, the payload and the ledger, names nobody, and is signed. *)
Record signed_over (l : Ledger) (e : SignedEnvelope) (tool_call : dict) (key : Ed25519PrivateKey) (poi : ProofOfIntent) : Prop := {
  so_root : exists t r, build_merkle_tree l = Ok t /\ root t = Ok r /\ poi_context_root poi = hex r;
  so_prompt : hash_hex (JObj [("prompt", JStr (se_prompt e))]) = Ok (poi_user_prompt_hash poi);
  so_system : hash_hex (JObj [("system_prompt", JStr E2E_SYSTEM_PROMPT)]) = Ok (poi_system_prompt_hash poi);
  so_payload : hash_hex (JObj tool_call) = Ok (poi_action_payload_hash poi);
  so_identity : poi_agent_type poi = None /\ poi_agent_id poi = None /\ poi_action_type poi = None /\ poi_policy_decision poi = None;
  so_constraints : poi_constraints poi = true;
  so_key : exists id sig, agent_pubkey_id key = Ok id /\ poi_agent_pubkey_id poi = Some id /\ poi_agent_signature poi = Some (hex sig);
  so_signature : verify_poi_signature poi (ObjEdPublic (ed_public_key key)) = Ok true;
}.

Lemma built_signed `{!CryptographyLaws} now uuid e l tool_call model key poi :
  (p ← build_poi now uuid (se_prompt e) E2E_SYSTEM_PROMPT l (JObj tool_call) model (mkPoiIdentity None None None None); sign_poi p key) = Ok poi ->
  signed_over l e tool_call key poi.
Proof.
  destruct (build_poi _ _ _ _ _ _ _ _) as [p|] eqn:Eb; cbn [mbind result_bind]; [|done]. intros Es.
  apply build_poi_inv in Eb as (t & r & Et & Er & Ec & Ep & Esp & Eh & _ & _ & _ & _ & Ety & Eid & Ea & Epd & _ & _ & Hc).
  pose proof (sign_verify_poi_lemma _ _ _ Es) as Hv. apply sign_poi_inv in Es as (id & h & Ei & _ & ->).
  split; cbn; [by exists t, r|done..| |done]. exists id, (ed_sign key h). done.
Qed.

Lemma pipeline_proof_done `{!CryptographyLaws} env e tool_call agent ctx s s' poi count ids :
  pipeline_proof env e tool_call agent ctx s = (s', Ok (poi, count, ids)) -> pipeline_ok s ->
  appended (submitted_contents e ctx) s s' /\ count = length (fp_ledger s') /\
  exists key, dict_get agent (fp_agent_keys s) = Some key /\ signed_over (fp_ledger s') e tool_call key poi.
Proof.
  unfold pipeline_proof. intros E Hs. run_inv.
  apply pipeline_append_done in E0 as A0; [|done]. apply pipeline_append_done in E1 as A1; [|by destruct A0].
  apply append_context_done in E2 as A2; [|by destruct A1]. pose proof (appended_trans _ _ _ _ _ (appended_trans _ _ _ _ _ A0 A1) A2) as Ha.
  split; [exact Ha|]. split; [done|]. destruct Ha as [_ (new & _ & Es)].
  match goal with E : of_option _ _ _ = Ok ?k |- _ => exists k end. split; [|by eapply built_signed].
  match goal with E : of_option (dict_get agent (fp_agent_keys ?x)) _ _ = Ok _ |- _ =>
    replace (fp_agent_keys x) with (fp_agent_keys s) in E by (by rewrite Es); by destruct (dict_get agent (fp_agent_keys s)); [injection E as <-|] end.
Qed.

(** ** The message, read back *)

(** What the mail library promises of a message: the headers unchanged, but for the folding of
    the long one, and the body with one line ending more. *)
Definition mail_roundtrips (m : EmailMessage) : Prop :=
  exists msg, parsebytes (as_bytes m) = Ok msg /\ msg_is_multipart msg = false /\
    msg_content msg = Ok (Some (em_body m +:+ Portal.lf)) /\
    (forall k, k ∈ ["To"; "Subject"; "Message-ID"] -> msg_get msg k = get_header m k) /\
    forall header, get_header m "X-AoR-Proof-of-Intent" = Some header ->
      exists folded, msg_get msg "X-AoR-Proof-of-Intent" = Some folded /\ str_join_split folded = str_join_split header.

(** The payload of an email action. *)
Definition submitted_payload (to subject body : string) : dict := [("to", JStr to); ("subject", JStr subject); ("body", JStr body)].

Lemma urlsafe_b64encode_nonempty b : b ≠ [] -> urlsafe_b64encode b ≠ "".
Proof. destruct b as [|x [|y [|z b]]]; [done| | |]; intros _ E; discriminate E. Qed.

Lemma parsed_message `{!PoiModelLaws} m t sub body id b poi :
  mail_roundtrips m -> get_header m "To" = Some t -> get_header m "Subject" = Some sub -> em_body m = body ->
  get_header m "Message-ID" = Some id -> truthy_str id = true -> get_header m "X-AoR-Proof-of-Intent" = Some (urlsafe_b64encode b) ->
  str_endswith Portal.crlf (body +:+ Portal.lf) = false ->
  poi_constraints poi = true -> rfc8785_dumps (JObj (poi_model_dump poi)) = Ok b -> b ≠ [] ->
  exists parsed header, parse_eml (as_bytes m) = Ok parsed /\ parsed_str "action_id" parsed = Some id /\
    dict_get "action_payload" parsed = Some (JObj (submitted_payload t sub body)) /\
    parsed_str "poi_header" parsed = Some header /\ truthy_str header = true /\ decode_poi_header header = Ok poi.
Proof.
  intros (msg & Em & Hmp & Hc & Hg & Hp) Ht Hs <- Hi Hid Hh Hcr Hcon Hb Hne. destruct (Hp _ Hh) as (folded & Ef & Hj).
  rewrite urlsafe_b64encode_no_space in Hj. unfold parse_eml. rewrite Em. cbn [mbind result_bind].
  unfold body_from_message. rewrite Hmp, Hc. cbn [mbind result_bind]. rewrite strip_added_ending by done. cbn [mbind result_bind].
  pose proof (Hg "To" ltac:(left)) as Gt. pose proof (Hg "Subject" ltac:(right; left)) as Gs.
  pose proof (Hg "Message-ID" ltac:(right; right; left)) as Gi. rewrite Gt, Gs, Gi, Ht, Hs, Hi, Hid, Ef. eexists _, folded. split_and!; [done|done|done|done| |by eapply decode_dumped_poi].
  destruct folded; [|done]. exfalso. by apply (urlsafe_b64encode_nonempty b).
Qed.

(** The extraction of an upload whose captured evidence is in memory. *)
Lemma extract_upload (es : EvidenceState P) raw parsed header id ev poi :
  parse_eml raw = Ok parsed -> parsed_str "action_id" parsed = Some id -> truthy_str id = true ->
  parsed_str "poi_header" parsed = Some header -> truthy_str header = true -> decode_poi_header header = Ok poi ->
  dict_get id (es_evidence es) = Some ev ->
  exists x, extract es (Some raw) None = (es, Ok x) /\ xt_poi x = Some poi /\ xt_evidence x = Some ev /\
    xt_action_id x = Some id /\ xt_parsed x = parsed.
Proof.
  intros Ep Ei Hid Eh Hh Ed Hev. unfold extract, lookup_evidence, parse_upload, catch_all, try_except. rewrite Ep. cbn -[lr_passed truthy_str].
  rewrite Ei, Hid. unfold evidence_get. rewrite Hev. cbn [mbind result_bind parse_stored]. unfold find_poi. rewrite Eh, Hh.
  unfold catch_all, try_except. rewrite Ed. cbn. eexists. split; [reflexivity|]. done.
Qed.

(** ** The verdict on a submission *)

(** What the portal must find when it looks: the agent's key, whose raw form is no DER key, a
    readable record of it, and the user's key under which the envelope still verifies. *)
Record keys_trusted (env : PipelineEnv) (t : KeyTable) (key : Ed25519PrivateKey) (e : SignedEnvelope) : Prop := {
  kt_agent : exists id kr, agent_pubkey_id key = Ok id /\
    get_pubkey (pe_now_agent env) t id = Ok (Some (ed_public_raw (ed_public_key key))) /\ get_key_record (pe_now_record env) t id = Ok kr;
  kt_raw : not_der (ed_public_raw (ed_public_key key)) = true;
  kt_user : exists v, verify_signature (pe_now_user env, Registered t) e = Ok v /\ vr_valid v = true;
}.

Definition submission_evidence (id : string) (e : SignedEnvelope) (count : nat) (raw : bytes) : ActionEvidence :=
  mkActionEvidence id e E2E_SYSTEM_PROMPT pipeline_ledger (Z.of_nat count) (Some raw) None None None None None.

Lemma submission_claims `{!CryptographyLaws} env (l : Ledger) t e tool_call key poi id raw parsed :
  ledger_wf l -> signed_over l e tool_call key poi -> pe_registry env = t -> keys_trusted env t key e ->
  dict_get "action_payload" parsed = Some (JObj tool_call) ->
  claims_hold env l (Some raw) parsed poi (submission_evidence id e (length l) raw).
Proof.
  intros (_ & _ & Hc) [(tr & rt & Et & Er & Ex) Hp Hs Hh (Hty & Hid & Hact & Hpol) _ (kid & sig & Ekid & Epk & _) Hv] <-
    [(kid' & kr & Ekid' & Eb & Ekr) Hraw%raw_key_loads (v & Hu & Hva)] Hpay.
  assert (kid' = kid) as -> by congruence.
  split; cbn [ev_user_envelope ev_system_prompt ev_ledger_entry_count submission_evidence].
  - done.
  - done.
  - exists (JObj tool_call). cbn. by rewrite Hpay.
  - exists l, tr, rt. rewrite slice_to_take, firstn_all. split_and!; [by apply recompute_chain|done|done|done].
  - done.
  - eexists _, _. rewrite or_str_default, Epk. split_and!; [done|done|done].
  - exists kr. rewrite or_str_default, Epk. split; [done|]. unfold identity_bound. rewrite Hty, Hid, Hact, Hpol. by split_and!.
  - by eapply verify_signature_accepted.
Qed.

(** The uploaded message is found valid. *)
Lemma upload_verified `{!CryptographyLaws, !PoiModelLaws} env (es : EvidenceState P) l t e tool_call key poi id raw parsed header anchors :
  ledger_wf l -> signed_over l e tool_call key poi -> pe_registry env = t -> keys_trusted env t key e ->
  pe_anchor_store env = Some anchors -> stamp_accepted env anchors poi = true -> ledger_at (es_ledgers es) pipeline_ledger = l ->
  dict_get id (es_evidence es) = Some (submission_evidence id e (length l) raw) ->
  parse_eml raw = Ok parsed -> parsed_str "action_id" parsed = Some id -> truthy_str id = true ->
  dict_get "action_payload" parsed = Some (JObj tool_call) ->
  parsed_str "poi_header" parsed = Some header -> truthy_str header = true -> decode_poi_header header = Ok poi ->
  exists tr, run_verification env es (Some raw) None = (es, Ok tr) /\ vt_overall_valid tr = true /\ vt_action_id tr = Some id.
Proof.
  intros Hwf Hso Hreg Hk Ha Hst Hl Hev Ep Ei Hid Hpay Eh Hh Ed.
  destruct (extract_upload es raw parsed header id _ poi Ep Ei Hid Eh Hh Ed Hev) as (x & Ex & Hxp & Hxe & Hxi & Hxd).
  destruct (verify_extracted_complete env (es_ledgers es) (Some raw) x poi _ Hxp Hxe (extract_link_passed _ _ _ _ _ _ Ex Hxp))
    as (tr & Etr & Hv & Hi).
  - rewrite Hxd. cbn [ev_ledger submission_evidence]. rewrite Hl. by eapply submission_claims.
  - by eapply stamp_accepted_passes.
  - exists tr. rewrite run_verification_eq, Ex. cbn [mbind result_bind]. rewrite Etr. split_and!; [done|done|congruence].
Qed.

(** ** The submission *)

(** What the email and the outbox must be like: one-line fields, a body that does not end with a
    carriage return, effects that succeed, a new file later than the others, a proof that
    serializes, and a mail library that gives the message back. *)
Record mailable (env : SubmitEnv) (s : State) (t sub body : string) (poi : ProofOfIntent) : Prop := {
  mb_lines : forall v, v ∈ [t; sub; dr_message_id (sm_draws env)] -> (length (splitlines_keep v) <= 1)%nat;
  mb_id : truthy_str (dr_message_id (sm_draws env)) = true;
  mb_body : str_endswith Portal.crlf (body +:+ Portal.lf) = false;
  mb_smtp : forall x, sm_smtp env x = Ok tt;
  mb_path : fp_output_dir s +:+ "/" +:+ dr_uuid (sm_draws env) +:+ ".eml" ∉ ef_path <$> fp_outbox s;
  mb_latest : Forall (fun g => ef_mtime g < sm_mtime env) (fp_outbox s);
  mb_header : exists b, rfc8785_dumps (JObj (poi_model_dump poi)) = Ok b /\ b ≠ [];
  mb_mail : forall m, get_header m "To" = Some t -> get_header m "Subject" = Some sub -> em_body m = body -> mail_roundtrips m;
}.

Lemma hex_one_line b : str_forallb (fun c => negb (is_linebreak c)) (hex b) = true.
Proof.
  induction b as [|x b IH]; [done|]. cbn [hex str_forallb]. rewrite IH, andb_true_r. pose proof (byte_to_Z_range x).
  assert (forall z, 0 <= z < 16 -> is_linebreak (hex_digit z) = false) as Hd by (intros z Hz; small_cases z 16%nat).
  rewrite !Hd; [done|..]; [apply Z.mod_pos_bound; lia|]. split; [apply Z.div_pos; lia|]. apply Z.div_lt_upper_bound; lia.
Qed.

Lemma agent_pubkey_id_line key id : agent_pubkey_id key = Ok id -> (length (splitlines_keep id) <= 1)%nat /\ truthy_str id = true.
Proof.
  unfold agent_pubkey_id. destruct (serialize_public_key_raw _); cbn [mbind result_bind]; [|done]. intros [= <-]. split; [|done].
  apply one_line. by rewrite str_forallb_app, hex_one_line.
Qed.

(** The executor writes the message, which is then the newest of the outbox and reads back. *)
Lemma submission_executed `{!PoiModelLaws} env (s : State) l e t sub body key poi :
  signed_over l e (submitted_payload t sub body) key poi -> mailable env s t sub body poi ->
  let id := dr_message_id (sm_draws env) in
  exists raw parsed header outbox,
    pipeline_execute (DB := DB) as_bytes env (submitted_payload t sub body) poi s
      = (with_pipeline_outbox s outbox, Ok (mkExecutorResult true "email" (Some id) JNull)) /\
    newest outbox = Some (mkEmlFile (fp_output_dir s +:+ "/" +:+ dr_uuid (sm_draws env) +:+ ".eml") raw (sm_mtime env)) /\
    parse_eml raw = Ok parsed /\ parsed_str "action_id" parsed = Some id /\
    dict_get "action_payload" parsed = Some (JObj (submitted_payload t sub body)) /\
    parsed_str "poi_header" parsed = Some header /\ truthy_str header = true /\ decode_poi_header header = Ok poi.
Proof.
  intros [_ _ _ Hh (Hty & _ & Hact & Hpol) Hcon (kid & sig & Ekid & Epk & Esig) _] [Hl Hid Hb Hsm Hp Hlat (b & Eb & Hne) Hm] id.
  destruct (agent_pubkey_id_line _ _ Ekid) as [Hline Hkid].
  unfold pipeline_execute.
  match goal with |- context [execute_action _ _ ?x _ _ _] => set (ex := x) end.
  destruct (email_delivered (DB := DB) (sm_smtp env) (sm_draws env) ex (submitted_payload t sub body) poi t sub body kid (hex sig) b sig)
    as (m & -> & Hproof & Hto & Hsub & Hbody & Hmid); try done.
  - unfold action_type_matches. by rewrite Hact.
  - unfold policy_allows. by rewrite Hpol.
  - intros v Hv. assert (v = kid \/ v = "aor@example.test" \/ v ∈ [t; sub; dr_message_id (sm_draws env)]) as [->|[->|Hv']] by set_solver;
      [done|vm_compute; lia|by apply Hl].
  - apply fromhex_hex.
  - destruct (parsed_message m t sub body id b poi) as (parsed & header & Hpar); [by apply Hm|done..|].
    exists (as_bytes m), parsed, header, (write_eml (fp_output_dir s +:+ "/" +:+ dr_uuid (sm_draws env) +:+ ".eml") (as_bytes m) (sm_mtime env) (fp_outbox s)).
    split; [cbn; by rewrite Hsm|]. split; [by apply newest_written|exact Hpar].
Qed.

(** What a state holds of an executed action: its proof over the ledger, its evidence, and its
    message as it reads back. *)
Record captured (s : State) (id : string) (e : SignedEnvelope) (tool_call : dict) (key : Ed25519PrivateKey) (poi : ProofOfIntent) (raw : bytes)
    : Prop := {
  cp_ok : pipeline_ok s;
  cp_signed : signed_over (fp_ledger s) e tool_call key poi;
  cp_evidence : dict_get id (es_evidence (fp_evidence s)) = Some (submission_evidence id e (length (fp_ledger s)) raw);
  cp_message : exists parsed header, parse_eml raw = Ok parsed /\ parsed_str "action_id" parsed = Some id /\ truthy_str id = true /\
    dict_get "action_payload" parsed = Some (JObj tool_call) /\ parsed_str "poi_header" parsed = Some header /\
    truthy_str header = true /\ decode_poi_header header = Ok poi;
}.

(** After the proof: the rest of a submission, to its verdict. *)
Lemma submission_finished `{!CryptographyLaws, !PoiModelLaws} env (s : State) e t sub body key poi :
  let id := dr_message_id (sm_draws env) in
  pipeline_ok s -> signed_over (fp_ledger s) e (submitted_payload t sub body) key poi -> mailable env s t sub body poi ->
  keys_trusted (sm_pipeline env) (fp_registry s) key e -> stamp_accepted (sm_pipeline env) (fp_anchors s) poi = true ->
  exists raw outbox s' tr,
    pipeline_execute (DB := DB) as_bytes env (submitted_payload t sub body) poi s
      = (with_pipeline_outbox s outbox, Ok (mkExecutorResult true "email" (Some id) JNull)) /\
    pipeline_artifact id (with_pipeline_outbox s outbox) = (with_pipeline_outbox s outbox, Ok raw) /\
    pipeline_register id e (length (fp_ledger s)) raw (with_pipeline_outbox s outbox) = (s', Ok tt) /\
    pipeline_verify (sm_pipeline env) raw s' = (s', Ok tr) /\
    vt_overall_valid tr = true /\ vt_action_id tr = Some id /\ captured s' id e (submitted_payload t sub body) key poi raw /\
    fp_ledger s' = fp_ledger s /\ fp_nonces s' = fp_nonces s /\ fp_registry s' = fp_registry s /\ fp_anchors s' = fp_anchors s.
Proof.
  intros id Hs Hso Hmb Hk Hst.
  destruct (submission_executed _ _ _ _ _ _ _ _ _ Hso Hmb) as (raw & parsed & header & outbox & Ex & En & Ep & Ei & Hpay & Eh & Hh & Ed).
  pose proof (mb_id _ _ _ _ _ _ Hmb) as Hid. pose proof (pipeline_ok_wf _ Hs) as Hwf.
  set (es := mkEvidenceState (P := P) (dict_set id (submission_evidence id e (length (fp_ledger s)) raw) (es_evidence (fp_evidence s))) None
               (es_ledgers (fp_evidence s))).
  destruct (upload_verified (mkPipelineEnv (fp_registry s) (pe_now_agent (sm_pipeline env)) (pe_now_record (sm_pipeline env))
      (pe_now_user (sm_pipeline env)) (Some (fp_anchors s)) (pe_tsa_config (sm_pipeline env)) (pe_tsa_download (sm_pipeline env)))
      es (fp_ledger s) (fp_registry s) e (submitted_payload t sub body) key poi id raw parsed header (fp_anchors s))
    as (tr & Er & Hv & Hvi); try done.
  { by destruct Hk. }
  { apply dict_get_set_eq. }
  exists raw, outbox, (with_pipeline_evidence (with_pipeline_outbox s outbox) es), tr. split_and!; [exact Ex| | | |done|done| |done|done|done|done].
  - unfold pipeline_artifact, reads, lift, mbind, SM_bind. cbn [fp_outbox with_pipeline_outbox]. rewrite En. cbn [of_option ef_bytes].
    rewrite Ep. cbn. fold id in Ei. rewrite Ei. by rewrite bool_decide_eq_true_2.
  - unfold pipeline_register, evidence_register. cbn [fp_evidence with_pipeline_outbox]. destruct Hs as [_ ->]. done.
  - unfold pipeline_verify. cbn [fp_registry fp_anchors fp_evidence with_pipeline_evidence with_pipeline_outbox]. by rewrite Er.
  - split; [|done|apply dict_get_set_eq|by exists parsed, header]. destruct Hs as [Hl _]. by split.
Qed.

(** What the submission of an honest action needs: an accepted envelope, a signed proof, a
    mailable action, trusted keys, and no timestamp that fails. *)
Record submittable (env : SubmitEnv) (s s1 : State) (n : NonceStore) (e : SignedEnvelope) (v : VerificationResult) (t sub body agent : string)
    (ctx : list (string * dict)) (poi : ProofOfIntent) (count : nat) (ids : list Z) (key : Ed25519PrivateKey) : Prop := {
  sb_ok : pipeline_ok s;
  sb_stage4 : verify_envelope freshness_seconds (sm_verify env) (sm_key_now env, fp_registry s) (fp_nonces s) e = (n, Ok v);
  sb_valid : vr_valid v = true;
  sb_proof : pipeline_proof env e (submitted_payload t sub body) agent ctx (with_pipeline_nonces s n) = (s1, Ok (poi, count, ids));
  sb_mail : mailable env s t sub body poi;
  sb_key : dict_get agent (fp_agent_keys s) = Some key;
  sb_trusted : keys_trusted (sm_pipeline env) (fp_registry s) key e;
  sb_stamp : stamp_accepted (sm_pipeline env) (fp_anchors s) poi = true;
}.

Lemma submission_done `{!CryptographyLaws, !PoiModelLaws} env (s s1 : State) n e v t sub body agent ctx poi count ids key :
  let id := dr_message_id (sm_draws env) in
  submittable env s s1 n e v t sub body agent ctx poi count ids key ->
  exists s' tr raw new,
    submit_envelope (DB := DB) as_bytes env e (submitted_payload t sub body) agent ctx s
      = (s', Ok (mkSubmittedAction v (Some tr) e (poi_agent_pubkey_id poi) (Some id) (Some raw) ids)) /\
    pipeline_verify (sm_pipeline env) raw s' = (s', Ok tr) /\ vt_overall_valid tr = true /\ vt_action_id tr = Some id /\
    fp_ledger s' = fp_ledger s ++ new /\ content <$> new = submitted_contents e ctx /\ fp_ledger s' = fp_ledger s1 /\
    captured s' id e (submitted_payload t sub body) key poi raw /\ fp_nonces s' = n /\ fp_registry s' = fp_registry s /\
    fp_anchors s' = fp_anchors s.
Proof.
  intros id [Hs Hve Hva Hp Hmb Hkey Hk Hst].
  destruct (pipeline_proof_done _ _ _ _ _ _ _ _ _ _ Hp Hs) as ([Hs1 (new & Hnew & Es1)] & -> & key' & Hkey' & Hso).
  assert (key' = key) as -> by (cbn in Hkey'; congruence).
  destruct (submission_finished env s1 e t sub body key poi) as (raw & outbox & s' & tr & Ex & Ea & Er & Ev & Hv & Hvi & Hc & Hl & Hn & Hr & Hanc);
    [done|done|rewrite Es1; by destruct Hmb; split|by rewrite Es1|by rewrite Es1|].
  exists s', tr, raw, new. split_and!; [|done|done|done| |done|done|done|by rewrite Hn, Es1|by rewrite Hr, Es1|by rewrite Hanc, Es1].
  2: { rewrite Hl, Es1. by rewrite fp_ledger_with. }
  unfold submit_envelope, mbind at 1, SM_bind. rewrite Hve, Hva. cbn [negb]. unfold mbind at 1. rewrite Hp. unfold mbind at 1. rewrite Ex.
  cbn [ex_success ex_action_id]. rewrite (mb_id _ _ _ _ _ _ Hmb). cbn [negb]. unfold mbind at 1. rewrite Ea. unfold mbind at 1. rewrite Er.
  unfold mbind at 1. by rewrite Ev.
Qed.

(** ** Theorems *)

(** C3. An honest submission is verified end to end.  Once the envelope is accepted and the proof
    signed over the ledger with the submission's entries, a mailable action is executed, and the
    portal, given the bytes of the newest message, answers a valid trace of that action; the
    entries stay in the ledger, and the state stays well-formed. *)
Theorem submission_verified `{!CryptographyLaws, !PoiModelLaws} env (s s1 : State) n e v t sub body agent ctx poi count ids key :
  let id := dr_message_id (sm_draws env) in
  submittable env s s1 n e v t sub body agent ctx poi count ids key ->
  exists s' tr raw new,
    submit_envelope (DB := DB) as_bytes env e (submitted_payload t sub body) agent ctx s
      = (s', Ok (mkSubmittedAction v (Some tr) e (poi_agent_pubkey_id poi) (Some id) (Some raw) ids)) /\
    vt_overall_valid tr = true /\ vt_action_id tr = Some id /\
    fp_ledger s' = fp_ledger s ++ new /\ content <$> new = submitted_contents e ctx /\ pipeline_ok s' /\ fp_nonces s' = n.
Proof.
  intros id Hs. destruct (submission_done _ _ _ _ _ _ _ _ _ _ _ _ _ _ _ Hs)
    as (s' & tr & raw & new & E & _ & Hv & Hi & Hl & Hn & _ & Hc & Hnon & _).
  exists s', tr, raw, new. split_and!; [done..|by apply cp_ok in Hc|done].
Qed.

(** A stale envelope is refused with nothing changed, not even the nonces; and whatever is
    refused changes only the nonces. *)
Theorem stale_submission_refused env (s : State) now uuid random prompt user e tool_call agent ctx :
  stale_envelope s now uuid random prompt user = Ok e -> valid_us (now - 61000000) -> now <= c_wall (sm_verify env) ->
  submit_envelope (DB := DB) as_bytes env e tool_call agent ctx s
    = (s, Ok (mkSubmittedAction (rejected "timestamp_stale") None e None None None [])) /\
  forall env e tool_call agent ctx s' sa, submit_envelope (DB := DB) as_bytes env e tool_call agent ctx s = (s', Ok sa) ->
    sa_trace sa = None -> vr_valid (sa_stage4 sa) = false /\ s' = with_pipeline_nonces s (fp_nonces s').
Proof.
  intros He Ht Hc. split.
  - unfold stale_envelope, make_envelope in He. destruct (of_option _ _ _) as [k|]; cbn [mbind result_bind] in He; [|done].
    unfold sign_envelope in He. destruct (sign_user_payload _ _ _); cbn [mbind result_bind] in He; [|done].
    unfold SignedEnvelope_init in He. destruct (forallb _ _); [|done]. injection He as <-.
    unfold submit_envelope, verify_envelope, timestamp_is_fresh, mbind at 1, SM_bind. cbn [se_timestamp default].
    unfold default. rewrite parse_isoformat_z by done. cbn [mbind result_bind].
    assert (Z.abs (c_wall (sm_verify env) - (now - 61000000)) <=? freshness_seconds * 1000000 = false) as ->
      by (apply Z.leb_gt; unfold freshness_seconds; lia).
    cbn. by destruct s.
  - clear. intros env e tool_call agent ctx s' sa E Hn. unfold submit_envelope in E. apply bind_ok in E as (v & s1 & E1 & E).
    destruct (verify_envelope _ _ _ _ _) as [n r]. injection E1 as <- ->. destruct (vr_valid v) eqn:Ev; cbn [negb] in E.
    + exfalso. run_inv. destruct a as [[poi count] ids]. run_inv.
      destruct (ex_success _); [|done]. destruct (ex_action_id _); [|done]. destruct (negb _); [done|]. run_inv. done.
    + injection E as <- <-. done.
Qed.

(** ** The new pipeline *)

Lemma register_user_kept now_from now id k s (s' : State) : register_user now_from now id k s = Ok s' -> fp_evidence s' = fp_evidence s.
Proof. unfold register_user. destruct (register_key _ _ _ _ _ _ _ _ _) as [[]|]; cbn [mbind result_bind]; [|done]. by intros [= <-]. Qed.

Lemma register_pipeline_agent_kept now_from now name k s (s' : State) :
  register_pipeline_agent now_from now name k s = Ok s' -> fp_evidence s' = fp_evidence s.
Proof.
  unfold register_pipeline_agent. destruct (agent_pubkey_id k); cbn [mbind result_bind]; [|done].
  destruct (serialize_public_key_raw _); cbn [mbind result_bind]; [|done].
  destruct (register_key _ _ _ _ _ _ _ _ _) as [[]|]; cbn [mbind result_bind]; [|done]. by intros [= <-].
Qed.

Lemma pipeline_init_ok now k1 k2 k3 k4 dir s : FullPipeline_init now k1 k2 k3 k4 dir = Ok s -> pipeline_ok s.
Proof.
  unfold FullPipeline_init. intros E.
  destruct (register_user _ _ "u123" _ _) as [s1|] eqn:E1; [|done]. cbn [mbind result_bind] in E.
  destruct (register_user _ _ "u456" _ _) as [s2|] eqn:E2; [|done]. cbn [mbind result_bind] in E.
  destruct (register_pipeline_agent _ _ "primary" _ _) as [s3|] eqn:E3; [|done]. cbn [mbind result_bind] in E.
  apply register_user_kept in E1, E2. apply register_pipeline_agent_kept in E3, E.
  unfold pipeline_ok. rewrite E, E3, E2, E1. split; [|done]. exists []. split; [apply lookup_singleton_eq|].
  apply reachable_wf. apply reachable_init.
Qed.
End Submission.

(** ** Witnesses: a mail library that keeps messages as JSON *)

Section Witnesses.
#[local] Existing Instance demo_hashlib.
#[local] Existing Instance demo_rfc8785.
#[local] Existing Instance demo_cryptography.
#[local] Existing Instance demo_cryptography_laws.
#[local] Existing Instance demo_ec_signing.
#[local] Existing Instance demo_sqlite.
#[local] Existing Instance demo_poi_model.
#[local] Existing Instance demo_poi_model_laws.
#[local] Existing Instance demo_envelope_model.
#[local] Existing Instance demo_persistence.
#[local] Existing Instance demo_rfc3161.
#[local] Existing Instance Executor.demo_database.

Definition demo_mail_bytes (m : EmailMessage) : bytes :=
  utf8_encode (json_dumps (JList [JList ((fun h => JList [JStr h.1; JStr h.2]) <$> em_headers m); JStr (em_body m)])).

Definition demo_header_of (j : json) : string * string := match j with JList [JStr k; JStr v] => (k, v) | _ => ("", "") end.

Definition demo_mail_parse (b : bytes) : result Message :=
  s ← utf8_decode b; j ← json_loads s;
  match j with
  | JList [JList hs; JStr body] =>
      Ok (mkMessage (get_header (mkEmailMessage (demo_header_of <$> hs) body)) false None (Ok (Some (body +:+ Portal.lf))))
  | _ => validation_error
  end.

Definition demo_mail : EmailLib := {| parsebytes := demo_mail_parse |}.
#[local] Existing Instance demo_mail.

Lemma demo_mail_roundtrips m : mail_roundtrips demo_mail_bytes m.
Proof.
  unfold mail_roundtrips, parsebytes, demo_mail, demo_mail_parse, demo_mail_bytes. rewrite utf8_decode_encode. cbn [mbind result_bind].
  rewrite json_loads_dumps.
  2: { apply json_wf_list. constructor; [|by repeat constructor]. apply json_wf_list. unfold items_wf. apply Forall_fmap, Forall_true. by intros [k v]. }
  cbn [mbind result_bind]. eexists. split; [reflexivity|]. cbn [msg_get msg_is_multipart msg_content].
  rewrite <- list_fmap_compose. assert (demo_header_of ∘ (fun h => JList [JStr h.1; JStr h.2]) <$> em_headers m = em_headers m) as ->
    by (rewrite <- (list_fmap_id (em_headers m)) at 2; apply list_fmap_ext; by intros ? [k v]).
  destruct m as [hs body]. split_and!; [done|done|done|]. intros header Eh. by exists header.
Qed.

(** The new pipeline, an envelope of u123, and its submission with one entry of context. *)
Definition demo_pipeline_result : result (PipelineState (P := gmap string string)) :=
  FullPipeline_init demo_wall demo_private demo_private demo_agent_key (demo_key 6) "/work".

Definition demo_pipeline : PipelineState (P := gmap string string) :=
  match demo_pipeline_result with
  | Ok s => s
  | Raise _ => mkPipelineState [] (mkEvidenceState [] None ∅) [] demo_nonces [] "" [] [] []
  end.

Lemma demo_pipeline_init : demo_pipeline_result = Ok demo_pipeline.
Proof.
  assert (is_ok demo_pipeline_result = true) as E by (vm_compute; reflexivity).
  unfold demo_pipeline. by destruct demo_pipeline_result.
Qed.

Definition demo_submit_env : SubmitEnv :=
  mkSubmitEnv (demo_clocks 0) demo_wall (fun _ => demo_wall) demo_wall "uuid-3" (fun _ => Ok tt) demo_draws demo_wall
    (mkPipelineEnv [] demo_wall demo_wall demo_wall None (Ok demo_config) (fun _ => Ok [])).

Definition demo_submitted : SignedEnvelope :=
  match make_envelope demo_pipeline demo_wall "nonce-1" [] "Send the update to Bob" "u123" None None None None with
  | Ok e => e | Raise _ => demo_signed end.

Definition demo_email : dict := submitted_payload "bob@example.com" "hi" "update".

Definition demo_context : list (string * dict) := [("user_note", [("text", JStr "context")])].

Definition demo_stage4 : NonceStore * result VerificationResult :=
  verify_envelope freshness_seconds (sm_verify demo_submit_env) (sm_key_now demo_submit_env, fp_registry demo_pipeline)
    (fp_nonces demo_pipeline) demo_submitted.

Lemma demo_stage4_accepted : demo_stage4 = (demo_stage4.1, Ok accepted).
Proof.
  assert (demo_stage4.2 = Ok accepted) as E by (vm_compute; reflexivity). destruct demo_stage4 as [n r]. cbn in E. by subst r.
Qed.

Definition demo_proof : PipelineState (P := gmap string string) * result (ProofOfIntent * nat * list Z) :=
  pipeline_proof demo_submit_env demo_submitted demo_email "primary" demo_context (with_pipeline_nonces demo_pipeline demo_stage4.1).

Definition demo_proof_value : ProofOfIntent * nat * list Z :=
  match demo_proof.2 with Ok x => x | Raise _ => (demo_poi, 0%nat, []) end.

Lemma demo_proof_done : demo_proof = (demo_proof.1, Ok (demo_proof_value.1.1, demo_proof_value.1.2, demo_proof_value.2)).
Proof.
  assert (is_ok demo_proof.2 = true) as E by (vm_compute; reflexivity).
  unfold demo_proof_value. destruct demo_proof as [s [[[poi n] ids]|]]; [done|discriminate E].
Qed.

Definition demo_proof_dump : bytes := demo_canonical (poi_model_dump demo_proof_value.1.1).

Lemma demo_mailable : mailable demo_mail_bytes demo_submit_env demo_pipeline "bob@example.com" "hi" "update" demo_proof_value.1.1.
Proof.
  split.
  - apply Forall_forall. apply (bool_decide_unpack _). vm_compute. exact I.
  - reflexivity.
  - vm_compute. reflexivity.
  - reflexivity.
  - assert (fp_outbox demo_pipeline = []) as -> by (vm_compute; reflexivity). apply not_elem_of_nil.
  - assert (fp_outbox demo_pipeline = []) as -> by (vm_compute; reflexivity). done.
  - exists demo_proof_dump. split; [reflexivity|]. apply (bool_decide_unpack _). vm_compute. exact I.
  - intros m _ _ _. apply demo_mail_roundtrips.
Qed.

Definition demo_agent_known : bool :=
  match agent_pubkey_id demo_agent_key with
  | Ok id =>
      bool_decide (get_pubkey (pe_now_agent (sm_pipeline demo_submit_env)) (fp_registry demo_pipeline) id
                   = Ok (Some (ed_public_raw (ed_public_key demo_agent_key)))) &&
      is_ok (get_key_record (pe_now_record (sm_pipeline demo_submit_env)) (fp_registry demo_pipeline) id)
  | Raise _ => false
  end.

Lemma demo_keys_trusted : keys_trusted (sm_pipeline demo_submit_env) (fp_registry demo_pipeline) demo_agent_key demo_submitted.
Proof.
  split.
  - assert (demo_agent_known = true) as E by (vm_compute; reflexivity). unfold demo_agent_known in E.
    destruct (agent_pubkey_id demo_agent_key) as [id|]; [|discriminate E]. apply andb_prop in E as [Eb Er].
    destruct (get_key_record (pe_now_record (sm_pipeline demo_submit_env)) (fp_registry demo_pipeline) id) as [kr|] eqn:Ek; [|discriminate Er].
    exists id, kr. split; [reflexivity|]. split; [exact (bool_decide_eq_true_1 _ Eb)|exact Ek].
  - vm_compute. reflexivity.
  - eexists. split; vm_compute; reflexivity.
Qed.

Lemma demo_submittable :
  submittable demo_mail_bytes demo_submit_env demo_pipeline demo_proof.1 demo_stage4.1 demo_submitted accepted "bob@example.com" "hi" "update" "primary"
    demo_context demo_proof_value.1.1 demo_proof_value.1.2 demo_proof_value.2 demo_agent_key.
Proof.
  split.
  - exact (pipeline_init_ok _ _ _ _ _ _ _ demo_pipeline_init).
  - exact demo_stage4_accepted.
  - reflexivity.
  - exact demo_proof_done.
  - exact demo_mailable.
  - vm_compute. reflexivity.
  - exact demo_keys_trusted.
  - vm_compute. reflexivity.
Qed.

Lemma submission_verified_witness :
  exists s' sa tr, submit_envelope (DB := unit) demo_mail_bytes demo_submit_env demo_submitted demo_email "primary" demo_context demo_pipeline
    = (s', Ok sa) /\ sa_trace sa = Some tr /\ vt_overall_valid tr = true /\ vt_action_id tr = Some "<1@aor.local>" /\ length (fp_ledger s') = 3%nat.
Proof.
  destruct (submission_verified (DB := unit) demo_mail_bytes demo_submit_env demo_pipeline demo_proof.1 demo_stage4.1 demo_submitted accepted
    "bob@example.com" "hi" "update" "primary" demo_context demo_proof_value.1.1 demo_proof_value.1.2 demo_proof_value.2 demo_agent_key)
    as (s' & tr & raw & new & E & Hv & Hi & Hl & Hn & _).
  - exact demo_submittable.
  - exists s'. eexists _, tr. split; [exact E|]. split; [reflexivity|]. split; [exact Hv|]. split; [exact Hi|].
    rewrite Hl. assert (fp_ledger demo_pipeline = []) as -> by (vm_compute; reflexivity).
    apply (f_equal length) in Hn. rewrite length_fmap in Hn. exact Hn.
Defined.

Definition demo_stale : SignedEnvelope :=
  match stale_envelope demo_pipeline demo_wall "nonce-2" [] "Send the update to Bob" "u123" with Ok e => e | Raise _ => demo_signed end.

Lemma stale_submission_refused_witness :
  (submit_envelope (DB := unit) demo_mail_bytes demo_submit_env demo_stale demo_email "primary" [] demo_pipeline).1 = demo_pipeline.
Proof.
  destruct (stale_submission_refused (DB := unit) demo_mail_bytes demo_submit_env demo_pipeline demo_wall "nonce-2" []
    "Send the update to Bob" "u123" demo_stale demo_email "primary" []) as [E _].
  - vm_compute. reflexivity.
  - unfold valid_us. vm_compute. split; [discriminate|reflexivity].
  - vm_compute. discriminate.
  - rewrite E. reflexivity.
Defined.
End Witnesses.
