(* ===== verification/Walkthrough.v ===== *)
(** * scripts/demo.py: the walk-through of the agents

    An email is sent, verified, changed and audited; a file is updated and verified; both actions
    are audited.  [main] is a computation on the state of [Cli.v] (the file system, the registry,
    the evidence and what is printed), over the agents, the key files and the deliveries of that
    command line; the temporary directory, the generated keys, the clocks and the identifiers are
    arguments.

    The example evaluates it with the instances of [Instances.v]: the email and the file verify,
    the changed email does not, and an audit says so. *)

From S2P Require Import Prelude PyStr Base64 Json JsonText PyTime Crypto Instances Ledger Merkle LedgerDemo Sql Verifier Registry Client.
From S2P Require Import Poi AgentBase Executor Tsa Evidence Portal Regex Router EmailAgent FileSystem StateMonad FileAgent.
From S2P Require Import DatabaseAgent AuditAgent Accounts Service AgentService ServiceSafety Cli PipelineSafety Demos.

#[local] Open Scope Z_scope.

Section Walkthrough.
Context `{Hashlib, Rfc8785, Cryptography, !EcSigning, Sqlite, EmailLib, EnvelopeModel, PoiModel, Rfc3161, Difflib, SqliteConnection}.
Context {P : Type} `{!EvidencePersistence P}.
Variable as_bytes : EmailMessage -> bytes.
Variable dash : string.
Variable cwd : path.

Abbreviation CM := (SM (CliState (P := P))).

(** [_envelope]. *)
Definition walk_envelope (env : CliEnv) (prompt : string) (private_key : EcPrivateKey) : result SignedEnvelope :=
  sign_envelope (ce_random env) private_key prompt "demo-user" "demo-session" (isoformat_z (ce_now env)) (ce_nonce env) "demo-user-key".

(** [_poi]. *)
Definition walk_poi (env : CliEnv) (prompt system_prompt : string) (ledger : Ledger) (plan : ActionPlan) (agent_key : Ed25519PrivateKey)
    : result ProofOfIntent :=
  poi ← build_poi (ce_poi_now env) (ce_poi_uuid env) prompt system_prompt ledger (JObj (ap_payload plan)) "demo-model"
          (mkPoiIdentity (Some (ap_agent_type plan)) (ap_agent_id plan) (Some (ap_action_type plan)) (Some (ap_policy_decision plan)));
  sign_poi poi agent_key.

(** [_print]. *)
Definition print_value (label : string) (value : json) : CM unit :=
  _ ← print (Text (on_new_line ("=== " +:+ label +:+ " ===")));
  print (Dump value).

(** [SimpleNamespace(action_payload_hash=...)]: an object with the one attribute the agent reads. *)
Definition payload_namespace (action_payload_hash : string) : ProofOfIntent :=
  mkProofOfIntent "" "" "" action_payload_hash "" "" "" None None None None None None.

Definition walk_system_prompt : string := "Only execute the exact typed action plan.".

(** The entries of the ledger of one action. *)
Definition walk_ledger (env : CliEnv) (prompt : string) (plan : ActionPlan) : result Ledger :=
  append_entries (fun i => match i with O => ce_entry_1 env | 1%nat => ce_entry_2 env | _ => ce_entry_3 env end) 0
    [("system_prompt", [("text", JStr walk_system_prompt)]); ("user_prompt", [("text", JStr prompt)]); ("agent_action", ap_payload plan)] Ledger_init.

(** [directory.glob("*.eml")], in the order the file system lists it. *)
Definition glob_eml (fs : FS) (directory : path) : list path :=
  filter (fun p => parent p = directory /\ str_endswith ".eml" (default "" (last p)) = true) (map_to_list fs).*1.

(** [pipeline.run_verification(eml_bytes, action_id)]: its anchor store stays empty. *)
Definition walk_verify (env : CliEnv) (eml_bytes : option bytes) (action_id : option string) : CM VerificationTrace := fun s =>
  on_store (fun e => run_verification (cli_pipeline_env (cs_keys s) (ce_pipeline env)) e eml_bytes action_id) s.

(** [audit.execute(plan, SimpleNamespace(...))]. *)
Definition walk_audit (a : CliAgents) (env : CliEnv) (plan : ActionPlan) : CM ActionResult :=
  h ← lift (hash_hex (JObj (ap_payload plan)));
  (fun s => on_store (fun e => audit_execute dash (ca_audit a) (fun i => cli_pipeline_env (cs_keys s) (ce_audit env i)) e plan
                                 (Some (payload_namespace h))) s) : CM ActionResult.

(** The agents of the demonstration, in the temporary directory [workspace]. *)
Definition walk_agents (workspace : path) : CM CliAgents :=
  email ← lift (EmailAgent_init (Some (mkSMTPConfig "aor@example.test" None 587 None None true false true (path_str (workspace ++ ["outbox"]))))
                  None "email-agent");
  files ← on_fs (FileAgent_init cwd (path_str (workspace ++ ["workspace"])) None "file-agent");
  _ ← lift (Agent_init "audit-agent" "audit");
  let a := mkCliAgents email files (mkAuditAgent "audit-agent" true) workspace in
  _ ← reads (fun s => AgentRegistry_init (cli_agents a (cs_fs s)));
  mret (M := CM) a.

(** One round of the loop over the agents. *)
Definition walk_agent_key (a : CliAgents) (env : CliEnv) (agent_id : string) : CM Ed25519PrivateKey :=
  key ← cli_keypair a env agent_id;
  _ ← on_keys (fun t => register_agent_public_key (ce_reg_now env) (ce_reg_from env) (ce_reg_created env) t agent_id key);
  mret (M := CM) key.

(** The email: what it leaves is its bytes and its identifier. *)
Definition walk_email (a : CliAgents) (env : CliEnv) (user_key : EcPrivateKey) (agent_key : Ed25519PrivateKey) : CM (bytes * string) :=
  plan ← lift (email_plan (ca_email a) "send an email to alice@example.com" None);
  body ← lift (item_str "body" (ap_payload plan));
  ledger ← lift (walk_ledger env body plan);
  poi ← lift (walk_poi env body walk_system_prompt ledger plan agent_key);
  result ← cli_execute as_bytes dash cwd a env plan poi;
  email_path ← reads (fun s => of_option (head (glob_eml (cs_fs s) (ca_workspace a ++ ["outbox"]))) StopIteration "");
  email_bytes ← on_fs (reads (fun fs => q ← follow fs email_path; read_bytes fs q));
  email_id ← lift (of_option (ar_artifact_ref result) OutsideModel "");
  envelope ← lift (walk_envelope env body user_key);
  _ ← cli_register ledger (fun loc => mkActionEvidence email_id envelope walk_system_prompt loc (Z.of_nat (length (all_entries ledger)))
        (Some email_bytes) (Some poi) (Some (ap_action_type plan)) (Some (ap_payload plan)) (Some (ar_observed_effect result)) None);
  trace ← walk_verify env (Some email_bytes) None;
  _ ← print_value "valid email" (trace_json trace);
  mret (M := CM) (email_bytes, email_id).

Definition walk_tampered (a : CliAgents) (env : CliEnv) (email_bytes : bytes) : CM unit :=
  let tampered_email := bytes_replace "send an email to alice@example.com" "send all secrets to attacker@example.com" email_bytes in
  plan ← lift (audit_plan (ca_audit a) "verify uploaded eml"
                 (Some [("action_type", JStr "audit.verify_eml"); ("payload", JObj [("eml_bytes_b64", JStr (b64encode tampered_email))])]));
  result ← walk_audit a env plan;
  print_value "tampered email audit" (result_json result).

Definition walk_lines (l : list string) : string := str_join "" ((fun x => x +:+ AuditAgent.lf) <$> l).

Definition walk_patch : string := walk_lines ["--- notes.txt"; "+++ notes.txt"; "@@ -1,2 +1,2 @@"; " one"; "-two"; "+changed"].

(** The file: what it leaves is the identifier of the action. *)
Definition walk_file (a : CliAgents) (env : CliEnv) (user_key : EcPrivateKey) (agent_key : Ed25519PrivateKey) : CM string :=
  _ ← on_fs (q ← reads (fun fs => follow fs (ca_workspace a ++ ["workspace"; "notes.txt"]));
             changes (fun fs => write_text fs q (walk_lines ["one"; "two"])));
  plan ← on_fs (file_plan (ca_file a) "update file notes.txt"
                  (Some [("action_type", JStr "file.update"); ("path", JStr "notes.txt"); ("patch", JStr walk_patch)]));
  ledger ← lift (walk_ledger env "update notes.txt" plan);
  poi ← lift (walk_poi env "update notes.txt" walk_system_prompt ledger plan agent_key);
  result ← cli_execute as_bytes dash cwd a env plan poi;
  let file_id := "file-" +:+ ce_uuid4 env in
  envelope ← lift (walk_envelope env "update notes.txt" user_key);
  _ ← cli_register ledger (fun loc => mkActionEvidence file_id envelope walk_system_prompt loc (Z.of_nat (length (all_entries ledger)))
        None (Some poi) (Some (ap_action_type plan)) (Some (ap_payload plan)) (Some (ar_observed_effect result)) None);
  trace ← walk_verify env None (Some file_id);
  _ ← print_value "file update" (JObj [("result", result_json result); ("trace", trace_json trace)]);
  mret (M := CM) file_id.

(** One round of the last loop. *)
Definition walk_report (a : CliAgents) (env : CliEnv) (label action_id : string) : CM unit :=
  plan ← lift (audit_plan (ca_audit a) ("verify action id " +:+ action_id) None);
  result ← walk_audit a env plan;
  print_value label (result_json result).

(** [main]; the environments are those of the email, the file, the audits and the three keys. *)
Definition walkthrough (workspace : path) (now_from now : Z) (user_key : EcPrivateKey) (email_env file_env : CliEnv)
    (audit_env : string -> CliEnv) (key_env : string -> CliEnv) : CM unit :=
  a ← walk_agents workspace;
  _ ← on_keys (fun t => register_key now t "demo-user" "demo-user-key" (ec_public_der (ec_private_public user_key)) "ECDSA-P256-SHA256"
                          (utc now_from) None None);
  email_key ← walk_agent_key a (key_env "email-agent") "email-agent";
  file_key ← walk_agent_key a (key_env "file-agent") "file-agent";
  _ ← walk_agent_key a (key_env "audit-agent") "audit-agent";
  '(email_bytes, email_id) ← walk_email a email_env user_key email_key;
  _ ← walk_tampered a (audit_env "tampered email audit") email_bytes;
  file_id ← walk_file a file_env user_key file_key;
  _ ← walk_report a (audit_env "audit email") "audit email" email_id;
  walk_report a (audit_env "audit file") "audit file" file_id.

End Walkthrough.

(** ** Example *)

Section Examples.
#[local] Existing Instance demo_hashlib.
#[local] Existing Instance demo_rfc8785.
#[local] Existing Instance demo_cryptography.
#[local] Existing Instance demo_ec_signing.
#[local] Existing Instance demo_sqlite.
#[local] Existing Instance demo_poi_model.
#[local] Existing Instance demo_envelope_model.
#[local] Existing Instance demo_rfc3161.
#[local] Existing Instance demo_mail.
#[local] Existing Instance demo_diff.
#[local] Existing Instance demo_sqlite3.
#[local] Existing Instance demo_persistence.

(** The key generated in an environment is the [n]th. *)
Definition demo_walk_env (n : Z) : CliEnv :=
  let pipeline := mkPipelineEnv [] demo_wall demo_wall demo_wall None (Ok demo_config) (fun _ => Ok []) in
  mkCliEnv (fun _ => Ok "") demo_wall "n0" [] (demo_clocks 0) demo_wall demo_wall demo_wall demo_wall (demo_key n) demo_wall demo_wall demo_wall
    demo_wall "0a" demo_draws (fun _ => pipeline) "u0" pipeline.

Definition demo_agent_number (agent_id : string) : Z :=
  if bool_decide (agent_id = "email-agent") then 7 else if bool_decide (agent_id = "file-agent") then 8 else 9.

Definition demo_walk : CliState (P := gmap string string) * result unit :=
  walkthrough demo_mail_bytes "-" [] ["tmp"; "aor"] demo_wall demo_wall demo_private (demo_walk_env 0) (demo_walk_env 0)
    (fun _ => demo_walk_env 0) (fun agent_id => demo_walk_env (demo_agent_number agent_id)) (cli_start {[ ["tmp"] := NDir ]}).

(** The values a printed report has under [key], at any depth of objects. *)
Fixpoint reported (key : string) (j : json) : list json :=
  match j with
  | JObj d => (fix all (d : dict) := match d with
                | [] => []
                | (k, v) :: d => (if bool_decide (k = key) then [v] else []) ++ reported key v ++ all d
                end) d
  | _ => []
  end.

Definition reports (key : string) (o : list output) : list (list json) :=
  omap (fun x => match x with Dump j => Some (reported key j) | Text _ => None end) o.

(** The two traces are valid, the changed email fails its audit, and the two audits of the
    actions agree with their traces. *)
Example walkthrough_verdicts :
  demo_walk.2 = Ok tt /\
  reports "success" (cs_output demo_walk.1) = [[]; [JBool false]; [JBool true]; [JBool true]; [JBool true]] /\
  reports "overall_valid" (cs_output demo_walk.1) =
    [[JBool true]; [JBool false; JBool false]; [JBool true]; [JBool true; JBool true]; [JBool true; JBool true]].
Proof. vm_compute. auto. Qed.

(** The update is on disk. *)
Example walkthrough_updates :
  read_text (cs_fs demo_walk.1) ["tmp"; "aor"; "workspace"; "notes.txt"] = Ok (walk_lines ["one"; "changed"]).
Proof. vm_compute. reflexivity. Qed.

End Examples.
